(* ===== verification/_CoqProject ===== *)
-Q . S2P
Prelude.v
IoBuf.v
BufPool.v
ReactorBuf.v
Message.v
EventLoop.v
ThreadPool.v
TcpConn.v
Isolation.v
ConnStep.v
TcpServer.v
ServerClients.v
TcpClient.v
Udp.v
ConfigFile.v
Echo.v
Proto.v
PbRuntime.v
PbLrlb.v
PbMsg.v
PbObject.v
LoadBalance.v
RouteLb.v
Agent.v
AgentMain.v
LrlbApi.v
Programs.v
DnsRoute.v
Subscribe.v
DnsServer.v
DnsSocket.v
DnsPush.v
DnsSpec.v
DnsRefine.v
Reporter.v
ReporterRefine.v
System.v
TestClients.v
