(* ===== verification/Prelude.v ===== *)
(** * Lrlb: a verification development for the load-balancing system under src/

    ** The program

    Lrlb has four programs on one network library.  Business code links the
    client API (api/cpp/lrlb_api) and asks the agent on its machine over UDP for a
    host of a service, a pair (modid, cmdid), and reports how the call went.  The
    agent (lrlb_loadbalance_agent) balances the hosts of each service in an idle
    and an overloaded queue, fetches routes from the DNS server over TCP and sends
    call statistics to the reporter.  The DNS server (lrlb_dns) answers from a
    table read from MySQL and pushes changes to the connections that asked for a
    service; the reporter (lrlb_reporter) writes statistics to MySQL.  All use the
    reactor library (lrlb_reactor): buffers, event loops, worker threads, TCP and
    UDP endpoints, configuration files.

    ** How the code is modelled

    A method is a function on the object's record that returns its result and the
    new state.  What a C++ program can do besides returning (abort, exit, bad
    access, undefined operation, a loop that does not return) is a value [Stop] of
    the monad [res] below, so a theorem that a method returns is a theorem that
    none of these happens.  Pointers are addresses into finite maps; objects that
    several components share (pool buffers, connections, loops) live in one world.
    Integers are [Z] with the conversions of the code written out.  What system
    calls return, the time and the contents of uninitialised memory are arguments;
    epoll, eventfd, the protobuf runtime, the encoding of messages and the database
    are interfaces (the classes [Epoll], [EventFd], [Runtime], [Strings], [Codec] and
    [Protobuf], each with a concrete instance) or, for MySQL, answers and logs.  Critical sections
    under a mutex are one step.

    ** The files, in dependency order

    - Prelude: faults and the result monad, machine integers, the 64-bit keys,
      bytes and bounds-checked memory, system call results, printed lines.
    - IoBuf (io_buf), BufPool (buf_pool), ReactorBuf (reactor_buf): a buffer, the
      pool that hands buffers out, and the input and output buffers of a
      connection.  The pool refines an allocator of free lists; the operations
      above it are specified on the pending byte string.
    - Message (message.h): headers, the router, and [deframe], the reference
      cutting of a stream into messages.
    - EventLoop (event_loop): registration and dispatch; every reachable loop
      dispatches what the kernel may report.
    - ThreadPool (thread_queue, task_msg, thread_pool): exactly-once delivery in
      order, wake-ups, round robin.
    - TcpConn, Isolation and TcpServer (tcp_conn, tcp_server, thread_main): the world
      of a server; receiving is [deframe] followed by delivery, writing drains the
      output, the connection table counts its connections, accepted connections
      are dealt to the workers.  [cb_contract], [start_contract] and [hook_contract]
      are what an application promises the server; Reporter.v, DnsSocket.v and Echo.v
      discharge them.  [conn_repr] describes one connection with the rest of the memory
      as its frame (the class [Others]); Isolation puts all connections of a server
      together ([conns_repr]) for an application that keeps to its connection
      ([AppSafe]).  ConnStep says exactly what one read, write, send or close of a
      connection does to the loops and buffers, ServerClients describes a whole server by
      its clients ([served], for an application's view of a client, the class [ClientView]).
    - TcpClient (tcp_client) and Udp (udp_server, udp_client).  [cli_cb_contract] is
      what an application promises a client; System.v discharges it for the agent.
    - ConfigFile (config_file): parsing, printing back, typed getters.
    - Echo (lrlb_reactor/example, testv06 to testv10): the echo servers and clients over
      TCP and UDP; servers that answer message by message ([responder]).
    - Proto (base/proto/lrlb.proto): the messages and the codec interface.
    - PbRuntime and PbLrlb (base/proto/lrlb.pb.cpp, lrlb.pb.h): what the generated
      classes use of the protobuf runtime, with an instance for the wire format, and
      the classes [HostInfo], [GetRouteResquest] and [GetRouteResponse]: their parsing
      loops, writers, sizes and merging; they discharge [Codec].
    - PbMsg (protobuf_test): the generated class [helloworld], which has a string, and the
      programs that write and read it; [Strings] is what it needs of the runtime.
    - PbObject (lrlb.pb.h): message objects with addresses and arenas, their copying, moving and
      swapping, for every class that implements [GeneratedClass].
    - LoadBalance (host_info, load_balance), RouteLb (route_lb), Agent and AgentMain
      (main_server, agent_udp_server, dns_client, reporter_client): the invariant
      of the two queues, updates, overload and recovery, round robin and probing,
      uploads, a cold start from the first request to the first host; and the
      process: [main], its threads and their steps as a transition system.
    - LrlbApi (lrlb_api): the calls of the client library, against the agent and over
      the datagrams between them.
    - Programs (lrlb_reactor/example/qps_test, api/cpp/example): the load test and the
      example of the API.
    - DnsRoute (dns_route), Subscribe (subscribe), DnsServer (dns_server): the
      table and its background check, subscriptions and pushes, answers; DnsSocket:
      the server from the bytes of a connection to the bytes of its answers; DnsPush:
      all connections of the server, and the pushes on them.  DnsSpec is an executable
      specification of the server as a publish/subscribe service ([spec_step] on the record
      [pubsub]: who is connected, what each client has sent, is booked for and is owed), and
      DnsRefine the simulation between the two.
    - Reporter (reporter_service, store_report, store_thread): from the socket to
      the statements.  ReporterRefine: its specification, the reports each worker thread has
      received, and the simulation, with the workers' accesses to the shared index and queues as single
      steps in any order.
    - System: the agent, the DNS server and the reporter joined by their connections.
    - TestClients (lrlb_dns/test, lrlb_dns/test-sub, lrlb_reporter/test): the test clients,
      joined with the servers.

    ** What the theorems show

    A theorem with a number (C1) to (C40) is one of the properties the development
    is kept for.  (C1) and (C2) are about the whole: a route on its way from the
    agent to the DNS server and back, and the agent that keeps serving.  (C3) to (C9)
    are the balancing itself, (C10), (C11) and (C13) receiving and memory, (C12) a route
    change on its way from the DNS server to the balancers, (C14) to (C18) the
    DNS server and the reporter, which (C16) and (C18) show to implement their
    specifications from their start through every sequence of events, (C19) and (C20) the threads of the agent,
    (C21) and (C23) to (C25) the generated message classes, (C22) and (C26) to (C31) the rest of the server
    library: the table of connections, writing, accepting, the workers, dispatch, and with (C31) that
    connections do not disturb each other; (C32) to (C40) the
    statements of the reporter, pushes and the table's background check, the UDP example, the clients,
    configuration, the API and strings in messages.

    The properties state the conditions under which the code does what it means to: (C2) leaves out the
    answers that overrun the send buffer, (C4) and (C12) say what update does with its keys, which are not
    injective, and that the hosts are the response's where the keys tell them apart, (C5) needs the errors of
    one window, (C8) holds for any value of the counter nobody initialises, (C18) promises turns, and
    that nothing goes wrong, until two workers have reports in hand at the same time.  (C20) and (C22) state what the code does
    where that is not what it means to do; so do further theorems without a number,
    among them [keys_collide], [overlap_stops], [stale_push], [changes_lost], [lars_task_reads_unset], [greeting_missed], [example_runs],
    [test_options], [report_misses_host], [api_later_get_host_hangs],
    [api_report_misrouted], [report_race], [push_decodes],
    [read_data_zero_overflow], [deframe_empty_last], [empty_request_waits],
    [del_mask_resurrects], [client_do_read_hangs], [client_write_error_spins],
    [load_no_section], [reset_aborts], [watched_fires] and [deal_recv_route_negative].  Each numbered
    theorem with hypotheses is followed by a lemma that applies it to a concrete
    state.

    ** Bounds and fuel

    [read_loop] of a connection and of a client takes the number of pending bytes
    as fuel: every iteration that goes on consumes at least a header, which is
    proved enough.  [deframe] and [split_seps] take the length of their input, and
    decimal printing ten digits, enough for 32 bits.  The parsing loops of the message
    classes take one more than the bytes left; each round consumes a tag, and that
    they never run out is proved ([parse_terminates]).  Loops that wait for the
    operating system recurse on the list of results they are given and end in
    [Stop NoReturn] when it runs out.  Byte counts are limited only where the code
    limits them (4 MB for the largest buffer, 65527 bytes for a message body, 5 GB
    for the pool).

    The table of connections is reached by opening and closing connections one at a time with the kernel giving
    the lowest free descriptor ((C22), (C27)); that several accepted connections may wait in the workers'
    queues, uncounted, is not part of it.

    The event sequences of (C16) and (C18) are those that [kernel_trace] and [rkernel_trace]
    admit, both executable: a new connection has a descriptor nobody uses, below the
    number of slots; an event names an open connection; the answers to read and write
    are what these calls can give, and every loop of retries gets one that ends it; what is
    readable fits the largest buffer together with the longest rest that can be pending;
    [read] delivers as many bytes as the ioctl announced (the code reads that many, or
    4096 where none were announced; data that arrive between the two calls in that case are
    not covered by these two theorems).  Of epoll they use the class [EpollLive].

    ** What is not modelled

    The MySQL connector, a third-party library; descriptors, reflection and the
    allocation of arenas in the generated classes; the examples testv01 to testv04, written for earlier versions
    of the library; the generated class of the load test's message, which is not in the sources
    (it is a [Codec]); socket options, and console
    output except that of the example and test programs, which is a list of [line]s; the
    dotted notation of addresses in the API, where addresses stay numbers; SQL scripts; data races
    other than those on the reporter's index and queues ([report_race], (C18)), on the number of connections
    while the main thread accepts (C28) and on the thread numbers of the load test ([thread_numbers]); there
    the accesses take effect in one order, as they do not have to in C++: elsewhere a callback of a thread is one step, [conn_init],
    which resets the three balancers one after the other, included ([conn_init_serial] says
    why that is enough for one request in between). *)

From stdpp Require Export prelude gmap list strings.
From Stdlib Require Export Strings.Byte.
From Stdlib Require Export ZArith Lia.

#[global] Open Scope Z_scope.

(** ** Faults and the result monad

    A C++ function either returns or stops the process.  [Stop] keeps why:
    a failed [assert], a call of [exit], a null pointer dereference, an access
    outside an allocated block, a call through a null function pointer, an
    exception nobody catches, an operation the language leaves undefined; or, for a loop that waits for the
    operating system, that the results it was given do not let it finish. *)
Inductive fault :=
| AssertFail
| Exit (code : Z)
| NullDeref
| OutOfBounds
| NullCall
| Uncaught
| NoReturn
| Undefined.

Inductive res (A : Type) :=
| Ret (a : A)
| Stop (f : fault).
Arguments Ret {A} a.
Arguments Stop {A} f.

#[global] Instance fault_eq_dec : EqDecision fault.
Proof. solve_decision. Defined.

#[global] Instance res_mret : MRet res := fun A a => Ret a.
#[global] Instance res_mbind : MBind res := fun A B f m =>
  match m with Ret a => f a | Stop e => Stop e end.
#[global] Instance res_fmap : FMap res := fun A B f m =>
  match m with Ret a => Ret (f a) | Stop e => Stop e end.

(** [assert(b)]. *)
Definition assert (b : bool) : res unit := if b then Ret tt else Stop AssertFail.

(** Dereferencing a pointer: [None] is [NULL] (or a dangling address). *)
Definition deref {A} (o : option A) : res A :=
  match o with Some a => Ret a | None => Stop NullDeref end.

Definition is_ret {A} (m : res A) : bool := match m with Ret _ => true | Stop _ => false end.

Lemma bind_Ret {A B} (m : res A) (f : A -> res B) b :
  (m ≫= f) = Ret b <-> exists a, m = Ret a /\ f a = Ret b.
Proof. destruct m; cbn; split; intros H; naive_solver. Qed.

Lemma bind_Stop {A B} (m : res A) (f : A -> res B) e :
  (m ≫= f) = Stop e <-> m = Stop e \/ exists a, m = Ret a /\ f a = Stop e.
Proof. destruct m; cbn; split; intros H; naive_solver. Qed.

Lemma assert_Ret b u : assert b = Ret u <-> b = true.
Proof. destruct b, u; simpl; naive_solver. Qed.

Lemma deref_Ret {A} (o : option A) a : deref o = Ret a <-> o = Some a.
Proof. destruct o; simpl; naive_solver. Qed.

(** Take a run of the monad apart. *)
Ltac res_inv :=
  repeat match goal with
  | H : mbind _ _ = Ret _ |- _ => apply bind_Ret in H as (? & ? & ?)
  | H : assert _ = Ret _ |- _ => apply assert_Ret in H
  | H : deref _ = Ret _ |- _ => apply deref_Ret in H
  | H : Ret _ = Ret _ |- _ => injection H as H
  | H : Stop _ = Ret _ |- _ => discriminate H
  | H : Ret _ = Stop _ |- _ => discriminate H
  | H : mret _ = Ret _ |- _ => unfold mret, res_mret in H
  | x : (_ * _)%type |- _ => destruct x
  end.

(** ** Machine integers *)

(** The value of [z] converted to an unsigned or signed type of the width. *)
Definition u16 (z : Z) : Z := z mod 65536.
Definition u32 (z : Z) : Z := z mod 4294967296.
Definition u64 (z : Z) : Z := z mod 18446744073709551616.
Definition s16 (z : Z) : Z := (z + 32768) mod 65536 - 32768.
Definition s32 (z : Z) : Z := (z + 2147483648) mod 4294967296 - 2147483648.
Definition s64 (z : Z) : Z :=
  (z + 9223372036854775808) mod 18446744073709551616 - 9223372036854775808.

Definition is_s32 (z : Z) : Prop := -2147483648 <= z < 2147483648.
Definition is_u32 (z : Z) : Prop := 0 <= z < 4294967296.
Definition is_u64 (z : Z) : Prop := 0 <= z < 18446744073709551616.

Create HintDb ints.
Create Rewrite HintDb int_norm.

(** Linear arithmetic with [/] and [mod] by constants. *)
Ltac zify_mod := Z.div_mod_to_equations; lia.
Ltac int_solve :=
  unfold u16, u32, u64, s16, s32, s64, is_s32, is_u32, is_u64 in *; zify_mod.

Lemma u32_range z : is_u32 (u32 z).
Proof. int_solve. Qed.
Lemma u64_range z : is_u64 (u64 z).
Proof. int_solve. Qed.
Lemma s32_range z : is_s32 (s32 z).
Proof. int_solve. Qed.
Lemma u32_small z : is_u32 z -> u32 z = z.
Proof. int_solve. Qed.
Lemma s32_small z : is_s32 z -> s32 z = z.
Proof. int_solve. Qed.
Lemma s32_u32 z : s32 (u32 z) = s32 z.
Proof. int_solve. Qed.
Lemma u32_s32 z : u32 (s32 z) = u32 z.
Proof. int_solve. Qed.

#[export] Hint Resolve u32_range u64_range s32_range : ints.
#[export] Hint Rewrite s32_u32 u32_s32 : int_norm.

(** ** The 64-bit composite keys

    [((uint64_t)hi << 32) + lo] for two [int]s: the conversion to [uint64_t]
    sign-extends, the shift and the sum wrap. *)
Definition make_key (hi lo : Z) : Z := u64 (u64 (Z.shiftl (u64 hi) 32) + u64 lo).

(** [int(key >> 32)] and [int(key)]. *)
Definition key_hi (key : Z) : Z := s32 (Z.shiftr key 32).
Definition key_lo (key : Z) : Z := s32 key.

Lemma make_key_eq hi lo : make_key hi lo = (hi * 4294967296 + lo) mod 18446744073709551616.
Proof.
  unfold make_key. rewrite Z.shiftl_mul_pow2 by lia.
  change (2 ^ 32) with 4294967296. int_solve.
Qed.

Lemma make_key_range hi lo : is_u64 (make_key hi lo).
Proof. rewrite make_key_eq. int_solve. Qed.

Lemma make_key_inj hi lo hi' lo' :
  is_s32 hi -> is_s32 lo -> is_s32 hi' -> is_s32 lo' ->
  make_key hi lo = make_key hi' lo' -> hi = hi' /\ lo = lo'.
Proof. rewrite !make_key_eq. int_solve. Qed.

Lemma key_lo_make_key hi lo : is_s32 lo -> key_lo (make_key hi lo) = lo.
Proof. rewrite make_key_eq. unfold key_lo. int_solve. Qed.

(** The upper half comes back shifted by one when the lower half is negative. *)
Lemma key_hi_make_key hi lo :
  is_s32 hi -> is_s32 lo ->
  key_hi (make_key hi lo) = if decide (0 <= lo) then hi else s32 (hi - 1).
Proof.
  intros Hh Hl. rewrite make_key_eq. unfold key_hi.
  rewrite Z.shiftr_div_pow2 by lia. change (2 ^ 32) with 4294967296.
  case_decide; int_solve.
Qed.

#[export] Hint Resolve make_key_range : ints.

(** ** Bytes, and [int]s as they lie in memory (little-endian) *)
Definition byte_to_Z (b : byte) : Z := Z.of_N (Byte.to_N b).
Definition byte_of_Z (z : Z) : byte :=
  match Byte.of_N (Z.to_N (z mod 256)) with Some b => b | None => x00 end.

Lemma byte_to_Z_range b : 0 <= byte_to_Z b < 256.
Proof. unfold byte_to_Z. pose proof (Byte.to_N_bounded b). lia. Qed.

Lemma byte_of_to_Z b : byte_of_Z (byte_to_Z b) = b.
Proof.
  unfold byte_of_Z. rewrite Z.mod_small by apply byte_to_Z_range.
  unfold byte_to_Z. rewrite N2Z.id, Byte.of_to_N. done.
Qed.

Lemma byte_to_of_Z z : byte_to_Z (byte_of_Z z) = z mod 256.
Proof.
  unfold byte_of_Z. pose proof (Z.mod_pos_bound z 256 ltac:(lia)) as Hb.
  destruct (Byte.of_N (Z.to_N (z mod 256))) as [b|] eqn:E.
  - unfold byte_to_Z. apply Byte.to_of_N in E. rewrite E. lia.
  - apply Byte.of_N_None_iff in E. lia.
Qed.

#[global] Instance byte_eq_dec : EqDecision byte := Byte.byte_eq_dec.

Fixpoint le_bytes (n : nat) (z : Z) : list byte :=
  match n with
  | O => []
  | S n => byte_of_Z z :: le_bytes n (z / 256)
  end.

Fixpoint le_Z (bs : list byte) : Z :=
  match bs with
  | [] => 0
  | b :: bs => byte_to_Z b + 256 * le_Z bs
  end.

Lemma length_le_bytes n z : length (le_bytes n z) = n.
Proof. revert z; induction n as [|n IH]; intros z; simpl; [done|]. by rewrite IH. Qed.

Lemma le_Z_le_bytes n z : le_Z (le_bytes n z) = z mod 256 ^ Z.of_nat n.
Proof.
  revert z; induction n as [|n IH]; intros z.
  - simpl. by rewrite Z.mod_1_r.
  - cbn [le_bytes le_Z]. rewrite IH, byte_to_of_Z, Nat2Z.inj_succ, Z.pow_succ_r by lia.
    rewrite Z.rem_mul_r by lia. lia.
Qed.

(** The object representation of an [int], and the [int] four bytes denote. *)
Definition int_bytes (z : Z) : list byte := le_bytes 4 z.
Definition bytes_int (bs : list byte) : Z := s32 (le_Z bs).

Lemma bytes_int_bytes z : is_s32 z -> bytes_int (int_bytes z) = z.
Proof.
  intros Hz. unfold bytes_int, int_bytes. rewrite le_Z_le_bytes.
  change (256 ^ Z.of_nat 4) with 4294967296. int_solve.
Qed.

Lemma length_int_bytes z : length (int_bytes z) = 4%nat.
Proof. apply length_le_bytes. Qed.

(** ** Blocks of memory

    [zlen] is a length as an [int]; [mem_read d off n] is what [memcpy] reads
    from [d + off], [mem_write d off bs] the block after [memcpy] wrote [bs] at
    [d + off]; both stop when the range leaves the block (a negative count is a
    huge [size_t]). *)
Definition zlen {A} (l : list A) : Z := Z.of_nat (length l).

Definition mem_read (d : list byte) (off n : Z) : res (list byte) :=
  if bool_decide (0 <= off /\ 0 <= n /\ off + n <= zlen d)
  then Ret (take (Z.to_nat n) (drop (Z.to_nat off) d)) else Stop OutOfBounds.

Definition mem_write (d : list byte) (off : Z) (bs : list byte) : res (list byte) :=
  if bool_decide (0 <= off /\ off + zlen bs <= zlen d)
  then Ret (take (Z.to_nat off) d ++ bs ++ drop (Z.to_nat off + length bs) d)
  else Stop OutOfBounds.

Lemma mem_read_Ret d off n bs :
  mem_read d off n = Ret bs ->
  0 <= off /\ 0 <= n /\ off + n <= zlen d /\ zlen bs = n /\
  bs = take (Z.to_nat n) (drop (Z.to_nat off) d).
Proof.
  unfold mem_read, zlen. case_bool_decide as H; [|done]. intros [= <-].
  rewrite length_take, length_drop. split_and!; (lia || done).
Qed.

Lemma mem_read_ok d off n :
  0 <= off -> 0 <= n -> off + n <= zlen d ->
  mem_read d off n = Ret (take (Z.to_nat n) (drop (Z.to_nat off) d)).
Proof. intros. unfold mem_read. by rewrite bool_decide_eq_true_2. Qed.

Lemma mem_write_ok d off bs :
  0 <= off -> off + zlen bs <= zlen d ->
  mem_write d off bs = Ret (take (Z.to_nat off) d ++ bs ++ drop (Z.to_nat off + length bs) d).
Proof. intros. unfold mem_write. by rewrite bool_decide_eq_true_2. Qed.

Lemma mem_write_Ret d off bs d' :
  mem_write d off bs = Ret d' ->
  0 <= off /\ off + zlen bs <= zlen d /\
  d' = take (Z.to_nat off) d ++ bs ++ drop (Z.to_nat off + length bs) d /\
  zlen d' = zlen d.
Proof.
  unfold mem_write, zlen. case_bool_decide as H; [|done]. intros [= <-].
  rewrite !length_app, length_take, length_drop. split_and!; (lia || done).
Qed.

(** A prefix of a written block that covers the write. *)
Lemma take_mem_write (d bs : list byte) (off : nat) :
  (off + length bs <= length d)%nat ->
  take (off + length bs) (take off d ++ bs ++ drop (off + length bs) d) = take off d ++ bs.
Proof.
  intros H. rewrite app_assoc, take_app_le.
  - apply take_ge. rewrite length_app, length_take. lia.
  - rewrite length_app, length_take. lia.
Qed.

Lemma zlen_nonneg {A} (l : list A) : 0 <= zlen l.
Proof. unfold zlen. lia. Qed.
Lemma zlen_app {A} (l k : list A) : zlen (l ++ k) = zlen l + zlen k.
Proof. unfold zlen. rewrite length_app. lia. Qed.
Lemma zlen_cons {A} (x : A) l : zlen (x :: l) = zlen l + 1.
Proof. unfold zlen. simpl length. lia. Qed.
Lemma zlen_nil {A} (l : list A) : zlen l = 0 -> l = [].
Proof. unfold zlen. destruct l; simpl; [done|lia]. Qed.

#[export] Hint Resolve zlen_nonneg : ints.
Ltac zlen_lia := unfold zlen in *; simpl length in *; rewrite ?length_app, ?length_take, ?length_drop in *; lia.

(** ** Lists shared by the components *)
Lemma NoDup_singleton_elems {A} (x : A) l : NoDup l -> (forall y, y ∈ l <-> y = x) -> l = [x].
Proof.
  intros Hnd Hl. destruct l as [|a [|b l]].
  - exfalso. apply (not_elem_of_nil x). by apply Hl.
  - f_equal. apply Hl. by left.
  - exfalso. apply NoDup_cons in Hnd as [Hn _]. apply Hn.
    assert (a = x) as -> by (apply Hl; by left). assert (b = x) as -> by (apply Hl; right; by left). by left.
Qed.

Lemma filter_ne_notin {A} `{EqDecision A} (x : A) (l : list A) :
  x ∉ l -> filter (fun y => y <> x) l = l.
Proof.
  induction l as [|y l IH]; [done|]. intros [Hy Hl]%not_elem_of_cons.
  rewrite filter_cons, decide_True by done. f_equal. by apply IH.
Qed.

(** ** Heap addresses *)
Abbreviation loc := positive (only parsing).

(** The next unused address of a heap. *)
Definition fresh_loc {A} (h : gmap loc A) : loc := fresh (dom h).

Lemma fresh_loc_None {A} (h : gmap loc A) : h !! fresh_loc h = None.
Proof. apply not_elem_of_dom. unfold fresh_loc. apply is_fresh. Qed.

(** ** Results of system calls

    The operating system is not part of the program: what a call returned is an
    argument of the model, [inl] the value or [inr] the [errno] of a call that
    returned -1. *)
Inductive errno := EINTR | EAGAIN | EMFILE | EINPROGRESS | EOTHER.
#[global] Instance errno_eq_dec : EqDecision errno.
Proof. solve_decision. Defined.

(** [do { r = call(); } while (r == -1 && errno == EINTR);] on the results the
    successive calls have. *)
Fixpoint retry {A} (ks : list (A + errno)) : res (A + errno) :=
  match ks with
  | [] => Stop NoReturn
  | inr EINTR :: ks => retry ks
  | r :: _ => Ret r
  end.

Lemma retry_app {A} n (r : A + errno) ks :
  r <> inr EINTR -> retry (replicate n (inr EINTR) ++ r :: ks) = Ret r.
Proof. intros Hr. induction n as [|n IH]; simpl; [|done]. by destruct r as [|[]]. Qed.

(** ** What a program prints *)
Inductive line :=
| LText (s : string)
| LStr (fmt : string) (bs : list byte)
| LInt (fmt : string) (n : Z).

Definition bytes_of (s : string) : list byte := String.list_byte_of_string s.
