(* ===== verification/IoBuf.v ===== *)
(** * io_buf: the byte buffer (lrlb_reactor/include/io_buf.h, src/io_buf.cpp)

    A buffer is a block of [capacity] bytes of which [length] bytes from offset
    [head] on are pending.  [contents] is what the users of a buffer see of it;
    the theorems say what each operation does to the contents. *)

From S2P Require Import Prelude.

(** The members of [io_buf]; [next] links the free buffers of the pool. *)
Record io_buf := IoBuf {
  b_next : option loc;
  b_capacity : Z;
  b_length : Z;
  b_head : Z;
  b_data : list byte
}.

Definition set_next (p : option loc) (b : io_buf) : io_buf :=
  IoBuf p (b_capacity b) (b_length b) (b_head b) (b_data b).
Definition set_window (len hd : Z) (b : io_buf) : io_buf :=
  IoBuf (b_next b) (b_capacity b) len hd (b_data b).
Definition set_data (d : list byte) (b : io_buf) : io_buf :=
  IoBuf (b_next b) (b_capacity b) (b_length b) (b_head b) d.

(** [io_buf::io_buf(int size)]; [raw] is the uninitialised block [new char[size]]
    returns. *)
Definition io_buf_new (size : Z) (raw : list byte) : io_buf :=
  IoBuf None size 0 0 raw.

(** [io_buf::clear]. *)
Definition clear (b : io_buf) : io_buf := set_window 0 0 b.

(** [io_buf::adjust]: move the pending bytes to the front of the block. *)
Definition adjust (b : io_buf) : res io_buf :=
  if bool_decide (b_head b <> 0) then
    b' ← (if bool_decide (b_length b <> 0) then
            bs ← mem_read (b_data b) (b_head b) (b_length b);
            d ← mem_write (b_data b) 0 bs;
            Ret (set_data d b)
          else Ret b);
    Ret (set_window (b_length b') 0 b')
  else Ret b.

(** [io_buf::copy]. *)
Definition copy (b other : io_buf) : res io_buf :=
  bs ← mem_read (b_data other) 0 (b_length other);
  d ← mem_write (b_data b) 0 bs;
  Ret (set_window (b_length other) 0 (set_data d b)).

(** [io_buf::pop]. *)
Definition pop (len : Z) (b : io_buf) : io_buf :=
  let len := if bool_decide (len > b_length b) then b_length b else len in
  set_window (b_length b - len) (b_head b + len) b.

(** The pending bytes. *)
Definition contents (b : io_buf) : list byte :=
  take (Z.to_nat (b_length b)) (drop (Z.to_nat (b_head b)) (b_data b)).

(** The window lies inside the block. *)
Definition buf_wf (b : io_buf) : Prop :=
  0 <= b_head b /\ 0 <= b_length b /\
  b_head b + b_length b <= b_capacity b /\ zlen (b_data b) = b_capacity b.

Create HintDb buf.

Lemma zlen_contents b : buf_wf b -> zlen (contents b) = b_length b.
Proof. unfold buf_wf, contents. intros (? & ? & ? & ?). zlen_lia. Qed.

Lemma contents_nil b : b_length b = 0 -> contents b = [].
Proof. unfold contents. by intros ->. Qed.

Lemma contents_head0 b : b_head b = 0 -> contents b = take (Z.to_nat (b_length b)) (b_data b).
Proof. unfold contents. intros ->. by rewrite drop_0. Qed.

Lemma contents_set_next p b : contents (set_next p b) = contents b.
Proof. done. Qed.

Lemma buf_wf_set_next p b : buf_wf (set_next p b) <-> buf_wf b.
Proof. done. Qed.

Lemma io_buf_new_wf size raw : 0 <= size -> zlen raw = size -> buf_wf (io_buf_new size raw).
Proof. unfold buf_wf; simpl. lia. Qed.

Lemma clear_wf b : buf_wf b -> buf_wf (clear b) /\ contents (clear b) = [].
Proof. unfold buf_wf, clear, contents; simpl. split; [lia|done]. Qed.

Lemma adjust_ok b :
  buf_wf b -> exists b', adjust b = Ret b' /\ buf_wf b' /\ b_head b' = 0 /\
    b_length b' = b_length b /\ b_capacity b' = b_capacity b /\ b_next b' = b_next b /\
    contents b' = contents b.
Proof.
  intros Hwf. pose proof Hwf as (Hh & Hl & Hc & Hd). unfold adjust.
  case_bool_decide as Hz; [|exists b; split_and!; (done || lia)].
  case_bool_decide as Hn.
  - rewrite mem_read_ok by lia. simpl.
    set (bs := take _ _). assert (zlen bs = b_length b) as Hbs.
    { apply (zlen_contents b Hwf). }
    rewrite mem_write_ok by lia. simpl. eexists; split; [done|].
    unfold buf_wf; simpl. split_and!; try (done || lia).
    + rewrite <-Hd. unfold zlen. rewrite length_app, length_drop. unfold zlen in *. lia.
    + unfold contents at 1; simpl. rewrite drop_0.
      replace (Z.to_nat (b_length b)) with (length bs) by (unfold zlen in *; lia).
      by rewrite take_app_length.
  - assert (b_length b = 0) as H0 by lia. simpl. eexists; split; [done|].
    unfold buf_wf; simpl. split_and!; try (done || lia).
    unfold contents; simpl. by rewrite H0.
Qed.

Lemma copy_ok b o :
  buf_wf b -> buf_wf o -> b_head o = 0 -> b_length o <= b_capacity b ->
  exists b', copy b o = Ret b' /\ buf_wf b' /\ b_head b' = 0 /\
    b_length b' = b_length o /\ b_capacity b' = b_capacity b /\ b_next b' = b_next b /\
    contents b' = contents o.
Proof.
  intros (? & ? & ? & Hd) Hwo Ho Hfit. pose proof Hwo as (? & ? & ? & ?). unfold copy.
  rewrite mem_read_ok by lia. simpl. rewrite drop_0.
  rewrite <-(contents_head0 o Ho). pose proof (zlen_contents o Hwo) as Hlen.
  rewrite mem_write_ok by lia. simpl. eexists; split; [done|].
  unfold buf_wf; simpl. split_and!; try (done || lia).
  - rewrite <-Hd. unfold zlen in *. rewrite length_app, length_drop. lia.
  - unfold contents at 1; simpl. rewrite drop_0.
    replace (Z.to_nat (b_length o)) with (length (contents o)) by (unfold zlen in *; lia).
    by rewrite take_app_length.
Qed.

Lemma pop_ok b len :
  buf_wf b -> 0 <= len ->
  buf_wf (pop len b) /\ b_length (pop len b) = Z.max 0 (b_length b - len) /\
  contents (pop len b) = drop (Z.to_nat len) (contents b).
Proof.
  intros Hwf Hlen. pose proof Hwf as (? & ? & ? & ?). unfold pop.
  set (k := if bool_decide _ then _ else _).
  assert (0 <= k <= b_length b /\ k = Z.min len (b_length b)) as [Hk Hk'].
  { subst k. case_bool_decide; lia. }
  unfold buf_wf; simpl. split_and!; try lia.
  unfold contents; simpl. rewrite Z2Nat.inj_add, Z2Nat.inj_sub, skipn_firstn_comm, drop_drop by lia.
  destruct (decide (len <= b_length b)).
  - replace k with len by lia. done.
  - replace k with (b_length b) by lia.
    replace (Z.to_nat (b_length b) - Z.to_nat len)%nat with 0%nat by lia.
    by rewrite Nat.sub_diag.
Qed.

(** Bytes stored behind the pending ones, as [memcpy(data + length, bs, n);
    length += n] does; the offset is [length], so the callers adjust first. *)
Definition append (bs : list byte) (b : io_buf) : res io_buf :=
  d ← mem_write (b_data b) (b_length b) bs;
  Ret (set_window (b_length b + zlen bs) (b_head b) (set_data d b)).

Lemma append_ok b bs :
  buf_wf b -> b_head b = 0 -> b_length b + zlen bs <= b_capacity b ->
  exists b', append bs b = Ret b' /\ buf_wf b' /\ b_head b' = 0 /\
    b_length b' = b_length b + zlen bs /\ b_capacity b' = b_capacity b /\
    b_next b' = b_next b /\ contents b' = contents b ++ bs.
Proof.
  intros (? & ? & ? & Hd) Hh Hfit. unfold append. pose proof (zlen_nonneg bs).
  rewrite mem_write_ok by lia. simpl. eexists; split; [done|].
  unfold buf_wf; simpl. split_and!; try (done || lia).
  - rewrite <-Hd. unfold zlen in *. rewrite !length_app, length_take, length_drop. lia.
  - rewrite !contents_head0 by done. simpl.
    rewrite Z2Nat.inj_add by lia. replace (Z.to_nat (zlen bs)) with (length bs) by (unfold zlen; lia).
    apply take_mem_write. unfold zlen in *. lia.
Qed.

(** Writing past the end of the block is caught. *)
Lemma append_overflow b bs :
  zlen (b_data b) < b_length b + zlen bs -> append bs b = Stop OutOfBounds.
Proof. intros H. unfold append, mem_write. by rewrite bool_decide_eq_false_2 by lia. Qed.
