(* ===== verification/BufPool.v ===== *)
(** * buf_pool: the pool of free buffers (lrlb_reactor/include/buf_pool.h, src/buf_pool.cpp)

    The pool maps a size class to the head of a linked list of free [io_buf]s;
    the links are the [next] members of the buffers, so the model keeps a heap
    of buffers and the pool holds addresses of it.  [Spec] is the allocator the
    pool promises: a stack of free addresses per class; [pool_repr] relates the
    two and the theorems show that [alloc_buf] and [revert] refine it.

    The mutex makes each operation atomic, so an operation is one function on
    the memory.  [new] never returns null (it throws), so the null tests after
    it are not branches of the model. *)

From S2P Require Import Prelude.
From S2P Require Import IoBuf.

(** [enum MEM_CAP]; note the value of [m64K]. *)
Definition m4K : Z := 4096.
Definition m16K : Z := 16384.
Definition m64K : Z := 65526.
Definition m256K : Z := 262144.
Definition m1M : Z := 1048576.
Definition m4M : Z := 4194304.
Definition m8M : Z := 8388608.

(** [EXTRA_MEM_LIMIT], in kilobytes. *)
Definition EXTRA_MEM_LIMIT : Z := u32 (5 * 1024 * 1024).

(** The heap of buffers, the map [_pool] and the counter [_total_mem]. *)
Record mem := Mem {
  heap : gmap loc io_buf;
  pool : gmap Z (option loc);
  total_mem : Z
}.

Definition set_heap (h : gmap loc io_buf) (m : mem) : mem := Mem h (pool m) (total_mem m).

(** Replace the object at an address. *)
Definition store (x : loc) (b : io_buf) (m : mem) : mem := set_heap (<[x := b]> (heap m)) m.

(** The size classes of [alloc_buf], smallest first. *)
Definition size_class (N : Z) : option Z :=
  if bool_decide (N <= m4K) then Some m4K
  else if bool_decide (N <= m16K) then Some m16K
  else if bool_decide (N <= m64K) then Some m64K
  else if bool_decide (N <= m256K) then Some m256K
  else if bool_decide (N <= m1M) then Some m1M
  else if bool_decide (N <= m4M) then Some m4M
  else None.
Definition classes : list Z := [m4K; m16K; m64K; m256K; m1M; m4M].


(** [_pool[index]]: reading through [operator[]] yields null for a missing key. *)
Definition pool_get (m : mem) (k : Z) : option loc := default None (pool m !! k).

Section Pool.
(** The contents of a block fresh from [new char[n]]. *)
Context (raw : Z -> list byte).

(** [new io_buf(size)]. *)
Definition new_buf (size : Z) (h : gmap loc io_buf) : loc * gmap loc io_buf :=
  let x := fresh_loc h in (x, <[x := io_buf_new size (raw size)]> h).

(** [for (i = 1; i < n + 1; i++) { prev->next = new io_buf(cap); prev = prev->next; }]. *)
Fixpoint grow (n : nat) (cap : Z) (prev : loc) (h : gmap loc io_buf) : gmap loc io_buf :=
  match n with
  | O => h
  | S n =>
      let '(x, h) := new_buf cap h in
      grow n cap x (alter (set_next (Some x)) prev h)
  end.

(** One block of the constructor: the first buffer of the class, [count - 1]
    further ones linked behind it, and [kb] added to [_total_mem]. *)
Definition fill_class (cap count kb : Z) (m : mem) : mem :=
  let '(x, h) := new_buf cap (heap m) in
  Mem (grow (Z.to_nat (count - 1)) cap x h) (<[cap := Some x]> (pool m))
      (u64 (total_mem m + kb)).

(** [buf_pool::buf_pool()]. *)
Definition buf_pool_new : mem :=
  fill_class m4M 20 (4096 * 50)
    (fill_class m1M 50 (1024 * 50)
       (fill_class m256K 200 (256 * 200)
          (fill_class m64K 500 (64 * 500)
             (fill_class m16K 1000 (16 * 1000)
                (fill_class m4K 5000 (4 * 5000) (Mem ∅ ∅ 0)))))).

(** [buf_pool::alloc_buf(int N)]. *)
Definition alloc_buf (N : Z) (m : mem) : res (option loc * mem) :=
  match size_class N with
  | None => Ret (None, m)
  | Some index =>
      match pool_get m index with
      | None =>
          if bool_decide (u64 (total_mem m + index / 1024) >= EXTRA_MEM_LIMIT)
          then Stop (Exit 0)
          else
            let '(x, h) := new_buf index (heap m) in
            Ret (Some x, Mem h (<[index := None]> (pool m)) (u64 (total_mem m + index / 1024)))
      | Some target =>
          b ← deref (heap m !! target);
          Ret (Some target,
               Mem (<[target := set_next None b]> (heap m)) (<[index := b_next b]> (pool m))
                   (total_mem m))
      end
  end.

(** [alloc_buf()] without argument. *)
Definition alloc_buf_default (m : mem) : res (option loc * mem) := alloc_buf m4K m.

(** [buf_pool::revert(io_buf *buffer)]. *)
Definition revert (buffer : loc) (m : mem) : res mem :=
  b ← deref (heap m !! buffer);
  let index := b_capacity b in
  _ ← assert (bool_decide (is_Some (pool m !! index)));
  Ret (Mem (<[buffer := set_next (pool_get m index) (set_window 0 0 b)]> (heap m))
           (<[index := Some buffer]> (pool m)) (total_mem m)).

End Pool.

(** ** The allocator the pool promises *)
Module Spec.
(** Per size class, the free addresses, most recently returned first. *)
Abbreviation free_lists := (gmap Z (list loc)) (only parsing).

Definition take_free (k : Z) (fl : free_lists) : option loc * free_lists :=
  match fl !! k with
  | Some (x :: l) => (Some x, <[k := l]> fl)
  | _ => (None, <[k := []]> fl)
  end.

Definition give_back (k : Z) (x : loc) (fl : free_lists) : free_lists :=
  <[k := x :: default [] (fl !! k)]> fl.

Definition is_free (x : loc) (fl : free_lists) : Prop :=
  exists k l, fl !! k = Some l /\ x ∈ l.
End Spec.

(** The linked list that starts at [p]. *)
Fixpoint chain (h : gmap loc io_buf) (p : option loc) (l : list loc) : Prop :=
  match l with
  | [] => p = None
  | x :: l => p = Some x /\ exists b, h !! x = Some b /\ chain h (b_next b) l
  end.

(** A free buffer of class [k]: well formed, empty, of the class's capacity. *)
Definition free_cell (h : gmap loc io_buf) (k : Z) (x : loc) : Prop :=
  exists b, h !! x = Some b /\ b_capacity b = k /\ b_length b = 0 /\ b_head b = 0 /\ buf_wf b.

Definition class_repr (h : gmap loc io_buf) (k : Z) (p : option loc) (l : list loc) : Prop :=
  chain h p l /\ Forall (free_cell h k) l.

(** The memory represents the free lists. *)
Definition pool_repr (m : mem) (fl : Spec.free_lists) : Prop :=
  forall k, match pool m !! k, fl !! k with
            | None, None => True
            | Some p, Some l => class_repr (heap m) k p l
            | _, _ => False
            end.

(** ** Linked lists in the heap *)
Lemma chain_det h p l l' : chain h p l -> chain h p l' -> l = l'.
Proof.
  revert p l'; induction l as [|x l IH]; intros p [|y l']; simpl; naive_solver.
Qed.

Lemma chain_app h p l x l' :
  chain h p (l ++ x :: l') -> chain h (Some x) (x :: l').
Proof.
  revert p; induction l as [|y l IH]; intros p; simpl.
  - intros (-> & b & ? & ?). eauto.
  - intros (-> & b & ? & H). by apply IH in H.
Qed.

(** A list that ends in null never visits a buffer twice. *)
Lemma chain_NoDup h p l : chain h p l -> NoDup l.
Proof.
  revert p; induction l as [|x l IH]; intros p Hc; [constructor|].
  pose proof Hc as Hc0. destruct Hc as (-> & b & Hb & Hl). constructor; [|by eapply IH].
  intros (l1 & l2 & ->)%list_elem_of_split.
  apply chain_app in Hl. pose proof (chain_det _ _ _ _ Hc0 Hl) as Heq.
  apply (f_equal length) in Heq. simpl in Heq. rewrite length_app in Heq. simpl in Heq. lia.
Qed.

(** Changing a buffer outside the list leaves the list alone. *)
Lemma chain_insert h p l x b : x ∉ l -> chain h p l -> chain (<[x := b]> h) p l.
Proof.
  revert p; induction l as [|y l IH]; intros p Hx; simpl; [done|].
  intros (-> & b' & Hb' & Hl). apply not_elem_of_cons in Hx as [Hne Hx].
  split; [done|]. exists b'. rewrite lookup_insert_ne by done. auto.
Qed.

Lemma free_cell_insert h k x b y : y <> x -> free_cell h k x -> free_cell (<[y := b]> h) k x.
Proof. intros Hne (b' & Hb' & ?). exists b'. rewrite lookup_insert_ne by done. auto. Qed.

Lemma class_repr_insert h k p l x b :
  x ∉ l -> class_repr h k p l -> class_repr (<[x := b]> h) k p l.
Proof.
  intros Hx [Hc Hf]. split; [by apply chain_insert|].
  rewrite Forall_forall in Hf |- *. intros y Hy. apply free_cell_insert; [|by apply Hf].
  intros ->. done.
Qed.

(** An address is free in at most the class of its capacity. *)
Lemma class_repr_other h k p l x b :
  class_repr h k p l -> h !! x = Some b -> b_capacity b <> k -> x ∉ l.
Proof.
  intros [_ Hf] Hx Hk Hin. rewrite Forall_forall in Hf.
  destruct (Hf _ Hin) as (b' & ? & ? & _). congruence.
Qed.

Lemma class_repr_fresh h k p l x :
  class_repr h k p l -> h !! x = None -> x ∉ l.
Proof.
  intros [_ Hf] Hx Hin. rewrite Forall_forall in Hf.
  destruct (Hf _ Hin) as (b' & ? & _). congruence.
Qed.

Lemma pool_repr_class m fl k p :
  pool_repr m fl -> pool m !! k = Some p ->
  exists l, fl !! k = Some l /\ class_repr (heap m) k p l.
Proof. intros H Hk. specialize (H k). rewrite Hk in H. destruct (fl !! k); [eauto|done]. Qed.

(** Repoint one class to a new list over a heap in which only [x] changed. *)
Lemma pool_repr_update m fl k p l x b t :
  pool_repr m fl ->
  class_repr (<[x := b]> (heap m)) k p l ->
  (forall k' l', k' <> k -> fl !! k' = Some l' -> x ∉ l') ->
  pool_repr (Mem (<[x := b]> (heap m)) (<[k := p]> (pool m)) t) (<[k := l]> fl).
Proof.
  intros Hm Hk Hother k'. simpl. destruct (decide (k' = k)) as [->|Hne].
  - rewrite !lookup_insert_eq. done.
  - rewrite !lookup_insert_ne by done. specialize (Hm k').
    destruct (pool m !! k'), (fl !! k') eqn:El; try done.
    apply class_repr_insert; eauto.
Qed.

(** ** The operations refine the allocator *)
Lemma size_class_classes k : k ∈ classes <-> exists N, size_class N = Some k.
Proof.
  split.
  - intros Hk. exists k. unfold classes in Hk. repeat (apply elem_of_cons in Hk as [->|Hk]; [done|]). by apply not_elem_of_nil in Hk.
  - intros [N Hk]. unfold size_class in Hk. repeat case_bool_decide; simplify_eq; vm_compute; set_solver.
Qed.

Lemma size_class_fits N k : size_class N = Some k -> N <= k.
Proof. unfold size_class. repeat case_bool_decide; intros [= <-]; done. Qed.

Lemma size_class_pos N k : size_class N = Some k -> 0 < k.
Proof. unfold size_class. repeat case_bool_decide; intros [= <-]; by compute. Qed.

Lemma size_class_le_m4M N : N <= m4M <-> is_Some (size_class N).
Proof.
  unfold size_class. split.
  - intros H. repeat (case_bool_decide; [by eexists|]). lia.
  - intros [k Hk]. repeat case_bool_decide; try lia; try done;
    unfold m4K, m16K, m64K, m256K, m1M, m4M in *; lia.
Qed.

Section Refine.
Context (raw : Z -> list byte) (raw_len : forall n, 0 <= n -> zlen (raw n) = n).

(** What a caller of [alloc_buf] gets: an address that is no longer free, of a
    buffer that is empty, unlinked and at least as large as asked for, every
    other buffer being as before. *)
Definition alloc_post (N : Z) (m m' : mem) (fl fl' : Spec.free_lists) (x : loc) : Prop :=
  pool_repr m' fl' /\ ~ Spec.is_free x fl' /\
  (exists b, heap m' !! x = Some b /\ buf_wf b /\ b_length b = 0 /\ b_head b = 0 /\
             b_next b = None /\ size_class N = Some (b_capacity b)) /\
  (forall y, y <> x -> heap m' !! y = heap m !! y).

Lemma alloc_buf_new N k m fl (x := fresh_loc (heap m)) :
  pool_repr m fl -> size_class N = Some k -> pool m !! k = Some None -> fl !! k = Some [] ->
  alloc_post N m (Mem (<[x := io_buf_new k (raw k)]> (heap m)) (<[k := None]> (pool m))
                      (u64 (total_mem m + k / 1024)))
             fl (<[k := []]> fl) x.
Proof.
  intros Hm Hk Hp Hfl. pose proof (size_class_pos _ _ Hk) as Hpos.
  assert (forall k' l', fl !! k' = Some l' -> x ∉ l') as Hfresh.
  { intros k' l' Hl'. specialize (Hm k'). rewrite Hl' in Hm.
    destruct (pool m !! k'); [|done]. eapply class_repr_fresh; [done|]. apply fresh_loc_None. }
  split_and!.
  - apply pool_repr_update; [done|done|eauto].
  - intros (k' & l' & Hl' & Hin). destruct (decide (k' = k)) as [->|].
    + rewrite lookup_insert_eq in Hl'. simplify_eq. by apply not_elem_of_nil in Hin.
    + rewrite lookup_insert_ne in Hl' by done. by eapply Hfresh.
  - exists (io_buf_new k (raw k)). simpl. rewrite lookup_insert_eq. split_and!; try done.
    apply io_buf_new_wf; [lia|]. apply raw_len; lia.
  - intros y Hy. simpl. by rewrite lookup_insert_ne.
Qed.

Lemma alloc_buf_pop N k m fl x b l :
  pool_repr m fl -> size_class N = Some k -> pool m !! k = Some (Some x) ->
  fl !! k = Some (x :: l) -> heap m !! x = Some b ->
  alloc_post N m (Mem (<[x := set_next None b]> (heap m)) (<[k := b_next b]> (pool m))
                      (total_mem m))
             fl (<[k := l]> fl) x.
Proof.
  intros Hm Hk Hp Hfl Hx. destruct (pool_repr_class _ _ _ _ Hm Hp) as (l0 & Hl0 & Hr).
  simplify_eq. pose proof Hr as [Hc Hf].
  pose proof (chain_NoDup _ _ _ Hc) as [Hnin _]%NoDup_cons.
  apply Forall_cons in Hf as [(b' & Hb' & Hcap & Hlen & Hhd & Hwf) Hf]. simplify_eq.
  destruct Hc as (_ & b' & Hb'' & Hc). simplify_eq.
  assert (forall k' l', k' <> b_capacity b -> fl !! k' = Some l' -> x ∉ l') as Hoth.
  { intros k' l' Hne Hl'. specialize (Hm k'). rewrite Hl' in Hm.
    destruct (pool m !! k'); [|done]. by eapply class_repr_other. }
  split_and!.
  - apply pool_repr_update; [done| |done]. apply class_repr_insert; [done|]. by split.
  - intros (k' & l' & Hl' & Hin). destruct (decide (k' = b_capacity b)) as [->|].
    + rewrite lookup_insert_eq in Hl'. by simplify_eq.
    + rewrite lookup_insert_ne in Hl' by done. by eapply Hoth.
  - exists (set_next None b). simpl. rewrite lookup_insert_eq. by split_and!.
  - intros y Hy. simpl. by rewrite lookup_insert_ne.
Qed.

Lemma pool_repr_dom m fl k :
  pool_repr m fl -> is_Some (pool m !! k) <-> is_Some (fl !! k).
Proof.
  intros H. specialize (H k). destruct (pool m !! k), (fl !! k); done.
Qed.

(** The lists are those of the classes [alloc_buf] can ask for. *)
Definition has_classes (m : mem) : Prop :=
  forall k, is_Some (pool m !! k) <-> exists N, size_class N = Some k.

(** On a pool that represents free lists, [alloc_buf N] returns null exactly
    when [N] exceeds the largest class; otherwise it takes the most recently
    returned buffer of the class, or a fresh one when none is free and the
    memory limit allows it, and the memory represents the remaining free lists;
    it never follows a bad link. *)
Lemma alloc_buf_refines N m fl :
  pool_repr m fl -> has_classes m ->
  match alloc_buf raw N m with
  | Ret (None, m') => m4M < N /\ m' = m
  | Ret (Some x, m') =>
      exists k, size_class N = Some k /\
        alloc_post N m m' fl (Spec.take_free k fl).2 x /\
        match (Spec.take_free k fl).1 with
        | Some y => x = y
        | None => heap m !! x = None
        end
  | Stop e =>
      e = Exit 0 /\ exists k, size_class N = Some k /\ (Spec.take_free k fl).1 = None /\
        EXTRA_MEM_LIMIT <= u64 (total_mem m + k / 1024)
  end.
Proof.
  intros Hm Hcl. unfold alloc_buf. destruct (size_class N) as [k|] eqn:Hk; cycle 1.
  { split; [|done]. destruct (decide (N <= m4M)) as [Hle|]; [|lia].
    apply size_class_le_m4M in Hle. rewrite Hk in Hle. by destruct Hle. }
  destruct (proj2 (Hcl k) (ex_intro _ N Hk)) as [p Hp]. unfold pool_get. rewrite Hp. simpl.
  destruct (pool_repr_class _ _ _ _ Hm Hp) as (l & Hl & Hc & Hf).
  destruct p as [x|]; destruct l as [|y l]; simpl in Hc; try naive_solver.
  - destruct Hc as ([= <-] & b & Hx & Hc). rewrite Hx. simpl. exists k. split; [done|].
    unfold Spec.take_free. rewrite Hl. simpl. split; [|done]. by apply alloc_buf_pop.
  - assert (Spec.take_free k fl = (None, <[k := []]> fl)) as Htf.
    { unfold Spec.take_free. by rewrite Hl. }
    case_bool_decide as Hlim.
    + split; [done|]. exists k. rewrite Htf. split_and!; try done. lia.
    + simpl. exists k. rewrite Htf. split; [done|]. split; [|apply fresh_loc_None].
      by apply alloc_buf_new.
Qed.

(** Returning a held buffer succeeds, pushes it on the free list of its class
    and leaves every other buffer as it was. *)
Lemma revert_refines x b m fl :
  pool_repr m fl -> heap m !! x = Some b -> zlen (b_data b) = b_capacity b ->
  0 <= b_capacity b -> is_Some (pool m !! b_capacity b) -> ~ Spec.is_free x fl ->
  exists m', revert x m = Ret m' /\ pool_repr m' (Spec.give_back (b_capacity b) x fl) /\
    (forall y, y <> x -> heap m' !! y = heap m !! y) /\ total_mem m' = total_mem m.
Proof.
  intros Hm Hx Hd Hc0 [p Hp] Hnf. unfold revert. rewrite Hx. simpl.
  rewrite bool_decide_eq_true_2 by eauto. simpl. eexists; split; [done|].
  unfold pool_get, Spec.give_back. rewrite Hp. simpl.
  destruct (pool_repr_class _ _ _ _ Hm Hp) as (l & Hl & Hr). rewrite Hl. simpl.
  assert (forall k' l', fl !! k' = Some l' -> x ∉ l') as Hnin.
  { intros k' l' Hl' Hin. apply Hnf. by exists k', l'. }
  split_and!; [|intros y Hy; by rewrite lookup_insert_ne|done].
  apply pool_repr_update; [done| |eauto].
  destruct (class_repr_insert _ _ _ _ x (set_next p (set_window 0 0 b)) (Hnin _ _ Hl) Hr) as [Hc Hf].
  split.
  - simpl. split; [done|]. eexists. rewrite lookup_insert_eq. split; [done|]. done.
  - constructor; [|done]. eexists. rewrite lookup_insert_eq. split; [done|].
    unfold buf_wf. simpl. lia.
Qed.
End Refine.

(** ** The constructor *)
Lemma chain_mono h h' p l :
  (forall x, x ∈ l -> h' !! x = h !! x) -> chain h p l -> chain h' p l.
Proof.
  revert p; induction l as [|x l IH]; intros p Hh; simpl; [done|].
  intros (-> & b & Hb & Hl). split; [done|]. exists b. rewrite Hh by set_solver.
  split; [done|]. apply IH; [|done]. set_solver.
Qed.

Lemma class_repr_mono h h' k p l :
  (forall x, x ∈ l -> h' !! x = h !! x) -> class_repr h k p l -> class_repr h' k p l.
Proof.
  intros Hh [Hc Hf]. split; [by eapply chain_mono|]. rewrite Forall_forall in Hf |- *.
  intros x Hx. destruct (Hf x Hx) as (b & Hb & ?). exists b. by rewrite Hh.
Qed.

Section Init.
Context (raw : Z -> list byte) (raw_len : forall n, 0 <= n -> zlen (raw n) = n).

(** The allocation loop links [n] fresh empty buffers behind [prev]. *)
Lemma grow_ok n cap prev h b :
  0 <= cap -> h !! prev = Some b -> b_next b = None -> free_cell h cap prev ->
  exists l, length l = n /\ class_repr (grow raw n cap prev h) cap (Some prev) (prev :: l) /\
    (forall y, y <> prev -> is_Some (h !! y) -> grow raw n cap prev h !! y = h !! y) /\
    (forall y, y ∈ l -> h !! y = None).
Proof.
  intros Hcap. revert prev h b. induction n as [|n IH]; intros prev h b Hp Hn Hfc; simpl.
  - exists []. split_and!; try done; [|intros y Hy; by apply not_elem_of_nil in Hy].
    split; [|by constructor]. split; [done|]. exists b. simpl. auto.
  - set (x := fresh_loc h). pose proof (fresh_loc_None h) as Hx. fold x in Hx.
    assert (x <> prev) as Hne by congruence.
    set (h2 := alter _ prev _).
    assert (h2 !! x = Some (io_buf_new cap (raw cap))) as Hx2.
    { unfold h2. rewrite lookup_alter_ne by done. by rewrite lookup_insert_eq. }
    assert (h2 !! prev = Some (set_next (Some x) b)) as Hp2.
    { unfold h2. rewrite lookup_alter_eq, lookup_insert_ne, Hp by done. done. }
    destruct (IH x h2 _ Hx2) as (l & Hl & [Hc Hf] & Hold & Hnew); [done| |].
    { eexists. split; [done|]. split_and!; try done. apply io_buf_new_wf; [lia|auto]. }
    assert (grow raw n cap x h2 !! prev = Some (set_next (Some x) b)) as Hpf.
    { rewrite Hold by eauto. done. }
    exists (x :: l). split_and!.
    + simpl. lia.
    + split.
      * split; [done|]. exists (set_next (Some x) b). done.
      * constructor; [|done]. destruct Hfc as (b' & ? & ? & ? & ? & ?). simplify_eq.
        exists (set_next (Some x) b). done.
    + intros y Hy Hs. destruct Hs as [by' Hby].
      assert (y <> x) by congruence. rewrite Hold; [|done|].
      * unfold h2. by rewrite lookup_alter_ne, lookup_insert_ne.
      * unfold h2. rewrite lookup_alter_ne, lookup_insert_ne by done. by eexists.
    + intros y [->|Hy]%elem_of_cons; [done|]. apply Hnew in Hy.
      destruct (decide (y = x)) as [->|]; [done|]. destruct (decide (y = prev)) as [->|]; [congruence|].
      unfold h2 in Hy. by rewrite lookup_alter_ne, lookup_insert_ne in Hy.
Qed.

Lemma fill_class_ok cap count kb m fl :
  0 <= cap -> 1 <= count -> pool_repr m fl -> pool m !! cap = None ->
  exists l, zlen l = count /\ pool_repr (fill_class raw cap count kb m) (<[cap := l]> fl).
Proof.
  intros Hcap Hcnt Hm Hp. unfold fill_class. simpl.
  set (x := fresh_loc (heap m)). pose proof (fresh_loc_None (heap m)) as Hx. fold x in Hx.
  set (h1 := <[x := _]> (heap m)).
  assert (h1 !! x = Some (io_buf_new cap (raw cap))) as Hx1 by apply lookup_insert_eq.
  destruct (grow_ok (Z.to_nat (count - 1)) cap x h1 _ Hcap Hx1 eq_refl) as (l & Hl & Hr & Hold & _).
  { eexists. split; [done|]. split_and!; try done. apply io_buf_new_wf; [lia|auto]. }
  exists (x :: l). split; [unfold zlen; simpl; lia|]. intros k. simpl.
  destruct (decide (k = cap)) as [->|Hne]; [by rewrite !lookup_insert_eq|].
  rewrite !lookup_insert_ne by done. specialize (Hm k).
  destruct (pool m !! k), (fl !! k) eqn:El; try done.
  eapply class_repr_mono; [|exact Hm]. intros y Hy.
  assert (is_Some (heap m !! y)) as Hs.
  { destruct Hm as [_ Hf]. rewrite Forall_forall in Hf. destruct (Hf _ Hy) as (b & Hb & _). by exists b. }
  assert (y <> x) by (intros ->; destruct Hs; congruence).
  rewrite Hold by (done || (unfold h1; by rewrite lookup_insert_ne)).
  unfold h1. by apply lookup_insert_ne.
Qed.

(** The free buffers per class of a fresh pool. *)
Definition initial_counts : list (Z * Z) :=
  [(m4K, 5000); (m16K, 1000); (m64K, 500); (m256K, 200); (m1M, 50); (m4M, 20)].

(** The constructor builds a pool that represents free lists, with every class
    [alloc_buf] can ask for present and 5000, 1000, 500, 200, 50 and 20 free
    buffers in the six classes; it records 375200 KB. *)
Lemma buf_pool_new_repr :
  exists fl, pool_repr (buf_pool_new raw) fl /\ has_classes (buf_pool_new raw) /\
    Forall (fun '(k, n) => exists l, fl !! k = Some l /\ zlen l = n) initial_counts /\
    total_mem (buf_pool_new raw) = 375200.
Proof.
  assert (pool_repr (Mem ∅ ∅ 0) ∅) as H0 by (intros k; simpl; by rewrite !lookup_empty).
  unfold buf_pool_new.
  destruct (fill_class_ok m4K 5000 (4 * 5000) _ _ ltac:(done) ltac:(done) H0) as (l1 & L1 & H1); [done|].
  destruct (fill_class_ok m16K 1000 (16 * 1000) _ _ ltac:(done) ltac:(done) H1) as (l2 & L2 & H2); [done|].
  destruct (fill_class_ok m64K 500 (64 * 500) _ _ ltac:(done) ltac:(done) H2) as (l3 & L3 & H3); [done|].
  destruct (fill_class_ok m256K 200 (256 * 200) _ _ ltac:(done) ltac:(done) H3) as (l4 & L4 & H4); [done|].
  destruct (fill_class_ok m1M 50 (1024 * 50) _ _ ltac:(done) ltac:(done) H4) as (l5 & L5 & H5); [done|].
  destruct (fill_class_ok m4M 20 (4096 * 50) _ _ ltac:(done) ltac:(done) H5) as (l6 & L6 & H6); [done|].
  eexists; split; [exact H6|]. split_and!.
  - intros k. unfold buf_pool_new in H6. rewrite <-size_class_classes, (pool_repr_dom _ _ _ H6).
    unfold classes. rewrite !elem_of_cons, elem_of_nil, !lookup_insert, lookup_empty.
    repeat (case_decide; [subst k; split; [tauto|intros _; by eexists]|]).
    split; [by intros []|]. intros Hin. exfalso. intuition congruence.
  - repeat constructor; eexists; (split; [|eassumption]); by simplify_map_eq.
  - done.
Qed.
End Init.

(** ** Held buffers

    What the components above the pool rely on: a buffer taken from the pool
    stays theirs, whatever happens to other buffers, until they revert it. *)
Definition pool_ok (m : mem) (fl : Spec.free_lists) : Prop :=
  pool_repr m fl /\ has_classes m /\ 0 <= total_mem m.

(** Another [kb] kilobytes reach the limit of the pool. *)
Definition mem_short (kb : Z) (m : mem) : Prop := EXTRA_MEM_LIMIT <= total_mem m + kb.

Definition held (m : mem) (fl : Spec.free_lists) (x : loc) (b : io_buf) : Prop :=
  heap m !! x = Some b /\ buf_wf b /\ ~ Spec.is_free x fl /\ is_Some (pool m !! b_capacity b).

(** The other buffers held before are held after, unchanged. *)
Definition frame (x : option loc) (m : mem) (fl : Spec.free_lists)
    (m' : mem) (fl' : Spec.free_lists) : Prop :=
  forall y b, Some y <> x -> held m fl y b -> held m' fl' y b.

Lemma frame_refl x m fl : frame x m fl m fl.
Proof. unfold frame. auto. Qed.

Lemma take_free_dom k fl k' : is_Some (fl !! k) -> is_Some ((Spec.take_free k fl).2 !! k') <-> is_Some (fl !! k').
Proof.
  intros [l Hl]. unfold Spec.take_free. rewrite Hl. destruct l; simpl; rewrite lookup_insert; case_decide; try done;
    subst k'; rewrite Hl; by split.
Qed.

Lemma take_free_is_free k fl y : Spec.is_free y (Spec.take_free k fl).2 -> Spec.is_free y fl.
Proof.
  unfold Spec.take_free. intros (k' & l' & Hl & Hy).
  destruct (fl !! k) as [[|x l]|] eqn:E; simpl in Hl;
    destruct (decide (k = k')) as [->|]; simplify_map_eq;
    try (by apply not_elem_of_nil in Hy); try (by exists k', l').
  eexists k', _. split; [exact E|]. set_solver.
Qed.

Section Held.
Context (raw : Z -> list byte) (raw_len : forall n, 0 <= n -> zlen (raw n) = n).

Lemma size_class_kb N k : size_class N = Some k -> 0 <= k / 1024 <= 4096.
Proof. unfold size_class. repeat case_bool_decide; intros [= <-]; done. Qed.

(** An allocation adds at most 4096 KB. *)
Lemma alloc_total N m o m' :
  0 <= total_mem m -> alloc_buf raw N m = Ret (o, m') ->
  0 <= total_mem m' <= total_mem m + 4096.
Proof.
  intros H0. unfold alloc_buf. destruct (size_class N) as [k|] eqn:Hk; [|intros [= _ <-]; lia].
  pose proof (size_class_kb _ _ Hk). destruct (pool_get m k) as [x|].
  - destruct (heap m !! x); simpl; [|done]. intros [= _ <-]. simpl. lia.
  - case_bool_decide; [done|]. intros [= _ <-]. simpl. unfold u64.
    split; [by apply Z.mod_pos_bound|]. etrans; [apply Z.mod_le; lia|lia].
Qed.

Lemma alloc_held N m fl x m' :
  pool_ok m fl -> alloc_buf raw N m = Ret (Some x, m') ->
  exists fl' b, pool_ok m' fl' /\ held m' fl' x b /\ b_length b = 0 /\ b_head b = 0 /\
    N <= b_capacity b /\ (forall y b', held m fl y b' -> y <> x /\ held m' fl' y b').
Proof.
  intros (Hm & Hcl & Ht) Ha. pose proof (alloc_buf_refines raw raw_len N m fl Hm Hcl) as H.
  pose proof (proj1 (alloc_total _ _ _ _ Ht Ha)) as Ht'.
  rewrite Ha in H. destruct H as (k & Hk & (Hm' & Hnf & (b & Hb & Hwf & Hlen & Hhd & _ & Hsz) & Hoth) & Hx).
  set (fl' := (Spec.take_free k fl).2) in *. simplify_eq.
  assert (forall k', is_Some (pool m' !! k') <-> is_Some (pool m !! k')) as Hdom.
  { intros k'. rewrite (pool_repr_dom _ _ _ Hm'), (pool_repr_dom _ _ _ Hm). apply take_free_dom.
    apply (pool_repr_dom _ _ _ Hm), Hcl. by exists N. }
  assert (has_classes m') as Hcl' by (intros k'; rewrite Hdom; apply Hcl).
  assert (is_Some (pool m' !! b_capacity b)) as Hpb by (apply Hcl'; by exists N).
  pose proof (size_class_fits _ _ Hk) as Hfit.
  exists fl', b. do 5 (split; [done|]). intros y b' (Hy & Hwy & Hfy & Hpy).
  assert (y <> x) as Hne.
  { intros ->. destruct (Spec.take_free _ _).1 eqn:E in Hx; [subst|congruence].
    apply Hfy. unfold Spec.take_free in E.
    destruct (fl !! b_capacity b) as [[|z l]|] eqn:El; simplify_eq/=.
    eexists _, _. split; [exact El|]. set_solver. }
  split; [done|]. split; [by rewrite Hoth|]. split; [done|]. split; [|by apply Hdom].
  intros Hf. apply Hfy. by eapply take_free_is_free.
Qed.

Lemma alloc_None N m m' : alloc_buf raw N m = Ret (None, m') -> m' = m /\ m4M < N.
Proof.
  unfold alloc_buf. destruct (size_class N) as [k|] eqn:Hk.
  - destruct (pool_get m k).
    + destruct (heap m !! p); simpl; naive_solver.
    + case_bool_decide; naive_solver.
  - intros [= ->]. split; [done|]. destruct (decide (N <= m4M)) as [Hle|]; [|lia].
    apply size_class_le_m4M in Hle. rewrite Hk in Hle. by destruct Hle.
Qed.

Lemma alloc_Stop N m fl e :
  pool_ok m fl -> alloc_buf raw N m = Stop e -> e = Exit 0 /\ mem_short 4096 m.
Proof.
  intros (Hm & Hcl & Ht) Ha. pose proof (alloc_buf_refines raw raw_len N m fl Hm Hcl) as H.
  rewrite Ha in H. destruct H as (-> & k & Hk & _ & Hlim). split; [done|].
  pose proof (size_class_kb _ _ Hk). unfold mem_short. etrans; [exact Hlim|].
  etrans; [apply Z.mod_le; lia|lia].
Qed.
End Held.

Lemma revert_total x m m' : revert x m = Ret m' -> total_mem m' = total_mem m.
Proof. unfold revert. intros H. res_inv. by subst. Qed.

Lemma revert_held x b m fl :
  pool_ok m fl -> held m fl x b ->
  exists m' fl', revert x m = Ret m' /\ pool_ok m' fl' /\ frame (Some x) m fl m' fl'.
Proof.
  intros (Hm & Hcl & Ht) (Hx & Hwf & Hnf & Hp). pose proof Hwf as (? & ? & ? & Hd).
  destruct (revert_refines x b m fl Hm Hx Hd ltac:(lia) Hp Hnf) as (m' & Hr & Hm' & Hoth & Ht').
  exists m', (Spec.give_back (b_capacity b) x fl). split; [done|].
  assert (forall k, is_Some (pool m' !! k) <-> is_Some (pool m !! k)) as Hdom.
  { intros k. rewrite (pool_repr_dom _ _ _ Hm'). unfold Spec.give_back. rewrite lookup_insert.
    case_decide; [subst k; split; [done|by eexists]|]. symmetry. by apply pool_repr_dom. }
  split; [split_and!; [done|intros k; rewrite Hdom; apply Hcl|lia]|].
  intros y b' Hy (Hb' & Hw' & Hf' & Hp'). split_and!; [|done| |by apply Hdom].
  - rewrite Hoth; [done|congruence].
  - intros (k & l & Hl & Hin). unfold Spec.give_back in Hl. apply Hf'.
    rewrite lookup_insert in Hl. case_decide as Hk; [|by exists k, l]. simplify_eq.
    apply elem_of_cons in Hin as [->|Hin]; [done|].
    destruct (fl !! b_capacity b) as [l0|] eqn:E; simpl in Hin; [by exists (b_capacity b), l0|].
    by apply not_elem_of_nil in Hin.
Qed.

(** A holder may replace its buffer by any well-formed one of the same capacity. *)
Lemma store_held x b b' m fl :
  pool_ok m fl -> held m fl x b -> buf_wf b' -> b_capacity b' = b_capacity b ->
  pool_ok (store x b' m) fl /\ held (store x b' m) fl x b' /\ frame (Some x) m fl (store x b' m) fl.
Proof.
  intros (Hm & Hcl & Ht) (Hx & Hwf & Hnf & Hp) Hw' Hc. split_and!.
  - split; [|done]. intros k. specialize (Hm k). simpl.
    destruct (pool m !! k), (fl !! k) eqn:E; try done. apply class_repr_insert; [|done].
    intros Hin. apply Hnf. by exists k, l.
  - split_and!; [apply lookup_insert_eq|done|done|]. simpl. by rewrite Hc.
  - intros y b'' Hy (Hb'' & ? & ? & ?). split_and!; try done. simpl.
    rewrite lookup_insert_ne; [done|congruence].
Qed.

(** A held buffer is of one of the classes. *)
Lemma held_capacity m fl x b : pool_ok m fl -> held m fl x b -> b_capacity b <= m4M.
Proof.
  intros (_ & Hcl & _) (_ & _ & _ & Hp). apply Hcl, size_class_classes in Hp. unfold classes in Hp.
  rewrite !elem_of_cons, elem_of_nil in Hp. destruct Hp as [->|[->|[->|[->|[->|[->|[]]]]]]]; done.
Qed.

Lemma frame_trans x m fl m1 fl1 m2 fl2 :
  frame x m fl m1 fl1 -> frame x m1 fl1 m2 fl2 -> frame x m fl m2 fl2.
Proof. unfold frame. eauto. Qed.

(** A pool with every class present and nothing free, and zeroed fresh memory:
    concrete arguments for the theorems that ask for a pool. *)
Definition empty_pool : mem := Mem ∅ (list_to_map ((fun k => (k, None)) <$> classes)) 0.
Definition empty_free : Spec.free_lists := list_to_map ((fun k => (k, [])) <$> classes).
Definition zero_raw (n : Z) : list byte := replicate (Z.to_nat n) x00.

Lemma zero_raw_len n : 0 <= n -> zlen (zero_raw n) = n.
Proof. intros. unfold zlen, zero_raw. rewrite length_replicate. lia. Qed.

Lemma empty_heap_ok h : pool_ok (Mem h (pool empty_pool) 0) empty_free.
Proof.
  split_and!; [| |done].
  - intros k. unfold empty_pool, empty_free. simpl.
    rewrite !lookup_insert. repeat (case_decide; [done|]). done.
  - intros k. rewrite <-size_class_classes. unfold empty_pool, classes. simpl.
    rewrite !elem_of_cons, elem_of_nil, !lookup_insert, lookup_empty.
    repeat (case_decide; [subst k; split; [tauto|intros _; by eexists]|]).
    split; [by intros []|]. intros Hin. exfalso. intuition congruence.
Qed.
Lemma empty_pool_ok : pool_ok empty_pool empty_free.
Proof. apply empty_heap_ok. Qed.
Lemma empty_not_free x : ~ Spec.is_free x empty_free.
Proof.
  intros (k & l & E & Hin). unfold empty_free in E. apply elem_of_list_to_map_2 in E.
  apply list_elem_of_fmap in E as (k' & [= _ ->] & _). by apply not_elem_of_nil in Hin.
Qed.

(** ** Every use of the pool *)
Section Use.
Context (raw : Z -> list byte) (raw_len : forall n, 0 <= n -> zlen (raw n) = n).

(** The states of the pool and the addresses its users hold: from the constructor
    on, users allocate, write to buffers they hold, and give back buffers they
    hold. *)
Inductive pool_reach : mem -> gset loc -> Prop :=
| reach_new : pool_reach (buf_pool_new raw) ∅
| reach_alloc N m H x m' :
    pool_reach m H -> alloc_buf raw N m = Ret (Some x, m') -> pool_reach m' ({[x]} ∪ H)
| reach_write x b b' m H :
    pool_reach m H -> x ∈ H -> heap m !! x = Some b -> buf_wf b' -> b_capacity b' = b_capacity b ->
    pool_reach (store x b' m) H
| reach_revert x m H m' :
    pool_reach m H -> x ∈ H -> revert x m = Ret m' -> pool_reach m' (H ∖ {[x]}).

Definition holds (m : mem) (fl : Spec.free_lists) (H : gset loc) : Prop :=
  pool_ok m fl /\ forall x, x ∈ H -> exists b, held m fl x b.

Lemma pool_reach_holds m H : pool_reach m H -> exists fl, holds m fl H.
Proof using raw_len.
  induction 1 as [|N m H x m' _ (fl & Hok & Hh) Ha|x b b' m H _ (fl & Hok & Hh) Hx Hb Hw Hc|x m H m' _ (fl & Hok & Hh) Hx Hr].
  - destruct (buf_pool_new_repr raw raw_len) as (fl & Hr & Hcl & _ & Ht). exists fl.
    split; [split_and!; [done|done|rewrite Ht; lia]|]. intros x Hx. by apply not_elem_of_empty in Hx.
  - destruct (alloc_held raw raw_len _ _ _ _ _ Hok Ha) as (fl' & b & Hok' & Hx & _ & _ & _ & Hfr).
    exists fl'. split; [done|]. intros y [->%elem_of_singleton|Hy]%elem_of_union; [by exists b|].
    destruct (Hh y Hy) as (b' & Hb'). exists b'. by apply Hfr.
  - exists fl. destruct (Hh x Hx) as (b0 & Hb0). pose proof (proj1 Hb0) as E. rewrite Hb in E. injection E as ->.
    destruct (store_held x b0 b' m fl Hok Hb0 Hw Hc) as (Hok' & Hx' & Hfr). split; [done|].
    intros y Hy. destruct (decide (y = x)) as [->|Hne]; [by exists b'|].
    destruct (Hh y Hy) as (by' & Hby). exists by'. apply Hfr; [congruence|done].
  - destruct (Hh x Hx) as (b & Hb). destruct (revert_held x b m fl Hok Hb) as (m2 & fl' & Hr' & Hok' & Hfr).
    rewrite Hr in Hr'. injection Hr' as ->. exists fl'. split; [done|].
    intros y [Hy Hne]%elem_of_difference. destruct (Hh y Hy) as (b' & Hb'). exists b'.
    apply Hfr; [|done]. intros [= ->]. by apply Hne, elem_of_singleton.
Qed.

(** (C13) The buffer pool is safe and refines the allocator of free lists.  Whatever
    its users do, a buffer that is handed out is nobody else's, empty and at
    least as large as asked for: the most recently returned one of its class, or
    a new one when none is free; null comes only for more than 4 MB, and the
    process stops only at the memory limit with an empty class.  Giving back a
    held buffer always succeeds and makes it the next one of its class. *)
Theorem pool_reach_safe m H :
  pool_reach m H ->
  exists fl, holds m fl H /\
    (forall N, match alloc_buf raw N m with
     | Ret (None, m') => m4M < N /\ m' = m
     | Ret (Some x, m') =>
         (x ∉ H) /\ exists k b, size_class N = Some k /\ heap m' !! x = Some b /\ contents b = [] /\
           b_capacity b = k /\ N <= k /\ pool_repr m' (Spec.take_free k fl).2 /\
           match (Spec.take_free k fl).1 with Some y => x = y | None => heap m !! x = None end
     | Stop e => e = Exit 0 /\ exists k, size_class N = Some k /\ (Spec.take_free k fl).1 = None /\
           EXTRA_MEM_LIMIT <= u64 (total_mem m + k / 1024)
     end) /\
    (forall x, x ∈ H -> exists b m', heap m !! x = Some b /\ revert x m = Ret m' /\
       pool_repr m' (Spec.give_back (b_capacity b) x fl) /\ total_mem m' = total_mem m).
Proof using raw_len.
  intros Hreach. destruct (pool_reach_holds m H Hreach) as (fl & Hok & Hh). exists fl.
  split; [done|]. pose proof Hok as (Hm & Hcl & _). split.
  - intros N. pose proof (alloc_buf_refines raw raw_len N m fl Hm Hcl) as Ha.
    destruct (alloc_buf raw N m) as [[[x|] m']|] eqn:Ea; [|done..].
    destruct Ha as (k & Hk & (Hm' & _ & (b & Hb & Hwf & Hl & _ & _ & Hs) & _) & Hx). simplify_eq. split.
    + intros Hin. destruct (Hh x Hin) as (b0 & Hb0).
      destruct (alloc_held raw raw_len _ _ _ _ _ Hok Ea) as (? & ? & ? & ? & ? & ? & ? & Hfr).
      by destruct (Hfr x b0 Hb0).
    + exists (b_capacity b), b. split_and!; try done; [by apply contents_nil|by apply size_class_fits].
  - intros x Hx. destruct (Hh x Hx) as (b & Hb & Hwf & Hnf & Hp). pose proof Hwf as (? & ? & ? & Hd).
    destruct (revert_refines x b m fl Hm Hb Hd ltac:(lia) Hp Hnf) as (m' & ? & ? & _ & ?). by exists b, m'.
Qed.
End Use.

Lemma pool_reach_safe_witness :
  exists m fl, pool_reach zero_raw m ∅ /\ holds m fl ∅ /\
    forall x m', alloc_buf zero_raw 100 m = Ret (Some x, m') ->
      exists b, heap m' !! x = Some b /\ contents b = [] /\ 100 <= b_capacity b.
Proof.
  destruct (pool_reach_safe zero_raw zero_raw_len _ _ (reach_new zero_raw)) as (fl & Hh & Ha & _).
  exists (buf_pool_new zero_raw), fl. split; [apply reach_new|]. split; [exact Hh|]. intros x m' Hx.
  specialize (Ha 100). rewrite Hx in Ha.
  destruct Ha as (_ & k & b & _ & Hb & Hcon & Hc & Hle & _). exists b. split; [exact Hb|]. split; [exact Hcon|lia].
Defined.
