(* ===== verification/ReactorBuf.v ===== *)
(** * reactor_buf, input_buf, output_buf (lrlb_reactor/include/reactor_buf.h, src/reactor_buf.cpp)

    A [reactor_buf] is a pointer to a pool buffer or null.  Its operations move
    between pool, heap and the file descriptor; the theorems state them on the
    pending byte string [rb_repr] relates to a buffer, and that no other buffer
    held from the pool is disturbed ([frame]). *)

From S2P Require Import Prelude.
From S2P Require Import IoBuf.
From S2P Require Import BufPool.

(** The member [_buf]; the constructor sets it to null. *)
Definition reactor_buf : Type := option loc.
Definition reactor_buf_new : reactor_buf := None.

Definition load (x : loc) (m : mem) : res io_buf := deref (heap m !! x).

(** [reactor_buf::length]. *)
Definition rb_length (rb : reactor_buf) (m : mem) : res Z :=
  match rb with
  | Some x => b ← load x m; Ret (b_length b)
  | None => Ret 0
  end.

(** [reactor_buf::pop]. *)
Definition rb_pop (len : Z) (rb : reactor_buf) (m : mem) : res mem :=
  match rb with
  | None => Stop AssertFail
  | Some x =>
      b ← load x m;
      _ ← assert (bool_decide (len <= b_length b));
      Ret (store x (pop len b) m)
  end.

(** [reactor_buf::clear], also the destructor: give the buffer back. *)
Definition rb_clear (rb : reactor_buf) (m : mem) : res (reactor_buf * mem) :=
  match rb with
  | Some x => m ← revert x m; Ret (None, m)
  | None => Ret (None, m)
  end.

(** [input_buf::data]: the bytes from the returned pointer to the end of the
    pending ones; null for no buffer. *)
Definition ib_data (rb : reactor_buf) (m : mem) : res (option (list byte)) :=
  match rb with
  | Some x => b ← load x m; Ret (Some (contents b))
  | None => Ret None
  end.

(** [if (_buf->head != 0) _buf->adjust();] on the buffer at [x]. *)
Definition adjust_at (x : loc) (m : mem) : res (io_buf * mem) :=
  b ← load x m;
  b ← (if bool_decide (b_head b <> 0) then adjust b else Ret b);
  Ret (b, store x b m).

(** [input_buf::adjust]. *)
Definition ib_adjust (rb : reactor_buf) (m : mem) : res mem :=
  match rb with
  | Some x => b ← load x m; b ← adjust b; Ret (store x b m)
  | None => Ret m
  end.

Section Ops.
Context (raw : Z -> list byte).

(** [new_buf->copy(_buf); revert(_buf);] once [new_buf] is at [nx]. *)
Definition move_to (nx x : loc) (m : mem) : res mem :=
  b ← load x m;
  nb ← load nx m;
  nb ← copy nb b;
  revert x (store nx nb m).

(** [input_buf::read_data(int fd)] up to the read: a buffer with room for
    [need_read] more bytes.  [None] for the early [return -1].  When a larger
    buffer is needed the code tests [_buf], not [new_buf], for null, so a
    refused allocation is dereferenced. *)
Definition read_room (need_read : Z) (rb : reactor_buf) (m : mem) : res (option loc * mem) :=
  match rb with
  | None => alloc_buf raw need_read m
  | Some x =>
      '(b, m) ← adjust_at x m;
      if bool_decide (b_capacity b - b_length b < need_read) then
        '(new_buf, m) ← alloc_buf raw (need_read + b_length b) m;
        nx ← deref new_buf;
        m ← move_to nx x m;
        Ret (Some nx, m)
      else Ret (Some x, m)
  end.

(** [input_buf::read_data(int fd)].  [fionread] is what [ioctl] stored, [ks] what
    the successive calls of [read] returned. *)
Definition read_data (fionread : option Z) (ks : list (list byte + errno))
    (rb : reactor_buf) (m : mem) : res (Z * reactor_buf * mem) :=
  match fionread with
  | None => Ret (-1, rb, m)
  | Some need_read =>
      '(buf, m) ← read_room need_read rb m;
      match buf with
      | None => Ret (-1, None, m)
      | Some x =>
          r ← retry ks;
          match r with
          | inr _ => Ret (-1, Some x, m)
          | inl bs =>
              b ← load x m;
              b' ← append bs b;
              if bool_decide (zlen bs > 0) then
                _ ← (if bool_decide (need_read <> 0)
                     then assert (bool_decide (zlen bs = need_read)) else Ret tt);
                Ret (zlen bs, Some x, store x b' m)
              else Ret (zlen bs, Some x, m)
          end
      end
  end.

(** [output_buf::send_data(const char *data, int datalen)], with [data] the
    [datalen] bytes. *)
Definition send_data (data : list byte) (rb : reactor_buf) (m : mem)
    : res (Z * reactor_buf * mem) :=
  let datalen := zlen data in
  '(buf, m, failed) ←
     match rb with
     | None => '(buf, m) ← alloc_buf raw datalen m;
               Ret (buf, m, bool_decide (buf = None))
     | Some x =>
         '(b, m) ← adjust_at x m;
         if bool_decide (b_capacity b - b_length b < datalen) then
           '(new_buf, m) ← alloc_buf raw (datalen + b_length b) m;
           match new_buf with
           | None => Ret (Some x, m, true)
           | Some nx => m ← move_to nx x m; Ret (Some nx, m, false)
           end
         else Ret (Some x, m, false)
     end;
  if (failed : bool) then Ret (-1, buf, m) else
  x ← deref buf;
  b ← load x m;
  b ← append data b;
  Ret (0, Some x, store x b m).

End Ops.

(** [output_buf::write2fd(int fd)]; [ks] is what the successive calls of [write]
    returned, [inl n] for [n] bytes accepted.  A returned count is the value of
    the function, -1 for an error other than EAGAIN. *)
Definition write2fd (ks : list (Z + errno)) (rb : reactor_buf) (m : mem) : res (Z * mem) :=
  match rb with
  | None => Stop AssertFail
  | Some x =>
      '(b, m) ← adjust_at x m;
      r ← retry ks;
      match r with
      | inl already_write =>
          if bool_decide (already_write > 0) then
            b ← adjust (pop already_write b);
            Ret (already_write, store x b m)
          else Ret (already_write, m)
      | inr EAGAIN => Ret (0, m)
      | inr _ => Ret (-1, m)
      end
  end.

(** ** The byte strings the buffers hold *)

(** [rb] holds the pending bytes [bs]. *)
Definition rb_repr (m : mem) (fl : Spec.free_lists) (rb : reactor_buf) (bs : list byte) : Prop :=
  match rb with
  | None => bs = []
  | Some x => exists b, held m fl x b /\ contents b = bs
  end.

(** The buffers held besides [rb] are unchanged and distinct from [rb']. *)
Definition frame_to (rb : reactor_buf) (m : mem) (fl : Spec.free_lists)
    (rb' : reactor_buf) (m' : mem) (fl' : Spec.free_lists) : Prop :=
  forall y b, Some y <> rb -> held m fl y b -> Some y <> rb' /\ held m' fl' y b.

(** The outcome of an operation on [rb]: a buffer that holds [bs], the rest of
    the memory as before. *)
Definition rb_post (rb : reactor_buf) (m : mem) (fl : Spec.free_lists)
    (rb' : reactor_buf) (m' : mem) (bs : list byte) : Prop :=
  exists fl', pool_ok m' fl' /\ rb_repr m' fl' rb' bs /\ frame_to rb m fl rb' m' fl'.

Lemma frame_to_same rb m fl m' fl' : frame rb m fl m' fl' -> frame_to rb m fl rb m' fl'.
Proof. intros H y b Hy Hh. auto. Qed.

Lemma frame_to_None rb m fl m' fl' : frame rb m fl m' fl' -> frame_to rb m fl None m' fl'.
Proof. intros H y b Hy Hh. auto. Qed.

(** Another buffer keeps what it holds. *)
Lemma rb_repr_frame rb m fl rb' m' fl' rb2 bs2 :
  frame_to rb m fl rb' m' fl' -> rb2 = None \/ rb2 <> rb -> rb_repr m fl rb2 bs2 ->
  rb_repr m' fl' rb2 bs2 /\ (rb2 = None \/ rb2 <> rb').
Proof.
  intros Hf Hne Hr. destruct rb2 as [y|]; simpl in *; [|by auto].
  destruct Hr as (b & Hh & Hc). destruct Hne as [|Hne]; [done|].
  destruct (Hf y b Hne Hh) as [? ?]. split; [by exists b|auto].
Qed.

Lemma rb_length_ok m fl rb bs : rb_repr m fl rb bs -> rb_length rb m = Ret (zlen bs).
Proof.
  destruct rb as [x|]; simpl; [|by intros ->].
  intros (b & (Hx & Hwf & _) & <-). unfold load. rewrite Hx. simpl. by rewrite zlen_contents.
Qed.

(** No buffer holds more than the largest class. *)
Lemma rb_repr_max m fl rb bs : pool_ok m fl -> rb_repr m fl rb bs -> zlen bs <= m4M.
Proof.
  intros Hok. destruct rb as [x|]; simpl; [|by intros ->]. intros (b & Hh & <-).
  pose proof (held_capacity m fl x b Hok Hh) as Hcap. pose proof (proj1 (proj2 Hh)) as Hwf. rewrite zlen_contents by done.
  destruct Hwf as (? & ? & ? & ?). lia.
Qed.

Lemma adjust_at_ok x b m fl :
  pool_ok m fl -> held m fl x b ->
  exists b', adjust_at x m = Ret (b', store x b' m) /\ b_head b' = 0 /\
    b_length b' = b_length b /\ b_capacity b' = b_capacity b /\ contents b' = contents b /\
    pool_ok (store x b' m) fl /\ held (store x b' m) fl x b' /\
    frame (Some x) m fl (store x b' m) fl.
Proof.
  intros Hok Hh. pose proof Hh as (Hx & Hwf & _). unfold adjust_at, load. rewrite Hx. simpl.
  assert (exists b', (if bool_decide (b_head b <> 0) then adjust b else Ret b) = Ret b' /\
    buf_wf b' /\ b_head b' = 0 /\ b_length b' = b_length b /\ b_capacity b' = b_capacity b /\
    contents b' = contents b) as (b' & -> & Hw & Hh0 & Hl & Hc & Hco).
  { destruct (adjust_ok b Hwf) as (b' & Ha & ? & ? & ? & ? & ? & ?).
    case_bool_decide as E; [by exists b'|]. exists b. assert (b_head b = 0) by lia. done. }
  simpl. exists b'. do 5 (split; [done|]). by apply store_held with b.
Qed.

Lemma move_to_ok nx x nb b m fl :
  pool_ok m fl -> held m fl x b -> held m fl nx nb -> nx <> x ->
  b_head b = 0 -> b_length b <= b_capacity nb ->
  exists m' fl' nb', move_to nx x m = Ret m' /\ pool_ok m' fl' /\ held m' fl' nx nb' /\
    contents nb' = contents b /\ b_head nb' = 0 /\ b_length nb' = b_length b /\
    b_capacity nb' = b_capacity nb /\
    (forall y b', y <> x -> y <> nx -> held m fl y b' -> held m' fl' y b').
Proof.
  intros Hok Hx Hnx Hne Hb0 Hfit. unfold move_to, load.
  rewrite (proj1 Hx), (proj1 Hnx). simpl.
  destruct (copy_ok nb b) as (nb' & -> & Hwf & Hh & Hl & Hc & _ & Hco);
    [apply Hnx|apply Hx|done|done|]. simpl.
  destruct (store_held nx nb nb' m fl Hok Hnx Hwf Hc) as (Hok1 & Hnx1 & Hfr1).
  assert (held (store nx nb' m) fl x b) as Hx1 by (apply Hfr1; [congruence|done]).
  destruct (revert_held x b _ _ Hok1 Hx1) as (m' & fl' & -> & Hok' & Hfr2).
  exists m', fl', nb'. split; [done|]. split; [done|]. split; [apply Hfr2; [congruence|done]|].
  do 4 (split; [done|]). intros y b' Hyx Hynx Hy. apply Hfr2; [congruence|].
  apply Hfr1; [congruence|done].
Qed.

Section Theorems.
Context (raw : Z -> list byte) (raw_len : forall n, 0 <= n -> zlen (raw n) = n).

(** A larger buffer with the same pending bytes. *)
Lemma regrow_ok N x b m fl nx m1 :
  pool_ok m fl -> held m fl x b -> b_head b = 0 -> b_length b <= N ->
  alloc_buf raw N m = Ret (Some nx, m1) ->
  exists m' fl' nb, move_to nx x m1 = Ret m' /\ pool_ok m' fl' /\ held m' fl' nx nb /\
    contents nb = contents b /\ b_head nb = 0 /\ b_length nb = b_length b /\
    N <= b_capacity nb /\ frame (Some x) m fl m' fl'.
Proof.
  intros Hok Hx Hb0 HN Ha.
  destruct (alloc_held raw raw_len _ _ _ _ _ Hok Ha) as (fl1 & nb & Hok1 & Hnx & _ & _ & Hcap & Hfr).
  destruct (Hfr _ _ Hx) as [Hne Hx1].
  destruct (move_to_ok nx x nb b m1 fl1) as (m' & fl' & nb' & Hm & Hok' & Hh & Hco & H0 & Hl & Hc & Hfr');
    try done; [lia|].
  exists m', fl', nb'. do 6 (split; [done|]). split; [lia|].
  intros y b' Hy Hheld. destruct (Hfr _ _ Hheld) as [? ?]. apply Hfr'; [congruence|done|done].
Qed.

(** Appending to a held buffer with room. *)
Lemma append_held x b bs m fl :
  pool_ok m fl -> held m fl x b -> b_head b = 0 -> b_length b + zlen bs <= b_capacity b ->
  exists b', append bs b = Ret b' /\ pool_ok (store x b' m) fl /\
    rb_repr (store x b' m) fl (Some x) (contents b ++ bs) /\
    frame (Some x) m fl (store x b' m) fl.
Proof.
  intros Hok Hx H0 Hfit. pose proof Hx as (_ & Hwf & _).
  destruct (append_ok b bs Hwf H0 Hfit) as (b' & Ha & Hw' & _ & _ & Hc & _ & Hco).
  destruct (store_held x b b' m fl Hok Hx Hw' Hc) as (? & ? & ?).
  exists b'. split; [done|]. split; [done|]. split; [|done]. by exists b'.
Qed.

(** The buffer [read_data] reads into: it holds the pending bytes from offset 0
    and has room for [need] more. *)
Definition room_post (need : Z) (rb : reactor_buf) (m : mem) (fl : Spec.free_lists)
    (bs : list byte) (x : loc) (m' : mem) : Prop :=
  exists fl' b, pool_ok m' fl' /\ held m' fl' x b /\ contents b = bs /\ b_head b = 0 /\
    b_length b = zlen bs /\ b_length b + need <= b_capacity b /\
    (forall y b', Some y <> rb -> held m fl y b' -> y <> x /\ held m' fl' y b').

Lemma read_room_ok need rb m fl bs :
  0 <= need -> pool_ok m fl -> rb_repr m fl rb bs ->
  match read_room raw need rb m with
  | Ret (Some x, m') => room_post need rb m fl bs x m'
  | Ret (None, m') => rb = None /\ m4M < need /\ m' = m
  | Stop NullDeref => rb <> None /\ m4M < need + zlen bs
  | Stop e => e = Exit 0 /\ mem_short 4096 m
  end.
Proof.
  intros Hneed Hok Hrb. destruct rb as [x|]; simpl in Hrb |- *.
  - destruct Hrb as (b & Hx & <-).
    destruct (adjust_at_ok x b m fl Hok Hx) as (b1 & -> & H0 & Hl & Hc & Hco & Hok1 & Hx1 & Hfr1).
    simpl. set (m1 := store x b1 m) in *.
    assert (mem_short 4096 m1 = mem_short 4096 m) as Ht1 by done. clearbody m1. rewrite <-Hco.
    pose proof (zlen_contents b1 (proj1 (proj2 Hx1))) as Hzl.
    case_bool_decide as Hroom; cycle 1.
    { exists fl, b1. do 5 (split; [done|]). split; [lia|].
      intros y b' Hy Hh. split; [congruence|]. by apply Hfr1. }
    destruct (alloc_buf raw (need + b_length b1) m1) as [[[nx|] m2]|e] eqn:Ha; simpl.
    + destruct (regrow_ok (need + b_length b1) x b1 m1 fl nx m2 Hok1 Hx1 H0 ltac:(lia) Ha)
        as (m3 & fl3 & nb & -> & Hok3 & Hn3 & Hco3 & Hh3 & Hl3 & Hc3 & Hfr3). simpl.
      exists fl3, nb. do 4 (split; [done|]). split; [lia|]. split; [lia|].
      intros y b' Hy Hh. assert (held m1 fl y b') as Hh1 by (by apply Hfr1).
      destruct (alloc_held raw raw_len _ _ _ _ _ Hok1 Ha) as (? & ? & ? & ? & ? & ? & ? & Hal).
      split; [by destruct (Hal _ _ Hh1)|]. by apply Hfr3.
    + apply alloc_None in Ha as [-> Hbig]. split; [done|lia].
    + destruct (alloc_Stop raw raw_len _ _ _ _ Hok1 Ha) as [-> Hs]. rewrite Ht1 in Hs. done.
  - subst bs. destruct (alloc_buf raw need m) as [[[x|] m1]|e] eqn:Ha.
    + destruct (alloc_held raw raw_len _ _ _ _ _ Hok Ha) as (fl1 & b & Hok1 & Hx & Hl & Hh & Hcap & Hfr).
      exists fl1, b. do 2 (split; [done|]). split; [by apply contents_nil|]. split; [done|].
      split; [unfold zlen; simpl; lia|]. split; [lia|]. intros y b' _ Hy. by apply Hfr.
    + apply alloc_None in Ha as [-> Hbig]. done.
    + by destruct (alloc_Stop raw raw_len _ _ _ _ Hok Ha) as [-> Hs].
Qed.

(** When [FIONREAD] reported [n > 0] bytes and [read], after any number of
    interruptions, delivers these [n] bytes, [input_buf::read_data] appends them
    to the pending bytes, returns [n] and disturbs no other held buffer.  It
    returns -1 only without a buffer and with [n] above the largest class; with
    a buffer, the same shortage is a null dereference, because the code tests
    the old pointer. *)
Theorem read_data_ok chunk eintrs rest rb m fl bs :
  pool_ok m fl -> rb_repr m fl rb bs -> 0 < zlen chunk ->
  match read_data raw (Some (zlen chunk)) (replicate eintrs (inr EINTR) ++ inl chunk :: rest) rb m with
  | Ret (r, rb', m') =>
      (r = zlen chunk /\ rb_post rb m fl rb' m' (bs ++ chunk)) \/
      (r = -1 /\ rb = None /\ rb' = None /\ m' = m /\ m4M < zlen chunk)
  | Stop NullDeref => rb <> None /\ m4M < zlen bs + zlen chunk
  | Stop e => e = Exit 0 /\ mem_short 4096 m
  end.
Proof.
  intros Hok Hrb Hpos. unfold read_data.
  pose proof (read_room_ok (zlen chunk) rb m fl bs ltac:(lia) Hok Hrb) as Hroom.
  destruct (read_room raw (zlen chunk) rb m) as [[[x|] m1]|e]; simpl.
  - destruct Hroom as (fl1 & b & Hok1 & Hx & <- & H0 & Hl & Hfit & Hfr).
    rewrite retry_app by done. simpl. unfold load. rewrite (proj1 Hx). simpl.
    destruct (append_held x b chunk m1 fl1 Hok1 Hx H0 ltac:(lia)) as (b' & -> & Hok2 & Hr2 & Hfr2). simpl.
    rewrite (bool_decide_eq_true_2 (zlen chunk > 0)) by lia.
    rewrite (bool_decide_eq_true_2 (zlen chunk <> 0)) by lia.
    rewrite (bool_decide_eq_true_2 (zlen chunk = zlen chunk)) by done. simpl.
    left. split; [done|]. exists fl1. split; [done|]. split; [done|].
    intros y by' Hy Hh. destruct (Hfr _ _ Hy Hh). split; [congruence|]. apply Hfr2; [congruence|done].
  - right. naive_solver.
  - destruct e; try done. destruct Hroom. split; [done|lia].
Qed.

(** Whatever the kernel reports, a [read_data] that returns leaves a buffer with some
    pending bytes and disturbs no other held buffer. *)
Lemma read_data_any fionread ks rb m fl bs r rb' m' :
  (forall n, fionread = Some n -> 0 <= n) -> pool_ok m fl -> rb_repr m fl rb bs ->
  read_data raw fionread ks rb m = Ret (r, rb', m') -> exists bs', rb_post rb m fl rb' m' bs'.
Proof.
  intros Hn Hok Hrb. unfold read_data. destruct fionread as [need|]; cycle 1.
  { intros [= _ <- <-]. exists bs, fl. split; [done|]. split; [done|]. apply frame_to_same, frame_refl. }
  pose proof (read_room_ok need rb m fl bs (Hn need eq_refl) Hok Hrb) as Hroom.
  destruct (read_room raw need rb m) as [[[x|] m1]|e]; [| |done]; cbn [mbind res_mbind]; cycle 1.
  { destruct Hroom as (-> & _ & ->). intros [= _ <- <-]. exists bs, fl. split; [done|]. split; [done|].
    apply frame_to_same, frame_refl. }
  destruct Hroom as (fl1 & b & Hok1 & Hx & <- & H0 & Hl & Hfit & Hfr).
  assert (rb_post rb m fl (Some x) m1 (contents b)) as Hsame.
  { exists fl1. split; [done|]. split; [by exists b|]. intros y b' Hy Hh. destruct (Hfr y b' Hy Hh). split; [congruence|done]. }
  destruct (retry ks) as [[chunk|e]|]; cbn [mbind res_mbind]; [|intros [= _ <- <-]; by eexists|done].
  unfold load. rewrite (proj1 Hx). cbn [mbind res_mbind deref].
  destruct (decide (b_length b + zlen chunk <= b_capacity b)) as [Hle|Hgt]; cycle 1.
  { pose proof (proj1 (proj2 Hx)) as (_ & _ & _ & Hd). rewrite append_overflow by lia. done. }
  destruct (append_held x b chunk m1 fl1 Hok1 Hx H0 Hle) as (b' & -> & Hok2 & Hr2 & Hfr2). cbn [mbind res_mbind].
  case_bool_decide; [|intros [= _ <- <-]; by eexists]. intros Hrun. res_inv. simplify_eq.
  exists (contents b ++ chunk), fl1. split; [done|]. split; [done|].
  intros y b2 Hy Hh. destruct (Hfr _ _ Hy Hh). split; [congruence|]. apply Hfr2; [congruence|done].
Qed.

(** When [FIONREAD] reported 0, [read_data] still asks for 4096 bytes without
    making room: data that arrived in between and does not fit behind the
    pending bytes is written past the end of the block. *)
Theorem read_data_zero_overflow chunk rest x b m fl :
  pool_ok m fl -> held m fl x b -> b_capacity b < b_length b + zlen chunk ->
  read_data raw (Some 0) (inl chunk :: rest) (Some x) m = Stop OutOfBounds.
Proof.
  intros Hok Hx Hov. unfold read_data, read_room. simpl.
  destruct (adjust_at_ok x b m fl Hok Hx) as (b1 & -> & H0 & Hl & Hc & Hco & Hok1 & Hx1 & Hfr1).
  simpl. pose proof (proj1 (proj2 Hx1)) as (? & ? & ? & Hd).
  rewrite (bool_decide_eq_false_2 (b_capacity b1 - b_length b1 < 0)) by lia. simpl. unfold load. rewrite (proj1 Hx1). simpl.
  rewrite append_overflow by lia. done.
Qed.

(** [output_buf::send_data] appends the data to the pending bytes and returns
    0; it returns -1, with the pending bytes unchanged, only when pending and new
    bytes together exceed the largest buffer class; it stops only where 4096 KB
    more take the pool to its memory limit.  Other held buffers are untouched. *)
Theorem send_data_ok data rb m fl bs :
  pool_ok m fl -> rb_repr m fl rb bs ->
  match send_data raw data rb m with
  | Ret (r, rb', m') =>
      (r = 0 /\ rb_post rb m fl rb' m' (bs ++ data)) \/
      (r = -1 /\ m4M < zlen bs + zlen data /\ rb_post rb m fl rb' m' bs)
  | Stop e => e = Exit 0 /\ mem_short 4096 m
  end.
Proof.
  intros Hok Hrb. unfold send_data. pose proof (zlen_nonneg data) as Hnn. destruct rb as [x|]; simpl in Hrb.
  - destruct Hrb as (b & Hx & <-). pose proof (proj1 (proj2 Hx)) as Hwf.
    destruct (adjust_at_ok x b m fl Hok Hx) as (b1 & -> & H0 & Hl & Hc & Hco & Hok1 & Hx1 & Hfr1).
    simpl. set (m1 := store x b1 m) in *.
    assert (mem_short 4096 m1 = mem_short 4096 m) as Ht1 by done. clearbody m1. rewrite <-Hco.
    pose proof (zlen_contents b1 (proj1 (proj2 Hx1))) as Hzl.
    case_bool_decide as Hroom; cycle 1.
    { unfold load. simpl. rewrite (proj1 Hx1). simpl.
      destruct (append_held x b1 data m1 fl Hok1 Hx1 H0 ltac:(lia)) as (b' & -> & Hok2 & Hr2 & Hfr2).
      simpl. left. split; [done|]. exists fl. split; [done|]. split; [done|].
      apply frame_to_same. by eapply frame_trans. }
    destruct (alloc_buf raw (zlen data + b_length b1) m1) as [[[nx|] m2]|e] eqn:Ha; simpl.
    + destruct (regrow_ok (zlen data + b_length b1) x b1 m1 fl nx m2 Hok1 Hx1 H0 ltac:(lia) Ha)
        as (m3 & fl3 & nb & -> & Hok3 & Hn3 & Hco3 & Hh3 & Hl3 & Hc3 & Hfr3). simpl.
      unfold load. rewrite (proj1 Hn3). simpl.
      destruct (append_held nx nb data m3 fl3 Hok3 Hn3 Hh3 ltac:(lia)) as (b' & -> & Hok4 & Hr4 & Hfr4).
      simpl. left. split; [done|]. exists fl3. split; [done|]. split; [by rewrite <-Hco3|].
      intros y by' Hy Hh. destruct (alloc_held raw raw_len _ _ _ _ _ Hok1 Ha) as (? & ? & ? & ? & ? & ? & ? & Hal).
      assert (held m1 fl y by') as Hh1 by (by apply Hfr1).
      destruct (Hal _ _ Hh1). split; [congruence|]. apply Hfr4; [congruence|]. by apply Hfr3.
    + apply alloc_None in Ha as [-> Hbig]. right. split; [done|]. split; [lia|].
      exists fl. split; [done|]. split; [by exists b1|]. by apply frame_to_same.
    + rewrite <-Ht1. by eapply alloc_Stop.
  - subst bs. destruct (alloc_buf raw (zlen data) m) as [[[x|] m1]|e] eqn:Ha; simpl.
    + destruct (alloc_held raw raw_len _ _ _ _ _ Hok Ha) as (fl1 & b & Hok1 & Hx & Hl & Hh & Hcap & Hfr).
      unfold load. rewrite (proj1 Hx). simpl.
      destruct (append_held x b data m1 fl1 Hok1 Hx Hh ltac:(lia)) as (b' & -> & Hok2 & Hr2 & Hfr2).
      simpl. left. split; [done|]. exists fl1. split; [done|].
      rewrite contents_nil in Hr2 by done. split; [done|].
      intros y by' _ Hy. destruct (Hfr _ _ Hy). split; [congruence|]. apply Hfr2; [congruence|done].
    + apply alloc_None in Ha as [-> Hbig]. right. unfold zlen in *; simpl. split; [done|]. split; [lia|].
      exists fl. split; [done|]. split; [done|]. apply frame_to_None, frame_refl.
    + by eapply alloc_Stop.
Qed.

(** Queueing data allocates at most one buffer. *)
Lemma send_data_total data rb m r rb' m' :
  0 <= total_mem m -> send_data raw data rb m = Ret (r, rb', m') ->
  0 <= total_mem m' <= total_mem m + 4096.
Proof.
  intros H0 H. unfold send_data, adjust_at, move_to, load in H.
  assert (forall x b m1, total_mem (store x b m1) = total_mem m1) as Hst by done.
  repeat (res_inv; simplify_eq; repeat case_match; simplify_eq;
          repeat match goal with
          | Ha : alloc_buf raw _ _ = Ret _ |- _ => apply alloc_total in Ha; [|rewrite ?Hst; lia]
          | Hv : revert _ _ = Ret _ |- _ => apply revert_total in Hv
          end); rewrite ?Hst in *; lia.
Qed.

(** So does reading. *)
Lemma read_data_total fionread ks rb m r rb' m' :
  0 <= total_mem m -> read_data raw fionread ks rb m = Ret (r, rb', m') -> total_mem m' <= total_mem m + 4096.
Proof.
  intros H0 H. unfold read_data, read_room, adjust_at, move_to, load in H.
  assert (forall x b m1, total_mem (store x b m1) = total_mem m1) as Hst by done.
  repeat (res_inv; simplify_eq; repeat case_match; simplify_eq;
          repeat match goal with
          | Ha : alloc_buf raw _ _ = Ret _ |- _ => apply alloc_total in Ha; [|rewrite ?Hst; lia]
          | Hv : revert _ _ = Ret _ |- _ => apply revert_total in Hv
          end); rewrite ?Hst in *; lia.
Qed.
End Theorems.

Lemma rb_pop_total len rb m m' : rb_pop len rb m = Ret m' -> total_mem m' = total_mem m.
Proof. unfold rb_pop. destruct rb; [|done]. intros H. res_inv. by subst. Qed.

Lemma ib_adjust_total rb m m' : ib_adjust rb m = Ret m' -> total_mem m' = total_mem m.
Proof. unfold ib_adjust. destruct rb; [|by intros [= <-]]. intros H. res_inv. by subst. Qed.

(** [output_buf::write2fd] hands the pending bytes to [write] from the front:
    when [write] accepts [n] of them the first [n] are dropped and [n] is
    returned; EAGAIN gives 0 and any other error -1 with nothing dropped. *)
Theorem write2fd_ok eintrs r rest x m fl bs :
  pool_ok m fl -> rb_repr m fl (Some x) bs ->
  match r with inl n => 0 <= n | inr e => e <> EINTR end ->
  exists m', write2fd (replicate eintrs (inr EINTR) ++ r :: rest) (Some x) m =
      Ret (match r with inl n => n | inr EAGAIN => 0 | inr _ => -1 end, m') /\
    rb_post (Some x) m fl (Some x) m' (match r with inl n => drop (Z.to_nat n) bs | inr _ => bs end).
Proof.
  intros Hok (b & Hx & <-) Hr. unfold write2fd.
  destruct (adjust_at_ok x b m fl Hok Hx) as (b1 & -> & H0 & Hl & Hc & Hco & Hok1 & Hx1 & Hfr1).
  simpl. set (m1 := store x b1 m) in *. clearbody m1. rewrite <-Hco.
  assert (rb_post (Some x) m fl (Some x) m1 (contents b1)) as Hsame.
  { exists fl. split; [done|]. split; [by exists b1|]. by apply frame_to_same. }
  rewrite retry_app by (destruct r; naive_solver). simpl. destruct r as [n|e].
  - case_bool_decide as Hn; cycle 1.
    { exists m1. split; [done|]. replace n with 0 by lia. by rewrite drop_0. }
    pose proof Hx1 as (_ & Hwf & _).
    destruct (pop_ok b1 n Hwf Hr) as (Hwp & _ & Hcp).
    destruct (adjust_ok _ Hwp) as (b2 & -> & Hw2 & _ & _ & Hc2 & _ & Hco2). simpl.
    destruct (store_held x b1 b2 m1 fl Hok1 Hx1 Hw2) as (Hok2 & Hx2 & Hfr2); [by rewrite Hc2|].
    eexists; split; [done|]. exists fl. split; [done|].
    split; [exists b2; split; [done|]; by rewrite Hco2|]. apply frame_to_same. by eapply frame_trans.
  - destruct e; try done; by eexists.
Qed.

(** Whatever [write] reports, a [write2fd] that returns keeps its buffer. *)
Lemma write2fd_any ks rb m fl bs r m' :
  pool_ok m fl -> rb_repr m fl rb bs -> write2fd ks rb m = Ret (r, m') -> exists bs', rb_post rb m fl rb m' bs'.
Proof.
  intros Hok Hrb. destruct rb as [x|]; [|done]. destruct Hrb as (b & Hx & <-). unfold write2fd.
  destruct (adjust_at_ok x b m fl Hok Hx) as (b1 & -> & H0 & Hl & Hc & Hco & Hok1 & Hx1 & Hfr1).
  cbn [mbind res_mbind]. set (m1 := store x b1 m) in *. clearbody m1.
  assert (rb_post (Some x) m fl (Some x) m1 (contents b1)) as Hsame.
  { exists fl. split; [done|]. split; [by exists b1|]. by apply frame_to_same. }
  destruct (retry ks) as [[n|[]]|]; cbn [mbind res_mbind]; try (intros [= _ <-]; by eexists).
  case_bool_decide as Hn; [|intros [= _ <-]; by eexists].
  pose proof Hx1 as (_ & Hwf & _). destruct (pop_ok b1 n Hwf ltac:(lia)) as (Hwp & _ & Hcp).
  destruct (adjust_ok _ Hwp) as (b2 & -> & Hw2 & _ & _ & Hc2 & _ & Hco2). cbn [mbind res_mbind].
  destruct (store_held x b1 b2 m1 fl Hok1 Hx1 Hw2) as (Hok2 & Hx2 & Hfr2); [by rewrite Hc2|].
  intros [= _ <-]. exists (contents b2), fl. split; [done|]. split; [by exists b2|]. apply frame_to_same. by eapply frame_trans.
Qed.

(** Dropping the front of the pending bytes. *)
Lemma rb_pop_ok len x m fl bs :
  pool_ok m fl -> rb_repr m fl (Some x) bs -> 0 <= len <= zlen bs ->
  exists m', rb_pop len (Some x) m = Ret m' /\
    rb_post (Some x) m fl (Some x) m' (drop (Z.to_nat len) bs).
Proof.
  intros Hok (b & Hx & <-) Hlen. pose proof Hx as (Hb & Hwf & _).
  rewrite zlen_contents in Hlen by done. unfold rb_pop, load. rewrite Hb. simpl.
  rewrite bool_decide_eq_true_2 by lia. simpl. eexists; split; [done|].
  destruct (pop_ok b len Hwf ltac:(lia)) as (Hwp & _ & Hcp).
  destruct (store_held x b (pop len b) m fl Hok Hx Hwp eq_refl) as (? & ? & ?).
  exists fl. split; [done|]. split; [by exists (pop len b)|]. by apply frame_to_same.
Qed.

Lemma rb_pop_any len rb m fl bs m' :
  0 <= len -> pool_ok m fl -> rb_repr m fl rb bs -> rb_pop len rb m = Ret m' ->
  rb_post rb m fl rb m' (drop (Z.to_nat len) bs).
Proof.
  intros H0 Hok Hrb Hp. destruct rb as [x|]; [|done]. assert (len <= zlen bs) as Hle.
  { destruct Hrb as (b & (Hb & Hwf & _) & <-). unfold rb_pop, load in Hp. rewrite Hb in Hp. cbn [mbind res_mbind deref] in Hp.
    res_inv. rewrite zlen_contents by done. by eapply bool_decide_eq_true_1. }
  destruct (rb_pop_ok len x m fl bs Hok Hrb (conj H0 Hle)) as (m2 & Hp2 & Hpost). rewrite Hp in Hp2. by simplify_eq.
Qed.

Lemma rb_clear_ok rb m fl bs :
  pool_ok m fl -> rb_repr m fl rb bs ->
  exists m', rb_clear rb m = Ret (None, m') /\ rb_post rb m fl None m' [].
Proof.
  intros Hok Hrb. destruct rb as [x|]; simpl.
  - destruct Hrb as (b & Hx & _). destruct (revert_held x b m fl Hok Hx) as (m' & fl' & -> & ? & ?).
    simpl. eexists; split; [done|]. exists fl'. split; [done|]. split; [done|]. by apply frame_to_None.
  - eexists; split; [done|]. exists fl. split; [done|]. split; [done|]. apply frame_to_None, frame_refl.
Qed.

Lemma ib_adjust_ok rb m fl bs :
  pool_ok m fl -> rb_repr m fl rb bs ->
  exists m', ib_adjust rb m = Ret m' /\ rb_post rb m fl rb m' bs.
Proof.
  intros Hok Hrb. destruct rb as [x|]; simpl.
  - destruct Hrb as (b & Hx & <-). unfold load. rewrite (proj1 Hx). simpl.
    destruct (adjust_ok b (proj1 (proj2 Hx))) as (b' & -> & Hw & _ & _ & Hc & _ & Hco). simpl.
    destruct (store_held x b b' m fl Hok Hx Hw Hc) as (? & ? & ?).
    eexists; split; [done|]. exists fl. split; [done|]. split; [by exists b'|]. by apply frame_to_same.
  - eexists; split; [done|]. exists fl. split; [done|]. split; [done|]. apply frame_to_None, frame_refl.
Qed.
