(* ===== verification/Message.v ===== *)
(** * Messages: the frame header and the router (lrlb_reactor/include/message.h)

    Every message travels as an 8-byte header, the object representation of
    [msg_head], followed by [msglen] body bytes.  The router maps a message id
    to the callback registered for it and to the user data of that callback. *)

From S2P Require Import Prelude.

(** [struct msg_head]. *)
Record msg_head := MsgHead { msgid : Z; msglen : Z }.

Definition MESSAGE_HEAD_LEN : Z := 8.
Definition MESSAGE_LENGTH_LIMIT : Z := 65535 - MESSAGE_HEAD_LEN.

(** The 8 bytes [memcpy] copies out of a [msg_head], and the [msg_head] it fills
    from 8 bytes. *)
Definition head_bytes (h : msg_head) : list byte := int_bytes (msgid h) ++ int_bytes (msglen h).
Definition bytes_head (bs : list byte) : msg_head :=
  MsgHead (bytes_int (take 4 bs)) (bytes_int (take 4 (drop 4 bs))).

(** A whole frame. *)
Definition frame_bytes (id : Z) (body : list byte) : list byte :=
  head_bytes (MsgHead id (zlen body)) ++ body.

#[global] Arguments head_bytes : simpl never.
#[global] Arguments bytes_head : simpl never.
#[global] Arguments frame_bytes : simpl never.

Lemma length_head_bytes h : length (head_bytes h) = 8%nat.
Proof. unfold head_bytes. by rewrite length_app, !length_int_bytes. Qed.

Lemma zlen_head_bytes h : zlen (head_bytes h) = MESSAGE_HEAD_LEN.
Proof. unfold zlen. by rewrite length_head_bytes. Qed.

Lemma bytes_head_bytes h rest :
  is_s32 (msgid h) -> is_s32 (msglen h) -> bytes_head (head_bytes h ++ rest) = h.
Proof.
  intros Hi Hl. destruct h as [i l]. unfold bytes_head, head_bytes. cbn [msgid msglen] in *.
  rewrite <-app_assoc. pose proof (length_int_bytes i) as Li. pose proof (length_int_bytes l) as Ll.
  f_equal.
  - rewrite take_app_le by lia. rewrite take_ge by lia. by apply bytes_int_bytes.
  - rewrite drop_app_le by lia. rewrite drop_ge, app_nil_l by lia.
    rewrite take_app_le by lia. rewrite take_ge by lia. by apply bytes_int_bytes.
Qed.

Lemma drop_head_bytes h rest : drop 8 (head_bytes h ++ rest) = rest.
Proof.
  replace 8%nat with (length (head_bytes h)) by apply length_head_bytes. apply drop_app_length.
Qed.

Lemma zlen_frame_bytes id body : zlen (frame_bytes id body) = MESSAGE_HEAD_LEN + zlen body.
Proof. unfold frame_bytes. by rewrite zlen_app, zlen_head_bytes. Qed.

(** ** The router *)
Section Router.
(** Callback functions and the objects user data points to. *)
Context {CB A : Type}.

(** [class msg_router]: [_router] and [_args]; null user data is [None]. *)
Record msg_router := MsgRouter { _router : gmap Z CB; _args : gmap Z (option A) }.

Definition msg_router_new : msg_router := MsgRouter ∅ ∅.

(** [register_msg_router]. *)
Definition register_msg_router (id : Z) (cb : CB) (user_data : option A) (r : msg_router)
    : Z * msg_router :=
  if bool_decide (is_Some (_router r !! id)) then (-1, r)
  else (0, MsgRouter (<[id := cb]> (_router r)) (<[id := user_data]> (_args r))).

(** [call]: the callback and user data looked up for a message; nothing for an id
    that is not registered. *)
Definition route (r : msg_router) (id : Z) : option (CB * option A) :=
  if bool_decide (is_Some (_router r !! id))
  then cb ← _router r !! id; Some (cb, default None (_args r !! id))
  else None.

Definition call {W : Type} (run : CB -> list byte -> Z -> Z -> option A -> W -> res W)
    (r : msg_router) (id : Z) (len : Z) (data : list byte) (w : W) : res W :=
  match route r id with
  | None => Ret w
  | Some (cb, user_data) => run cb data (u32 len) id user_data w
  end.

(** A message id keeps the first callback registered for it: registering
    succeeds once, later registrations of the same id return -1 and change
    nothing, and other ids are never affected. *)
Theorem register_route id cb ud r id' :
  let '(ret, r') := register_msg_router id cb ud r in
  match route r id with
  | Some old => ret = -1 /\ r' = r
  | None => ret = 0 /\ route r' id = Some (cb, ud)
  end /\ (id' <> id -> route r' id' = route r id').
Proof.
  unfold register_msg_router, route. destruct (_router r !! id) as [old|] eqn:E.
  - rewrite !bool_decide_eq_true_2 by (by eexists). simpl. done.
  - rewrite !(bool_decide_eq_false_2 (is_Some None)) by (by intros []). simpl. split.
    + split; [done|]. rewrite lookup_insert_eq. simpl. by rewrite lookup_insert_eq.
    + intros Hne. by rewrite !lookup_insert_ne.
Qed.

Lemma route_register id cb ud r id' :
  route r id = None -> route (register_msg_router id cb ud r).2 id' = if bool_decide (id' = id) then Some (cb, ud) else route r id'.
Proof.
  intros Hn. pose proof (register_route id cb ud r id') as Hr. destruct (register_msg_router id cb ud r) as [ret r'].
  rewrite Hn in Hr. destruct Hr as [[_ H1] H2]. simpl. case_bool_decide; [by subst|auto].
Qed.
End Router.

Arguments msg_router : clear implicits.

(** ** Cutting a byte stream into messages

    The reference for the receiving loop of the server: as long as more than a
    header is pending, a header with an impossible length makes the stream bad, a
    frame that is complete is taken off, and an incomplete one is left. *)
Definition bad_len (n : Z) : Prop := n > MESSAGE_LENGTH_LIMIT \/ n < 0.

Fixpoint deframe_fuel (fuel : nat) (bs : list byte) : list (Z * list byte) * list byte * bool :=
  match fuel with
  | O => ([], bs, false)
  | S fuel =>
      if bool_decide (zlen bs > MESSAGE_HEAD_LEN) then
        let h := bytes_head bs in
        if bool_decide (msglen h > MESSAGE_LENGTH_LIMIT \/ msglen h < 0) then ([], bs, true)
        else if bool_decide (zlen bs < MESSAGE_HEAD_LEN + msglen h) then ([], bs, false)
        else
          let body := take (Z.to_nat (msglen h)) (drop 8 bs) in
          let '(ms, rest, bad) := deframe_fuel fuel (drop (8 + Z.to_nat (msglen h)) bs) in
          ((msgid h, body) :: ms, rest, bad)
      else ([], bs, false)
  end.

(** Every message takes at least its header, so the length is fuel enough. *)
Definition deframe (bs : list byte) : list (Z * list byte) * list byte * bool :=
  deframe_fuel (length bs) bs.

Lemma deframe_fuel_enough n bs : (length bs <= n)%nat -> deframe_fuel n bs = deframe bs.
Proof.
  unfold deframe. remember (length bs) as k eqn:Hk.
  assert (forall n k bs, (length bs <= n)%nat -> (length bs <= k)%nat ->
            deframe_fuel n bs = deframe_fuel k bs) as Hgen; [|intros; apply Hgen; lia].
  clear. induction n as [|n IH]; intros k bs Hn Hk.
  - destruct bs; [|simpl in Hn; lia]. by destruct k.
  - destruct k as [|k]; [destruct bs; [done|simpl in Hk; lia]|]. cbn [deframe_fuel].
    repeat case_bool_decide; try done.
    assert (0 < length bs)%nat by (unfold zlen, MESSAGE_HEAD_LEN in *; lia).
    rewrite (IH k); [done| |]; rewrite length_drop; lia.
Qed.

Lemma deframe_step bs :
  deframe bs =
  if bool_decide (zlen bs > MESSAGE_HEAD_LEN) then
    let h := bytes_head bs in
    if bool_decide (msglen h > MESSAGE_LENGTH_LIMIT \/ msglen h < 0) then ([], bs, true)
    else if bool_decide (zlen bs < MESSAGE_HEAD_LEN + msglen h) then ([], bs, false)
    else
      let body := take (Z.to_nat (msglen h)) (drop 8 bs) in
      let '(ms, rest, bad) := deframe (drop (8 + Z.to_nat (msglen h)) bs) in
      ((msgid h, body) :: ms, rest, bad)
  else ([], bs, false).
Proof.
  rewrite <-(deframe_fuel_enough (S (length bs))) by lia. cbn [deframe_fuel].
  repeat case_bool_decide; try done. rewrite deframe_fuel_enough; [done|]. rewrite length_drop. lia.
Qed.

(** What waits for more bytes is shorter than the longest message. *)
Lemma deframe_rest bs msgs rest :
  deframe bs = (msgs, rest, false) -> zlen rest <= MESSAGE_HEAD_LEN + MESSAGE_LENGTH_LIMIT.
Proof.
  unfold deframe. generalize (Nat.le_refl (length bs)). generalize (length bs) at 2 3 as n.
  intros n. revert bs msgs. induction n as [|n IH]; intros bs msgs Hn; cbn [deframe_fuel].
  { intros [= _ <-]. destruct bs; [done|simpl in Hn; lia]. }
  case_bool_decide as Hlen; [|intros [= _ <-]; unfold MESSAGE_LENGTH_LIMIT, MESSAGE_HEAD_LEN in *; lia].
  case_bool_decide as Hbad; [done|]. case_bool_decide as Hshort; [intros [= _ <-]; lia|].
  destruct (deframe_fuel n _) as [[ms0 rest0] bad0] eqn:E. intros [= _ <- ->].
  eapply IH; [|exact E]. rewrite length_drop. unfold zlen, MESSAGE_HEAD_LEN in *. lia.
Qed.

Lemma bytes_head_app bs bs' : zlen bs > MESSAGE_HEAD_LEN -> bytes_head (bs ++ bs') = bytes_head bs.
Proof.
  unfold zlen, MESSAGE_HEAD_LEN, bytes_head. intros H.
  rewrite take_app_le, drop_app_le, take_app_le by (rewrite ?length_drop; lia). done.
Qed.

(** How TCP cuts the stream does not matter: cutting [a] first and going on
    with what was left of it and the bytes [b] that arrive later gives the
    messages, the remainder and the verdict of cutting [a ++ b] at once. *)
Theorem deframe_app a b ms rest :
  deframe a = (ms, rest, false) ->
  deframe (a ++ b) =
  (let '(ms', rest', bad') := deframe (rest ++ b) in (ms ++ ms', rest', bad')).
Proof.
  remember (length a) as n eqn:Hn. revert a Hn ms rest.
  induction n as [n IH] using lt_wf_ind. intros a -> ms rest Ha.
  rewrite deframe_step in Ha. case_bool_decide as Hlen; cycle 1.
  { simplify_eq. by destruct (deframe (rest ++ b)) as [[??]?]. }
  cbv zeta in Ha. case_bool_decide as Hbad; [done|]. case_bool_decide as Hshort.
  { simplify_eq. by destruct (deframe (rest ++ b)) as [[??]?]. }
  set (k := (8 + Z.to_nat (msglen (bytes_head a)))%nat) in *.
  assert (0 <= msglen (bytes_head a) /\ (k <= length a)%nat) as [Hpos Hk].
  { unfold zlen, MESSAGE_HEAD_LEN in *. lia. }
  destruct (deframe (drop k a)) as [[ms0 rest0] bad0] eqn:Hd. simplify_eq.
  specialize (IH (length (drop k a)) ltac:(rewrite length_drop; unfold zlen, MESSAGE_HEAD_LEN in *; lia)
                (drop k a) eq_refl _ _ Hd).
  rewrite (deframe_step (a ++ b)). rewrite bool_decide_eq_true_2 by (rewrite zlen_app; pose proof (zlen_nonneg b); lia).
  rewrite bytes_head_app by done. cbv zeta. rewrite (bool_decide_eq_false_2 _ Hbad).
  rewrite bool_decide_eq_false_2 by (rewrite zlen_app; pose proof (zlen_nonneg b); lia).
  fold k. rewrite drop_app_le by lia. rewrite IH.
  destruct (deframe (rest ++ b)) as [[ms' rest'] bad']. cbv beta iota.
  rewrite (drop_app_le a b 8) by (subst k; lia).
  rewrite take_app_le by (rewrite length_drop; subst k; lia). done.
Qed.

(** A message the sender may send: its id is an [int] and its body fits the limit. *)
Definition sendable (msg : Z * list byte) : Prop :=
  is_s32 msg.1 /\ zlen msg.2 <= MESSAGE_LENGTH_LIMIT.

(** The stream a sender produces. *)
Definition stream (msgs : list (Z * list byte)) : list byte :=
  concat ((fun msg => frame_bytes msg.1 msg.2) <$> msgs).

Lemma deframe_cons id body rest :
  sendable (id, body) -> body ++ rest <> [] ->
  deframe (frame_bytes id body ++ rest) =
  (let '(ms, r, bad) := deframe rest in ((id, body) :: ms, r, bad)).
Proof.
  intros [Hid Hlen] Hne. cbn [fst snd] in *. rewrite deframe_step.
  pose proof (zlen_nonneg body). pose proof (zlen_nonneg rest).
  assert (0 < zlen body + zlen rest) as Hpos.
  { rewrite <-zlen_app. unfold zlen. destruct (body ++ rest); [done|]. simpl. lia. }
  assert (bytes_head (frame_bytes id body ++ rest) = MsgHead id (zlen body)) as Hh.
  { unfold frame_bytes. rewrite <-app_assoc. apply bytes_head_bytes; [done|].
    unfold MESSAGE_LENGTH_LIMIT, MESSAGE_HEAD_LEN in *. cbn [msglen]. int_solve. }
  assert (drop 8 (frame_bytes id body ++ rest) = body ++ rest) as Hd.
  { unfold frame_bytes. rewrite <-app_assoc. apply drop_head_bytes. }
  rewrite bool_decide_eq_true_2 by (rewrite zlen_app, zlen_frame_bytes; lia).
  rewrite Hh. cbv zeta. cbn [msglen msgid].
  rewrite bool_decide_eq_false_2 by lia.
  rewrite bool_decide_eq_false_2 by (rewrite zlen_app, zlen_frame_bytes; lia).
  rewrite <-drop_drop, Hd.
  replace (Z.to_nat (zlen body)) with (length body) by (unfold zlen; lia).
  by rewrite drop_app_length, take_app_length.
Qed.

(** The stream of sendable messages that are not empty. *)
Lemma deframe_all msgs :
  Forall sendable msgs -> Forall (fun msg => msg.2 <> []) msgs -> deframe (stream msgs) = (msgs, [], false).
Proof.
  intros Hall Hne. induction Hall as [|[id body] msgs Hm Hall IH]; [done|].
  inversion_clear Hne. unfold stream in *. cbn [fmap list_fmap concat fst snd] in *.
  rewrite deframe_cons; [by rewrite IH|done|]. by intros [? _]%app_eq_nil.
Qed.

(** (C11) What a sender frames the receiver gets back: the stream of sendable
    messages whose last body is not empty is cut into exactly these messages,
    with nothing left over. *)
Theorem deframe_stream msgs id body :
  Forall sendable msgs -> sendable (id, body) -> body <> [] ->
  deframe (stream (msgs ++ [(id, body)])) = (msgs ++ [(id, body)], [], false).
Proof.
  intros Hall Hlast Hne. induction Hall as [|[i b] msgs Hm Hall IH]; unfold stream in *.
  - cbn [app fmap list_fmap concat fst snd]. rewrite deframe_cons; [done|done|]. by rewrite app_nil_r.
  - cbn [app fmap list_fmap concat fst snd] in *. rewrite deframe_cons; [by rewrite IH|done|].
    intros [_ Hnil]%app_eq_nil. rewrite fmap_app, concat_app in Hnil.
    cbn [fmap list_fmap concat fst snd] in Hnil.
    apply app_eq_nil in Hnil as [_ Hnil]. rewrite app_nil_r in Hnil.
    apply (f_equal zlen) in Hnil. rewrite zlen_frame_bytes in Hnil.
    pose proof (zlen_nonneg body). unfold MESSAGE_HEAD_LEN in Hnil. change (zlen (@nil byte)) with 0 in Hnil. lia.
Qed.

(** A message with an empty body that ends the stream is not delivered: the
    loop waits for more than a header, so the header stays pending. *)
Theorem deframe_empty_last id : deframe (frame_bytes id []) = ([], frame_bytes id [], false).
Proof. by rewrite deframe_step, bool_decide_eq_false_2 by (rewrite zlen_frame_bytes; done). Qed.

Lemma deframe_app_witness :
  deframe ((frame_bytes 1 [x41; x42] ++ [x02]) ++ drop 1 (frame_bytes 2 [x43])) =
  ([(1, [x41; x42]); (2, [x43])], [], false).
Proof.
  rewrite (deframe_app (frame_bytes 1 [x41; x42] ++ [x02]) (drop 1 (frame_bytes 2 [x43]))
             [(1, [x41; x42])] [x02]); vm_compute; reflexivity.
Defined.

Lemma deframe_stream_witness :
  deframe (stream ([(1, [])] ++ [(2, [x41])])) = ([(1, [])] ++ [(2, [x41])], [], false).
Proof.
  apply (deframe_stream [(1, [])] 2 [x41]).
  - repeat constructor; vm_compute; congruence.
  - repeat constructor; vm_compute; congruence.
  - discriminate.
Defined.
