(* ===== verification/EventLoop.v ===== *)
(** * event_loop: the reactor's dispatcher (lrlb_reactor/include/event_base.h,
      include/event_loop.h, src/event_loop.cpp)

    An event loop records, per file descriptor, the callbacks and the mask it
    believes to be registered, and keeps the kernel's interest list in step by
    [epoll_ctl].  The kernel is the interface [Epoll]; the file's theorems are
    proved against its laws. *)

From S2P Require Import Prelude.

Definition EPOLLIN : Z := 1.
Definition EPOLLOUT : Z := 4.
Definition EPOLLERR : Z := 8.
Definition EPOLLHUP : Z := 16.
Definition MAXEVENTS : Z := 10.

(** [events & bit]. *)
Definition has (events bit : Z) : bool := bool_decide (Z.land events bit <> 0).

Inductive epoll_op := EPOLL_CTL_ADD | EPOLL_CTL_MOD | EPOLL_CTL_DEL.

(** What the loop relies on of epoll(7): a control call either returns 0 and
    changes the entry of its descriptor as the operation says, or returns -1 and
    changes nothing; modifying or deleting an absent entry and adding a present
    one fail, deleting a present one does not. *)
Class Epoll (K : Type) := {
  epoll_new : K;
  epoll_ctl : epoll_op -> Z -> Z -> K -> Z * K;
  interest : K -> gmap Z Z;
  interest_new : interest epoll_new = ∅;
  epoll_ctl_spec op fd ev k :
    let '(r, k') := epoll_ctl op fd ev k in
    (r = -1 /\ interest k' = interest k) \/
    (r = 0 /\ match op with
              | EPOLL_CTL_ADD => interest k !! fd = None /\ interest k' = <[fd := ev]> (interest k)
              | EPOLL_CTL_MOD => is_Some (interest k !! fd) /\ interest k' = <[fd := ev]> (interest k)
              | EPOLL_CTL_DEL => is_Some (interest k !! fd) /\ interest k' = delete fd (interest k)
              end);
  epoll_del_present fd ev k :
    is_Some (interest k !! fd) -> (epoll_ctl EPOLL_CTL_DEL fd ev k).1 = 0
}.

(** A kernel in which every admissible call succeeds. *)
Definition simple_ctl (op : epoll_op) (fd ev : Z) (k : gmap Z Z) : Z * gmap Z Z :=
  match op, k !! fd with
  | EPOLL_CTL_ADD, None => (0, <[fd := ev]> k)
  | EPOLL_CTL_MOD, Some _ => (0, <[fd := ev]> k)
  | EPOLL_CTL_DEL, Some _ => (0, delete fd k)
  | _, _ => (-1, k)
  end.

#[export, refine] Instance simple_epoll : Epoll (gmap Z Z) := {|
  epoll_new := ∅; epoll_ctl := simple_ctl; interest k := k |}.
Proof.
  - done.
  - intros op fd ev k. unfold simple_ctl.
    destruct op, (k !! fd) eqn:E; (left; done) || (right; split; [done|]; by eauto).
  - intros fd ev k [x Hx]. unfold simple_ctl. by rewrite Hx.
Defined.

Section Loop.
Context {K : Type} `{!Epoll K} {CB A TF : Type}.

(** [struct io_event]; [std::unordered_map] value-initialises a missing entry. *)
Record io_event := IoEvent {
  mask : Z;
  read_callback : option CB;
  write_callback : option CB;
  rcb_args : option A;
  wcb_args : option A
}.
Definition io_event_zero : io_event := IoEvent 0 None None None None.

(** [class event_loop]: the epoll instance, [_io_evs], [listen_fds] and
    [_ready_tasks]. *)
Record event_loop := EventLoop {
  _epfd : K;
  _io_evs : gmap Z io_event;
  listen_fds : gset Z;
  _ready_tasks : list (TF * option A)
}.

(** [event_loop::event_loop()], when [epoll_create1] succeeds. *)
Definition event_loop_new : event_loop := EventLoop epoll_new ∅ ∅ [].

(** [_io_evs[fd]] after [operator[]]. *)
Definition ev_get (l : event_loop) (fd : Z) : io_event := default io_event_zero (_io_evs l !! fd).

(** [event_loop::add_io_event(fd, proc, mask, args)]. *)
Definition add_io_event (fd : Z) (proc : option CB) (m : Z) (args : option A) (l : event_loop)
    : event_loop :=
  let '(final_mask, op) :=
    if bool_decide (is_Some (_io_evs l !! fd))
    then (Z.lor (mask (ev_get l fd)) m, EPOLL_CTL_MOD)
    else (m, EPOLL_CTL_ADD) in
  let e := ev_get l fd in
  let e :=
    if has m EPOLLIN
    then IoEvent final_mask proc (write_callback e) args (wcb_args e)
    else if has m EPOLLOUT
    then IoEvent final_mask (read_callback e) proc (rcb_args e) args
    else IoEvent final_mask (read_callback e) (write_callback e) (rcb_args e) (wcb_args e) in
  let evs := <[fd := e]> (_io_evs l) in
  let '(r, k) := epoll_ctl op fd final_mask (_epfd l) in
  EventLoop k evs (if bool_decide (r = -1) then listen_fds l else {[fd]} ∪ listen_fds l)
            (_ready_tasks l).

(** [event_loop::del_io_event(int fd)]. *)
Definition del_io_event (fd : Z) (l : event_loop) : event_loop :=
  EventLoop (epoll_ctl EPOLL_CTL_DEL fd 0 (_epfd l)).2 (delete fd (_io_evs l))
            (listen_fds l ∖ {[fd]}) (_ready_tasks l).

(** [event_loop::del_io_event(int fd, int mask)]: the recorded mask is read but
    not written back. *)
Definition del_io_event_mask (fd m : Z) (l : event_loop) : event_loop :=
  if bool_decide (is_Some (_io_evs l !! fd)) then
    let o_mask := Z.land (mask (ev_get l fd)) (Z.lnot m) in
    if bool_decide (o_mask = 0) then del_io_event fd l
    else EventLoop (epoll_ctl EPOLL_CTL_MOD fd o_mask (_epfd l)).2 (_io_evs l) (listen_fds l)
                   (_ready_tasks l)
  else l.

(** [event_loop::get_listen_fds]. *)
Definition get_listen_fds (l : event_loop) : gset Z := listen_fds l.

(** [event_loop::add_task]. *)
Definition add_task (f : TF) (args : option A) (l : event_loop) : event_loop :=
  EventLoop (_epfd l) (_io_evs l) (listen_fds l) (_ready_tasks l ++ [(f, args)]).

(** ** Dispatch

    The callbacks act on the state [W] of the thread that runs the loop, of which
    the loop is a part. *)
Section Process.
Context {W : Type} (get_loop : W -> event_loop) (set_loop : event_loop -> W -> W).
Context (run_io : CB -> Z -> option A -> W -> res W) (run_task : TF -> option A -> W -> res W).

(** The body of the loop over the fired events, for one event. *)
Definition fire (ev : Z * Z) (w : W) : res W :=
  let '(fd, events) := ev in
  match _io_evs (get_loop w) !! fd with
  | None => Stop AssertFail
  | Some e =>
      if has events EPOLLIN then
        match read_callback e with
        | Some cb => run_io cb fd (rcb_args e) w
        | None => Stop NullCall
        end
      else if has events EPOLLOUT then
        match write_callback e with
        | Some cb => run_io cb fd (wcb_args e) w
        | None => Stop NullCall
        end
      else if has events (Z.lor EPOLLHUP EPOLLERR) then
        Ret (set_loop (del_io_event fd (get_loop w)) w)
      else Ret w
  end.

Fixpoint fire_all (evs : list (Z * Z)) (w : W) : res W :=
  match evs with
  | [] => Ret w
  | ev :: evs => w ← fire ev w; fire_all evs w
  end.

(** The loop of [execute_ready_tasks]: a task that appends to [_ready_tasks]
    invalidates the iterator. *)
Fixpoint run_tasks (ts : list (TF * option A)) (w : W) : res W :=
  match ts with
  | [] => Ret w
  | (f, args) :: ts =>
      w' ← run_task f args w;
      if bool_decide (length (_ready_tasks (get_loop w')) = length (_ready_tasks (get_loop w)))
      then run_tasks ts w' else Stop Undefined
  end.

Definition clear_tasks (l : event_loop) : event_loop :=
  EventLoop (_epfd l) (_io_evs l) (listen_fds l) [].

(** [event_loop::execute_ready_tasks]. *)
Definition execute_ready_tasks (w : W) : res W :=
  w ← run_tasks (_ready_tasks (get_loop w)) w;
  Ret (set_loop (clear_tasks (get_loop w)) w).

(** One round of [event_loop::event_process], on what [epoll_wait] returned. *)
Definition process_round (fired : list (Z * Z)) (w : W) : res W :=
  w ← fire_all fired w;
  execute_ready_tasks w.

(** The rounds of [event_process] so far; the loop itself never returns. *)
Fixpoint event_process (rounds : list (list (Z * Z))) (w : W) : res W :=
  match rounds with
  | [] => Ret w
  | fired :: rounds => w ← process_round fired w; event_process rounds w
  end.
End Process.
End Loop.

Arguments io_event : clear implicits.
Arguments event_loop : clear implicits.

(** ** Masks *)
Definition mask_sub (a b : Z) : Prop := forall i, Z.testbit a i = true -> Z.testbit b i = true.

Lemma mask_sub_refl a : mask_sub a a.
Proof. by intros i. Qed.

Lemma has_false a c : has a c = false <-> Z.land a c = 0.
Proof. unfold has. rewrite bool_decide_eq_false. split; [intros H; by apply dec_stable|auto]. Qed.

Lemma has_sub a b c : mask_sub a b -> has a c = true -> has b c = true.
Proof.
  intros Hs. destruct (has b c) eqn:Hb; [done|]. apply has_false in Hb.
  assert (has a c = false) as ->; [|done]. apply has_false. apply Z.bits_inj'. intros i _.
  rewrite Z.bits_0, Z.land_spec. destruct (Z.testbit a i) eqn:Ea; [|done]. apply Hs in Ea. simpl.
  assert (Z.testbit (Z.land b c) i = false) as Hi by (by rewrite Hb, Z.bits_0).
  rewrite Z.land_spec, Ea in Hi. done.
Qed.

Lemma has_lor a b c : has (Z.lor a b) c = has a c || has b c.
Proof.
  unfold has. rewrite Z.land_lor_distr_l.
  pose proof (Z.lor_eq_0_iff (Z.land a c) (Z.land b c)).
  repeat case_bool_decide; simpl; naive_solver.
Qed.

Lemma mask_sub_lor a b m : mask_sub a b -> mask_sub a (Z.lor b m).
Proof. intros H i Hi. rewrite Z.lor_spec, (H i Hi). done. Qed.

Lemma mask_sub_land a m : mask_sub (Z.land a m) a.
Proof. intros i. rewrite Z.land_spec. by intros [??]%andb_prop. Qed.

(** ** The invariant of a loop

    An event the kernel may report has an entry whose callback for it is set. *)
Section Inv.
Context {K : Type} `{!Epoll K} {CB A TF : Type}.
Implicit Types (l : event_loop K CB A TF) (e : io_event CB A).

Definition covered e : Prop :=
  (has (mask e) EPOLLIN = true -> is_Some (read_callback e)) /\
  (has (mask e) EPOLLOUT = true -> is_Some (write_callback e)).

Record loop_inv l : Prop := {
  inv_covered fd e : _io_evs l !! fd = Some e -> covered e;
  inv_interest fd ev : interest (_epfd l) !! fd = Some ev ->
    exists e, _io_evs l !! fd = Some e /\ mask_sub ev (mask e);
  inv_listen fd : fd ∈ listen_fds l -> is_Some (_io_evs l !! fd)
}.

Lemma loop_inv_new : loop_inv event_loop_new.
Proof.
  split; simpl.
  - intros fd e. by rewrite lookup_empty.
  - intros fd ev. rewrite interest_new. by rewrite lookup_empty.
  - intros fd H. by apply not_elem_of_empty in H.
Qed.

(** The entry [add_io_event] stores for [fd], and the mask it registers. *)
Lemma add_io_event_entry fd cb m args l :
  m = EPOLLIN \/ m = EPOLLOUT -> loop_inv l ->
  exists e, _io_evs (add_io_event fd (Some cb) m args l) = <[fd := e]> (_io_evs l) /\ covered e /\
    mask_sub (mask (ev_get l fd)) (mask e) /\
    (forall ev, interest (_epfd (add_io_event fd (Some cb) m args l)) !! fd = Some ev -> mask_sub ev (mask e)).
Proof.
  intros Hm Hinv. unfold add_io_event.
  assert (covered (ev_get l fd)) as [Hr Hw].
  { unfold ev_get. destruct (_io_evs l !! fd) as [e|] eqn:E; [by eapply inv_covered|done]. }
  assert (forall fm op, let '(r, k) := epoll_ctl op fd fm (_epfd l) in
    (mask_sub (mask (ev_get l fd)) fm) ->
    forall ev, interest k !! fd = Some ev -> mask_sub ev fm) as Hk.
  { intros fm op. pose proof (epoll_ctl_spec op fd fm (_epfd l)) as Hs.
    destruct (epoll_ctl op fd fm (_epfd l)) as [r k].
    intros Hsub ev Hev. destruct Hs as [[_ Hs]|[_ Hs]].
    - rewrite Hs in Hev. destruct (inv_interest _ Hinv _ _ Hev) as (e & He & Hes).
      intros i Hi. apply Hsub. unfold ev_get. rewrite He. simpl. auto.
    - destruct op; destruct Hs as [_ Hs]; rewrite Hs in Hev; simplify_map_eq; apply mask_sub_refl. }
  case_bool_decide as Hex.
  - specialize (Hk (Z.lor (mask (ev_get l fd)) m) EPOLL_CTL_MOD).
    destruct (epoll_ctl _ _ _ _) as [r k]. simpl.
    assert (mask_sub (mask (ev_get l fd)) (Z.lor (mask (ev_get l fd)) m)) as Hs
      by (apply mask_sub_lor, mask_sub_refl).
    destruct Hm as [-> | ->]; (eexists; split; [done|]; split; [|split; [exact Hs|by apply Hk]]);
      split; simpl; rewrite has_lor; intros H; apply orb_prop in H as [H|H]; auto; done || (by eexists).
  - assert (ev_get l fd = io_event_zero) as He0.
    { unfold ev_get. destruct (_io_evs l !! fd); [by destruct Hex|done]. }
    specialize (Hk m EPOLL_CTL_ADD). destruct (epoll_ctl _ _ _ _) as [r k]. simpl.
    rewrite He0 in *. simpl in *.
    assert (mask_sub 0 m) as Hs by (intros i; by rewrite Z.bits_0).
    destruct Hm as [-> | ->]; (eexists; split; [done|]; split; [|split; [exact Hs|by apply Hk]]);
      split; simpl; intros H; done || (by eexists).
Qed.

(** The callback [add_io_event] records, and that it keeps the other one. *)
Lemma add_in_entry fd cb args l :
  let e := ev_get (add_io_event fd (Some cb) EPOLLIN args l) fd in
  read_callback e = Some cb /\ has (mask e) EPOLLIN = true.
Proof.
  unfold add_io_event, ev_get. simpl.
  case_bool_decide; destruct (epoll_ctl _ _ _ _); simpl; rewrite lookup_insert_eq; simpl; [|done].
  split; [done|]. by rewrite has_lor, orb_true_r.
Qed.

Lemma add_out_entry fd cb args l :
  let e := ev_get (add_io_event fd (Some cb) EPOLLOUT args l) fd in
  write_callback e = Some cb /\ has (mask e) EPOLLOUT = true /\
  read_callback e = read_callback (ev_get l fd) /\
  (has (mask (ev_get l fd)) EPOLLIN = true -> has (mask e) EPOLLIN = true).
Proof.
  unfold add_io_event, ev_get. simpl.
  case_bool_decide as Hex; destruct (epoll_ctl _ _ _ _); simpl; rewrite lookup_insert_eq; simpl.
  - rewrite !has_lor, orb_true_r. split_and!; try done. by intros ->.
  - destruct (_io_evs l !! fd) eqn:E; [by destruct Hex|]. simpl. by split_and!.
Qed.

Lemma add_io_event_frame fd fd' proc m args l :
  fd' <> fd ->
  interest (_epfd (add_io_event fd proc m args l)) !! fd' = interest (_epfd l) !! fd'.
Proof.
  intros Hne. unfold add_io_event.
  set (c := if bool_decide _ then _ else _). destruct c as [fm op].
  pose proof (epoll_ctl_spec op fd fm (_epfd l)) as Hs.
  destruct (epoll_ctl op fd fm (_epfd l)) as [r k]. simpl.
  destruct Hs as [[_ ->]|[_ Hs]]; [done|].
  destruct op; destruct Hs as [_ ->]; by rewrite ?lookup_insert_ne, ?lookup_delete_ne.
Qed.

Lemma loop_inv_add fd cb m args l :
  m = EPOLLIN \/ m = EPOLLOUT -> loop_inv l -> loop_inv (add_io_event fd (Some cb) m args l).
Proof.
  intros Hm Hinv. destruct (add_io_event_entry fd cb m args l Hm Hinv) as (e & He & Hc & Hs & Hi).
  split.
  - intros fd' e'. rewrite He, lookup_insert. case_decide; [naive_solver|]. by eapply inv_covered.
  - intros fd' ev Hev. rewrite He. destruct (decide (fd' = fd)) as [->|Hne].
    + exists e. rewrite lookup_insert_eq. auto.
    + rewrite lookup_insert_ne by done. rewrite add_io_event_frame in Hev by done.
      by eapply inv_interest.
  - intros fd' Hin. rewrite He, lookup_insert. case_decide; [by eexists|].
    apply (inv_listen _ Hinv). unfold add_io_event in Hin.
    repeat case_match; simplify_eq/=; set_solver.
Qed.

Lemma interest_del fd l :
  interest (_epfd (del_io_event fd l)) = delete fd (interest (_epfd l)).
Proof.
  simpl. pose proof (epoll_ctl_spec EPOLL_CTL_DEL fd 0 (_epfd l)) as Hs.
  pose proof (epoll_del_present fd 0 (_epfd l)) as Hp.
  destruct (epoll_ctl _ _ _ _) as [r k]. simpl in *.
  destruct Hs as [[-> Hs]|[_ [_ Hs]]]; [|done]. rewrite Hs. symmetry.
  apply delete_id. destruct (interest (_epfd l) !! fd) eqn:E; [|done].
  exfalso. specialize (Hp ltac:(by eexists)). lia.
Qed.

Lemma loop_inv_del fd l : loop_inv l -> loop_inv (del_io_event fd l).
Proof.
  intros Hinv. split.
  - intros fd' e. simpl. rewrite lookup_delete. case_decide; [done|]. by eapply inv_covered.
  - intros fd' ev. rewrite interest_del, lookup_delete. case_decide; [done|]. intros Hev.
    simpl. rewrite lookup_delete_ne by done. by eapply inv_interest.
  - intros fd'. simpl. intros [Hin Hne]%elem_of_difference. rewrite lookup_delete_ne by set_solver.
    by apply (inv_listen _ Hinv).
Qed.

Lemma loop_inv_del_mask fd m l : loop_inv l -> loop_inv (del_io_event_mask fd m l).
Proof.
  intros Hinv. unfold del_io_event_mask. case_bool_decide as Hex; [|done].
  case_bool_decide; [by apply loop_inv_del|]. destruct Hex as [e He].
  assert (ev_get l fd = e) as Hge by (unfold ev_get; by rewrite He). rewrite Hge in *.
  pose proof (epoll_ctl_spec EPOLL_CTL_MOD fd (Z.land (mask e) (Z.lnot m)) (_epfd l)) as Hs.
  destruct (epoll_ctl _ _ _ _) as [r k]. split; simpl.
  - intros fd' e'. by eapply inv_covered.
  - intros fd' ev Hev. destruct Hs as [[_ Hs]|[_ [_ Hs]]]; rewrite Hs in Hev;
      [by eapply inv_interest|]. rewrite lookup_insert in Hev. case_decide; [|by eapply inv_interest].
    simplify_eq. eexists; split; [done|]. apply mask_sub_land.
  - intros fd'. by apply (inv_listen _ Hinv).
Qed.

(** The states a loop can reach: descriptors are registered for reading or for
    writing, one at a time, with a callback, as the source prescribes. *)
Inductive loop_reach : event_loop K CB A TF -> Prop :=
| reach_new : loop_reach event_loop_new
| reach_add fd cb m args l :
    m = EPOLLIN \/ m = EPOLLOUT -> loop_reach l -> loop_reach (add_io_event fd (Some cb) m args l)
| reach_del fd l : loop_reach l -> loop_reach (del_io_event fd l)
| reach_del_mask fd m l : loop_reach l -> loop_reach (del_io_event_mask fd m l)
| reach_task f args l : loop_reach l -> loop_reach (add_task f args l)
| reach_clear l : loop_reach l -> loop_reach (clear_tasks l).

Lemma reach_inv l : loop_reach l -> loop_inv l.
Proof.
  induction 1 as [| | | |f args l _ [H1 H2 H3]|l _ [H1 H2 H3]];
    auto using loop_inv_new, loop_inv_add, loop_inv_del, loop_inv_del_mask; by constructor.
Qed.

(** An event [epoll_wait] may report for [fd]: bits of the registered mask, or
    error and hang-up. *)
Definition can_fire l (fd events : Z) : Prop :=
  exists ev, interest (_epfd l) !! fd = Some ev /\
    mask_sub events (Z.lor ev (Z.lor EPOLLERR EPOLLHUP)).

(** (C30) In every reachable loop an event the kernel may report is dispatched to the
    function registered for it, never to a null pointer, and the assertion on the
    entry holds: a readable descriptor runs its read callback on its arguments,
    one that is only writable its write callback, and one with only an error or a
    hang-up is removed from the loop. *)
Theorem fire_dispatch {W} (get_loop : W -> event_loop K CB A TF) set_loop run_io fd events w :
  loop_reach (get_loop w) -> can_fire (get_loop w) fd events ->
  exists en, _io_evs (get_loop w) !! fd = Some en /\
    let run := fire get_loop set_loop run_io (fd, events) w in
    if has events EPOLLIN then exists cb, read_callback en = Some cb /\ run = run_io cb fd (rcb_args en) w
    else if has events EPOLLOUT then exists cb, write_callback en = Some cb /\ run = run_io cb fd (wcb_args en) w
    else run = Ret (if has events (Z.lor EPOLLHUP EPOLLERR) then set_loop (del_io_event fd (get_loop w)) w else w).
Proof.
  intros Hr%reach_inv (ev & Hev & Hsub).
  destruct (inv_interest _ Hr _ _ Hev) as (en & Hen & Hm). exists en. split; [done|]. unfold fire. rewrite Hen.
  assert (mask_sub events (Z.lor (mask en) (Z.lor EPOLLERR EPOLLHUP))) as Hsub'.
  { intros i Hi. specialize (Hsub i Hi). rewrite Z.lor_spec in Hsub |- *.
    apply orb_prop in Hsub as [H|H]; [by rewrite (Hm i H)|]. by rewrite H, orb_true_r. }
  destruct (inv_covered _ Hr _ _ Hen) as [Hin Hout].
  destruct (has events EPOLLIN) eqn:Ei.
  - apply (has_sub _ _ _ Hsub') in Ei. rewrite has_lor in Ei.
    assert (has (Z.lor EPOLLERR EPOLLHUP) EPOLLIN = false) as Hn by done.
    rewrite Hn, orb_false_r in Ei. destruct (Hin Ei) as [cb Hcb]. rewrite Hcb. eauto.
  - destruct (has events EPOLLOUT) eqn:Eo; [|by case_match].
    apply (has_sub _ _ _ Hsub') in Eo. rewrite has_lor in Eo.
    assert (has (Z.lor EPOLLERR EPOLLHUP) EPOLLOUT = false) as Hn by done.
    rewrite Hn, orb_false_r in Eo. destruct (Hout Eo) as [cb Hcb]. rewrite Hcb. eauto.
Qed.

(** Tasks that do not add tasks run once each, in the order they were added. *)
Lemma run_tasks_app {W} (get_loop : W -> event_loop K CB A TF) run_task ts ts' w :
  run_tasks get_loop run_task (ts ++ ts') w =
  (run_tasks get_loop run_task ts w ≫= run_tasks get_loop run_task ts').
Proof.
  revert w; induction ts as [|[f args] ts IH]; intros w; simpl; [done|].
  destruct (run_task f args w) as [w'|]; simpl; [|done]. case_bool_decide; [apply IH|done].
Qed.
End Inv.

(** ** Removing one mask does not forget it

    The loop after registering both events on a descriptor. *)
Definition both_registered (cb : unit) : event_loop (gmap Z Z) unit unit unit :=
  add_io_event 5 (Some cb) EPOLLOUT None (add_io_event 5 (Some cb) EPOLLIN None event_loop_new).

(** [del_io_event(fd, mask)] does not store the reduced mask: after removing
    EPOLLOUT and then EPOLLIN from a descriptor registered for both, the kernel
    still watches it, for EPOLLOUT. *)
Theorem del_mask_resurrects :
  let l := del_io_event_mask 5 EPOLLIN (del_io_event_mask 5 EPOLLOUT (both_registered tt)) in
  interest (_epfd l) !! 5 = Some EPOLLOUT /\ 5 ∈ listen_fds l.
Proof. by vm_compute. Qed.

(** A loop with a reader on descriptor 3 runs that reader. *)
Lemma fire_dispatch_witness :
  let l : event_loop (gmap Z Z) Z unit unit := add_io_event 3 (Some 7) EPOLLIN None event_loop_new in
  exists en, _io_evs l !! 3 = Some en /\
    exists cb, read_callback en = Some cb /\
      fire (fun w : event_loop (gmap Z Z) Z unit unit => w) (fun l _ => l) (fun _ _ _ w => Ret w) (3, EPOLLIN) l = Ret l.
Proof.
  intros l.
  apply (fire_dispatch (fun w : event_loop (gmap Z Z) Z unit unit => w) (fun l _ => l) (fun _ _ _ w => Ret w) 3 EPOLLIN l).
  - apply reach_add; [left; reflexivity|apply reach_new].
  - exists EPOLLIN. split; [reflexivity|]. intros i Hi. rewrite Z.lor_spec, Hi. reflexivity.
Defined.
