(* ===== verification/ThreadPool.v ===== *)
(** * thread_queue, task_msg and thread_pool (lrlb_reactor/include/thread_queue.h,
      include/task_msg.h, include/thread_pool.h, src/thread_pool.cpp)

    A [thread_queue] pairs a mutex-protected queue with an eventfd that wakes the
    loop of the receiving thread.  The mutex makes [send] and [recv] atomic, so
    an execution of several senders and the receiver is a sequence of these
    operations.  The eventfd is the interface [EventFd]. *)

From S2P Require Import Prelude.

(** What the queue relies on of eventfd(2): the counter starts at 0, a write of 1
    adds 1 or fails and changes nothing, failing only on a counter at its
    maximum; a read empties the counter. *)
Class EventFd (E : Type) := {
  evfd_new : E;
  evfd_write : E -> (Z + errno) * E;
  evfd_read : E -> (Z + errno) * E;
  evfd_value : E -> Z;
  evfd_value_new : evfd_value evfd_new = 0;
  evfd_write_spec e :
    evfd_value (evfd_write e).2 = evfd_value e + 1 \/
    (evfd_value (evfd_write e).2 = evfd_value e /\ 18446744073709551614 <= evfd_value e);
  evfd_read_spec e : evfd_value (evfd_read e).2 = 0
}.

(** An eventfd as a counter that saturates. *)
#[export, refine] Instance counter_evfd : EventFd Z := {|
  evfd_new := 0;
  evfd_write e := if bool_decide (e < 18446744073709551614) then (inl 8, e + 1) else (inr EAGAIN, e);
  evfd_read e := if bool_decide (e = 0) then (inr EAGAIN, 0) else (inl 8, 0);
  evfd_value e := e |}.
Proof.
  - done.
  - intros e. case_bool_decide; simpl; lia.
  - intros e. by case_bool_decide.
Defined.

Section Queue.
Context {E : Type} `{!EventFd E} {T : Type}.

(** [class thread_queue<T>]: [_evfd], [_queue] and the loop it is bound to. *)
Record thread_queue := ThreadQueue {
  _evfd : E;
  _queue : list T;
  _tq_loop : option nat
}.

(** [thread_queue::thread_queue()], when [eventfd] succeeds. *)
Definition thread_queue_new : thread_queue := ThreadQueue evfd_new [] None.

(** [thread_queue::send]: a failed write is only reported. *)
Definition send (task : T) (q : thread_queue) : thread_queue :=
  ThreadQueue (evfd_write (_evfd q)).2 (_queue q ++ [task]) (_tq_loop q).

(** [thread_queue::recv(std::queue<T> &new_queue)]: the queue in [new_queue] after
    the call, and the thread queue, which has got the one passed in. *)
Definition recv (new_queue : list T) (q : thread_queue) : list T * thread_queue :=
  (_queue q, ThreadQueue (evfd_read (_evfd q)).2 new_queue (_tq_loop q)).

(** [thread_queue::set_loop] and [get_loop]. *)
Definition set_loop (loop : nat) (q : thread_queue) : thread_queue :=
  ThreadQueue (_evfd q) (_queue q) (Some loop).
Definition get_loop (q : thread_queue) : option nat := _tq_loop q.

(** ** What a queue delivers *)
Inductive tq_op := OpSend (t : T) | OpRecv.

(** Senders and a receiver that passes an empty queue, interleaved. *)
Fixpoint tq_run (ops : list tq_op) (q : thread_queue) : list (list T) * thread_queue :=
  match ops with
  | [] => ([], q)
  | OpSend t :: ops => tq_run ops (send t q)
  | OpRecv :: ops =>
      let '(batch, q) := recv [] q in
      let '(batches, q) := tq_run ops q in (batch :: batches, q)
  end.

Fixpoint sent (ops : list tq_op) : list T :=
  match ops with
  | [] => []
  | OpSend t :: ops => t :: sent ops
  | OpRecv :: ops => sent ops
  end.

(** The eventfd is readable whenever a task waits. *)
Definition wakes (q : thread_queue) : Prop :=
  0 <= evfd_value (_evfd q) /\ (_queue q <> [] -> 0 < evfd_value (_evfd q)).

Lemma wakes_new : wakes thread_queue_new.
Proof. unfold wakes, thread_queue_new; simpl. rewrite evfd_value_new. split; [done|]. by intros []. Qed.

Lemma wakes_send t q : wakes q -> wakes (send t q).
Proof.
  intros [H0 _]. unfold wakes, send; simpl.
  destruct (evfd_write_spec (_evfd q)) as [->|[-> ?]]; split; lia.
Qed.

Lemma wakes_recv q : wakes (recv [] q).2.
Proof. unfold wakes, recv; simpl. rewrite evfd_read_spec. split; [done|]. by intros []. Qed.

Lemma tq_run_inv ops q :
  wakes q ->
  concat (tq_run ops q).1 ++ _queue (tq_run ops q).2 = _queue q ++ sent ops /\
  wakes (tq_run ops q).2.
Proof.
  revert q; induction ops as [|[t|] ops IH]; intros q Hw; simpl.
  - by rewrite app_nil_r.
  - destruct (IH (send t q)) as [-> ?]; [by apply wakes_send|]. split; [|done].
    simpl. by rewrite <-app_assoc.
  - destruct (IH (recv [] q).2) as [IH1 IH2]; [apply wakes_recv|]. simpl in *.
    destruct (tq_run ops _) as [bs q']. simpl in *. by rewrite <-app_assoc, IH1.
Qed.

(** In every interleaving of sends and receives on a fresh queue the received
    batches, followed by what is still queued, are the tasks sent, in order and
    without loss or duplication; and while a task is queued the eventfd stays
    readable, so the receiving loop is woken. *)
Theorem tq_fifo ops :
  let '(batches, q) := tq_run ops thread_queue_new in
  concat batches ++ _queue q = sent ops /\
  (_queue q <> [] -> 0 < evfd_value (_evfd q)).
Proof.
  destruct (tq_run_inv ops thread_queue_new wakes_new) as [H1 [_ H2]].
  destruct (tq_run ops thread_queue_new). auto.
Qed.
End Queue.

Arguments thread_queue : clear implicits.

(** ** task_msg *)
Section Pool.
Context {TF A : Type}.

(** [struct task_msg]: the tag and the union of what each kind carries. *)
Inductive task_msg :=
| NEW_CONN (connfd : Z)
| NEW_TASK (task_cb : TF) (args : option A).

Context {E : Type} `{!EventFd E}.

(** [class thread_pool]: the queues of the threads and the next index. *)
Record thread_pool := ThreadPool {
  _queues : list (thread_queue E task_msg);
  _thread_cnt : Z;
  _index : Z
}.

(** [thread_pool::thread_pool(int thread_cnt)], when the threads start. *)
Definition thread_pool_new (thread_cnt : Z) : res thread_pool :=
  if bool_decide (thread_cnt <= 0) then Stop (Exit 1)
  else Ret (ThreadPool (replicate (Z.to_nat thread_cnt) thread_queue_new) thread_cnt 0).

(** [thread_pool::get_thread]: the index of the queue returned. *)
Definition get_thread (p : thread_pool) : Z * thread_pool :=
  let i := if bool_decide (_index p = _thread_cnt p) then 0 else _index p in
  (i, ThreadPool (_queues p) (_thread_cnt p) (i + 1)).

(** A task on the queue of index [i]. *)
Definition send_to (i : Z) (t : task_msg) (p : thread_pool) : thread_pool :=
  ThreadPool (alter (send t) (Z.to_nat i) (_queues p)) (_thread_cnt p) (_index p).

(** [thread_pool::send_task]: the task on every queue. *)
Definition send_task (f : TF) (args : option A) (p : thread_pool) : thread_pool :=
  ThreadPool (send (NEW_TASK f args) <$> _queues p) (_thread_cnt p) (_index p).

(** The indices of [n] successive calls of [get_thread]. *)
Fixpoint get_threads (n : nat) (p : thread_pool) : list Z * thread_pool :=
  match n with
  | O => ([], p)
  | S n => let '(i, p) := get_thread p in
           let '(ids, p) := get_threads n p in (i :: ids, p)
  end.

Definition pool_wf (p : thread_pool) : Prop :=
  0 < _thread_cnt p /\ zlen (_queues p) = _thread_cnt p /\ 0 <= _index p <= _thread_cnt p.

Lemma thread_pool_new_wf n p : thread_pool_new n = Ret p -> pool_wf p.
Proof.
  unfold thread_pool_new. case_bool_decide; [done|]. intros [= <-]. unfold pool_wf, zlen; simpl.
  rewrite length_replicate. lia.
Qed.

(** [get_thread] always returns the index of a queue. *)
Lemma get_thread_wf p :
  pool_wf p -> pool_wf (get_thread p).2 /\ 0 <= (get_thread p).1 < _thread_cnt p /\
  (get_thread p).1 = _index p mod _thread_cnt p /\ _thread_cnt (get_thread p).2 = _thread_cnt p /\
  (_index (get_thread p).2) mod _thread_cnt p = (_index p + 1) mod _thread_cnt p.
Proof.
  unfold pool_wf, get_thread. intros (? & ? & ?). simpl. case_bool_decide as E0.
  - rewrite E0, Z_mod_same_full. split_and!; try lia.
    replace (_thread_cnt p + 1) with (1 + 1 * _thread_cnt p) by lia. by rewrite Z_mod_plus_full.
  - rewrite Z.mod_small by lia. split_and!; lia.
Qed.

(** Connections are handed to the worker threads in turn: on a pool of [cnt]
    threads the [k]-th call of [get_thread] returns queue [k mod cnt], always a
    queue of the pool. *)
Theorem get_thread_round_robin cnt p n k :
  thread_pool_new cnt = Ret p -> (k < n)%nat ->
  (get_threads n p).1 !! k = Some (Z.of_nat k mod cnt) /\ 0 <= Z.of_nat k mod cnt < zlen (_queues p).
Proof.
  intros Hnew Hk. pose proof (thread_pool_new_wf _ _ Hnew) as Hwf.
  assert (_thread_cnt p = cnt /\ _index p = 0) as [Hc Hi].
  { unfold thread_pool_new in Hnew. case_bool_decide; naive_solver. }
  split; [|destruct Hwf as (? & -> & ?); rewrite <-Hc; by apply Z.mod_pos_bound].
  rewrite <-(Z.add_0_l (Z.of_nat k)), <-Hi. clear Hnew Hi.
  revert p k Hk Hwf Hc. induction n as [|n IH]; intros p k Hk Hwf Hc; [lia|].
  destruct (get_thread_wf p Hwf) as (Hwf' & _ & Hi & Hc' & Hm).
  cbn [get_threads]. destruct (get_thread p) as [i p'] eqn:Eg. simpl in *.
  destruct k as [|k]; destruct (get_threads n p') as [ids p''] eqn:Es; simpl.
  - change (Z.of_nat 0) with 0. rewrite Z.add_0_r. congruence.
  - specialize (IH p' k ltac:(lia) Hwf' ltac:(lia)). rewrite Es in IH. simpl in IH. rewrite IH.
    f_equal. rewrite Nat2Z.inj_succ. rewrite <-Hc.
    rewrite <-Z.add_mod_idemp_l, Hm, Z.add_mod_idemp_l by (destruct Hwf; lia). f_equal. lia.
Qed.

(** [send_task] reaches every thread: each queue of the pool gets exactly the
    new task, behind what it holds. *)
Theorem send_task_all f args p i q :
  _queues p !! i = Some q ->
  exists q', _queues (send_task f args p) !! i = Some q' /\
    _queue q' = _queue q ++ [NEW_TASK f args] /\ (wakes q -> wakes q') .
Proof.
  intros Hq. simpl. rewrite list_lookup_fmap, Hq. simpl. eexists; split; [done|].
  split; [done|]. apply wakes_send.
Qed.
End Pool.

Arguments task_msg : clear implicits.
Arguments thread_pool : clear implicits.

(** Two tasks are sent and received, a third waits. *)
Lemma tq_fifo_witness :
  let '(batches, q) := tq_run (E := Z) [OpSend 1%nat; OpSend 2%nat; OpRecv; OpSend 3%nat] thread_queue_new in
  concat batches ++ _queue q = [1%nat; 2%nat; 3%nat] /\ (_queue q <> [] -> 0 < evfd_value (_evfd q)).
Proof. exact (tq_fifo [OpSend 1%nat; OpSend 2%nat; OpRecv; OpSend 3%nat]). Defined.
