(* ===== verification/TcpConn.v ===== *)
(** * tcp_conn and the connection table of tcp_server
      (lrlb_reactor/include/tcp_conn.h, src/tcp_conn.cpp, and the static members
      of lrlb_reactor/include/tcp_server.h, src/tcp_server.cpp)

    The state [world] of a server process: the buffer memory, its event loops,
    the connection objects, the static members of [tcp_server] and the state of
    the application.  The application's message callbacks and connection hooks
    are arguments of the model; a pointer to a connection is its address in
    [w_objs], kept after [clean_conn] because the code never deletes it. *)

From S2P Require Import Prelude.
From S2P Require Import IoBuf.
From S2P Require Import BufPool.
From S2P Require Import ReactorBuf.
From S2P Require Import Message.
From S2P Require Import EventLoop.

(** The functions registered with the event loops of a server. *)
Inductive io_cb :=
| conn_rd_callback
| conn_wt_callback
| accept_callback
| deal_task_message
| server_rd_callback
| server_wt_callback.

(** What their [args] point to. *)
Inductive io_arg :=
| ArgConn (c : loc)
| ArgServer
| ArgQueue (i : nat)
| ArgMsg
| ArgUser.

Section Server.
(** The kernel's epoll; names of hooks, message callbacks and tasks; the object
    [param] points to; the application state. *)
Context {K : Type} `{!Epoll K} {HK MK TF P U : Type}.

(** [class tcp_conn], with [param] of [net_connection]. *)
Record tcp_conn := TcpConn {
  _connfd : Z;
  _loop : nat;
  obuf : reactor_buf;
  ibuf : reactor_buf;
  param : option P
}.

(** The static members of [tcp_server]; [conns] is an array of [_max_conns + 3]
    uninitialised pointers, of which the map holds those written. *)
Record server_statics := Statics {
  conns : gmap Z (option loc);
  _max_conns : Z;
  _curr_conns : Z;
  router : msg_router MK io_arg;
  conn_start_cb : option HK;
  conn_close_cb : option HK
}.

Record world := World {
  w_mem : mem;
  w_loops : gmap nat (event_loop K io_cb io_arg TF);
  w_objs : gmap loc tcp_conn;
  w_srv : server_statics;
  w_user : U
}.

Definition set_mem (m : mem) (w : world) : world :=
  World m (w_loops w) (w_objs w) (w_srv w) (w_user w).
Definition set_obj (x : loc) (c : tcp_conn) (w : world) : world :=
  World (w_mem w) (w_loops w) (<[x := c]> (w_objs w)) (w_srv w) (w_user w).
Definition set_srv (s : server_statics) (w : world) : world :=
  World (w_mem w) (w_loops w) (w_objs w) s (w_user w).
Definition set_user (u : U) (w : world) : world :=
  World (w_mem w) (w_loops w) (w_objs w) (w_srv w) u.
Definition put_loop (i : nat) (l : event_loop K io_cb io_arg TF) (w : world) : world :=
  World (w_mem w) (<[i := l]> (w_loops w)) (w_objs w) (w_srv w) (w_user w).
Definition set_obuf (rb : reactor_buf) (c : tcp_conn) : tcp_conn :=
  TcpConn (_connfd c) (_loop c) rb (ibuf c) (param c).
Definition set_ibuf (rb : reactor_buf) (c : tcp_conn) : tcp_conn :=
  TcpConn (_connfd c) (_loop c) (obuf c) rb (param c).
Definition set_param (p : option P) (c : tcp_conn) : tcp_conn :=
  TcpConn (_connfd c) (_loop c) (obuf c) (ibuf c) p.

(** The object behind a connection pointer. *)
Definition obj (this : loc) (w : world) : res tcp_conn := deref (w_objs w !! this).

(** An operation on the loop [_loop] points to. *)
Definition on_loop (i : nat) (f : event_loop K io_cb io_arg TF -> event_loop K io_cb io_arg TF)
    (w : world) : res world :=
  l ← deref (w_loops w !! i); Ret (put_loop i (f l) w).

(** ** The connection table *)
Definition conns_len (s : server_statics) : Z := _max_conns s + 3.

(** [conns[connfd] = p], with [_curr_conns] changed by [d]. *)
Definition write_conn (connfd : Z) (p : option loc) (d : Z) (s : server_statics)
    : res server_statics :=
  if bool_decide (0 <= connfd < conns_len s) then
    Ret (Statics (<[connfd := p]> (conns s)) (_max_conns s) (_curr_conns s + d)
                 (router s) (conn_start_cb s) (conn_close_cb s))
  else Stop OutOfBounds.

(** [tcp_server::increase_conn], [decrease_conn] and [get_conn_num]. *)
Definition increase_conn (connfd : Z) (conn : loc) (s : server_statics) : res server_statics :=
  write_conn connfd (Some conn) 1 s.
Definition decrease_conn (connfd : Z) (s : server_statics) : res server_statics :=
  write_conn connfd None (-1) s.
Definition get_conn_num (s : server_statics) : Z := _curr_conns s.

(** [conns[fd]] read by the application: an unwritten slot is indeterminate. *)
Definition read_conn (fd : Z) (s : server_statics) : res (option loc) :=
  if bool_decide (0 <= fd < conns_len s) then
    match conns s !! fd with Some p => Ret p | None => Stop Undefined end
  else Stop OutOfBounds.

Section Conn.
Context (raw : Z -> list byte).
Context (run_hook : HK -> loc -> world -> res world).
Context (run_msg : MK -> list byte -> Z -> Z -> option io_arg -> loc -> world -> res world).

Definition run_hook_opt (h : option HK) (this : loc) (w : world) : res world :=
  match h with Some h => run_hook h this w | None => Ret w end.

(** [tcp_conn::tcp_conn(int connfd, event_loop *loop)] for the object allocated at
    [this]; the socket options have no state in the model. *)
Definition tcp_conn_new (this : loc) (connfd : Z) (loop : nat) (w : world) : res world :=
  let w := set_obj this (TcpConn connfd loop reactor_buf_new reactor_buf_new None) w in
  w ← run_hook_opt (conn_start_cb (w_srv w)) this w;
  c ← obj this w;
  w ← on_loop (_loop c) (add_io_event (_connfd c) (Some conn_rd_callback) EPOLLIN (Some (ArgConn this))) w;
  s ← increase_conn (_connfd c) this (w_srv w);
  Ret (set_srv s w).

(** [tcp_conn::clean_conn]. *)
Definition clean_conn (this : loc) (w : world) : res world :=
  w ← run_hook_opt (conn_close_cb (w_srv w)) this w;
  c ← obj this w;
  s ← decrease_conn (_connfd c) (w_srv w);
  let w := set_srv s w in
  w ← on_loop (_loop c) (del_io_event (_connfd c)) w;
  '(ib, m) ← rb_clear (ibuf c) (w_mem w);
  '(ob, m) ← rb_clear (obuf c) m;
  Ret (set_obj this (TcpConn (-1) (_loop c) ob ib (param c)) (set_mem m w)).

(** The loop of [tcp_conn::do_read] over the messages in the input buffer; [fuel]
    bounds the iterations.  A callback gets the [msglen] bytes it may read. *)
Fixpoint read_loop (fuel : nat) (this : loc) (w : world) : res world :=
  c ← obj this w;
  len ← rb_length (ibuf c) (w_mem w);
  if bool_decide (len > MESSAGE_HEAD_LEN) then
    match fuel with
    | O => Stop NoReturn
    | S fuel =>
        data ← ib_data (ibuf c) (w_mem w);
        bs ← deref data;
        hb ← mem_read bs 0 MESSAGE_HEAD_LEN;
        let head := bytes_head hb in
        if bool_decide (msglen head > MESSAGE_LENGTH_LIMIT \/ msglen head < 0) then
          clean_conn this w
        else if bool_decide (len < MESSAGE_HEAD_LEN + msglen head) then Ret w
        else
          m ← rb_pop MESSAGE_HEAD_LEN (ibuf c) (w_mem w);
          data ← ib_data (ibuf c) m;
          bs ← deref data;
          body ← mem_read bs 0 (msglen head);
          w ← call (fun cb d l id ud => run_msg cb d l id ud this) (router (w_srv w))
                (msgid head) (msglen head) body (set_mem m w);
          c ← obj this w;
          m ← rb_pop (msglen head) (ibuf c) (w_mem w);
          read_loop fuel this (set_mem m w)
    end
  else Ret w.

(** The closing [ibuf.adjust()] of [tcp_conn::do_read]. *)
Definition finish_read (this : loc) (w : world) : res world :=
  c ← obj this w;
  m ← ib_adjust (ibuf c) (w_mem w);
  Ret (set_mem m w).

(** [tcp_conn::do_read]; [fionread] and [ks] are what [ioctl] and [read] return. *)
Definition do_read (fionread : option Z) (ks : list (list byte + errno)) (this : loc) (w : world)
    : res world :=
  c ← obj this w;
  '(ret, ib, m) ← read_data raw fionread ks (ibuf c) (w_mem w);
  let w := set_obj this (set_ibuf ib c) (set_mem m w) in
  if bool_decide (ret = -1) then clean_conn this w
  else if bool_decide (ret = 0) then clean_conn this w
  else
    len ← rb_length ib m;
    w ← read_loop (Z.to_nat len) this w;
    finish_read this w.

(** The loop of [tcp_conn::do_write], one list of [write] results per call of
    [write2fd]; [true] when it left through the early return. *)
Fixpoint write_loop (kss : list (list (Z + errno))) (this : loc) (w : world) : res (bool * world) :=
  c ← obj this w;
  len ← rb_length (obuf c) (w_mem w);
  if bool_decide (len <> 0) then
    match kss with
    | [] => Stop NoReturn
    | ks :: kss =>
        '(ret, m) ← write2fd ks (obuf c) (w_mem w);
        let w := set_mem m w in
        if bool_decide (ret = -1) then w ← clean_conn this w; Ret (true, w)
        else if bool_decide (ret = 0) then Ret (false, w)
        else write_loop kss this w
    end
  else Ret (false, w).

(** [tcp_conn::do_write]. *)
Definition do_write (kss : list (list (Z + errno))) (this : loc) (w : world) : res world :=
  '(returned, w) ← write_loop kss this w;
  if (returned : bool) then Ret w else
  c ← obj this w;
  len ← rb_length (obuf c) (w_mem w);
  if bool_decide (len = 0) then on_loop (_loop c) (del_io_event_mask (_connfd c) EPOLLOUT) w
  else Ret w.

(** [tcp_conn::send_message(data, msglen, msgid)], [msglen] being the length of
    [data].  A refused body pops the header length off the front of the output. *)
Definition send_message (data : list byte) (id : Z) (this : loc) (w : world) : res (Z * world) :=
  c ← obj this w;
  len ← rb_length (obuf c) (w_mem w);
  let active_epollout := bool_decide (len = 0) in
  '(ret, ob, m) ← send_data raw (head_bytes (MsgHead id (zlen data))) (obuf c) (w_mem w);
  let c := set_obuf ob c in
  if bool_decide (ret <> 0) then Ret (-1, set_obj this c (set_mem m w)) else
  '(ret, ob, m) ← send_data raw data (obuf c) m;
  let c := set_obuf ob c in
  if bool_decide (ret <> 0) then
    m ← rb_pop MESSAGE_HEAD_LEN (obuf c) m;
    Ret (-1, set_obj this c (set_mem m w))
  else
    let w := set_obj this c (set_mem m w) in
    if active_epollout then
      w ← on_loop (_loop c)
            (add_io_event (_connfd c) (Some conn_wt_callback) EPOLLOUT (Some (ArgConn this))) w;
      Ret (0, w)
    else Ret (0, w).

(** [callback_busi]: the echo callback. *)
Definition callback_busi (data : list byte) (id : Z) (this : loc) (w : world) : res (Z * world) :=
  send_message data id this w.

End Conn.
End Server.

Arguments tcp_conn : clear implicits.
Arguments server_statics : clear implicits.
Arguments world : clear implicits.

(** ** The connection table counts the live connections *)
Section Table.
Context {HK MK : Type}.
Implicit Types s : server_statics HK MK.

Definition is_live (p : option loc) : bool := bool_decide (is_Some p).

(** The slots that hold a connection. *)
Definition live s : gset Z := dom (filter (fun kv => is_Some kv.2) (conns s)).

(** The descriptor [accept] gives: the lowest one that is not in use. *)
Definition lowest_free (used : gset Z) (fd : Z) : Prop :=
  0 <= fd /\ (fd ∉ used) /\ forall y, 0 <= y < fd -> y ∈ used.

(** Opening and closing connections, one at a time, in a process with the descriptors [own] besides its
    connections: [do_accept] goes on only while the count is below the maximum, and a connection that
    is open closes its own descriptor. *)
Inductive table_reach (own : gset Z) (n : Z) : server_statics HK MK -> Prop :=
| table_new r h1 h2 : table_reach own n (Statics ∅ n 0 r h1 h2)
| table_inc fd c s s' :
    _curr_conns s < _max_conns s -> lowest_free (own ∪ live s) fd -> increase_conn fd c s = Ret s' ->
    table_reach own n s -> table_reach own n s'
| table_dec fd s s' :
    fd ∈ live s -> decrease_conn fd s = Ret s' -> table_reach own n s -> table_reach own n s'.

Lemma write_conn_Ret fd p d s s' :
  write_conn fd p d s = Ret s' ->
  0 <= fd < conns_len s /\ conns s' = <[fd := p]> (conns s) /\ _curr_conns s' = _curr_conns s + d /\
  _max_conns s' = _max_conns s.
Proof. unfold write_conn. case_bool_decide; naive_solver. Qed.

Lemma elem_of_live fd s : fd ∈ live s <-> exists c, conns s !! fd = Some (Some c).
Proof.
  unfold live. rewrite elem_of_dom. split.
  - intros [p Hp]. apply map_lookup_filter_Some in Hp as [Hp [c Hc]]. simpl in Hc. subst. eauto.
  - intros [c Hc]. exists (Some c). apply map_lookup_filter_Some. split; [done|]. by eexists.
Qed.

Lemma live_write fd p d s s' :
  write_conn fd p d s = Ret s' ->
  live s' = match p with Some _ => {[fd]} ∪ live s | None => live s ∖ {[fd]} end.
Proof.
  intros (_ & Hc & _)%write_conn_Ret. apply set_eq. intros x. rewrite elem_of_live, Hc, lookup_insert.
  destruct p as [c|].
  - rewrite elem_of_union, elem_of_singleton, elem_of_live. case_decide; naive_solver.
  - rewrite elem_of_difference, elem_of_singleton, elem_of_live. case_decide; naive_solver.
Qed.

Lemma live_Ret fd p d s : 0 <= fd < conns_len s -> exists s', write_conn fd p d s = Ret s'.
Proof. intros Hfd. unfold write_conn. rewrite bool_decide_eq_true_2 by done. by eexists. Qed.

Lemma table_reach_inv own n s :
  0 <= n -> table_reach own n s ->
  _curr_conns s = Z.of_nat (size (live s)) /\ _curr_conns s <= n /\ _max_conns s = n /\
  forall fd, fd ∈ live s -> 0 <= fd < conns_len s.
Proof.
  intros Hn. induction 1 as [r h1 h2|fd c s s' Hlt Hlow Hw _ (IH1 & IH2 & IH3 & IH4)|fd s s' Hfd Hw _ (IH1 & IH2 & IH3 & IH4)].
  - split_and!; [|done|done|].
    + unfold live. simpl. by rewrite map_filter_empty, dom_empty_L.
    + intros fd [c Hc]%elem_of_live. simpl in Hc. by rewrite lookup_empty in Hc.
  - pose proof (live_write _ _ _ _ _ Hw) as Hl. apply write_conn_Ret in Hw as (Hb & _ & Hcur & Hm).
    destruct Hlow as (_ & Hfree & _). unfold conns_len in *. rewrite Hm. split_and!; [|lia|done|].
    + rewrite Hcur, Hl, size_union by set_solver. rewrite size_singleton. lia.
    + intros x. rewrite Hl. rewrite elem_of_union, elem_of_singleton. naive_solver.
  - pose proof (live_write _ _ _ _ _ Hw) as Hl. apply write_conn_Ret in Hw as (Hb & _ & Hcur & Hm).
    unfold conns_len in *. rewrite Hm. split_and!; [|lia|done|].
    + rewrite Hcur, Hl, size_difference, size_singleton by set_solver.
      assert (size (live s) <> 0)%nat as Hnz; [|lia].
      intros H0. apply size_empty_inv in H0. set_solver.
    + intros x. rewrite Hl, elem_of_difference. naive_solver.
Qed.

(** All lower descriptors are in use, so their number bounds the lowest free one. *)
Lemma lowest_free_bound (used : gset Z) fd : lowest_free used fd -> fd <= Z.of_nat (size used).
Proof.
  intros (H0 & _ & Hbelow). assert ((list_to_set (seqZ 0 fd) : gset Z) ⊆ used) as Hsub.
  { intros y. rewrite elem_of_list_to_set, elem_of_seqZ. intros Hy. apply Hbelow. lia. }
  apply subseteq_size in Hsub. rewrite size_list_to_set, length_seqZ in Hsub by apply NoDup_seqZ. lia.
Qed.

(** (C27) The connection table, with connections accepted one at a time while the count is below the
    maximum [n], and the kernel giving the lowest descriptor that is free: [_curr_conns] is at all times
    the number of connections in the table and at most [n]; closing an open connection stays in the
    array; the descriptor of the next connection is at most the number of the process's other
    descriptors plus [_curr_conns]; and it has a slot, so that opening succeeds, as long as this sum is
    below [n + 3].  With the three standard descriptors only that is always so; a server has more of
    them, and then the last connections below the maximum need not fit ([conns_overflow]): the code
    does not check the slot. *)
Theorem curr_conns_counts own n s :
  0 <= n -> table_reach own n s ->
  _curr_conns s = Z.of_nat (size (live s)) /\ _curr_conns s <= n /\
  (forall fd, fd ∈ live s -> exists s', decrease_conn fd s = Ret s') /\
  (forall fd c, _curr_conns s < _max_conns s -> lowest_free (own ∪ live s) fd ->
     fd <= Z.of_nat (size own) + _curr_conns s /\
     (Z.of_nat (size own) + _curr_conns s < n + 3 -> exists s', increase_conn fd c s = Ret s')).
Proof.
  intros Hn Hr. destruct (table_reach_inv own n s Hn Hr) as (Hcur & Hle & Hmax & Hlive).
  split; [done|]. split; [done|]. split; [intros fd Hfd; by apply live_Ret, Hlive|].
  intros fd c Hlt Hlow. pose proof (lowest_free_bound _ _ Hlow) as Hb. destruct Hlow as (H0 & _).
  assert (size (own ∪ live s) <= size own + size (live s))%nat as Hs.
  { rewrite size_union_alt. pose proof (subseteq_size (live s ∖ own) (live s) ltac:(set_solver)). lia. }
  split; [lia|]. intros Hown. apply live_Ret. unfold conns_len. lia.
Qed.

(** The descriptors [a], ..., [b - 1]. *)
Definition range (a b : Z) : gset Z := list_to_set (seqZ a (b - a)).
Lemma elem_of_range x a b : x ∈ range a b <-> a <= x < b.
Proof. unfold range. rewrite elem_of_list_to_set, elem_of_seqZ. lia. Qed.

Lemma table_fills k n j (c : loc) r h1 h2 :
  0 <= k -> k + Z.of_nat j <= n + 3 -> Z.of_nat j <= n ->
  exists s, table_reach (range 0 k) n s /\ live s = range k (k + Z.of_nat j) /\ _curr_conns s = Z.of_nat j /\ _max_conns s = n /\
    (router s, conn_start_cb s, conn_close_cb s) = (r, h1, h2).
Proof.
  intros Hk. induction j as [|j IH]; intros Hj Hn.
  - exists (Statics ∅ n 0 r h1 h2). split; [apply table_new|]. split_and!; try done. apply set_eq. intros x.
    rewrite elem_of_range. split; [|lia]. intros [d Hd]%elem_of_live. simpl in Hd. by rewrite lookup_empty in Hd.
  - destruct IH as (s & Hr & Hl & Hc & Hm & Hrest); [lia..|]. set (fd := k + Z.of_nat j).
    destruct (live_Ret fd (Some c) 1 s) as [s' Hs']; [unfold conns_len; lia|]. exists s'.
    pose proof (live_write _ _ _ _ _ Hs') as Hl'. pose proof Hs' as Hw. apply write_conn_Ret in Hw as (_ & _ & Hc' & Hm').
    split_and!; [..|lia|lia|].
    + eapply (table_inc _ _ fd c s); [lia| |exact Hs'|exact Hr]. split; [lia|]. rewrite Hl. split.
      * rewrite elem_of_union, !elem_of_range. lia.
      * intros y Hy. rewrite elem_of_union, !elem_of_range. lia.
    + apply set_eq. intros x. rewrite Hl', Hl, elem_of_union, elem_of_singleton, !elem_of_range. lia.
    + unfold write_conn in Hs'. case_bool_decide; [|done]. by injection Hs' as <-.
Qed.

(** (C22) A server that holds more descriptors than the three standard ones, as every server does with its
    listening socket, its epoll instances and its eventfds, can be made to write behind the array
    while the count is still below the maximum. *)
Theorem conns_overflow k n (c : loc) r h1 h2 :
  4 <= k <= n + 3 ->
  exists s fd, table_reach (range 0 k) n s /\ (router s, conn_start_cb s, conn_close_cb s) = (r, h1, h2) /\
    _curr_conns s < _max_conns s /\ lowest_free (range 0 k ∪ live s) fd /\ increase_conn fd c s = Stop OutOfBounds.
Proof.
  intros Hk. destruct (table_fills k n (Z.to_nat (n + 3 - k)) c r h1 h2) as (s & Hr & Hl & Hc & Hm & Hrest); [lia..|].
  exists s, (n + 3). split; [done|]. split; [done|]. split; [lia|]. split.
  - split; [lia|]. rewrite Hl. split.
    + rewrite elem_of_union, !elem_of_range. lia.
    + intros y Hy. rewrite elem_of_union, !elem_of_range. lia.
  - unfold increase_conn, write_conn. rewrite bool_decide_eq_false_2; [done|]. unfold conns_len. lia.
Qed.
End Table.

(** ** Connections as pairs of byte strings

    The theorems on a connection are stated for a server with other connections: their
    objects and the pool buffers they hold, which no operation on this connection
    disturbs. *)
Class Others (P : Type) := MkOthers { oth_objs : gmap loc (tcp_conn P); oth_bufs : gmap loc io_buf }.

(** A server with a single connection. *)
Definition nobody {P} : Others P := MkOthers P ∅ ∅.

Section Spec.
Context {K : Type} `{!Epoll K} {HK MK TF P U : Type}.
Context (raw : Z -> list byte) (raw_len : forall n, 0 <= n -> zlen (raw n) = n).
Context (run_hook : HK -> loc -> world K HK MK TF P U -> res (world K HK MK TF P U)).
Context (run_msg : MK -> list byte -> Z -> Z -> option io_arg -> loc ->
                   world K HK MK TF P U -> res (world K HK MK TF P U)).
Context `{!Others P}.
Implicit Types (w : world K HK MK TF P U) (c : tcp_conn P).

(** The connection [c] at [this] is apart from the others: the other objects and the
    buffers they hold are the given ones, and none of the buffers is its own. *)
Definition apart (this : loc) w (fl : Spec.free_lists) c : Prop :=
  delete this (w_objs w) = oth_objs /\
  (forall y b, oth_bufs !! y = Some b -> held (w_mem w) fl y b /\ Some y <> ibuf c /\ Some y <> obuf c).

(** The connection object at [this] holds the received bytes [ib] and the bytes
    [ob] still to be written, in different pool buffers, apart from the others. *)
Definition conn_repr (this : loc) w (fl : Spec.free_lists) c (ib ob : list byte) : Prop :=
  w_objs w !! this = Some c /\ pool_ok (w_mem w) fl /\
  rb_repr (w_mem w) fl (ibuf c) ib /\ rb_repr (w_mem w) fl (obuf c) ob /\
  (ibuf c = None \/ ibuf c <> obuf c) /\ apart this w fl c.

(** Changes of the connection that leave its buffers, and of the world that leave memory
    and objects. *)
Lemma apart_put this w w' fl c c' :
  apart this w fl c -> w_mem w' = w_mem w -> w_objs w' = <[this := c']> (w_objs w) ->
  ibuf c' = ibuf c -> obuf c' = obuf c -> apart this w' fl c'.
Proof.
  intros [Ho Hb] Hm Hw Hi Hob. split; [|by rewrite Hm, Hi, Hob]. by rewrite Hw, delete_insert_eq.
Qed.

Lemma apart_same this w w' fl c :
  apart this w fl c -> w_mem w' = w_mem w -> w_objs w' = w_objs w -> apart this w' fl c.
Proof. intros [Ho Hb] Hm Hw. split; by rewrite ?Hm, ?Hw. Qed.

(** An operation on a buffer of the connection. *)
Lemma apart_frame this w fl c rb rb' m' fl' c' :
  apart this w fl c -> frame_to rb (w_mem w) fl rb' m' fl' ->
  (rb = ibuf c /\ c' = set_ibuf rb' c \/ rb = obuf c /\ c' = set_obuf rb' c) ->
  apart this (set_obj this c' (set_mem m' w)) fl' c'.
Proof.
  intros [Ho Hb] Hfr Hc. split.
  - simpl. by rewrite delete_insert_eq.
  - intros y b Hy. destruct (Hb y b Hy) as (Hh & H1 & H2).
    destruct (Hfr y b) as [Hn Hh']; [destruct Hc as [[-> _]|[-> _]]; done|done|].
    split; [done|]. by destruct Hc as [[_ ->]|[_ ->]].
Qed.

Lemma conn_repr_obuf this w fl c ib ob rb' m' ob' :
  conn_repr this w fl c ib ob -> rb_post (obuf c) (w_mem w) fl rb' m' ob' ->
  exists fl', conn_repr this (set_obj this (set_obuf rb' c) (set_mem m' w)) fl' (set_obuf rb' c) ib ob'.
Proof.
  intros (Ho & Hok & Hi & Hob & Hne & Hap) (fl' & Hok' & Hr' & Hfr). exists fl'.
  destruct (rb_repr_frame _ _ _ _ _ _ (ibuf c) ib Hfr Hne Hi) as [Hi' Hne'].
  split; [apply lookup_insert_eq|]. split_and!; try done. apply (apart_frame _ _ _ _ _ _ _ _ _ Hap Hfr). by right.
Qed.

Lemma conn_repr_ibuf this w fl c ib ob rb' m' ib' :
  conn_repr this w fl c ib ob -> rb_post (ibuf c) (w_mem w) fl rb' m' ib' ->
  exists fl', conn_repr this (set_obj this (set_ibuf rb' c) (set_mem m' w)) fl' (set_ibuf rb' c) ib' ob.
Proof.
  intros (Ho & Hok & Hi & Hob & Hne & Hap) (fl' & Hok' & Hr' & Hfr). exists fl'.
  assert (obuf c = None \/ obuf c <> ibuf c) as Hne2.
  { destruct (ibuf c), (obuf c); naive_solver. }
  destruct (rb_repr_frame _ _ _ _ _ _ (obuf c) ob Hfr Hne2 Hob) as [Ho' Hne'].
  split; [apply lookup_insert_eq|]. split_and!; try done.
  - simpl. destruct rb', (obuf c); naive_solver.
  - apply (apart_frame _ _ _ _ _ _ _ _ _ Hap Hfr). by left.
Qed.

(** The same for an operation that keeps the buffer pointer. *)
Lemma conn_repr_ibuf_same this w fl c ib ob m' ib' :
  conn_repr this w fl c ib ob -> rb_post (ibuf c) (w_mem w) fl (ibuf c) m' ib' ->
  exists fl', conn_repr this (set_mem m' w) fl' c ib' ob.
Proof.
  intros Hc Hp. destruct (conn_repr_ibuf _ _ _ _ _ _ _ _ _ Hc Hp) as (fl' & _ & H2 & H3 & H4 & H5 & H6).
  exists fl'. destruct Hc as (Ho & _). split_and!; try done.
  destruct H6 as [Hobj Hbuf]. split; [|exact Hbuf]. simpl in *. by rewrite delete_insert_eq in Hobj.
Qed.

(** The world after a message was queued: the write event is armed when the
    output was empty before. *)
Definition armed (this : loc) c (ob : list byte) w w' : Prop :=
  w_user w' = w_user w /\ w_srv w' = w_srv w /\
  exists l, w_loops w !! _loop c = Some l /\
    w_loops w' !! _loop c =
      Some (if bool_decide (ob = [])
            then add_io_event (_connfd c) (Some conn_wt_callback) EPOLLOUT (Some (ArgConn this)) l
            else l).

(** [tcp_conn::send_message] returns 0 after appending exactly one frame to the
    output, and arms the write event when the output was empty.  It returns -1
    when the frame does not fit the largest buffer: with the output unchanged if
    already the header did not fit; otherwise the 8 bytes it takes back are the
    oldest ones of the output, not the header it appended. *)
Lemma send_message_ok data id this w fl c ib ob :
  conn_repr this w fl c ib ob -> is_Some (w_loops w !! _loop c) ->
  match send_message raw data id this w with
  | Ret (0, w') =>
      exists fl' c', conn_repr this w' fl' c' ib (ob ++ frame_bytes id data) /\
        _connfd c' = _connfd c /\ armed this c ob w w'
  | Ret (r, w') =>
      r = -1 /\ exists fl' c',
        (m4M < zlen ob + MESSAGE_HEAD_LEN /\ conn_repr this w' fl' c' ib ob) \/
        (zlen ob + MESSAGE_HEAD_LEN <= m4M < zlen ob + MESSAGE_HEAD_LEN + zlen data /\
         conn_repr this w' fl' c' ib (drop 8 (ob ++ head_bytes (MsgHead id (zlen data)))))
  | Stop e => e = Exit 0 /\ mem_short 8192 (w_mem w)
  end.
Proof.
  intros Hc [l Hl]. pose proof Hc as (Ho & Hok & Hi & Hob & Hne & _). unfold send_message, obj.
  rewrite Ho. cbn [mbind res_mbind deref]. rewrite (rb_length_ok _ _ _ _ Hob). cbn [mbind res_mbind deref].
  set (h := head_bytes (MsgHead id (zlen data))).
  assert (zlen h = 8) as Hh by apply zlen_head_bytes.
  pose proof (send_data_ok raw raw_len h _ _ _ _ Hok Hob) as H1.
  destruct (send_data raw h (obuf c) (w_mem w)) as [[[r1 ob1] m1]|e] eqn:E1; cbn [mbind res_mbind deref]; cycle 1.
  { unfold mem_short in *. split; [tauto|lia]. }
  apply send_data_total in E1; [|apply Hok].
  destruct H1 as [[-> Hp1]|(-> & Hbig & Hp1)]; cycle 1.
  { simpl. split; [done|]. destruct (conn_repr_obuf _ _ _ _ _ _ _ _ _ Hc Hp1) as (fl1 & Hc1).
    exists fl1, (set_obuf ob1 c). left. unfold MESSAGE_HEAD_LEN. split; [lia|done]. }
  destruct (conn_repr_obuf _ _ _ _ _ _ _ _ _ Hc Hp1) as (fl1 & Hc1).
  pose proof Hc1 as (_ & Hok1 & _ & Hob1 & _). simpl in Hok1, Hob1.
  rewrite (bool_decide_eq_false_2 (0 <> 0)) by lia. cbn [obuf set_obuf].
  pose proof (send_data_ok raw raw_len data _ _ _ _ Hok1 Hob1) as H2.
  destruct (send_data raw data ob1 m1) as [[[r2 ob2] m2]|e]; cbn [mbind res_mbind deref]; cycle 1.
  { unfold mem_short in *. split; [tauto|lia]. }
  destruct H2 as [[-> Hp2]|(-> & Hbig & Hp2)];
    destruct (conn_repr_obuf _ _ _ _ _ _ _ _ _ Hc1 Hp2) as (fl2 & Hc2);
    pose proof Hc2 as (_ & Hok2 & Hi2 & Hob2 & Hne2 & Hap2); simpl in Hok2, Hi2, Hob2, Hne2.
  - rewrite (bool_decide_eq_false_2 (0 <> 0)) by lia.
    assert (forall w', w_mem w' = m2 -> w_objs w' = <[this := set_obuf ob2 (set_obuf ob1 c)]> (w_objs w) ->
      conn_repr this w' fl2 (set_obuf ob2 (set_obuf ob1 c)) ib (ob ++ frame_bytes id data)) as Hrep.
    { intros w' Hm Hobj. unfold conn_repr. rewrite Hm, Hobj, lookup_insert_eq. unfold frame_bytes. fold h.
      rewrite app_assoc. split_and!; try done. eapply apart_put; [exact Hap2|done| |done..].
      simpl. by rewrite insert_insert_eq, Hobj, insert_insert_eq. }
    case_bool_decide as Hz.
    + apply zlen_nil in Hz. subst ob. unfold on_loop. simpl. rewrite Hl. simpl.
      eexists fl2, _. split; [by apply Hrep|]. split; [done|]. split; [done|]. split; [done|].
      exists l. split; [done|]. simpl. by rewrite lookup_insert_eq.
    + eexists fl2, _. split; [by apply Hrep|]. split; [done|]. split; [done|]. split; [done|].
      exists l. split; [done|]. rewrite bool_decide_eq_false_2; [done|]. intros ->. by apply Hz.
  - rewrite (bool_decide_eq_true_2 (-1 <> 0)) by lia. cbn [obuf set_obuf].
    destruct ob2 as [x2|]; cycle 1.
    { simpl in Hob2. apply (f_equal zlen) in Hob2. rewrite zlen_app, Hh in Hob2.
      pose proof (zlen_nonneg ob). change (zlen (@nil byte)) with 0 in Hob2. lia. }
    destruct (rb_pop_ok MESSAGE_HEAD_LEN x2 m2 fl2 _ Hok2 Hob2) as (m3 & -> & Hp3).
    { rewrite zlen_app, Hh. pose proof (zlen_nonneg ob). unfold MESSAGE_HEAD_LEN. lia. }
    cbn [mbind res_mbind deref]. split; [done|].
    destruct (conn_repr_obuf _ _ _ _ _ _ _ _ _ Hc2 Hp3) as (fl3 & _ & Hok3 & Hi3 & Hob3 & Hne3 & Hap3).
    exists fl3, (set_obuf (Some x2) (set_obuf ob1 c)). right.
    pose proof (rb_repr_max _ _ _ _ Hok1 Hob1) as Hmax. rewrite zlen_app, Hh in Hbig, Hmax. unfold MESSAGE_HEAD_LEN. split; [lia|].
    unfold conn_repr. simpl. rewrite lookup_insert_eq. split_and!; try done.
    eapply apart_put; [exact Hap3|done| |done..]. simpl. by rewrite !insert_insert_eq.
Qed.

(** What [send_message] leaves alone, whatever it returns. *)
Lemma send_message_frame data id this w r w' c :
  w_objs w !! this = Some c -> 0 <= total_mem (w_mem w) -> send_message raw data id this w = Ret (r, w') ->
  w_user w' = w_user w /\ w_srv w' = w_srv w /\ total_mem (w_mem w') <= total_mem (w_mem w) + 8192 /\
  (forall i, is_Some (w_loops w !! i) -> is_Some (w_loops w' !! i)) /\
  exists rb, w_objs w' = <[this := set_obuf rb c]> (w_objs w).
Proof.
  intros Ho H0. unfold send_message, obj. rewrite Ho. cbn [mbind res_mbind deref].
  destruct (rb_length (obuf c) (w_mem w)) as [n|]; [|done]. cbn [mbind res_mbind].
  destruct (send_data raw _ (obuf c) (w_mem w)) as [[[r1 rb1] m1]|] eqn:E1; [|done]. cbn [mbind res_mbind].
  apply send_data_total in E1; [|done].
  case_bool_decide; [intros [= _ <-]; split_and!; try done; [simpl; lia|by exists rb1]|]. cbn [obuf set_obuf].
  destruct (send_data raw data rb1 m1) as [[[r2 rb2] m2]|] eqn:E2; [|done]. cbn [mbind res_mbind].
  apply send_data_total in E2; [|lia].
  case_bool_decide.
  - destruct (rb_pop _ rb2 m2) as [m3|] eqn:E3; [|done]. apply rb_pop_total in E3. cbn [mbind res_mbind].
    intros [= _ <-]. split_and!; try done; [simpl; lia|by exists rb2].
  - case_bool_decide; cycle 1.
    { intros [= _ <-]. split_and!; try done; [simpl; lia|by exists rb2]. }
    unfold on_loop. cbn [w_loops set_obj set_mem _loop set_obuf].
    destruct (w_loops w !! _loop c) as [l|] eqn:El; [|done]. cbn [mbind res_mbind deref].
    intros [= _ <-]. split_and!; try done; [simpl; lia| |by exists rb2].
    intros i Hi. simpl. rewrite lookup_insert. by case_decide.
Qed.

(** ** Receiving

    An application on top of the server is described by abstract states: [sim a w ob]
    says that the world [w], with the bytes [ob] waiting to be written on the
    connection, represents the state [a]; [astep] is the effect of a message on
    it, [cost] the memory in KB that a message may take from the system. *)
Context {AS : Type} (sim : AS -> world K HK MK TF P U -> list byte -> Prop).
Context (astep : MK -> list byte -> Z -> Z -> option io_arg -> AS -> AS) (cost : Z).
Implicit Types a : AS.

(** What an application promises: its state is not in the memory of the pool nor in
    the input buffer; a callback may queue output on the connection and change the
    application, but leaves the received bytes and the router alone, and stops only
    where the buffer pool stops the process. *)
Record cb_contract (this : loc) : Prop := {
  cc_cost : 0 <= cost;
  cc_mem a w ob m : sim a w ob -> sim a (set_mem m w) ob;
  cc_ibuf a w ob c rb : w_objs w !! this = Some c -> sim a w ob -> sim a (set_obj this (set_ibuf rb c) w) ob;
  cc_run cb data len id ud w fl c ib ob a :
    conn_repr this w fl c ib ob -> sim a w ob ->
    match run_msg cb data len id ud this w with
    | Ret w' => exists fl' c' ob', conn_repr this w' fl' c' ib ob' /\ sim (astep cb data len id ud a) w' ob' /\
        router (w_srv w') = router (w_srv w) /\ total_mem (w_mem w') <= total_mem (w_mem w) + cost
    | Stop e => e = Exit 0 /\ mem_short cost (w_mem w)
    end
}.

(** The application after the messages were routed to their callbacks, in order. *)
Definition deliver (r : msg_router MK io_arg) (msgs : list (Z * list byte)) a : AS :=
  foldl (fun a msg => match route r msg.1 with
                      | None => a
                      | Some (cb, ud) => astep cb msg.2 (u32 (zlen msg.2)) msg.1 ud a
                      end) a msgs.

(** What the receiving loop leaves: the connection with the bytes [rest], the
    messages delivered. *)
Definition received (this : loc) a w w' (msgs : list (Z * list byte)) (rest : list byte) : Prop :=
  exists fl' c' ob', conn_repr this w' fl' c' rest ob' /\ sim (deliver (router (w_srv w)) msgs a) w' ob' /\
    router (w_srv w') = router (w_srv w) /\
    total_mem (w_mem w') <= total_mem (w_mem w) + cost * zlen msgs.

Lemma ib_data_ok m fl rb ib :
  rb_repr m fl rb ib -> ib <> [] -> exists x, rb = Some x /\ ib_data rb m = Ret (Some ib).
Proof.
  intros Hr Hne. destruct rb as [x|]; [|done]. destruct Hr as (b & (Hb & _) & <-).
  exists x. split; [done|]. unfold ib_data, load. by rewrite Hb.
Qed.

Lemma bytes_head_take ib : bytes_head (take 8 ib) = bytes_head ib.
Proof.
  unfold bytes_head. f_equal; f_equal.
  - rewrite take_take. done.
  - rewrite skipn_firstn_comm, take_take. done.
Qed.

(** One message taken off the input and handed to its callback. *)
Lemma read_one this a w fl c ib ob (n := msglen (bytes_head ib)) :
  cb_contract this -> conn_repr this w fl c ib ob -> sim a w ob ->
  0 <= n -> MESSAGE_HEAD_LEN < zlen ib -> MESSAGE_HEAD_LEN + n <= zlen ib ->
  exists m1,
    rb_pop MESSAGE_HEAD_LEN (ibuf c) (w_mem w) = Ret m1 /\
    ib_data (ibuf c) m1 = Ret (Some (drop 8 ib)) /\
    mem_read (drop 8 ib) 0 n = Ret (take (Z.to_nat n) (drop 8 ib)) /\
    let called := call (fun cb d l id ud => run_msg cb d l id ud this) (router (w_srv w))
                    (msgid (bytes_head ib)) n (take (Z.to_nat n) (drop 8 ib)) (set_mem m1 w) in
    (called = Stop (Exit 0) /\ mem_short cost (w_mem w) \/
     exists w1 c1 m2, called = Ret w1 /\
       w_objs w1 !! this = Some c1 /\ rb_pop n (ibuf c1) (w_mem w1) = Ret m2 /\
       received this a w (set_mem m2 w1) [(msgid (bytes_head ib), take (Z.to_nat n) (drop 8 ib))]
                (drop (8 + Z.to_nat n) ib)).
Proof.
  intros Hcb Hc Hu0 Hn Hlen Hfull. pose proof Hc as (Ho & Hok & Hi & Hob & Hne & _).
  assert (ib <> []) as Hib by (intros ->; unfold MESSAGE_HEAD_LEN in *; change (zlen (@nil byte)) with 0 in *; lia).
  destruct (ib_data_ok _ _ _ _ Hi Hib) as (x & Hx & _).
  rewrite Hx in Hi. destruct (rb_pop_ok MESSAGE_HEAD_LEN x _ _ _ Hok Hi) as (m1 & Hp1 & Hpost1);
    [unfold MESSAGE_HEAD_LEN in *; lia|]. rewrite <-Hx in Hp1, Hpost1.
  pose proof (rb_pop_total _ _ _ _ Hp1) as Ht1.
  destruct (conn_repr_ibuf_same _ _ _ _ _ _ _ _ Hc Hpost1) as (fl1 & Hc1).
  change (Z.to_nat MESSAGE_HEAD_LEN) with 8%nat in Hc1.
  assert (zlen (take (Z.to_nat n) (drop 8 ib)) = n) as Hbody by (unfold MESSAGE_HEAD_LEN in *; zlen_lia).
  set (body := take (Z.to_nat n) (drop 8 ib)) in *.
  exists m1. split; [done|]. pose proof Hc1 as (_ & Hok1 & Hi1 & _). split.
  { simpl in Hi1. rewrite Hx in Hi1 |- *. destruct Hi1 as (b & (Hb & _) & Hcb1).
    unfold ib_data, load. rewrite Hb. simpl. by rewrite Hcb1. }
  split; [apply mem_read_ok; unfold MESSAGE_HEAD_LEN in *; zlen_lia|].
  cbv zeta. set (called := call _ _ _ _ _ _).
  assert (called = Stop (Exit 0) /\ mem_short cost (w_mem w) \/ exists w1 fl2 c2 ob2,
    called = Ret w1 /\ conn_repr this w1 fl2 c2 (drop 8 ib) ob2 /\
    sim (deliver (router (w_srv w)) [(msgid (bytes_head ib), body)] a) w1 ob2 /\
    router (w_srv w1) = router (w_srv w) /\ total_mem (w_mem w1) <= total_mem (w_mem w) + cost)
    as [Hs|(w1 & fl2 & c2 & ob2 & Hcall & Hc2 & Hu1 & Hr & Ht)]; [|by left|right].
  { pose proof (cc_cost _ Hcb). unfold called, call, deliver. cbn [foldl fst snd]. rewrite Hbody.
    pose proof (cc_mem _ Hcb _ _ _ m1 Hu0) as Hu1.
    destruct (route (router (w_srv w)) (msgid (bytes_head ib))) as [[cb ud]|].
    - pose proof (cc_run _ Hcb cb body (u32 n) (msgid (bytes_head ib)) ud _ _ _ _ _ _ Hc1 Hu1) as Hrun.
      destruct (run_msg cb body _ _ ud this (set_mem m1 w)) as [w1|e] eqn:Erun.
      + right. destruct Hrun as (fl2 & c2 & ob2 & ? & ? & ? & Hm). exists w1, fl2, c2, ob2. split_and!; try done.
        simpl in Hm. lia.
      + left. destruct Hrun as [-> Hm]. split; [done|]. unfold mem_short in *. simpl in Hm. lia.
    - right. exists (set_mem m1 w), fl1, c, ob. split_and!; try done. simpl. lia. }
  pose proof Hc2 as (Ho2 & Hok2 & Hi2 & _).
  assert (exists m2, rb_pop n (ibuf c2) (w_mem w1) = Ret m2 /\
    rb_post (ibuf c2) (w_mem w1) fl2 (ibuf c2) m2 (drop (Z.to_nat n) (drop 8 ib))) as (m2 & Hp2 & Hpost2).
  { assert (drop 8 ib <> []) as Hd.
    { intros Hd. apply (f_equal zlen) in Hd. unfold MESSAGE_HEAD_LEN in *. zlen_lia. }
    destruct (ib_data_ok _ _ _ _ Hi2 Hd) as (x2 & Hx2 & _). rewrite Hx2 in Hi2 |- *.
    apply rb_pop_ok; [done|done|]. unfold MESSAGE_HEAD_LEN in *. zlen_lia. }
  destruct (conn_repr_ibuf_same _ _ _ _ _ _ _ _ Hc2 Hpost2) as (fl3 & Hc3).
  exists w1, c2, m2. do 3 (split; [done|]). exists fl3, c2, ob2. rewrite drop_drop in Hc3. split_and!; [done| |done|].
  - by apply (cc_mem _ Hcb).
  - apply rb_pop_total in Hp2. cbn [w_mem set_mem]. unfold zlen. simpl. lia.
Qed.

(** The receiving loop, on any input, is [deframe] followed by delivery. *)
Lemma read_loop_ok fuel this a w fl c ib ob msgs rest bad :
  cb_contract this -> conn_repr this w fl c ib ob -> sim a w ob -> (length ib <= fuel)%nat ->
  deframe ib = (msgs, rest, bad) ->
  read_loop run_hook run_msg fuel this w = Stop (Exit 0) /\ mem_short (cost * zlen msgs) (w_mem w) \/
  exists w', received this a w w' msgs rest /\
    read_loop run_hook run_msg fuel this w = if bad then clean_conn run_hook this w' else Ret w'.
Proof.
  intros Hcb. pose proof (cc_cost _ Hcb) as Hcost. revert a w fl c ib ob msgs rest bad.
  assert (forall a w fl c ib ob, conn_repr this w fl c ib ob -> sim a w ob -> received this a w w [] ib) as Hnone.
  { intros a w fl c ib ob Hc Hu. exists fl, c, ob. split_and!; try done. unfold zlen. simpl. lia. }
  induction fuel as [|fuel IH]; intros a w fl c ib ob msgs rest bad Hc Hu Hfuel Hd;
    pose proof Hc as (Ho & Hok & Hi & Hob & Hne).
  { destruct ib; [|simpl in Hfuel; lia]. unfold deframe in Hd. simpl in Hd. simplify_eq.
    right. exists w. split; [by eapply Hnone|]. simpl. unfold obj. rewrite Ho. cbn [mbind res_mbind deref].
    rewrite (rb_length_ok _ _ _ _ Hi). done. }
  cbn [read_loop]. unfold obj. rewrite Ho. cbn [mbind res_mbind deref]. rewrite (rb_length_ok _ _ _ _ Hi). cbn [mbind res_mbind deref].
  rewrite deframe_step in Hd. cbv zeta in Hd. case_bool_decide as Hlen; cycle 1.
  { right. simplify_eq. exists w. split; [by eapply Hnone|done]. }
  destruct (ib_data_ok _ _ _ _ Hi) as (x & Hx & ->); [intros ->; unfold MESSAGE_HEAD_LEN in *; by vm_compute in Hlen|].
  cbn [mbind res_mbind deref].
  rewrite mem_read_ok by (unfold MESSAGE_HEAD_LEN in *; lia). rewrite drop_0.
  change (Z.to_nat MESSAGE_HEAD_LEN) with 8%nat. cbn [mbind res_mbind]. rewrite bytes_head_take.
  case_bool_decide as Hbad.
  { right. simplify_eq. exists w. split; [by eapply Hnone|done]. }
  case_bool_decide as Hshort.
  { right. simplify_eq. exists w. split; [by eapply Hnone|done]. }
  destruct (read_one this a w fl c ib ob Hcb Hc Hu) as (m1 & -> & E2 & E3 & Hcall); [lia|lia|lia|].
  cbn [mbind res_mbind]. rewrite E2. cbn [mbind res_mbind deref]. rewrite E3. cbn [mbind res_mbind].
  destruct (deframe (drop (8 + Z.to_nat (msglen (bytes_head ib))) ib)) as [[ms0 rest0] bad0] eqn:Hd0.
  simplify_eq. pose proof (zlen_nonneg ms0).
  destruct Hcall as [[-> Hs]|(w1 & c1 & m2 & E4 & E5 & E6 & fl' & c' & ob' & Hc' & Hu1 & Hr' & Ht')].
  { left. split; [done|]. unfold mem_short in *. rewrite zlen_cons. nia. }
  rewrite E4. cbn [mbind res_mbind]. unfold obj. rewrite E5. cbn [mbind res_mbind deref]. rewrite E6.
  cbn [mbind res_mbind]. change (zlen [_]) with 1 in Ht'.
  destruct (IH _ (set_mem m2 w1) fl' c' _ ob' ms0 rest bad Hc' Hu1)
    as [[-> Hs]|(w' & (fl2 & c2 & ob2 & Hc2 & Hi2 & Hr2 & Ht2) & Hrun)];
    [rewrite length_drop; unfold zlen, MESSAGE_HEAD_LEN in *; lia|done| |].
  { left. split; [done|]. unfold mem_short in *. rewrite zlen_cons. lia. }
  right. exists w'. split; [|done]. exists fl2, c2, ob2. split; [done|]. rewrite Hr2, Hr'. rewrite Hr' in Hi2.
  split_and!; [done|done|]. rewrite zlen_cons. lia.
Qed.

(** What [do_read] does with a delivered chunk. *)
Lemma do_read_ok chunk eintrs ks this a w fl c ib ob msgs rest bad :
  cb_contract this -> conn_repr this w fl c ib ob -> sim a w ob ->
  0 < zlen chunk -> zlen ib + zlen chunk <= m4M ->
  deframe (ib ++ chunk) = (msgs, rest, bad) ->
  let run := do_read raw run_hook run_msg (Some (zlen chunk))
               (replicate eintrs (inr EINTR) ++ inl chunk :: ks) this w in
  run = Stop (Exit 0) /\ mem_short (4096 + cost * zlen msgs) (w_mem w) \/
  exists w' fl' c' ob', conn_repr this w' fl' c' rest ob' /\ sim (deliver (router (w_srv w)) msgs a) w' ob' /\
    router (w_srv w') = router (w_srv w) /\
    total_mem (w_mem w') <= total_mem (w_mem w) + 4096 + cost * zlen msgs /\
    run = if bad then (clean_conn run_hook this w' ≫= finish_read this) else Ret w'.
Proof.
  intros Hcb Hc Hu Hpos Hfit Hd. cbv zeta. pose proof Hc as (Ho & Hok & Hi & Hob & Hne).
  pose proof (cc_cost _ Hcb) as Hcost. pose proof (zlen_nonneg msgs) as Hml.
  unfold do_read, obj. rewrite Ho. cbn [mbind res_mbind deref].
  pose proof (read_data_ok raw raw_len chunk eintrs ks _ _ _ _ Hok Hi Hpos) as Hrd.
  destruct (read_data raw _ _ (ibuf c) (w_mem w)) as [[[r ib1] m1]|e] eqn:Erd; cbn [mbind res_mbind deref]; cycle 1.
  { left. destruct e; destruct Hrd as [? ?]; simplify_eq; [|lia]. split; [done|]. unfold mem_short in *. nia. }
  apply read_data_total in Erd; [|apply Hok].
  destruct Hrd as [[-> Hpost]|(_ & Hb1 & _ & _ & Hbig)]; cycle 1.
  { rewrite Hb1 in Hi. simpl in Hi. subst ib. change (zlen (@nil byte)) with 0 in *. lia. }
  rewrite !bool_decide_eq_false_2 by lia.
  destruct (conn_repr_ibuf _ _ _ _ _ _ _ _ _ Hc Hpost) as (fl1 & Hc1).
  assert (sim a (set_obj this (set_ibuf ib1 c) (set_mem m1 w)) ob) as Hu1.
  { apply (cc_ibuf _ Hcb); [done|]. by apply (cc_mem _ Hcb). }
  pose proof Hc1 as (_ & _ & Hi1 & _). simpl in Hi1. rewrite (rb_length_ok _ _ _ _ Hi1). cbn [mbind res_mbind deref].
  destruct (read_loop_ok (Z.to_nat (zlen (ib ++ chunk))) this a _ _ _ _ _ msgs rest bad Hcb Hc1 Hu1)
    as [[-> Hs]|(w' & (fl2 & c2 & ob2 & Hc2 & Hu2 & Hr2 & Ht2) & ->)]; [unfold zlen; lia|done| |right].
  { left. split; [done|]. unfold mem_short in *. simpl in Hs. lia. }
  cbn [w_srv w_mem set_obj set_mem] in Hu2, Hr2, Ht2.
  destruct bad; [exists w', fl2, c2, ob2; split_and!; try done; lia|]. cbn [mbind res_mbind deref].
  pose proof Hc2 as (Ho2 & Hok2 & Hi2 & _). unfold finish_read, obj. rewrite Ho2. cbn [mbind res_mbind deref].
  destruct (ib_adjust_ok _ _ _ _ Hok2 Hi2) as (m3 & Ha & Hpost3). rewrite Ha. cbn [mbind res_mbind deref].
  destruct (conn_repr_ibuf_same _ _ _ _ _ _ _ _ Hc2 Hpost3) as (fl3 & Hc3).
  apply ib_adjust_total in Ha. exists (set_mem m3 w'), fl3, c2, ob2. split_and!; try done.
  - by apply (cc_mem _ Hcb).
  - cbn [w_mem set_mem]. lia.
Qed.

(** (C10) Receiving: when [read] delivers the [chunk] that [FIONREAD] announced, the
    application gets exactly the messages that cutting the pending bytes and the
    chunk yields, in order, and the incomplete remainder stays pending; a header
    with an impossible length closes the connection after the messages before
    it.  The loop always terminates; the process stops only when the memory that
    the input buffer and the messages may take brings the pool to its limit. *)
Theorem do_read_delivers chunk eintrs ks this a w fl c ib ob msgs rest bad :
  cb_contract this -> conn_repr this w fl c ib ob -> sim a w ob ->
  0 < zlen chunk -> zlen ib + zlen chunk <= m4M ->
  deframe (ib ++ chunk) = (msgs, rest, bad) ->
  let run := do_read raw run_hook run_msg (Some (zlen chunk))
               (replicate eintrs (inr EINTR) ++ inl chunk :: ks) this w in
  run = Stop (Exit 0) /\ mem_short (4096 + cost * zlen msgs) (w_mem w) \/
  exists w' fl' c' ob', conn_repr this w' fl' c' rest ob' /\ sim (deliver (router (w_srv w)) msgs a) w' ob' /\
    router (w_srv w') = router (w_srv w) /\
    total_mem (w_mem w') <= total_mem (w_mem w) + 4096 + cost * zlen msgs /\
    run = if bad then (clean_conn run_hook this w' ≫= finish_read this) else Ret w'.
Proof. apply do_read_ok. Qed.

(** ** Writing *)
Definition sumZ (ns : list Z) : Z := foldr Z.add 0 ns.

Lemma sumZ_nonneg ns : Forall (fun n => 0 < n) ns -> 0 <= sumZ ns.
Proof. induction 1 as [|n ns Hn _ IH]; [done|]. change (sumZ (n :: ns)) with (n + sumZ ns). lia. Qed.

Lemma conn_repr_obuf_same this w fl c ib ob m' ob' :
  conn_repr this w fl c ib ob -> rb_post (obuf c) (w_mem w) fl (obuf c) m' ob' ->
  exists fl', conn_repr this (set_mem m' w) fl' c ib ob'.
Proof.
  intros Hc Hp. destruct (conn_repr_obuf _ _ _ _ _ _ _ _ _ Hc Hp) as (fl' & _ & H2 & H3 & H4 & H5 & H6).
  exists fl'. destruct Hc as (Ho & _). split_and!; try done.
  destruct H6 as [Hobj Hbuf]. split; [|exact Hbuf]. simpl in *. by rewrite delete_insert_eq in Hobj.
Qed.

(** One call of [write2fd] within the loop. *)
Lemma write_one r this w fl c ib ob :
  conn_repr this w fl c ib ob -> ob <> [] ->
  match r with inl n => 0 <= n | inr e => e <> EINTR end ->
  exists m', write2fd [r] (obuf c) (w_mem w) =
      Ret (match r with inl n => n | inr EAGAIN => 0 | inr _ => -1 end, m') /\
    exists fl', conn_repr this (set_mem m' w) fl' c ib
      (match r with inl n => drop (Z.to_nat n) ob | inr _ => ob end).
Proof.
  intros Hc Hne Hr. pose proof Hc as (Ho & Hok & Hi & Hob & Hd).
  destruct (obuf c) as [x|] eqn:Ex; [|by simpl in Hob].
  destruct (write2fd_ok 0 r [] x _ _ _ Hok Hob Hr) as (m' & Hw & Hpost).
  exists m'. split; [done|]. rewrite <-Ex in Hpost. by eapply conn_repr_obuf_same.
Qed.

Lemma write_loop_ok ns tail this w fl c ib ob :
  conn_repr this w fl c ib ob -> Forall (fun n => 0 < n) ns -> sumZ ns <= zlen ob ->
  exists m' fl', conn_repr this (set_mem m' w) fl' c ib (drop (Z.to_nat (sumZ ns)) ob) /\
    write_loop run_hook (((fun n => [inl n]) <$> ns) ++ tail) this w =
    write_loop run_hook tail this (set_mem m' w).
Proof.
  intros Hc Hns. revert w fl ob Hc. induction Hns as [|n ns Hn Hns IH]; intros w fl ob Hc Hsum.
  - exists (w_mem w), fl. split; [|by destruct w]. simpl. rewrite drop_0. by destruct w.
  - change (sumZ (n :: ns)) with (n + sumZ ns) in *.
    assert (0 <= sumZ ns) as Hs0.
    { clear -Hns. by apply sumZ_nonneg. }
    assert (ob <> []) as Hne.
    { intros ->. change (zlen (@nil byte)) with 0 in Hsum. lia. }
    destruct (write_one (inl n) _ _ _ _ _ _ Hc Hne ltac:(simpl; lia)) as (m1 & Hw & fl1 & Hc1).
    destruct (IH _ _ _ Hc1) as (m2 & fl2 & Hc2 & Hrun); [zlen_lia|].
    exists m2, fl2. rewrite drop_drop in Hc2.
    replace (Z.to_nat n + Z.to_nat (sumZ ns))%nat with (Z.to_nat (n + sumZ ns)) in Hc2 by lia.
    split; [done|]. rewrite fmap_cons. cbn [app write_loop]. pose proof Hc as (Ho & _ & _ & Hob & _).
    unfold obj. rewrite Ho. cbn [mbind res_mbind deref]. rewrite (rb_length_ok _ _ _ _ Hob).
    cbn [mbind res_mbind deref].
    rewrite bool_decide_eq_true_2 by (intros Hz; apply Hne; by apply zlen_nil).
    rewrite Hw. cbn [mbind res_mbind]. rewrite !bool_decide_eq_false_2 by lia. by rewrite Hrun.
Qed.

(** (C26) Writing: when successive calls of [write] accept [ns] bytes, the first
    [sum ns] bytes of the output are gone.  If that was all of it, [do_write]
    stops and removes the write event; if then [write] would block, the rest
    stays queued and the write event stays registered. *)
Theorem do_write_drains ns this w fl c ib ob l :
  conn_repr this w fl c ib ob -> w_loops w !! _loop c = Some l ->
  Forall (fun n => 0 < n) ns -> sumZ ns <= zlen ob ->
  exists w' fl', do_write run_hook (((fun n => [inl n]) <$> ns) ++ [[inr EAGAIN]]) this w = Ret w' /\
    conn_repr this w' fl' c ib (drop (Z.to_nat (sumZ ns)) ob) /\
    w_loops w' !! _loop c =
      Some (if bool_decide (sumZ ns = zlen ob) then del_io_event_mask (_connfd c) EPOLLOUT l else l).
Proof.
  intros Hc Hl Hns Hsum.
  destruct (write_loop_ok ns [[inr EAGAIN]] _ _ _ _ _ _ Hc Hns Hsum) as (m1 & fl1 & Hc1 & Hrun).
  pose proof (sumZ_nonneg ns Hns) as Hs0.
  unfold do_write. rewrite Hrun. pose proof Hc1 as (Ho1 & _ & _ & Hob1 & _).
  set (ob1 := drop _ ob) in *.
  assert (zlen ob1 = zlen ob - sumZ ns) as Hz1 by (unfold ob1; zlen_lia).
  cbn [write_loop]. unfold obj. rewrite Ho1. cbn [mbind res_mbind deref].
  rewrite (rb_length_ok _ _ _ _ Hob1). cbn [mbind res_mbind]. case_bool_decide as Hnz.
  - destruct (write_one (inr EAGAIN) _ _ _ _ _ _ Hc1) as (m2 & -> & fl2 & Hc2);
      [intros E; rewrite E in Hnz; by apply Hnz|done|].
    cbn [mbind res_mbind]. rewrite bool_decide_eq_false_2 by done.
    rewrite bool_decide_eq_true_2 by done. cbn [mbind res_mbind].
    pose proof Hc2 as (Ho2 & _ & _ & Hob2 & _). rewrite Ho2. cbn [mbind res_mbind deref].
    rewrite (rb_length_ok _ _ _ _ Hob2). cbn [mbind res_mbind].
    rewrite bool_decide_eq_false_2 by done.
    eexists _, fl2. split; [done|]. split; [done|].
    rewrite bool_decide_eq_false_2 by lia. done.
  - cbn [mbind res_mbind]. rewrite Ho1. cbn [mbind res_mbind deref]. rewrite (rb_length_ok _ _ _ _ Hob1). cbn [mbind res_mbind].
    rewrite bool_decide_eq_true_2 by lia. unfold on_loop. simpl. rewrite Hl. cbn [mbind res_mbind deref].
    eexists _, fl1. split; [done|]. split; [|rewrite bool_decide_eq_true_2 by lia; apply lookup_insert_eq].
    destruct Hc1 as (? & ? & ? & ? & ? & ?). by split_and!.
Qed.

(** ** Closing *)
Definition closed (c : tcp_conn P) : tcp_conn P := TcpConn (-1) (_loop c) None None (param c).

(** A close hook changes the application and the connection's [param], in the worlds
    in which it may be called. *)
Definition hook_contract (this : loc) (h : HK) (ready : world K HK MK TF P U -> Prop) : Prop :=
  forall w fl c ib ob, conn_repr this w fl c ib ob -> ready w ->
  exists w' fl' c', run_hook h this w = Ret w' /\ conn_repr this w' fl' c' ib ob /\
    _connfd c' = _connfd c /\ _loop c' = _loop c /\
    w_srv w' = w_srv w /\ w_loops w' = w_loops w.

Lemma clean_conn_run this w fl c ib ob l ready :
  (forall h, conn_close_cb (w_srv w) = Some h -> hook_contract this h ready) -> ready w ->
  conn_repr this w fl c ib ob -> w_loops w !! _loop c = Some l ->
  0 <= _connfd c < conns_len (w_srv w) ->
  exists w' fl' c', clean_conn run_hook this w = Ret w' /\
    conn_repr this w' fl' (closed c') [] [] /\ _loop c' = _loop c /\
    conns (w_srv w') = <[_connfd c := None]> (conns (w_srv w)) /\
    _curr_conns (w_srv w') = _curr_conns (w_srv w) - 1 /\
    w_loops w' !! _loop c = Some (del_io_event (_connfd c) l).
Proof.
  intros Hh Hrdy Hc Hl Hfd. unfold clean_conn.
  assert (exists w1 fl1 c1, run_hook_opt run_hook (conn_close_cb (w_srv w)) this w = Ret w1 /\
    conn_repr this w1 fl1 c1 ib ob /\ _connfd c1 = _connfd c /\ _loop c1 = _loop c /\
    w_srv w1 = w_srv w /\ w_loops w1 = w_loops w) as (w1 & fl1 & c1 & -> & Hc1 & Hf1 & Hl1 & Hs1 & Hlo1).
  { destruct (conn_close_cb (w_srv w)) as [h|]; [by apply (Hh h eq_refl w fl)|]. by exists w, fl, c. }
  pose proof Hc1 as (Ho1 & Hok1 & Hi1 & Hob1 & Hne1 & [Hobj Hbuf]).
  cbn [mbind res_mbind]. unfold obj. rewrite Ho1. cbn [mbind res_mbind deref].
  unfold decrease_conn, write_conn. rewrite Hs1, Hf1, bool_decide_eq_true_2 by done.
  cbn [mbind res_mbind]. unfold on_loop. simpl. rewrite Hlo1, Hl1, Hl. cbn [mbind res_mbind deref]. simpl.
  destruct (rb_clear_ok _ _ _ _ Hok1 Hi1) as (m2 & -> & fl2 & Hok2 & _ & Hfr2). simpl.
  assert (obuf c1 = None \/ obuf c1 <> ibuf c1) as Hne2 by (destruct (ibuf c1), (obuf c1); naive_solver).
  destruct (rb_repr_frame _ _ _ _ _ _ (obuf c1) ob Hfr2 Hne2 Hob1) as [Hob2 _].
  destruct (rb_clear_ok _ _ _ _ Hok2 Hob2) as (m3 & -> & fl3 & Hok3 & _ & Hfr3). simpl.
  eexists _, fl3, c1. split; [done|]. simpl. split; [split_and!; simpl; try done|].
  - unfold closed. rewrite Hl1. apply lookup_insert_eq.
  - by left.
  - split; simpl.
    + by rewrite delete_insert_eq.
    + intros y b Hy. destruct (Hbuf y b Hy) as (Hheld & H1 & H2). destruct (Hfr2 y b H1 Hheld) as [_ Hh2].
      by destruct (Hfr3 y b H2 Hh2).
  - split; [done|]. split; [done|]. split; [lia|]. apply lookup_insert_eq.
Qed.

(** Closing: [clean_conn] gives both buffers back to the pool, frees the slot
    and the count of the connection table, removes the descriptor from its loop
    and marks the object with descriptor -1. *)
Theorem clean_conn_ok this w fl c ib ob l ready :
  (forall h, conn_close_cb (w_srv w) = Some h -> hook_contract this h ready) -> ready w ->
  conn_repr this w fl c ib ob -> w_loops w !! _loop c = Some l ->
  0 <= _connfd c < conns_len (w_srv w) ->
  exists w' fl' c', clean_conn run_hook this w = Ret w' /\
    conn_repr this w' fl' (closed c') [] [] /\ _loop c' = _loop c /\
    conns (w_srv w') = <[_connfd c := None]> (conns (w_srv w)) /\
    _curr_conns (w_srv w') = _curr_conns (w_srv w) - 1 /\
    w_loops w' !! _loop c = Some (del_io_event (_connfd c) l).
Proof. apply clean_conn_run. Qed.
End Spec.

#[local] Existing Instance nobody.

Lemma apart_nobody {K HK MK TF P U} this (w : world K HK MK TF P U) fl c :
  delete this (w_objs w) = ∅ -> apart this w fl c.
Proof. intros Hd. split; [exact Hd|]. intros y z Hy. discriminate Hy. Qed.

(** ** A connection to try the theorems on

    Descriptor 5 on loop 0, with three bytes waiting to be written; the message
    callback records what it gets. *)
Module Demo.
Definition demo_world : Type := world (gmap Z Z) unit unit unit unit (list (Z * list byte)).
Definition no_hook (_ : unit) (_ : loc) (w : demo_world) : res demo_world := Ret w.
Definition record_step (_ : unit) (data : list byte) (_ id : Z) (_ : option io_arg) (u : list (Z * list byte)) :=
  u ++ [(id, data)].
Definition record_msg (cb : unit) (data : list byte) (len id : Z) (ud : option io_arg) (_ : loc) (w : demo_world) :=
  Ret (set_user (record_step cb data len id ud (w_user w)) w).

Definition out_buf : io_buf := IoBuf None m4K 3 0 ([x61; x62; x63] ++ replicate 4093 x00).
Definition demo_mem : mem := Mem {[2%positive := out_buf]} (pool empty_pool) 0.
Definition demo_conn : tcp_conn unit := TcpConn 5 0%nat (Some 2%positive) None None.
Definition demo_loop : event_loop (gmap Z Z) io_cb io_arg unit :=
  add_io_event 5 (Some conn_rd_callback) EPOLLIN (Some (ArgConn 1%positive)) event_loop_new.
Definition demo_statics : server_statics unit unit :=
  Statics {[5 := Some 1%positive]} 10 1 (register_msg_router 1 tt None msg_router_new).2 None None.
Definition demo : demo_world :=
  World demo_mem {[0%nat := demo_loop]} {[1%positive := demo_conn]} demo_statics [].

Lemma demo_repr : conn_repr 1%positive demo empty_free demo_conn [] [x61; x62; x63].
Proof.
  split; [done|]. split; [apply empty_heap_ok|]. split; [done|]. split; [|split; [by left|by apply apart_nobody]].
  exists out_buf. split; [|vm_compute; done]. split; [done|].
  split; [unfold buf_wf; vm_compute; naive_solver|]. split; [apply empty_not_free|by eexists].
Qed.

Definition record_sim (u : list (Z * list byte)) (w : demo_world) (_ : list byte) : Prop := w_user w = u.
Lemma record_contract : cb_contract record_msg record_sim record_step 0 1%positive.
Proof.
  split; [done..|]. intros cb data len id ud w fl c ib ob u Hc Hu. exists fl, c, ob.
  destruct Hc as (H1 & H2 & H3 & H4 & H5 & H6). unfold record_sim in *. subst u. split_and!; try done. simpl. lia.
Qed.
Lemma no_hook_contract : hook_contract no_hook 1%positive tt (fun _ => True).
Proof. intros w fl c ib ob Hc _. exists w, fl, c. by split_and!. Qed.
End Demo.

(** With the three standard descriptors and one connection, the next descriptor is 4 and has a slot. *)
Definition one_conn : server_statics unit unit := Statics {[3 := Some 1%positive]} 10 1 msg_router_new None None.

Lemma lowest_free_dec (used : gset Z) fd :
  0 <= fd -> fd ∉ used -> forallb (fun y => bool_decide (y ∈ used)) (seqZ 0 fd) = true -> lowest_free used fd.
Proof.
  intros H0 Hn Hall. split_and!; [done..|]. intros y Hy. rewrite forallb_forall in Hall.
  eapply bool_decide_eq_true_1, Hall, list_elem_of_In. rewrite elem_of_seqZ. lia.
Qed.

Lemma curr_conns_counts_witness :
  _curr_conns one_conn = Z.of_nat (size (live one_conn)) /\ exists s', increase_conn 4 2%positive one_conn = Ret s'.
Proof.
  destruct (curr_conns_counts {[0; 1; 2]} 10 one_conn) as (Hc & _ & _ & Hnext).
  - lia.
  - apply (table_inc _ _ 3 1%positive (Statics ∅ 10 0 msg_router_new None None)).
    + reflexivity.
    + apply lowest_free_dec; [lia|vm_compute; congruence|vm_compute; reflexivity].
    + reflexivity.
    + apply table_new.
  - split; [exact Hc|]. destruct (Hnext 4 2%positive) as [_ Hs].
    + reflexivity.
    + apply lowest_free_dec; [lia|vm_compute; congruence|vm_compute; reflexivity].
    + apply Hs. vm_compute. congruence.
Defined.

(** The server of the programs: 1024 connections at most, and ten other descriptors, such as the standard
    ones, the listening socket, and an epoll instance and an eventfd for each of three workers. *)
Lemma conns_overflow_witness :
  exists (s : server_statics unit unit) fd, table_reach (range 0 10) 1024 s /\ _curr_conns s < _max_conns s /\
    lowest_free (range 0 10 ∪ live s) fd /\ increase_conn fd 1%positive s = Stop OutOfBounds.
Proof.
  destruct (conns_overflow (HK := unit) (MK := unit) 10 1024 1%positive msg_router_new None None) as (s & fd & Hr & _ & Hc & Hl & Ho); [lia|].
  exists s, fd. split; [exact Hr|]. split; [exact Hc|]. split; [exact Hl|exact Ho].
Defined.

(** One message arrives and is recorded. *)
Lemma do_read_delivers_witness :
  let chunk := frame_bytes 1 [x41] in
  exists w', do_read zero_raw Demo.no_hook Demo.record_msg (Some (zlen chunk)) [inl chunk] 1%positive Demo.demo = Ret w' /\
    w_user w' = [(1, [x41])].
Proof.
  intros chunk.
  destruct (do_read_delivers zero_raw zero_raw_len Demo.no_hook Demo.record_msg Demo.record_sim Demo.record_step 0
    chunk 0 [] 1%positive [] Demo.demo empty_free Demo.demo_conn [] [x61; x62; x63] [(1, [x41])] [] false
    Demo.record_contract Demo.demo_repr eq_refl) as [[_ Hs]|(w' & fl' & c' & ob' & _ & Hu & _ & _ & Hr)].
  - reflexivity.
  - vm_compute. congruence.
  - vm_compute. reflexivity.
  - exfalso. vm_compute in Hs. congruence.
  - exists w'. split; [exact Hr|exact Hu].
Defined.

(** All three bytes are written and the write event is removed. *)
Lemma do_write_drains_witness :
  exists w' fl', do_write Demo.no_hook (((fun n => [inl n]) <$> [1; 2]) ++ [[inr EAGAIN]]) 1%positive Demo.demo = Ret w' /\
    conn_repr 1%positive w' fl' Demo.demo_conn [] [] /\
    w_loops w' !! 0%nat = Some (del_io_event_mask 5 EPOLLOUT Demo.demo_loop).
Proof.
  apply (do_write_drains Demo.no_hook [1; 2] 1%positive Demo.demo empty_free Demo.demo_conn [] [x61; x62; x63] Demo.demo_loop).
  - apply Demo.demo_repr.
  - reflexivity.
  - repeat constructor.
  - vm_compute. congruence.
Defined.

Lemma clean_conn_ok_witness :
  exists w' fl' c', clean_conn Demo.no_hook 1%positive Demo.demo = Ret w' /\
    conn_repr 1%positive w' fl' (closed c') [] [] /\ _loop c' = 0%nat /\
    conns (w_srv w') = <[5 := None]> (conns Demo.demo_statics) /\ _curr_conns (w_srv w') = 0 /\
    w_loops w' !! 0%nat = Some (del_io_event 5 Demo.demo_loop).
Proof.
  apply (clean_conn_ok Demo.no_hook 1%positive Demo.demo empty_free Demo.demo_conn [] [x61; x62; x63] Demo.demo_loop
    (fun _ => True)).
  - discriminate.
  - exact I.
  - apply Demo.demo_repr.
  - reflexivity.
  - vm_compute. split; congruence.
Defined.
