(* ===== verification/Isolation.v ===== *)
(** * The connections of a server side by side (lrlb_reactor/src/tcp_conn.cpp,
      src/tcp_server.cpp)

    All connections of a server draw their buffers from one pool.  [conns_repr] describes
    the server as a map from its connections to what each has received and has still to
    send, in buffers that no two of them share.  A connection can be taken out of it
    ([conns_focus]), worked on by the theorems of TcpConn.v, and put back
    ([conns_unfocus]); so whatever the kernel delivers, the handlers of one connection
    leave the bytes of every other one alone. *)

From S2P Require Import Prelude.
From S2P Require Import IoBuf.
From S2P Require Import BufPool.
From S2P Require Import ReactorBuf.
From S2P Require Import Message.
From S2P Require Import EventLoop.
From S2P Require Import TcpConn.

(** ** Taking a connection out and putting it back *)
Section Conns.
Context {K : Type} `{!Epoll K} {HK MK TF P U : Type}.
Implicit Types (w : world K HK MK TF P U) (c d : tcp_conn P) (io : gmap loc (list byte * list byte)).

(** The buffer at [z] belongs to the connection. *)
Definition owns c (z : loc) : Prop := Some z = ibuf c \/ Some z = obuf c.
#[export] Instance owns_dec c z : Decision (owns c z).
Proof. unfold owns. apply _. Defined.

(** Every connection object of the server has its received and its unsent bytes in [io],
    and its buffers for itself. *)
Record conns_repr w (fl : Spec.free_lists) io : Prop := {
  cr_pool : pool_ok (w_mem w) fl;
  cr_dom x : is_Some (io !! x) <-> is_Some (w_objs w !! x);
  cr_conn x c ib ob : w_objs w !! x = Some c -> io !! x = Some (ib, ob) ->
    rb_repr (w_mem w) fl (ibuf c) ib /\ rb_repr (w_mem w) fl (obuf c) ob /\ (ibuf c = None \/ ibuf c <> obuf c);
  cr_sep x y c d z : x <> y -> w_objs w !! x = Some c -> w_objs w !! y = Some d -> owns c z -> ~ owns d z
}.

(** The server without the connection at [this]. *)
Definition others_of (this : loc) w : Others P :=
  MkOthers P (delete this (w_objs w))
    (filter (fun kv => map_Exists (fun _ d => owns d kv.1) (delete this (w_objs w))) (heap (w_mem w))).

Lemma owned_held w fl io x c z :
  conns_repr w fl io -> w_objs w !! x = Some c -> owns c z -> exists b, held (w_mem w) fl z b.
Proof.
  intros Hw Hc Hz. destruct (proj2 (cr_dom _ _ _ Hw x)) as [[ib ob] Hio]; [by eexists|].
  destruct (cr_conn _ _ _ Hw x c ib ob Hc Hio) as (Hi & Ho & _).
  destruct Hz as [Hz|Hz]; rewrite <-Hz in *; [destruct Hi as (b & ? & _)|destruct Ho as (b & ? & _)]; by exists b.
Qed.

Lemma other_buf this w fl io y b :
  conns_repr w fl io -> oth_bufs (Others := others_of this w) !! y = Some b <->
  held (w_mem w) fl y b /\ exists x d, x <> this /\ w_objs w !! x = Some d /\ owns d y.
Proof.
  intros Hw. simpl. rewrite map_lookup_filter_Some. simpl. split.
  - intros [Hy (x & d & Hx & Hown)]. apply lookup_delete_Some in Hx as [Hne Hx].
    destruct (owned_held w fl io x d y Hw Hx Hown) as [b' Hb']. pose proof (proj1 Hb') as Hb''. simplify_eq.
    split; [done|]. by exists x, d.
  - intros [Hh (x & d & Hne & Hx & Hown)]. split; [apply Hh|]. exists x, d. split; [|done]. by apply lookup_delete_Some.
Qed.

Lemma conns_focus this w fl io c ib ob :
  conns_repr w fl io -> w_objs w !! this = Some c -> io !! this = Some (ib, ob) ->
  conn_repr (Others0 := others_of this w) this w fl c ib ob.
Proof.
  intros Hw Hc Hio. destruct (cr_conn _ _ _ Hw this c ib ob Hc Hio) as (Hi & Ho & Hne).
  split_and!; try done; [apply Hw|]. split; [done|]. intros y b Hy.
  apply (other_buf this w fl io) in Hy as [Hh (x & d & Hx & Hd & Hown)]; [|done].
  pose proof (cr_sep _ _ _ Hw x this d c y Hx Hd Hc Hown) as Hno. unfold owns in Hno. tauto.
Qed.

Lemma conns_unfocus this w fl io w' fl' c' ib' ob' :
  conns_repr w fl io -> conn_repr (Others0 := others_of this w) this w' fl' c' ib' ob' ->
  conns_repr w' fl' (<[this := (ib', ob')]> io).
Proof.
  intros Hw (Hc' & Hok' & Hi' & Hob' & Hne' & Hobj & Hbuf). simpl in Hobj.
  assert (forall y, y <> this -> w_objs w' !! y = w_objs w !! y) as Hother.
  { intros y Hy. rewrite <-(lookup_delete_ne (w_objs w') this y), Hobj by done. by rewrite lookup_delete_ne. }
  assert (forall x d z, x <> this -> w_objs w !! x = Some d -> owns d z ->
    exists b, held (w_mem w) fl z b /\ held (w_mem w') fl' z b /\ ~ owns c' z) as Hkeep.
  { intros x d z Hx Hd Hz. destruct (owned_held w fl io x d z Hw Hd Hz) as [b Hb]. exists b.
    destruct (Hbuf z b) as (Hh & H1 & H2); [|unfold owns; naive_solver].
    apply (other_buf this w fl io); [done|]. split; [done|]. by exists x, d. }
  assert (forall x d rb bs, x <> this -> w_objs w !! x = Some d -> (forall z, rb = Some z -> owns d z) ->
    rb_repr (w_mem w) fl rb bs -> rb_repr (w_mem w') fl' rb bs) as Hrb.
  { intros x d [z|] bs Hx Hd Hz Hr; [|done]. destruct Hr as (b & Hb & <-).
    destruct (Hkeep x d z Hx Hd (Hz z eq_refl)) as (b2 & Hb2 & Hb3 & _). exists b.
    pose proof (proj1 Hb). pose proof (proj1 Hb2). by simplify_eq. }
  split; [done| | |].
  - intros x. rewrite lookup_insert. case_decide as E; [subst x; rewrite Hc'; by split|].
    rewrite Hother by done. apply (cr_dom _ _ _ Hw).
  - intros x c ib ob Hx. rewrite lookup_insert. case_decide as E; [intros [= <- <-]; by simplify_eq|].
    rewrite Hother in Hx by done. intros Hio. destruct (cr_conn _ _ _ Hw x c ib ob Hx Hio) as (H1 & H2 & H3).
    split_and!; [| |done]; (eapply (Hrb x c); [done|done| |done]); intros z Hz; [left|right]; by symmetry.
  - intros x y c d z Hxy Hx Hy Hz Hz'.
    destruct (decide (x = this)) as [->|Hnx]; [|destruct (decide (y = this)) as [->|Hny]].
    + rewrite Hother in Hy by done. simplify_eq. by destruct (Hkeep y d z) as (b & _ & _ & Hno).
    + rewrite Hother in Hx by done. simplify_eq. by destruct (Hkeep x c z) as (b & _ & _ & Hno).
    + rewrite Hother in Hx, Hy by done. exact (cr_sep _ _ _ Hw x y c d z Hxy Hx Hy Hz Hz').
Qed.

(** A new connection has no buffers yet. *)
Lemma conns_new this w fl io c :
  conns_repr w fl io -> w_objs w !! this = None -> ibuf c = None -> obuf c = None ->
  conns_repr (set_obj this c w) fl (<[this := ([], [])]> io).
Proof.
  intros Hw Hn Hi Ho. apply (conns_unfocus this w fl io (set_obj this c w) fl c); [done|].
  split_and!; simpl; rewrite ?Hi, ?Ho; try done; [apply lookup_insert_eq|apply Hw|by left|].
  split; simpl; [by rewrite delete_insert_eq|]. intros y b Hy. split; [|by rewrite Hi, Ho].
  apply (other_buf this w fl io) in Hy as [Hh _]; [exact Hh|done].
Qed.

(** What the loops, the statics and the application are does not matter. *)
Lemma conns_repr_same w w' fl io : conns_repr w fl io -> w_mem w' = w_mem w -> w_objs w' = w_objs w -> conns_repr w' fl io.
Proof. intros [H1 H2 H3 H4] Hm Ho. split; rewrite ?Hm, ?Ho; done. Qed.

Lemma conns_repr_empty w fl : pool_ok (w_mem w) fl -> w_objs w = ∅ -> conns_repr w fl ∅.
Proof. intros Hok Ho. split; rewrite ?Ho; try done. intros x. rewrite !lookup_empty. done. Qed.
End Conns.

(** ** What an application promises

    Its hooks and callbacks, called on a connection, work on this connection alone. *)
Definition conn_ok {K HK MK TF P U} `{!Others P} (this : loc) (w : world K HK MK TF P U) : Prop :=
  exists fl c ib ob, conn_repr this w fl c ib ob.

Class AppSafe {K HK MK TF P U} (run_hook : HK -> loc -> world K HK MK TF P U -> res (world K HK MK TF P U))
    (run_msg : MK -> list byte -> Z -> Z -> option io_arg -> loc -> world K HK MK TF P U -> res (world K HK MK TF P U)) : Prop := {
  safe_hook (OT : Others P) h this w w' : conn_ok this w -> run_hook h this w = Ret w' -> conn_ok this w';
  safe_msg (OT : Others P) cb data len id ud this w w' :
    conn_ok this w -> run_msg cb data len id ud this w = Ret w' -> conn_ok this w'
}.

(** ** The handlers, whatever the kernel reports *)
Section Safe.
Context {K : Type} `{!Epoll K} {HK MK TF P U : Type}.
Context (raw : Z -> list byte) (raw_len : forall n, 0 <= n -> zlen (raw n) = n).
Context (run_hook : HK -> loc -> world K HK MK TF P U -> res (world K HK MK TF P U)).
Context (run_msg : MK -> list byte -> Z -> Z -> option io_arg -> loc ->
                   world K HK MK TF P U -> res (world K HK MK TF P U)).
Context `{!AppSafe run_hook run_msg}.
Implicit Types (w : world K HK MK TF P U) (c : tcp_conn P).

Section One.
Context `{!Others P}.

Lemma conn_ok_same this w w' :
  conn_ok this w -> w_mem w' = w_mem w -> w_objs w' = w_objs w -> conn_ok this w'.
Proof.
  intros (fl & c & ib & ob & H1 & H2 & H3 & H4 & H5 & H6) Hm Ho. exists fl, c, ib, ob.
  unfold conn_repr. rewrite Hm, Ho. split_and!; try done. by eapply apart_same.
Qed.

(** The object changes, but not its buffers. *)
Lemma conn_ok_put this w w' c c' :
  conn_ok this w -> w_objs w !! this = Some c -> w_mem w' = w_mem w -> w_objs w' = <[this := c']> (w_objs w) ->
  ibuf c' = ibuf c -> obuf c' = obuf c -> conn_ok this w'.
Proof.
  intros (fl & c0 & ib & ob & H1 & H2 & H3 & H4 & H5 & H6) Hc Hm Ho Hi Hob. simplify_eq. exists fl, c', ib, ob.
  unfold conn_repr. rewrite Hm, Ho, lookup_insert_eq, Hi, Hob. split_and!; try done. by eapply apart_put.
Qed.

Lemma run_hook_opt_safe h this w w' : conn_ok this w -> run_hook_opt run_hook h this w = Ret w' -> conn_ok this w'.
Proof. destruct h as [h|]; simpl; [apply (safe_hook Others0)|by intros ? [= <-]]. Qed.

Lemma clean_conn_safe this w w' : conn_ok this w -> clean_conn run_hook this w = Ret w' -> conn_ok this w'.
Proof.
  intros Hok. unfold clean_conn. intros Hr. apply bind_Ret in Hr as (w1 & Hh & Hr).
  apply run_hook_opt_safe in Hh as (fl & c & ib & ob & Hc); [|done].
  pose proof Hc as (Ho1 & Hok1 & Hi1 & Hob1 & Hne1 & [Hobj Hbuf]). unfold obj in Hr. rewrite Ho1 in Hr.
  cbn [mbind res_mbind deref] in Hr. unfold on_loop in Hr. apply bind_Ret in Hr as (s & _ & Hr).
  apply bind_Ret in Hr as (w2 & Hl & Hr). res_inv. subst w2. cbn [w_mem set_srv put_loop] in *.
  destruct (rb_clear_ok _ _ _ _ Hok1 Hi1) as (m2 & E2 & fl2 & Hok2 & _ & Hfr2).
  assert (obuf c = None \/ obuf c <> ibuf c) as Hne2 by (destruct (ibuf c), (obuf c); naive_solver).
  destruct (rb_repr_frame _ _ _ _ _ _ (obuf c) ob Hfr2 Hne2 Hob1) as [Hob2 _].
  destruct (rb_clear_ok _ _ _ _ Hok2 Hob2) as (m3 & E3 & fl3 & Hok3 & _ & Hfr3).
  match goal with E : rb_clear (ibuf c) _ = _ |- _ => rewrite E in E2; injection E2 as -> -> end.
  match goal with E : rb_clear (obuf c) _ = _ |- _ => rewrite E in E3; injection E3 as -> -> end. subst w'.
  eexists fl3, _, [], []. split; [apply lookup_insert_eq|]. split_and!; simpl; try done; [by left|].
  split; simpl; [by rewrite delete_insert_eq|].
  intros y b Hy. destruct (Hbuf y b Hy) as (Hheld & Hn1 & Hn2). destruct (Hfr2 y b Hn1 Hheld) as [_ Hh2].
  by destruct (Hfr3 y b Hn2 Hh2).
Qed.

Lemma conn_ok_ibuf this w fl c ib ob m' ib' :
  conn_repr this w fl c ib ob -> rb_post (ibuf c) (w_mem w) fl (ibuf c) m' ib' -> conn_ok this (set_mem m' w).
Proof. intros Hc Hp. destruct (conn_repr_ibuf_same _ _ _ _ _ _ _ _ Hc Hp) as [fl' H]. by exists fl', c, ib', ob. Qed.

Lemma pop_safe this w c n m :
  0 <= n -> conn_ok this w -> w_objs w !! this = Some c -> rb_pop n (ibuf c) (w_mem w) = Ret m -> conn_ok this (set_mem m w).
Proof.
  intros H0 (fl & c0 & ib & ob & Hc) Ho Hp. pose proof Hc as (Ho' & Hok & Hi & _). simplify_eq.
  eapply conn_ok_ibuf; [exact Hc|]. by eapply rb_pop_any.
Qed.

Lemma read_loop_safe fuel this w w' : conn_ok this w -> read_loop run_hook run_msg fuel this w = Ret w' -> conn_ok this w'.
Proof.
  revert w. induction fuel as [|fuel IH]; intros w Hok; cbn [read_loop]; unfold obj; intros Hr;
    apply bind_Ret in Hr as (c & Hc & Hr); apply deref_Ret in Hc; apply bind_Ret in Hr as (len & _ & Hr).
  { case_bool_decide; [done|]. by simplify_eq. }
  case_bool_decide; [|by simplify_eq]. apply bind_Ret in Hr as (data & _ & Hr). apply bind_Ret in Hr as (bs & _ & Hr).
  apply bind_Ret in Hr as (hb & _ & Hr). case_bool_decide as Hbad; [by eapply clean_conn_safe|].
  case_bool_decide; [by simplify_eq|]. apply bind_Ret in Hr as (m & Hp & Hr).
  assert (conn_ok this (set_mem m w)) as Hok1 by (eapply pop_safe; [|done|exact Hc|exact Hp]; done).
  apply bind_Ret in Hr as (data2 & _ & Hr). apply bind_Ret in Hr as (bs2 & _ & Hr). apply bind_Ret in Hr as (body & _ & Hr).
  apply bind_Ret in Hr as (w1 & Hcall & Hr). apply bind_Ret in Hr as (c1 & Hc1 & Hr). apply bind_Ret in Hr as (m2 & Hp2 & Hr).
  apply deref_Ret in Hc1. apply (IH (set_mem m2 w1)); [|done]. eapply pop_safe; [|  |exact Hc1|exact Hp2]; [lia|].
  unfold call in Hcall. destruct (route _ _) as [[cb ud]|]; [|by simplify_eq]. by eapply (safe_msg Others0).
Qed.

(** Reading. *)
Lemma do_read_safe fionread ks this w w' :
  (forall n, fionread = Some n -> 0 <= n) -> conn_ok this w ->
  do_read raw run_hook run_msg fionread ks this w = Ret w' -> conn_ok this w'.
Proof.
  intros Hn (fl & c & ib & ob & Hc). pose proof Hc as (Ho & Hok & Hi & _). unfold do_read, obj. rewrite Ho.
  cbn [mbind res_mbind deref].
  destruct (read_data raw fionread ks (ibuf c) (w_mem w)) as [[[r ib1] m1]|e] eqn:Erd; [|done]. cbn [mbind res_mbind].
  destruct (read_data_any raw raw_len _ _ _ _ _ _ _ _ _ Hn Hok Hi Erd) as [ib' Hpost].
  destruct (conn_repr_ibuf _ _ _ _ _ _ _ _ _ Hc Hpost) as [fl1 Hc1].
  assert (conn_ok this (set_obj this (set_ibuf ib1 c) (set_mem m1 w))) as Hok1 by (by exists fl1, (set_ibuf ib1 c), ib', ob).
  do 2 (case_bool_decide; [by apply clean_conn_safe|]). intros Hr. apply bind_Ret in Hr as (len & _ & Hr).
  apply bind_Ret in Hr as (w2 & Hl & Hr). apply read_loop_safe in Hl as (fl2 & c2 & ib2 & ob2 & Hc2); [|done].
  pose proof Hc2 as (Ho2 & Hok2 & Hi2 & _). unfold finish_read, obj in Hr. rewrite Ho2 in Hr. cbn [mbind res_mbind deref] in Hr.
  destruct (ib_adjust_ok _ _ _ _ Hok2 Hi2) as (m3 & Ha & Hpost3). rewrite Ha in Hr. cbn [mbind res_mbind] in Hr. simplify_eq.
  by eapply conn_ok_ibuf.
Qed.

(** Writing. *)
Lemma write_loop_safe kss this w b w' : conn_ok this w -> write_loop run_hook kss this w = Ret (b, w') -> conn_ok this w'.
Proof.
  revert w. induction kss as [|ks kss IH]; intros w Hok; cbn [write_loop]; unfold obj; intros Hr;
    apply bind_Ret in Hr as (c & Hc & Hr); apply deref_Ret in Hc; apply bind_Ret in Hr as (len & _ & Hr).
  { case_bool_decide; [done|]. by simplify_eq. }
  case_bool_decide; [|by simplify_eq]. apply bind_Ret in Hr as ([ret m] & Hw & Hr).
  assert (conn_ok this (set_mem m w)) as Hok1.
  { destruct Hok as (fl & c0 & ib & ob & Hc0). pose proof Hc0 as (Ho & Hpok & _ & Hob & _). simplify_eq.
    destruct (write2fd_any _ _ _ _ _ _ _ Hpok Hob Hw) as [ob' Hpost].
    destruct (conn_repr_obuf_same _ _ _ _ _ _ _ _ Hc0 Hpost) as [fl' Hc']. by exists fl', c, ib, ob'. }
  case_bool_decide.
  { apply bind_Ret in Hr as (w1 & Hcl & Hr). simplify_eq. by eapply clean_conn_safe. }
  case_bool_decide; [by simplify_eq|by eapply IH].
Qed.

Lemma do_write_safe kss this w w' : conn_ok this w -> do_write run_hook kss this w = Ret w' -> conn_ok this w'.
Proof.
  intros Hok. unfold do_write. intros Hr. apply bind_Ret in Hr as ([[] w1] & Hl & Hr);
    apply write_loop_safe in Hl as Hok1; try done; [by simplify_eq|].
  unfold obj, on_loop in Hr. apply bind_Ret in Hr as (c & Hc & Hr). apply bind_Ret in Hr as (len & _ & Hr).
  case_bool_decide; [|by simplify_eq]. apply bind_Ret in Hr as (l & _ & Hr). simplify_eq. by eapply conn_ok_same.
Qed.

(** Queueing a message. *)
Lemma send_message_safe data id this w r w' :
  conn_ok this w -> send_message raw data id this w = Ret (r, w') -> conn_ok this w'.
Proof.
  intros (fl & c & ib & ob & Hc). pose proof Hc as (Ho & Hok & Hi & Hob & _). unfold send_message, obj. rewrite Ho.
  cbn [mbind res_mbind deref]. rewrite (rb_length_ok _ _ _ _ Hob). cbn [mbind res_mbind].
  assert (forall w fl c ob data r rb m, conn_repr this w fl c ib ob -> send_data raw data (obuf c) (w_mem w) = Ret (r, rb, m) ->
    exists fl' ob', conn_repr this (set_obj this (set_obuf rb c) (set_mem m w)) fl' (set_obuf rb c) ib ob') as Hsd.
  { clear -raw_len. intros w fl c ob data r rb m Hc Hs. pose proof Hc as (_ & Hok & _ & Hob & _).
    pose proof (send_data_ok raw raw_len data _ _ _ _ Hok Hob) as Hpost. rewrite Hs in Hpost.
    destruct Hpost as [[_ Hp]|(_ & _ & Hp)]; destruct (conn_repr_obuf _ _ _ _ _ _ _ _ _ Hc Hp) as [fl' Hc']; by eexists _, _. }
  destruct (send_data raw _ (obuf c) (w_mem w)) as [[[r1 ob1] m1]|e] eqn:E1; [|done]. cbn [mbind res_mbind].
  destruct (Hsd _ _ _ _ _ _ _ _ Hc E1) as (fl1 & o1 & Hc1).
  case_bool_decide; [intros [= _ <-]; by exists fl1, (set_obuf ob1 c), ib, o1|].
  destruct (send_data raw data _ m1) as [[[r2 ob2] m2]|e] eqn:E2; [|done]. cbn [mbind res_mbind].
  destruct (Hsd _ _ _ _ data _ _ _ Hc1 E2) as (fl2 & o2 & Hc2).
  set (c2 := set_obuf ob2 (set_obuf ob1 c)) in *. set (wb := set_obj this c2 (set_mem m2 w)).
  assert (conn_repr this wb fl2 c2 ib o2) as Hc3.
  { destruct Hc2 as (H1 & H2 & H3 & H4 & H5 & H6). split; [apply lookup_insert_eq|]. split_and!; try done.
    eapply apart_put; [exact H6|done| |done..]. simpl. by rewrite !insert_insert_eq. }
  assert (conn_ok this wb) as Hok3 by (by exists fl2, c2, ib, o2).
  case_bool_decide.
  - intros Hr. apply bind_Ret in Hr as (m3 & Hp & Hr). injection Hr as _ <-.
    pose proof Hc3 as (_ & Hpk & _ & Hob3 & _). apply (rb_pop_any _ _ (w_mem wb) fl2 o2) in Hp; [|done..].
    destruct (conn_repr_obuf_same _ _ _ _ _ _ _ _ Hc3 Hp) as [fl4 Hc4]. by eexists fl4, c2, ib, _.
  - case_bool_decide; [|by intros [= _ <-]]. unfold on_loop. intros Hr. apply bind_Ret in Hr as (w4 & Hl & Hr).
    apply bind_Ret in Hl as (l & _ & Hl). simplify_eq. by eapply conn_ok_same.
Qed.
End One.

(** ** One connection at work, the others at rest *)
Implicit Types io : gmap loc (list byte * list byte).

Lemma conns_ok_at this w fl io :
  conns_repr w fl io -> is_Some (w_objs w !! this) -> conn_ok (Others0 := others_of this w) this w.
Proof.
  intros Hw [c Hc]. destruct (proj2 (cr_dom _ _ _ Hw this)) as [[ib ob] Hio]; [by eexists|].
  exists fl, c, ib, ob. by eapply conns_focus.
Qed.

Lemma conns_step this w fl io w' :
  conns_repr w fl io -> conn_ok (Others0 := others_of this w) this w' ->
  exists fl' ib' ob', conns_repr w' fl' (<[this := (ib', ob')]> io).
Proof. intros Hw (fl' & c' & ib' & ob' & Hc'). exists fl', ib', ob'. by eapply conns_unfocus. Qed.

(** The constructor of a connection. *)
Lemma tcp_conn_new_conns x fd loop w fl io w' :
  conns_repr w fl io -> w_objs w !! x = None -> tcp_conn_new run_hook x fd loop w = Ret w' ->
  exists fl' ib ob, conns_repr w' fl' (<[x := (ib, ob)]> io).
Proof.
  intros Hw Hx. unfold tcp_conn_new. set (c0 := TcpConn _ _ _ _ _). set (w0 := set_obj x c0 w). intros Hr.
  pose proof (conns_new x w fl io c0 Hw Hx eq_refl eq_refl) as Hw0. fold w0 in Hw0.
  apply bind_Ret in Hr as (w1 & Hh & Hr).
  assert (conn_ok (Others0 := others_of x w0) x w1) as Hok.
  { eapply (run_hook_opt_safe (Others0 := others_of x w0)); [|exact Hh]. eapply conns_ok_at; [exact Hw0|].
    exists c0. apply lookup_insert_eq. }
  destruct (conns_step x w0 fl _ w1 Hw0 Hok) as (fl' & ib & ob & Hw1). rewrite insert_insert_eq in Hw1.
  unfold obj, on_loop in Hr. res_inv. subst. exists fl', ib, ob. by eapply conns_repr_same.
Qed.

(** The output of one connection of many. *)
Lemma conns_send data id this w fl io c ib ob :
  conns_repr w fl io -> w_objs w !! this = Some c -> io !! this = Some (ib, ob) -> is_Some (w_loops w !! _loop c) ->
  match send_message raw data id this w with
  | Ret (r, w') => exists fl' ob', conns_repr w' fl' (<[this := (ib, ob')]> io) /\
      (zlen ob + MESSAGE_HEAD_LEN + zlen data <= m4M -> ob' = ob ++ frame_bytes id data)
  | Stop e => e = Exit 0 /\ mem_short 8192 (w_mem w)
  end.
Proof.
  intros Hw Hc Hio Hl. pose proof (conns_focus this w fl io c ib ob Hw Hc Hio) as Hf.
  pose proof (zlen_nonneg data) as Hnn.
  pose proof (send_message_ok (Others0 := others_of this w) raw raw_len data id this w fl c ib ob Hf Hl) as Hs.
  destruct (send_message raw data id this w) as [[r w']|e]; [|done].
  assert (forall fl' c' ob', conn_repr (Others0 := others_of this w) this w' fl' c' ib ob' ->
    (zlen ob + MESSAGE_HEAD_LEN + zlen data <= m4M -> ob' = ob ++ frame_bytes id data) ->
    exists fl' ob', conns_repr w' fl' (<[this := (ib, ob')]> io) /\
      (zlen ob + MESSAGE_HEAD_LEN + zlen data <= m4M -> ob' = ob ++ frame_bytes id data)) as Hput.
  { intros fl' c' ob' Hc' Hob'. exists fl', ob'. split; [by eapply conns_unfocus|done]. }
  destruct r as [|r|r].
  - destruct Hs as (fl' & c' & Hc' & _). by eapply Hput.
  - destruct Hs as (_ & fl' & c' & [[Hb Hc']|[Hb Hc']]); (eapply Hput; [exact Hc'|lia]).
  - destruct Hs as (_ & fl' & c' & [[Hb Hc']|[Hb Hc']]); (eapply Hput; [exact Hc'|lia]).
Qed.

(** (C31) Connections do not disturb each other: whatever the kernel reports to the read or the
    write handler of one connection, and whatever messages it hands to the application,
    closing included, every other connection has the same bytes received and the same bytes
    still to be sent as before, and no two connections come to share a buffer. *)
Theorem conn_isolation fionread ks kss this w fl io w' :
  conns_repr w fl io -> is_Some (w_objs w !! this) -> (forall n, fionread = Some n -> 0 <= n) ->
  do_read raw run_hook run_msg fionread ks this w = Ret w' \/ do_write run_hook kss this w = Ret w' ->
  exists fl' ib' ob', conns_repr w' fl' (<[this := (ib', ob')]> io).
Proof.
  intros Hw Hx Hn Hr. pose proof (conns_ok_at this w fl io Hw Hx) as Hok. eapply conns_step; [exact Hw|].
  destruct Hr as [Hr|Hr]; [by eapply (do_read_safe (Others0 := others_of this w))|
    by eapply (do_write_safe (Others0 := others_of this w))].
Qed.
End Safe.

(** ** Invariants of the application

    The handlers themselves change buffers, memory and registrations; the application
    changes in its callbacks and when a connection is closed.  What these keep is kept
    by the handlers. *)
Section Keep.
Context {K : Type} `{!Epoll K} {HK MK TF P U : Type}.
Context (raw : Z -> list byte).
Context (run_hook : HK -> loc -> world K HK MK TF P U -> res (world K HK MK TF P U)).
Context (run_msg : MK -> list byte -> Z -> Z -> option io_arg -> loc ->
                   world K HK MK TF P U -> res (world K HK MK TF P U)).
Implicit Types w : world K HK MK TF P U.

(** Nothing but memory, registrations and the buffer pointers of connections differs. *)
Definition bufs_only w w' : Prop :=
  w_srv w' = w_srv w /\ w_user w' = w_user w /\
  (forall i, is_Some (w_loops w !! i) -> is_Some (w_loops w' !! i)) /\
  forall x, (fun c => (_connfd c, _loop c, param c)) <$> w_objs w' !! x =
            (fun c => (_connfd c, _loop c, param c)) <$> w_objs w !! x.

Lemma bufs_only_obj this w c c' m :
  w_objs w !! this = Some c -> _connfd c' = _connfd c -> _loop c' = _loop c -> param c' = param c ->
  bufs_only w (set_obj this c' (set_mem m w)).
Proof.
  intros Hc H1 H2 H3. split_and!; try done. intros x. simpl. rewrite lookup_insert. case_decide; [|done].
  subst x. rewrite Hc. simpl. by rewrite H1, H2, H3.
Qed.

Lemma bufs_only_refl w : bufs_only w w.
Proof. done. Qed.
Lemma bufs_only_trans w1 w2 w3 : bufs_only w1 w2 -> bufs_only w2 w3 -> bufs_only w1 w3.
Proof. intros (Ha & Hb & Hc & Hd) (He & Hf & Hg & Hh). split_and!; [congruence|congruence|auto|]. intros x. by rewrite Hh, Hd. Qed.

Lemma bufs_only_loop i l w : bufs_only w (put_loop i l w).
Proof. split_and!; try done. intros j Hj. simpl. rewrite lookup_insert. by case_decide. Qed.

(** Queueing a message. *)
Lemma send_message_bufs data id this w r w' : send_message raw data id this w = Ret (r, w') -> bufs_only w w'.
Proof.
  unfold send_message, obj. destruct (w_objs w !! this) as [c|] eqn:Ec; [|done]. cbn [mbind res_mbind deref].
  destruct (rb_length _ _) as [len|]; [|done]. cbn [mbind res_mbind].
  destruct (send_data raw _ _ _) as [[[r1 ob1] m1]|]; [|done]. cbn [mbind res_mbind].
  case_bool_decide; [intros [= _ <-]; by eapply bufs_only_obj|].
  destruct (send_data raw _ _ m1) as [[[r2 ob2] m2]|]; [|done]. cbn [mbind res_mbind].
  case_bool_decide.
  - destruct (rb_pop _ _ m2) as [m3|]; [|done]. cbn [mbind res_mbind]. intros [= _ <-]. by eapply bufs_only_obj.
  - assert (bufs_only w (set_obj this (set_obuf ob2 (set_obuf ob1 c)) (set_mem m2 w))) as Hb by (by eapply bufs_only_obj).
    case_bool_decide; [|by intros [= _ <-]]. unfold on_loop. destruct (w_loops _ !! _) as [l|]; [|done].
    cbn [mbind res_mbind deref]. intros [= _ <-]. eapply bufs_only_trans; [exact Hb|apply bufs_only_loop].
Qed.

Context (I : world K HK MK TF P U -> Prop) (this : loc).
Context (I_bufs : forall w w', bufs_only w w' -> I w -> I w').
Context (I_msg : forall cb data len id ud w w', run_msg cb data len id ud this w = Ret w' -> I w -> I w').
Context (I_clean : forall w w', clean_conn run_hook this w = Ret w' -> I w -> I w').

Lemma keep_mem m w : I w -> I (set_mem m w).
Proof. by apply I_bufs. Qed.

Lemma read_loop_keeps fuel w w' : read_loop run_hook run_msg fuel this w = Ret w' -> I w -> I w'.
Proof.
  revert w. induction fuel as [|fuel IH]; intros w Hr Hi; cbn [read_loop] in Hr;
    apply bind_Ret in Hr as (c & Hc & Hr); apply bind_Ret in Hr as (len & _ & Hr); case_bool_decide; try by simplify_eq.
  apply bind_Ret in Hr as (? & _ & Hr). apply bind_Ret in Hr as (? & _ & Hr). apply bind_Ret in Hr as (? & _ & Hr).
  case_bool_decide; [by eapply I_clean|]. case_bool_decide; [by simplify_eq|].
  apply bind_Ret in Hr as (m & _ & Hr). do 3 apply bind_Ret in Hr as (? & _ & Hr).
  apply bind_Ret in Hr as (w1 & Hcall & Hr). apply bind_Ret in Hr as (? & _ & Hr). apply bind_Ret in Hr as (m2 & _ & Hr).
  eapply IH; [exact Hr|]. apply keep_mem. unfold call in Hcall.
  destruct (route _ _) as [[cb ud]|]; [eapply I_msg; [exact Hcall|]|simplify_eq]; by apply keep_mem.
Qed.

Lemma do_read_keeps fionread ks w w' : do_read raw run_hook run_msg fionread ks this w = Ret w' -> I w -> I w'.
Proof.
  unfold do_read, obj. intros Hr Hi. apply bind_Ret in Hr as (c & Hc & Hr). apply deref_Ret in Hc.
  apply bind_Ret in Hr as ([[ret ib] m] & _ & Hr).
  assert (I (set_obj this (set_ibuf ib c) (set_mem m w))) as Hi1 by (eapply I_bufs; [by eapply bufs_only_obj|done]).
  do 2 (case_bool_decide; [by eapply I_clean|]). apply bind_Ret in Hr as (? & _ & Hr).
  apply bind_Ret in Hr as (w1 & Hl & Hr). apply read_loop_keeps in Hl; [|done].
  unfold finish_read in Hr. res_inv. subst. by apply keep_mem.
Qed.

Lemma do_write_keeps kss w w' : do_write run_hook kss this w = Ret w' -> I w -> I w'.
Proof.
  assert (forall w b w', write_loop run_hook kss this w = Ret (b, w') -> I w -> I w') as Hloop.
  { induction kss as [|ks kss0 IH]; intros w0 b w1 Hr Hi; cbn [write_loop] in Hr;
      apply bind_Ret in Hr as (c & Hc & Hr); apply bind_Ret in Hr as (len & _ & Hr); case_bool_decide; try by simplify_eq.
    apply bind_Ret in Hr as ([ret m] & _ & Hr). apply (keep_mem m) in Hi.
    case_bool_decide; [|case_bool_decide; [by simplify_eq|by eapply IH]].
    apply bind_Ret in Hr as (w2 & Hcl & Hr). simplify_eq. by eapply I_clean. }
  unfold do_write. intros Hr Hi. apply bind_Ret in Hr as ([b w1] & Hl & Hr). apply Hloop in Hl; [|done].
  destruct b; [by injection Hr as <-|]. unfold obj, on_loop in Hr. apply bind_Ret in Hr as (c & _ & Hr). apply bind_Ret in Hr as (len & _ & Hr).
  case_bool_decide; [|by simplify_eq]. apply bind_Ret in Hr as (l & _ & Hr). simplify_eq. apply (I_bufs w1); [apply bufs_only_loop|done].
Qed.
End Keep.

(** ** Two connections with output *)
Module TwoDemo.
Import Demo.
Lemma record_safe : AppSafe no_hook record_msg.
Proof.
  split.
  - intros OT h this w w' Hok [= <-]. exact Hok.
  - intros OT cb data len id ud this w w' Hok [= <-]. by eapply conn_ok_same.
Qed.

Definition conn2 : tcp_conn unit := TcpConn 6 0%nat (Some 4%positive) None None.
Definition two : demo_world :=
  World (Mem {[2%positive := out_buf; 4%positive := out_buf]} (pool empty_pool) 0) {[0%nat := demo_loop]}
        {[1%positive := demo_conn; 3%positive := conn2]} demo_statics [].
Definition io2 : gmap loc (list byte * list byte) :=
  {[1%positive := ([], [x61; x62; x63]); 3%positive := ([], [x61; x62; x63])]}.

Lemma out_held x : x = 2%positive \/ x = 4%positive -> held (w_mem two) empty_free x out_buf.
Proof.
  intros Hx. split; [by destruct Hx as [-> | ->]|]. split; [unfold buf_wf; vm_compute; naive_solver|].
  split; [apply empty_not_free|by eexists].
Qed.
Lemma two_objs x c : w_objs two !! x = Some c -> x = 1%positive /\ c = demo_conn \/ x = 3%positive /\ c = conn2.
Proof.
  unfold two. cbn [w_objs]. rewrite lookup_insert. case_decide; [naive_solver|]. rewrite lookup_singleton.
  case_decide; naive_solver.
Qed.
Lemma two_repr : conns_repr two empty_free io2.
Proof.
  split; [apply empty_heap_ok| | |].
  - intros x. unfold io2, two. cbn [w_objs]. rewrite !lookup_insert. case_decide; [by split|].
    rewrite !lookup_singleton. case_decide; by split.
  - intros x c ib ob [[-> ->]|[-> ->]]%two_objs Hio; vm_compute in Hio; injection Hio as <- <-;
      (split; [done|]); (split; [|by left]); exists out_buf; (split; [apply out_held; auto|by vm_compute]).
  - intros x y c d z Hne [[-> ->]|[-> ->]]%two_objs [[-> ->]|[-> ->]]%two_objs [Hz|Hz] [Hz'|Hz']; cbn in Hz, Hz'; congruence.
Qed.
End TwoDemo.

(** A message arrives for the first connection while both have output waiting. *)
Lemma conn_isolation_witness :
  let chunk := frame_bytes 1 [x41] in
  exists w' fl' ib' ob',
    do_read zero_raw Demo.no_hook Demo.record_msg (Some (zlen chunk)) [inl chunk] 1%positive TwoDemo.two = Ret w' /\
    conns_repr w' fl' (<[1%positive := (ib', ob')]> TwoDemo.io2).
Proof.
  intros chunk.
  assert (exists w', do_read zero_raw Demo.no_hook Demo.record_msg (Some (zlen chunk)) [inl chunk] 1%positive TwoDemo.two = Ret w')
    as [w' Hr] by (eexists; vm_compute; reflexivity).
  destruct (conn_isolation (AppSafe0 := TwoDemo.record_safe) zero_raw zero_raw_len Demo.no_hook Demo.record_msg
    (Some (zlen chunk)) [inl chunk] [] 1%positive TwoDemo.two empty_free TwoDemo.io2 w') as (fl' & ib' & ob' & Hc).
  - apply TwoDemo.two_repr.
  - eexists. reflexivity.
  - intros n [= <-]. vm_compute. congruence.
  - left. exact Hr.
  - exists w', fl', ib', ob'. split; [exact Hr|exact Hc].
Defined.
