(* ===== verification/ConnStep.v ===== *)
(** * What one connection's operations do exactly (lrlb_reactor/src/tcp_conn.cpp,
      src/event_loop.cpp)

    TcpConn.v describes a connection by its bytes.  Here the registration of its descriptor
    with the event loop is added, and the operations are described without leaving a case
    open: what is queued when the output is full, what is left when writes fail or block, and
    that a connection is registered for reading as long as it is open and for writing as long
    as it has output. *)

From S2P Require Import Prelude.
From S2P Require Import IoBuf.
From S2P Require Import BufPool.
From S2P Require Import ReactorBuf.
From S2P Require Import Message.
From S2P Require Import EventLoop.
From S2P Require Import TcpConn.
From S2P Require Import Isolation.

(** ** Registrations *)

(** epoll(7) while the kernel has the memory for its interest lists: adding an absent
    descriptor and modifying a present one succeed. *)
Class EpollLive (K : Type) `{!Epoll K} : Prop := {
  epoll_add_absent fd ev (k : K) : interest k !! fd = None -> (epoll_ctl EPOLL_CTL_ADD fd ev k).1 = 0;
  epoll_mod_present fd ev (k : K) : is_Some (interest k !! fd) -> (epoll_ctl EPOLL_CTL_MOD fd ev k).1 = 0
}.

#[export] Instance simple_epoll_live : EpollLive (gmap Z Z).
Proof.
  split; intros fd ev k; simpl; unfold simple_ctl.
  - by intros ->.
  - by intros [x ->].
Qed.

Section Watch.
Context {K : Type} `{!Epoll K} `{!EpollLive K} {TF : Type}.
Implicit Types (l : event_loop K io_cb io_arg TF) (out : Prop).

(** The descriptor of the connection at [x] is registered for reading, and for writing if
    [out], in the loop's own record and with the kernel. *)
Record watched (x : loc) (fd : Z) out l : Prop := {
  wt_entry : exists e, _io_evs l !! fd = Some e /\ has (mask e) EPOLLIN = true /\
    read_callback e = Some conn_rd_callback /\ rcb_args e = Some (ArgConn x) /\
    (out -> write_callback e = Some conn_wt_callback /\ wcb_args e = Some (ArgConn x));
  wt_interest : exists ev, interest (_epfd l) !! fd = Some ev /\ has ev EPOLLIN = true /\ (out -> has ev EPOLLOUT = true);
  wt_listen : fd ∈ listen_fds l
}.

(** The loop knows nothing of the descriptor. *)
Definition unwatched (fd : Z) l : Prop :=
  _io_evs l !! fd = None /\ interest (_epfd l) !! fd = None /\ (fd ∉ listen_fds l).

(** The two loops treat every other descriptor alike. *)
Definition same_but (fd : Z) l l' : Prop :=
  forall fd', fd' <> fd -> _io_evs l' !! fd' = _io_evs l !! fd' /\
    interest (_epfd l') !! fd' = interest (_epfd l) !! fd' /\ (fd' ∈ listen_fds l' <-> fd' ∈ listen_fds l).

Lemma same_but_refl fd l : same_but fd l l.
Proof. by intros fd' _. Qed.
Lemma same_but_trans fd l1 l2 l3 : same_but fd l1 l2 -> same_but fd l2 l3 -> same_but fd l1 l3.
Proof.
  intros H1 H2 fd' Hne. destruct (H1 fd' Hne) as (Ha & Hb & Hc), (H2 fd' Hne) as (Hd & He & Hf).
  rewrite Hd, He, Hf. done.
Qed.

Lemma watched_same x fd fd' out l l' : same_but fd' l l' -> fd <> fd' -> watched x fd out l -> watched x fd out l'.
Proof.
  intros Hs Hne [(e & He & H1) (ev & Hev & H2) H3]. destruct (Hs fd Hne) as (Ha & Hb & Hc).
  split; [exists e; by rewrite Ha|exists ev; by rewrite Hb|by apply Hc].
Qed.
Lemma unwatched_same fd fd' l l' : same_but fd' l l' -> fd <> fd' -> unwatched fd l -> unwatched fd l'.
Proof. intros Hs Hne (H1 & H2 & H3). destruct (Hs fd Hne) as (Ha & Hb & Hc). unfold unwatched. by rewrite Ha, Hb, Hc. Qed.

Lemma watched_weaken x fd (out out' : Prop) l : (out' -> out) -> watched x fd out l -> watched x fd out' l.
Proof. intros Ho [(e & H1 & H2 & H3 & H4 & H5) (ev & H6 & H7 & H8) H9]. split; [exists e; split_and!; auto|exists ev; split_and!; auto|done]. Qed.

Lemma add_io_event_same fd proc m args l : same_but fd l (add_io_event fd proc m args l).
Proof.
  intros fd' Hne. split; [|split; [by apply add_io_event_frame|]]; unfold add_io_event;
    set (c := if bool_decide _ then _ else _); destruct c as [fm op]; destruct (epoll_ctl op fd fm (_epfd l)) as [r k]; simpl.
  - by rewrite lookup_insert_ne.
  - case_bool_decide; [done|]. rewrite elem_of_union, elem_of_singleton. naive_solver.
Qed.

Lemma del_io_event_same fd l : same_but fd l (del_io_event fd l).
Proof.
  intros fd' Hne. rewrite interest_del. simpl. rewrite !lookup_delete_ne by done.
  split_and!; try done. rewrite elem_of_difference, elem_of_singleton. naive_solver.
Qed.

Lemma del_io_event_mask_same fd m l : same_but fd l (del_io_event_mask fd m l).
Proof.
  unfold del_io_event_mask. case_bool_decide; [|apply same_but_refl]. case_bool_decide; [apply del_io_event_same|].
  intros fd' Hne. simpl. split_and!; try done.
  match goal with |- context [epoll_ctl ?op fd ?m ?k] => pose proof (epoll_ctl_spec op fd m k) as Hs; destruct (epoll_ctl op fd m k) as [r k'] end.
  simpl. destruct Hs as [[_ ->]|[_ [_ ->]]]; [done|]. by rewrite lookup_insert_ne.
Qed.

Lemma unwatched_del fd l : unwatched fd (del_io_event fd l).
Proof.
  unfold unwatched. rewrite interest_del. simpl. rewrite !lookup_delete_eq. split_and!; try done.
  rewrite elem_of_difference, elem_of_singleton. naive_solver.
Qed.

(** What [epoll_ctl] leaves when it succeeds. *)
Lemma ctl_add fd ev (k : K) : interest k !! fd = None ->
  exists k', epoll_ctl EPOLL_CTL_ADD fd ev k = (0, k') /\ interest k' !! fd = Some ev.
Proof.
  intros Hn. pose proof (epoll_add_absent fd ev k Hn) as Hr. pose proof (epoll_ctl_spec EPOLL_CTL_ADD fd ev k) as Hs.
  destruct (epoll_ctl EPOLL_CTL_ADD fd ev k) as [r k']. simpl in Hr. subst r. exists k'. split; [done|].
  destruct Hs as [[? _]|(_ & _ & ->)]; [done|apply lookup_insert_eq].
Qed.
Lemma ctl_mod fd ev (k : K) : is_Some (interest k !! fd) ->
  exists k', epoll_ctl EPOLL_CTL_MOD fd ev k = (0, k') /\ interest k' !! fd = Some ev.
Proof.
  intros Hn. pose proof (epoll_mod_present fd ev k Hn) as Hr. pose proof (epoll_ctl_spec EPOLL_CTL_MOD fd ev k) as Hs.
  destruct (epoll_ctl EPOLL_CTL_MOD fd ev k) as [r k']. simpl in Hr. subst r. exists k'. split; [done|].
  destruct Hs as [[? _]|(_ & _ & ->)]; [done|apply lookup_insert_eq].
Qed.

(** A new connection. *)
Lemma watch_in x fd l :
  unwatched fd l -> watched x fd False (add_io_event fd (Some conn_rd_callback) EPOLLIN (Some (ArgConn x)) l).
Proof.
  intros (H1 & H2 & H3). unfold add_io_event. rewrite bool_decide_eq_false_2 by (rewrite H1; by intros []).
  destruct (ctl_add fd EPOLLIN _ H2) as (k & -> & Hk). simpl. split; simpl.
  - eexists. rewrite lookup_insert_eq. by split_and!.
  - exists EPOLLIN. by split_and!.
  - apply elem_of_union. left. by apply elem_of_singleton.
Qed.

(** Output arms the write event. *)
Lemma watch_out x fd out l :
  watched x fd out l -> watched x fd True (add_io_event fd (Some conn_wt_callback) EPOLLOUT (Some (ArgConn x)) l).
Proof.
  intros [(e & He & H1 & H2 & H3 & _) (ev & Hev & _) H4]. unfold add_io_event, ev_get.
  rewrite bool_decide_eq_true_2 by (by rewrite He). rewrite He. simpl.
  destruct (ctl_mod fd (Z.lor (mask e) EPOLLOUT) _ (mk_is_Some _ _ Hev)) as (k & -> & Hk). simpl. split; simpl.
  - eexists. rewrite lookup_insert_eq. split_and!; simpl; try done. cbn [mask]. by rewrite has_lor, H1.
  - eexists. split; [exact Hk|]. rewrite !has_lor, H1, orb_true_r. done.
  - apply elem_of_union. by right.
Qed.

(** The output is gone: the write event is removed, the read event stays. *)
Lemma watch_drained x fd out l : watched x fd out l -> watched x fd False (del_io_event_mask fd EPOLLOUT l).
Proof.
  intros [(e & He & H1 & H2 & H3 & _) (ev & Hev & _) H4]. unfold del_io_event_mask, ev_get.
  rewrite bool_decide_eq_true_2 by (by rewrite He). rewrite He. change (default io_event_zero (Some e)) with e.
  set (o := Z.land (mask e) (Z.lnot EPOLLOUT)).
  assert (has o EPOLLIN = true) as Ho.
  { unfold o, has. rewrite <-Z.land_assoc. exact H1. }
  rewrite bool_decide_eq_false_2 by (intros E; by rewrite E in Ho).
  destruct (ctl_mod fd o _ (mk_is_Some _ _ Hev)) as (k & -> & Hk). simpl. split; simpl; [|by exists o|done].
  exists e. by split_and!.
Qed.

(** What the loop does with an event of a watched connection: input goes to its read handler, and
    output, if it has any, to its write handler.  An error or a hang-up that comes alone removes
    the descriptor from the loop and calls neither, so the connection stays open, in the table and
    with its buffers, and no event of it is seen again. *)
Lemma watched_fires {W} (get_loop : W -> event_loop K io_cb io_arg TF) set_loop run_io x fd out events w :
  watched x fd out (get_loop w) ->
  let run := fire get_loop set_loop run_io (fd, events) w in
  (has events EPOLLIN = true -> run = run_io conn_rd_callback fd (Some (ArgConn x)) w) /\
  (has events EPOLLIN = false -> has events EPOLLOUT = true -> out -> run = run_io conn_wt_callback fd (Some (ArgConn x)) w) /\
  (has events EPOLLIN = false -> has events EPOLLOUT = false -> has events (Z.lor EPOLLHUP EPOLLERR) = true ->
   run = Ret (set_loop (del_io_event fd (get_loop w)) w) /\ unwatched fd (del_io_event fd (get_loop w))).
Proof.
  intros [(e & He & H1 & H2 & H3 & H4) _ _]. unfold fire. rewrite He. split_and!.
  - intros ->. by rewrite H2, H3.
  - intros -> -> Ho. destruct (H4 Ho) as [-> ->]. done.
  - intros -> -> ->. split; [done|apply unwatched_del].
Qed.
End Watch.

(** ** Queueing *)

(** The output after a message: a frame more; or nothing more when not even the header fits
    the largest buffer; or, when the header fits and the body does not, the header is appended
    and the first eight bytes of the output are dropped. *)
Definition queued (id : Z) (data ob : list byte) : list byte :=
  if bool_decide (m4M < zlen ob + MESSAGE_HEAD_LEN) then ob
  else if bool_decide (m4M < zlen ob + MESSAGE_HEAD_LEN + zlen data)
  then drop 8 (ob ++ head_bytes (MsgHead id (zlen data)))
  else ob ++ frame_bytes id data.

Lemma queued_nonnil id data ob : ob <> [] -> queued id data ob <> [].
Proof.
  intros Hne. unfold queued. case_bool_decide; [done|]. case_bool_decide.
  - intros E. apply (f_equal length) in E. pose proof (zlen_head_bytes (MsgHead id (zlen data))) as Hh. unfold zlen in Hh.
    rewrite length_drop, length_app in E. destruct ob; [done|]. simpl length in E. lia.
  - intros [-> _]%app_eq_nil. done.
Qed.

(** ** The kernel's answers *)

(** What the successive calls of [write2fd] leave of the output; [None] after an error. *)
Fixpoint drained (kss : list (list (Z + errno))) (ob : list byte) : option (list byte) :=
  match ob, kss with
  | [], _ | _, [] => Some ob
  | _, ks :: kss =>
      match retry ks with
      | Ret (inl n) => if bool_decide (n = 0) then Some ob else drained kss (drop (Z.to_nat n) ob)
      | Ret (inr EAGAIN) | Stop _ => Some ob
      | Ret (inr _) => None
      end
  end.

(** [write] accepts no more than it is offered, and answers as often as it is called. *)
Fixpoint writes_ok (kss : list (list (Z + errno))) (n : Z) : bool :=
  bool_decide (n = 0) ||
  match kss with
  | [] => false
  | ks :: kss =>
      match retry ks with
      | Ret (inl k) => bool_decide (0 <= k <= n) && (bool_decide (k = 0) || writes_ok kss (n - k))
      | Ret (inr _) => true
      | Stop _ => false
      end
  end.

(** The bytes [read] delivers; [None] at the end of the stream and for errors. *)
Definition read_chunk (fionread : option Z) (ks : list (list byte + errno)) : option (list byte) :=
  match fionread, retry ks with
  | Some _, Ret (inl chunk) => if bool_decide (chunk = []) then None else Some chunk
  | _, _ => None
  end.

(** [read] delivers what [FIONREAD] announced, nothing at the end of the stream, or an error;
    what is announced fits the largest buffer together with [pending] bytes. *)
Definition reads_ok (pending : Z) (fionread : option Z) (ks : list (list byte + errno)) : bool :=
  match fionread with
  | None => true
  | Some n =>
      bool_decide (0 <= n) && bool_decide (pending + n <= m4M) &&
      match retry ks with Ret (inl chunk) => bool_decide (zlen chunk = n) | Ret (inr _) => true | Stop _ => false end
  end.

Lemma retry_split {A} (ks : list (A + errno)) r :
  retry ks = Ret r -> exists n rest, ks = replicate n (inr EINTR) ++ r :: rest /\ r <> inr EINTR.
Proof.
  induction ks as [|k ks IH]; [done|]. destruct k as [a|[]]; simpl; try (intros [= <-]; by exists 0%nat, ks).
  intros (n & rest & -> & Hr)%IH. by exists (S n), rest.
Qed.

(** Bytes that arrive: [read] delivers them after some interruptions. *)
Lemma read_chunk_some pending fionread ks chunk :
  reads_ok pending fionread ks = true -> read_chunk fionread ks = Some chunk ->
  exists n rest, fionread = Some (zlen chunk) /\ ks = replicate n (inr EINTR) ++ inl chunk :: rest /\
    0 < zlen chunk /\ pending + zlen chunk <= m4M.
Proof.
  unfold read_chunk. destruct fionread as [n|]; [|done]. simpl. destruct (retry ks) as [[ch|]|] eqn:Er; [|done|done].
  intros Hk Hch. case_bool_decide as Hnil; [done|]. injection Hch as ->.
  apply andb_prop in Hk as [Hk Hn]. apply andb_prop in Hk as [_ Hfit]. apply bool_decide_eq_true_1 in Hn, Hfit. subst n.
  destruct (retry_split ks _ Er) as (n & rest & -> & _). exists n, rest. split_and!; try done.
  pose proof (zlen_nonneg chunk). destruct (decide (zlen chunk = 0)) as [Hz|]; [|lia]. by apply zlen_nil in Hz.
Qed.

Section Step.
Context {K : Type} `{!Epoll K} `{!EpollLive K} {HK MK TF P U : Type}.
Context (raw : Z -> list byte) (raw_len : forall n, 0 <= n -> zlen (raw n) = n).
Context `{!Others P}.
Implicit Types (w : world K HK MK TF P U) (c : tcp_conn P) (l : event_loop K io_cb io_arg TF).

(** What [send_message] does to the loops: a success on an empty output registers the write
    event, everything else leaves them. *)
Lemma send_message_loops data id this w r w' c n :
  w_objs w !! this = Some c -> rb_length (obuf c) (w_mem w) = Ret n -> send_message raw data id this w = Ret (r, w') ->
  w_loops w' = w_loops w /\ (r = -1 \/ n <> 0) \/
  r = 0 /\ n = 0 /\ exists l, w_loops w !! _loop c = Some l /\
    w_loops w' = <[_loop c := add_io_event (_connfd c) (Some conn_wt_callback) EPOLLOUT (Some (ArgConn this)) l]> (w_loops w).
Proof.
  intros Ho Hn. unfold send_message, obj. rewrite Ho. cbn [mbind res_mbind deref]. rewrite Hn. cbn [mbind res_mbind].
  destruct (send_data raw _ (obuf c) (w_mem w)) as [[[r1 rb1] m1]|]; [|done]. cbn [mbind res_mbind].
  case_bool_decide; [intros [= <- <-]; left; by auto|]. cbn [obuf set_obuf].
  destruct (send_data raw data rb1 m1) as [[[r2 rb2] m2]|]; [|done]. cbn [mbind res_mbind]. case_bool_decide.
  - destruct (rb_pop _ rb2 m2) as [m3|]; [|done]. cbn [mbind res_mbind]. intros [= <- <-]. left. by auto.
  - case_bool_decide as Hz; [|intros [= <- <-]; left; by auto].
    unfold on_loop. cbn [w_loops set_obj set_mem _loop set_obuf]. destruct (w_loops w !! _loop c) as [l|] eqn:El; [|done].
    cbn [mbind res_mbind deref]. intros [= <- <-]. right. split_and!; try done. by exists l.
Qed.

(** [tcp_conn::send_message] without an open case. *)
Lemma send_exact data id this w fl c ib ob l :
  conn_repr this w fl c ib ob -> w_loops w !! _loop c = Some l -> watched this (_connfd c) (ob <> []) l ->
  match send_message raw data id this w with
  | Ret (r, w') => exists fl' rb l', conn_repr this w' fl' (set_obuf rb c) ib (queued id data ob) /\
      w_objs w' = <[this := set_obuf rb c]> (w_objs w) /\ w_loops w' = <[_loop c := l']> (w_loops w) /\
      same_but (_connfd c) l l' /\ watched this (_connfd c) (queued id data ob <> []) l' /\
      w_user w' = w_user w /\ w_srv w' = w_srv w /\ total_mem (w_mem w') <= total_mem (w_mem w) + 8192
  | Stop e => e = Exit 0 /\ mem_short 8192 (w_mem w)
  end.
Proof.
  intros Hc Hl Hwt. pose proof Hc as (Ho & Hok & Hi & Hob & _). pose proof (rb_length_ok _ _ _ _ Hob) as Hlen.
  pose proof (send_message_ok raw raw_len data id this w fl c ib ob Hc (mk_is_Some _ _ Hl)) as Hs.
  destruct (send_message raw data id this w) as [[r w']|e] eqn:Es; [|done].
  pose proof (send_message_loops _ _ _ _ _ _ _ _ Ho Hlen Es) as Hloops.
  destruct (send_message_frame raw _ _ _ _ _ _ c Ho (proj2 (proj2 Hok)) Es) as (Hu & Hsrv & Htot & _ & rb & Ho').
  assert (exists fl' c', conn_repr this w' fl' c' ib (queued id data ob) /\ (r = -1 -> ob = [] -> queued id data ob = [])) as
    (fl' & c' & Hc' & Hempty).
  { unfold queued. destruct r as [|r|r].
    - destruct Hs as (fl' & c' & Hc' & _). pose proof Hc' as (_ & Hok' & _ & Hob' & _).
      pose proof (rb_repr_max _ _ _ _ Hok' Hob') as Hmax. rewrite zlen_app, zlen_frame_bytes in Hmax.
      pose proof (zlen_nonneg data). rewrite !bool_decide_eq_false_2 by lia. by exists fl', c'.
    - by destruct Hs.
    - destruct Hs as (_ & fl' & c' & [[Hb Hc']|[Hb Hc']]); exists fl', c'.
      + rewrite bool_decide_eq_true_2 by lia. done.
      + rewrite bool_decide_eq_false_2, bool_decide_eq_true_2 by lia. split; [done|]. intros _ ->. vm_compute. done. }
  assert (c' = set_obuf rb c) as ->.
  { pose proof (proj1 Hc') as E. rewrite Ho', lookup_insert_eq in E. congruence. }
  exists fl', rb.
  assert (forall l', w_loops w' = <[_loop c := l']> (w_loops w) -> same_but (_connfd c) l l' ->
    watched this (_connfd c) (queued id data ob <> []) l' ->
    exists l', conn_repr this w' fl' (set_obuf rb c) ib (queued id data ob) /\
      w_objs w' = <[this := set_obuf rb c]> (w_objs w) /\ w_loops w' = <[_loop c := l']> (w_loops w) /\
      same_but (_connfd c) l l' /\ watched this (_connfd c) (queued id data ob <> []) l' /\
      w_user w' = w_user w /\ w_srv w' = w_srv w /\ total_mem (w_mem w') <= total_mem (w_mem w) + 8192) as Hdone.
  { intros l' H1 H2 H3. exists l'. by split_and!. }
  destruct Hloops as [[Hsame Hwhy]|(-> & Hz & l0 & Hl0 & Hnew)].
  - apply (Hdone l); [rewrite insert_id; done|apply same_but_refl|]. eapply watched_weaken; [|exact Hwt].
    intros Hq ->. destruct Hwhy as [->|Hn]; [by apply Hq, Hempty|by apply Hn].
  - simplify_eq. eapply (Hdone _ Hnew); [apply add_io_event_same|]. eapply watched_weaken; [|by eapply watch_out]. done.
Qed.

(** ** Writing *)
Context (run_hook : HK -> loc -> world K HK MK TF P U -> res (world K HK MK TF P U)).

Lemma write_loop_exact kss this w fl c ib ob :
  conn_repr this w fl c ib ob -> writes_ok kss (zlen ob) = true ->
  exists m' fl' ob', conn_repr this (set_mem m' w) fl' c ib ob' /\
    match drained kss ob with
    | Some ob1 => ob' = ob1 /\ write_loop run_hook kss this w = Ret (false, set_mem m' w)
    | None => write_loop run_hook kss this w = (w' ← clean_conn run_hook this (set_mem m' w); Ret (true, w'))
    end.
Proof.
  revert w fl ob. induction kss as [|ks kss IH]; intros w fl ob Hc Hok; pose proof Hc as (Ho & Hpok & _ & Hob & _).
  { cbn [writes_ok] in Hok. rewrite orb_false_r in Hok. apply bool_decide_eq_true_1, zlen_nil in Hok. subst ob.
    exists (w_mem w), fl, []. split; [by destruct w|]. cbn [drained write_loop]. split; [done|].
    unfold obj. rewrite Ho. cbn [mbind res_mbind deref]. rewrite (rb_length_ok _ _ _ _ Hob). by destruct w. }
  destruct (decide (ob = [])) as [->|Hne].
  { exists (w_mem w), fl, []. split; [by destruct w|]. cbn [drained write_loop]. split; [done|].
    unfold obj. rewrite Ho. cbn [mbind res_mbind deref]. rewrite (rb_length_ok _ _ _ _ Hob). by destruct w. }
  assert (zlen ob <> 0) as Hnz by (intros Hz; by apply Hne, zlen_nil).
  cbn [writes_ok] in Hok. rewrite bool_decide_eq_false_2 in Hok by done. cbn [orb] in Hok.
  assert (drained (ks :: kss) ob = match retry ks with
      | Ret (inl n) => if bool_decide (n = 0) then Some ob else drained kss (drop (Z.to_nat n) ob)
      | Ret (inr EAGAIN) | Stop _ => Some ob
      | Ret (inr _) => None end) as -> by (by destruct ob).
  cbn [write_loop]. unfold obj. rewrite Ho. cbn [mbind res_mbind deref]. rewrite (rb_length_ok _ _ _ _ Hob). cbn [mbind res_mbind].
  rewrite bool_decide_eq_true_2 by done. destruct (obuf c) as [x|] eqn:Ex; [|by simpl in Hob].
  destruct (retry ks) as [r|] eqn:Er; [|done]. destruct (retry_split ks r Er) as (n & rest & -> & Hr).
  destruct (write2fd_ok n r rest x _ _ _ Hpok Hob) as (m1 & Hw & Hpost).
  { destruct r as [k|e]; [|congruence]. apply andb_prop in Hok as [Hk _]. apply bool_decide_eq_true_1 in Hk. lia. }
  rewrite Hw. cbn [mbind res_mbind]. rewrite <-Ex in Hpost.
  destruct (conn_repr_obuf_same _ _ _ _ _ _ _ _ Hc Hpost) as (fl1 & Hc1). destruct r as [k|e].
  - apply andb_prop in Hok as [Hk Hrest]. apply bool_decide_eq_true_1 in Hk.
    rewrite (bool_decide_eq_false_2 (k = -1)) by lia. case_bool_decide as Hk0.
    + subst k. rewrite drop_0 in Hc1. exists m1, fl1, ob. done.
    + cbn [orb] in Hrest.
      apply (IH _ _ _ Hc1). by replace (zlen (drop (Z.to_nat k) ob)) with (zlen ob - k) by zlen_lia.
  - exists m1, fl1, ob. split; [exact Hc1|]. destruct e; try done.
Qed.

(** [tcp_conn::do_write] without an open case. *)
Lemma do_write_exact kss this w fl c ib ob l :
  conn_repr this w fl c ib ob -> w_loops w !! _loop c = Some l -> watched this (_connfd c) (ob <> []) l ->
  writes_ok kss (zlen ob) = true ->
  match drained kss ob with
  | Some ob' => exists w' fl' l', do_write run_hook kss this w = Ret w' /\ conn_repr this w' fl' c ib ob' /\
      w_objs w' = w_objs w /\ w_loops w' = <[_loop c := l']> (w_loops w) /\ same_but (_connfd c) l l' /\
      watched this (_connfd c) (ob' <> []) l' /\ w_user w' = w_user w /\ w_srv w' = w_srv w
  | None => exists m' fl' ob', conn_repr this (set_mem m' w) fl' c ib ob' /\
      do_write run_hook kss this w = clean_conn run_hook this (set_mem m' w)
  end.
Proof.
  intros Hc Hl Hwt Hok. destruct (write_loop_exact kss this w fl c ib ob Hc Hok) as (m' & fl' & ob' & Hc' & Hrun).
  assert (forall ob1, drained kss ob = Some ob1 -> ob1 <> [] -> ob <> []) as Hout.
  { intros ob1 Hd Hne ->. destruct kss; simpl in Hd; congruence. }
  unfold do_write. destruct (drained kss ob) as [ob1|].
  - destruct Hrun as [-> ->]. cbn [mbind res_mbind]. pose proof Hc' as (Ho' & Hpok' & _ & Hob' & _).
    unfold obj. rewrite Ho'. cbn [mbind res_mbind deref]. rewrite (rb_length_ok _ _ _ _ Hob'). cbn [mbind res_mbind].
    case_bool_decide as Hz.
    + apply zlen_nil in Hz. subst ob1. unfold on_loop. cbn [w_loops set_mem]. rewrite Hl. cbn [mbind res_mbind deref].
      eexists _, fl', _. split; [done|]. split; [destruct Hc' as (H1 & H2 & H3 & H4 & H5 & H6); by split_and!|].
      split; [done|]. split; [done|]. split; [apply del_io_event_mask_same|]. split; [|done].
      eapply watched_weaken; [|by eapply watch_drained]. done.
    + eexists _, fl', l. split; [done|]. split; [exact Hc'|]. split; [done|]. split; [by rewrite insert_id|].
      split; [apply same_but_refl|]. split; [|done].
      eapply watched_weaken; [|exact Hwt]. by apply Hout.
  - exists m', fl', ob'. split; [exact Hc'|]. rewrite Hrun. by destruct (clean_conn run_hook this (set_mem m' w)).
Qed.

(** ** The end of the stream, and errors of reading *)
Context (run_msg : MK -> list byte -> Z -> Z -> option io_arg -> loc ->
                   world K HK MK TF P U -> res (world K HK MK TF P U)).

Lemma do_read_ends fionread ks this w fl c ib ob pending :
  conn_repr this w fl c ib ob -> zlen ib <= pending -> reads_ok pending fionread ks = true -> read_chunk fionread ks = None ->
  do_read raw run_hook run_msg fionread ks this w = Stop (Exit 0) /\ mem_short 4096 (w_mem w) \/
  exists rb m' fl', let w1 := set_obj this (set_ibuf rb c) (set_mem m' w) in
    conn_repr this w1 fl' (set_ibuf rb c) ib ob /\
    do_read raw run_hook run_msg fionread ks this w = clean_conn run_hook this w1.
Proof.
  intros Hc Hle Hok Hnone. pose proof Hc as (Ho & Hpok & Hi & _). unfold do_read, obj. rewrite Ho. cbn [mbind res_mbind deref].
  unfold read_data. destruct fionread as [n|]; cycle 1.
  { right. exists (ibuf c), (w_mem w). cbn [mbind res_mbind].
    destruct (conn_repr_ibuf this w fl c ib ob (ibuf c) (w_mem w) ib Hc) as [fl' Hc'];
      [exists fl; split_and!; try done; by apply frame_to_same, frame_refl|]. by exists fl'. }
  simpl in Hok. apply andb_prop in Hok as [Hok Hr]. apply andb_prop in Hok as [Hn Hbig].
  apply bool_decide_eq_true_1 in Hn, Hbig. pose proof (read_room_ok raw raw_len n (ibuf c) (w_mem w) fl ib Hn Hpok Hi) as Hroom.
  destruct (read_room raw n (ibuf c) (w_mem w)) as [[[x|] m1]|e].
  - destruct Hroom as (fl1 & b & Hok1 & Hx & Hcon & H0 & Hl & Hfit & Hfr). cbn [mbind res_mbind].
    assert (rb_post (ibuf c) (w_mem w) fl (Some x) m1 ib) as Hpost.
    { exists fl1. split; [done|]. split; [by exists b|]. intros y b' Hy Hh. destruct (Hfr y b' Hy Hh). split; [congruence|done]. }
    destruct (conn_repr_ibuf _ _ _ _ _ _ _ _ _ Hc Hpost) as (fl' & Hc').
    right. exists (Some x), m1, fl'. cbv zeta. split; [exact Hc'|]. unfold read_chunk in Hnone.
    destruct (retry ks) as [[chunk|e]|]; [|done|done]. case_bool_decide; [|done]. subst chunk. cbn [mbind res_mbind].
    unfold load. rewrite (proj1 Hx). cbn [mbind res_mbind deref].
    destruct (append_held x b [] m1 fl1 Hok1 Hx H0) as (b' & -> & _); [rewrite Hl; change (zlen (@nil byte)) with 0; lia|]. done.
  - exfalso. destruct Hroom as (Hnb & Hgt & _). rewrite Hnb in Hi. simpl in Hi. subst ib. change (zlen (@nil byte)) with 0 in *. lia.
  - left. destruct e; destruct Hroom as [He Hs]; try discriminate He; [by injection He as ->|lia].
Qed.

(** ** Closing, once the hook of the application has run *)
Lemma clean_exact this w w1 fl c ib ob l :
  run_hook_opt run_hook (conn_close_cb (w_srv w)) this w = Ret w1 -> conn_repr this w1 fl c ib ob ->
  w_loops w1 !! _loop c = Some l -> 0 <= _connfd c < conns_len (w_srv w1) ->
  exists w' fl' c', clean_conn run_hook this w = Ret w' /\ conn_repr this w' fl' c' [] [] /\
    _connfd c' = -1 /\ ibuf c' = None /\ w_loops w' = <[_loop c := del_io_event (_connfd c) l]> (w_loops w1) /\
    w_user w' = w_user w1 /\ router (w_srv w') = router (w_srv w1) /\ conns_len (w_srv w') = conns_len (w_srv w1) /\
    conns (w_srv w') = <[_connfd c := None]> (conns (w_srv w1)) /\
    conn_start_cb (w_srv w') = conn_start_cb (w_srv w1) /\ conn_close_cb (w_srv w') = conn_close_cb (w_srv w1).
Proof.
  intros Hh Hc Hl Hfd. pose proof Hc as (Ho & Hok & Hi & Hob & Hne & [Hobj Hbuf]). unfold clean_conn. rewrite Hh.
  cbn [mbind res_mbind]. unfold obj. rewrite Ho. cbn [mbind res_mbind deref].
  unfold decrease_conn, write_conn. rewrite bool_decide_eq_true_2 by done.
  cbn [mbind res_mbind]. unfold on_loop. cbn [w_loops set_srv]. rewrite Hl. cbn [mbind res_mbind deref w_mem put_loop set_srv].
  destruct (rb_clear_ok _ _ _ _ Hok Hi) as (m2 & -> & fl2 & Hok2 & _ & Hfr2). cbn [mbind res_mbind].
  assert (obuf c = None \/ obuf c <> ibuf c) as Hne2 by (destruct (ibuf c), (obuf c); naive_solver).
  destruct (rb_repr_frame _ _ _ _ _ _ (obuf c) ob Hfr2 Hne2 Hob) as [Hob2 _].
  destruct (rb_clear_ok _ _ _ _ Hok2 Hob2) as (m3 & -> & fl3 & Hok3 & _ & Hfr3). cbn [mbind res_mbind].
  eexists _, fl3, (TcpConn (-1) (_loop c) None None (param c)). split; [done|]. split; [|done].
  split; [apply lookup_insert_eq|]. split_and!; try done; [by left|]. split; simpl.
  - by rewrite delete_insert_eq.
  - intros y b Hy. destruct (Hbuf y b Hy) as (Hheld & H1 & H2). destruct (Hfr2 y b H1 Hheld) as [_ Hh2].
    by destruct (Hfr3 y b H2 Hh2).
Qed.
End Step.
