(* ===== verification/TcpServer.v ===== *)
(** * tcp_server and its worker threads (lrlb_reactor/include/tcp_server.h,
      src/tcp_server.cpp, and thread_main and deal_task_message of
      src/thread_pool.cpp)

    The listening side of a server: [do_accept] hands descriptors to the workers'
    queues, a worker turns them into connections on its own loop.  [run_io] is
    the table of all functions registered with the loops, so that
    [event_process] of EventLoop.v runs a whole server thread. *)

From S2P Require Import Prelude.
From S2P Require Import IoBuf.
From S2P Require Import BufPool.
From S2P Require Import ReactorBuf.
From S2P Require Import Message.
From S2P Require Import EventLoop.
From S2P Require Import ThreadPool.
From S2P Require Import TcpConn.
From S2P Require Import ConnStep.

Definition MAX_CONNS : Z := 1024.

(** What the system calls of one callback return: [ioctl], [read], [write] (one
    list per [write2fd]) and [accept]. *)
Record io_script := Script {
  sc_fionread : option Z;
  sc_read : list (list byte + errno);
  sc_write : list (list (Z + errno));
  sc_accept : list (Z + errno)
}.

(** The value of a [signed char]. *)
Definition s8 (z : Z) : Z := (z + 128) mod 256 - 128.

(** [struct message], the buffer of the echo callbacks; [len] is a [char]. *)
Record message := EchoMsg { m_data : list byte; m_len : Z }.

Section Server.
Context {K : Type} `{!Epoll K} {E : Type} `{!EventFd E} {HK MK TF P U : Type}.
Context (raw : Z -> list byte).
Context (run_hook : HK -> loc -> world K HK MK TF P U -> res (world K HK MK TF P U)).
Context (run_msg : MK -> list byte -> Z -> Z -> option io_arg -> loc ->
                   world K HK MK TF P U -> res (world K HK MK TF P U)).
Implicit Types w : world K HK MK TF P U.

(** The pointer [_thread_pool]: the constructor assigns it only for a positive
    number of threads. *)
Inductive pool_ptr :=
| PoolUninit
| PoolNull
| PoolAt (p : thread_pool TF io_arg E).

(** [class tcp_server], without the static members. *)
Record tcp_server := TcpServer {
  _sockfd : Z;
  _srv_loop : nat;
  _thread_pool : pool_ptr
}.

(** [tcp_server::tcp_server(loop, ip, port, pthread_num)]; [sock], [bnd] and [lst]
    are what [socket], [bind] and [listen] return, [stale] what the memory of the
    object holds. *)
Definition tcp_server_new (sock bnd lst : Z) (stale : pool_ptr) (loop : nat) (pthread_num : Z) w
    : res (tcp_server * world K HK MK TF P U) :=
  if bool_decide (sock = -1) then Stop (Exit 1)
  else if bool_decide (bnd < 0) then Stop (Exit 1)
  else if bool_decide (lst = -1) then Stop (Exit 1)
  else
    let s := w_srv w in
    let w := set_srv (Statics ∅ MAX_CONNS (_curr_conns s) (router s) (conn_start_cb s)
                              (conn_close_cb s)) w in
    pool ← (if bool_decide (pthread_num > 0)
            then p ← thread_pool_new pthread_num; Ret (PoolAt p) else Ret stale);
    w ← on_loop loop (add_io_event sock (Some accept_callback) EPOLLIN (Some ArgServer)) w;
    Ret (TcpServer sock loop pool, w).

(** [tcp_server::tcp_server(loop, ip, port)]. *)
Definition tcp_server_new3 (sock bnd lst : Z) (stale : pool_ptr) (loop : nat) w :=
  tcp_server_new sock bnd lst stale loop 3 w.

(** [add_msg_router], [set_conn_start] and [set_conn_close]. *)
Definition add_msg_router (id : Z) (cb : MK) (ud : option io_arg) w : world K HK MK TF P U :=
  let s := w_srv w in
  set_srv (Statics (conns s) (_max_conns s) (_curr_conns s) (register_msg_router id cb ud (router s)).2
                   (conn_start_cb s) (conn_close_cb s)) w.
Definition set_conn_start (cb : option HK) w : world K HK MK TF P U :=
  let s := w_srv w in
  set_srv (Statics (conns s) (_max_conns s) (_curr_conns s) (router s) cb (conn_close_cb s)) w.
Definition set_conn_close (cb : option HK) w : world K HK MK TF P U :=
  let s := w_srv w in
  set_srv (Statics (conns s) (_max_conns s) (_curr_conns s) (router s) (conn_start_cb s) cb) w.

(** One round of the loop of [do_accept], for one result of [accept]: whether the loop goes on, and
    the descriptors closed at once. *)
Definition accept_once (r : Z + errno) (sv : tcp_server) w
    : res (bool * list Z * tcp_server * world K HK MK TF P U) :=
  match r with
  | inr EINTR => Ret (true, [], sv, w)
  | inr EMFILE => Ret (true, [], sv, w)
  | inr EAGAIN => Ret (false, [], sv, w)
  | inr _ => Stop (Exit 1)
  | inl connfd =>
      if bool_decide (get_conn_num (w_srv w) >= _max_conns (w_srv w)) then Ret (true, [connfd], sv, w)
      else
        match _thread_pool sv with
        | PoolUninit => Stop Undefined
        | PoolAt p =>
            let '(i, p) := get_thread p in
            Ret (true, [], TcpServer (_sockfd sv) (_srv_loop sv) (PoolAt (send_to i (NEW_CONN connfd) p)), w)
        | PoolNull =>
            w ← tcp_conn_new run_hook (fresh_loc (w_objs w)) connfd (_srv_loop sv) w;
            Ret (false, [], sv, w)
        end
  end.

(** [tcp_server::do_accept], on the results of [accept]; the listening socket is
    blocking, so the call does not return when they are used up.  The first
    component is the list of descriptors closed at once. *)
Fixpoint do_accept (ks : list (Z + errno)) (sv : tcp_server) w
    : res (list Z * tcp_server * world K HK MK TF P U) :=
  match ks with
  | [] => Stop NoReturn
  | r :: ks =>
      '(on, cl, sv, w) ← accept_once r sv w;
      if (on : bool) then '(cl', sv, w) ← do_accept ks sv w; Ret (cl ++ cl', sv, w) else Ret (cl, sv, w)
  end.

(** [thread_queue::set_callback]. *)
Definition set_callback {T} (evfd : Z) (cb : io_cb) (args : option io_arg) (q : thread_queue E T) w
    : res (world K HK MK TF P U) :=
  match get_loop q with
  | Some l => on_loop l (add_io_event evfd (Some cb) EPOLLIN args) w
  | None => Ret w
  end.

Definition put_queue (i : nat) (q : thread_queue E (task_msg TF io_arg)) (p : thread_pool TF io_arg E)
    : thread_pool TF io_arg E :=
  ThreadPool (<[i := q]> (_queues p)) (_thread_cnt p) (_index p).

(** [thread_main] of worker [i] up to its call of [event_process]: its new loop is
    number [loop], the eventfd of its queue has descriptor [evfd]. *)
Definition thread_main (i loop : nat) (evfd : Z) (p : thread_pool TF io_arg E) w
    : res (thread_pool TF io_arg E * world K HK MK TF P U) :=
  q ← deref (_queues p !! i);
  let w := put_loop loop event_loop_new w in
  let q := set_loop loop q in
  w ← set_callback evfd deal_task_message (Some (ArgQueue i)) q w;
  Ret (put_queue i q p, w).

(** The loop of [deal_task_message] over the received tasks. *)
Fixpoint deal_tasks (loop : nat) (ts : list (task_msg TF io_arg)) w : res (world K HK MK TF P U) :=
  match ts with
  | [] => Ret w
  | NEW_CONN connfd :: ts =>
      w ← tcp_conn_new run_hook (fresh_loc (w_objs w)) connfd loop w;
      deal_tasks loop ts w
  | NEW_TASK f args :: ts =>
      w ← on_loop loop (add_task f args) w;
      deal_tasks loop ts w
  end.

(** [deal_task_message] on queue [i] of the pool. *)
Definition deal_queue (loop i : nat) (p : thread_pool TF io_arg E) w
    : res (thread_pool TF io_arg E * world K HK MK TF P U) :=
  q ← deref (_queues p !! i);
  let '(tasks, q) := recv [] q in
  w ← deal_tasks loop tasks w;
  Ret (put_queue i q p, w).

(** ** The echo callbacks *)

(** [server_rd_callback]; the local [input_buf] is cleared by its destructor. *)
Definition server_rd (loop : nat) (fd : Z) (sc : io_script) (msg : message) w
    : res (message * world K HK MK TF P U) :=
  '(ret, ib, m) ← read_data raw (sc_fionread sc) (sc_read sc) reactor_buf_new (w_mem w);
  if bool_decide (ret = -1 \/ ret = 0) then
    w ← on_loop loop (del_io_event fd) (set_mem m w);
    '(_, m) ← rb_clear ib (w_mem w);
    Ret (msg, set_mem m w)
  else
    len ← rb_length ib m;
    data ← ib_data ib m;
    bs ← deref data;
    let mlen := s8 len in
    if bool_decide (mlen < 0) then Stop OutOfBounds else
    body ← mem_read bs 0 mlen;
    m ← rb_pop mlen ib m;
    m ← ib_adjust ib m;
    w ← on_loop loop (del_io_event_mask fd EPOLLIN) (set_mem m w);
    w ← on_loop loop (add_io_event fd (Some server_wt_callback) EPOLLOUT (Some ArgMsg)) w;
    '(_, m) ← rb_clear ib (w_mem w);
    Ret (EchoMsg (body ++ replicate (Z.to_nat (m4K - mlen)) (byte_of_Z 0)) mlen, set_mem m w).

(** The writing loop of [server_wt_callback]; [true] when it returns early. *)
Fixpoint echo_loop (kss : list (list (Z + errno))) (ob : reactor_buf) (m : mem) : res (bool * mem) :=
  len ← rb_length ob m;
  if bool_decide (len <> 0) then
    match kss with
    | [] => Stop NoReturn
    | ks :: kss =>
        '(ret, m) ← write2fd ks ob m;
        if bool_decide (ret = -1) then Ret (true, m)
        else if bool_decide (ret = 0) then Ret (false, m)
        else echo_loop kss ob m
    end
  else Ret (false, m).

(** [server_wt_callback]. *)
Definition server_wt (loop : nat) (fd : Z) (sc : io_script) (msg : message) w
    : res (world K HK MK TF P U) :=
  data ← mem_read (m_data msg) 0 (m_len msg);
  '(_, ob, m) ← send_data raw data reactor_buf_new (w_mem w);
  '(returned, m) ← echo_loop (sc_write sc) ob m;
  '(_, m) ← rb_clear ob m;
  let w := set_mem m w in
  if (returned : bool) then Ret w else
  w ← on_loop loop (del_io_event_mask fd EPOLLOUT) w;
  on_loop loop (add_io_event fd (Some server_rd_callback) EPOLLIN (Some ArgMsg)) w.

(** ** A server process *)

(** The process, with the results of the system calls of the callbacks to come
    and the descriptors [do_accept] refused. *)
Record process := Process {
  p_world : world K HK MK TF P U;
  p_server : tcp_server;
  p_msg : message;
  p_refused : list Z;
  p_kernel : list io_script
}.

(** The call of a registered function by the loop number [loop]. *)
Definition run_io (loop : nat) (cb : io_cb) (fd : Z) (args : option io_arg) (p : process) : res process :=
  match p_kernel p with
  | [] => Stop NoReturn
  | sc :: kernel =>
      let w := p_world p in
      let put w := Process w (p_server p) (p_msg p) (p_refused p) kernel in
      match cb, args with
      | conn_rd_callback, Some (ArgConn c) =>
          w ← do_read raw run_hook run_msg (sc_fionread sc) (sc_read sc) c w; Ret (put w)
      | conn_wt_callback, Some (ArgConn c) =>
          w ← do_write run_hook (sc_write sc) c w; Ret (put w)
      | accept_callback, Some ArgServer =>
          '(cl, sv, w) ← do_accept (sc_accept sc) (p_server p) w;
          Ret (Process w sv (p_msg p) (p_refused p ++ cl) kernel)
      | deal_task_message, Some (ArgQueue i) =>
          match _thread_pool (p_server p) with
          | PoolAt pool =>
              '(pool, w) ← deal_queue loop i pool w;
              Ret (Process w (TcpServer (_sockfd (p_server p)) (_srv_loop (p_server p)) (PoolAt pool))
                           (p_msg p) (p_refused p) kernel)
          | _ => Stop Undefined
          end
      | server_rd_callback, Some ArgMsg =>
          '(msg, w) ← server_rd loop fd sc (p_msg p) w;
          Ret (Process w (p_server p) msg (p_refused p) kernel)
      | server_wt_callback, Some ArgMsg => w ← server_wt loop fd sc (p_msg p) w; Ret (put w)
      | _, None => Stop NullDeref
      | _, _ => Stop Undefined
      end
  end.

(** The thread that runs loop number [loop], through the given rounds. *)
Definition loop_of (loop : nat) (p : process) : event_loop K io_cb io_arg TF :=
  default event_loop_new (w_loops (p_world p) !! loop).
Definition put_loop_of (loop : nat) (l : event_loop K io_cb io_arg TF) (p : process) : process :=
  Process (put_loop loop l (p_world p)) (p_server p) (p_msg p) (p_refused p) (p_kernel p).
Definition run_thread (run_task : TF -> option io_arg -> process -> res process) (loop : nat)
    (rounds : list (list (Z * Z))) (p : process) : res process :=
  event_process (loop_of loop) (put_loop_of loop) (run_io loop) run_task rounds p.

End Server.

Arguments pool_ptr : clear implicits.
Arguments tcp_server : clear implicits.
Arguments process : clear implicits.

(** ** Accepting *)
Section Accept.
Context {K : Type} `{!Epoll K} {E : Type} `{!EventFd E} {HK MK TF P U : Type}.
Context (run_hook : HK -> loc -> world K HK MK TF P U -> res (world K HK MK TF P U)).
Implicit Types (w : world K HK MK TF P U) (p : thread_pool TF io_arg E).

(** The descriptors of [fds] that go to queue [i], the first one being number
    [k] of the pool's round robin. *)
Fixpoint share (i cnt k : Z) (fds : list Z) : list Z :=
  match fds with
  | [] => []
  | fd :: fds => (if bool_decide (k mod cnt = i) then [fd] else []) ++ share i cnt (k + 1) fds
  end.

Lemma share_mod i cnt k k' fds : k mod cnt = k' mod cnt -> share i cnt k fds = share i cnt k' fds.
Proof.
  revert k k'. induction fds as [|fd fds IH]; intros k k' Hk; [done|]. simpl. rewrite Hk.
  f_equal. apply IH. by rewrite (Zplus_mod k), Hk, <-Zplus_mod.
Qed.

Lemma send_to_wf i t p : pool_wf p -> pool_wf (send_to i t p).
Proof. unfold pool_wf, send_to, zlen; simpl. by rewrite length_alter. Qed.

Definition conn_fds (ts : list (task_msg TF io_arg)) : list Z :=
  omap (fun t => match t with NEW_CONN fd => Some fd | NEW_TASK _ _ => None end) ts.
Definition new_tasks (ts : list (task_msg TF io_arg)) : list (TF * option io_arg) :=
  omap (fun t => match t with NEW_CONN _ => None | NEW_TASK f a => Some (f, a) end) ts.

Lemma conn_fds_app ts ts' : conn_fds (ts ++ ts') = conn_fds ts ++ conn_fds ts'.
Proof. apply omap_app. Qed.

(** The main thread is in the loop of [do_accept] while the other threads run.  What happens, in
    order: [accept] returns; worker [i] takes the tasks of its queue; a thread hands a task to all
    workers; the other threads bring the world into another state, such as another number of
    connections. *)
Inductive acc_event :=
| Accepted (r : Z + errno)
| Taken (i : nat)
| SentTask (f : TF) (args : option io_arg)
| Elsewhere (w : world K HK MK TF P U).

(** The server, the descriptors closed, the tasks each worker has taken, and the world. *)
Record acc_state := AccState {
  ac_server : tcp_server E TF;
  ac_closed : list Z;
  ac_taken : gmap nat (list (task_msg TF io_arg));
  ac_world : world K HK MK TF P U
}.
Definition taken_by (i : nat) (a : acc_state) : list (task_msg TF io_arg) := default [] (ac_taken a !! i).

Definition acc_step (e : acc_event) (a : acc_state) : res acc_state :=
  let sv := ac_server a in
  let on_pool (f : thread_pool TF io_arg E -> res acc_state) : res acc_state := match _thread_pool sv with
                   | PoolAt p => f p
                   | _ => Stop Undefined
                   end in
  let put p := TcpServer (_sockfd sv) (_srv_loop sv) (PoolAt p) in
  match e with
  | Accepted r =>
      '(on, cl, sv, w) ← accept_once run_hook r sv (ac_world a);
      if (on : bool) then Ret (AccState sv (ac_closed a ++ cl) (ac_taken a) w) else Stop NoReturn
  | Taken i => on_pool (fun p =>
      q ← deref (_queues p !! i);
      let '(tasks, q) := recv [] q in
      Ret (AccState (put (put_queue i q p)) (ac_closed a) (<[i := taken_by i a ++ tasks]> (ac_taken a)) (ac_world a)))
  | SentTask f args => on_pool (fun p => Ret (AccState (put (send_task f args p)) (ac_closed a) (ac_taken a) (ac_world a)))
  | Elsewhere w => Ret (AccState sv (ac_closed a) (ac_taken a) w)
  end.

Fixpoint acc_run (evs : list acc_event) (a : acc_state) : res acc_state :=
  match evs with
  | [] => Ret a
  | e :: evs => a ← acc_step e a; acc_run evs a
  end.

(** The descriptors accepted while there was room in the table, and the others. *)
Fixpoint admitted (room : bool) (evs : list acc_event) w : list Z :=
  match evs with
  | [] => []
  | Accepted (inl fd) :: evs =>
      (if bool_decide (_curr_conns (w_srv w) < _max_conns (w_srv w)) then (if room then [fd] else [])
       else (if room then [] else [fd])) ++ admitted room evs w
  | Elsewhere w :: evs => admitted room evs w
  | _ :: evs => admitted room evs w
  end.

(** Connections, signals and descriptor exhaustion; the blocking socket gives no [EAGAIN], other
    errors end the process.  The workers are those of the pool. *)
Definition acc_ok (cnt : Z) (e : acc_event) : Prop :=
  match e with
  | Accepted (inr e) => e = EINTR \/ e = EMFILE
  | Taken i => Z.of_nat i < cnt
  | _ => True
  end.

(** Once there is a pool, none of these results of [accept] makes [do_accept] return. *)
Lemma do_accept_blocks ks sk l p w :
  Forall (fun r => match r with inl _ => True | inr e => e = EINTR \/ e = EMFILE end) ks ->
  do_accept run_hook ks (TcpServer sk l (PoolAt p)) w = Stop NoReturn.
Proof.
  intros Hks. revert p. induction Hks as [|[fd|e] ks Hr _ IH]; intros p; cbn [do_accept]; [done| |].
  - unfold accept_once. case_bool_decide; cbn [mbind res_mbind]; [by rewrite IH|]. cbn [_thread_pool].
    destruct (get_thread p). cbn [mbind res_mbind]. by rewrite IH.
  - destruct Hr as [-> | ->]; cbn [accept_once mbind res_mbind]; by rewrite IH.
Qed.

(** What one event leaves: the descriptors given to worker [i], taken or still queued, and those closed. *)
Definition handed (i : nat) (p : thread_pool TF io_arg E) (a : acc_state) : option (list Z) :=
  (fun q => conn_fds (taken_by i a ++ _queue q)) <$> _queues p !! i.

Lemma acc_step_ok e sk l p cl tk w :
  pool_wf p -> acc_ok (_thread_cnt p) e ->
  exists p' tk' w', let a := AccState (TcpServer sk l (PoolAt p)) cl tk w in
    let a' := AccState (TcpServer sk l (PoolAt p')) (cl ++ admitted false [e] w) tk' w' in
    acc_step e a = Ret a' /\ pool_wf p' /\ _thread_cnt p' = _thread_cnt p /\
    (forall b evs, admitted b (e :: evs) w = admitted b [e] w ++ admitted b evs w') /\
    (_index p') mod _thread_cnt p = (_index p + zlen (admitted true [e] w)) mod _thread_cnt p /\
    forall i, handed i p' a' = (fun fds => fds ++ share (Z.of_nat i) (_thread_cnt p) (_index p) (admitted true [e] w)) <$> handed i p a.
Proof.
  intros Hwf Hok.
  assert (forall i fds (a a' : acc_state) p', _queues p' !! i = _queues p !! i -> taken_by i a' = taken_by i a ->
    fds = [] -> handed i p' a' = (fun fs => fs ++ fds) <$> handed i p a) as Hsame.
  { intros i fds a a' p' Hq Ht ->. unfold handed. rewrite Hq, Ht. destruct (_queues p !! i); simpl; by rewrite ?app_nil_r. }
  destruct e as [[fd|e]|j|f args|w'].
  - unfold acc_step, accept_once. cbn [ac_server ac_world _thread_pool _sockfd _srv_loop ac_closed ac_taken admitted].
    unfold get_conn_num. case_bool_decide as Hfull; cbn [mbind res_mbind].
    + rewrite bool_decide_eq_false_2 by lia. exists p, tk, w. split_and!; try done; [|by rewrite Z.add_0_r|].
      * intros b evs. by rewrite app_nil_r.
      * intros i. by apply Hsame.
    + rewrite bool_decide_eq_true_2 by lia. destruct (get_thread_wf p Hwf) as (Hwf' & Hi & Him & Hc & Hn).
      assert (_queues (get_thread p).2 = _queues p) as Hqs by done.
      destruct (get_thread p) as [j p1]. cbn [fst snd] in *. cbn [mbind res_mbind].
      exists (send_to j (NEW_CONN fd) p1), tk, w. split_and!; try done; [by apply send_to_wf|intros b evs; by rewrite app_nil_r|].
      intros i. unfold handed, taken_by. cbn [ac_taken send_to _queues]. rewrite Hqs. cbn [share app]. rewrite <-Him, app_nil_r.
      destruct (decide (Z.to_nat j = i)) as [<-|Hne].
      * rewrite list_lookup_alter_eq, bool_decide_eq_true_2 by lia. destruct (_queues p !! Z.to_nat j); [|done]. cbn.
        by rewrite !conn_fds_app, <-app_assoc.
      * rewrite list_lookup_alter_ne, bool_decide_eq_false_2 by (done || lia). destruct (_queues p !! i); [|done]. cbn.
        by rewrite app_nil_r.
  - exists p, tk, w. cbv zeta. assert (acc_step (Accepted (inr e)) (AccState (TcpServer sk l (PoolAt p)) cl tk w) =
      Ret (AccState (TcpServer sk l (PoolAt p)) (cl ++ []) tk w)) as -> by (by destruct Hok as [-> | ->]).
    split_and!; try done; [by rewrite Z.add_0_r|intros i; by apply Hsame].
  - pose proof Hwf as (H1 & H2 & H3). destruct (lookup_lt_is_Some_2 (_queues p) j) as [q Hq].
    { simpl in Hok. unfold zlen in H2. lia. }
    unfold acc_step. cbn [ac_server _thread_pool]. rewrite Hq. cbn [deref mbind res_mbind recv].
    eexists (put_queue j _ p), _, w. rewrite app_nil_r. split; [done|].
    split; [unfold pool_wf, zlen; cbn; rewrite length_insert; unfold zlen in H2; lia|].
    split_and!; try done; [by rewrite Z.add_0_r|].
    + intros i. unfold handed, taken_by. cbn [ac_taken put_queue _queues share]. destruct (decide (j = i)) as [<-|Hne].
      * rewrite list_lookup_insert_eq by (by eapply lookup_lt_Some). rewrite lookup_insert_eq, Hq. cbn. by rewrite !app_nil_r.
      * rewrite list_lookup_insert_ne, lookup_insert_ne by done. destruct (_queues p !! i); [|done]. cbn. by rewrite app_nil_r.
  - exists (send_task f args p), tk, w. destruct Hwf as (H1 & H2 & H3). cbn [admitted]. rewrite app_nil_r. split; [done|].
    split; [unfold pool_wf, zlen; cbn; rewrite length_fmap; unfold zlen in H2; lia|].
    split_and!; try done; [by rewrite Z.add_0_r|].
    intros i. unfold handed, taken_by. cbn [ac_taken send_task _queues share]. rewrite list_lookup_fmap.
    destruct (_queues p !! i); [|done]. cbn. by rewrite !conn_fds_app, !app_nil_r.
  - exists p, tk, w'. cbn [admitted]. rewrite app_nil_r. split_and!; try done; [by rewrite Z.add_0_r|intros i; by apply Hsame].
Qed.

Lemma share_app i cnt k fds fds' : share i cnt k (fds ++ fds') = share i cnt k fds ++ share i cnt (k + zlen fds) fds'.
Proof.
  revert k. induction fds as [|fd fds IH]; intros k; simpl; [f_equal; unfold zlen; simpl; lia|].
  rewrite IH, app_assoc. f_equal. f_equal. zlen_lia.
Qed.

Lemma acc_run_ok evs sk l p cl tk w :
  pool_wf p -> Forall (acc_ok (_thread_cnt p)) evs ->
  exists p' tk' w', let a := AccState (TcpServer sk l (PoolAt p)) cl tk w in
    let a' := AccState (TcpServer sk l (PoolAt p')) (cl ++ admitted false evs w) tk' w' in
    acc_run evs a = Ret a' /\ pool_wf p' /\
    forall i, handed i p' a' = (fun fds => fds ++ share (Z.of_nat i) (_thread_cnt p) (_index p) (admitted true evs w)) <$> handed i p a.
Proof.
  revert p cl tk w. induction evs as [|e evs IH]; intros p cl tk w Hwf Hok.
  { exists p, tk, w. cbn. rewrite app_nil_r. split_and!; try done. intros i.
    destruct (handed i p _); cbn; by rewrite ?app_nil_r. }
  apply Forall_cons in Hok as [He Hok].
  destruct (acc_step_ok e sk l p cl tk w Hwf He) as (p1 & tk1 & w1 & Hstep & Hwf1 & Hcnt & Hadm & Hidx & Hh).
  rewrite <-Hcnt in Hok. destruct (IH p1 (cl ++ admitted false [e] w) tk1 w1 Hwf1 Hok) as (p' & tk' & w' & Hrun & Hwf' & Hh').
  exists p', tk', w'. cbv zeta. cbn [acc_run]. rewrite Hstep. cbn [mbind res_mbind]. rewrite Hrun, (Hadm false evs), (Hadm true evs), app_assoc.
  split_and!; [done..|]. intros i. rewrite Hh', Hh, Hcnt. destruct (handed i p _); [|done]. cbn [fmap option_fmap option_map].
  rewrite <-app_assoc. do 2 f_equal. rewrite share_app. f_equal. by apply share_mod.
Qed.

(** (C28) Dispatch of new connections, while the main thread sits in [do_accept] and the other threads
    take tasks, send tasks and change the number of connections in any order: every descriptor accepted
    while [_curr_conns] is below [_max_conns] is handed to exactly one worker (it is in the worker's
    queue or already taken from it), in the order of arrival and in turn over the workers, and every
    other one is closed; [do_accept] creates no connection itself.  The socket is blocking: [accept]
    returns a descriptor, [EINTR] or [EMFILE], and whatever of these comes next, the call of
    [do_accept] does not return. *)
Theorem do_accept_dispatch evs sk l p w :
  pool_wf p -> Forall (acc_ok (_thread_cnt p)) evs ->
  exists p' a', acc_run evs (AccState (TcpServer sk l (PoolAt p)) [] ∅ w) = Ret a' /\
    ac_server a' = TcpServer sk l (PoolAt p') /\ pool_wf p' /\
    ac_closed a' = admitted false evs w /\
    (forall i q, _queues p !! i = Some q -> exists q', _queues p' !! i = Some q' /\
      conn_fds (taken_by i a' ++ _queue q') =
      conn_fds (_queue q) ++ share (Z.of_nat i) (_thread_cnt p) (_index p) (admitted true evs w)) /\
    forall ks, Forall (acc_ok (_thread_cnt p)) (Accepted <$> ks) ->
      do_accept run_hook ks (ac_server a') (ac_world a') = Stop NoReturn.
Proof.
  intros Hwf Hok. destruct (acc_run_ok evs sk l p [] ∅ w Hwf Hok) as (p' & tk' & w' & Hrun & Hwf' & Hh).
  exists p'. eexists. split; [exact Hrun|]. split_and!; try done.
  - intros i q Hq. specialize (Hh i). unfold handed in Hh. rewrite Hq in Hh. cbn [fmap option_fmap option_map] in Hh.
    destruct (_queues p' !! i) as [q'|]; [|done]. exists q'. split; [done|]. cbn [fmap option_fmap option_map] in Hh. injection Hh as Hh. exact Hh.
  - intros ks Hks. apply do_accept_blocks. apply (proj1 (Forall_fmap _ _ _)) in Hks. eapply Forall_impl; [exact Hks|]. by intros [|].
Qed.

End Accept.

(** ** Turning queued descriptors into connections *)
Section Dispatch.
Context {K : Type} `{!Epoll K} `{!EpollLive K} {E : Type} `{!EventFd E} {HK MK TF P U : Type}.
Context (run_hook : HK -> loc -> world K HK MK TF P U -> res (world K HK MK TF P U)).
Implicit Types (w : world K HK MK TF P U) (l : event_loop K io_cb io_arg TF).

(** The loop's record and the kernel agree on whether the descriptor is registered. *)
Definition tied (fd : Z) l : Prop := is_Some (_io_evs l !! fd) <-> is_Some (interest (_epfd l) !! fd).

Lemma tied_same fd fd' l l' : same_but fd' l l' -> fd <> fd' -> tied fd l -> tied fd l'.
Proof. intros Hs Hne. unfold tied. by destruct (Hs fd Hne) as (-> & -> & _). Qed.

(** A connection is read from then on, whether or not the start hook has already queued output. *)
Lemma watch_tied x fd l :
  tied fd l -> watched x fd False (add_io_event fd (Some conn_rd_callback) EPOLLIN (Some (ArgConn x)) l).
Proof.
  intros Ht. unfold add_io_event, ev_get. destruct (_io_evs l !! fd) as [e|] eqn:Ee.
  - rewrite bool_decide_eq_true_2 by done. destruct (ctl_mod fd (Z.lor (mask e) EPOLLIN) (_epfd l)) as (k & Hr & Hk).
    { apply Ht. by rewrite Ee. }
    simpl. rewrite Hr. split; simpl.
    + eexists. rewrite lookup_insert_eq. split_and!; simpl; try done. cbn [mask]. by rewrite has_lor, orb_true_r.
    + eexists. split; [exact Hk|]. split; [by rewrite has_lor, orb_true_r|done].
    + apply elem_of_union. left. by apply elem_of_singleton.
  - rewrite bool_decide_eq_false_2 by (by intros []). destruct (ctl_add fd EPOLLIN (_epfd l)) as (k & Hr & Hk).
    { destruct (interest (_epfd l) !! fd) eqn:Ei; [|done]. destruct (proj2 Ht) as [? Hx]; [by rewrite Ei|]. by rewrite Ee in Hx. }
    simpl. rewrite Hr. split; simpl.
    + eexists. rewrite lookup_insert_eq. by split_and!.
    + eexists. by split_and!.
    + apply elem_of_union. left. by apply elem_of_singleton.
Qed.

(** What a start hook may do to a loop: change the registration of the new descriptor, such as by
    sending, in the loop's record and in the kernel alike. *)
Definition loop_kept (fd : Z) l l' : Prop :=
  _ready_tasks l' = _ready_tasks l /\ same_but fd l l' /\ (tied fd l -> tied fd l').

Lemma loop_kept_refl fd l : loop_kept fd l l.
Proof. split_and!; [done|apply same_but_refl|done]. Qed.

(** What a start hook may do: change the application, the new connection's
    buffers and [param], and its registration. *)
Definition start_contract (h : HK) : Prop :=
  forall this w c, w_objs w !! this = Some c ->
  exists w' c', run_hook h this w = Ret w' /\ w_srv w' = w_srv w /\
    w_objs w' = <[this := c']> (w_objs w) /\ _connfd c' = _connfd c /\ _loop c' = _loop c /\
    forall i, option_Forall2 (loop_kept (_connfd c)) (w_loops w !! i) (w_loops w' !! i).

Lemma run_hook_opt_ok h this w c :
  (forall h', h = Some h' -> start_contract h') -> w_objs w !! this = Some c ->
  exists w' c', run_hook_opt run_hook h this w = Ret w' /\ w_srv w' = w_srv w /\
    w_objs w' = <[this := c']> (w_objs w) /\ _connfd c' = _connfd c /\ _loop c' = _loop c /\
    forall i, option_Forall2 (loop_kept (_connfd c)) (w_loops w !! i) (w_loops w' !! i).
Proof.
  intros Hs Hc. destruct h as [h|]; [by apply (Hs h)|]. exists w, c. split_and!; try done.
  - by rewrite insert_id.
  - intros i. destruct (w_loops w !! i); constructor. apply loop_kept_refl.
Qed.

Lemma ready_add_io_event fd cb m a l : _ready_tasks (add_io_event fd cb m a l) = _ready_tasks l.
Proof. unfold add_io_event. case_bool_decide; by destruct (epoll_ctl _ _ _ _). Qed.

(** A connection object is in the table under its descriptor and lives on [loop], and the loop
    and the kernel watch its input and pass it to this object. *)
Definition serves (loop : nat) (fd : Z) w : Prop :=
  exists x c l, conns (w_srv w) !! fd = Some (Some x) /\ w_objs w !! x = Some c /\
    _connfd c = fd /\ _loop c = loop /\ w_loops w !! loop = Some l /\ watched x fd False l.

(** What the constructor of one connection changes. *)
Lemma tcp_conn_new_ok fd loop w l :
  (forall h, conn_start_cb (w_srv w) = Some h -> start_contract h) -> w_loops w !! loop = Some l -> 0 <= fd < conns_len (w_srv w) ->
  tied fd l ->
  exists w', tcp_conn_new run_hook (fresh_loc (w_objs w)) fd loop w = Ret w' /\
    serves loop fd w' /\ (forall fd', fd' <> fd -> serves loop fd' w -> serves loop fd' w') /\
    _curr_conns (w_srv w') = _curr_conns (w_srv w) + 1 /\ conns_len (w_srv w') = conns_len (w_srv w) /\
    conn_start_cb (w_srv w') = conn_start_cb (w_srv w) /\
    exists l', w_loops w' !! loop = Some l' /\ _ready_tasks l' = _ready_tasks l /\ same_but fd l l'.
Proof.
  intros Hs Hl Hfd Htied. set (x := fresh_loc (w_objs w)).
  assert (w_objs w !! x = None) as Hx by apply fresh_loc_None. clearbody x.
  unfold tcp_conn_new. set (c0 := TcpConn _ _ _ _ _).
  destruct (run_hook_opt_ok (conn_start_cb (w_srv w)) x (set_obj x c0 w) c0 Hs) as
    (w1 & c1 & Hrun & Hsrv & Ho & Hf1 & Hl1 & Hr); [apply lookup_insert_eq|].
  simpl in Hsrv, Ho, Hf1, Hl1, Hr. rewrite insert_insert_eq in Ho. cbn [w_srv set_obj]. rewrite Hrun.
  cbn [mbind res_mbind]. unfold obj. rewrite Ho, lookup_insert_eq. cbn [mbind res_mbind deref].
  rewrite Hf1, Hl1. pose proof (Hr loop) as Hr0. rewrite Hl in Hr0. destruct (w_loops w1 !! loop) as [l1|] eqn:El1; [|by inversion Hr0].
  inversion Hr0 as [l0' l1' (Hrd & Hsame & Htie)|]; clear Hr0. unfold on_loop. rewrite El1. cbn [mbind res_mbind deref]. unfold increase_conn, write_conn.
  cbn [w_srv put_loop]. rewrite Hsrv, bool_decide_eq_true_2 by done. cbn [mbind res_mbind].
  assert (same_but fd l (add_io_event fd (Some conn_rd_callback) EPOLLIN (Some (ArgConn x)) l1)) as Hsb
    by (eapply same_but_trans; [exact Hsame|apply add_io_event_same]).
  eexists. split; [done|]. simpl. split_and!.
  - eexists x, c1, _. simpl. rewrite Ho, !lookup_insert_eq. split_and!; try done. by apply watch_tied, Htie.
  - intros fd' Hne (y & c & l0 & Hy & Hyo & ? & ? & Hl0 & Hwt). eexists y, c, _. simpl. rewrite Ho.
    rewrite lookup_insert_ne by done. rewrite lookup_insert_eq. split_and!; try done.
    + destruct (decide (y = x)) as [->|]; [congruence|by rewrite lookup_insert_ne].
    + simplify_eq. by eapply watched_same.
  - done.
  - unfold conns_len. simpl. done.
  - done.
  - eexists. rewrite lookup_insert_eq. split; [done|]. split; [by rewrite ready_add_io_event|done].
Qed.

Lemma tied_all fd fds l l' : same_but fd l l' -> fd ∉ fds -> Forall (fun fd => tied fd l) fds -> Forall (fun fd => tied fd l') fds.
Proof.
  intros Hs Hn Hall. rewrite Forall_forall in Hall |- *. intros x Hx. eapply tied_same; [exact Hs| |by apply Hall].
  by intros ->.
Qed.

(** (C29) A worker that processes its tasks ends with a connection of its own loop
    in the table for every queued descriptor, registered for input in the loop's record and in the
    kernel with this connection's object as the argument of the read callback; the connections it
    served before are still served; the count is raised by the number of new ones, and the ordinary
    tasks are appended to its loop in order.  For descriptors that have a slot of the table and on
    which the loop's record and the kernel agree, as for those the loop does not know. *)
Theorem deal_tasks_ok ts loop w l :
  (forall h, conn_start_cb (w_srv w) = Some h -> start_contract h) -> w_loops w !! loop = Some l -> NoDup (conn_fds ts) ->
  Forall (fun fd => 0 <= fd < conns_len (w_srv w)) (conn_fds ts) -> Forall (fun fd => tied fd l) (conn_fds ts) ->
  exists w' l', deal_tasks run_hook loop ts w = Ret w' /\
    (forall fd, fd ∈ conn_fds ts \/ serves loop fd w /\ fd ∉ conn_fds ts -> serves loop fd w') /\
    _curr_conns (w_srv w') = _curr_conns (w_srv w) + zlen (conn_fds ts) /\
    w_loops w' !! loop = Some l' /\ _ready_tasks l' = _ready_tasks l ++ new_tasks ts.
Proof.
  revert w l. induction ts as [|[fd|f a] ts IH]; intros w l Hs Hl Hnd Hr Ht; simpl in *.
  - exists w, l. rewrite app_nil_r. unfold zlen; simpl. split_and!; try done; [|lia].
    intros fd [Hin|[? _]]; [by apply not_elem_of_nil in Hin|done].
  - apply NoDup_cons in Hnd as [Hnin Hnd]. apply Forall_cons in Hr as [Hfd Hr]. apply Forall_cons in Ht as [Htfd Ht].
    destruct (tcp_conn_new_ok fd loop w l Hs Hl Hfd Htfd) as (w1 & -> & Hsv & Hkeep & Hcur & Hlen & Hst & l1 & Hl1 & Hrd & Hsb).
    cbn [mbind res_mbind]. rewrite <-Hlen in Hr. rewrite <-Hst in Hs.
    destruct (IH w1 l1 Hs Hl1 Hnd Hr (tied_all _ _ _ _ Hsb Hnin Ht)) as (w' & l' & Hrun & Hall & Hc & Hl' & Hrt).
    exists w', l'. split_and!; try done; [|rewrite Hc, Hcur, zlen_cons; lia|by rewrite Hrt, Hrd].
    intros x Hx. apply Hall. rewrite elem_of_cons in Hx.
    destruct (decide (x ∈ conn_fds ts)) as [|Hn]; [by left|right; split; [|done]].
    destruct (decide (x = fd)) as [->|Hne]; [done|apply Hkeep; naive_solver].
  - unfold on_loop. rewrite Hl. cbn [mbind res_mbind deref].
    destruct (IH (put_loop loop (add_task f a l) w) (add_task f a l)) as (w' & l' & Hrun & Hall & Hc & Hl' & Hrt);
      [done|apply lookup_insert_eq|done|done|done|].
    exists w', l'. split_and!; try done; [|rewrite Hrt; simpl; by rewrite <-app_assoc].
    intros fd [Hin|[(x & c & l0 & H1 & H2 & H3 & H4 & H5 & H6) Hnin]]; apply Hall; [by left|right]. split; [|done].
    exists x, c, (add_task f a l). simplify_eq. split_and!; try done; [apply lookup_insert_eq|].
    destruct H6 as [He Hi Hli]. by split.
Qed.
End Dispatch.

(** Three connections on two idle workers. *)
Definition demo_pool : thread_pool unit io_arg Z := ThreadPool [thread_queue_new; thread_queue_new] 2 0.

(** In between the first worker takes its tasks; then the table is full. *)
Definition full : Demo.demo_world :=
  set_srv (Statics (conns Demo.demo_statics) 10 10 (router Demo.demo_statics) None None) Demo.demo.
Definition demo_accepts : list (acc_event (K := gmap Z Z) (HK := unit) (MK := unit) (TF := unit) (P := unit)
    (U := list (Z * list byte))) :=
  [Accepted (inl 7); Accepted (inr EINTR); Accepted (inl 8); Taken 0%nat; Accepted (inl 9); Elsewhere full; Accepted (inl 10)].

Lemma do_accept_dispatch_witness :
  exists p' a', acc_run Demo.no_hook demo_accepts (AccState (TcpServer 3 0%nat (PoolAt demo_pool)) [] ∅ Demo.demo) = Ret a' /\
    ac_server a' = TcpServer 3 0%nat (PoolAt p') /\ ac_closed a' = [10] /\
    exists q, _queues p' !! 0%nat = Some q /\ conn_fds (taken_by 0%nat a' ++ _queue q) = [7; 9].
Proof.
  destruct (do_accept_dispatch Demo.no_hook demo_accepts 3 0%nat demo_pool Demo.demo) as (p' & a' & Hr & Hsv & _ & Hcl & Hq & _).
  - vm_compute. intuition congruence.
  - repeat (constructor; [first [exact I|by left|vm_compute; done]|]). constructor.
  - exists p', a'. split; [exact Hr|]. split; [exact Hsv|]. split; [exact Hcl|].
    destruct (Hq 0%nat thread_queue_new eq_refl) as (q' & Hq1 & Hq2). exists q'. split; [exact Hq1|exact Hq2].
Defined.

Lemma deal_tasks_ok_witness :
  exists w' l', deal_tasks Demo.no_hook 0%nat [NEW_CONN 7; NEW_TASK tt None; NEW_CONN 8] Demo.demo = Ret w' /\
    serves 0%nat 7 w' /\ serves 0%nat 8 w' /\ _curr_conns (w_srv w') = 3 /\
    w_loops w' !! 0%nat = Some l' /\ _ready_tasks l' = [(tt, None)].
Proof.
  destruct (deal_tasks_ok Demo.no_hook [NEW_CONN 7; NEW_TASK tt None; NEW_CONN 8] 0%nat Demo.demo Demo.demo_loop)
    as (w' & l' & Hr & Hs & Hc & Hl & Ht).
  - discriminate.
  - reflexivity.
  - simpl. repeat constructor; set_solver.
  - repeat constructor; vm_compute; congruence.
  - repeat constructor; intros [? H]; vm_compute in H; discriminate H.
  - exists w', l'. split; [exact Hr|]. split; [apply Hs; left; set_solver|]. split; [apply Hs; left; set_solver|].
    split; [exact Hc|]. split; [exact Hl|exact Ht].
Defined.
