(* ===== verification/ServerClients.v ===== *)
(** * The clients of a server (lrlb_reactor/src/tcp_server.cpp, src/tcp_conn.cpp)

    What the specifications of the programs call a client is an open connection of the server:
    an object with two buffers of the pool, a slot in the table of connections and a
    registration with one of the loops.  [served] ties a map of clients, of whatever type the
    program describes them by, to the state of the server, and the lemmas say what has to be
    shown when a client changes, comes or goes. *)

From S2P Require Import Prelude.
From S2P Require Import IoBuf.
From S2P Require Import BufPool.
From S2P Require Import ReactorBuf.
From S2P Require Import Message.
From S2P Require Import EventLoop.
From S2P Require Import TcpConn.
From S2P Require Import Isolation.
From S2P Require Import ThreadPool.
From S2P Require Import ConnStep.
From S2P Require Import TcpServer.

(** What a program's description of a client says about its connection. *)
Class ClientView (C P : Type) := {
  v_fd : C -> Z;
  v_loop : C -> nat;
  v_param : C -> option P;
  v_in : C -> list byte;
  v_out : C -> list byte
}.

(** What does not change: the loops of the server, its own descriptors, the number of slots for
    connections. *)
Record env := Env { en_loops : gset nat; en_own : gset Z; en_slots : Z }.

(** No more bytes than these wait for the rest of a message. *)
Definition PENDING : Z := MESSAGE_HEAD_LEN + MESSAGE_LENGTH_LIMIT.

Section Clients.
Context {K : Type} `{!Epoll K} `{!EpollLive K} {HK MK TF P U C : Type} `{!ClientView C P}.
Implicit Types (w : world K HK MK TF P U) (c : tcp_conn P) (cl : C) (cs : gmap loc C) (objs : gset loc) (e : env).
Implicit Types (io : gmap loc (list byte * list byte)) (l : event_loop K io_cb io_arg TF).

(** The connection object of a client. *)
Definition conn_of c cl : Prop :=
  0 <= _connfd c /\ _connfd c = v_fd cl /\ _loop c = v_loop cl /\ param c = v_param cl.

(** The clients are the open connections, with the bytes in their buffers, their slots and their
    registrations; the loops watch nothing else but the server's own descriptors. *)
Record served e w cs objs : Prop := {
  sv_bytes : exists fl io, conns_repr w fl io /\ forall x cl, cs !! x = Some cl -> io !! x = Some (v_in cl, v_out cl);
  sv_conn x cl : cs !! x = Some cl -> exists c, w_objs w !! x = Some c /\ conn_of c cl;
  sv_open x c : w_objs w !! x = Some c -> 0 <= _connfd c -> is_Some (cs !! x);
  sv_objs x : x ∈ objs <-> is_Some (w_objs w !! x);
  sv_slot x cl : cs !! x = Some cl -> conns (w_srv w) !! v_fd cl = Some (Some x) /\ v_fd cl < conns_len (w_srv w);
  sv_own x cl : cs !! x = Some cl -> v_fd cl ∉ en_own e;
  sv_in x cl : cs !! x = Some cl -> zlen (v_in cl) <= PENDING;
  sv_loops i : i ∈ en_loops e <-> is_Some (w_loops w !! i);
  sv_watch x cl : cs !! x = Some cl -> exists l, w_loops w !! v_loop cl = Some l /\ watched x (v_fd cl) (v_out cl <> []) l;
  sv_quiet i l fd : w_loops w !! i = Some l -> fd ∉ en_own e ->
    (forall x cl, cs !! x = Some cl -> v_loop cl = i -> v_fd cl <> fd) -> unwatched fd l;
  sv_slots : conns_len (w_srv w) = en_slots e
}.

(** A client with all that belongs to it. *)
Lemma served_client e w cs objs x cl :
  served e w cs objs -> cs !! x = Some cl ->
  exists c l fl io, w_objs w !! x = Some c /\ conn_of c cl /\ w_loops w !! v_loop cl = Some l /\
    watched x (v_fd cl) (v_out cl <> []) l /\ conns_repr w fl io /\
    (forall x cl, cs !! x = Some cl -> io !! x = Some (v_in cl, v_out cl)) /\
    conn_repr (Others0 := others_of x w) x w fl c (v_in cl) (v_out cl).
Proof.
  intros Hs Hx. destruct (sv_conn _ _ _ _ Hs x cl Hx) as (c & Hc & Hof). destruct (sv_watch _ _ _ _ Hs x cl Hx) as (l & Hl & Hwt).
  destruct (sv_bytes _ _ _ _ Hs) as (fl & io & Hw & Hio). exists c, l, fl, io. do 6 (split; [done|]). by apply (conns_focus x w fl io); [| |apply Hio].
Qed.

(** Two clients have two descriptors. *)
Lemma served_fd e w cs objs x y cl cl' :
  served e w cs objs -> cs !! x = Some cl -> cs !! y = Some cl' -> v_fd cl = v_fd cl' -> x = y.
Proof.
  intros Hs Hx Hy Hfd. destruct (sv_slot _ _ _ _ Hs x cl Hx) as [H1 _]. destruct (sv_slot _ _ _ _ Hs y cl' Hy) as [H2 _].
  rewrite Hfd in H1. congruence.
Qed.

(** The objects besides the one at [x]. *)
Lemma others_kept x w w' fl c ib ob y :
  conn_repr (Others0 := others_of x w) x w' fl c ib ob -> y <> x -> w_objs w' !! y = w_objs w !! y.
Proof.
  intros (_ & _ & _ & _ & _ & Ho & _) Hy. simpl in Ho.
  rewrite <-(lookup_delete_ne (w_objs w') x y), Ho by done. by rewrite lookup_delete_ne.
Qed.

(** One client changes, or goes. *)
Lemma served_alter e w w' cs objs x cl o fl io fl' c' ib' ob' l l' :
  served e w cs objs -> cs !! x = Some cl -> w_loops w !! v_loop cl = Some l ->
  conns_repr w fl io -> (forall x cl, cs !! x = Some cl -> io !! x = Some (v_in cl, v_out cl)) ->
  conn_repr (Others0 := others_of x w) x w' fl' c' ib' ob' -> conns_len (w_srv w') = conns_len (w_srv w) ->
  w_loops w' = <[v_loop cl := l']> (w_loops w) -> same_but (v_fd cl) l l' ->
  match o with
  | Some cl' => v_fd cl' = v_fd cl /\ v_loop cl' = v_loop cl /\ v_in cl' = ib' /\ v_out cl' = ob' /\ conn_of c' cl' /\
      zlen ib' <= PENDING /\ watched x (v_fd cl) (ob' <> []) l' /\ conns (w_srv w') = conns (w_srv w)
  | None => _connfd c' = -1 /\ unwatched (v_fd cl) l' /\ conns (w_srv w') = <[v_fd cl := None]> (conns (w_srv w))
  end ->
  served e w' (partial_alter (fun _ => o) x cs) objs.
Proof.
  intros Hs Hx Hl Hw Hio Hc' Hlen Hls Hsame Ho. pose proof (fun y => others_kept x w w' fl' c' ib' ob' y Hc') as Hoth.
  assert (forall y cl1, partial_alter (fun _ => o) x cs !! y = Some cl1 ->
    y = x /\ o = Some cl1 \/ y <> x /\ cs !! y = Some cl1 /\ v_fd cl1 <> v_fd cl) as Hcase.
  { intros y cl1. destruct (decide (y = x)) as [->|Hy]; [rewrite lookup_partial_alter_eq; by left|].
    rewrite lookup_partial_alter_ne by done. intros Hcl1. right. split_and!; try done. intros E. apply Hy.
    by eapply served_fd. }
  assert (forall y cl1, cs !! y = Some cl1 -> y <> x -> partial_alter (fun _ => o) x cs !! y = Some cl1) as Hstay.
  { intros y cl1 Hy Hne. by rewrite lookup_partial_alter_ne. }
  split; rewrite ?Hlen; try apply Hs.
  - exists fl', (<[x := (ib', ob')]> io). split; [by eapply conns_unfocus|].
    intros y cl1 [[-> ->]|(Hne & Hy & _)]%Hcase; [|rewrite lookup_insert_ne by done; by apply Hio].
    destruct Ho as (_ & _ & -> & -> & _). apply lookup_insert_eq.
  - intros y cl1 [[-> ->]|(Hne & Hy & _)]%Hcase.
    + exists c'. split; [apply Hc'|apply Ho].
    + rewrite (Hoth y Hne). by apply (sv_conn _ _ _ _ Hs).
  - intros y c Hy H0. destruct (decide (y = x)) as [->|Hne].
    + rewrite lookup_partial_alter_eq. pose proof (proj1 Hc') as E. simplify_eq. destruct o; [by eexists|]. destruct Ho; lia.
    + rewrite (Hoth y Hne) in Hy. destruct (sv_open _ _ _ _ Hs y c Hy H0) as [cl1 Hcl1]. exists cl1. by apply Hstay.
  - intros y. rewrite (sv_objs _ _ _ _ Hs). destruct (decide (y = x)) as [->|Hne]; [|by rewrite (Hoth y Hne)].
    destruct (sv_conn _ _ _ _ Hs x cl Hx) as (c & -> & _). pose proof (proj1 Hc') as ->. by split.
  - intros y cl1 [[-> ->]|(Hne & Hy & Hfd)]%Hcase.
    + destruct Ho as (-> & _ & _ & _ & _ & _ & _ & ->). by apply (sv_slot _ _ _ _ Hs).
    + destruct (sv_slot _ _ _ _ Hs y cl1 Hy) as [H1 H2]. split; [|done]. destruct o.
      * destruct Ho as (_ & _ & _ & _ & _ & _ & _ & ->). done.
      * destruct Ho as (_ & _ & ->). rewrite lookup_insert_ne by done. done.
  - intros y cl1 [[-> ->]|(Hne & Hy & _)]%Hcase; [destruct Ho as (-> & _); by apply (sv_own _ _ _ _ Hs x)|by apply (sv_own _ _ _ _ Hs y)].
  - intros y cl1 [[-> ->]|(Hne & Hy & _)]%Hcase; [destruct Ho as (_ & _ & -> & _ & _ & Hle & _); exact Hle|].
    by apply (sv_in _ _ _ _ Hs y).
  - intros i. rewrite (sv_loops _ _ _ _ Hs), Hls, lookup_insert. case_decide as E; [|done]. subst i. rewrite Hl. by split.
  - intros y cl1 Hy. rewrite Hls. apply Hcase in Hy as [[-> ->]|(Hne & Hy & Hfd)].
    + destruct Ho as (-> & -> & _ & -> & _ & _ & Hwt & _). exists l'. by rewrite lookup_insert_eq.
    + destruct (sv_watch _ _ _ _ Hs y cl1 Hy) as (l1 & Hl1 & Hwt). rewrite lookup_insert. case_decide as E; [|by exists l1].
      rewrite E in Hl. simplify_eq. exists l'. split; [done|]. by eapply watched_same.
  - intros i l1 fd Hl1 Hown Hnone. rewrite Hls, lookup_insert in Hl1. destruct (decide (fd = v_fd cl)) as [->|Hfd]; cycle 1.
    + assert (forall y cl1, cs !! y = Some cl1 -> v_loop cl1 = i -> v_fd cl1 <> fd) as Hnone'.
      { intros y cl1 Hy Hi. destruct (decide (y = x)) as [->|Hne]; [simplify_eq; congruence|]. eapply Hnone; [by apply Hstay|done]. }
      case_decide as E; [|by eapply (sv_quiet _ _ _ _ Hs)]. simplify_eq. eapply unwatched_same; [exact Hsame|done|].
      by eapply (sv_quiet _ _ _ _ Hs).
    + case_decide as E.
      * simplify_eq. destruct o as [cl'|]; [|by destruct Ho as (_ & ? & _)]. exfalso. destruct Ho as (Hf' & Hl' & _).
        apply (Hnone x cl'); [apply lookup_partial_alter_eq|done|done].
      * apply (sv_quiet _ _ _ _ Hs i l1 _ Hl1 Hown). intros y cl1 Hy Hi Hfd. apply E.
        assert (y = x) as -> by (by eapply served_fd). congruence.
Qed.

(** A client comes. *)
Lemma served_open e w w' cs objs x cl c l :
  served e w cs objs -> w_objs w !! x = None -> w_loops w !! v_loop cl = Some l ->
  0 <= v_fd cl < conns_len (w_srv w) -> (v_fd cl ∉ en_own e) -> map_Forall (fun _ cl1 => v_fd cl1 <> v_fd cl) cs ->
  v_in cl = [] -> v_out cl = [] -> conn_of c cl -> ibuf c = None -> obuf c = None ->
  w_mem w' = w_mem w -> w_objs w' = <[x := c]> (w_objs w) ->
  w_loops w' = <[v_loop cl := add_io_event (v_fd cl) (Some conn_rd_callback) EPOLLIN (Some (ArgConn x)) l]> (w_loops w) ->
  conns_len (w_srv w') = conns_len (w_srv w) -> conns (w_srv w') = <[v_fd cl := Some x]> (conns (w_srv w)) ->
  served e w' (<[x := cl]> cs) ({[x]} ∪ objs).
Proof.
  intros Hs Hx Hl Hrange Hown Hfresh Hi Ho Hof Hib Hob Hm Hobj Hls Hlen Hconns.
  assert (forall y cl1, cs !! y = Some cl1 -> y <> x) as Hne.
  { intros y cl1 Hy ->. destruct (sv_conn _ _ _ _ Hs x cl1 Hy) as (d & Hd & _). congruence. }
  assert (unwatched (v_fd cl) l) as Hun.
  { apply (sv_quiet _ _ _ _ Hs (v_loop cl) l _ Hl Hown). intros y cl1 Hy _. by apply (Hfresh y). }
  set (l' := add_io_event _ _ _ _ l) in Hls. destruct (sv_bytes _ _ _ _ Hs) as (fl & io & Hw & Hio).
  assert (forall y cl1, <[x := cl]> cs !! y = Some cl1 -> y = x /\ cl1 = cl \/ y <> x /\ cs !! y = Some cl1) as Hcase.
  { intros y cl1. rewrite lookup_insert. case_decide as E; [intros [= <-]; by left|]. right. split; [congruence|done]. }
  split; rewrite ?Hlen; try apply Hs.
  - exists fl, (<[x := ([], [])]> io). split.
    + eapply (conns_repr_same (set_obj x c w)); [by apply conns_new|done|done].
    + intros y cl1 [[-> ->]|[Hy Hcl]]%Hcase; [rewrite Hi, Ho; apply lookup_insert_eq|]. rewrite lookup_insert_ne by done. by apply Hio.
  - intros y cl1 [[-> ->]|[Hy Hcl]]%Hcase; rewrite Hobj.
    + exists c. by rewrite lookup_insert_eq.
    + rewrite lookup_insert_ne by done. by apply (sv_conn _ _ _ _ Hs).
  - intros y d. rewrite Hobj, !lookup_insert. case_decide; [by eexists|]. by apply (sv_open _ _ _ _ Hs).
  - intros y. rewrite Hobj, elem_of_union, elem_of_singleton, (sv_objs _ _ _ _ Hs), lookup_insert.
    case_decide as E; [subst y; split; [by eexists|by left]|]. split; [intros [->|]; done|by right].
  - intros y cl1 [[-> ->]|[Hy Hcl]]%Hcase; rewrite Hconns; [rewrite lookup_insert_eq; split; [done|lia]|].
    rewrite lookup_insert_ne; [by apply (sv_slot _ _ _ _ Hs)|]. intros E. by apply (Hfresh y cl1 Hcl).
  - intros y cl1 [[-> ->]|[Hy Hcl]]%Hcase; [done|by apply (sv_own _ _ _ _ Hs y)].
  - intros y cl1 [[-> ->]|[Hy Hcl]]%Hcase; [by rewrite Hi|by apply (sv_in _ _ _ _ Hs y)].
  - intros i. rewrite (sv_loops _ _ _ _ Hs), Hls, lookup_insert. case_decide as E; [|done]. subst i. rewrite Hl. by split.
  - intros y cl1 [[-> ->]|[Hy Hcl]]%Hcase; rewrite Hls.
    + exists l'. rewrite lookup_insert_eq. split; [done|]. rewrite Ho. eapply watched_weaken; [|by apply watch_in]. by intros [].
    + destruct (sv_watch _ _ _ _ Hs y cl1 Hcl) as (l1 & Hl1 & Hwt). rewrite lookup_insert. case_decide as E; [|by exists l1].
      rewrite E in Hl. simplify_eq. exists l'. split; [done|]. eapply watched_same; [apply add_io_event_same|by apply (Hfresh y)|done].
  - intros i l1 fd Hl1 Hown' Hnone. rewrite Hls, lookup_insert in Hl1.
    assert (forall y cl1, cs !! y = Some cl1 -> v_loop cl1 = i -> v_fd cl1 <> fd) as Hnone'.
    { intros y cl1 Hy. apply (Hnone y). rewrite lookup_insert_ne; [done|]. intros ->. by eapply Hne. }
    case_decide as E; [|by eapply (sv_quiet _ _ _ _ Hs)]. injection Hl1 as <-. eapply unwatched_same; [apply add_io_event_same| |].
    + intros ->. by apply (Hnone x cl); [apply lookup_insert_eq| |].
    + eapply (sv_quiet _ _ _ _ Hs); [|done|exact Hnone']. by rewrite <-E.
Qed.

(** What the application does to itself does not matter. *)
Lemma served_same e w w' cs objs :
  served e w cs objs -> w_mem w' = w_mem w -> w_objs w' = w_objs w -> w_loops w' = w_loops w -> w_srv w' = w_srv w ->
  served e w' cs objs.
Proof.
  intros [H1 H2 H3 H4 H5 H6 H7 H8 H9 H10 H11] Hm Ho Hl Hs. split; rewrite ?Ho, ?Hl, ?Hs; try done.
  destruct H1 as (fl & io & Hw & Hio). exists fl, io. split; [by eapply conns_repr_same|done].
Qed.

(** A server without connections. *)
Lemma served_none e w :
  w_objs w = ∅ -> (exists fl, pool_ok (w_mem w) fl) -> (forall i, i ∈ en_loops e <-> is_Some (w_loops w !! i)) ->
  (forall i l fd, w_loops w !! i = Some l -> fd ∉ en_own e -> unwatched fd l) -> conns_len (w_srv w) = en_slots e ->
  served e w ∅ ∅.
Proof.
  intros Ho [fl Hfl] Hl Hq Hn. split; try done.
  - exists fl, ∅. split; [by apply conns_repr_empty|done].
  - intros x c Hx. by rewrite Ho in Hx.
  - intros x. rewrite Ho, lookup_empty. split; [intros Hn'; by apply not_elem_of_empty in Hn'|by intros []].
  - intros i l fd Hi Hown _. by eapply Hq.
Qed.

(** A process that has not started its server yet: no connections, an empty router, a pool in
    order, loops that watch nothing but the server's own descriptors. *)
Record fresh e (sock : Z) w : Prop := {
  fr_objs : w_objs w = ∅;
  fr_pool : exists fl, pool_ok (w_mem w) fl;
  fr_router : router (w_srv w) = msg_router_new;
  fr_loops i : i ∈ en_loops e <-> is_Some (w_loops w !! i);
  fr_quiet i l fd : w_loops w !! i = Some l -> fd ∉ en_own e -> unwatched fd l;
  fr_sock : sock ∈ en_own e;
  fr_slots : en_slots e = MAX_CONNS + 3
}.

Lemma server_fresh {E} `{!EventFd E} e sock bnd lst (stale : pool_ptr E TF) w sv w' :
  fresh e sock w -> tcp_server_new3 sock bnd lst stale 0%nat w = Ret (sv, w') ->
  served e w' ∅ ∅ /\ router (w_srv w') = msg_router_new /\ conn_start_cb (w_srv w') = conn_start_cb (w_srv w) /\
  conn_close_cb (w_srv w') = conn_close_cb (w_srv w) /\ w_user w' = w_user w.
Proof.
  intros [H1 H3 H4 H5 H6 H7 H8] Hm. unfold tcp_server_new3, tcp_server_new in Hm. revert Hm. repeat (case_bool_decide; [done|]). intros Hm.
  res_inv. unfold on_loop in *. res_inv. simplify_eq. split; [|done].
  match goal with Hd : w_loops (set_srv _ w) !! 0%nat = Some ?l0 |- _ => change (w_loops w !! 0%nat = Some l0) in Hd; rename Hd into Hl0 end.
  apply served_none; try done.
  - intros i. simpl. rewrite H5, lookup_insert. destruct (decide (0%nat = i)) as [<-|]; [|done]. split; [by eexists|].
    intros _. by eexists.
  - intros i l fd Hl Hown. simpl in Hl. rewrite lookup_insert in Hl. destruct (decide (0%nat = i)) as [<-|]; [|by eapply H6]. simplify_eq.
    eapply unwatched_same; [apply add_io_event_same| |by eapply H6]. intros ->. done.
Qed.

(** A router with one registration. *)
Lemma route_single id0 id (cb : MK) (ud : option io_arg) :
  route (register_msg_router id0 cb ud msg_router_new).2 id = if bool_decide (id = id0) then Some (cb, ud) else None.
Proof.
  unfold register_msg_router. rewrite (bool_decide_eq_false_2 (is_Some (_router msg_router_new !! id0))) by (by intros []).
  unfold route. simpl. rewrite !lookup_insert, lookup_empty. destruct (decide (id0 = id)) as [->|Hne].
  - by rewrite !bool_decide_eq_true_2.
  - rewrite !bool_decide_eq_false_2; [done| |by intros []]. congruence.
Qed.

(** ** The handlers of a client *)
Context (raw : Z -> list byte) (raw_len : forall n, 0 <= n -> zlen (raw n) = n).
Context (run_hook : HK -> loc -> world K HK MK TF P U -> res (world K HK MK TF P U)).

(** What the close hook may do: change the application and what [param] points to. *)
Definition close_hook (x : loc) w1 w2 : Prop :=
  run_hook_opt run_hook (conn_close_cb (w_srv w1)) x w1 = Ret w2 /\
  (exists c p, w_objs w1 !! x = Some c /\ w_objs w2 = <[x := set_param p c]> (w_objs w1)) /\
  w_mem w2 = w_mem w1 /\ w_loops w2 = w_loops w1 /\ w_srv w2 = w_srv w1.

(** The server without the client at [x], as closing left it from [w2]. *)
Definition closed_to e cs objs (x : loc) w2 w' : Prop :=
  served e w' (delete x cs) objs /\ w_user w' = w_user w2 /\ router (w_srv w') = router (w_srv w2) /\
  conn_start_cb (w_srv w') = conn_start_cb (w_srv w2) /\ conn_close_cb (w_srv w') = conn_close_cb (w_srv w2) /\
  exists c', w_objs w' !! x = Some c' /\ ibuf c' = None.

(** A client is closed, from a state [w1] in which its handlers have worked. *)
Lemma served_close e w w1 w2 cs objs x cl fl io fl1 c1 ib1 ob1 l l1 :
  served e w cs objs -> cs !! x = Some cl -> w_loops w !! v_loop cl = Some l ->
  conns_repr w fl io -> (forall x cl, cs !! x = Some cl -> io !! x = Some (v_in cl, v_out cl)) ->
  conn_repr (Others0 := others_of x w) x w1 fl1 c1 ib1 ob1 -> _connfd c1 = v_fd cl -> _loop c1 = v_loop cl ->
  w_srv w1 = w_srv w -> w_loops w1 = <[v_loop cl := l1]> (w_loops w) -> same_but (v_fd cl) l l1 -> close_hook x w1 w2 ->
  exists w', clean_conn run_hook x w1 = Ret w' /\ closed_to e cs objs x w2 w'.
Proof.
  intros Hs Hx Hl Hw Hio Hc1 Hfd Hlo Hsrv Hls Hsame (Hh & (c0 & p & Hc0 & Ho2) & Hm2 & Hl2 & Hs2).
  assert (c0 = c1) as -> by (pose proof (proj1 Hc1); congruence).
  destruct (sv_conn _ _ _ _ Hs x cl Hx) as (c & _ & H0 & Hfd0 & _). destruct (sv_slot _ _ _ _ Hs x cl Hx) as [_ Hlt].
  assert (conn_repr (Others0 := others_of x w) x w2 fl1 (set_param p c1) ib1 ob1) as Hc2.
  { destruct Hc1 as (H1 & H2 & H3 & H4 & H5 & H6). split; [rewrite Ho2; apply lookup_insert_eq|]. rewrite Hm2. split_and!; try done.
    by eapply apart_put. }
  destruct (clean_exact (Others0 := others_of x w) run_hook x w1 w2 fl1 (set_param p c1) ib1 ob1 l1 Hh Hc2)
    as (w' & fl' & c' & Hrun & Hc' & Hm1 & Hib & Hls' & Hu & Hro & Hlen & Hconns & Hcb1 & Hcb2).
  { rewrite Hl2, Hls. cbn [_loop set_param]. rewrite Hlo. apply lookup_insert_eq. }
  { cbn [_connfd set_param]. rewrite Hs2, Hsrv. lia. }
  cbn [_connfd _loop set_param] in Hls', Hconns. rewrite Hl2, Hls, Hlo, Hfd, insert_insert_eq in Hls'. rewrite Hs2, Hsrv, Hfd in Hconns.
  exists w'. split; [exact Hrun|]. split; [|by split_and!; try done; exists c'; split; [apply Hc'|]].
  eapply (served_alter e w w' cs objs x cl None fl io fl' c' [] [] l (del_io_event (v_fd cl) l1)); try done.
  - by rewrite Hlen, Hs2, Hsrv.
  - eapply same_but_trans; [exact Hsame|apply del_io_event_same].
  - split; [done|]. split; [apply unwatched_del|done].
Qed.

(** The socket of a client is writable; [cl'] is the client with the given output. *)
Lemma served_write e w cs objs x cl (cl' : list byte -> C) kss (Q : world K HK MK TF P U -> Prop) :
  served e w cs objs -> cs !! x = Some cl -> writes_ok kss (zlen (v_out cl)) = true ->
  (forall ob, v_fd (cl' ob) = v_fd cl /\ v_loop (cl' ob) = v_loop cl /\ v_param (cl' ob) = v_param cl /\
     v_in (cl' ob) = v_in cl /\ v_out (cl' ob) = ob) ->
  (forall m, exists w2, close_hook x (set_mem m w) w2 /\ Q w2) ->
  match drained kss (v_out cl) with
  | Some ob => exists w', do_write run_hook kss x w = Ret w' /\ served e w' (<[x := cl' ob]> cs) objs /\
      w_user w' = w_user w /\ w_srv w' = w_srv w
  | None => exists w2 w', Q w2 /\ do_write run_hook kss x w = Ret w' /\ closed_to e cs objs x w2 w'
  end.
Proof.
  intros Hs Hx Hk Hcl' Hhook. destruct (served_client e w cs objs x cl Hs Hx) as (c & l & fl & io & Hc & Hof & Hl & Hwt & Hw & Hio & Hf).
  pose proof Hof as (_ & Hfd & Hlo & _).
  pose proof (do_write_exact (Others0 := others_of x w) run_hook kss x w fl c _ _ l Hf) as Hrun.
  rewrite Hlo, Hfd in Hrun. specialize (Hrun Hl Hwt Hk). destruct (drained kss (v_out cl)) as [ob|].
  - destruct Hrun as (w' & fl' & l' & Hrun & Hc' & Ho' & Hls & Hsame & Hwt' & Hu & Hsr). exists w'. split; [exact Hrun|]. split; [|done].
    destruct (Hcl' ob) as (E1 & E2 & E3 & E4 & E5).
    eapply (served_alter e w w' cs objs x cl (Some (cl' ob)) fl io fl' c (v_in cl) ob l l'); try done; [by rewrite Hsr|].
    do 4 (split; [done|]). split; [destruct Hof as (? & ? & ? & ?); split_and!; congruence|].
    split; [by eapply sv_in|]. split; [done|]. by rewrite Hsr.
  - destruct Hrun as (m' & fl' & ob' & Hc' & Hrun). destruct (Hhook m') as (w2 & Hh & HQ).
    destruct (served_close e w (set_mem m' w) w2 cs objs x cl fl io fl' c (v_in cl) ob' l l Hs Hx Hl Hw Hio Hc') as (w' & Hcl & Hto); try done.
    + cbn [w_loops set_mem]. by rewrite insert_id.
    + exists w2, w'. split; [done|]. split; [by rewrite Hrun|done].
Qed.

(** The stream of a client ends, or reading fails. *)
Lemma served_end e w cs objs x cl run_msg fionread ks (Q : world K HK MK TF P U -> Prop) :
  served e w cs objs -> cs !! x = Some cl -> reads_ok PENDING fionread ks = true -> read_chunk fionread ks = None ->
  (forall rb m c, w_objs w !! x = Some c -> exists w2, close_hook x (set_obj x (set_ibuf rb c) (set_mem m w)) w2 /\ Q w2) ->
  do_read raw run_hook run_msg fionread ks x w = Stop (Exit 0) /\ mem_short 4096 (w_mem w) \/
  exists w2 w', Q w2 /\ do_read raw run_hook run_msg fionread ks x w = Ret w' /\ closed_to e cs objs x w2 w'.
Proof.
  intros Hs Hx Hk Hch Hhook. destruct (served_client e w cs objs x cl Hs Hx) as (c & l & fl & io & Hc & Hof & Hl & Hwt & Hw & Hio & Hf).
  pose proof Hof as (_ & Hfd & Hlo & _).
  destruct (do_read_ends (Others0 := others_of x w) raw raw_len run_hook run_msg fionread ks x w fl c _ _ PENDING Hf
    (sv_in _ _ _ _ Hs x cl Hx) Hk Hch) as [Hstop|(rb & m' & fl' & Hc' & Hrun)]; [by left|right].
  destruct (Hhook rb m' c Hc) as (w2 & Hh & HQ).
  destruct (served_close e w _ w2 cs objs x cl fl io fl' (set_ibuf rb c) _ _ l l Hs Hx Hl Hw Hio Hc') as (w' & Hcl & Hto); try done.
  - cbn [w_loops set_obj set_mem]. by rewrite insert_id.
  - exists w2, w'. split; [done|]. split; [by rewrite Hrun|done].
Qed.
End Clients.
