(* ===== verification/TcpClient.v ===== *)
(** * tcp_client (lrlb_reactor/include/tcp_client.h, src/tcp_client.cpp)

    A client owns one non-blocking socket, an input and an output buffer of fixed
    capacity and a router, and runs on one event loop; [cworld] is what its
    callbacks act on.  The application's hooks and message callbacks are
    arguments of the model. *)

From S2P Require Import Prelude.
From S2P Require Import IoBuf.
From S2P Require Import Message.
From S2P Require Import EventLoop.

(** The functions a client registers with its loop. *)
Inductive client_cb :=
| read_callback
| write_callback
| connection_delay.

(** The functions on the loop of a client: its own, and those the application
    registers, for instance for the queue it serves; all have the client as argument. *)
Inductive loop_fn (X : Type) := ClientFn (cb : client_cb) | AppFn (x : X).
Arguments ClientFn {X} cb.
Arguments AppFn {X} x.

Definition CLIENT_BUF : Z := 4194304.

Section Client.
Context {K : Type} `{!Epoll K} {HK MK A X TF U : Type}.

(** [class tcp_client]; every callback is registered with the client itself as
    argument. *)
Record tcp_client := TcpClient {
  connected : bool;
  _ibuf : io_buf;
  _obuf : io_buf;
  _conn_start_cb : option HK;
  _conn_close_cb : option HK;
  _cli_router : msg_router MK A;
  _cli_sockfd : Z
}.

Record cworld := CWorld {
  cw_cli : tcp_client;
  cw_loop : event_loop K (loop_fn X) unit TF;
  cw_user : U
}.

Definition set_connected (b : bool) (c : tcp_client) : tcp_client :=
  TcpClient b (_ibuf c) (_obuf c) (_conn_start_cb c) (_conn_close_cb c) (_cli_router c) (_cli_sockfd c).
Definition set_in (b : io_buf) (c : tcp_client) : tcp_client :=
  TcpClient (connected c) b (_obuf c) (_conn_start_cb c) (_conn_close_cb c) (_cli_router c) (_cli_sockfd c).
Definition set_out (b : io_buf) (c : tcp_client) : tcp_client :=
  TcpClient (connected c) (_ibuf c) b (_conn_start_cb c) (_conn_close_cb c) (_cli_router c) (_cli_sockfd c).
Definition set_sockfd (fd : Z) (c : tcp_client) : tcp_client :=
  TcpClient (connected c) (_ibuf c) (_obuf c) (_conn_start_cb c) (_conn_close_cb c) (_cli_router c) fd.
Definition upd_cli (f : tcp_client -> tcp_client) (w : cworld) : cworld :=
  CWorld (f (cw_cli w)) (cw_loop w) (cw_user w).
Definition upd_loop (f : event_loop K (loop_fn X) unit TF -> event_loop K (loop_fn X) unit TF) (w : cworld)
    : cworld := CWorld (cw_cli w) (f (cw_loop w)) (cw_user w).

Context (run_hook : HK -> cworld -> res cworld).
Context (run_msg : MK -> list byte -> Z -> Z -> option A -> cworld -> res cworld).

Definition run_cli_hook (h : option HK) (w : cworld) : res cworld :=
  match h with Some h => run_hook h w | None => Ret w end.

(** Registering [cb] with the client as argument. *)
Definition watch (fd : Z) (cb : client_cb) (m : Z) : cworld -> cworld :=
  upd_loop (add_io_event fd (Some (ClientFn cb)) m (Some tt)).

(** [tcp_client::clean_conn]: the descriptor is closed but kept in [_sockfd]. *)
Definition clean_conn (w : cworld) : res cworld :=
  let fd := _cli_sockfd (cw_cli w) in
  let w := if bool_decide (fd <> -1) then upd_loop (del_io_event fd) w else w in
  let w := upd_cli (set_connected false) w in
  run_cli_hook (_conn_close_cb (cw_cli w)) w.

(** After the connection is up: the hook, then the registrations. *)
Definition on_connected (fd : Z) (w : cworld) : res cworld :=
  let w := upd_cli (set_connected true) w in
  w ← run_cli_hook (_conn_start_cb (cw_cli w)) w;
  let w := watch fd read_callback EPOLLIN w in
  Ret (if bool_decide (b_length (_obuf (cw_cli w)) <> 0)
       then watch fd write_callback EPOLLOUT w else w).

(** [tcp_client::do_connect]; [sock] is what [socket] returns, [conn] the result of
    [connect]: [inl] for 0, [inr] the [errno]. *)
Definition do_connect (sock : Z) (conn : unit + errno) (w : cworld) : res cworld :=
  if bool_decide (sock = -1) then Stop (Exit 1)
  else
    let w := upd_cli (set_sockfd sock) w in
    match conn with
    | inl _ => on_connected sock w
    | inr EINPROGRESS => Ret (watch sock connection_delay EPOLLOUT w)
    | inr _ => Stop (Exit 1)
    end.

(** [connection_delay]; [result] is the pending [SO_ERROR]. *)
Definition run_connection_delay (fd result : Z) (w : cworld) : res cworld :=
  let w := upd_loop (del_io_event fd) w in
  if bool_decide (result = 0) then on_connected fd w else Ret w.

(** [tcp_client::tcp_client]; [stale] is what the uninitialised [connected] holds,
    [raw1] and [raw2] the blocks of the buffers. *)
Definition tcp_client_new (raw1 raw2 : list byte) (stale : bool) (sock : Z) (conn : unit + errno)
    (l : event_loop K (loop_fn X) unit TF) (u : U) : res cworld :=
  do_connect sock conn
    (CWorld (TcpClient stale (io_buf_new CLIENT_BUF raw1) (io_buf_new CLIENT_BUF raw2)
                       None None msg_router_new (-1)) l u).

(** [add_msg_router], [set_conn_start], [set_conn_close] and [get_fd]. *)
Definition add_msg_router (id : Z) (cb : MK) (ud : option A) (w : cworld) : cworld :=
  upd_cli (fun c => TcpClient (connected c) (_ibuf c) (_obuf c) (_conn_start_cb c) (_conn_close_cb c)
             (register_msg_router id cb ud (_cli_router c)).2 (_cli_sockfd c)) w.
Definition set_conn_start (cb : option HK) (w : cworld) : cworld :=
  upd_cli (fun c => TcpClient (connected c) (_ibuf c) (_obuf c) cb (_conn_close_cb c)
             (_cli_router c) (_cli_sockfd c)) w.
Definition set_conn_close (cb : option HK) (w : cworld) : cworld :=
  upd_cli (fun c => TcpClient (connected c) (_ibuf c) (_obuf c) (_conn_start_cb c) cb
             (_cli_router c) (_cli_sockfd c)) w.
Definition get_fd (w : cworld) : Z := _cli_sockfd (cw_cli w).

(** [tcp_client::send_message(data, msglen, msgid)], [msglen] the length of [data]. *)
Definition send_message (data : list byte) (id : Z) (w : cworld) : res (Z * cworld) :=
  let c := cw_cli w in
  if negb (connected c) then Ret (-1, w)
  else
    let need_add_event := bool_decide (b_length (_obuf c) = 0) in
    if bool_decide (zlen data + MESSAGE_HEAD_LEN > b_capacity (_obuf c) - b_length (_obuf c))
    then Ret (-1, w)
    else
      b ← append (head_bytes (MsgHead id (zlen data))) (_obuf c);
      b ← append data b;
      let w := upd_cli (set_out b) w in
      Ret (0, if need_add_event then watch (_cli_sockfd c) write_callback EPOLLOUT w else w).

(** What a reader of [n] bytes at the pointer [data + head] finds, up to the end
    of the block. *)
Definition readable (b : io_buf) (n : Z) : list byte :=
  let rest := drop (Z.to_nat (b_head b)) (b_data b) in
  if bool_decide (zlen rest <= n) then rest else take (Z.to_nat n) rest.

(** The unpacking loop of [tcp_client::do_read].  The end of the window stays
    where it is, so a run that terminates never sees the same [head] twice. *)
Fixpoint read_loop (fuel : nat) (w : cworld) : res cworld :=
  let b := _ibuf (cw_cli w) in
  if bool_decide (b_length b >= MESSAGE_HEAD_LEN) then
    match fuel with
    | O => Stop NoReturn
    | S fuel =>
        hb ← mem_read (b_data b) (b_head b) MESSAGE_HEAD_LEN;
        let head := bytes_head hb in
        if bool_decide (msglen head + MESSAGE_HEAD_LEN > 2147483647) then Stop Undefined
        else if bool_decide (msglen head + MESSAGE_HEAD_LEN > b_length b) then Ret w
        else
          let b := pop MESSAGE_HEAD_LEN b in
          w ← call run_msg (_cli_router (cw_cli w)) (msgid head) (msglen head)
                (readable b (u32 (msglen head))) (upd_cli (set_in b) w);
          read_loop fuel (upd_cli (set_in (pop (msglen head) (_ibuf (cw_cli w)))) w)
    end
  else Ret w.

(** [tcp_client::do_read]; [fionread] and [ks] are what [ioctl] and [read] return. *)
Definition do_read (fionread : option Z) (ks : list (list byte + errno)) (w : cworld)
    : res (Z * cworld) :=
  let c := cw_cli w in
  _ ← assert (connected c);
  match fionread with
  | None => Ret (-1, w)
  | Some need_read =>
      _ ← assert (bool_decide (need_read <= b_capacity (_ibuf c) - b_length (_ibuf c)));
      r ← retry ks;
      match r with
      | inr _ => w ← clean_conn w; Ret (-1, w)
      | inl bs =>
          if bool_decide (zlen bs = 0) then w ← clean_conn w; Ret (-1, w)
          else
            b ← append bs (_ibuf c);
            _ ← assert (bool_decide (zlen bs = need_read));
            w ← read_loop (S (Z.to_nat (b_capacity b))) (upd_cli (set_in b) w);
            b ← adjust (_ibuf (cw_cli w));
            Ret (0, upd_cli (set_in b) w)
      end
  end.

(** The loop of [tcp_client::do_write], on the results of [write]. *)
Fixpoint write_loop (ks : list (Z + errno)) (w : cworld) : res cworld :=
  let b := _obuf (cw_cli w) in
  if bool_decide (b_length b <> 0) then
    match ks with
    | [] => Stop NoReturn
    | inr EINTR :: ks => write_loop ks w
    | inr EAGAIN :: _ => Ret w
    | inr _ :: ks => w ← clean_conn w; write_loop ks w
    | inl n :: ks =>
        if bool_decide (n > 0) then
          b ← adjust (pop n b); write_loop ks (upd_cli (set_out b) w)
        else Ret w
    end
  else Ret w.

(** [tcp_client::do_write]. *)
Definition do_write (ks : list (Z + errno)) (w : cworld) : res (Z * cworld) :=
  let b := _obuf (cw_cli w) in
  _ ← assert (bool_decide (b_head b = 0 /\ b_length b <> 0));
  w ← write_loop ks w;
  Ret (0, if bool_decide (b_length (_obuf (cw_cli w)) = 0)
          then upd_loop (del_io_event_mask (_cli_sockfd (cw_cli w)) EPOLLOUT) w else w).

End Client.

Arguments tcp_client : clear implicits.
Arguments cworld : clear implicits.

(** ** What a client does with its byte streams *)
Section Spec.
Context {K : Type} `{!Epoll K} {HK MK A X TF U : Type}.
Context (run_hook : HK -> cworld K HK MK A X TF U -> res (cworld K HK MK A X TF U)).
Context (run_msg : MK -> list byte -> Z -> Z -> option A -> cworld K HK MK A X TF U ->
                   res (cworld K HK MK A X TF U)).
Implicit Types (w : cworld K HK MK A X TF U) (c : tcp_client HK MK A).

(** The client has received [ib] and still has to write [ob]; between callbacks
    both windows start at the front of their blocks. *)
Definition cli_repr c (ib ob : list byte) : Prop :=
  buf_wf (_ibuf c) /\ b_head (_ibuf c) = 0 /\ contents (_ibuf c) = ib /\
  buf_wf (_obuf c) /\ b_head (_obuf c) = 0 /\ contents (_obuf c) = ob.

(** The output buffer after a message that fits was queued; the input buffer plays no part. *)
Lemma client_send_out data id w ob (c := cw_cli w) :
  buf_wf (_obuf c) -> b_head (_obuf c) = 0 -> contents (_obuf c) = ob -> connected c = true ->
  zlen ob + MESSAGE_HEAD_LEN + zlen data <= b_capacity (_obuf c) ->
  exists b, buf_wf b /\ b_head b = 0 /\ contents b = ob ++ frame_bytes id data /\ b_capacity b = b_capacity (_obuf c) /\
    send_message data id w =
    Ret (0, CWorld (set_out b c) (if bool_decide (ob = [])
                       then add_io_event (_cli_sockfd c) (Some (ClientFn write_callback)) EPOLLOUT (Some tt) (cw_loop w)
                       else cw_loop w) (cw_user w)).
Proof.
  intros Ho1 Ho2 Ho3 Hcon Hfit. unfold send_message. fold c. rewrite Hcon. cbn [negb].
  pose proof (zlen_contents _ Ho1) as Hlen. rewrite Ho3 in Hlen. rewrite (bool_decide_eq_false_2 (_ > _)) by lia.
  set (h := head_bytes _). assert (zlen h = MESSAGE_HEAD_LEN) as Hh by apply zlen_head_bytes.
  pose proof (zlen_nonneg data).
  destruct (append_ok (_obuf c) h Ho1 Ho2) as (b1 & -> & Hw1 & Hh1 & Hl1 & Hc1 & _ & Hx1); [lia|].
  cbn [mbind res_mbind].
  destruct (append_ok b1 data Hw1 Hh1) as (b2 & -> & Hw2 & Hh2 & Hl2 & Hc2 & _ & Hx2); [lia|].
  cbn [mbind res_mbind]. exists b2. split; [done|]. split; [done|].
  split; [unfold frame_bytes; fold h; by rewrite Hx2, Hx1, Ho3, app_assoc|]. split; [lia|].
  assert (b_length (_obuf c) = 0 <-> ob = []) as Hz.
  { rewrite <-Hlen. split; [apply zlen_nil|by intros ->]. }
  rewrite (bool_decide_ext _ _ Hz). by case_bool_decide.
Qed.

(** [tcp_client::send_message] queues exactly one frame and arms the write
    event when nothing was queued; on a client that is not connected, or when the
    frame does not fit what is left of the output buffer, it returns -1 and
    changes nothing. *)
Lemma client_send_ok data id w ib ob :
  cli_repr (cw_cli w) ib ob ->
  let c := cw_cli w in
  if connected c && bool_decide (zlen ob + MESSAGE_HEAD_LEN + zlen data <= b_capacity (_obuf c)) then
    exists c', cli_repr c' ib (ob ++ frame_bytes id data) /\ connected c' = true /\
      _cli_sockfd c' = _cli_sockfd c /\ _cli_router c' = _cli_router c /\
      b_capacity (_obuf c') = b_capacity (_obuf c) /\ _ibuf c' = _ibuf c /\
      send_message data id w =
      Ret (0, CWorld c' (if bool_decide (ob = [])
                         then add_io_event (_cli_sockfd c) (Some (ClientFn write_callback)) EPOLLOUT (Some tt) (cw_loop w)
                         else cw_loop w) (cw_user w))
  else send_message data id w = Ret (-1, w).
Proof.
  intros (Hi1 & Hi2 & Hi3 & Ho1 & Ho2 & Ho3) c.
  fold c in Hi1, Hi2, Hi3, Ho1, Ho2, Ho3. destruct (connected c) eqn:Hcon; cbn [andb]; cycle 1.
  { unfold send_message. fold c. by rewrite Hcon. }
  case_bool_decide as Hfit; cycle 1.
  { pose proof (zlen_contents _ Ho1) as Hlen. rewrite Ho3 in Hlen. unfold send_message. fold c. rewrite Hcon. cbn [negb].
    by rewrite bool_decide_eq_true_2 by lia. }
  destruct (client_send_out data id w ob Ho1 Ho2 Ho3 Hcon Hfit) as (b & Hw & Hh & Hx & Hc & Hs).
  exists (set_out b c). split; [by split_and!|]. by split_and!.
Qed.

(** ** Receiving

    As for a server connection, an application is described by abstract states:
    [csim a w] says that the client and the application in [w] represent [a];
    [cstep] is the effect of a message, where there is one. *)
Context {AS : Type} (csim : AS -> cworld K HK MK A X TF U -> Prop).
Context (cstep : MK -> list byte -> Z -> Z -> option A -> AS -> res AS).
Implicit Types a : AS.

(** A message callback may send on the client and change the application; it
    leaves the received bytes and the router alone. *)
Record cli_cb_contract : Prop := {
  clc_in a w b : csim a w -> csim a (upd_cli (set_in b) w);
  clc_run cb data len id ud w a a' : csim a w -> cstep cb data len id ud a = Ret a' ->
    exists w', run_msg cb data len id ud w = Ret w' /\
      _ibuf (cw_cli w') = _ibuf (cw_cli w) /\ _cli_router (cw_cli w') = _cli_router (cw_cli w) /\ csim a' w'
}.

Fixpoint cli_deliver (r : msg_router MK A) (msgs : list (Z * list byte)) a : res AS :=
  match msgs with
  | [] => Ret a
  | (id, body) :: msgs =>
      a ← match route r id with
          | None => Ret a
          | Some (cb, ud) => cstep cb body (u32 (zlen body)) id ud a
          end;
      cli_deliver r msgs a
  end.

(** [rest] is the beginning of a frame. *)
Definition incomplete (rest : list byte) : Prop :=
  zlen rest < MESSAGE_HEAD_LEN \/
  (zlen rest < MESSAGE_HEAD_LEN + msglen (bytes_head rest) <= 2147483647).

Lemma call_ok data r id len w a a' :
  cli_cb_contract -> csim a w ->
  match route r id with None => Ret a | Some (cb, ud) => cstep cb data (u32 len) id ud a end = Ret a' ->
  exists w', call run_msg r id len data w = Ret w' /\
    _ibuf (cw_cli w') = _ibuf (cw_cli w) /\ _cli_router (cw_cli w') = _cli_router (cw_cli w) /\ csim a' w'.
Proof.
  intros Hcb Ha. unfold call. destruct (route r id) as [[cb ud]|]; [by apply (clc_run Hcb)|].
  intros [= <-]. by exists w.
Qed.

Lemma read_head b :
  buf_wf b -> MESSAGE_HEAD_LEN <= b_length b ->
  exists hb, mem_read (b_data b) (b_head b) MESSAGE_HEAD_LEN = Ret hb /\
    bytes_head hb = bytes_head (contents b).
Proof.
  unfold MESSAGE_HEAD_LEN. intros (? & ? & ? & ?) Hl. rewrite mem_read_ok by lia. eexists; split; [done|].
  unfold contents, bytes_head. f_equal; f_equal.
  - rewrite !take_take. f_equal. lia.
  - rewrite !skipn_firstn_comm, !take_take. f_equal. lia.
Qed.

Lemma readable_ok b n :
  buf_wf b -> 0 <= n <= b_length b -> readable b n = take (Z.to_nat n) (contents b).
Proof.
  intros (? & ? & ? & ?) Hn. unfold readable, contents. rewrite take_take, Nat.min_l by lia.
  case_bool_decide as Hle; [|done]. symmetry. apply take_ge. zlen_lia.
Qed.

(** The loop over a buffer that holds complete frames and the beginning of the
    next one. *)
Lemma client_read_loop msgs rest fuel w a a' :
  cli_cb_contract -> csim a w -> cli_deliver (_cli_router (cw_cli w)) msgs a = Ret a' -> Forall sendable msgs -> incomplete rest ->
  buf_wf (_ibuf (cw_cli w)) -> contents (_ibuf (cw_cli w)) = stream msgs ++ rest ->
  (length msgs < fuel)%nat ->
  exists w', read_loop run_msg fuel w = Ret w' /\
    buf_wf (_ibuf (cw_cli w')) /\ contents (_ibuf (cw_cli w')) = rest /\
    _cli_router (cw_cli w') = _cli_router (cw_cli w) /\ csim a' w'.
Proof.
  intros Hcb Ha Hdel Hall Hinc. revert fuel w a Ha Hdel.
  induction Hall as [|[id body] msgs Hm _ IH]; intros fuel w a Ha Hdel Hwf Hc Hfuel;
    pose proof (zlen_contents _ Hwf) as Hlen; rewrite Hc in Hlen;
    (destruct fuel as [|fuel]; [simpl in Hfuel; lia|]); cbn [read_loop].
  - unfold stream in Hc, Hlen. simpl in Hc, Hlen. injection Hdel as <-. exists w. split; [|done].
    case_bool_decide as Hge; [|done].
    destruct (read_head _ Hwf ltac:(lia)) as (hb & -> & Hhb). cbn [mbind res_mbind]. rewrite Hhb, Hc.
    destruct Hinc as [Hlt|[Hlt Hmax]]; [lia|].
    rewrite bool_decide_eq_false_2 by lia. by rewrite bool_decide_eq_true_2 by lia.
  - change (stream ((id, body) :: msgs)) with (frame_bytes id body ++ stream msgs) in Hc, Hlen.
    destruct Hm as [Hid Hbl]. cbn [fst snd] in Hid, Hbl.
    rewrite !zlen_app, zlen_frame_bytes in Hlen. pose proof (zlen_nonneg (stream msgs)).
    pose proof (zlen_nonneg rest). pose proof (zlen_nonneg body).
    unfold MESSAGE_LENGTH_LIMIT in Hbl. unfold MESSAGE_HEAD_LEN in Hbl, Hlen.
    rewrite bool_decide_eq_true_2 by (unfold MESSAGE_HEAD_LEN; lia).
    destruct (read_head _ Hwf ltac:(unfold MESSAGE_HEAD_LEN; lia)) as (hb & -> & Hhb).
    cbn [mbind res_mbind]. assert (bytes_head hb = MsgHead id (zlen body)) as ->.
    { rewrite Hhb, Hc. unfold frame_bytes. rewrite <-!app_assoc.
      rewrite bytes_head_bytes by (cbn [msgid msglen]; done || int_solve). done. }
    cbn [mbind res_mbind msgid msglen].
    rewrite bool_decide_eq_false_2 by (unfold MESSAGE_HEAD_LEN; lia).
    rewrite bool_decide_eq_false_2 by (unfold MESSAGE_HEAD_LEN; lia).
    destruct (pop_ok (_ibuf (cw_cli w)) MESSAGE_HEAD_LEN Hwf) as (Hwf1 & Hl1 & Hc1); [done|].
    change (Z.to_nat MESSAGE_HEAD_LEN) with 8%nat in Hc1.
    unfold frame_bytes in Hc. rewrite Hc, <-!app_assoc, drop_head_bytes in Hc1.
    set (b1 := pop MESSAGE_HEAD_LEN _) in *. unfold MESSAGE_HEAD_LEN in Hl1.
    assert (u32 (zlen body) = zlen body) as Hu by int_solve.
    rewrite readable_ok by (done || (rewrite Hu; lia)). rewrite Hu, Hc1.
    replace (Z.to_nat (zlen body)) with (length body) by (unfold zlen; lia). rewrite take_app_length.
    cbn [cli_deliver] in Hdel. apply bind_Ret in Hdel as (a1 & Ha1 & Hdel).
    destruct (call_ok body (_cli_router (cw_cli w)) id (zlen body) (upd_cli (set_in b1) w) a a1 Hcb)
      as (w1 & -> & Hi1 & Hr1 & Hu1); [by apply (clc_in Hcb)|done|].
    cbn [mbind res_mbind]. simpl in Hi1, Hr1. rewrite Hi1.
    destruct (pop_ok b1 (zlen body) Hwf1) as (Hwf2 & Hl2 & Hc2); [done|].
    replace (Z.to_nat (zlen body)) with (length body) in Hc2 by (unfold zlen; lia).
    rewrite Hc1, drop_app_length in Hc2.
    destruct (IH fuel (upd_cli (set_in (pop (zlen body) b1)) w1) a1) as (w' & -> & Hwf' & Hc' & Hr' & Hu');
      [by apply (clc_in Hcb)|simpl; by rewrite Hr1|done|done|simpl in Hfuel; lia|].
    exists w'. simpl in Hr'. split_and!; try done. congruence.
Qed.

Lemma zlen_stream msgs : MESSAGE_HEAD_LEN * zlen msgs <= zlen (stream msgs).
Proof.
  induction msgs as [|[id body] msgs IH]; [done|].
  change (stream ((id, body) :: msgs)) with (frame_bytes id body ++ stream msgs).
  rewrite zlen_app, zlen_frame_bytes, zlen_cons. pose proof (zlen_nonneg body). lia.
Qed.

Lemma client_read_ok chunk eintrs ks w ib ob msgs rest a a' :
  cli_cb_contract -> csim a w -> cli_deliver (_cli_router (cw_cli w)) msgs a = Ret a' ->
  connected (cw_cli w) = true -> cli_repr (cw_cli w) ib ob ->
  0 < zlen chunk -> zlen ib + zlen chunk <= b_capacity (_ibuf (cw_cli w)) ->
  Forall sendable msgs -> incomplete rest -> ib ++ chunk = stream msgs ++ rest ->
  exists w', do_read run_hook run_msg (Some (zlen chunk))
               (replicate eintrs (inr EINTR) ++ inl chunk :: ks) w = Ret (0, w') /\
    buf_wf (_ibuf (cw_cli w')) /\ b_head (_ibuf (cw_cli w')) = 0 /\ contents (_ibuf (cw_cli w')) = rest /\
    csim a' w'.
Proof.
  intros Hcb Ha Hdel Hcon (Hi1 & Hi2 & Hi3 & _) Hpos Hfit Hall Hinc Heq. unfold do_read. rewrite Hcon.
  pose proof (zlen_contents _ Hi1) as Hlen. rewrite Hi3 in Hlen.
  cbn [mbind res_mbind assert]. rewrite (bool_decide_eq_true_2 (_ <= _)) by lia. cbn [mbind res_mbind assert].
  rewrite retry_app by done. cbn [mbind res_mbind]. rewrite bool_decide_eq_false_2 by lia.
  destruct (append_ok _ chunk Hi1 Hi2) as (b & -> & Hwf & Hh & Hl & Hc & _ & Hx); [lia|].
  cbn [mbind res_mbind]. rewrite bool_decide_eq_true_2 by done. cbn [mbind res_mbind assert].
  destruct (client_read_loop msgs rest (S (Z.to_nat (b_capacity b))) (upd_cli (set_in b) w) a a' Hcb)
    as (w1 & -> & Hwf1 & Hc1 & Hr1 & Hu1); [by apply (clc_in Hcb)|done|done|done|done|simpl; by rewrite Hx, Hi3|..].
  { pose proof (zlen_stream msgs) as Hs. apply (f_equal zlen) in Heq. rewrite !zlen_app in Heq.
    pose proof (zlen_nonneg rest). unfold MESSAGE_HEAD_LEN, zlen in *. lia. }
  cbn [mbind res_mbind].
  destruct (adjust_ok _ Hwf1) as (b2 & -> & Hwf2 & Hh2 & _ & _ & _ & Hc2). cbn [mbind res_mbind].
  eexists. split; [done|]. simpl in *. rewrite Hc2. split_and!; try done. by apply (clc_in Hcb).
Qed.

(** Receiving: when the pending bytes and the chunk read now are the frames of
    [msgs] and the beginning [rest] of the next frame, the application gets
    exactly [msgs], in order, a message with an empty body included, and [rest]
    stays pending. *)
Theorem client_do_read_delivers chunk eintrs ks w ib ob msgs rest a a' :
  cli_cb_contract -> csim a w -> cli_deliver (_cli_router (cw_cli w)) msgs a = Ret a' ->
  connected (cw_cli w) = true -> cli_repr (cw_cli w) ib ob ->
  0 < zlen chunk -> zlen ib + zlen chunk <= b_capacity (_ibuf (cw_cli w)) ->
  Forall sendable msgs -> incomplete rest -> ib ++ chunk = stream msgs ++ rest ->
  exists w', do_read run_hook run_msg (Some (zlen chunk))
               (replicate eintrs (inr EINTR) ++ inl chunk :: ks) w = Ret (0, w') /\
    buf_wf (_ibuf (cw_cli w')) /\ b_head (_ibuf (cw_cli w')) = 0 /\ contents (_ibuf (cw_cli w')) = rest /\
    csim a' w'.
Proof. apply client_read_ok. Qed.

(** A frame whose length field is minus the header length is never left: each
    round takes the header off and puts it back. *)
Lemma client_read_stuck fuel w id rest :
  (forall cb data len id ud w', run_msg cb data len id ud w' = Ret w') ->
  is_s32 id -> buf_wf (_ibuf (cw_cli w)) ->
  contents (_ibuf (cw_cli w)) = head_bytes (MsgHead id (-8)) ++ rest ->
  read_loop run_msg fuel w = Stop NoReturn.
Proof.
  intros Hcb Hid. revert w. induction fuel as [|fuel IH]; intros w Hwf Hc; cbn [read_loop];
    pose proof (zlen_contents _ Hwf) as Hlen; rewrite Hc, zlen_app, zlen_head_bytes in Hlen;
    pose proof (zlen_nonneg rest); rewrite bool_decide_eq_true_2 by lia; [done|].
  destruct (read_head _ Hwf ltac:(lia)) as (hb & -> & Hhb). cbn [mbind res_mbind].
  rewrite Hhb, Hc, bytes_head_bytes by (cbn [msgid msglen]; done || int_solve). cbn [msgid msglen].
  unfold MESSAGE_HEAD_LEN in *. rewrite !bool_decide_eq_false_2 by lia.
  assert (forall d, call run_msg (_cli_router (cw_cli w)) id (-8) d
    (upd_cli (set_in (pop 8 (_ibuf (cw_cli w)))) w) = Ret (upd_cli (set_in (pop 8 (_ibuf (cw_cli w)))) w)) as Hcall.
  { intros d. unfold call. destruct (route _ _) as [[cb ud]|]; [apply Hcb|done]. }
  rewrite Hcall. cbn [mbind res_mbind cw_cli upd_cli set_in _ibuf].
  set (b := _ibuf (cw_cli w)) in *.
  assert (pop (-8) (pop 8 b) = b) as Hpop.
  { unfold pop. rewrite (bool_decide_eq_false_2 (8 > _)) by lia. simpl.
    rewrite bool_decide_eq_false_2 by lia. destruct b; unfold set_window; simpl in *. f_equal; lia. }
  rewrite Hpop. by apply IH.
Qed.

(** A peer can make the client spin for ever: [do_read] has no check of the
    length field, and on a chunk that begins with the length -8 it does not
    return, however long it runs. *)
Theorem client_do_read_hangs id rest ks w :
  (forall cb data len id ud w', run_msg cb data len id ud w' = Ret w') ->
  is_s32 id -> connected (cw_cli w) = true -> cli_repr (cw_cli w) [] [] ->
  let chunk := head_bytes (MsgHead id (-8)) ++ rest in
  zlen chunk <= b_capacity (_ibuf (cw_cli w)) ->
  do_read run_hook run_msg (Some (zlen chunk)) (inl chunk :: ks) w = Stop NoReturn /\
  forall fuel b, append chunk (_ibuf (cw_cli w)) = Ret b ->
    read_loop run_msg fuel (upd_cli (set_in b) w) = Stop NoReturn.
Proof.
  intros Hcb Hid Hcon (Hi1 & Hi2 & Hi3 & _) chunk Hfit.
  pose proof (zlen_contents _ Hi1) as Hlen. rewrite Hi3 in Hlen. change (zlen (@nil byte)) with 0 in Hlen.
  assert (8 <= zlen chunk) as Hz.
  { unfold chunk. rewrite zlen_app, zlen_head_bytes. pose proof (zlen_nonneg rest). unfold MESSAGE_HEAD_LEN. lia. }
  destruct (append_ok _ chunk Hi1 Hi2) as (b & Hb & Hwf & Hh & Hl & Hc & _ & Hx); [lia|].
  assert (forall fuel, read_loop run_msg fuel (upd_cli (set_in b) w) = Stop NoReturn) as Hstuck.
  { intros fuel. apply (client_read_stuck fuel _ id rest); try done. simpl. by rewrite Hx, Hi3. }
  split; [|intros fuel b' Hb'; rewrite Hb in Hb'; injection Hb' as <-; apply Hstuck].
  unfold do_read. rewrite Hcon. cbn [mbind res_mbind assert].
  rewrite (bool_decide_eq_true_2 (zlen chunk <= _)) by lia. cbn [mbind res_mbind assert retry].
  rewrite bool_decide_eq_false_2 by lia. rewrite Hb. cbn [mbind res_mbind].
  rewrite bool_decide_eq_true_2 by done. cbn [mbind res_mbind assert]. by rewrite Hstuck.
Qed.

(** ** Writing *)

(** Successive calls of [write] that accept the bytes counted by [ns]. *)
Definition written (ns : list Z) : Z := foldr Z.add 0 ns.

Lemma client_write_loop ns tail w ob :
  Forall (fun n => 0 < n) ns -> written ns <= zlen ob ->
  buf_wf (_obuf (cw_cli w)) -> b_head (_obuf (cw_cli w)) = 0 -> contents (_obuf (cw_cli w)) = ob ->
  exists b, buf_wf b /\ b_head b = 0 /\ contents b = drop (Z.to_nat (written ns)) ob /\
    0 <= written ns /\
    write_loop run_hook ((inl <$> ns) ++ tail) w = write_loop run_hook tail (upd_cli (set_out b) w).
Proof.
  intros Hns. revert w ob. induction Hns as [|n ns Hn _ IH]; intros w ob Hsum Hwf Hh Hc.
  - exists (_obuf (cw_cli w)). rewrite drop_0. split_and!; try done. by destruct w as [[]].
  - change (written (n :: ns)) with (n + written ns) in *.
    destruct (pop_ok (_obuf (cw_cli w)) n Hwf) as (Hw1 & _ & Hc1); [lia|].
    destruct (adjust_ok _ Hw1) as (b1 & Hadj & Hw2 & Hh2 & _ & _ & _ & Hc2).
    rewrite Hc1, Hc in Hc2. pose proof (zlen_contents _ Hwf) as Hlen. rewrite Hc in Hlen.
    destruct (decide (0 <= written ns)) as [Hnn|]; cycle 1.
    { destruct (IH (upd_cli (set_out b1) w) (drop (Z.to_nat n) ob)) as (? & _ & _ & _ & ? & _); try done.
      zlen_lia. }
    destruct (IH (upd_cli (set_out b1) w) (drop (Z.to_nat n) ob)) as (b & Hwb & Hhb & Hcb & _ & Hrun); try done.
    { zlen_lia. }
    exists b. rewrite drop_drop in Hcb. split_and!; try done; [|lia|].
    { rewrite Hcb. f_equal. lia. }
    rewrite fmap_cons. cbn [app write_loop]. rewrite bool_decide_eq_true_2 by lia.
    rewrite bool_decide_eq_true_2 by lia. rewrite Hadj. cbn [mbind res_mbind]. by rewrite Hrun.
Qed.

(** Writing: when successive calls of [write] accept [ns] bytes and the next
    one would block, exactly the first [sum ns] bytes of the output are gone, and
    the write event is removed just when nothing is left. *)
Theorem client_do_write ns w ib ob :
  cli_repr (cw_cli w) ib ob -> ob <> [] ->
  Forall (fun n => 0 < n) ns -> written ns <= zlen ob ->
  exists c', cli_repr c' ib (drop (Z.to_nat (written ns)) ob) /\ connected c' = connected (cw_cli w) /\
    do_write run_hook ((inl <$> ns) ++ [inr EAGAIN]) w =
    Ret (0, CWorld c' (if bool_decide (written ns = zlen ob)
                       then del_io_event_mask (_cli_sockfd (cw_cli w)) EPOLLOUT (cw_loop w)
                       else cw_loop w) (cw_user w)).
Proof.
  intros (Hi1 & Hi2 & Hi3 & Ho1 & Ho2 & Ho3) Hne Hns Hsum.
  destruct (client_write_loop ns [inr EAGAIN] w ob) as (b & Hwb & Hhb & Hcb & Hnn & Hrun); try done.
  exists (set_out b (cw_cli w)). split; [by split_and!|]. split; [done|].
  pose proof (zlen_contents _ Ho1) as Hlen. pose proof (zlen_contents _ Hwb) as Hlb.
  assert (zlen ob <> 0) as Hz by (intros Hz; by apply Hne, zlen_nil).
  assert (b_length b = zlen ob - written ns) as Hb by (rewrite <-Hlb, Hcb; zlen_lia).
  unfold do_write. rewrite Ho3 in Hlen. rewrite bool_decide_eq_true_2 by lia. cbn [mbind res_mbind assert].
  rewrite Hrun. cbn [write_loop].
  cbn [cw_cli upd_cli set_out _obuf].
  assert ((if bool_decide (b_length b <> 0) then Ret (upd_cli (set_out b) w) else Ret (upd_cli (set_out b) w))
          = Ret (upd_cli (set_out b) w)) as -> by by case_bool_decide.
  cbn [mbind res_mbind]. simpl. do 2 case_bool_decide; (done || lia).
Qed.

(** After a hard write error [do_write] does not return: the error branch
    cleans the connection up and goes on writing to the closed descriptor, with
    the output unchanged, for as long as [write] keeps failing. *)
Theorem client_write_error_spins n w :
  (forall h w', exists w'', run_hook h w' = Ret w'' /\ _obuf (cw_cli w'') = _obuf (cw_cli w')) ->
  b_length (_obuf (cw_cli w)) <> 0 ->
  write_loop run_hook (replicate n (inr EOTHER)) w = Stop NoReturn.
Proof.
  intros Hh. revert w. induction n as [|n IH]; intros w Hne; cbn [replicate write_loop];
    rewrite bool_decide_eq_true_2 by done; [done|].
  assert (exists w1, clean_conn run_hook w = Ret w1 /\ _obuf (cw_cli w1) = _obuf (cw_cli w)) as (w1 & -> & Ho).
  { unfold clean_conn, run_cli_hook. case_bool_decide; simpl;
      destruct (_conn_close_cb (cw_cli w)) as [h|]; try (by eexists);
      match goal with |- exists _, run_hook h ?x = _ /\ _ => destruct (Hh h x) as (w1 & -> & Hw); by exists w1 end. }
  cbn [mbind res_mbind]. apply IH. by rewrite Ho.
Qed.

(** ** Connecting *)

(** What a start hook may do: send on the client, which queues output. *)
Definition cli_start_contract : Prop :=
  forall h w, connected (cw_cli w) = true -> exists w', run_hook h w = Ret w' /\
    connected (cw_cli w') = true /\ _cli_sockfd (cw_cli w') = _cli_sockfd (cw_cli w) /\
    (loop_inv (cw_loop w) -> loop_inv (cw_loop w')).

Lemma on_connected_ok sock w :
  cli_start_contract -> loop_inv (cw_loop w) -> _cli_sockfd (cw_cli w) = sock ->
  exists w', on_connected run_hook sock w = Ret w' /\
    connected (cw_cli w') = true /\ _cli_sockfd (cw_cli w') = sock /\ loop_inv (cw_loop w') /\
    EventLoop.read_callback (ev_get (cw_loop w') sock) = Some (ClientFn read_callback) /\
    has (mask (ev_get (cw_loop w') sock)) EPOLLIN = true /\
    (b_length (_obuf (cw_cli w')) <> 0 ->
     EventLoop.write_callback (ev_get (cw_loop w') sock) = Some (ClientFn write_callback) /\
     has (mask (ev_get (cw_loop w') sock)) EPOLLOUT = true).
Proof.
  intros Hs Hinv Hfd. unfold on_connected. set (w0 := upd_cli (set_connected true) w).
  assert (exists w1, run_cli_hook run_hook (_conn_start_cb (cw_cli w0)) w0 = Ret w1 /\
    connected (cw_cli w1) = true /\ _cli_sockfd (cw_cli w1) = sock /\ loop_inv (cw_loop w1))
    as (w1 & -> & Hc1 & Hf1 & Hi1).
  { unfold run_cli_hook. destruct (_conn_start_cb (cw_cli w0)) as [h|]; [|by exists w0].
    destruct (Hs h w0) as (w1 & ? & ? & Hf & Hi); [done|]. exists w1. split_and!; try done; [by rewrite Hf|auto]. }
  cbn [mbind res_mbind]. eexists. split; [done|].
  pose proof (add_in_entry sock (ClientFn read_callback) (Some tt) (cw_loop w1)) as [Hr Hm]. cbv zeta in Hr, Hm.
  pose proof (add_out_entry sock (ClientFn write_callback) (Some tt) (cw_loop (watch sock read_callback EPOLLIN w1)))
    as (Hw & Hmo & Hr2 & Hm2). cbv zeta in *.
  case_bool_decide as Hne; simpl in *.
  - split_and!; try done; [by apply loop_inv_add, loop_inv_add; auto|congruence|auto].
  - split_and!; try done. by apply loop_inv_add; auto.
Qed.

(** (C36) Establishing a connection: whether [connect] succeeds at once or is in
    progress and the socket later turns writable without error, the client ends
    connected, with its read callback registered, and with the write callback
    registered when output is queued. *)
Theorem connect_establishes delayed sock w :
  cli_start_contract -> sock <> -1 -> loop_inv (cw_loop w) ->
  exists w',
    (if (delayed : bool)
     then w1 ← do_connect run_hook sock (inr EINPROGRESS) w; run_connection_delay run_hook sock 0 w1
     else do_connect run_hook sock (inl tt) w) = Ret w' /\
    connected (cw_cli w') = true /\ _cli_sockfd (cw_cli w') = sock /\ loop_inv (cw_loop w') /\
    EventLoop.read_callback (ev_get (cw_loop w') sock) = Some (ClientFn read_callback) /\
    has (mask (ev_get (cw_loop w') sock)) EPOLLIN = true /\
    (b_length (_obuf (cw_cli w')) <> 0 ->
     EventLoop.write_callback (ev_get (cw_loop w') sock) = Some (ClientFn write_callback) /\
     has (mask (ev_get (cw_loop w') sock)) EPOLLOUT = true).
Proof.
  intros Hs Hsock Hinv. unfold do_connect. rewrite bool_decide_eq_false_2 by done. destruct delayed.
  - cbn [mbind res_mbind]. unfold run_connection_delay. rewrite bool_decide_eq_true_2 by done.
    apply on_connected_ok; [done| |done]. apply loop_inv_del, loop_inv_add; auto.
  - by apply on_connected_ok.
Qed.
End Spec.

(** ** Invariants of a client thread

    A predicate on the state of the thread that the operations of the client keep, and
    the message callbacks too; the client has no close hook. *)
Section Invariant.
Context {K : Type} `{!Epoll K} {HK MK A X TF U : Type}.
Context (run_hook : HK -> cworld K HK MK A X TF U -> res (cworld K HK MK A X TF U)).
Context (run_msg : MK -> list byte -> Z -> Z -> option A -> cworld K HK MK A X TF U ->
                   res (cworld K HK MK A X TF U)).
Implicit Types w : cworld K HK MK A X TF U.

Record cli_inv (P : cworld K HK MK A X TF U -> Prop) : Prop := {
  ci_conn w b : P w -> P (upd_cli (set_connected b) w);
  ci_in w b : P w -> P (upd_cli (set_in b) w);
  ci_out w b : P w -> buf_wf b -> b_head b = 0 -> P (upd_cli (set_out b) w);
  ci_outbuf w : P w -> buf_wf (_obuf (cw_cli w)) /\ b_head (_obuf (cw_cli w)) = 0;
  ci_watch w cb m : P w -> m = EPOLLIN \/ m = EPOLLOUT -> P (watch (_cli_sockfd (cw_cli w)) cb m w);
  ci_del w : P w -> P (upd_loop (del_io_event (_cli_sockfd (cw_cli w))) w);
  ci_mask w m : P w -> P (upd_loop (del_io_event_mask (_cli_sockfd (cw_cli w)) m) w);
  ci_close w : P w -> _conn_close_cb (cw_cli w) = None;
  ci_msg cb data len id ud w w' : P w -> run_msg cb data len id ud w = Ret w' -> P w'
}.

Context (P : cworld K HK MK A X TF U -> Prop) (HP : cli_inv P).

Lemma clean_conn_inv w w' : P w -> clean_conn run_hook w = Ret w' -> P w'.
Proof.
  intros H0. unfold clean_conn, run_cli_hook. cbv zeta.
  set (w1 := if bool_decide _ then _ else _). assert (P w1) as H1.
  { unfold w1. case_bool_decide; [by apply (ci_del _ HP)|done]. }
  pose proof (ci_conn _ HP w1 false H1) as H2. rewrite (ci_close _ HP _ H2). by intros [= <-].
Qed.

(** [send_message] returns, and keeps the user state. *)
Lemma send_message_inv data id w :
  P w -> exists r w', send_message data id w = Ret (r, w') /\ P w' /\ cw_user w' = cw_user w.
Proof.
  intros H0. unfold send_message. cbv zeta. destruct (connected (cw_cli w)); cbn [negb]; [|by eexists _, w].
  case_bool_decide as Hfit; [by eexists _, w|]. destruct (ci_outbuf _ HP w H0) as [Hwf Hh].
  pose proof (zlen_nonneg data). set (h := head_bytes _).
  assert (zlen h = MESSAGE_HEAD_LEN) as Hz by apply zlen_head_bytes.
  destruct (append_ok _ h Hwf Hh) as (b1 & -> & Hwf1 & Hh1 & Hl1 & Hc1 & _); [lia|]. cbn [mbind res_mbind].
  destruct (append_ok b1 data Hwf1 Hh1) as (b2 & -> & Hwf2 & Hh2 & _); [lia|]. cbn [mbind res_mbind].
  assert (P (upd_cli (set_out b2) w)) as H1 by (by apply (ci_out _ HP)).
  eexists _, _. split; [done|]. case_bool_decide; [|done]. split; [|done].
  apply (ci_watch _ HP (upd_cli (set_out b2) w)); [done|by right].
Qed.

Lemma read_loop_inv fuel w w' : P w -> read_loop run_msg fuel w = Ret w' -> P w'.
Proof.
  revert w. induction fuel as [|fuel IH]; intros w H0; cbn [read_loop]; cbv zeta;
    (case_bool_decide; [|by intros [= <-]]); [done|].
  intros (hb & _ & Hrun)%bind_Ret. case_bool_decide; [done|]. case_bool_decide; [by injection Hrun as <-|].
  apply bind_Ret in Hrun as (w1 & Hcall & Hrun). eapply IH; [|exact Hrun]. apply (ci_in _ HP).
  unfold call in Hcall. destruct (route _ _) as [[cb ud]|].
  - eapply (ci_msg _ HP); [|exact Hcall]. by apply (ci_in _ HP).
  - injection Hcall as <-. by apply (ci_in _ HP).
Qed.

Lemma do_read_inv avail ks w r w' : P w -> do_read run_hook run_msg avail ks w = Ret (r, w') -> P w'.
Proof.
  intros H0. unfold do_read. cbv zeta. intros (_ & _ & Hrun)%bind_Ret.
  destruct avail as [n|]; [|by injection Hrun as _ <-].
  apply bind_Ret in Hrun as (_ & _ & Hrun). apply bind_Ret in Hrun as (x & _ & Hrun).
  destruct x as [bs|e].
  - case_bool_decide; res_inv; subst; [by eapply clean_conn_inv|].
    apply (ci_in _ HP).
    eapply read_loop_inv; [|eassumption]. by apply (ci_in _ HP).
  - res_inv. subst. by eapply clean_conn_inv.
Qed.

Lemma write_loop_inv ks w w' : P w -> write_loop run_hook ks w = Ret w' -> P w'.
Proof.
  revert w. induction ks as [|k ks IH]; intros w H0; cbn [write_loop]; cbv zeta;
    (case_bool_decide; [|by intros [= <-]]); [done|].
  destruct k as [n|e].
  - case_bool_decide; [|by intros [= <-]]. intros (b & Hb & Hrun)%bind_Ret. eapply IH; [|exact Hrun].
    destruct (ci_outbuf _ HP w H0) as [Hwf _].
    destruct (pop_ok (_obuf (cw_cli w)) n Hwf) as (Hw1 & _); [lia|].
    destruct (adjust_ok _ Hw1) as (b' & Hb' & Hwf' & Hh' & _). rewrite Hb in Hb'. injection Hb' as <-.
    by apply (ci_out _ HP).
  - assert ((w ← clean_conn run_hook w; write_loop run_hook ks w) = Ret w' -> P w') as Hclean.
    { intros (w2 & Hc & Hrun)%bind_Ret. eapply IH; [|exact Hrun]. by eapply clean_conn_inv. }
    destruct e; try exact Hclean; [by apply IH|by intros [= <-]].
Qed.

Lemma do_write_inv ks w r w' : P w -> do_write run_hook ks w = Ret (r, w') -> P w'.
Proof.
  intros H0. unfold do_write. cbv zeta. intros (_ & _ & Hrun)%bind_Ret.
  apply bind_Ret in Hrun as (w1 & Hw1 & Hrun). injection Hrun as _ <-.
  apply write_loop_inv in Hw1; [|done]. case_bool_decide; [by apply (ci_mask _ HP)|done].
Qed.

(** A connection that comes up; the start hook, if any, has to keep the predicate and
    the descriptor. *)
Lemma on_connected_inv w w' :
  P w ->
  (forall h w1 w2, _conn_start_cb (cw_cli w) = Some h -> P w1 -> cw_user w1 = cw_user w -> run_hook h w1 = Ret w2 ->
     P w2 /\ _cli_sockfd (cw_cli w2) = _cli_sockfd (cw_cli w1)) ->
  on_connected run_hook (_cli_sockfd (cw_cli w)) w = Ret w' -> P w'.
Proof.
  intros H0 Hh. unfold on_connected. cbv zeta. intros (w1 & Hw1 & Hrun)%bind_Ret. injection Hrun as <-.
  assert (P w1 /\ _cli_sockfd (cw_cli w1) = _cli_sockfd (cw_cli w)) as [H1 <-].
  { pose proof (ci_conn _ HP w true H0) as H1. unfold run_cli_hook in Hw1. simpl in Hw1.
    destruct (_conn_start_cb (cw_cli w)) as [h|]; [|by injection Hw1 as <-].
    destruct (Hh h (upd_cli (set_connected true) w) w1) as [H2 Hs]; done. }
  assert (P (watch (_cli_sockfd (cw_cli w1)) read_callback EPOLLIN w1)) as H2 by (apply (ci_watch _ HP); [done|by left]).
  case_bool_decide; [|done]. apply (ci_watch _ HP _ write_callback) with (m := EPOLLOUT) in H2; [done|by right].
Qed.
End Invariant.

(** ** A client to try the theorems on: three bytes to write, callbacks that record. *)
Module CliDemo.
Definition cli_world : Type := cworld (gmap Z Z) unit unit unit unit unit (list (Z * list byte)).
Definition cli_hook (_ : unit) (w : cli_world) : res cli_world := Ret w.
Definition cli_step (_ : unit) (data : list byte) (_ id : Z) (_ : option unit) (u : list (Z * list byte)) :=
  Ret (u ++ [(id, data)]).
Definition cli_msg (cb : unit) (data : list byte) (len id : Z) (ud : option unit) (w : cli_world) : res cli_world :=
  Ret (CWorld (cw_cli w) (cw_loop w) (cw_user w ++ [(id, data)])).
Definition cli_sim (u : list (Z * list byte)) (w : cli_world) : Prop := cw_user w = u.
Definition cli : tcp_client unit unit unit :=
  TcpClient true (io_buf_new 64 (replicate 64 x00)) (IoBuf None 64 3 0 ([x61; x62; x63] ++ replicate 61 x00)) None None
            (register_msg_router 1 tt None msg_router_new).2 4.
Definition cli0 : cli_world := CWorld cli event_loop_new [].

Lemma cli_repr0 : cli_repr cli [] [x61; x62; x63].
Proof. unfold cli_repr, buf_wf. vm_compute. naive_solver. Qed.
End CliDemo.

(** A message split over two reads; the start of the next one stays. *)
Lemma client_do_read_delivers_witness :
  let chunk := frame_bytes 1 [x41] ++ [x02] in
  exists w', do_read CliDemo.cli_hook CliDemo.cli_msg (Some (zlen chunk)) [inr EINTR; inl chunk] CliDemo.cli0 = Ret (0, w') /\
    contents (_ibuf (cw_cli w')) = [x02] /\ cw_user w' = [(1, [x41])].
Proof.
  intros chunk.
  destruct (client_do_read_delivers CliDemo.cli_hook CliDemo.cli_msg CliDemo.cli_sim CliDemo.cli_step chunk 1 [] CliDemo.cli0
              [] [x61; x62; x63] [(1, [x41])] [x02] [] [(1, [x41])]) as (w' & Hr & _ & _ & Hc & Hu).
  - split; [intros a w b Ha; exact Ha|]. intros cb data len id ud w a a' Ha E. injection E as <-. eexists.
    split; [reflexivity|]. split; [reflexivity|]. split; [reflexivity|]. unfold CliDemo.cli_sim in *. simpl. by rewrite Ha.
  - reflexivity.
  - reflexivity.
  - reflexivity.
  - apply CliDemo.cli_repr0.
  - reflexivity.
  - vm_compute. congruence.
  - repeat constructor; vm_compute; congruence.
  - left. reflexivity.
  - reflexivity.
  - exists w'. split; [exact Hr|]. split; [exact Hc|exact Hu].
Defined.

Lemma client_do_write_witness :
  exists c', cli_repr c' [] [x63] /\ connected c' = true /\
    do_write CliDemo.cli_hook ((inl <$> [2]) ++ [inr EAGAIN]) CliDemo.cli0 = Ret (0, CWorld c' event_loop_new []).
Proof.
  apply (client_do_write CliDemo.cli_hook [2] CliDemo.cli0 [] [x61; x62; x63]).
  - apply CliDemo.cli_repr0.
  - discriminate.
  - repeat constructor.
  - vm_compute. congruence.
Defined.

Lemma connect_establishes_witness :
  exists w',
    (w1 ← do_connect CliDemo.cli_hook 9 (inr EINPROGRESS) CliDemo.cli0;
     run_connection_delay CliDemo.cli_hook 9 0 w1) = Ret w' /\
    connected (cw_cli w') = true /\ _cli_sockfd (cw_cli w') = 9.
Proof.
  destruct (connect_establishes CliDemo.cli_hook true 9 CliDemo.cli0) as (w' & Hr & Hc & Hs & _).
  - intros h w Hc. exists w. auto.
  - discriminate.
  - apply loop_inv_new.
  - exists w'. split; [exact Hr|]. split; [exact Hc|exact Hs].
Defined.
