(* ===== verification/Udp.v ===== *)
(** * udp_server and udp_client (lrlb_reactor/include/udp_server.h,
      src/udp_server.cpp, include/udp_client.h, src/udp_client.cpp)

    Both classes read datagrams into a fixed buffer, check the header against the
    datagram's length and route the message; they differ in the peer, which the
    server notes from every datagram and the client fixes when it connects.  The
    application's message callbacks are an argument of the model. *)

From S2P Require Import Prelude.
From S2P Require Import Message.
From S2P Require Import EventLoop.

(** The size of [_read_buf] and [_write_buf]. *)
Definition UDP_BUF : Z := MESSAGE_LENGTH_LIMIT.

Section Udp.
(** Addresses of peers. *)
Context {K : Type} `{!Epoll K} {MK A TF AD U : Type}.

(** The members of [udp_server] and [udp_client]; [_client_addr] is the server's,
    [None] in a client. *)
Record udp := Udp {
  _udp_sockfd : Z;
  _read_buf : list byte;
  _write_buf : list byte;
  _client_addr : option AD;
  _udp_router : msg_router MK A
}.

(** The object, its loop, the datagrams handed to [sendto] and the application. *)
Record uworld := UWorld {
  uw_udp : udp;
  uw_loop : event_loop K unit unit TF;
  uw_sent : list (option AD * list byte);
  uw_user : U
}.

Definition upd_udp (f : udp -> udp) (w : uworld) : uworld :=
  UWorld (f (uw_udp w)) (uw_loop w) (uw_sent w) (uw_user w).
Definition set_read_buf (d : list byte) (u : udp) : udp :=
  Udp (_udp_sockfd u) d (_write_buf u) (_client_addr u) (_udp_router u).
Definition set_write_buf (d : list byte) (u : udp) : udp :=
  Udp (_udp_sockfd u) (_read_buf u) d (_client_addr u) (_udp_router u).
Definition set_client_addr (a : AD) (u : udp) : udp :=
  Udp (_udp_sockfd u) (_read_buf u) (_write_buf u) (Some a) (_udp_router u).

(** [udp_server::udp_server]; [sig] tells whether both calls of [signal] succeed,
    [zero] is the address [bzero] leaves, [raw] the uninitialised buffers. *)
Definition udp_server_new (sig : bool) (sock : Z) (zero : AD) (raw : list byte * list byte)
    (l : event_loop K unit unit TF) (u : U) : res uworld :=
  if negb sig then Stop (Exit 1)
  else if bool_decide (sock = -1) then Stop (Exit 1)
  else Ret (UWorld (Udp sock raw.1 raw.2 (Some zero) msg_router_new)
                   (add_io_event sock (Some tt) EPOLLIN (Some tt) l) [] u).

(** [udp_client::udp_client]; [conn] is what [connect] returns. *)
Definition udp_client_new (sock conn : Z) (raw : list byte * list byte)
    (l : event_loop K unit unit TF) (u : U) : res uworld :=
  if bool_decide (sock = -1) then Stop (Exit 1)
  else if bool_decide (conn = -1) then Stop (Exit 1)
  else Ret (UWorld (Udp sock raw.1 raw.2 None msg_router_new)
                   (add_io_event sock (Some tt) EPOLLIN (Some tt) l) [] u).

(** [add_msg_router] of both classes. *)
Definition add_msg_router (id : Z) (cb : MK) (ud : option A) (w : uworld) : uworld :=
  upd_udp (fun u => Udp (_udp_sockfd u) (_read_buf u) (_write_buf u) (_client_addr u)
                        (register_msg_router id cb ud (_udp_router u)).2) w.

(** [~udp_server] and [~udp_client]. *)
Definition udp_close (w : uworld) : uworld :=
  UWorld (uw_udp w) (del_io_event (_udp_sockfd (uw_udp w)) (uw_loop w)) (uw_sent w) (uw_user w).

(** [send_message(data, msglen, msgid)] of both classes, [msglen] the length of
    [data]; [r] is what [sendto] returns. *)
Definition send_message (r : Z + errno) (data : list byte) (id : Z) (w : uworld) : res (Z * uworld) :=
  if bool_decide (zlen data > MESSAGE_LENGTH_LIMIT) then Ret (-1, w)
  else
    b ← mem_write (_write_buf (uw_udp w)) 0 (head_bytes (MsgHead id (zlen data)));
    b ← mem_write b MESSAGE_HEAD_LEN data;
    let w := upd_udp (set_write_buf b) w in
    pkt ← mem_read b 0 (zlen data + MESSAGE_HEAD_LEN);
    match r with
    | inr _ => Ret (-1, w)
    | inl ret =>
        Ret (ret, UWorld (uw_udp w) (uw_loop w) (uw_sent w ++ [(_client_addr (uw_udp w), pkt)]) (uw_user w))
    end.

Section Read.
Context (run_msg : MK -> list byte -> Z -> Z -> option A -> uworld -> res uworld).

(** [recvfrom] into [_read_buf]: a datagram longer than the buffer is cut. *)
Definition recv_into (pkt : list byte) (w : uworld) : res (Z * uworld) :=
  let got := take (Z.to_nat UDP_BUF) pkt in
  b ← mem_write (_read_buf (uw_udp w)) 0 got;
  Ret (zlen got, upd_udp (set_read_buf b) w).

(** The body of the loop behind [recvfrom], shared by the two classes. *)
Definition handle_packet (pkg_len : Z) (w : uworld) : res uworld :=
  hb ← mem_read (_read_buf (uw_udp w)) 0 MESSAGE_HEAD_LEN;
  let head := bytes_head hb in
  if bool_decide (msglen head > MESSAGE_LENGTH_LIMIT \/ msglen head < 0 \/
                  msglen head + MESSAGE_HEAD_LEN <> pkg_len) then Ret w
  else
    body ← mem_read (_read_buf (uw_udp w)) MESSAGE_HEAD_LEN (msglen head);
    call run_msg (_udp_router (uw_udp w)) (msgid head) (msglen head) body w.

(** [udp_server::do_read], on the results of [recvfrom]. *)
Fixpoint server_do_read (ks : list ((AD * list byte) + errno)) (w : uworld) : res uworld :=
  match ks with
  | [] => Stop NoReturn
  | inr EINTR :: ks => server_do_read ks w
  | inr _ :: _ => Ret w
  | inl (from, pkt) :: ks =>
      '(pkg_len, w) ← recv_into pkt w;
      w ← handle_packet pkg_len (upd_udp (set_client_addr from) w);
      server_do_read ks w
  end.

(** [udp_client::do_read]. *)
Fixpoint client_do_read (ks : list (list byte + errno)) (w : uworld) : res uworld :=
  match ks with
  | [] => Stop NoReturn
  | inr EINTR :: ks => client_do_read ks w
  | inr _ :: _ => Ret w
  | inl pkt :: ks =>
      '(pkt_len, w) ← recv_into pkt w;
      w ← handle_packet pkt_len w;
      client_do_read ks w
  end.
End Read.
End Udp.

Arguments udp : clear implicits.
Arguments uworld : clear implicits.

(** ** What is delivered *)

(** The message in a datagram, if its header agrees with its length. *)
Definition parse (pkt : list byte) : option (Z * list byte) :=
  let got := take (Z.to_nat UDP_BUF) pkt in
  let h := bytes_head got in
  if bool_decide (MESSAGE_HEAD_LEN <= zlen got /\ msglen h = zlen got - MESSAGE_HEAD_LEN)
  then Some (msgid h, drop 8 got) else None.

Lemma bytes_head_prefix (got old : list byte) :
  (8 <= length got)%nat -> bytes_head (take 8 (got ++ old)) = bytes_head got.
Proof.
  intros H. unfold bytes_head. rewrite take_app_le by lia. f_equal; f_equal.
  - by rewrite take_take.
  - by rewrite skipn_firstn_comm, take_take.
Qed.

(** [parse] inverts framing. *)
Lemma parse_frame id body :
  is_s32 id -> zlen body <= UDP_BUF - MESSAGE_HEAD_LEN -> parse (frame_bytes id body) = Some (id, body).
Proof.
  intros Hid Hb. unfold parse. pose proof (zlen_frame_bytes id body) as Hz. pose proof (zlen_nonneg body).
  unfold UDP_BUF, MESSAGE_LENGTH_LIMIT, MESSAGE_HEAD_LEN in *.
  rewrite take_ge by (unfold zlen in *; lia).
  assert (bytes_head (frame_bytes id body) = MsgHead id (zlen body)) as ->.
  { unfold frame_bytes. apply bytes_head_bytes; cbn [msgid msglen]; [done|int_solve]. }
  cbn [msgid msglen]. rewrite bool_decide_eq_true_2 by lia. unfold frame_bytes. by rewrite drop_head_bytes.
Qed.

Section Spec.
Context {K : Type} `{!Epoll K} {MK A TF AD U : Type}.
Context (run_msg : MK -> list byte -> Z -> Z -> option A -> uworld K MK A TF AD U ->
                   res (uworld K MK A TF AD U)).
(** The effect of a callback, which may look at the sender, on the application. *)
Context (ustep : MK -> list byte -> Z -> Z -> option A -> option AD -> U -> U).
Implicit Types (w : uworld K MK A TF AD U).

Definition udp_wf w : Prop :=
  zlen (_read_buf (uw_udp w)) = UDP_BUF /\ zlen (_write_buf (uw_udp w)) = UDP_BUF.

(** A callback may answer; it keeps the read buffer, the peer and the router. *)
Definition udp_contract : Prop :=
  forall cb data len id ud w, udp_wf w -> exists w', run_msg cb data len id ud w = Ret w' /\
    udp_wf w' /\ _client_addr (uw_udp w') = _client_addr (uw_udp w) /\
    _udp_router (uw_udp w') = _udp_router (uw_udp w) /\
    uw_user w' = ustep cb data len id ud (_client_addr (uw_udp w)) (uw_user w).

(** The application after one datagram from [from]. *)
Definition react (r : msg_router MK A) (u : U) (from : option AD) (pkt : list byte) : U :=
  match parse pkt with
  | None => u
  | Some (id, body) =>
      match route r id with
      | None => u
      | Some (cb, ud) => ustep cb body (u32 (zlen body)) id ud from u
      end
  end.

Lemma zlen_got (pkt : list byte) : 0 <= zlen (take (Z.to_nat UDP_BUF) pkt) <= UDP_BUF.
Proof. unfold zlen, UDP_BUF, MESSAGE_LENGTH_LIMIT, MESSAGE_HEAD_LEN. rewrite length_take. lia. Qed.

#[local] Opaque Z.to_nat.

(** The buffer after [recvfrom]: the datagram, then what was there before. *)
Lemma recv_into_ok pkt w (got := take (Z.to_nat UDP_BUF) pkt) :
  udp_wf w -> exists old, zlen got + zlen old = UDP_BUF /\
    recv_into pkt w = Ret (zlen got, upd_udp (set_read_buf (got ++ old)) w).
Proof.
  intros [Hr _]. unfold recv_into. fold got. pose proof (zlen_got pkt) as Hg. fold got in Hg.
  rewrite mem_write_ok by lia. cbn [mbind res_mbind]. change (Z.to_nat 0) with 0%nat. rewrite take_0.
  eexists. split; [|done]. unfold zlen in *. rewrite length_drop. lia.
Qed.

(** A datagram is handed to the callback of its message, whatever an earlier one left in
    the rest of the buffer. *)
Lemma handle_packet_call pkt old w (got := take (Z.to_nat UDP_BUF) pkt) :
  udp_wf w -> _read_buf (uw_udp w) = got ++ old ->
  handle_packet run_msg (zlen got) w =
  match parse pkt with
  | None => Ret w
  | Some (id, body) => call run_msg (_udp_router (uw_udp w)) id (zlen body) body w
  end.
Proof.
  intros Hwf Hbuf. pose proof Hwf as [Hr _]. unfold handle_packet, parse. fold got. rewrite Hbuf in *.
  pose proof (zlen_got pkt) as Hg. fold got in Hg. rewrite zlen_app in Hr.
  rewrite mem_read_ok by (rewrite ?zlen_app, ?Hr; done). cbn [mbind res_mbind].
  change (Z.to_nat 0) with 0%nat. change (Z.to_nat MESSAGE_HEAD_LEN) with 8%nat. rewrite drop_0.
  destruct (decide (MESSAGE_HEAD_LEN <= zlen got)) as [Hlen|Hlen]; cycle 1.
  { rewrite (bool_decide_eq_false_2 (_ /\ _)) by lia.
    rewrite bool_decide_eq_true_2; [done|]. unfold MESSAGE_HEAD_LEN in *. lia. }
  rewrite bytes_head_prefix by (unfold zlen, MESSAGE_HEAD_LEN in Hlen; lia).
  set (h := bytes_head got). unfold UDP_BUF, MESSAGE_LENGTH_LIMIT, MESSAGE_HEAD_LEN in *.
  case_bool_decide as Hbad; [by rewrite bool_decide_eq_false_2 by lia|].
  rewrite bool_decide_eq_true_2 by lia.
  rewrite mem_read_ok by (rewrite ?zlen_app; lia). cbn [mbind res_mbind].
  change (Z.to_nat 8) with 8%nat. rewrite drop_app_le by (unfold zlen in *; lia).
  assert (take (Z.to_nat (msglen h)) (drop 8 got ++ old) = drop 8 got) as ->.
  { replace (Z.to_nat (msglen h)) with (length (drop 8 got)) by (rewrite length_drop; unfold zlen in *; lia).
    apply take_app_length. }
  by assert (zlen (drop 8 got) = msglen h) as -> by zlen_lia.
Qed.

(** One datagram of the loop: the callback runs with the sender noted, on a socket that is
    otherwise as before. *)
Lemma server_read_cons from pkt ks w id body :
  udp_wf w -> parse pkt = Some (id, body) ->
  exists buf, zlen buf = UDP_BUF /\
    let w1 := upd_udp (set_client_addr from) (upd_udp (set_read_buf buf) w) in
    server_do_read run_msg (inl (from, pkt) :: ks) w =
    (w ← call run_msg (_udp_router (uw_udp w)) id (zlen body) body w1; server_do_read run_msg ks w).
Proof.
  intros Hwf Hp. destruct (recv_into_ok pkt w Hwf) as (old & Hold & Hr).
  eexists (_ ++ old). split; [by rewrite zlen_app|]. cbv zeta. cbn [server_do_read]. rewrite Hr. cbn [mbind res_mbind].
  rewrite (handle_packet_call pkt old); [|destruct Hwf; unfold udp_wf; simpl; rewrite zlen_app; auto|done].
  by rewrite Hp.
Qed.

(** A malformed datagram is skipped. *)
Lemma server_read_bad from pkt ks w :
  udp_wf w -> parse pkt = None ->
  exists buf, zlen buf = UDP_BUF /\
    server_do_read run_msg (inl (from, pkt) :: ks) w =
    server_do_read run_msg ks (upd_udp (set_client_addr from) (upd_udp (set_read_buf buf) w)).
Proof.
  intros Hwf Hp. destruct (recv_into_ok pkt w Hwf) as (old & Hold & Hr).
  eexists (_ ++ old). split; [by rewrite zlen_app|]. cbn [server_do_read]. rewrite Hr. cbn [mbind res_mbind].
  rewrite (handle_packet_call pkt old); [|destruct Hwf; unfold udp_wf; simpl; rewrite zlen_app; auto|done].
  by rewrite Hp.
Qed.

(** Handling a datagram does what [react] says. *)
Lemma handle_packet_ok pkt old w (got := take (Z.to_nat UDP_BUF) pkt) :
  udp_contract -> udp_wf w -> _read_buf (uw_udp w) = got ++ old ->
  exists w', handle_packet run_msg (zlen got) w = Ret w' /\ udp_wf w' /\
    _client_addr (uw_udp w') = _client_addr (uw_udp w) /\
    _udp_router (uw_udp w') = _udp_router (uw_udp w) /\
    uw_user w' = react (_udp_router (uw_udp w)) (uw_user w) (_client_addr (uw_udp w)) pkt.
Proof.
  intros Hcb Hwf Hbuf. unfold got. rewrite (handle_packet_call pkt old w Hwf Hbuf). unfold react, call.
  destruct (parse pkt) as [[id body]|]; [|by exists w].
  destruct (route _ id) as [[cb ud]|]; [by apply Hcb|by exists w].
Qed.

(** (C37) A UDP server delivers exactly the datagrams whose header agrees with their
    length, each once and in order of arrival, a callback seeing the sender of
    the datagram it is called for; malformed ones are skipped. *)
Theorem server_do_read_ok pkts e ks w :
  udp_contract -> udp_wf w -> e <> EINTR ->
  exists w', server_do_read run_msg ((inl <$> pkts) ++ inr e :: ks) w = Ret w' /\ udp_wf w' /\
    _client_addr (uw_udp w') = (if last pkts is Some p then Some p.1 else _client_addr (uw_udp w)) /\
    uw_user w' = foldl (fun u p => react (_udp_router (uw_udp w)) u (Some p.1) p.2) (uw_user w) pkts.
Proof.
  intros Hcb Hwf He. revert w Hwf. induction pkts as [|[from pkt] pkts IH]; intros w Hwf.
  { exists w. simpl. by destruct e. }
  rewrite fmap_cons. cbn [app server_do_read].
  destruct (recv_into_ok pkt w Hwf) as (old & Hold & ->). cbn [mbind res_mbind].
  set (w1 := upd_udp (set_client_addr from) _).
  assert (udp_wf w1) as Hwf1 by (destruct Hwf; unfold udp_wf; simpl; rewrite zlen_app; auto).
  destruct (handle_packet_ok pkt old w1 Hcb Hwf1 eq_refl) as (w2 & -> & Hwf2 & Ha2 & Hr2 & Hu2).
  cbn [mbind res_mbind]. destruct (IH w2 Hwf2) as (w' & -> & Hwf' & Ha' & Hu').
  exists w'. split; [done|]. split; [done|]. split.
  - rewrite Ha', Ha2. destruct pkts as [|p pkts]; [done|]. rewrite last_cons_cons.
    destruct (last (p :: pkts)) eqn:El; [done|]. by apply last_None in El.
  - rewrite Hu', Hr2, Hu2. done.
Qed.

(** The two classes differ only in the noted sender. *)
Lemma client_do_read_ok pkts e ks w :
  udp_contract -> udp_wf w -> e <> EINTR ->
  exists w', client_do_read run_msg ((inl <$> pkts) ++ inr e :: ks) w = Ret w' /\ udp_wf w' /\
    uw_user w' = foldl (fun u p => react (_udp_router (uw_udp w)) u (_client_addr (uw_udp w)) p) (uw_user w) pkts.
Proof.
  intros Hcb Hwf He. revert w Hwf. induction pkts as [|pkt pkts IH]; intros w Hwf.
  { exists w. simpl. by destruct e. }
  rewrite fmap_cons. cbn [app client_do_read].
  destruct (recv_into_ok pkt w Hwf) as (old & Hold & ->). cbn [mbind res_mbind].
  set (w1 := upd_udp _ _).
  assert (udp_wf w1) as Hwf1 by (destruct Hwf; unfold udp_wf; simpl; rewrite zlen_app; auto).
  destruct (handle_packet_ok pkt old w1 Hcb Hwf1 eq_refl) as (w2 & -> & Hwf2 & Ha2 & Hr2 & Hu2).
  cbn [mbind res_mbind]. destruct (IH w2 Hwf2) as (w' & -> & Hwf' & Hu').
  exists w'. split; [done|]. split; [done|]. rewrite Hu', Hr2, Ha2, Hu2. done.
Qed.

(** [send_message] in an object whose buffers have their size: a body that passes the length check and
    does not leave room for the header overruns [_write_buf]; otherwise it returns. *)
Lemma udp_send_cases r data id w :
  udp_wf w ->
  (UDP_BUF - MESSAGE_HEAD_LEN < zlen data <= MESSAGE_LENGTH_LIMIT /\ send_message r data id w = Stop OutOfBounds) \/
  (~ UDP_BUF - MESSAGE_HEAD_LEN < zlen data <= MESSAGE_LENGTH_LIMIT /\
   exists n w', send_message r data id w = Ret (n, w') /\ udp_wf w' /\ uw_user w' = uw_user w /\
     _udp_router (uw_udp w') = _udp_router (uw_udp w)).
Proof.
  intros [Hrb Hwb]. unfold send_message. set (h := head_bytes _).
  assert (zlen h = MESSAGE_HEAD_LEN) as Hh by apply zlen_head_bytes. pose proof (zlen_nonneg data).
  unfold UDP_BUF, MESSAGE_LENGTH_LIMIT, MESSAGE_HEAD_LEN in *. case_bool_decide as Hbig.
  { right. split; [lia|]. by exists (-1), w. }
  rewrite (mem_write_ok _ 0 h) by lia. cbn [mbind res_mbind].
  set (b1 := take _ _ ++ h ++ _). assert (zlen b1 = 65535 - 8) as Hb1.
  { subst b1. change (Z.to_nat 0) with 0%nat. rewrite take_0, app_nil_l, zlen_app. unfold zlen in *. rewrite length_drop. lia. }
  destruct (decide (65535 - 8 - 8 < zlen data)) as [Hover|Hfit]; [left|right].
  - split; [lia|]. unfold mem_write. rewrite bool_decide_eq_false_2; [done|]. lia.
  - split; [lia|]. destruct (mem_write b1 8 data) as [b2|] eqn:E2; [|rewrite mem_write_ok in E2 by lia; done].
    apply mem_write_Ret in E2 as (_ & _ & _ & Hb2). cbn [mbind res_mbind]. rewrite mem_read_ok by lia. cbn [mbind res_mbind].
    destruct r; eexists _, _; (split; [done|]); (split; [split; simpl; [done|by rewrite Hb2, Hb1]|done]).
Qed.

(** A datagram round trip: what [send_message] hands to [sendto] is one frame,
    and a receiver that gets it reacts with the message's callback on exactly the
    body that was sent.  A body of more than [UDP_BUF - 8] bytes that passes the
    length check overruns [_write_buf]. *)
Theorem udp_send_roundtrip data id n w (r : msg_router MK A) u from :
  udp_wf w -> is_s32 id ->
  if bool_decide (zlen data <= UDP_BUF - MESSAGE_HEAD_LEN) then
    exists w', send_message (inl n) data id w = Ret (n, w') /\ udp_wf w' /\
      uw_sent w' = uw_sent w ++ [(_client_addr (uw_udp w), frame_bytes id data)] /\
      react r u from (frame_bytes id data) =
        match route r id with
        | None => u
        | Some (cb, ud) => ustep cb data (u32 (zlen data)) id ud from u
        end
  else send_message (inl n) data id w =
       (if bool_decide (zlen data <= MESSAGE_LENGTH_LIMIT) then Stop OutOfBounds else Ret (-1, w)).
Proof.
  intros [Hrb Hwb] Hid. unfold send_message. set (h := head_bytes _).
  assert (zlen h = MESSAGE_HEAD_LEN) as Hh by apply zlen_head_bytes. pose proof (zlen_nonneg data).
  unfold UDP_BUF, MESSAGE_LENGTH_LIMIT, MESSAGE_HEAD_LEN in *.
  case_bool_decide as Hfit; cycle 1.
  { case_bool_decide as Hbig; [by rewrite bool_decide_eq_false_2 by lia|].
    rewrite (bool_decide_eq_true_2 (zlen data <= _)) by lia. rewrite (mem_write_ok _ 0 h) by lia.
    cbn [mbind res_mbind]. unfold mem_write. rewrite bool_decide_eq_false_2; [done|].
    change (Z.to_nat 0) with 0%nat. rewrite take_0, app_nil_l, zlen_app.
    unfold zlen in *. rewrite length_drop. lia. }
  rewrite bool_decide_eq_false_2 by lia.
  destruct (mem_write (_write_buf (uw_udp w)) 0 h) as [b1|] eqn:E1; cycle 1.
  { rewrite mem_write_ok in E1 by lia. done. }
  apply mem_write_Ret in E1 as (_ & _ & Eb1 & Hb1). cbn [mbind res_mbind].
  destruct (mem_write b1 8 data) as [b2|] eqn:E2; cycle 1.
  { rewrite mem_write_ok in E2 by lia. done. }
  apply mem_write_Ret in E2 as (_ & _ & Eb2 & Hb2). cbn [mbind res_mbind].
  rewrite mem_read_ok by lia. cbn [mbind res_mbind].
  eexists. split; [done|]. split; [split; simpl; [done|rewrite Hb2, Hb1; exact Hwb]|]. split; cycle 1.
  { unfold react. by rewrite parse_frame. }
  simpl. f_equal. f_equal. f_equal. change (Z.to_nat 0) with 0%nat in *. rewrite drop_0.
  assert (take 8 b1 = h) as Ht.
  { rewrite Eb1, take_0, app_nil_l. replace 8%nat with (length h) by (unfold zlen in *; lia).
    apply take_app_length. }
  rewrite Eb2. change (Z.to_nat 8) with 8%nat.
  replace (Z.to_nat (zlen data + 8)) with (8 + length data)%nat by (unfold zlen; lia).
  rewrite take_mem_write by (unfold zlen in *; lia). by rewrite Ht.
Qed.
End Spec.

(** ** A socket to try the theorems on: its callback records the bodies. *)
Module UdpDemo.
Definition demo_udp : Type := uworld (gmap Z Z) unit unit unit Z (list (Z * list byte)).
Definition record_body (_ : unit) (data : list byte) (_ id : Z) (_ : option unit) (_ : option Z) (u : list (Z * list byte)) :=
  u ++ [(id, data)].
Definition udp_msg (cb : unit) (data : list byte) (len id : Z) (ud : option unit) (w : demo_udp) : res demo_udp :=
  Ret (UWorld (uw_udp w) (uw_loop w) (uw_sent w) (record_body cb data len id ud None (uw_user w))).
Definition udp0 : demo_udp :=
  UWorld (Udp 3 (replicate (Z.to_nat UDP_BUF) x00) (replicate (Z.to_nat UDP_BUF) x00) None (register_msg_router 1 tt None msg_router_new).2)
         event_loop_new [] [].
Lemma udp0_wf : udp_wf udp0.
Proof. unfold udp_wf, udp0, zlen. cbn [uw_udp _read_buf _write_buf]. rewrite length_replicate. done. Qed.
End UdpDemo.

Lemma server_do_read_ok_witness :
  exists w', server_do_read UdpDemo.udp_msg
      ((inl <$> [(10, frame_bytes 1 [x41]); (11, [x00]); (12, frame_bytes 1 [x42])]) ++ [inr EAGAIN]) UdpDemo.udp0 = Ret w' /\
    _client_addr (uw_udp w') = Some 12 /\ uw_user w' = [(1, [x41]); (1, [x42])].
Proof.
  destruct (server_do_read_ok UdpDemo.udp_msg UdpDemo.record_body
    [(10, frame_bytes 1 [x41]); (11, [x00]); (12, frame_bytes 1 [x42])] EAGAIN [] UdpDemo.udp0)
    as (w' & Hr & _ & Ha & Hu).
  - intros cb data len id ud w Hw. eexists. split; [reflexivity|]. split; [exact Hw|]. auto.
  - apply UdpDemo.udp0_wf.
  - discriminate.
  - exists w'. split; [exact Hr|]. split; [exact Ha|]. rewrite Hu. vm_compute. reflexivity.
Defined.

Lemma udp_send_roundtrip_witness :
  exists w', send_message (inl 9) [x41] 1 UdpDemo.udp0 = Ret (9, w') /\
    uw_sent w' = [(None, frame_bytes 1 [x41])].
Proof.
  destruct (udp_send_roundtrip UdpDemo.record_body [x41] 1 9 UdpDemo.udp0 msg_router_new [] None) as (w' & Hs & _ & Hw & _).
  - apply UdpDemo.udp0_wf.
  - vm_compute. split; congruence.
  - exists w'. split; [exact Hs|exact Hw].
Defined.
