(* ===== verification/ConfigFile.v ===== *)
(** * config_file: the configuration of every process
      (lrlb_reactor/include/config_file.h, src/config_file.cpp)

    A file of [\[section\]] lines and [key = value] lines becomes a map of maps.
    The pointer [m] of [Load] to the map of the current section is modelled by
    the section's name: the maps are never removed.  Number and float texts are
    read the way [operator>>] of a string stream reads them. *)

From Stdlib Require Import Ascii SpecFloat.
From stdpp Require Import strings.
From S2P Require Import Prelude.

Abbreviation str := (list ascii).

Definition text (s : String.string) : str := String.list_ascii_of_string s.

#[global] Instance ascii_countable : Countable ascii :=
  inj_countable' N_of_ascii ascii_of_N ascii_N_embedding.

Definition chr (n : nat) : ascii := ascii_of_nat n.
Definition NL : ascii := chr 10.

(** [isspace] in the C locale. *)
Definition isspace (c : ascii) : bool :=
  let n := N_of_ascii c in bool_decide (n = 32 \/ 9 <= n <= 13)%N.

(** The number of leading space characters, counted by the loops of the two
    trimming functions from either end. *)
Fixpoint leading_space (s : str) : nat :=
  match s with
  | c :: s => if isspace c then S (leading_space s) else O
  | [] => O
  end.

Definition trimLeft (s : str) : str := drop (leading_space s) s.
Definition trimRight (s : str) : str := take (length s - leading_space (rev s)) s.
Definition trim (s : str) : str := trimLeft (trimRight s).

(** [isSection]: whether the line is a section line, and the name in it. *)
Definition isSection (line : str) : bool * str :=
  let section := trim line in
  if bool_decide (length section <= 2)%nat then (false, section)
  else if bool_decide (head section <> Some "["%char \/ last section <> Some "]"%char)
  then (false, section)
  else (true, trim (take (length section - 2) (drop 1 section))).

(** [line.find(c)]. *)
Fixpoint find_char (c : ascii) (s : str) : option nat :=
  match s with
  | [] => None
  | x :: s => if bool_decide (x = c) then Some O else S <$> find_char c s
  end.

(** [class config_file]: [_map]. *)
Abbreviation config_map := (gmap str (gmap str str)).

(** The body of the loop of [Load] for one line; [m] is the current section. *)
Definition load_line (line : str) (st : config_map * option str) : res (config_map * option str) :=
  let '(mp, m) := st in
  let '(sec, section) := isSection line in
  if (sec : bool) then
    Ret (match mp !! section with
         | None => <[section := ∅]> mp
         | Some _ => mp
         end, Some section)
  else
    match find_char "="%char line with
    | None => Ret st
    | Some equ_pos =>
        let key := trim (take equ_pos line) in
        let value := trim (drop (S equ_pos) line) in
        if bool_decide (key = []) then Ret st
        else if bool_decide (head key = Some "#"%char \/ head key = Some ";"%char) then Ret st
        else
          section ← deref m;
          Ret (<[section := <[key := value]> (default ∅ (mp !! section))]> mp, m)
    end.

Fixpoint load_lines (ls : list str) (st : config_map * option str) : res (config_map * option str) :=
  match ls with
  | [] => Ret st
  | line :: ls => st ← load_line line st; load_lines ls st
  end.

(** The lines [getline] returns until [eof()]: the pieces between newlines, the
    one behind the last newline included. *)
Fixpoint lines (s : str) : list str :=
  match s with
  | [] => [[]]
  | c :: s =>
      if bool_decide (c = NL) then [] :: lines s
      else match lines s with
           | l :: ls => (c :: l) :: ls
           | [] => [[c]]
           end
  end.

(** [Load]: [file] is the content of the file, [None] when it cannot be opened. *)
Definition Load (file : option str) (mp : config_map) : res (bool * config_map) :=
  match file with
  | None => Ret (false, mp)
  | Some s => '(mp, _) ← load_lines (lines s) (mp, None); Ret (true, mp)
  end.

(** The static pointer [config]; [setPath] and [instance]. *)
Definition setPath (file : option str) (config : option config_map) : res (bool * option config_map) :=
  _ ← assert (bool_decide (config = None));
  '(b, mp) ← Load file ∅;
  Ret (b, Some mp).
Definition instance (config : option config_map) : res config_map :=
  match config with Some mp => Ret mp | None => Stop AssertFail end.

(** [GetString]. *)
Definition GetString (mp : config_map) (section key default_value : str) : str :=
  match mp !! section with
  | Some m => match m !! key with Some v => v | None => default_value end
  | None => default_value
  end.

(** [strcasecmp(s.c_str(), t) == 0] for a lower-case literal [t]. *)
Definition to_lower (c : ascii) : ascii :=
  let n := N_of_ascii c in if bool_decide (65 <= n <= 90)%N then ascii_of_N (n + 32) else c.
Definition equal_nocase (s t : str) : bool := bool_decide (to_lower <$> s = t).

(** [GetBool]: only the text "true" counts; any other value gives the default. *)
Definition GetBool (mp : config_map) (section key : str) (default_value : bool) : bool :=
  match mp !! section with
  | Some m =>
      match m !! key with
      | Some v => if equal_nocase v (text "true") then true else default_value
      | None => default_value
      end
  | None => default_value
  end.

(** ** Numbers *)
Definition digit (c : ascii) : option Z :=
  let n := Z.of_N (N_of_ascii c) in
  if bool_decide (48 <= n <= 57) then Some (n - 48) else None.

(** The longest prefix of digits as a number, how many there are, and the rest. *)
Fixpoint digits (acc : Z) (s : str) : Z * nat * str :=
  match s with
  | [] => (acc, O, [])
  | c :: s' =>
      match digit c with
      | Some d => let '(v, n, r) := digits (acc * 10 + d) s' in (v, S n, r)
      | None => (acc, O, s)
      end
  end.

(** An optional sign. *)
Definition sign (s : str) : bool * str :=
  match s with
  | c :: s' => if bool_decide (c = "-"%char) then (true, s')
               else if bool_decide (c = "+"%char) then (false, s') else (false, s)
  | [] => (false, [])
  end.

(** [std::istringstream >> long long]: 0 without digits, the nearest bound on
    overflow. *)
Definition stream_ll (s : str) : Z :=
  let '(neg, s) := sign (trimLeft s) in
  let '(v, n, _) := digits 0 s in
  if bool_decide (n = O) then 0
  else
    let v := if (neg : bool) then - v else v in
    Z.max (-9223372036854775808) (Z.min 9223372036854775807 v).

(** [atoi], as glibc has it: [strtol] converted to [int]. *)
Definition atoi (s : str) : Z := s32 (stream_ll s).

(** [parseNumber]: the [long long] converted to [unsigned]. *)
Definition parseNumber (s : str) : Z := u32 (stream_ll s).

(** [GetNumber]. *)
Definition GetNumber (mp : config_map) (section key : str) (default_value : Z) : Z :=
  match mp !! section with
  | Some m => match m !! key with Some v => parseNumber v | None => default_value end
  | None => default_value
  end.

(** ** Floats

    A [float] is a [spec_float] of 24 bits of precision. *)
Definition f32_prec : Z := 24.
Definition f32_emax : Z := 128.
Definition f32 (neg : bool) (num den : positive) : spec_float :=
  let q := SFdiv f32_prec f32_emax (S754_finite false num 0) (S754_finite false den 0) in
  if neg then SFopp q else q.

(** The decimal number [v * 10^e] as a [float], rounded once. *)
Definition decimal (neg : bool) (v e : Z) : spec_float :=
  match v with
  | Z.pos p =>
      if bool_decide (0 <= e) then f32 neg (Z.to_pos (Z.pos p * 10 ^ e)) 1
      else f32 neg p (Z.to_pos (10 ^ (- e)))
  | _ => S754_zero neg
  end.

(** [std::istringstream >> float], then 0 when the extraction failed: sign,
    digits with an optional point, optional exponent. *)
Definition stream_float (s : str) : spec_float :=
  let '(neg, s) := sign (trimLeft s) in
  let '(v, n1, s) := digits 0 s in
  let '(v, n2, s) :=
    match s with
    | c :: s' => if bool_decide (c = "."%char) then digits v s' else (v, O, s)
    | [] => (v, O, [])
    end in
  if bool_decide (n1 + n2 = 0)%nat then S754_zero false
  else
    let r :=
      match s with
      | c :: s' =>
          if bool_decide (c = "e"%char \/ c = "E"%char) then
            let '(eneg, s') := sign s' in
            let '(e, n3, _) := digits 0 s' in
            if bool_decide (n3 = O) then None
            else Some (decimal neg v ((if (eneg : bool) then - e else e) - Z.of_nat n2))
          else Some (decimal neg v (- Z.of_nat n2))
      | [] => Some (decimal neg v (- Z.of_nat n2))
      end in
    match r with
    | Some (S754_infinity _) | None => S754_zero false
    | Some f => f
    end.

(** [GetFloat]; [default_text] is what [ostringstream <<] prints for the default. *)
Definition GetFloat (mp : config_map) (section key default_text : str) : spec_float :=
  stream_float (GetString mp section key default_text).

(** ** Lists of strings *)
Definition is_sep (c : ascii) : bool :=
  bool_decide (c = ","%char \/ c = " "%char \/ c = chr 9).

(** [str.find_first_of(sep, 0)] and [find_first_not_of] on a suffix. *)
Fixpoint find_sep (want : bool) (s : str) : option nat :=
  match s with
  | [] => None
  | c :: s => if Bool.eqb (is_sep c) want then Some O else S <$> find_sep want s
  end.

(** The loop of [GetStringList] on the suffix from [start] on; every round passes
    a separator, so the length is fuel enough. *)
Fixpoint split_seps (fuel : nat) (s : str) : list str :=
  match find_sep true s with
  | None => [s]
  | Some index =>
      let piece := take index s in
      let rest := drop index s in
      match fuel with
      | O => [piece]
      | S fuel =>
          match find_sep false rest with
          | None => [piece]
          | Some n => piece :: split_seps fuel (drop n rest)
          end
      end
  end.

Definition GetStringList (mp : config_map) (section key : str) : list str :=
  let s := GetString mp section key [] in split_seps (length s) s.

(** ** Trimming *)
Lemma leading_space_le s : (leading_space s <= length s)%nat.
Proof. induction s as [|c s IH]; simpl; [lia|]. destruct (isspace c); simpl; lia. Qed.

Lemma leading_space_stop a x b : isspace x = false -> (leading_space (a ++ x :: b) <= length a)%nat.
Proof.
  intros Hx. induction a as [|c a IH]; simpl; [by rewrite Hx|]. destruct (isspace c); lia.
Qed.

(** A text that [trim] leaves as it is. *)
Definition trimmed (s : str) : Prop := trim s = s.

Lemma trimmed_ends s : trimmed s -> leading_space s = 0%nat /\ leading_space (rev s) = 0%nat.
Proof.
  intros H. pose proof (f_equal length H) as Hl. unfold trim, trimLeft, trimRight in Hl.
  rewrite length_drop, length_take in Hl.
  pose proof (leading_space_le s). pose proof (leading_space_le (rev s)) as Hr. rewrite length_rev in Hr.
  assert (length s = 0 \/ leading_space (rev s) = 0)%nat as [E|E] by lia.
  - destruct s; [done|discriminate E].
  - split; [|done]. unfold trimmed, trim, trimRight, trimLeft in H. rewrite E, Nat.sub_0_r, firstn_all in H.
    apply (f_equal length) in H. rewrite length_drop in H. lia.
Qed.

Lemma trimmed_intro s : leading_space s = 0%nat -> leading_space (rev s) = 0%nat -> trimmed s.
Proof.
  intros H1 H2. unfold trimmed, trim, trimRight. rewrite H2, Nat.sub_0_r, firstn_all.
  unfold trimLeft. by rewrite H1.
Qed.

Lemma trim_spaces s : exists a b, s = a ++ trim s ++ b /\ forallb isspace a = true /\ forallb isspace b = true.
Proof.
  assert (forall t, exists a, t = a ++ trimLeft t /\ forallb isspace a = true) as HL.
  { intros t. exists (take (leading_space t) t). split; [unfold trimLeft; by rewrite take_drop|].
    induction t as [|c t IH]; [done|]. simpl. destruct (isspace c) eqn:E; simpl; [by rewrite E|done]. }
  destruct (HL (trimRight s)) as (a & Ha & Hsa). destruct (HL (rev s)) as (b & Hb & Hsb).
  exists a, (rev b). unfold trim. split_and!; [|done|].
  - rewrite app_assoc, <-Ha. unfold trimRight, trimLeft in *. set (n := leading_space (rev s)) in *.
    rewrite <-(take_drop (length s - n) s) at 1. f_equal.
    assert (b = take n (rev s)) as ->.
    { apply (f_equal (take (length b))) in Hb as Hb'. rewrite take_app_length in Hb'.
      apply (f_equal length) in Hb as Hl. rewrite length_app, length_drop, length_rev in Hl.
      pose proof (leading_space_le (rev s)) as Hle. rewrite length_rev in Hle. fold n in Hle.
      replace (length b) with n in Hb' by lia. done. }
    by rewrite firstn_rev, rev_involutive.
  - apply forallb_forall. intros x Hx. rewrite <-in_rev in Hx. rewrite forallb_forall in Hsb. by apply Hsb.
Qed.

(** ** Reading back a written configuration *)

(** What may appear in a file so that it is read back as written. *)
Definition good_section (n : str) : Prop := n <> [] /\ trimmed n /\ (NL ∉ n).
Definition good_value (v : str) : Prop := trimmed v /\ (NL ∉ v).
Definition good_key (k : str) : Prop :=
  trimmed k /\ (NL ∉ k) /\ ("="%char ∉ k) /\
  match k with
  | [] => False
  | c :: _ => c <> "#"%char /\ c <> ";"%char /\ c <> "["%char
  end.

Abbreviation config := (list (str * list (str * str))).

Definition good_config (cfg : config) : Prop :=
  Forall (fun sc => good_section sc.1 /\ Forall (fun kv => good_key kv.1 /\ good_value kv.2) sc.2) cfg.

Definition section_line (n : str) : str := "["%char :: n ++ ["]"%char].
Definition key_line (kv : str * str) : str := kv.1 ++ "="%char :: kv.2.
Definition config_lines (cfg : config) : list str :=
  concat ((fun sc : str * list (str * str) => section_line sc.1 :: (key_line <$> sc.2)) <$> cfg).
Definition print_config (cfg : config) : str := concat ((fun l => l ++ [NL]) <$> config_lines cfg).

(** All settings in the order they are written, and the one that counts: the last. *)
Definition settings (cfg : config) : list ((str * str) * str) :=
  concat ((fun sc : str * list (str * str) =>
             (fun kv : str * str => ((sc.1, kv.1), kv.2)) <$> sc.2) <$> cfg).
Definition setting (cfg : config) (section key : str) : option str :=
  (list_to_map (reverse (settings cfg)) : gmap (str * str) str) !! (section, key).

Lemma lines_cons l t : NL ∉ l -> lines (l ++ NL :: t) = l :: lines t.
Proof.
  induction l as [|c l IH]; intros Hl; simpl; [done|].
  rewrite not_elem_of_cons in Hl. destruct Hl as [Hc Hl].
  rewrite bool_decide_eq_false_2 by done. by rewrite IH.
Qed.

Lemma lines_print ls :
  Forall (fun l => NL ∉ l) ls -> lines (concat ((fun l => l ++ [NL]) <$> ls)) = ls ++ [[]].
Proof.
  induction 1 as [|l ls Hl _ IH]; [done|]. rewrite fmap_cons. cbn [concat]. rewrite <-app_assoc.
  cbn [app]. rewrite lines_cons by done. by rewrite IH.
Qed.

Lemma isSection_section n : good_section n -> isSection (section_line n) = (true, n).
Proof.
  intros (Hne & Htr & _). unfold isSection.
  assert (trim (section_line n) = section_line n) as ->.
  { apply trimmed_intro; [done|]. unfold section_line. simpl. by rewrite rev_app_distr. }
  unfold section_line. simpl length. rewrite length_app. simpl length.
  rewrite bool_decide_eq_false_2 by (destruct n; [done|simpl; lia]).
  rewrite bool_decide_eq_false_2.
  - simpl. replace (length n + 1 - 1)%nat with (length n) by lia. rewrite drop_0, take_app_length. by rewrite Htr.
  - rewrite app_comm_cons, last_snoc. naive_solver.
Qed.

Lemma isSection_key k v : good_key k -> (isSection (k ++ "="%char :: v)).1 = false.
Proof.
  intros (Htr & _ & _ & Hk). destruct k as [|c k]; [done|]. destruct Hk as (_ & _ & Hc).
  apply trimmed_ends in Htr as [Hsp _]. simpl in Hsp. destruct (isspace c) eqn:Ec; [done|].
  unfold isSection. case_bool_decide; [done|]. rewrite bool_decide_eq_true_2; [done|]. left.
  unfold trim, trimLeft, trimRight. set (line := (c :: k) ++ _).
  assert (leading_space (rev line) <= length v)%nat as Hle.
  { unfold line. rewrite rev_app_distr. simpl. rewrite <-app_assoc. simpl.
    rewrite <-(length_rev v). by apply leading_space_stop. }
  assert (length line - leading_space (rev line) = S (length line - leading_space (rev line) - 1))%nat as ->.
  { unfold line in *. rewrite length_app in *. simpl in *. lia. }
  unfold line. simpl. rewrite Ec. simpl. congruence.
Qed.

Lemma drop_app_cons {A} (k : list A) x v : drop (S (length k)) (k ++ x :: v) = v.
Proof. induction k as [|y k IH]; [done|]. simpl in *. exact IH. Qed.

Lemma find_char_key k v : "="%char ∉ k -> find_char "="%char (k ++ "="%char :: v) = Some (length k).
Proof.
  induction k as [|c k IH]; intros Hk; [done|]. apply not_elem_of_cons in Hk as [Hc Hk]. simpl.
  rewrite bool_decide_eq_false_2 by done. by rewrite IH.
Qed.

(** The state of [Load] after a part of the file: [mp] answers as the settings
    [B] read so far. *)
Definition agrees (mp : config_map) (B : list ((str * str) * str)) : Prop :=
  forall s k, (mp !! s ≫= (.!! k)) = (list_to_map (reverse B) : gmap (str * str) str) !! (s, k).

Lemma load_key k v s mp B :
  good_key k -> good_value v -> agrees mp B ->
  exists mp', load_line (key_line (k, v)) (mp, Some s) = Ret (mp', Some s) /\
    agrees mp' (B ++ [((s, k), v)]).
Proof.
  intros Hk [Hv _] HB. unfold load_line, key_line. cbn [fst snd].
  pose proof (isSection_key k v Hk) as Hsec. destruct (isSection _) as [sec name]. simpl in Hsec. subst sec.
  pose proof Hk as (Htr & _ & Heq & Hhd). rewrite find_char_key by done.
  rewrite take_app_length.
  replace (drop (S (length k)) (k ++ "="%char :: v)) with v
    by (symmetry; apply drop_app_cons).
  rewrite Htr, Hv. destruct k as [|c k]; [done|]. destruct Hhd as (H1 & H2 & _).
  rewrite bool_decide_eq_false_2 by done. rewrite bool_decide_eq_false_2 by (simpl; naive_solver).
  cbn [mbind res_mbind deref]. eexists. split; [done|]. intros s' k'. rewrite reverse_snoc. simpl.
  rewrite !lookup_insert. destruct (decide (s = s')) as [<-|Hne].
  - simpl. rewrite lookup_insert. specialize (HB s k').
    case_decide as E1; case_decide as E2; simplify_eq; try done. rewrite <-HB. by destruct (mp !! s).
  - rewrite decide_False by naive_solver. apply HB.
Qed.

Lemma load_keys kvs s mp B rest :
  Forall (fun kv => good_key kv.1 /\ good_value kv.2) kvs -> agrees mp B ->
  exists mp', agrees mp' (B ++ ((fun kv => ((s, kv.1), kv.2)) <$> kvs)) /\
    load_lines ((key_line <$> kvs) ++ rest) (mp, Some s) = load_lines rest (mp', Some s).
Proof.
  intros Hall. revert mp B. induction Hall as [|[k v] kvs [Hk Hv] _ IH]; intros mp B HB.
  - exists mp. by rewrite app_nil_r.
  - destruct (load_key k v s mp B Hk Hv HB) as (mp1 & Hl & HB1).
    destruct (IH mp1 _ HB1) as (mp' & HB' & Hrun). exists mp'. rewrite <-app_assoc in HB'.
    split; [done|]. rewrite fmap_cons. cbn [app load_lines]. rewrite Hl. done.
Qed.

Lemma load_sections cfg mp B m rest :
  good_config cfg -> agrees mp B ->
  exists mp' m', agrees mp' (B ++ settings cfg) /\
    load_lines (config_lines cfg ++ rest) (mp, m) = load_lines rest (mp', m').
Proof.
  intros Hall. revert mp B m. induction Hall as [|[s kvs] cfg [Hs Hkvs] _ IH]; intros mp B m HB.
  - exists mp, m. by rewrite app_nil_r.
  - unfold config_lines, settings. rewrite !fmap_cons. cbn [concat fst snd].
    fold (config_lines cfg). fold (settings cfg). rewrite <-app_assoc. cbn [app load_lines].
    unfold load_line at 1. rewrite isSection_section by done. cbn [mbind res_mbind].
    set (mp1 := match mp !! s with None => _ | Some _ => _ end).
    assert (agrees mp1 B) as HB1.
    { intros s' k'. rewrite <-HB. unfold mp1. destruct (mp !! s) eqn:E; [done|].
      rewrite lookup_insert. case_decide as Es; [|done]. subst s'. rewrite E. simpl. apply lookup_empty. }
    destruct (load_keys kvs s mp1 B (config_lines cfg ++ rest) Hkvs HB1) as (mp2 & HB2 & ->).
    destruct (IH mp2 _ (Some s) HB2) as (mp' & m' & HB' & Hrun). exists mp', m'.
    rewrite <-app_assoc in HB'. done.
Qed.

Lemma key_line_nl kv : good_key kv.1 -> good_value kv.2 -> NL ∉ key_line kv.
Proof.
  intros (_ & Hk & _) [_ Hv]. unfold key_line. intros [H|H]%elem_of_app; [done|].
  apply elem_of_cons in H as [H|H]; [discriminate H|done].
Qed.

Lemma config_lines_nl cfg : good_config cfg -> Forall (fun l => NL ∉ l) (config_lines cfg).
Proof.
  induction 1 as [|[s kvs] cfg [(_ & _ & Hs) Hkvs] _ IH]; [constructor|].
  unfold config_lines. rewrite fmap_cons. cbn [concat fst snd]. apply Forall_app. split; [|done].
  constructor.
  - unfold section_line. intros H. apply elem_of_cons in H as [H|H]; [discriminate H|].
    apply elem_of_app in H as [H|H]; [done|]. by apply list_elem_of_singleton in H.
  - apply Forall_fmap. eapply Forall_impl; [exact Hkvs|]. intros kv [Hk Hv]. by apply key_line_nl.
Qed.

(** (C38) A configuration written to a file is read back: loading succeeds and
    every setting has the value written for it last, a missing one the caller's
    default. *)
Theorem load_print cfg :
  good_config cfg ->
  exists mp, setPath (Some (print_config cfg)) None = Ret (true, Some mp) /\
    forall section key dflt, GetString mp section key dflt = default dflt (setting cfg section key).
Proof.
  intros Hcfg. unfold setPath, Load, print_config.
  rewrite lines_print by (by apply config_lines_nl).
  destruct (load_sections cfg ∅ [] None [[]] Hcfg) as (mp & m & HB & Hrun).
  { intros s k. by rewrite !lookup_empty. }
  exists mp. rewrite Hrun. split; [by destruct m|].
  intros s k d. unfold GetString, setting. specialize (HB s k). rewrite app_nil_l in HB. rewrite <-HB.
  destruct (mp !! s) as [inner|]; [|done]. simpl. by destruct (inner !! k).
Qed.

(** A setting in front of the first section makes [Load] follow the null
    pointer [m]. *)
Theorem load_no_section k v rest :
  good_key k -> good_value v ->
  setPath (Some (key_line (k, v) ++ NL :: rest)) None = Stop NullDeref.
Proof.
  intros Hk Hv. unfold setPath, Load. pose proof (key_line_nl (k, v) Hk Hv) as Hnl.
  rewrite lines_cons by done. cbn [load_lines mbind res_mbind assert bool_decide_pack].
  unfold load_line, key_line. cbn [fst snd].
  pose proof (isSection_key k v Hk) as Hsec. destruct (isSection _) as [sec name]. simpl in Hsec. subst sec.
  destruct Hk as (Htr & _ & Heq & Hhd). rewrite find_char_key by done. rewrite take_app_length, Htr.
  destruct k as [|c k]; [done|]. destruct Hhd as (H1 & H2 & _).
  rewrite (bool_decide_eq_false_2 (c :: k = [])) by done.
  rewrite bool_decide_eq_false_2 by (simpl; naive_solver). done.
Qed.

(** The printed form of a small configuration reads back. *)
Lemma load_print_witness :
  exists mp, setPath (Some (print_config [(text "reactor", [(text "ip", text "0.0.0.0"); (text "port", text "7777")])])) None
               = Ret (true, Some mp) /\
    GetString mp (text "reactor") (text "port") [] = text "7777".
Proof.
  destruct (load_print [(text "reactor", [(text "ip", text "0.0.0.0"); (text "port", text "7777")])]) as (mp & Hl & Hg).
  - unfold good_config, good_section, good_key, good_value.
    repeat match goal with
    | |- Forall _ _ => constructor
    | |- _ /\ _ => split
    | |- _ ∉ _ => apply (bool_decide_unpack _); vm_compute; exact I
    | |- match _ with _ => _ end => cbn
    | |- _ => vm_compute; congruence
    end.
  - exists mp. split; [exact Hl|]. rewrite Hg. reflexivity.
Defined.
