(* ===== verification/Echo.v ===== *)
(** * The echo programs of the reactor (lrlb_reactor/example/testv06 to testv10)

    Small servers and clients written with the library: servers whose callback sends a message
    back as it came, over TCP and over UDP, with connection hooks and with a task for all
    worker threads, and clients that send a greeting and print what they get.  The
    application state is what the program has printed.  They are the library's contracts at
    work: a server that answers each message with a message of its own is described once
    ([responder]), and the servers of the examples are instances. *)

From S2P Require Import Prelude.
From S2P Require Import IoBuf.
From S2P Require Import BufPool.
From S2P Require Import ReactorBuf.
From S2P Require Import Message.
From S2P Require Import EventLoop.
From S2P Require Import ThreadPool.
From S2P Require Import TcpConn.
From S2P Require Import Isolation.
From S2P Require Import TcpServer.
From S2P Require Import TcpClient.
From S2P Require Import Udp.
From S2P Require Import ConfigFile.

(** ** Servers that answer message by message *)
Section Responder.
Context {K : Type} `{!Epoll K} {HK MK TF P U : Type}.
Context (raw : Z -> list byte) (raw_len : forall n, 0 <= n -> zlen (raw n) = n) `{!Others P}.
Context (run_hook : HK -> loc -> world K HK MK TF P U -> res (world K HK MK TF P U)).
Context (run_msg : MK -> list byte -> Z -> Z -> option io_arg -> loc ->
                   world K HK MK TF P U -> res (world K HK MK TF P U)).
(** The effect of a message on the application, and the body sent back under its id. *)
Context (note : MK -> list byte -> Z -> Z -> U -> U) (reply : MK -> list byte -> option (list byte)).
Implicit Types w : world K HK MK TF P U.

(** A callback that notes the message and then answers it, if it does. *)
Definition responder : Prop :=
  forall cb data len id ud this w, run_msg cb data len id ud this w =
    (let w := set_user (note cb data len id (w_user w)) w in
     match reply cb data with
     | None => Ret w
     | Some out => '(_, w) ← TcpConn.send_message raw out id this w; Ret w
     end).

(** The answer to a message, as bytes; what a list of messages does. *)
Definition answer_bytes (r : msg_router MK io_arg) (msg : Z * list byte) : list byte :=
  match route r msg.1 with
  | Some (cb, _) => match reply cb msg.2 with Some out => frame_bytes msg.1 out | None => [] end
  | None => []
  end.
Definition noted (r : msg_router MK io_arg) (u : U) (msg : Z * list byte) : U :=
  match route r msg.1 with
  | Some (cb, _) => note cb msg.2 (u32 (zlen msg.2)) msg.1 u
  | None => u
  end.

(** The application as one connection sees it: its state and the bytes queued since a given moment. *)
Definition resp_step (cb : MK) (data : list byte) (len id : Z) (ud : option io_arg) (a : U * list byte) : U * list byte :=
  (note cb data len id a.1, a.2 ++ match reply cb data with Some out => frame_bytes id out | None => [] end).
Definition resp_sim (this : loc) (ob0 : list byte) (a : U * list byte) w (ob : list byte) : Prop :=
  w_user w = a.1 /\
  (exists c, w_objs w !! this = Some c /\ is_Some (w_loops w !! _loop c)) /\
  (zlen ob0 + zlen a.2 <= m4M -> ob = ob0 ++ a.2).

Lemma resp_contract this ob0 : responder -> cb_contract run_msg (resp_sim this ob0) resp_step 8192 this.
Proof.
  intros Hresp. split; [done|done| |].
  - intros a w ob c rb Ho (Hu & (c' & Ho' & Hl) & Hob). split; [done|]. split; [|done].
    rewrite Ho in Ho'. injection Ho' as <-.
    exists (set_ibuf rb c). split; [apply lookup_insert_eq|done].
  - intros cb data len id ud w fl c ib ob a Hc (Hu & (c' & Ho' & Hl) & Hob).
    pose proof Hc as (Ho & Hok & Hi & Hob' & Hne & Hap).
    rewrite Ho in Ho'. injection Ho' as <-. rewrite Hresp. cbv zeta.
    set (w1 := set_user (note cb data len id (w_user w)) w).
    assert (conn_repr this w1 fl c ib ob) as Hc1 by (by split_and!).
    unfold resp_step. rewrite <-Hu. destruct (reply cb data) as [out|]; cycle 1.
    { exists fl, c, ob. split; [exact Hc1|]. split; [|simpl; split; [done|lia]]. split; [done|].
      split; [by exists c|]. simpl. rewrite app_nil_r. done. }
    pose proof (send_message_ok raw raw_len out id this w1 fl c ib ob Hc1 Hl) as Hs.
    destruct (TcpConn.send_message raw out id this w1) as [[r w2]|e] eqn:Em; [|done]. cbn [mbind res_mbind].
    apply (send_message_frame raw _ _ _ _ _ _ c) in Em as (Hu2 & Hs2 & Ht2 & Hl2 & rb & Ho2); [|done|apply Hok].
    pose proof (zlen_nonneg out) as Hnn. pose proof (zlen_frame_bytes id out) as Hfl.
    assert (0 <= MESSAGE_HEAD_LEN) as H8 by done.
    assert (forall ob2, (zlen ob0 + zlen (a.2 ++ frame_bytes id out) <= m4M -> ob2 = ob0 ++ a.2 ++ frame_bytes id out) ->
      resp_sim this ob0 (note cb data len id (w_user w), a.2 ++ frame_bytes id out) w2 ob2) as Hsim.
    { intros ob2 Hob2. split; [by rewrite Hu2|]. split; [|exact Hob2]. exists (set_obuf rb c).
      split; [rewrite Ho2; apply lookup_insert_eq|by apply Hl2]. }
    assert (zlen ob0 + zlen (a.2 ++ frame_bytes id out) <= m4M -> ob = ob0 ++ a.2 /\ zlen ob + MESSAGE_HEAD_LEN + zlen out <= m4M) as Hfit.
    { rewrite zlen_app. intros Hf. assert (ob = ob0 ++ a.2) as E by (apply Hob; lia). split; [done|].
      rewrite E, zlen_app. lia. }
    rewrite Hs2. destruct r as [|r|r].
    + destruct Hs as (fl2 & c2 & Hc2 & _). exists fl2, c2; eexists. split; [exact Hc2|]. split; [|split; [done|exact Ht2]].
      apply Hsim. intros Hf. destruct (Hfit Hf) as [-> _]. by rewrite app_assoc.
    + destruct Hs as (_ & fl2 & c2 & [[Hb Hc2]|[Hb Hc2]]); exists fl2, c2; eexists; (split; [exact Hc2|]);
        (split; [|split; [done|exact Ht2]]); apply Hsim; intros Hf; destruct (Hfit Hf); lia.
    + destruct Hs as (_ & fl2 & c2 & [[Hb Hc2]|[Hb Hc2]]); exists fl2, c2; eexists; (split; [exact Hc2|]);
        (split; [|split; [done|exact Ht2]]); apply Hsim; intros Hf; destruct (Hfit Hf); lia.
Qed.

Lemma resp_deliver r msgs a :
  deliver resp_step r msgs a = (foldl (noted r) a.1 msgs, a.2 ++ concat (answer_bytes r <$> msgs)).
Proof.
  revert a. induction msgs as [|[id body] msgs IH]; intros a; [cbn; rewrite app_nil_r; by destruct a|].
  unfold deliver in *. cbn [foldl fst snd]. rewrite IH, fmap_cons. cbn [concat].
  unfold noted, answer_bytes. cbn [fst snd]. destruct (route r id) as [[cb ud]|]; [|done].
  unfold resp_step. cbn [fst snd]. by rewrite <-app_assoc.
Qed.

(** What arrives on a connection is answered message by message, in order. *)
Lemma responder_read chunk eintrs ks this w fl c ib ob msgs rest :
  responder -> conn_repr this w fl c ib ob -> is_Some (w_loops w !! _loop c) ->
  0 < zlen chunk -> zlen ib + zlen chunk <= m4M -> deframe (ib ++ chunk) = (msgs, rest, false) ->
  let out := concat (answer_bytes (router (w_srv w)) <$> msgs) in
  zlen ob + zlen out <= m4M ->
  let run := TcpConn.do_read raw run_hook run_msg (Some (zlen chunk)) (replicate eintrs (inr EINTR) ++ inl chunk :: ks) this w in
  run = Stop (Exit 0) /\ mem_short (4096 + 8192 * zlen msgs) (w_mem w) \/
  exists w' fl' c', run = Ret w' /\ conn_repr this w' fl' c' rest (ob ++ out) /\
    w_user w' = foldl (noted (router (w_srv w))) (w_user w) msgs /\ router (w_srv w') = router (w_srv w).
Proof.
  intros Hresp Hc Hl Hpos Hfit Hd out Hroom. cbv zeta.
  assert (resp_sim this ob (w_user w, []) w ob) as Hsim.
  { split; [done|]. split; [|by rewrite app_nil_r]. pose proof Hc as (Ho & _). by exists c. }
  destruct (do_read_ok raw raw_len run_hook run_msg (resp_sim this ob) resp_step 8192 chunk eintrs ks this _ w fl c ib ob _ rest false
    (resp_contract this ob Hresp) Hc Hsim Hpos Hfit Hd) as [Hs|(w' & fl' & c' & ob' & Hc' & (Hu & _ & Hob) & Hr & _ & ->)];
    [by left|right].
  exists w', fl', c'. rewrite resp_deliver in Hu, Hob. cbn [fst snd app] in Hu, Hob. rewrite (Hob Hroom) in Hc'. done.
Qed.

(** It works on its own connection. *)
Lemma responder_safe OT cb data len id ud this w w' :
  responder -> conn_ok (Others0 := OT) this w -> run_msg cb data len id ud this w = Ret w' -> conn_ok (Others0 := OT) this w'.
Proof.
  intros Hresp Hok Hr. rewrite Hresp in Hr. cbv zeta in Hr.
  assert (conn_ok (Others0 := OT) this (set_user (note cb data len id (w_user w)) w)) as Hok1 by (by eapply conn_ok_same).
  destruct (reply cb data) as [out|]; [|by simplify_eq]. apply bind_Ret in Hr as ([r w2] & Hm & Hr). injection Hr as <-.
  by eapply (send_message_safe raw raw_len (Others0 := OT)).
Qed.
End Responder.

(** ** Printing with %s *)

(** The characters in front of a NUL, if there is one. *)
Fixpoint until_nul (bs : list byte) : option (list byte) :=
  match bs with
  | [] => None
  | b :: bs => if bool_decide (b = x00) then Some [] else (b ::.) <$> until_nul bs
  end.

(** [%s] on a message that may have no NUL prints what lies [behind] it, too. *)
Definition c_print (behind data : list byte) : list byte :=
  match until_nul data with Some s => s | None => data ++ behind end.
(** [%s] on a copy of the message that was terminated. *)
Definition c_copy (data : list byte) : list byte := c_print [] data.

(** ** The servers *)
Inductive echo_hook := on_client_build | on_client_lost.
Inductive echo_msg := callback_busi | print_busi.
Inductive echo_task := print_lars_task.

Section Servers.
Context {K : Type} `{!Epoll K} {U : Type}.
Context (raw : Z -> list byte) (behind : list byte) (say : list line -> U -> U).
Abbreviation eworld := (world K echo_hook echo_msg echo_task unit U).
Implicit Types w : eworld.

Definition print_all (ls : list line) w : eworld := set_user (say ls (w_user w)) w.

(** [callback_busi] and [print_busi], the same in all the servers. *)
Definition run_echo_msg (cb : echo_msg) (data : list byte) (len id : Z) (ud : option io_arg) (this : loc) w : res eworld :=
  match cb with
  | callback_busi =>
      let w := print_all [LText "callback_busi ..."] w in
      '(_, w) ← TcpConn.send_message raw data id this w;
      Ret w
  | print_busi =>
      Ret (print_all [LStr "recv client: [%s]" (c_print behind data); LInt "msgid: [%d]" id; LInt "len: [%d]" (s32 len)] w)
  end.

Definition welcome : list byte := bytes_of "welcome! you online..".

(** [on_client_build] and [on_client_lost] of testv07 and testv08. *)
Definition run_echo_hook (h : echo_hook) (this : loc) w : res eworld :=
  match h with
  | on_client_build =>
      let w := print_all [LStr "---test : msg is %s" welcome; LInt ",--- length is %d" (zlen welcome)] w in
      '(_, w) ← TcpConn.send_message raw welcome 101 this w;
      Ret w
  | on_client_lost => Ret (print_all [LText "connection is lost... !"] w)
  end.

(** [main] of testv06. *)
Definition main6 {E} `{!EventFd E} (sock bnd lst : Z) (stale : pool_ptr E echo_task) w : res (tcp_server E echo_task * eworld) :=
  '(server, w) ← tcp_server_new3 sock bnd lst stale 0%nat w;
  let w := TcpServer.add_msg_router 1 callback_busi None w in
  Ret (server, TcpServer.add_msg_router 2 print_busi None w).

(** [main] of testv07. *)
Definition main7 {E} `{!EventFd E} (sock bnd lst : Z) (stale : pool_ptr E echo_task) w : res (tcp_server E echo_task * eworld) :=
  '(server, w) ← tcp_server_new3 sock bnd lst stale 0%nat w;
  let w := TcpServer.add_msg_router 1 callback_busi None w in
  let w := TcpServer.add_msg_router 2 print_busi None w in
  let w := TcpServer.set_conn_start (Some on_client_build) w in
  Ret (server, TcpServer.set_conn_close (Some on_client_lost) w).

(** [main] of testv10 (and of testv08), which takes the address from the configuration. *)
Definition main10 {E} `{!EventFd E} (mp : config_map) (sock bnd lst : Z) (stale : pool_ptr E echo_task) w
    : res (str * Z * tcp_server E echo_task * eworld) :=
  let ip := GetString mp (text "reactor") (text "ip") (text "127.0.0.1") in
  let port := s16 (GetNumber mp (text "reactor") (text "port") 8888) in
  '(server, w) ← main7 sock bnd lst stale w;
  Ret (ip, port, server, w).

(** The loop of [print_lars_task] of testv10 over the descriptors of the loop. *)
Definition hello : list byte := bytes_of "Hello I am a Task!".
Fixpoint send_hello (fds : list Z) w : res eworld :=
  match fds with
  | [] => Ret w
  | fd :: fds =>
      conn ← read_conn fd (w_srv w);
      w ← match conn with
          | Some c => '(_, w) ← TcpConn.send_message raw hello 101 c w; Ret w
          | None => Ret w
          end;
      send_hello fds w
  end.

(** [print_lars_task]. *)
Definition run_lars_task (loop : nat) w : res eworld :=
  let w := print_all [LText "======= Active Task Func! ========"] w in
  l ← deref (w_loops w !! loop);
  send_hello (elements (get_listen_fds l)) w.
End Servers.

(** [on_client_build] of testv10: the application knows its server, of which it uses the thread pool. *)
Section Server10.
Context {K : Type} `{!Epoll K} {E : Type} `{!EventFd E}.
Context (raw : Z -> list byte).
Abbreviation eworld10 := (world K echo_hook echo_msg echo_task unit (list line * tcp_server E echo_task)).

Definition run_hook10 (h : echo_hook) (this : loc) (w : eworld10) : res eworld10 :=
  match h with
  | on_client_build =>
      '(_, w) ← TcpConn.send_message raw welcome 101 this w;
      let '(out, server) := w_user w in
      match _thread_pool server with
      | PoolAt p => Ret (set_user (out, TcpServer (_sockfd server) (_srv_loop server) (PoolAt (send_task print_lars_task None p))) w)
      | PoolNull => Stop NullDeref
      | PoolUninit => Stop Undefined
      end
  | on_client_lost => Ret (set_user ((w_user w).1 ++ [LText "connection is lost... !"], (w_user w).2) w)
  end.
End Server10.

Section EchoSpec.
Context {K : Type} `{!Epoll K} {U : Type}.
Context (raw : Z -> list byte) (raw_len : forall n, 0 <= n -> zlen (raw n) = n) (behind : list byte) (say : list line -> U -> U).
Context `{!Others unit}.
Implicit Types w : world K echo_hook echo_msg echo_task unit U.

(** What the callbacks note and send back. *)
Definition echo_note (cb : echo_msg) (data : list byte) (len id : Z) : U -> U :=
  match cb with
  | callback_busi => say [LText "callback_busi ..."]
  | print_busi => say [LStr "recv client: [%s]" (c_print behind data); LInt "msgid: [%d]" id; LInt "len: [%d]" (s32 len)]
  end.
Definition echo_reply (cb : echo_msg) (data : list byte) : option (list byte) :=
  match cb with callback_busi => Some data | print_busi => None end.

Lemma echo_responder : responder (K := K) (HK := echo_hook) (TF := echo_task) (P := unit) raw (run_echo_msg raw behind say) echo_note echo_reply.
Proof. by intros [] data len id ud this w. Qed.

(** The routes [main] registers. *)
Definition echo_routes (r : msg_router echo_msg io_arg) : Prop :=
  route r 1 = Some (callback_busi, None) /\ route r 2 = Some (print_busi, None) /\
  forall id, id <> 1 -> id <> 2 -> route r id = None.

Lemma echo_answers r msgs :
  echo_routes r -> concat (answer_bytes echo_reply r <$> msgs) = stream (filter (fun m => m.1 = 1) msgs).
Proof.
  intros (H1 & H2 & H3). induction msgs as [|[id body] msgs IH]; [done|]. rewrite fmap_cons. cbn [concat]. rewrite IH.
  unfold answer_bytes. cbn [fst snd]. destruct (decide (id = 1)) as [->|Hne].
  - rewrite H1, filter_cons_True by done. done.
  - rewrite filter_cons_False by done. destruct (decide (id = 2)) as [->|Hne2]; [by rewrite H2|by rewrite H3].
Qed.

(** Echoing: whatever frames a client sends, in whatever chunks, the server queues for it exactly
    those with id 1, unchanged and in their order, and prints its lines for every message; the
    process stops only when the buffers may reach the limit of the pool. *)
Theorem echo_serves run_hook chunk eintrs ks this w fl c ib ob msgs rest :
  echo_routes (router (w_srv w)) -> conn_repr this w fl c ib ob -> is_Some (w_loops w !! _loop c) ->
  0 < zlen chunk -> zlen ib + zlen chunk <= m4M -> deframe (ib ++ chunk) = (msgs, rest, false) ->
  zlen ob + zlen (stream (filter (fun m => m.1 = 1) msgs)) <= m4M ->
  let run := TcpConn.do_read raw run_hook (run_echo_msg raw behind say) (Some (zlen chunk))
               (replicate eintrs (inr EINTR) ++ inl chunk :: ks) this w in
  run = Stop (Exit 0) /\ mem_short (4096 + 8192 * zlen msgs) (w_mem w) \/
  exists w' fl' c', run = Ret w' /\ conn_repr this w' fl' c' rest (ob ++ stream (filter (fun m => m.1 = 1) msgs)) /\
    w_user w' = foldl (noted echo_note (router (w_srv w))) (w_user w) msgs /\ echo_routes (router (w_srv w')).
Proof.
  intros Hr Hc Hl Hpos Hfit Hd Hroom. cbv zeta. rewrite <-(echo_answers (router (w_srv w))) in Hroom |- * by done.
  destruct (responder_read raw raw_len run_hook (run_echo_msg raw behind say) echo_note echo_reply chunk eintrs ks this w fl c ib ob msgs rest
    echo_responder Hc Hl Hpos Hfit Hd Hroom) as [Hs|(w' & fl' & c' & Hrun & Hc' & Hu & Hro)]; [by left|right].
  exists w', fl', c'. rewrite Hro. done.
Qed.

(** A new connection: the server of testv07 queues its welcome for it, enters it into the table and
    registers its socket; the bytes of every other connection are as before. *)
Theorem echo_welcomes x fd loop w fl io l :
  conns_repr w fl io -> w_objs w !! x = None -> conn_start_cb (w_srv w) = Some on_client_build ->
  w_loops w !! loop = Some l -> 0 <= fd < conns_len (w_srv w) ->
  let run := tcp_conn_new (run_echo_hook raw say) x fd loop w in
  run = Stop (Exit 0) /\ mem_short 8192 (w_mem w) \/
  exists w' fl' l', run = Ret w' /\ conns_repr w' fl' (<[x := ([], frame_bytes 101 welcome)]> io) /\
    conns (w_srv w') = <[fd := Some x]> (conns (w_srv w)) /\ _curr_conns (w_srv w') = _curr_conns (w_srv w) + 1 /\
    w_loops w' !! loop = Some l' /\ has (mask (ev_get l' fd)) EPOLLIN = true.
Proof.
  intros Hw Hx Hh Hl Hfd. cbv zeta. unfold tcp_conn_new. set (c0 := TcpConn fd loop _ _ _). set (w0 := set_obj x c0 w).
  change (conn_start_cb (w_srv w0)) with (conn_start_cb (w_srv w)). rewrite Hh. cbn [run_hook_opt run_echo_hook].
  set (w1 := print_all say _ w0).
  assert (conns_repr w1 fl (<[x := ([], [])]> io)) as Hw1 by (by eapply (conns_repr_same w0); [apply conns_new| |]).
  assert (w_objs w1 !! x = Some c0) as Hc0 by apply lookup_insert_eq.
  pose proof (conns_send raw raw_len welcome 101 x w1 fl _ c0 [] [] Hw1 Hc0 (lookup_insert_eq _ _ _) (mk_is_Some _ _ Hl)) as Hs.
  destruct (TcpConn.send_message raw welcome 101 x w1) as [[r w2]|e] eqn:Em; cbn [mbind res_mbind]; [right|by left; destruct Hs as [-> Hs]].
  destruct Hs as (fl' & ob' & Hw2 & Hob). rewrite Hob in Hw2 by (vm_compute; congruence). cbn [app] in Hw2. rewrite insert_insert_eq in Hw2.
  destruct (send_message_bufs raw _ _ _ _ _ _ Em) as (Hsrv & _ & Hlo & Hobj).
  specialize (Hobj x). rewrite Hc0 in Hobj. unfold obj. destruct (w_objs w2 !! x) as [c2|]; [|done]. simpl in Hobj. injection Hobj as Hf Hlp _.
  cbn [mbind res_mbind deref]. unfold on_loop. rewrite Hf, Hlp. destruct (Hlo loop) as [l2 Hl2]; [by eexists|]. rewrite Hl2.
  cbn [mbind res_mbind deref]. unfold increase_conn, write_conn. cbn [w_srv put_loop]. rewrite Hsrv, bool_decide_eq_true_2 by done.
  cbn [mbind res_mbind]. eexists _, fl'; eexists. split; [done|]. split; [by eapply (conns_repr_same w2)|]. split; [done|]. split; [done|].
  split; [apply lookup_insert_eq|]. apply add_in_entry.
Qed.

(** The task of testv10 looks up every descriptor of the loop in the connection table, the eventfd of the
    thread's queue among them; the slot of a descriptor that never was a connection has not been
    written, so the task does not get past it. *)
Theorem lars_task_reads_unset loop l fd w w' :
  w_loops w !! loop = Some l -> fd ∈ get_listen_fds l -> conns (w_srv w) !! fd = None -> run_lars_task raw say loop w <> Ret w'.
Proof.
  intros Hl Hfd Hn Hr. unfold run_lars_task in Hr. cbn [w_loops print_all set_user] in Hr. rewrite Hl in Hr.
  cbn [mbind res_mbind deref] in Hr. assert (fd ∈ elements (get_listen_fds l)) as Hin by (by apply elem_of_elements).
  set (w1 := print_all say _ w) in Hr. assert (conns (w_srv w1) !! fd = None) as Hn1 by done. clearbody w1. revert w1 Hn1 Hr Hin.
  generalize (elements (get_listen_fds l)) as fds. induction fds as [|x fds IH]; intros w1 Hn1 Hr Hin; [by apply not_elem_of_nil in Hin|].
  cbn [send_hello] in Hr. unfold read_conn in Hr at 1. case_bool_decide; [|done].
  apply elem_of_cons in Hin as [<-|Hin]; [by rewrite Hn1 in Hr|].
  destruct (conns (w_srv w1) !! x) as [[c|]|]; cbn [mbind res_mbind] in Hr; [|by eapply IH|done].
  destruct (TcpConn.send_message raw hello 101 c w1) as [[r w2]|] eqn:Em; [|done]. cbn [mbind res_mbind] in Hr.
  apply send_message_bufs in Em as (Hs & _). eapply (IH w2); [by rewrite Hs|exact Hr|exact Hin].
Qed.
End EchoSpec.

(** ** The clients *)
Inductive cli_hook := cli_client_build | cli_client_lost.
Inductive cli_msg := busi.

Section Clients.
Context {K : Type} `{!Epoll K} {X TF : Type}.
Abbreviation kworld := (TcpClient.cworld K cli_hook cli_msg unit X TF (list line)).
Implicit Types w : kworld.

Definition cli_print (ls : list line) w : kworld := CWorld (cw_cli w) (cw_loop w) (cw_user w ++ ls).

(** [busi] of testv06 to testv08, and of testv10, which prints a copy. *)
Definition run_busi8 (behind : list byte) (cb : cli_msg) (data : list byte) (len id : Z) (ud : option unit) w : res kworld :=
  Ret (cli_print [LStr "recv server: [%s]" (c_print behind data); LInt "msgid: [%d]" id; LInt "len: [%d]" (s32 len)] w).
Definition run_busi10 (cb : cli_msg) (data : list byte) (len id : Z) (ud : option unit) w : res kworld :=
  Ret (cli_print [LStr "recv server: [%s]" (c_copy data); LInt "msgid: [%d]" id; LInt "len: [%d]" (s32 len)] w).

Definition greeting : list byte := bytes_of "Hello my lrlb!".

(** [on_client_build] and [on_client_lost] of the clients. *)
Definition run_client_hook (h : cli_hook) w : res kworld :=
  match h with
  | cli_client_build => '(_, w) ← TcpClient.send_message greeting 1 w; Ret w
  | cli_client_lost => Ret (cli_print [LText "on_client_lost..."; LText "Client is lost!"] w)
  end.

(** [main] of the clients, up to [event_process]: the hooks are set after the constructor has called
    [connect]. *)
Definition client_main (raw1 raw2 : list byte) (stale : bool) (sock : Z) (conn : unit + errno) : res kworld :=
  w ← tcp_client_new run_client_hook raw1 raw2 stale sock conn event_loop_new [];
  let w := TcpClient.add_msg_router 1 busi None w in
  let w := TcpClient.add_msg_router 101 busi None w in
  let w := TcpClient.set_conn_start (Some cli_client_build) w in
  Ret (TcpClient.set_conn_close (Some cli_client_lost) w).

(** The client of testv06, which has another greeting and one route. *)
Definition greeting6 : list byte := bytes_of "Hello Lrlbs!我是Revien! ".
Definition run_client_hook6 (h : cli_hook) w : res kworld :=
  match h with
  | cli_client_build => '(_, w) ← TcpClient.send_message greeting6 1 w; Ret w
  | cli_client_lost => Ret (cli_print [LText "on_client_lost..."; LText "Client is lost!"] w)
  end.
Definition client_main6 (raw1 raw2 : list byte) (stale : bool) (sock : Z) (conn : unit + errno) : res kworld :=
  w ← tcp_client_new run_client_hook6 raw1 raw2 stale sock conn event_loop_new [];
  let w := TcpClient.add_msg_router 1 busi None w in
  let w := TcpClient.set_conn_start (Some cli_client_build) w in
  Ret (TcpClient.set_conn_close (Some cli_client_lost) w).

(** What the client of testv10 prints for a message. *)
Definition said (id : Z) (body : list byte) : list line :=
  [LStr "recv server: [%s]" (c_copy body); LInt "msgid: [%d]" id; LInt "len: [%d]" (s32 (u32 (zlen body)))].

(** A connection that succeeds at once is not greeted: the constructor connects before
    [main] has set the hook. *)
Theorem greeting_missed raw1 raw2 stale sock :
  sock <> -1 -> exists w, client_main raw1 raw2 stale sock (inl tt) = Ret w /\ connected (cw_cli w) = true /\
    contents (_obuf (cw_cli w)) = [] /\ _conn_start_cb (cw_cli w) = Some cli_client_build.
Proof.
  intros Hs. unfold client_main, tcp_client_new, do_connect. rewrite bool_decide_eq_false_2 by done.
  unfold on_connected. cbn [run_cli_hook upd_cli set_connected set_sockfd cw_cli _conn_start_cb mbind res_mbind].
  eexists. split; [done|]. split; [done|]. split; [|done]. case_bool_decide; done.
Qed.
End Clients.

(** ** The UDP server of testv09 *)
Section UdpEcho.
Context {K : Type} `{!Epoll K} {TF AD : Type}.
(** What the program has printed, and what its coming calls of [sendto] return. *)
Abbreviation eudp := (Udp.uworld K unit unit TF AD (list line * list (Z + errno))).
Implicit Types w : eudp.

(** [callback_busi] of testv09. *)
Definition run_udp_echo (cb : unit) (data : list byte) (len id : Z) (ud : option unit) w : res eudp :=
  match uw_user w with
  | (out, r :: rs) =>
      let w := UWorld (uw_udp w) (uw_loop w) (uw_sent w) (out ++ [LText "callback_busi ..."], rs) in
      '(_, w) ← Udp.send_message r data id w;
      Ret w
  | (_, []) => Stop NoReturn
  end.

(** [main] of testv09, up to [event_process]: the address it takes from the configuration, and the server. *)
Definition main9 (mp : config_map) (sig : bool) (sock : Z) (zero : AD) (raw : list byte * list byte) (rs : list (Z + errno))
    : res (str * Z * eudp) :=
  let ip := GetString mp (text "reactor") (text "ip") (text "127.0.0.1") in
  let port := s16 (GetNumber mp (text "reactor") (text "port") 8888) in
  w ← udp_server_new sig sock zero raw event_loop_new ([], rs);
  Ret (ip, port, Udp.add_msg_router 1 tt None w).

(** Every datagram is sent back to where it came from, as it came, in the order of arrival. *)
Theorem udp_echoes (pkts : list (AD * list byte)) ns out w :
  udp_wf w -> route (_udp_router (uw_udp w)) 1 = Some (tt, None) ->
  Forall (fun p => zlen p.2 <= UDP_BUF - MESSAGE_HEAD_LEN) pkts -> length ns = length pkts -> uw_user w = (out, inl <$> ns) ->
  exists w', server_do_read run_udp_echo (((fun p => inl (p.1, frame_bytes 1 p.2)) <$> pkts) ++ [inr EAGAIN]) w = Ret w' /\
    uw_sent w' = uw_sent w ++ ((fun p => (Some p.1, frame_bytes 1 p.2)) <$> pkts).
Proof.
  intros Hwf Hr Hall. revert ns out w Hwf Hr. induction Hall as [|[from body] pkts Hb _ IH]; intros ns out w Hwf Hr Hlen Hu.
  { exists w. by rewrite app_nil_r. }
  destruct ns as [|n ns]; [done|]. injection Hlen as Hlen. rewrite !fmap_cons. cbn [app fst snd] in *.
  destruct (server_read_cons run_udp_echo from (frame_bytes 1 body) (((fun p => inl (p.1, frame_bytes 1 p.2)) <$> pkts) ++ [inr EAGAIN]) w 1 body Hwf)
    as (buf & Hbuf & ->); [by apply parse_frame|].
  unfold call. rewrite Hr. cbv zeta iota beta. set (w0 := upd_udp _ (upd_udp _ w)).
  assert (uw_user w0 = (out, inl n :: (inl <$> ns))) as Hu0 by exact Hu.
  set (w1 := UWorld (uw_udp w0) (uw_loop w0) (uw_sent w0) (out ++ [LText "callback_busi ..."], inl <$> ns) : eudp).
  assert (run_udp_echo tt body (u32 (zlen body)) 1 None w0 = ('(_, w) ← Udp.send_message (inl n) body 1 w1; Ret w)) as ->
    by (unfold run_udp_echo; by rewrite Hu0).
  assert (udp_wf w1) as Hwf1 by (split; [exact Hbuf|apply Hwf]).
  pose proof (udp_send_roundtrip (fun _ _ _ _ _ _ u => u) body 1 n w1 (_udp_router (uw_udp w)) (uw_user w) None Hwf1) as Hs.
  rewrite bool_decide_eq_true_2 in Hs by exact Hb. destruct Hs as (w2 & Hsend & Hwf2 & Hsent & _); [done|].
  assert (uw_user w2 = uw_user w1 /\ _udp_router (uw_udp w2) = _udp_router (uw_udp w1)) as [Hu2 Hr2].
  { unfold Udp.send_message in Hsend. case_bool_decide; [|res_inv]; by simplify_eq. }
  rewrite Hsend. cbn [mbind res_mbind].
  destruct (IH ns (out ++ [LText "callback_busi ..."]) w2 Hwf2) as (w' & Hrun & Hsent'); [by rewrite Hr2|done|by rewrite Hu2|].
  exists w'. split; [exact Hrun|]. rewrite Hsent', Hsent, <-app_assoc. reflexivity.
Qed.

(** The client of testv09: what it has printed is its state. *)
Abbreviation cudp := (Udp.uworld K unit unit TF AD (list line)).
Definition udp_hello : list byte := bytes_of "Hello Lrlb!".

(** [busi] of testv09. *)
Definition run_udp_busi (cb : unit) (data : list byte) (len id : Z) (ud : option unit) (w : cudp) : res cudp :=
  Ret (UWorld (uw_udp w) (uw_loop w) (uw_sent w)
    (uw_user w ++ [LStr "recv server: [%s]" (c_copy data); LInt "msgid: [%d]" id; LInt "len: [%d]" (s32 len)])).

(** [main] of the client of testv09, up to [event_process]. *)
Definition client9 (sock conn : Z) (raw : list byte * list byte) (r : Z + errno) : res cudp :=
  w ← udp_client_new sock conn raw event_loop_new [];
  let w := Udp.add_msg_router 1 tt None w in
  '(_, w) ← Udp.send_message r udp_hello 1 w;
  Ret w.

(** (C35) The UDP example testv09, its server and any number of its clients, each from the start of
    [main]: every client sends one datagram; the server, which gets the datagrams in any order, returns
    each to where it came from, as it came; and a client that gets its datagram back prints its own
    greeting, the message number and the length.  The sockets could be made, and [sendto] takes the datagrams. *)
Theorem udp_dialogue mp ssock zero sbufs froms ns sock conn bufs n :
  ssock <> -1 -> zlen sbufs.1 = UDP_BUF -> zlen sbufs.2 = UDP_BUF -> length ns = length froms ->
  sock <> -1 -> conn <> -1 -> zlen bufs.1 = UDP_BUF -> zlen bufs.2 = UDP_BUF ->
  exists ip port ws ws' wc wc' pkt, main9 mp true ssock zero sbufs (inl <$> ns) = Ret (ip, port, ws) /\
    client9 sock conn bufs (inl n) = Ret wc /\ uw_sent wc = [(None, pkt)] /\
    server_do_read run_udp_echo (((fun from => inl (from, pkt)) <$> froms) ++ [inr EAGAIN]) ws = Ret ws' /\
    uw_sent ws' = (fun from => (Some from, pkt)) <$> froms /\
    client_do_read run_udp_busi [inl pkt; inr EAGAIN] wc = Ret wc' /\ uw_user wc' = said 1 udp_hello.
Proof.
  intros Hss Hsb1 Hsb2 Hlen Hs Hc Hb1 Hb2. unfold main9, udp_server_new. rewrite bool_decide_eq_false_2 by done.
  cbn [negb mbind res_mbind]. set (ws := Udp.add_msg_router _ _ _ _ : eudp).
  destruct (udp_echoes ((fun from => (from, udp_hello)) <$> froms) ns [] ws) as (ws' & Hserve & Hsent);
    [by split|done| |by rewrite length_fmap|done|].
  { apply Forall_fmap, Forall_true. intros from. vm_compute. congruence. }
  rewrite <-!list_fmap_compose in Hserve. rewrite <-list_fmap_compose in Hsent.
  unfold client9, udp_client_new. rewrite !bool_decide_eq_false_2 by done. cbn [mbind res_mbind].
  set (w0 := Udp.add_msg_router _ _ _ _ : cudp). assert (udp_wf w0) as Hw0 by (by split).
  pose proof (udp_send_roundtrip (fun _ _ _ _ _ _ u => u) udp_hello 1 n w0 (_udp_router (uw_udp w0)) (uw_user w0) None Hw0) as Hsend.
  rewrite bool_decide_eq_true_2 in Hsend by (vm_compute; congruence). destruct Hsend as (wc & Hrun & Hwfc & Hout & _); [done|].
  assert (uw_user wc = [] /\ _udp_router (uw_udp wc) = _udp_router (uw_udp w0)) as [Huc Hrc].
  { unfold Udp.send_message in Hrun. case_bool_decide; [|res_inv]; by simplify_eq. }
  destruct (client_do_read_ok run_udp_busi
    (fun _ data len id _ _ u => u ++ [LStr "recv server: [%s]" (c_copy data); LInt "msgid: [%d]" id; LInt "len: [%d]" (s32 len)])
    [frame_bytes 1 udp_hello] EAGAIN [] wc) as (wc' & Hread & _ & Huser); [|done|done|].
  { intros cb data len id ud w1 Hw1. eexists. split; [done|]. by split_and!. }
  eexists _, _, ws, ws', wc, wc', (frame_bytes 1 udp_hello). rewrite Hrun. split; [done|]. split; [done|]. split; [exact Hout|].
  split; [exact Hserve|]. split; [exact Hsent|]. split; [exact Hread|]. rewrite Huser, Hrc, Huc. reflexivity.
Qed.
End UdpEcho.

#[local] Existing Instance nobody.

(** ** A connection that has been welcomed, and a UDP server *)
Module EchoDemo.
Definition echo_print (ls : list line) (u : list line) : list line := u ++ ls.
Definition world0 : world (gmap Z Z) echo_hook echo_msg echo_task unit (list line) :=
  World empty_pool {[0%nat := event_loop_new]} ∅ (Statics ∅ 0 0 msg_router_new None None) [].
Definition world7 := match main7 (E := Z) 3 0 0 PoolNull world0 with Ret (_, w) => w | Stop _ => world0 end.

Definition hello_frame : list byte := frame_bytes 101 welcome.
Definition hello_buf : io_buf := IoBuf None m4K (zlen hello_frame) 0 (hello_frame ++ replicate (4096 - length hello_frame) x00).
Definition conn : tcp_conn unit := TcpConn 5 0%nat (Some 2%positive) None None.
Definition served : world (gmap Z Z) echo_hook echo_msg echo_task unit (list line) :=
  World (Mem {[2%positive := hello_buf]} (pool empty_pool) 0) (w_loops world7) {[1%positive := conn]} (w_srv world7) [].

Lemma served_routes : echo_routes (router (w_srv served)).
Proof.
  split; [reflexivity|]. split; [reflexivity|]. intros id H1 H2.
  change (router (w_srv served)) with (register_msg_router 2 print_busi (@None io_arg) (register_msg_router 1 callback_busi None msg_router_new).2).2.
  pose proof (proj2 (register_route 2 print_busi (@None io_arg) (register_msg_router 1 callback_busi None msg_router_new).2 id) H2) as E2.
  pose proof (proj2 (register_route 1 callback_busi (@None io_arg) msg_router_new id) H1) as E1.
  etrans; [exact E2|]. etrans; [exact E1|]. reflexivity.
Qed.
Lemma served_repr : conn_repr 1%positive served empty_free conn [] hello_frame.
Proof.
  split; [reflexivity|]. split; [apply empty_heap_ok|]. split; [reflexivity|]. split; [|split; [by left|by apply apart_nobody]].
  exists hello_buf. split; [|vm_compute; reflexivity]. split; [reflexivity|].
  split; [unfold buf_wf; vm_compute; split_and!; congruence|]. split; [apply empty_not_free|by eexists].
Qed.

Definition block : list byte := replicate (Z.to_nat CLIENT_BUF) x00.
Lemma echo_block_len : zlen block = CLIENT_BUF.
Proof. unfold block, zlen. rewrite length_replicate. apply Z2Nat.id. discriminate. Qed.
End EchoDemo.
Import EchoDemo.

Lemma echo_serves_witness :
  let chunk := frame_bytes 1 [x41] ++ frame_bytes 2 [x42] ++ frame_bytes 1 [x43] in
  exists w' fl' c', TcpConn.do_read zero_raw (run_echo_hook zero_raw echo_print) (run_echo_msg zero_raw [] echo_print)
      (Some (zlen chunk)) [inl chunk] 1%positive served = Ret w' /\
    conn_repr 1%positive w' fl' c' [] (hello_frame ++ frame_bytes 1 [x41] ++ frame_bytes 1 [x43]).
Proof.
  intros chunk.
  destruct (echo_serves zero_raw zero_raw_len [] echo_print (run_echo_hook zero_raw echo_print) chunk 0 [] 1%positive served empty_free conn
    [] hello_frame [(1, [x41]); (2, [x42]); (1, [x43])] []) as [[_ Hs]|(w' & fl' & c' & Hr & Hc & _)].
  - apply served_routes.
  - apply served_repr.
  - eexists. reflexivity.
  - reflexivity.
  - vm_compute. congruence.
  - vm_compute. reflexivity.
  - vm_compute. congruence.
  - exfalso. vm_compute in Hs. congruence.
  - exists w', fl', c'. split; [exact Hr|exact Hc].
Defined.

Lemma echo_welcomes_witness :
  exists w' fl', tcp_conn_new (run_echo_hook zero_raw echo_print) 1%positive 5 0%nat world7 = Ret w' /\
    conns_repr w' fl' {[1%positive := ([], hello_frame)]}.
Proof.
  destruct (echo_welcomes zero_raw zero_raw_len echo_print 1%positive 5 0%nat world7 empty_free ∅
    (default event_loop_new (w_loops world7 !! 0%nat))) as [[_ Hs]|(w' & fl' & l' & Hr & Hw & _)].
  - apply conns_repr_empty; [apply empty_pool_ok|reflexivity].
  - reflexivity.
  - reflexivity.
  - reflexivity.
  - vm_compute. split; congruence.
  - exfalso. vm_compute in Hs. congruence.
  - exists w', fl'. split; [exact Hr|exact Hw].
Defined.

Lemma udp_echoes_witness :
  exists w', server_do_read run_udp_echo [inl (10, frame_bytes 1 [x41]); inl (11, frame_bytes 1 [x42]); inr EAGAIN]
      (UWorld (uw_udp UdpDemo.udp0) event_loop_new [] ([], [inl 9; inl 9]) : Udp.uworld (gmap Z Z) unit unit unit Z _) = Ret w' /\
    uw_sent w' = [(Some 10, frame_bytes 1 [x41]); (Some 11, frame_bytes 1 [x42])].
Proof.
  apply (udp_echoes [(10, [x41]); (11, [x42])] [9; 9] [] (UWorld (uw_udp UdpDemo.udp0) event_loop_new [] ([], [inl 9; inl 9]))).
  - apply UdpDemo.udp0_wf.
  - reflexivity.
  - repeat constructor; vm_compute; congruence.
  - reflexivity.
  - reflexivity.
Defined.

(** Two clients, at the addresses 10 and 11. *)
Lemma udp_dialogue_witness :
  let bufs := (_read_buf (uw_udp UdpDemo.udp0), _write_buf (uw_udp UdpDemo.udp0)) in
  exists ip port ws ws' wc wc' pkt,
    main9 (K := gmap Z Z) (TF := unit) ∅ true 3 0 bufs (inl <$> [19; 19]) = Ret (ip, port, ws) /\
    client9 (K := gmap Z Z) (TF := unit) (AD := Z) 4 0 bufs (inl 19) = Ret wc /\
    server_do_read run_udp_echo (((fun from => inl (from, pkt)) <$> [10; 11]) ++ [inr EAGAIN]) ws = Ret ws' /\
    uw_sent ws' = [(Some 10, pkt); (Some 11, pkt)] /\
    client_do_read run_udp_busi [inl pkt; inr EAGAIN] wc = Ret wc' /\ uw_user wc' = said 1 udp_hello.
Proof.
  intros bufs.
  destruct (udp_dialogue (K := gmap Z Z) (TF := unit) (AD := Z) ∅ 3 0 bufs [10; 11] [19; 19] 4 0 bufs 19)
    as (ip & port & ws & ws' & wc & wc' & pkt & H1 & H2 & _ & H3 & H4 & H5 & H6).
  - discriminate.
  - apply UdpDemo.udp0_wf.
  - apply UdpDemo.udp0_wf.
  - reflexivity.
  - discriminate.
  - discriminate.
  - apply UdpDemo.udp0_wf.
  - apply UdpDemo.udp0_wf.
  - exists ip, port, ws, ws', wc, wc', pkt. split; [exact H1|]. split; [exact H2|]. split; [exact H3|]. split; [exact H4|].
    split; [exact H5|exact H6].
Defined.
