(* ===== verification/Proto.v ===== *)
(** * The messages of the system (base/proto/lrlb.proto)

    One record per message of the schema, with the [int32], [uint32] and [bool]
    fields as the generated accessors return them; a message field that may be
    absent is an [option].  The generated classes and the protobuf runtime are
    not part of the sources; what the program relies on of them is [Codec]. *)

From S2P Require Import Prelude.

(** [enum MessageID]. *)
Definition ID_UNKNOW : Z := 0.
Definition ID_GetRouteRequest : Z := 1.
Definition ID_GetRouteResponse : Z := 2.
Definition ID_ReportStatusRequest : Z := 3.
Definition ID_GetHostRequest : Z := 4.
Definition ID_GetHostResponse : Z := 5.
Definition ID_ReportRequest : Z := 6.
Definition ID_API_GetRouteRequest : Z := 7.
Definition ID_API_GetRouteResponse : Z := 8.

(** [enum LrlbRetCode]. *)
Definition RET_SUCC : Z := 0.
Definition RET_OVERLOAD : Z := 1.
Definition RET_SYSTEM_ERROR : Z := 2.
Definition RET_NOEXIST : Z := 3.

Record HostInfo := MkHostInfo { h_ip : Z; h_port : Z }.
Record GetRouteRequest := MkRouteReq { rq_modid : Z; rq_cmdid : Z }.
Record GetRouteResponse := MkRouteRsp { rr_modid : Z; rr_cmdid : Z; rr_host : list HostInfo }.
Record HostCallResult := MkCallResult { cr_ip : Z; cr_port : Z; cr_succ : Z; cr_err : Z; cr_overload : bool }.
Record ReportStatusReq := MkStatusReq {
  rs_modid : Z; rs_cmdid : Z; rs_caller : Z; rs_results : list HostCallResult; rs_ts : Z }.
Record GetHostRequest := MkHostReq { hq_seq : Z; hq_modid : Z; hq_cmdid : Z }.
Record GetHostResponse := MkHostRsp {
  hr_seq : Z; hr_modid : Z; hr_cmdid : Z; hr_retcode : Z; hr_host : option HostInfo }.
Record ReportRequest := MkReportReq {
  rp_modid : Z; rp_cmdid : Z; rp_host : option HostInfo; rp_retcode : Z }.

#[global] Instance HostInfo_eq_dec : EqDecision HostInfo.
Proof. solve_decision. Defined.

(** [msg.host()]: an absent field reads as the default instance. *)
Definition get_field (h : option HostInfo) : HostInfo := default (MkHostInfo 0 0) h.

(** Protobuf does not serialize messages of 2 GB or more; with this many elements in
    its repeated field a message stays well below. *)
Definition MAX_REPEATED : Z := 10000000.

(** What a message must satisfy to be stored in its fields. *)
Definition HostInfo_ok (h : HostInfo) : Prop := is_s32 (h_ip h) /\ is_s32 (h_port h).
Definition RouteReq_ok (m : GetRouteRequest) : Prop := is_s32 (rq_modid m) /\ is_s32 (rq_cmdid m).
Definition RouteRsp_ok (m : GetRouteResponse) : Prop :=
  is_s32 (rr_modid m) /\ is_s32 (rr_cmdid m) /\ Forall HostInfo_ok (rr_host m) /\ zlen (rr_host m) <= MAX_REPEATED.
Definition HostReq_ok (m : GetHostRequest) : Prop :=
  is_u32 (hq_seq m) /\ is_s32 (hq_modid m) /\ is_s32 (hq_cmdid m).
Definition HostRsp_ok (m : GetHostResponse) : Prop :=
  is_u32 (hr_seq m) /\ is_s32 (hr_modid m) /\ is_s32 (hr_cmdid m) /\ is_s32 (hr_retcode m) /\
  (forall h, hr_host m = Some h -> HostInfo_ok h).
Definition ReportReq_ok (m : ReportRequest) : Prop :=
  is_s32 (rp_modid m) /\ is_s32 (rp_cmdid m) /\ is_s32 (rp_retcode m) /\
  (forall h, rp_host m = Some h -> HostInfo_ok h).
Definition CallResult_ok (m : HostCallResult) : Prop :=
  is_s32 (cr_ip m) /\ is_s32 (cr_port m) /\ is_u32 (cr_succ m) /\ is_u32 (cr_err m).
Definition StatusReq_ok (m : ReportStatusReq) : Prop :=
  is_s32 (rs_modid m) /\ is_s32 (rs_cmdid m) /\ is_s32 (rs_caller m) /\ is_u32 (rs_ts m) /\
  Forall CallResult_ok (rs_results m) /\ zlen (rs_results m) <= MAX_REPEATED.

(** What the program relies on of a generated message class: [SerializeToString]
    of a message and [ParseFromArray] of the result succeed and give the message
    back.  [parse] is the message object after [ParseFromArray], [parse_ok] the
    value it returns, which most callers ignore. *)
Class Codec (M : Type) (ok : M -> Prop) := {
  serialize : M -> list byte;
  parse : list byte -> M;
  parse_ok : list byte -> bool;
  parse_serialize m : ok m -> parse (serialize m) = m;
  parse_ok_serialize m : ok m -> parse_ok (serialize m) = true
}.
#[global] Hint Mode Codec ! - : typeclass_instances.

(** All message classes together.  A [GetHostResponse] with the first three fields
    set is the same bytes as the [GetHostRequest] with these fields: the field
    numbers and types agree. *)
Class Protobuf := {
  codec_route_req :: Codec GetRouteRequest RouteReq_ok;
  codec_route_rsp :: Codec GetRouteResponse RouteRsp_ok;
  codec_host_req :: Codec GetHostRequest HostReq_ok;
  codec_host_rsp :: Codec GetHostResponse HostRsp_ok;
  codec_report_req :: Codec ReportRequest ReportReq_ok;
  codec_status_req :: Codec ReportStatusReq StatusReq_ok;
  host_req_compat seq modid cmdid :
    is_u32 seq -> is_s32 modid -> is_s32 cmdid ->
    @parse _ _ codec_host_req (@serialize _ _ codec_host_rsp (MkHostRsp seq modid cmdid 0 None)) =
    MkHostReq seq modid cmdid
}.

(** ** A concrete wire format

    A format that satisfies the laws, built from fixed-width fields: it shows that
    they can hold and lets the examples run. *)
Module Wire.

Definition put_ints (zs : list Z) : list byte := concat (int_bytes <$> zs).

Fixpoint get_ints (n : nat) (bs : list byte) : list Z :=
  match n with
  | O => []
  | S n => bytes_int (take 4 bs) :: get_ints n (drop 4 bs)
  end.

Lemma get_put_ints zs rest :
  Forall is_s32 zs -> get_ints (length zs) (put_ints zs ++ rest) = zs.
Proof.
  induction 1 as [|z zs Hz _ IH]; [done|]. unfold put_ints. rewrite fmap_cons.
  cbn [concat length get_ints]. fold (put_ints zs). rewrite <-app_assoc.
  pose proof (length_int_bytes z) as Hl.
  rewrite take_app_le, take_ge, bytes_int_bytes by lia || done.
  rewrite drop_app_le, drop_ge, app_nil_l by lia. by rewrite IH.
Qed.

Lemma length_put_ints zs : length (put_ints zs) = (4 * length zs)%nat.
Proof.
  induction zs as [|z zs IH]; [done|]. unfold put_ints in *. rewrite fmap_cons. cbn [concat length].
  rewrite length_app, length_int_bytes, IH. lia.
Qed.

(** A message as the list of its fields, and back. *)
Section Fields.
Context {M : Type} {ok : M -> Prop} (fields : M -> list Z) (build : list Z -> M).
Context (fields_s32 : forall m, ok m -> Forall is_s32 (fields m)).
Context (build_fields : forall m, ok m -> build (fields m) = m).

Definition wire_serialize (m : M) : list byte := put_ints (fields m).
Definition wire_parse (bs : list byte) : M := build (get_ints (length bs / 4) bs).

Lemma wire_roundtrip m : ok m -> wire_parse (wire_serialize m) = m.
Proof using build_fields fields_s32.
  intros Hm. unfold wire_parse, wire_serialize. rewrite length_put_ints.
  rewrite (Nat.mul_comm 4), Nat.div_mul by lia.
  rewrite <-(app_nil_r (put_ints _)), get_put_ints by auto. auto.
Qed.

Definition wire_codec : Codec M ok :=
  {| serialize := wire_serialize; parse := wire_parse; parse_ok _ := true;
     parse_serialize := wire_roundtrip; parse_ok_serialize _ _ := eq_refl |}.
End Fields.

Definition nth_z (n : nat) (zs : list Z) : Z := default 0 (zs !! n).

Fixpoint hosts_of (zs : list Z) : list HostInfo :=
  match zs with
  | a :: b :: zs => MkHostInfo a b :: hosts_of zs
  | _ => []
  end.
Definition host_fields (hs : list HostInfo) : list Z := concat ((fun h => [h_ip h; h_port h]) <$> hs).
Definition opt_fields (h : option HostInfo) : list Z := host_fields (option_list h).
Definition opt_of (zs : list Z) : option HostInfo := head (hosts_of zs).

Fixpoint results_of (zs : list Z) : list HostCallResult :=
  match zs with
  | a :: b :: c :: d :: e :: zs => MkCallResult a b (u32 c) (u32 d) (bool_decide (e <> 0)) :: results_of zs
  | _ => []
  end.
Definition result_fields (rs : list HostCallResult) : list Z :=
  concat ((fun r => [cr_ip r; cr_port r; s32 (cr_succ r); s32 (cr_err r); Z.b2z (cr_overload r)]) <$> rs).

Lemma hosts_of_fields hs : hosts_of (host_fields hs) = hs.
Proof. induction hs as [|[a b] hs IH]; [done|].
  change (host_fields (MkHostInfo a b :: hs)) with (a :: b :: host_fields hs). simpl. by rewrite IH. Qed.

Lemma host_fields_s32 hs : Forall HostInfo_ok hs -> Forall is_s32 (host_fields hs).
Proof.
  induction 1 as [|h hs [H1 H2] _ IH]; [constructor|].
  change (host_fields (h :: hs)) with (h_ip h :: h_port h :: host_fields hs). by repeat (apply Forall_cons; split).
Qed.

Lemma opt_fields_s32 h : (forall x, h = Some x -> HostInfo_ok x) -> Forall is_s32 (opt_fields h).
Proof. intros H. apply host_fields_s32. destruct h; simpl; [|constructor]. apply Forall_singleton; auto. Qed.

Lemma opt_of_fields h : opt_of (opt_fields h) = h.
Proof. unfold opt_of, opt_fields. rewrite hosts_of_fields. by destruct h. Qed.

Lemma u32_s32_id z : is_u32 z -> u32 (s32 z) = z.
Proof. int_solve. Qed.

Lemma results_of_fields rs : Forall CallResult_ok rs -> results_of (result_fields rs) = rs.
Proof.
  induction 1 as [|[a b c d e] rs (H1 & H2 & H3 & H4) _ IH]; [done|].
  change (result_fields (MkCallResult a b c d e :: rs))
    with (a :: b :: s32 c :: s32 d :: Z.b2z e :: result_fields rs). simpl in *.
  rewrite IH, !u32_s32_id by done. by destruct e.
Qed.

Lemma result_fields_s32 rs : Forall CallResult_ok rs -> Forall is_s32 (result_fields rs).
Proof.
  induction 1 as [|[a b c d e] rs (H1 & H2 & H3 & H4) _ IH]; [constructor|].
  change (result_fields (MkCallResult a b c d e :: rs))
    with (a :: b :: s32 c :: s32 d :: Z.b2z e :: result_fields rs). simpl in *.
  repeat (apply Forall_cons; split; auto with ints). by destruct e.
Qed.

#[global, refine] Instance wire : Protobuf := {|
  codec_route_req := wire_codec (fun m => [rq_modid m; rq_cmdid m])
    (fun zs => MkRouteReq (nth_z 0 zs) (nth_z 1 zs)) _ _;
  codec_route_rsp := wire_codec (fun m => rr_modid m :: rr_cmdid m :: host_fields (rr_host m))
    (fun zs => MkRouteRsp (nth_z 0 zs) (nth_z 1 zs) (hosts_of (drop 2 zs))) _ _;
  codec_host_req := wire_codec (fun m => [s32 (hq_seq m); hq_modid m; hq_cmdid m])
    (fun zs => MkHostReq (u32 (nth_z 0 zs)) (nth_z 1 zs) (nth_z 2 zs)) _ _;
  codec_host_rsp := wire_codec
    (fun m => s32 (hr_seq m) :: hr_modid m :: hr_cmdid m :: hr_retcode m :: opt_fields (hr_host m))
    (fun zs => MkHostRsp (u32 (nth_z 0 zs)) (nth_z 1 zs) (nth_z 2 zs) (nth_z 3 zs) (opt_of (drop 4 zs))) _ _;
  codec_report_req := wire_codec
    (fun m => rp_modid m :: rp_cmdid m :: rp_retcode m :: opt_fields (rp_host m))
    (fun zs => MkReportReq (nth_z 0 zs) (nth_z 1 zs) (opt_of (drop 3 zs)) (nth_z 2 zs)) _ _;
  codec_status_req := wire_codec
    (fun m => rs_modid m :: rs_cmdid m :: rs_caller m :: s32 (rs_ts m) :: result_fields (rs_results m))
    (fun zs => MkStatusReq (nth_z 0 zs) (nth_z 1 zs) (nth_z 2 zs) (results_of (drop 4 zs)) (u32 (nth_z 3 zs))) _ _
|}.
Proof.
  13: { intros seq modid cmdid H1 H2 H3. cbn [serialize parse wire_codec]. unfold wire_parse, wire_serialize.
    rewrite length_put_ints, (Nat.mul_comm 4), Nat.div_mul by lia.
    rewrite <-(app_nil_r (put_ints _)), get_put_ints.
    - unfold nth_z. simpl. by rewrite u32_s32_id.
    - repeat match goal with
             | |- Forall _ (_ :: _) => apply Forall_cons; split; [by auto with ints|]
             end. by apply Forall_nil. }
  all: intros m Hm; unfold RouteReq_ok, RouteRsp_ok, HostReq_ok, HostRsp_ok, ReportReq_ok, StatusReq_ok in Hm;
    destruct m; simpl in *; destruct_and?.
  all: lazymatch goal with
    | |- Forall _ _ =>
        repeat match goal with
               | |- Forall _ (_ :: _) => apply Forall_cons; split; [by auto with ints|]
               end;
        first [by apply Forall_nil | by apply host_fields_s32 | by apply opt_fields_s32 | by apply result_fields_s32]
    | |- _ =>
        unfold nth_z; simpl;
        by rewrite ?drop_0, ?hosts_of_fields, ?opt_of_fields, ?results_of_fields, ?u32_s32_id by done
    end.
Defined.
End Wire.
