(* ===== verification/PbRuntime.v ===== *)
(** * The protobuf runtime as generated code uses it

    The classes that protoc emits call the C++ runtime library, which is not part of
    the sources.  [Runtime] is the part of its interface they use, with the laws of
    the documented wire format: base-128 varints, a tag in front of every field,
    length-prefixed embedded messages, unknown fields kept and written back.  A
    pointer into the input is the list of the bytes from there to the limit of the
    message being parsed; reading past the limit gives the null pointer.  The loop
    that protoc emits into every [_InternalParse] is [parse_loop]. *)

From S2P Require Import Prelude.

(** How a call of [_InternalParse] ends when it does not fail: at the limit, or at a
    tag that ends a message ([ctx->SetLastTag]). *)
Inductive ending := AtLimit | LastTag (tag : Z).

(** What [_InternalParse] returns; [Diverged] is a loop that has used up its fuel. *)
Inductive outcome := Returned (ptr : list byte) (e : ending) | Failed | Diverged.

(** The pointer after the case of one field. *)
Inductive step := Next (ptr : list byte) | Null | NoFuel.

Definition step_of (p : option (list byte)) : step := match p with Some ptr => Next ptr | None => Null end.

Class Runtime := {
  (** an element of an [UnknownFieldSet]: its tag and the bytes that follow it *)
  ufield : Type;
  uf_ok : ufield -> Prop;
  uf_tag : ufield -> Z;
  uf_data : ufield -> list byte;
  (** [coded_stream.h], [parse_context.h] *)
  varint : Z -> list byte;
  ReadVarint64 : list byte -> Z * option (list byte);
  ReadTag : list byte -> Z * option (list byte);
  ParseMessage : forall {M}, (M -> list byte -> M * outcome) -> M -> list byte -> M * option (list byte);
  UnknownFieldParse : Z -> list ufield -> list byte -> list ufield * option (list byte);
  (** [wire_format_lite.h], [wire_format.h] *)
  WriteInt32ToArray : Z -> Z -> list byte;
  InternalWriteMessage : Z -> Z -> list byte -> list byte;
  InternalSerializeUnknownFieldsToArray : list ufield -> list byte;
  Int32Size : Z -> Z;
  LengthDelimitedSize : Z -> Z;
  ComputeUnknownFieldsSize : list ufield -> Z -> Z;
  (** [message_lite.h] *)
  SerializeToString : forall {M}, (M -> Z * M) -> (M -> list byte) -> M -> list byte;
  ParseFromArray : forall {M}, (M -> M) -> (M -> list byte -> M * outcome) -> list byte -> M -> bool * M;

  (** varints and tags are read back; a tag below 128 is one byte, none has more than ten *)
  read_varint z rest : is_u64 z -> ReadVarint64 (varint z ++ rest) = (z, Some rest);
  read_tag t rest : is_u32 t -> ReadTag (varint t ++ rest) = (t, Some rest);
  varint_small t : 0 <= t < 128 -> varint t = [byte_of_Z t];
  varint_len z : zlen (varint z) <= 10;
  (** reading moves forward *)
  read_varint_len bs rest : (ReadVarint64 bs).2 = Some rest -> (length rest <= length bs)%nat;
  read_tag_len bs rest : (ReadTag bs).2 = Some rest -> (length rest < length bs)%nat;
  unknown_len t us bs rest : (UnknownFieldParse t us bs).2 = Some rest -> (length rest <= length bs)%nat;
  parse_message_len {M} (p : M -> list byte -> M * outcome) m bs rest :
    (ParseMessage p m bs).2 = Some rest -> (length rest <= length bs)%nat;
  (** an embedded message is its length and its body, which the parser must consume *)
  parse_message_ok {M} (p : M -> list byte -> M * outcome) m m' body rest :
    zlen body < 2147483648 -> p m body = (m', Returned [] AtLimit) ->
    ParseMessage p m (varint (zlen body) ++ body ++ rest) = (m', Some rest);
  (** unknown fields are kept in order *)
  uf_tag_ok f : uf_ok f -> is_u32 (uf_tag f) /\ uf_tag f <> 0 /\ Z.land (uf_tag f) 7 <> 4;
  unknown_ok f us rest : uf_ok f -> UnknownFieldParse (uf_tag f) us (uf_data f ++ rest) = (us ++ [f], Some rest);
  (** writing *)
  write_int32 f v : WriteInt32ToArray f v = varint (8 * f) ++ varint (u64 v);
  write_message f size body : InternalWriteMessage f size body = varint (8 * f + 2) ++ varint (u32 size) ++ body;
  write_unknown us :
    InternalSerializeUnknownFieldsToArray us = concat ((fun f => varint (uf_tag f) ++ uf_data f) <$> us);
  (** sizes *)
  int32_size v : Int32Size v = zlen (varint (u64 v));
  length_delimited_size n : LengthDelimitedSize n = n + zlen (varint (u32 n));
  unknown_size us total : ComputeUnknownFieldsSize us total = total + zlen (InternalSerializeUnknownFieldsToArray us);
  (** a message below 2 GB is sized, which stores the sizes of its parts, then written *)
  serialize_to_string {M} (size : M -> Z * M) (ser : M -> list byte) m :
    (size m).1 < 2147483648 -> SerializeToString size ser m = ser (size m).2;
  (** [Clear], then [_InternalParse], which must reach the end of the array *)
  parse_from_array {M} (clear : M -> M) (p : M -> list byte -> M * outcome) bs m :
    ParseFromArray clear p bs m =
    (match (p (clear m) bs).2 with Returned _ AtLimit => true | _ => false end, (p (clear m) bs).1)
}.

(** ** The loop of [_InternalParse] *)
Section Loop.
Context `{!Runtime} {M : Type}.
Context (unknown : M -> list ufield) (set_unknown : list ufield -> M -> M).

(** The cases of the [switch]: what the case of a known field does with the message
    and the pointer; [None] for [handle_unusual]. *)
Context (field : Z -> option (M -> list byte -> M * step)).

Fixpoint parse_loop (fuel : nat) (m : M) (ptr : list byte) : M * outcome :=
  match fuel with
  | O => (m, Diverged)
  | S fuel =>
      if bool_decide (ptr = []) then (m, Returned ptr AtLimit)
      else
        match ReadTag ptr with
        | (_, None) => (m, Failed)
        | (tag, Some ptr) =>
            match field tag with
            | Some parse_field =>
                match parse_field m ptr with
                | (m, Next ptr) => parse_loop fuel m ptr
                | (m, Null) => (m, Failed)
                | (m, NoFuel) => (m, Diverged)
                end
            | None =>
                if bool_decide (Z.land tag 7 = 4 \/ tag = 0) then (m, Returned ptr (LastTag tag))
                else
                  let '(us, p) := UnknownFieldParse tag (unknown m) ptr in
                  match p with
                  | Some ptr => parse_loop fuel (set_unknown us m) ptr
                  | None => (set_unknown us m, Failed)
                  end
            end
        end
  end.

Definition parse_run (m : M) (ptr : list byte) : M * outcome := parse_loop (S (length ptr)) m ptr.

(** The cases end, at a pointer that is not before the one they got. *)
Definition field_forward : Prop := forall tag f m ptr,
  field tag = Some f ->
  match (f m ptr).2 with Next p => (length p <= length ptr)%nat | Null => True | NoFuel => False end.

Lemma parse_loop_ends fuel m ptr :
  field_forward -> (length ptr < fuel)%nat -> (parse_loop fuel m ptr).2 <> Diverged.
Proof.
  intros Hf. revert m ptr. induction fuel as [|fuel IH]; intros m ptr Hl; [lia|]. cbn [parse_loop].
  case_bool_decide as Hn; [done|]. destruct (ReadTag ptr) as [tag [p|]] eqn:Et; [|done].
  pose proof (read_tag_len ptr p) as Htl. rewrite Et in Htl. specialize (Htl eq_refl).
  destruct (field tag) as [f|] eqn:Ef.
  - specialize (Hf tag f m p Ef). destruct (f m p) as [m' [p'| |]]; cbn [snd] in Hf; [|done..].
    apply IH. lia.
  - case_bool_decide; [done|].
    destruct (UnknownFieldParse tag (unknown m) p) as [us [p'|]] eqn:Eu; [|done].
    pose proof (unknown_len tag (unknown m) p p') as Hul. rewrite Eu in Hul. specialize (Hul eq_refl).
    apply IH. lia.
Qed.

Lemma parse_loop_fuel fuel fuel' m ptr :
  field_forward -> (length ptr < fuel)%nat -> (length ptr < fuel')%nat ->
  parse_loop fuel m ptr = parse_loop fuel' m ptr.
Proof.
  intros Hf. revert fuel' m ptr. induction fuel as [|fuel IH]; intros fuel' m ptr Hl Hl'; [lia|].
  destruct fuel' as [|fuel']; [lia|]. cbn [parse_loop].
  case_bool_decide as Hn; [done|]. destruct (ReadTag ptr) as [tag [p|]] eqn:Et; [|done].
  pose proof (read_tag_len ptr p) as Htl. rewrite Et in Htl. specialize (Htl eq_refl).
  destruct (field tag) as [f|] eqn:Ef.
  - specialize (Hf tag f m p Ef). destruct (f m p) as [m' [p'| |]]; cbn [snd] in Hf; [|done..].
    apply IH; lia.
  - case_bool_decide; [done|].
    destruct (UnknownFieldParse tag (unknown m) p) as [us [p'|]] eqn:Eu; [|done].
    pose proof (unknown_len tag (unknown m) p p') as Hul. rewrite Eu in Hul. specialize (Hul eq_refl).
    apply IH; lia.
Qed.

(** The loop without its fuel. *)
Lemma parse_run_unfold m ptr :
  field_forward ->
  parse_run m ptr =
  if bool_decide (ptr = []) then (m, Returned ptr AtLimit)
  else
    match ReadTag ptr with
    | (_, None) => (m, Failed)
    | (tag, Some ptr) =>
        match field tag with
        | Some parse_field =>
            match parse_field m ptr with
            | (m, Next ptr) => parse_run m ptr
            | (m, Null) => (m, Failed)
            | (m, NoFuel) => (m, Diverged)
            end
        | None =>
            if bool_decide (Z.land tag 7 = 4 \/ tag = 0) then (m, Returned ptr (LastTag tag))
            else
              let '(us, p) := UnknownFieldParse tag (unknown m) ptr in
              match p with
              | Some ptr => parse_run (set_unknown us m) ptr
              | None => (set_unknown us m, Failed)
              end
        end
    end.
Proof.
  intros Hf. unfold parse_run at 1. cbn [parse_loop].
  case_bool_decide as Hn; [done|]. destruct (ReadTag ptr) as [tag [p|]] eqn:Et; [|done].
  pose proof (read_tag_len ptr p) as Htl. rewrite Et in Htl. specialize (Htl eq_refl).
  destruct (field tag) as [f|] eqn:Ef.
  - pose proof (Hf tag f m p Ef) as Hfw. destruct (f m p) as [m' [p'| |]]; cbn [snd] in Hfw; [|done..].
    apply parse_loop_fuel; [done|lia..].
  - case_bool_decide; [done|].
    destruct (UnknownFieldParse tag (unknown m) p) as [us [p'|]] eqn:Eu; [|done].
    pose proof (unknown_len tag (unknown m) p p') as Hul. rewrite Eu in Hul. specialize (Hul eq_refl).
    apply parse_loop_fuel; [done|lia..].
Qed.

Lemma parse_run_nil m : parse_run m [] = (m, Returned [] AtLimit).
Proof. done. Qed.

(** Input that starts with a tag, of a known and of an unknown field. *)
Lemma tag_not_nil tag rest : is_u32 tag -> varint tag ++ rest <> [].
Proof.
  intros Ht E0. pose proof (read_tag_len (varint tag ++ rest) rest) as Hl. rewrite read_tag in Hl by done.
  specialize (Hl eq_refl). rewrite E0 in Hl. simpl in Hl. lia.
Qed.

Lemma parse_run_field tag f m ptr :
  field_forward -> is_u32 tag -> field tag = Some f ->
  parse_run m (varint tag ++ ptr) =
  match f m ptr with
  | (m, Next ptr) => parse_run m ptr
  | (m, Null) => (m, Failed)
  | (m, NoFuel) => (m, Diverged)
  end.
Proof.
  intros Hf Ht Ef. rewrite parse_run_unfold by done.
  rewrite bool_decide_eq_false_2 by (by apply tag_not_nil). by rewrite read_tag, Ef by done.
Qed.

Lemma parse_run_unknown f m rest :
  field_forward -> uf_ok f -> field (uf_tag f) = None ->
  parse_run m ((varint (uf_tag f) ++ uf_data f) ++ rest) = parse_run (set_unknown (unknown m ++ [f]) m) rest.
Proof.
  intros Hf Hok Ef. destruct (uf_tag_ok f Hok) as (Ht & H0 & H4). rewrite <-app_assoc, parse_run_unfold by done.
  rewrite bool_decide_eq_false_2 by (by apply tag_not_nil). rewrite read_tag, Ef by done.
  rewrite bool_decide_eq_false_2 by (intros [?|?]; done). by rewrite unknown_ok.
Qed.

(** Unknown fields that the class really does not know. *)
Definition foreign (us : list ufield) : Prop := Forall (fun f => uf_ok f /\ field (uf_tag f) = None) us.

Lemma parse_run_unknowns us m rest :
  field_forward -> foreign us ->
  (forall m us us', set_unknown us' (set_unknown us m) = set_unknown us' m) ->
  (forall m us, unknown (set_unknown us m) = us) -> (forall m, set_unknown (unknown m) m = m) ->
  parse_run m (InternalSerializeUnknownFieldsToArray us ++ rest) =
  parse_run (set_unknown (unknown m ++ us) m) rest.
Proof.
  intros Hf Hus Hss Hus' Hid. rewrite write_unknown. revert m.
  induction Hus as [|f us [Hok Ef] _ IH]; intros m; cbn [fmap list_fmap concat].
  - by rewrite app_nil_r, Hid.
  - rewrite <-(app_assoc _ (concat _)). rewrite parse_run_unknown by done.
    rewrite IH, Hus', Hss. by rewrite <-app_assoc.
Qed.
End Loop.

(** ** The wire format

    A runtime that satisfies the laws: varints of at most ten bytes, tags of at most
    five, and unknown fields of the wire types varint, 64-bit, length-delimited and
    32-bit.  (Groups are refused.) *)
Module PbWire.

Fixpoint put_varint (fuel : nat) (z : Z) : list byte :=
  match fuel with
  | O => []
  | S fuel => if bool_decide (z < 128) then [byte_of_Z z] else byte_of_Z (128 + z mod 128) :: put_varint fuel (z / 128)
  end.

Fixpoint get_varint (fuel : nat) (bs : list byte) : Z * option (list byte) :=
  match fuel, bs with
  | S fuel, b :: bs =>
      let v := byte_to_Z b in
      if bool_decide (v < 128) then (v, Some bs)
      else let '(z, p) := get_varint fuel bs in (v - 128 + 128 * z, p)
  | _, _ => (0, None)
  end.

Lemma get_put_varint fuel z rest :
  (0 < fuel)%nat -> 0 <= z < 128 ^ Z.of_nat fuel -> get_varint fuel (put_varint fuel z ++ rest) = (z, Some rest).
Proof.
  revert z. induction fuel as [|fuel IH]; intros z Hf Hz; [lia|].
  rewrite Nat2Z.inj_succ, Z.pow_succ_r in Hz by lia. cbn [put_varint].
  case_bool_decide as Hs; cbn [app get_varint]; rewrite byte_to_of_Z.
  - rewrite Z.mod_small by lia. by rewrite bool_decide_eq_true_2.
  - pose proof (Z.mod_pos_bound z 128 ltac:(lia)). rewrite (Z.mod_small (128 + _)) by lia.
    rewrite bool_decide_eq_false_2 by lia. rewrite IH.
    + f_equal. pose proof (Z.div_mod z 128 ltac:(lia)). lia.
    + destruct fuel; [simpl in Hz; lia|lia].
    + split; [apply Z.div_pos; lia|]. apply Z.div_lt_upper_bound; lia.
Qed.

Lemma get_varint_len fuel bs rest : (get_varint fuel bs).2 = Some rest -> (length rest < length bs)%nat.
Proof.
  revert bs. induction fuel as [|fuel IH]; intros [|b bs] H; try done. cbn [get_varint] in H.
  case_bool_decide; [injection H as ->; simpl; lia|].
  specialize (IH bs). destruct (get_varint fuel bs) as [z p]. specialize (IH H). simpl. lia.
Qed.

(** A number below [2^n] does not need more fuel. *)
Lemma put_varint_more fuel z :
  (0 < fuel)%nat -> 0 <= z < 128 ^ Z.of_nat fuel -> put_varint (S fuel) z = put_varint fuel z.
Proof.
  revert z. induction fuel as [|fuel IH]; intros z Hf Hz; [lia|].
  rewrite Nat2Z.inj_succ, Z.pow_succ_r in Hz by lia. cbn [put_varint] in IH |- *.
  case_bool_decide as Hs; [done|]. f_equal. destruct fuel as [|fuel].
  - simpl in Hz. lia.
  - apply IH; [lia|]. split; [apply Z.div_pos; lia|]. apply Z.div_lt_upper_bound; lia.
Qed.

Lemma put_varint_len fuel z : zlen (put_varint fuel z) <= Z.of_nat fuel.
Proof.
  revert z. induction fuel as [|fuel IH]; intros z; [done|]. cbn [put_varint].
  case_bool_decide; rewrite zlen_cons; [unfold zlen; simpl; lia|]. specialize (IH (z / 128)). lia.
Qed.

Definition wvarint (z : Z) : list byte := put_varint 10 z.

Lemma wvarint_u32 z : is_u32 z -> wvarint z = put_varint 5 z.
Proof.
  intros Hz. unfold wvarint.
  do 5 (rewrite put_varint_more; [|lia|unfold is_u32 in Hz; simpl Z.of_nat; lia]). done.
Qed.

(** Exactly [n] bytes. *)
Definition get_bytes (n : Z) (bs : list byte) : option (list byte * list byte) :=
  if bool_decide (n <= zlen bs) then Some (take (Z.to_nat n) bs, drop (Z.to_nat n) bs) else None.

Lemma get_bytes_app body rest : get_bytes (zlen body) (body ++ rest) = Some (body, rest).
Proof.
  unfold get_bytes. rewrite bool_decide_eq_true_2 by zlen_lia. unfold zlen. rewrite Nat2Z.id.
  by rewrite take_app_length, drop_app_length.
Qed.

Lemma get_bytes_len n bs body rest : get_bytes n bs = Some (body, rest) -> (length rest <= length bs)%nat.
Proof. unfold get_bytes. case_bool_decide; [|done]. intros [= _ <-]. rewrite length_drop. lia. Qed.

Inductive wfield :=
| UVarint (num v : Z)
| UFixed64 (num : Z) (data : list byte)
| ULen (num : Z) (data : list byte)
| UFixed32 (num : Z) (data : list byte).

Definition num_ok (num : Z) : Prop := 0 < num < 536870912.
Definition wf_ok (f : wfield) : Prop :=
  match f with
  | UVarint num v => num_ok num /\ is_u64 v
  | UFixed64 num d => num_ok num /\ zlen d = 8
  | ULen num d => num_ok num /\ zlen d < 2147483648
  | UFixed32 num d => num_ok num /\ zlen d = 4
  end.
Definition wf_tag (f : wfield) : Z :=
  match f with
  | UVarint num _ => 8 * num
  | UFixed64 num _ => 8 * num + 1
  | ULen num _ => 8 * num + 2
  | UFixed32 num _ => 8 * num + 5
  end.
Definition wf_data (f : wfield) : list byte :=
  match f with
  | UVarint _ v => wvarint v
  | ULen _ d => wvarint (zlen d) ++ d
  | UFixed64 _ d | UFixed32 _ d => d
  end.

Definition wunknown (tag : Z) (us : list wfield) (bs : list byte) : list wfield * option (list byte) :=
  let num := tag / 8 in
  let fixed n mk :=
    match get_bytes n bs with Some (d, rest) => (us ++ [mk num d], Some rest) | None => (us, None) end in
  match tag mod 8 with
  | 0 => match get_varint 10 bs with (v, Some rest) => (us ++ [UVarint num v], Some rest) | _ => (us, None) end
  | 1 => fixed 8 UFixed64
  | 2 =>
      match get_varint 10 bs with
      | (n, Some rest) =>
          match get_bytes n rest with Some (d, rest) => (us ++ [ULen num d], Some rest) | None => (us, None) end
      | _ => (us, None)
      end
  | 5 => fixed 4 UFixed32
  | _ => (us, None)
  end.

Definition wparse_message {M} (p : M -> list byte -> M * outcome) (m : M) (bs : list byte)
    : M * option (list byte) :=
  match get_varint 10 bs with
  | (n, Some rest) =>
      match get_bytes n rest with
      | Some (body, rest) =>
          let '(m, o) := p m body in
          match o with Returned _ AtLimit => (m, Some rest) | _ => (m, None) end
      | None => (m, None)
      end
  | (_, None) => (m, None)
  end.

Lemma wunknown_ok f us rest : wf_ok f -> wunknown (wf_tag f) us (wf_data f ++ rest) = (us ++ [f], Some rest).
Proof.
  assert (forall num k, 0 <= k < 8 -> (8 * num + k) mod 8 = k /\ (8 * num + k) / 8 = num) as Hd
    by (intros; split; Z.div_mod_to_equations; lia).
  intros Hf. destruct f as [num v|num d|num d|num d]; destruct Hf as [Hn Hv]; unfold wunknown; cbn [wf_tag wf_data].
  - destruct (Hd num 0) as [H1 H2]; [lia|]. rewrite Z.add_0_r in H1, H2. rewrite H1, H2.
    unfold wvarint. rewrite get_put_varint by (try lia; unfold is_u64 in Hv; simpl Z.of_nat; lia). done.
  - destruct (Hd num 1) as [-> ->]; [lia|]. rewrite <-Hv, get_bytes_app. done.
  - destruct (Hd num 2) as [-> ->]; [lia|]. rewrite <-app_assoc. pose proof (zlen_nonneg d).
    unfold wvarint. rewrite get_put_varint by (try lia; simpl Z.of_nat; lia). by rewrite get_bytes_app.
  - destruct (Hd num 5) as [-> ->]; [lia|]. rewrite <-Hv, get_bytes_app. done.
Qed.

Lemma wunknown_len t us bs rest : (wunknown t us bs).2 = Some rest -> (length rest <= length bs)%nat.
Proof.
  unfold wunknown. pose proof (get_varint_len 10 bs) as Hv. destruct (get_varint 10 bs) as [v [p|]].
  - specialize (Hv p eq_refl).
    destruct (t mod 8) as [|[[[]|[]|]|[|[]|]|]|]; simpl; try done; intros H;
      repeat case_match; simplify_eq/=; try lia;
      match goal with H : get_bytes _ _ = _ |- _ => apply get_bytes_len in H; lia end.
  - destruct (t mod 8) as [|[[[]|[]|]|[|[]|]|]|]; simpl; try done; intros H;
      repeat case_match; simplify_eq/=;
      match goal with H : get_bytes _ _ = _ |- _ => apply get_bytes_len in H; lia end.
Qed.

#[global, refine] Instance wire_runtime : Runtime := {|
  ufield := wfield; uf_ok := wf_ok; uf_tag := wf_tag; uf_data := wf_data;
  varint := wvarint; ReadVarint64 := get_varint 10; ReadTag := get_varint 5;
  ParseMessage := @wparse_message; UnknownFieldParse := wunknown;
  WriteInt32ToArray f v := wvarint (8 * f) ++ wvarint (u64 v);
  InternalWriteMessage f size body := wvarint (8 * f + 2) ++ wvarint (u32 size) ++ body;
  InternalSerializeUnknownFieldsToArray us := concat ((fun f => wvarint (wf_tag f) ++ wf_data f) <$> us);
  Int32Size v := zlen (wvarint (u64 v));
  LengthDelimitedSize n := n + zlen (wvarint (u32 n));
  ComputeUnknownFieldsSize us total :=
    total + zlen (concat ((fun f => wvarint (wf_tag f) ++ wf_data f) <$> us));
  SerializeToString M size ser m := ser (size m).2;
  ParseFromArray M clear p bs m :=
    (match (p (clear m) bs).2 with Returned _ AtLimit => true | _ => false end, (p (clear m) bs).1)
|}.
Proof.
  all: try reflexivity.
  - intros z rest Hz. apply get_put_varint; [lia|]. unfold is_u64 in Hz. simpl Z.of_nat. lia.
  - intros t rest Ht. rewrite wvarint_u32 by done. apply get_put_varint; [lia|]. unfold is_u32 in Ht. simpl Z.of_nat. lia.
  - intros t Ht. unfold wvarint. cbn [put_varint]. by rewrite bool_decide_eq_true_2 by lia.
  - intros z. apply put_varint_len.
  - intros bs rest H. apply get_varint_len in H. lia.
  - intros bs rest H. by apply get_varint_len in H.
  - intros t us bs rest. apply wunknown_len.
  - intros M p m bs rest. unfold wparse_message. pose proof (get_varint_len 10 bs) as Hv.
    destruct (get_varint 10 bs) as [v [q|]]; [|done]. specialize (Hv q eq_refl).
    destruct (get_bytes v q) as [[body r]|] eqn:Eb; [|done]. apply get_bytes_len in Eb.
    destruct (p m body) as [m' [? []| |]]; simpl; try done. intros [= <-]. lia.
  - intros M p m m' body rest Hl Hp. unfold wparse_message, wvarint. pose proof (zlen_nonneg body).
    rewrite get_put_varint by (try lia; simpl Z.of_nat; lia). by rewrite get_bytes_app, Hp.
  - intros f Hf. assert (forall num k, num_ok num -> 0 <= k < 8 -> k <> 4 ->
      is_u32 (8 * num + k) /\ 8 * num + k <> 0 /\ Z.land (8 * num + k) 7 <> 4) as Hn.
    { intros num k Hn Hk H4. unfold num_ok in Hn. split; [unfold is_u32; lia|]. split; [lia|].
      change 7 with (Z.ones 3). rewrite Z.land_ones by lia. change (2 ^ 3) with 8. Z.div_mod_to_equations. lia. }
    destruct f as [num v|num d|num d|num d]; destruct Hf as [Hok _]; cbn [wf_tag];
      [rewrite <-(Z.add_0_r (8 * num))| | |]; apply Hn; done || lia.
  - intros f us rest. apply wunknown_ok.
Defined.
End PbWire.
