(* ===== verification/PbLrlb.v ===== *)
(** * The generated message classes (base/proto/lrlb.pb.cpp, lrlb.pb.h)

    The classes protoc emitted for an early version of the schema: [HostInfo],
    [GetRouteResquest] (so spelled) and [GetRouteResponse].  A class is a record of
    its members: the fields, the unknown fields kept in [_internal_metadata_] and
    [_cached_size_], the size that [ByteSizeLong] leaves for the writer of an
    enclosing message.  The theorems are proved against [Runtime]: what is written is
    read back, concatenated messages are read as their merge, parsing ends on every
    input, and the sizes announced are the sizes written.  At the end the classes
    discharge the interface [Codec] that the rest of the development relies on. *)

From S2P Require Import Prelude.
From S2P Require Import Proto.
From S2P Require Import PbRuntime.

(** [MessageID_IsValid]. *)
Definition MessageID_IsValid (value : Z) : bool :=
  match value with 0 | 1 | 2 => true | _ => false end.

(** [static_cast<uint8>(tag)]. *)
Definition u8 (z : Z) : Z := z mod 256.

Section Classes.
Context `{!Runtime}.

(** An [int32] field: [if (this->f() != 0)] guards writing and sizing. *)
Definition write_field (num v : Z) : list byte := if bool_decide (v <> 0) then WriteInt32ToArray num v else [].
Definition field_size (v : Z) : Z := if bool_decide (v <> 0) then 1 + Int32Size v else 0.
Definition merge_field (from this : Z) : Z := if bool_decide (from <> 0) then from else this.
Definition write_unknown_fields (us : list ufield) : list byte :=
  if bool_decide (length us <> 0%nat) then InternalSerializeUnknownFieldsToArray us else [].

(** The end of [ByteSizeLong]: the size, and the [int] stored in [_cached_size_]. *)
Definition total_size (us : list ufield) (total : Z) : Z :=
  if bool_decide (length us <> 0%nat) then ComputeUnknownFieldsSize us total else total.

(** ** HostInfo *)
Record HostInfo_msg := HostInfoMsg { ip_ : Z; port_ : Z; h_unknown : list ufield; h_cached : Z }.

(** The constructors, [Clear] and the accessors. *)
Definition HostInfo_new : HostInfo_msg := HostInfoMsg 0 0 [] 0.
Definition HostInfo_copy (from : HostInfo_msg) : HostInfo_msg :=
  HostInfoMsg (ip_ from) (port_ from) (h_unknown from) 0.
Definition HostInfo_Clear (m : HostInfo_msg) : HostInfo_msg := HostInfoMsg 0 0 [] (h_cached m).
Definition set_ip (v : Z) (m : HostInfo_msg) : HostInfo_msg := HostInfoMsg v (port_ m) (h_unknown m) (h_cached m).
Definition set_port (v : Z) (m : HostInfo_msg) : HostInfo_msg := HostInfoMsg (ip_ m) v (h_unknown m) (h_cached m).
Definition clear_ip : HostInfo_msg -> HostInfo_msg := set_ip 0.
Definition clear_port : HostInfo_msg -> HostInfo_msg := set_port 0.
Definition HostInfo_set_unknown (us : list ufield) (m : HostInfo_msg) : HostInfo_msg :=
  HostInfoMsg (ip_ m) (port_ m) us (h_cached m).
Definition HostInfo_SetCachedSize (size : Z) (m : HostInfo_msg) : HostInfo_msg :=
  HostInfoMsg (ip_ m) (port_ m) (h_unknown m) (s32 size).

(** The [switch] of [HostInfo::_InternalParse]. *)
Definition HostInfo_field (tag : Z) : option (HostInfo_msg -> list byte -> HostInfo_msg * step) :=
  match Z.shiftr tag 3 with
  | 1 => if bool_decide (u8 tag = 8)
         then Some (fun m ptr => let '(v, p) := ReadVarint64 ptr in (set_ip (s32 v) m, step_of p)) else None
  | 2 => if bool_decide (u8 tag = 16)
         then Some (fun m ptr => let '(v, p) := ReadVarint64 ptr in (set_port (s32 v) m, step_of p)) else None
  | _ => None
  end.
Definition HostInfo_InternalParse : HostInfo_msg -> list byte -> HostInfo_msg * outcome :=
  parse_run h_unknown HostInfo_set_unknown HostInfo_field.

Definition HostInfo_InternalSerialize (m : HostInfo_msg) : list byte :=
  write_field 1 (ip_ m) ++ write_field 2 (port_ m) ++ write_unknown_fields (h_unknown m).

Definition HostInfo_ByteSizeLong (m : HostInfo_msg) : Z * HostInfo_msg :=
  let size := total_size (h_unknown m) (field_size (ip_ m) + field_size (port_ m)) in
  (size, HostInfo_SetCachedSize size m).

(** [this->MergeFrom(from)] and [this->CopyFrom(from)], for different objects. *)
Definition HostInfo_MergeFrom (from this : HostInfo_msg) : HostInfo_msg :=
  HostInfoMsg (merge_field (ip_ from) (ip_ this)) (merge_field (port_ from) (port_ this))
              (h_unknown this ++ h_unknown from) (h_cached this).
Definition HostInfo_CopyFrom (from this : HostInfo_msg) : HostInfo_msg :=
  HostInfo_MergeFrom from (HostInfo_Clear this).
Definition HostInfo_InternalSwap (this other : HostInfo_msg) : HostInfo_msg * HostInfo_msg :=
  (HostInfoMsg (ip_ other) (port_ other) (h_unknown other) (h_cached this),
   HostInfoMsg (ip_ this) (port_ this) (h_unknown this) (h_cached other)).

(** ** GetRouteResquest *)
Record GetRouteResquest_msg := RouteReqMsg { q_modid_ : Z; q_cmdid_ : Z; q_unknown : list ufield; q_cached : Z }.

Definition GetRouteResquest_new : GetRouteResquest_msg := RouteReqMsg 0 0 [] 0.
Definition GetRouteResquest_copy (from : GetRouteResquest_msg) : GetRouteResquest_msg :=
  RouteReqMsg (q_modid_ from) (q_cmdid_ from) (q_unknown from) 0.
Definition GetRouteResquest_Clear (m : GetRouteResquest_msg) : GetRouteResquest_msg :=
  RouteReqMsg 0 0 [] (q_cached m).
Definition req_set_modid (v : Z) (m : GetRouteResquest_msg) : GetRouteResquest_msg :=
  RouteReqMsg v (q_cmdid_ m) (q_unknown m) (q_cached m).
Definition req_set_cmdid (v : Z) (m : GetRouteResquest_msg) : GetRouteResquest_msg :=
  RouteReqMsg (q_modid_ m) v (q_unknown m) (q_cached m).
Definition req_clear_modid : GetRouteResquest_msg -> GetRouteResquest_msg := req_set_modid 0.
Definition req_clear_cmdid : GetRouteResquest_msg -> GetRouteResquest_msg := req_set_cmdid 0.
Definition GetRouteResquest_set_unknown (us : list ufield) (m : GetRouteResquest_msg) : GetRouteResquest_msg :=
  RouteReqMsg (q_modid_ m) (q_cmdid_ m) us (q_cached m).
Definition GetRouteResquest_SetCachedSize (size : Z) (m : GetRouteResquest_msg) : GetRouteResquest_msg :=
  RouteReqMsg (q_modid_ m) (q_cmdid_ m) (q_unknown m) (s32 size).

Definition GetRouteResquest_field (tag : Z)
    : option (GetRouteResquest_msg -> list byte -> GetRouteResquest_msg * step) :=
  match Z.shiftr tag 3 with
  | 1 => if bool_decide (u8 tag = 8)
         then Some (fun m ptr => let '(v, p) := ReadVarint64 ptr in (req_set_modid (s32 v) m, step_of p)) else None
  | 2 => if bool_decide (u8 tag = 16)
         then Some (fun m ptr => let '(v, p) := ReadVarint64 ptr in (req_set_cmdid (s32 v) m, step_of p)) else None
  | _ => None
  end.
Definition GetRouteResquest_InternalParse
    : GetRouteResquest_msg -> list byte -> GetRouteResquest_msg * outcome :=
  parse_run q_unknown GetRouteResquest_set_unknown GetRouteResquest_field.

Definition GetRouteResquest_InternalSerialize (m : GetRouteResquest_msg) : list byte :=
  write_field 1 (q_modid_ m) ++ write_field 2 (q_cmdid_ m) ++ write_unknown_fields (q_unknown m).

Definition GetRouteResquest_ByteSizeLong (m : GetRouteResquest_msg) : Z * GetRouteResquest_msg :=
  let size := total_size (q_unknown m) (field_size (q_modid_ m) + field_size (q_cmdid_ m)) in
  (size, GetRouteResquest_SetCachedSize size m).

Definition GetRouteResquest_MergeFrom (from this : GetRouteResquest_msg) : GetRouteResquest_msg :=
  RouteReqMsg (merge_field (q_modid_ from) (q_modid_ this)) (merge_field (q_cmdid_ from) (q_cmdid_ this))
              (q_unknown this ++ q_unknown from) (q_cached this).
Definition GetRouteResquest_CopyFrom (from this : GetRouteResquest_msg) : GetRouteResquest_msg :=
  GetRouteResquest_MergeFrom from (GetRouteResquest_Clear this).
Definition GetRouteResquest_InternalSwap (this other : GetRouteResquest_msg)
    : GetRouteResquest_msg * GetRouteResquest_msg :=
  (RouteReqMsg (q_modid_ other) (q_cmdid_ other) (q_unknown other) (q_cached this),
   RouteReqMsg (q_modid_ this) (q_cmdid_ this) (q_unknown this) (q_cached other)).

(** ** GetRouteResponse

    [host_] is a list; an element that [Add] gives is a new message. *)
Record GetRouteResponse_msg := RouteRspMsg {
  host_ : list HostInfo_msg; modid_ : Z; cmdid_ : Z; r_unknown : list ufield; r_cached : Z }.

Definition GetRouteResponse_new : GetRouteResponse_msg := RouteRspMsg [] 0 0 [] 0.
Definition GetRouteResponse_copy (from : GetRouteResponse_msg) : GetRouteResponse_msg :=
  RouteRspMsg ((fun h => HostInfo_MergeFrom h HostInfo_new) <$> host_ from) (modid_ from) (cmdid_ from) (r_unknown from) 0.
Definition GetRouteResponse_Clear (m : GetRouteResponse_msg) : GetRouteResponse_msg :=
  RouteRspMsg [] 0 0 [] (r_cached m).
Definition set_modid (v : Z) (m : GetRouteResponse_msg) : GetRouteResponse_msg :=
  RouteRspMsg (host_ m) v (cmdid_ m) (r_unknown m) (r_cached m).
Definition set_cmdid (v : Z) (m : GetRouteResponse_msg) : GetRouteResponse_msg :=
  RouteRspMsg (host_ m) (modid_ m) v (r_unknown m) (r_cached m).
Definition add_host (h : HostInfo_msg) (m : GetRouteResponse_msg) : GetRouteResponse_msg :=
  RouteRspMsg (host_ m ++ [h]) (modid_ m) (cmdid_ m) (r_unknown m) (r_cached m).
Definition clear_modid : GetRouteResponse_msg -> GetRouteResponse_msg := set_modid 0.
Definition clear_cmdid : GetRouteResponse_msg -> GetRouteResponse_msg := set_cmdid 0.
Definition host_size (m : GetRouteResponse_msg) : Z := s32 (zlen (host_ m)).
Definition clear_host (m : GetRouteResponse_msg) : GetRouteResponse_msg :=
  RouteRspMsg [] (modid_ m) (cmdid_ m) (r_unknown m) (r_cached m).
(** [host(index)], and [mutable_host(index)] with what is done through the pointer; the index is not checked. *)
Definition host (index : Z) (m : GetRouteResponse_msg) : res HostInfo_msg :=
  if bool_decide (0 <= index) then match host_ m !! Z.to_nat index with Some h => Ret h | None => Stop OutOfBounds end
  else Stop OutOfBounds.
Definition mutable_host (index : Z) (f : HostInfo_msg -> HostInfo_msg) (m : GetRouteResponse_msg) : res GetRouteResponse_msg :=
  h ← host index m;
  Ret (RouteRspMsg (<[Z.to_nat index := f h]> (host_ m)) (modid_ m) (cmdid_ m) (r_unknown m) (r_cached m)).
Definition GetRouteResponse_set_unknown (us : list ufield) (m : GetRouteResponse_msg) : GetRouteResponse_msg :=
  RouteRspMsg (host_ m) (modid_ m) (cmdid_ m) us (r_cached m).

(** The [do]-[while] loop of the repeated field: it parses an element and goes on
    while the next byte is the tag 26. *)
Fixpoint host_loop (fuel : nat) (m : GetRouteResponse_msg) (ptr : list byte) : GetRouteResponse_msg * step :=
  match fuel with
  | O => (m, NoFuel)
  | S fuel =>
      let '(h, p) := ParseMessage HostInfo_InternalParse HostInfo_new ptr in
      let m := add_host h m in
      match p with
      | None => (m, Null)
      | Some [] => (m, Next [])
      | Some (b :: ptr) =>
          if bool_decide (b = byte_of_Z 26) then host_loop fuel m ptr else (m, Next (b :: ptr))
      end
  end.

Definition GetRouteResponse_field (tag : Z)
    : option (GetRouteResponse_msg -> list byte -> GetRouteResponse_msg * step) :=
  match Z.shiftr tag 3 with
  | 1 => if bool_decide (u8 tag = 8)
         then Some (fun m ptr => let '(v, p) := ReadVarint64 ptr in (set_modid (s32 v) m, step_of p)) else None
  | 2 => if bool_decide (u8 tag = 16)
         then Some (fun m ptr => let '(v, p) := ReadVarint64 ptr in (set_cmdid (s32 v) m, step_of p)) else None
  | 3 => if bool_decide (u8 tag = 26) then Some (fun m ptr => host_loop (S (length ptr)) m ptr) else None
  | _ => None
  end.
Definition GetRouteResponse_InternalParse
    : GetRouteResponse_msg -> list byte -> GetRouteResponse_msg * outcome :=
  parse_run r_unknown GetRouteResponse_set_unknown GetRouteResponse_field.

(** An element is written with the size that [ByteSizeLong] cached in it. *)
Definition write_host (h : HostInfo_msg) : list byte :=
  InternalWriteMessage 3 (h_cached h) (HostInfo_InternalSerialize h).
Definition GetRouteResponse_InternalSerialize (m : GetRouteResponse_msg) : list byte :=
  write_field 1 (modid_ m) ++ write_field 2 (cmdid_ m) ++ concat (write_host <$> host_ m) ++
  write_unknown_fields (r_unknown m).

Definition GetRouteResponse_ByteSizeLong (m : GetRouteResponse_msg) : Z * GetRouteResponse_msg :=
  let sized := HostInfo_ByteSizeLong <$> host_ m in
  let hosts := zlen (host_ m) + foldl Z.add 0 (LengthDelimitedSize <$> sized.*1) in
  let size := total_size (r_unknown m) (hosts + field_size (modid_ m) + field_size (cmdid_ m)) in
  (size, RouteRspMsg sized.*2 (modid_ m) (cmdid_ m) (r_unknown m) (s32 size)).

(** [host_.MergeFrom] merges every element into a new one. *)
Definition GetRouteResponse_MergeFrom (from this : GetRouteResponse_msg) : GetRouteResponse_msg :=
  RouteRspMsg (host_ this ++ ((fun h => HostInfo_MergeFrom h HostInfo_new) <$> host_ from))
              (merge_field (modid_ from) (modid_ this)) (merge_field (cmdid_ from) (cmdid_ this))
              (r_unknown this ++ r_unknown from) (r_cached this).
Definition GetRouteResponse_CopyFrom (from this : GetRouteResponse_msg) : GetRouteResponse_msg :=
  GetRouteResponse_MergeFrom from (GetRouteResponse_Clear this).
Definition GetRouteResponse_InternalSwap (this other : GetRouteResponse_msg)
    : GetRouteResponse_msg * GetRouteResponse_msg :=
  (RouteRspMsg (host_ other) (modid_ other) (cmdid_ other) (r_unknown other) (r_cached this),
   RouteRspMsg (host_ this) (modid_ this) (cmdid_ this) (r_unknown this) (r_cached other)).
End Classes.

(** ** Fields on the wire *)
Section Fields.
Context `{!Runtime}.

Lemma write_unknown_fields_eq us : write_unknown_fields us = InternalSerializeUnknownFieldsToArray us.
Proof.
  unfold write_unknown_fields. destruct us; [|done]. by rewrite write_unknown.
Qed.

Lemma total_size_eq us total : total_size us total = total + zlen (write_unknown_fields us).
Proof.
  rewrite write_unknown_fields_eq. unfold total_size. case_bool_decide as Hl; [apply unknown_size|].
  destruct us; [|done]. rewrite write_unknown. cbn. unfold zlen. simpl. lia.
Qed.

Lemma field_size_eq num v : 1 <= num <= 15 -> field_size v = zlen (write_field num v).
Proof.
  intros Hn. unfold field_size, write_field. case_bool_decide; [|done].
  rewrite write_int32, zlen_app, int32_size, (varint_small (8 * num)) by lia. done.
Qed.

Lemma s32_u64 v : is_s32 v -> s32 (u64 v) = v.
Proof. int_solve. Qed.

(** The case of an [int32] field, as protoc emits it. *)
Definition int_case {M} (set : Z -> M -> M) (m : M) (ptr : list byte) : M * step :=
  let '(v, p) := ReadVarint64 ptr in (set (s32 v) m, step_of p).

Lemma int_case_forward {M} (set : Z -> M -> M) m ptr :
  match (int_case set m ptr).2 with Next p => (length p <= length ptr)%nat | Null => True | NoFuel => False end.
Proof.
  unfold int_case. pose proof (read_varint_len ptr) as Hl. destruct (ReadVarint64 ptr) as [v [p|]]; cbn; [|done].
  by apply Hl.
Qed.

Lemma parse_write_field {M} (unknown : M -> list ufield) set_unknown field (set : Z -> M -> M) (get : M -> Z)
    num v m rest :
  field_forward field -> 1 <= num <= 15 -> field (8 * num) = Some (int_case set) ->
  is_s32 v -> (forall m, set (get m) m = m) ->
  parse_run unknown set_unknown field m (write_field num v ++ rest) =
  parse_run unknown set_unknown field (set (merge_field v (get m)) m) rest.
Proof.
  intros Hf Hn Ef Hv Hid. unfold write_field, merge_field. case_bool_decide as Hz; [|by rewrite Hid].
  rewrite write_int32, <-app_assoc. erewrite parse_run_field; [|done|unfold is_u32; lia|exact Ef].
  unfold int_case. rewrite read_varint by apply u64_range. cbn [step_of]. by rewrite s32_u64.
Qed.
End Fields.

(** Case analysis on the [switch] of a class. *)
Ltac tag_cases E :=
  repeat match type of E with match ?x with _ => _ end = Some _ => destruct x; try discriminate E end;
  apply (inj Some) in E; subst.

(** ** HostInfo is written and read *)
Section HostInfoSpec.
Context `{!Runtime}.

(** A message with [int32] values in its fields and unknown fields that are unknown. *)
Definition HostInfo_wf (m : HostInfo_msg) : Prop :=
  is_s32 (ip_ m) /\ is_s32 (port_ m) /\ foreign HostInfo_field (h_unknown m).

Lemma HostInfo_forward : field_forward HostInfo_field.
Proof.
  intros tag f m ptr E. unfold HostInfo_field in E. tag_cases E;
    [apply (int_case_forward set_port)|apply (int_case_forward set_ip)].
Qed.

Lemma HostInfo_parse_concat m m1 rest :
  HostInfo_wf m1 ->
  HostInfo_InternalParse m (HostInfo_InternalSerialize m1 ++ rest) =
  HostInfo_InternalParse (HostInfo_MergeFrom m1 m) rest.
Proof.
  intros (H1 & H2 & Hu). pose proof HostInfo_forward as Hf.
  unfold HostInfo_InternalParse, HostInfo_InternalSerialize. rewrite <-!app_assoc.
  rewrite (parse_write_field _ _ _ set_ip ip_); [|done|lia|done|done|by intros []].
  rewrite (parse_write_field _ _ _ set_port port_); [|done|lia|done|done|by intros []].
  rewrite write_unknown_fields_eq, parse_run_unknowns; [done|done|done|done|done|by intros []].
Qed.

Lemma HostInfo_parse_ser m m1 :
  HostInfo_wf m1 ->
  HostInfo_InternalParse m (HostInfo_InternalSerialize m1) = (HostInfo_MergeFrom m1 m, Returned [] AtLimit).
Proof.
  intros Hw. rewrite <-(app_nil_r (HostInfo_InternalSerialize m1)), HostInfo_parse_concat by done.
  apply parse_run_nil.
Qed.

Lemma HostInfo_size_eq m : (HostInfo_ByteSizeLong m).1 = zlen (HostInfo_InternalSerialize m).
Proof.
  unfold HostInfo_ByteSizeLong, HostInfo_InternalSerialize. cbn [fst].
  rewrite total_size_eq, (field_size_eq 1), (field_size_eq 2), !zlen_app by lia. lia.
Qed.

(** Storing the cached size does not change what is written. *)
Lemma HostInfo_ser_sized m :
  HostInfo_InternalSerialize (HostInfo_ByteSizeLong m).2 = HostInfo_InternalSerialize m.
Proof. done. Qed.
End HostInfoSpec.

(** ** GetRouteResquest *)
Section RequestSpec.
Context `{!Runtime}.

Definition GetRouteResquest_wf (m : GetRouteResquest_msg) : Prop :=
  is_s32 (q_modid_ m) /\ is_s32 (q_cmdid_ m) /\ foreign GetRouteResquest_field (q_unknown m).

Lemma GetRouteResquest_forward : field_forward GetRouteResquest_field.
Proof.
  intros tag f m ptr E. unfold GetRouteResquest_field in E. tag_cases E;
    [apply (int_case_forward req_set_cmdid)|apply (int_case_forward req_set_modid)].
Qed.

Lemma GetRouteResquest_parse_concat m m1 rest :
  GetRouteResquest_wf m1 ->
  GetRouteResquest_InternalParse m (GetRouteResquest_InternalSerialize m1 ++ rest) =
  GetRouteResquest_InternalParse (GetRouteResquest_MergeFrom m1 m) rest.
Proof.
  intros (H1 & H2 & Hu). pose proof GetRouteResquest_forward as Hf.
  unfold GetRouteResquest_InternalParse, GetRouteResquest_InternalSerialize. rewrite <-!app_assoc.
  rewrite (parse_write_field _ _ _ req_set_modid q_modid_); [|done|lia|done|done|by intros []].
  rewrite (parse_write_field _ _ _ req_set_cmdid q_cmdid_); [|done|lia|done|done|by intros []].
  rewrite write_unknown_fields_eq, parse_run_unknowns; [done|done|done|done|done|by intros []].
Qed.

Lemma GetRouteResquest_size_eq m :
  (GetRouteResquest_ByteSizeLong m).1 = zlen (GetRouteResquest_InternalSerialize m).
Proof.
  unfold GetRouteResquest_ByteSizeLong, GetRouteResquest_InternalSerialize. cbn [fst].
  rewrite total_size_eq, (field_size_eq 1), (field_size_eq 2), !zlen_app by lia. lia.
Qed.
End RequestSpec.

(** ** GetRouteResponse *)
Section ResponseSpec.
Context `{!Runtime}.

Lemma host_loop_forward fuel m ptr :
  (length ptr < fuel)%nat ->
  match (host_loop fuel m ptr).2 with
  | Next p => (length p <= length ptr)%nat | Null => True | NoFuel => False
  end.
Proof.
  revert m ptr. induction fuel as [|fuel IH]; intros m ptr Hl; [lia|]. cbn [host_loop].
  pose proof (parse_message_len HostInfo_InternalParse HostInfo_new ptr) as Hp.
  destruct (ParseMessage _ HostInfo_new ptr) as [h [p|]]; [|done].
  specialize (Hp p eq_refl). destruct p as [|b p]; [cbn; lia|]. simpl in Hp.
  case_bool_decide; [|cbn; lia]. specialize (IH (add_host h m) p ltac:(lia)).
  destruct (host_loop fuel _ p).2; [lia|done..].
Qed.

Lemma host_loop_fuel fuel fuel' m ptr :
  (length ptr < fuel)%nat -> (length ptr < fuel')%nat -> host_loop fuel m ptr = host_loop fuel' m ptr.
Proof.
  revert fuel' m ptr. induction fuel as [|fuel IH]; intros fuel' m ptr Hl Hl'; [lia|].
  destruct fuel' as [|fuel']; [lia|]. cbn [host_loop].
  pose proof (parse_message_len HostInfo_InternalParse HostInfo_new ptr) as Hp.
  destruct (ParseMessage _ HostInfo_new ptr) as [h [p|]]; [|done].
  specialize (Hp p eq_refl). destruct p as [|b p]; [done|]. simpl in Hp.
  case_bool_decide; [|done]. apply IH; lia.
Qed.

Lemma GetRouteResponse_forward : field_forward GetRouteResponse_field.
Proof.
  intros tag f m ptr E. unfold GetRouteResponse_field in E. tag_cases E;
    [apply (host_loop_forward (S (length ptr))); lia|apply (int_case_forward set_cmdid)|apply (int_case_forward set_modid)].
Qed.

(** The rest of the parse after a case. *)
Definition continue (r : GetRouteResponse_msg * step) : GetRouteResponse_msg * outcome :=
  match r with
  | (m, Next ptr) => GetRouteResponse_InternalParse m ptr
  | (m, Null) => (m, Failed)
  | (m, NoFuel) => (m, Diverged)
  end.

(** The [do]-[while] loop does what returning to the main loop after every element
    would do. *)
Lemma host_loop_once m ptr :
  continue (host_loop (S (length ptr)) m ptr) =
  match ParseMessage HostInfo_InternalParse HostInfo_new ptr with
  | (h, Some rest) => GetRouteResponse_InternalParse (add_host h m) rest
  | (h, None) => (add_host h m, Failed)
  end.
Proof.
  cbn [host_loop]. pose proof (parse_message_len HostInfo_InternalParse HostInfo_new ptr) as Hp.
  destruct (ParseMessage _ HostInfo_new ptr) as [h [p|]]; [|done].
  specialize (Hp p eq_refl). destruct p as [|b p]; [done|]. simpl in Hp.
  case_bool_decide as Hb; [|done]. subst b.
  pose proof (parse_run_field r_unknown GetRouteResponse_set_unknown GetRouteResponse_field 26 _
    (add_host h m) p GetRouteResponse_forward ltac:(unfold is_u32; lia) eq_refl) as Hrun.
  rewrite varint_small in Hrun by lia. cbn [app] in Hrun.
  unfold GetRouteResponse_InternalParse. rewrite Hrun. unfold continue, GetRouteResponse_InternalParse.
  rewrite (host_loop_fuel (length ptr) (S (length p))) by lia. done.
Qed.

(** The parser without the fast path. *)
Definition field_once (tag : Z) : option (GetRouteResponse_msg -> list byte -> GetRouteResponse_msg * step) :=
  if bool_decide (Z.shiftr tag 3 = 3 /\ u8 tag = 26)
  then Some (fun m ptr => let '(h, p) := ParseMessage HostInfo_InternalParse HostInfo_new ptr in
                          (add_host h m, step_of p))
  else GetRouteResponse_field tag.
Definition parse_once : GetRouteResponse_msg -> list byte -> GetRouteResponse_msg * outcome :=
  parse_run r_unknown GetRouteResponse_set_unknown field_once.

Lemma field_once_forward : field_forward field_once.
Proof.
  intros tag f m ptr E. unfold field_once in E. case_bool_decide.
  - injection E as <-. pose proof (parse_message_len HostInfo_InternalParse HostInfo_new ptr) as Hp.
    destruct (ParseMessage _ HostInfo_new ptr) as [h [p|]]; cbn; [by apply Hp|done].
  - by apply (GetRouteResponse_forward tag).
Qed.

Lemma field_once_cases tag :
  (exists g, GetRouteResponse_field tag = Some (fun m ptr => host_loop (S (length ptr)) m ptr) /\
             field_once tag = Some g /\
             forall m ptr, g m ptr = let '(h, p) := ParseMessage HostInfo_InternalParse HostInfo_new ptr in
                                     (add_host h m, step_of p)) \/
  field_once tag = GetRouteResponse_field tag.
Proof.
  unfold field_once. case_bool_decide as Ht; [left|by right]. eexists. split; [|done].
  unfold GetRouteResponse_field. destruct Ht as [-> Ht]. by rewrite bool_decide_eq_true_2.
Qed.

(** (C25) The loop over consecutive elements of the repeated field is an optimisation:
    on every input it gives the message and the result of the parser that returns to
    the main loop after every element. *)
Theorem host_fast_path m ptr : GetRouteResponse_InternalParse m ptr = parse_once m ptr.
Proof.
  remember (length ptr) as n eqn:Hn. revert m ptr Hn. induction n as [n IH] using lt_wf_ind. intros m ptr ->.
  unfold GetRouteResponse_InternalParse, parse_once in *.
  rewrite (parse_run_unfold _ _ GetRouteResponse_field) by apply GetRouteResponse_forward.
  rewrite (parse_run_unfold _ _ field_once) by apply field_once_forward.
  case_bool_decide as Hn; [done|]. destruct (ReadTag ptr) as [tag [p|]] eqn:Et; [|done].
  pose proof (read_tag_len ptr p) as Htl. rewrite Et in Htl. specialize (Htl eq_refl).
  destruct (field_once_cases tag) as [(g & -> & -> & Hg)|Hsame].
  - etransitivity; [apply host_loop_once|]. rewrite Hg.
    pose proof (parse_message_len HostInfo_InternalParse HostInfo_new p) as Hp.
    destruct (ParseMessage _ HostInfo_new p) as [h [q|]]; [|done]. specialize (Hp q eq_refl).
    apply (IH (length q)); [lia|done].
  - rewrite Hsame. destruct (GetRouteResponse_field tag) as [f|] eqn:Ef.
    + pose proof (GetRouteResponse_forward tag f m p Ef) as Hfw.
      destruct (f m p) as [m' [q| |]]; [|done..]. apply (IH (length q)); [cbn in Hfw; lia|done].
    + case_bool_decide; [done|]. pose proof (unknown_len tag (r_unknown m) p) as Hul.
      destruct (UnknownFieldParse tag (r_unknown m) p) as [us [q|]]; [|done]. specialize (Hul q eq_refl).
      apply (IH (length q)); [lia|done].
Qed.

(** ** Writing and reading a response *)
Definition GetRouteResponse_wf (m : GetRouteResponse_msg) : Prop :=
  is_s32 (modid_ m) /\ is_s32 (cmdid_ m) /\ Forall HostInfo_wf (host_ m) /\
  foreign GetRouteResponse_field (r_unknown m).

(** The bytes of an element after [ByteSizeLong]. *)
Lemma write_host_sized h :
  (HostInfo_ByteSizeLong h).1 < 2147483648 ->
  write_host (HostInfo_ByteSizeLong h).2 =
  varint 26 ++ varint (zlen (HostInfo_InternalSerialize h)) ++ HostInfo_InternalSerialize h.
Proof.
  intros Hs. unfold write_host. rewrite HostInfo_ser_sized, write_message.
  unfold HostInfo_ByteSizeLong in *. cbn [snd h_cached HostInfo_SetCachedSize fst] in *.
  pose proof (HostInfo_size_eq h) as He. unfold HostInfo_ByteSizeLong in He. cbn [fst] in He. rewrite He in *.
  rewrite u32_s32, u32_small; [done|]. pose proof (zlen_nonneg (HostInfo_InternalSerialize h)). unfold is_u32. lia.
Qed.

Lemma parse_host h m rest :
  HostInfo_wf h -> (HostInfo_ByteSizeLong h).1 < 2147483648 ->
  GetRouteResponse_InternalParse m (write_host (HostInfo_ByteSizeLong h).2 ++ rest) =
  GetRouteResponse_InternalParse (add_host (HostInfo_MergeFrom h HostInfo_new) m) rest.
Proof.
  intros Hw Hs. rewrite write_host_sized by done. rewrite HostInfo_size_eq in Hs. rewrite <-!app_assoc.
  unfold GetRouteResponse_InternalParse at 1.
  rewrite (parse_run_field _ _ _ 26 (fun m ptr => host_loop (S (length ptr)) m ptr));
    [|apply GetRouteResponse_forward|unfold is_u32; lia|done].
  fold GetRouteResponse_InternalParse. etransitivity; [apply host_loop_once|].
  by rewrite (parse_message_ok _ _ (HostInfo_MergeFrom h HostInfo_new)) by (done || by apply HostInfo_parse_ser).
Qed.

Lemma parse_hosts hs m rest :
  Forall HostInfo_wf hs -> Forall (fun h => (HostInfo_ByteSizeLong h).1 < 2147483648) hs ->
  GetRouteResponse_InternalParse m (concat (write_host <$> (HostInfo_ByteSizeLong <$> hs).*2) ++ rest) =
  GetRouteResponse_InternalParse
    (RouteRspMsg (host_ m ++ ((fun h => HostInfo_MergeFrom h HostInfo_new) <$> hs)) (modid_ m) (cmdid_ m)
                 (r_unknown m) (r_cached m)) rest.
Proof.
  intros Hw. revert m. induction Hw as [|h hs Hh _ IH]; intros m Hs; cbn [fmap list_fmap concat].
  - rewrite app_nil_r. by destruct m.
  - apply Forall_cons in Hs as [Hs1 Hs]. rewrite <-app_assoc, parse_host by done.
    rewrite IH by done. cbn [add_host host_ modid_ cmdid_ r_unknown r_cached]. by rewrite <-app_assoc.
Qed.

Lemma sum_zlen (f : HostInfo_msg -> list byte) (g : HostInfo_msg -> Z) hs a :
  Forall (fun h => zlen (f h) = 1 + g h) hs ->
  zlen hs + foldl Z.add a (g <$> hs) = a + zlen (concat (f <$> hs)).
Proof.
  intros Hall. revert a. induction Hall as [|h hs Hh _ IH]; intros a; cbn [fmap list_fmap concat foldl].
  - unfold zlen. simpl. lia.
  - rewrite zlen_cons, zlen_app. specialize (IH (a + g h)). lia.
Qed.

Lemma response_size_eq m :
  (GetRouteResponse_ByteSizeLong m).1 =
  zlen (GetRouteResponse_InternalSerialize (GetRouteResponse_ByteSizeLong m).2).
Proof.
  unfold GetRouteResponse_ByteSizeLong, GetRouteResponse_InternalSerialize. cbv zeta.
  cbn [fst snd host_ modid_ cmdid_ r_unknown]. rewrite total_size_eq, (field_size_eq 1), (field_size_eq 2) by lia.
  rewrite !zlen_app, <-!list_fmap_compose.
  assert (Forall (fun h => zlen (write_host (HostInfo_ByteSizeLong h).2) =
                           1 + LengthDelimitedSize (HostInfo_ByteSizeLong h).1) (host_ m)) as Hall.
  { apply list.Forall_forall. intros h _. unfold write_host. rewrite write_message, length_delimited_size.
    rewrite HostInfo_ser_sized, varint_small by lia. unfold HostInfo_ByteSizeLong at 1. cbn [snd h_cached HostInfo_SetCachedSize].
    rewrite u32_s32, !zlen_app, <-HostInfo_size_eq. unfold zlen at 1. simpl. unfold HostInfo_ByteSizeLong. cbn [fst]. lia. }
  pose proof (sum_zlen _ _ (host_ m) 0 Hall) as Hsum. unfold compose in *. lia.
Qed.

(** A response whose size fits an [int] has elements whose sizes do. *)
Lemma response_hosts_small m :
  (GetRouteResponse_ByteSizeLong m).1 < 2147483648 ->
  Forall (fun h => (HostInfo_ByteSizeLong h).1 < 2147483648) (host_ m).
Proof.
  rewrite response_size_eq. unfold GetRouteResponse_InternalSerialize. cbn [host_ GetRouteResponse_ByteSizeLong snd].
  rewrite !zlen_app. intros Hs. apply list.Forall_forall. intros h Hh.
  apply list_elem_of_split in Hh as (l1 & l2 & El).
  rewrite El, !fmap_app, !fmap_cons, concat_app in Hs. cbn [concat] in Hs. rewrite !zlen_app in Hs.
  unfold write_host at 2 in Hs. rewrite write_message, HostInfo_ser_sized, !zlen_app, <-HostInfo_size_eq in Hs.
  repeat match type of Hs with context [zlen ?l] => pose proof (zlen_nonneg l); generalize dependent (zlen l); intros end.
  lia.
Qed.

Lemma response_parse_concat m m1 rest :
  GetRouteResponse_wf m1 -> (GetRouteResponse_ByteSizeLong m1).1 < 2147483648 ->
  GetRouteResponse_InternalParse m
    (GetRouteResponse_InternalSerialize (GetRouteResponse_ByteSizeLong m1).2 ++ rest) =
  GetRouteResponse_InternalParse (GetRouteResponse_MergeFrom m1 m) rest.
Proof.
  intros (H1 & H2 & Hh & Hu) Hs%response_hosts_small. pose proof GetRouteResponse_forward as Hf.
  unfold GetRouteResponse_InternalSerialize.
  cbn [GetRouteResponse_ByteSizeLong snd host_ modid_ cmdid_ r_unknown]. rewrite <-!app_assoc.
  unfold GetRouteResponse_InternalParse at 1.
  rewrite (parse_write_field _ _ _ set_modid modid_); [|done|lia|done|done|by intros []].
  rewrite (parse_write_field _ _ _ set_cmdid cmdid_); [|done|lia|done|done|by intros []].
  etransitivity; [by apply parse_hosts|]. unfold GetRouteResponse_InternalParse.
  rewrite write_unknown_fields_eq, parse_run_unknowns; [done|done|done|done|done|by intros []].
Qed.
End ResponseSpec.

(** ** What a program that uses the classes sees *)
Section Spec.
Context `{!Runtime}.

(** [SerializeToString] and [ParseFromArray] of the classes. *)
Definition request_string : GetRouteResquest_msg -> list byte :=
  SerializeToString GetRouteResquest_ByteSizeLong GetRouteResquest_InternalSerialize.
Definition request_parse : list byte -> GetRouteResquest_msg -> bool * GetRouteResquest_msg :=
  ParseFromArray GetRouteResquest_Clear GetRouteResquest_InternalParse.
Definition response_string : GetRouteResponse_msg -> list byte :=
  SerializeToString GetRouteResponse_ByteSizeLong GetRouteResponse_InternalSerialize.
Definition response_parse : list byte -> GetRouteResponse_msg -> bool * GetRouteResponse_msg :=
  ParseFromArray GetRouteResponse_Clear GetRouteResponse_InternalParse.

(** The values of the fields. *)
Definition host_value (m : HostInfo_msg) : HostInfo := MkHostInfo (ip_ m) (port_ m).
Definition request_value (m : GetRouteResquest_msg) : GetRouteRequest := MkRouteReq (q_modid_ m) (q_cmdid_ m).
Definition response_value (m : GetRouteResponse_msg) : GetRouteResponse :=
  MkRouteRsp (modid_ m) (cmdid_ m) (host_value <$> host_ m).

(** (C24) Two messages written one after the other are read as their merge, the second
    into the first, over whatever the object held before. *)
Theorem response_concat_merges m0 m1 m2 :
  GetRouteResponse_wf m1 -> GetRouteResponse_wf m2 ->
  (GetRouteResponse_ByteSizeLong m1).1 < 2147483648 -> (GetRouteResponse_ByteSizeLong m2).1 < 2147483648 ->
  response_parse (response_string m1 ++ response_string m2) m0 =
  (true, GetRouteResponse_MergeFrom m2 (GetRouteResponse_CopyFrom m1 m0)).
Proof.
  intros Hw1 Hw2 Hs1 Hs2. unfold response_parse, response_string. rewrite !serialize_to_string, parse_from_array by done.
  rewrite response_parse_concat by done.
  rewrite <-(app_nil_r (GetRouteResponse_InternalSerialize (GetRouteResponse_ByteSizeLong m2).2)).
  rewrite response_parse_concat by done. unfold GetRouteResponse_InternalParse. by rewrite parse_run_nil.
Qed.

Lemma response_parse_string m0 m :
  GetRouteResponse_wf m -> (GetRouteResponse_ByteSizeLong m).1 < 2147483648 ->
  response_parse (response_string m) m0 = (true, GetRouteResponse_CopyFrom m m0).
Proof.
  intros Hw Hs. unfold response_parse, response_string. rewrite serialize_to_string, parse_from_array by done.
  rewrite <-(app_nil_r (GetRouteResponse_InternalSerialize _)), response_parse_concat by done.
  unfold GetRouteResponse_InternalParse. by rewrite parse_run_nil.
Qed.

Lemma merge_field_0 v : merge_field v 0 = v.
Proof. unfold merge_field. by case_bool_decide. Qed.

Lemma copy_value m0 m :
  response_value (GetRouteResponse_CopyFrom m m0) = response_value m /\
  r_unknown (GetRouteResponse_CopyFrom m m0) = r_unknown m /\
  h_unknown <$> host_ (GetRouteResponse_CopyFrom m m0) = h_unknown <$> host_ m.
Proof.
  unfold GetRouteResponse_CopyFrom, GetRouteResponse_MergeFrom, response_value. cbn [modid_ cmdid_ host_ r_unknown
    GetRouteResponse_Clear app]. rewrite !merge_field_0, <-!list_fmap_compose. split_and!; [|done|].
  - f_equal. apply list_fmap_ext. intros i h _. unfold compose, host_value. cbn. by rewrite !merge_field_0.
  - done.
Qed.

(** (C23) A response survives the wire: what [SerializeToString] writes,
    [ParseFromArray] accepts, into any object, with the same ids, the same hosts in
    the same order, and the unknown fields. *)
Theorem response_roundtrip m0 m :
  GetRouteResponse_wf m -> (GetRouteResponse_ByteSizeLong m).1 < 2147483648 ->
  exists m', response_parse (response_string m) m0 = (true, m') /\ response_value m' = response_value m /\
    r_unknown m' = r_unknown m /\ h_unknown <$> host_ m' = h_unknown <$> host_ m.
Proof. intros Hw Hs. rewrite response_parse_string by done. eexists. split; [done|]. apply copy_value. Qed.

(** The size that [ByteSizeLong] announces is the number of bytes written, the
    length prefixes of the elements included. *)
Theorem response_size_written m :
  (GetRouteResponse_ByteSizeLong m).1 < 2147483648 ->
  zlen (response_string m) = (GetRouteResponse_ByteSizeLong m).1.
Proof. intros Hs. unfold response_string. by rewrite serialize_to_string, response_size_eq. Qed.

(** (C21) Parsing ends on every input, for each of the classes. *)
Theorem parse_terminates bs h q r :
  (HostInfo_InternalParse h bs).2 <> Diverged /\
  (GetRouteResquest_InternalParse q bs).2 <> Diverged /\
  (GetRouteResponse_InternalParse r bs).2 <> Diverged.
Proof.
  split_and!; apply parse_loop_ends;
    [apply HostInfo_forward|lia|apply GetRouteResquest_forward|lia|apply GetRouteResponse_forward|lia].
Qed.

(** A request with both ids 0 is written as no bytes at all. *)
Lemma zero_request_empty cached : request_string (RouteReqMsg 0 0 [] cached) = [].
Proof.
  unfold request_string. rewrite serialize_to_string; [done|]. rewrite GetRouteResquest_size_eq. done.
Qed.
End Spec.

(** ** The classes implement the interface of the program

    [Codec] for the two messages between the agent and the DNS server. *)
Section Codecs.
Context `{!Runtime}.

Definition request_msg (m : GetRouteRequest) : GetRouteResquest_msg := RouteReqMsg (rq_modid m) (rq_cmdid m) [] 0.
Definition host_msg (h : HostInfo) : HostInfo_msg := HostInfoMsg (h_ip h) (h_port h) [] 0.
Definition response_msg (m : GetRouteResponse) : GetRouteResponse_msg :=
  RouteRspMsg (host_msg <$> rr_host m) (rr_modid m) (rr_cmdid m) [] 0.

Lemma write_field_len num v : 1 <= num <= 15 -> zlen (write_field num v) <= 11.
Proof.
  intros Hn. unfold write_field. case_bool_decide; [|done]. rewrite write_int32, zlen_app, varint_small by lia.
  pose proof (varint_len (u64 v)). unfold zlen at 1. simpl. lia.
Qed.

Lemma request_small m : (GetRouteResquest_ByteSizeLong (request_msg m)).1 < 2147483648.
Proof.
  rewrite GetRouteResquest_size_eq. unfold GetRouteResquest_InternalSerialize. rewrite !zlen_app.
  pose proof (write_field_len 1 (q_modid_ (request_msg m)) ltac:(lia)).
  pose proof (write_field_len 2 (q_cmdid_ (request_msg m)) ltac:(lia)).
  change (zlen (write_unknown_fields _)) with 0. lia.
Qed.

Lemma write_host_len h : zlen (write_host (HostInfo_ByteSizeLong (host_msg h)).2) <= 33.
Proof.
  unfold write_host. rewrite HostInfo_ser_sized, write_message, varint_small by lia.
  unfold HostInfo_InternalSerialize. rewrite !zlen_app. change (zlen (write_unknown_fields _)) with 0.
  pose proof (write_field_len 1 (ip_ (host_msg h)) ltac:(lia)).
  pose proof (write_field_len 2 (port_ (host_msg h)) ltac:(lia)).
  match goal with |- context [varint (u32 ?z)] => pose proof (varint_len (u32 z)) end.
  unfold zlen at 1. simpl length. lia.
Qed.

Lemma write_hosts_len hs :
  zlen (concat (write_host <$> (HostInfo_ByteSizeLong <$> (host_msg <$> hs)).*2)) <= 33 * zlen hs.
Proof.
  induction hs as [|h hs IH]; [done|]. rewrite !fmap_cons. cbn [concat]. rewrite zlen_app, zlen_cons.
  pose proof (write_host_len h). lia.
Qed.

Lemma response_small m :
  zlen (rr_host m) <= MAX_REPEATED -> (GetRouteResponse_ByteSizeLong (response_msg m)).1 < 2147483648.
Proof.
  intros Hm. rewrite response_size_eq. unfold GetRouteResponse_InternalSerialize.
  cbn [GetRouteResponse_ByteSizeLong snd host_ modid_ cmdid_ r_unknown response_msg]. rewrite !zlen_app.
  pose proof (write_field_len 1 (rr_modid m) ltac:(lia)). pose proof (write_field_len 2 (rr_cmdid m) ltac:(lia)).
  change (zlen (write_unknown_fields _)) with 0.
  pose proof (write_hosts_len (rr_host m)). unfold MAX_REPEATED in Hm. lia.
Qed.

Lemma request_parse_string m0 m :
  RouteReq_ok m -> request_parse (request_string (request_msg m)) m0 =
  (true, GetRouteResquest_CopyFrom (request_msg m) m0).
Proof.
  intros [H1 H2]. unfold request_parse, request_string.
  rewrite serialize_to_string, parse_from_array by apply request_small.
  cbn [GetRouteResquest_ByteSizeLong snd].
  change (GetRouteResquest_InternalSerialize (GetRouteResquest_SetCachedSize _ _))
    with (GetRouteResquest_InternalSerialize (request_msg m)).
  rewrite <-(app_nil_r (GetRouteResquest_InternalSerialize _)), GetRouteResquest_parse_concat.
  - unfold GetRouteResquest_InternalParse. by rewrite parse_run_nil.
  - split_and!; [done|done|constructor].
Qed.

Lemma response_msg_wf m : RouteRsp_ok m -> GetRouteResponse_wf (response_msg m).
Proof.
  intros (H1 & H2 & H3 & _). split_and!; [done|done| |constructor]. apply Forall_fmap.
  eapply list.Forall_impl; [done|]. intros h [Hi Hp]. split_and!; [done|done|constructor].
Qed.

Lemma response_msg_value m : response_value (response_msg m) = m.
Proof.
  destruct m as [a b hs]. unfold response_value, response_msg. cbn. f_equal. rewrite <-list_fmap_compose.
  rewrite <-(list_fmap_id hs) at 2. apply list_fmap_ext. by intros i [] _.
Qed.

(** A response as the DNS server builds it with the accessors, host by host through [add_host()->CopyFrom(host)],
    is the response with these hosts; its size and its hosts are read back, and no host is behind them. *)
Definition fill_host (h : HostInfo) : HostInfo_msg := set_port (h_port h) (set_ip (h_ip h) HostInfo_new).
Theorem response_built modid cmdid hs :
  zlen hs <= MAX_REPEATED ->
  let m := foldl (fun m h => add_host (HostInfo_CopyFrom (fill_host h) HostInfo_new) m)
             (set_cmdid cmdid (set_modid modid GetRouteResponse_new)) hs in
  m = response_msg (MkRouteRsp modid cmdid hs) /\ host_size m = zlen hs /\
  forall i, host i m = match hs !! Z.to_nat i with
                       | Some h => if bool_decide (0 <= i) then Ret (host_msg h) else Stop OutOfBounds
                       | None => Stop OutOfBounds
                       end.
Proof.
  intros Hmax m. assert (m = response_msg (MkRouteRsp modid cmdid hs)) as Hm.
  { subst m. assert (forall m0, foldl (fun m h => add_host (HostInfo_CopyFrom (fill_host h) HostInfo_new) m) m0 hs =
      RouteRspMsg (host_ m0 ++ (host_msg <$> hs)) (modid_ m0) (cmdid_ m0) (r_unknown m0) (r_cached m0)) as ->; [|done].
    clear. induction hs as [|h hs IH]; intros m0; [destruct m0; cbn; by rewrite app_nil_r|].
    cbn [foldl]. rewrite IH. cbn [add_host host_ modid_ cmdid_ r_unknown r_cached]. rewrite fmap_cons, <-app_assoc.
    unfold HostInfo_CopyFrom, HostInfo_MergeFrom, fill_host. cbn. by rewrite !merge_field_0. }
  split; [exact Hm|]. rewrite Hm. unfold MAX_REPEATED in Hmax. pose proof (zlen_nonneg hs).
  assert (zlen (host_msg <$> hs) = zlen hs) as Hz by (unfold zlen; by rewrite length_fmap). split.
  - unfold host_size. cbn [response_msg host_ rr_host]. rewrite Hz. apply s32_small. unfold is_s32. lia.
  - intros i. unfold host. cbn [response_msg host_ rr_host]. rewrite list_lookup_fmap.
    destruct (hs !! Z.to_nat i); cbn; by case_bool_decide.
Qed.

#[refine] Definition generated_request : Codec GetRouteRequest RouteReq_ok := {|
  serialize m := request_string (request_msg m);
  parse bs := request_value (request_parse bs GetRouteResquest_new).2;
  parse_ok bs := (request_parse bs GetRouteResquest_new).1 |}.
Proof.
  - intros m Hm. rewrite request_parse_string by done. destruct m. unfold request_value. cbn.
    by rewrite !merge_field_0.
  - intros m Hm. by rewrite request_parse_string.
Defined.

#[refine] Definition generated_response : Codec GetRouteResponse RouteRsp_ok := {|
  serialize m := response_string (response_msg m);
  parse bs := response_value (response_parse bs GetRouteResponse_new).2;
  parse_ok bs := (response_parse bs GetRouteResponse_new).1 |}.
Proof.
  - intros m Hm. rewrite response_parse_string by (by apply response_msg_wf || apply response_small, Hm).
    cbn [snd]. destruct (copy_value GetRouteResponse_new (response_msg m)) as [-> _]. apply response_msg_value.
  - intros m Hm. by rewrite response_parse_string by (by apply response_msg_wf || apply response_small, Hm).
Defined.
End Codecs.

(** ** Concrete messages *)
Module PbDemo.
Import PbWire.

(** Two hosts, one with a negative address, and an unknown field. *)
Definition msg1 : GetRouteResponse_msg :=
  RouteRspMsg [HostInfoMsg (-1062731518) 8080 [] 7; HostInfoMsg 5 0 [UVarint 9 300] 0] 1 2 [ULen 4 [x61; x62]] 0.
Definition msg2 : GetRouteResponse_msg := RouteRspMsg [HostInfoMsg 6 80 [] 0] 0 3 [] 0.

Lemma msg1_wf : GetRouteResponse_wf msg1.
Proof. repeat constructor; vm_compute; congruence. Qed.
Lemma msg2_wf : GetRouteResponse_wf msg2.
Proof. repeat constructor; vm_compute; congruence. Qed.

(** The bytes of a request, as protobuf documents them. *)
Example request_bytes : request_string (RouteReqMsg 150 (-1) [] 0) =
  [x08; x96; x01; x10; xff; xff; xff; xff; xff; xff; xff; xff; xff; x01].
Proof. reflexivity. Qed.
End PbDemo.
Import PbDemo.

Lemma response_concat_merges_witness :
  response_parse (response_string msg1 ++ response_string msg2) GetRouteResponse_new =
  (true, GetRouteResponse_MergeFrom msg2 (GetRouteResponse_CopyFrom msg1 GetRouteResponse_new)).
Proof.
  apply (response_concat_merges GetRouteResponse_new msg1 msg2); [apply msg1_wf|apply msg2_wf|reflexivity|reflexivity].
Defined.

Lemma response_roundtrip_witness :
  exists m', response_parse (response_string msg1) msg2 = (true, m') /\ response_value m' = response_value msg1.
Proof.
  destruct (response_roundtrip msg2 msg1) as (m' & Hp & Hv & _); [apply msg1_wf|reflexivity|].
  exists m'. split; [exact Hp|exact Hv].
Defined.

Lemma response_built_witness :
  host 1 (foldl (fun m h => add_host (HostInfo_CopyFrom (fill_host h) HostInfo_new) m)
    (set_cmdid 2 (set_modid 1 GetRouteResponse_new)) [MkHostInfo 5 80; MkHostInfo (-6) 0]) = Ret (host_msg (MkHostInfo (-6) 0)).
Proof.
  destruct (response_built 1 2 [MkHostInfo 5 80; MkHostInfo (-6) 0]) as (_ & _ & H); [vm_compute; congruence|exact (H 1)].
Defined.

Lemma response_size_written_witness : zlen (response_string msg1) = (GetRouteResponse_ByteSizeLong msg1).1.
Proof. apply (response_size_written msg1). reflexivity. Defined.
