(* ===== verification/PbMsg.v ===== *)
(** * The protobuf trial (protobuf_test)

    The class protoc emitted for the message [helloworld] of msg.proto (msg.pb.h, msg.pb.cc), which has a
    string field, and the programs write.cpp and read.cpp that pass a message through the file ./log.  The
    class is a record of its members as in PbLrlb.v.  [Strings] is what it uses of the runtime beyond
    [Runtime]: length-prefixed strings, the check that a string is UTF-8, and the streams.  The theorems say
    that what one program writes the other reads, for every message whose string is UTF-8, and that a message whose
    string is not UTF-8 is written all the same but never read back. *)

From S2P Require Import Prelude.
From S2P Require Import PbRuntime.
From S2P Require Import PbLrlb.

Class Strings `{!Runtime} := {
  (** [parse_context.h], [wire_format_lite.h]; the parser gets the old value of the string *)
  InlineGreedyStringParser : list byte -> list byte -> list byte * option (list byte);
  VerifyUTF8 : list byte -> bool;
  WriteStringMaybeAliased : Z -> list byte -> list byte;
  StringSize : list byte -> Z;
  (** [message.h]; the stream of a file that could be opened or not, the file's bytes *)
  SerializeToOstream : forall {M}, (M -> Z * M) -> (M -> list byte) -> M -> bool -> bool * list byte;
  ParseFromIstream : forall {M}, (M -> M) -> (M -> list byte -> M * outcome) -> list byte -> M -> bool * M;

  (** a string is its length and its bytes *)
  read_string old s rest :
    zlen s < 2147483648 -> InlineGreedyStringParser old (varint (zlen s) ++ s ++ rest) = (s, Some rest);
  read_string_len old bs rest : (InlineGreedyStringParser old bs).2 = Some rest -> (length rest <= length bs)%nat;
  write_string f s : WriteStringMaybeAliased f s = varint (8 * f + 2) ++ varint (u32 (zlen s)) ++ s;
  string_size s : StringSize s = zlen s + zlen (varint (u32 (zlen s)));
  (** ASCII is UTF-8 *)
  utf8_ascii s : Forall (fun b => byte_to_Z b < 128) s -> VerifyUTF8 s = true;
  (** streams carry what the operations on strings and arrays do *)
  serialize_to_ostream {M} (size : M -> Z * M) (ser : M -> list byte) m opened :
    (size m).1 < 2147483648 ->
    SerializeToOstream size ser m opened = if opened then (true, ser (size m).2) else (false, []);
  parse_from_istream {M} (clear : M -> M) (p : M -> list byte -> M * outcome) bs m :
    ParseFromIstream clear p bs m = ParseFromArray clear p bs m
}.

(** ** The class *)
Section Class.
Context `{!Runtime} `{!Strings}.

Record helloworld := Helloworld { str_ : list byte; id_ : Z; opt_ : Z; hw_unknown : list ufield; hw_cached : Z }.

(** The constructors ([SharedCtor], the copy constructor), [Clear], the accessors. *)
Definition helloworld_new : helloworld := Helloworld [] 0 0 [] 0.
Definition helloworld_copy (from : helloworld) : helloworld :=
  Helloworld (if bool_decide (str_ from <> []) then str_ from else []) (id_ from) (opt_ from) (hw_unknown from) 0.
Definition helloworld_Clear (m : helloworld) : helloworld := Helloworld [] 0 0 [] (hw_cached m).
Definition set_str (v : list byte) (m : helloworld) : helloworld :=
  Helloworld v (id_ m) (opt_ m) (hw_unknown m) (hw_cached m).
Definition set_id (v : Z) (m : helloworld) : helloworld :=
  Helloworld (str_ m) v (opt_ m) (hw_unknown m) (hw_cached m).
Definition set_opt (v : Z) (m : helloworld) : helloworld :=
  Helloworld (str_ m) (id_ m) v (hw_unknown m) (hw_cached m).
Definition clear_str : helloworld -> helloworld := set_str [].
Definition clear_id : helloworld -> helloworld := set_id 0.
Definition clear_opt : helloworld -> helloworld := set_opt 0.
Definition helloworld_set_unknown (us : list ufield) (m : helloworld) : helloworld :=
  Helloworld (str_ m) (id_ m) (opt_ m) us (hw_cached m).
Definition helloworld_SetCachedSize (size : Z) (m : helloworld) : helloworld :=
  Helloworld (str_ m) (id_ m) (opt_ m) (hw_unknown m) (s32 size).

(** The case of the string field. *)
Definition str_case (m : helloworld) (ptr : list byte) : helloworld * step :=
  let '(str, p) := InlineGreedyStringParser (str_ m) ptr in
  (set_str str m, if VerifyUTF8 str then step_of p else Null).

(** The [switch] of [_InternalParse]. *)
Definition helloworld_field (tag : Z) : option (helloworld -> list byte -> helloworld * step) :=
  match Z.shiftr tag 3 with
  | 1 => if bool_decide (u8 tag = 8) then Some (int_case set_id) else None
  | 2 => if bool_decide (u8 tag = 18) then Some str_case else None
  | 3 => if bool_decide (u8 tag = 24) then Some (int_case set_opt) else None
  | _ => None
  end.
Definition helloworld_InternalParse : helloworld -> list byte -> helloworld * outcome :=
  parse_run hw_unknown helloworld_set_unknown helloworld_field.

(** A string field; the result of the check of its encoding is not looked at. *)
Definition write_str (num : Z) (s : list byte) : list byte :=
  if bool_decide (zlen s > 0) then WriteStringMaybeAliased num s else [].
Definition str_size (s : list byte) : Z := if bool_decide (zlen s > 0) then 1 + StringSize s else 0.
Definition merge_str (from this : list byte) : list byte := if bool_decide (zlen from > 0) then from else this.

Definition helloworld_InternalSerialize (m : helloworld) : list byte :=
  write_field 1 (id_ m) ++ write_str 2 (str_ m) ++ write_field 3 (opt_ m) ++ write_unknown_fields (hw_unknown m).

Definition helloworld_ByteSizeLong (m : helloworld) : Z * helloworld :=
  let size := total_size (hw_unknown m) (str_size (str_ m) + field_size (id_ m) + field_size (opt_ m)) in
  (size, helloworld_SetCachedSize size m).

(** [this->MergeFrom(from)] and [this->CopyFrom(from)], for different objects; [InternalSwap]. *)
Definition helloworld_MergeFrom (from this : helloworld) : helloworld :=
  Helloworld (merge_str (str_ from) (str_ this)) (merge_field (id_ from) (id_ this))
             (merge_field (opt_ from) (opt_ this)) (hw_unknown this ++ hw_unknown from) (hw_cached this).
Definition helloworld_CopyFrom (from this : helloworld) : helloworld :=
  helloworld_MergeFrom from (helloworld_Clear this).
Definition helloworld_InternalSwap (this other : helloworld) : helloworld * helloworld :=
  (Helloworld (str_ other) (id_ other) (opt_ other) (hw_unknown other) (hw_cached this),
   Helloworld (str_ this) (id_ this) (opt_ this) (hw_unknown this) (hw_cached other)).

(** ** The programs *)

(** [main] of write.cpp: whether ./log could be opened, the file before; the result, the file and what
    goes to the standard error after.  Opening the file truncates it. *)
Definition write_main (opened : bool) (log : list byte) : Z * list byte * list line :=
  let msg1 := set_str (bytes_of "hello") (set_id 101 helloworld_new) in
  let log := if opened then [] else log in
  match SerializeToOstream helloworld_ByteSizeLong helloworld_InternalSerialize msg1 opened with
  | (true, bs) => (0, log ++ bs, [])
  | (false, bs) => (-1, log ++ bs, [LText "Failed to write msg."])
  end.

(** [ListMsg]. *)
Definition ListMsg (msg : helloworld) : list line := [LInt "%d" (id_ msg); LStr "%s" (str_ msg)].

(** [main] of read.cpp, with what it prints, for a ./log with these bytes. *)
Definition read_main (log : list byte) : Z * list line :=
  match ParseFromIstream helloworld_Clear helloworld_InternalParse log helloworld_new with
  | (false, _) => (-1, [LText "Failed to parse address book."])
  | (true, msg1) => (0, ListMsg msg1)
  end.

(** ** Written and read *)

(** [int32] values, and unknown fields that are unknown. *)
Definition helloworld_wf (m : helloworld) : Prop :=
  is_s32 (id_ m) /\ is_s32 (opt_ m) /\ zlen (str_ m) < 2147483648 /\ foreign helloworld_field (hw_unknown m).

Lemma str_case_forward m ptr :
  match (str_case m ptr).2 with Next p => (length p <= length ptr)%nat | Null => True | NoFuel => False end.
Proof.
  unfold str_case. pose proof (read_string_len (str_ m) ptr) as Hl.
  destruct (InlineGreedyStringParser (str_ m) ptr) as [s [p|]]; cbn; destruct (VerifyUTF8 s); cbn; try done. by apply Hl.
Qed.

Lemma helloworld_forward : field_forward helloworld_field.
Proof.
  intros tag f m ptr E. unfold helloworld_field in E.
  tag_cases E; first [apply int_case_forward | apply str_case_forward].
Qed.

Lemma write_str_nil num s : zlen s <= 0 -> write_str num s = [] /\ s = [].
Proof.
  intros Hs. unfold write_str. rewrite bool_decide_eq_false_2 by lia. split; [done|].
  destruct s; [done|]. rewrite zlen_cons in Hs. pose proof (zlen_nonneg s). lia.
Qed.

Lemma parse_write_str s m rest :
  zlen s < 2147483648 ->
  helloworld_InternalParse m (write_str 2 s ++ rest) =
  if bool_decide (zlen s > 0) && negb (VerifyUTF8 s) then (set_str s m, Failed)
  else helloworld_InternalParse (set_str (merge_str s (str_ m)) m) rest.
Proof.
  intros Hs. pose proof helloworld_forward as Hf. pose proof (zlen_nonneg s). unfold write_str, merge_str.
  case_bool_decide; [|by destruct m]. rewrite write_string, <-!app_assoc.
  unfold helloworld_InternalParse at 1. erewrite parse_run_field; [|done|unfold is_u32; lia|reflexivity].
  rewrite u32_small by (unfold is_u32; lia). unfold str_case. rewrite read_string by done. by destruct (VerifyUTF8 s).
Qed.

Lemma helloworld_parse_concat m m1 rest :
  helloworld_wf m1 -> VerifyUTF8 (str_ m1) = true ->
  helloworld_InternalParse m (helloworld_InternalSerialize m1 ++ rest) =
  helloworld_InternalParse (helloworld_MergeFrom m1 m) rest.
Proof.
  intros (H1 & H2 & H3 & Hu) Hv. pose proof helloworld_forward as Hf.
  unfold helloworld_InternalSerialize. rewrite <-!app_assoc.
  unfold helloworld_InternalParse at 1. rewrite (parse_write_field _ _ _ set_id id_); [|done|lia|done|done|by intros []].
  fold helloworld_InternalParse. rewrite parse_write_str, Hv, andb_false_r by done.
  unfold helloworld_InternalParse at 1. rewrite (parse_write_field _ _ _ set_opt opt_); [|done|lia|done|done|by intros []].
  rewrite write_unknown_fields_eq, parse_run_unknowns; [done|done|done|done|done|by intros []].
Qed.

Lemma str_size_eq s : zlen s < 2147483648 -> str_size s = zlen (write_str 2 s).
Proof.
  intros Hs. unfold str_size, write_str. case_bool_decide; [|done].
  rewrite write_string, string_size, !zlen_app, (varint_small (8 * 2 + 2)) by lia.
  change (zlen [byte_of_Z (8 * 2 + 2)]) with 1. lia.
Qed.

Lemma helloworld_size_eq m :
  zlen (str_ m) < 2147483648 -> (helloworld_ByteSizeLong m).1 = zlen (helloworld_InternalSerialize m).
Proof.
  intros Hs. unfold helloworld_ByteSizeLong, helloworld_InternalSerialize. cbn [fst].
  rewrite total_size_eq, str_size_eq, (field_size_eq 1), (field_size_eq 3), !zlen_app by (done || lia). lia.
Qed.

(** [SerializeToString] and [ParseFromArray] of the class. *)
Definition hw_string : helloworld -> list byte := SerializeToString helloworld_ByteSizeLong helloworld_InternalSerialize.
Definition hw_parse : list byte -> helloworld -> bool * helloworld :=
  ParseFromArray helloworld_Clear helloworld_InternalParse.

Lemma hw_string_eq m : (helloworld_ByteSizeLong m).1 < 2147483648 -> hw_string m = helloworld_InternalSerialize m.
Proof. intros Hs. unfold hw_string. by rewrite serialize_to_string. Qed.

Lemma copy_of m m0 : str_ (helloworld_CopyFrom m m0) = str_ m /\ id_ (helloworld_CopyFrom m m0) = id_ m /\
  opt_ (helloworld_CopyFrom m m0) = opt_ m /\ hw_unknown (helloworld_CopyFrom m m0) = hw_unknown m.
Proof.
  cbn. rewrite !merge_field_0. split_and!; try done. unfold merge_str. case_bool_decide; [done|].
  symmetry. apply (write_str_nil 2). lia.
Qed.

Lemma hw_parse_string m0 m :
  helloworld_wf m -> (helloworld_ByteSizeLong m).1 < 2147483648 ->
  if bool_decide (zlen (str_ m) > 0) && negb (VerifyUTF8 (str_ m))
  then (hw_parse (hw_string m) m0).1 = false
  else hw_parse (hw_string m) m0 = (true, helloworld_CopyFrom m m0).
Proof.
  intros Hw Hs. rewrite hw_string_eq by done. unfold hw_parse. rewrite parse_from_array.
  destruct (bool_decide (zlen (str_ m) > 0) && negb (VerifyUTF8 (str_ m))) eqn:Eb.
  - cbn [fst]. destruct Hw as (H1 & H2 & H3 & Hu). pose proof helloworld_forward as Hf.
    unfold helloworld_InternalSerialize, helloworld_InternalParse.
    rewrite (parse_write_field _ _ _ set_id id_); [|done|lia|done|done|by intros []].
    fold helloworld_InternalParse. by rewrite parse_write_str, Eb.
  - assert (VerifyUTF8 (str_ m) = true) as Hv.
    { destruct (VerifyUTF8 (str_ m)) eqn:Ev; [done|]. rewrite andb_true_r in Eb. apply bool_decide_eq_false_1 in Eb.
      destruct (write_str_nil 2 (str_ m)) as [_ E0]; [lia|]. rewrite E0, utf8_ascii in Ev by constructor. done. }
    rewrite <-(app_nil_r (helloworld_InternalSerialize m)), helloworld_parse_concat by done.
    unfold helloworld_InternalParse. by rewrite parse_run_nil.
Qed.

(** (C40) The class with a string field: a message that is serialised is parsed back, with its string,
    its integers and its unknown fields, exactly if its string is UTF-8; otherwise it is serialised all the
    same, and parsing the result fails. *)
Theorem hello_roundtrip m0 m :
  helloworld_wf m -> (helloworld_ByteSizeLong m).1 < 2147483648 ->
  zlen (hw_string m) = (helloworld_ByteSizeLong m).1 /\
  if VerifyUTF8 (str_ m)
  then exists m', hw_parse (hw_string m) m0 = (true, m') /\ str_ m' = str_ m /\ id_ m' = id_ m /\ opt_ m' = opt_ m /\
         hw_unknown m' = hw_unknown m
  else (hw_parse (hw_string m) m0).1 = false.
Proof.
  intros Hw Hs. split; [rewrite hw_string_eq, helloworld_size_eq by (done || apply Hw); done|].
  pose proof (hw_parse_string m0 m Hw Hs) as Hp. destruct (VerifyUTF8 (str_ m)) eqn:Ev.
  - rewrite andb_false_r in Hp. eexists. split; [exact Hp|]. apply copy_of.
  - rewrite andb_true_r in Hp. case_bool_decide; [done|].
    destruct (write_str_nil 2 (str_ m)) as [_ E0]; [lia|]. rewrite E0, utf8_ascii in Ev by constructor. done.
Qed.

Lemma hello_small id s : zlen s <= 1000 -> (helloworld_ByteSizeLong (Helloworld s id 0 [] 0)).1 < 2147483648.
Proof.
  intros Hs. rewrite helloworld_size_eq by (cbn; lia). unfold helloworld_InternalSerialize. cbn [str_ id_ opt_ hw_unknown].
  rewrite !zlen_app. pose proof (write_field_len 1 id ltac:(lia)). pose proof (write_field_len 3 0 ltac:(lia)).
  change (zlen (write_unknown_fields [])) with 0. unfold write_str. case_bool_decide; [|change (zlen (@nil byte)) with 0; lia].
  rewrite write_string, !zlen_app. pose proof (varint_len (8 * 2 + 2)). pose proof (varint_len (u32 (zlen s))). lia.
Qed.

(** The two programs together: after write.cpp could open the file, whatever was in it, it returns 0 and
    read.cpp prints the 101 and the hello that were written; if it could not, it says so and leaves the file as it was. *)
Theorem write_then_read log :
  (exists bs, write_main true log = (0, bs, []) /\ read_main bs = (0, [LInt "%d" 101; LStr "%s" (bytes_of "hello")])) /\
  write_main false log = (-1, log, [LText "Failed to write msg."]).
Proof.
  set (m := Helloworld (bytes_of "hello") 101 0 [] 0).
  assert ((helloworld_ByteSizeLong m).1 < 2147483648) as Hs by (apply hello_small; vm_compute; congruence).
  split.
  - exists (hw_string m). unfold write_main, read_main. change (set_str _ _) with m.
    rewrite serialize_to_ostream by exact Hs. split; [by rewrite hw_string_eq by exact Hs|].
    rewrite parse_from_istream. fold hw_parse.
    pose proof (hw_parse_string helloworld_new m) as Hp. rewrite utf8_ascii in Hp by (repeat constructor).
    rewrite andb_false_r in Hp. rewrite Hp; [|split_and!; [done|done|done|constructor]|exact Hs].
    destruct (copy_of m helloworld_new) as (E1 & E2 & _). unfold ListMsg. by rewrite E1, E2.
  - unfold write_main. change (set_str _ _) with m. rewrite serialize_to_ostream by exact Hs. by rewrite app_nil_r.
Qed.
End Class.

(** ** Strings over the wire format *)
Module HelloDemo.
Import PbWire.

Definition wread_string (old bs : list byte) : list byte * option (list byte) :=
  match get_varint 10 bs with
  | (n, Some rest) => match get_bytes n rest with Some (s, rest) => (s, Some rest) | None => (old, None) end
  | (_, None) => (old, None)
  end.

(** Well-formed UTF-8: no overlong forms, no surrogates, nothing above U+10FFFF. *)
Definition cont (b : byte) : bool := bool_decide (128 <= byte_to_Z b < 192).
Fixpoint utf8 (bs : list byte) : bool :=
  match bs with
  | [] => true
  | b1 :: bs1 =>
      let v := byte_to_Z b1 in
      if bool_decide (v < 128) then utf8 bs1
      else match bs1 with
      | [] => false
      | b2 :: bs2 =>
          let w := byte_to_Z b2 in
          if bool_decide (194 <= v < 224) then cont b2 && utf8 bs2
          else match bs2 with
          | [] => false
          | b3 :: bs3 =>
              if bool_decide (224 <= v < 240) then
                cont b2 && cont b3 && bool_decide ((v = 224 -> 160 <= w) /\ (v = 237 -> w < 160)) && utf8 bs3
              else match bs3 with
              | [] => false
              | b4 :: bs4 =>
                  bool_decide (240 <= v < 245) && cont b2 && cont b3 && cont b4 &&
                  bool_decide ((v = 240 -> 144 <= w) /\ (v = 244 -> w < 144)) && utf8 bs4
              end
          end
      end
  end.

#[refine] Instance wire_strings : Strings := {|
  InlineGreedyStringParser := wread_string; VerifyUTF8 := utf8;
  WriteStringMaybeAliased f s := wvarint (8 * f + 2) ++ wvarint (u32 (zlen s)) ++ s;
  StringSize s := zlen s + zlen (wvarint (u32 (zlen s)));
  SerializeToOstream M size ser m opened := if opened then (true, ser (size m).2) else (false, []);
  ParseFromIstream M clear p bs m := ParseFromArray clear p bs m |}.
Proof.
  - intros old s rest Hs. unfold wread_string. pose proof (zlen_nonneg s). cbn [varint wire_runtime]. unfold wvarint.
    rewrite get_put_varint by (try lia; simpl Z.of_nat; lia). by rewrite get_bytes_app.
  - intros old bs rest. unfold wread_string. pose proof (get_varint_len 10 bs) as Hv.
    destruct (get_varint 10 bs) as [n [q|]]; [|done]. specialize (Hv q eq_refl).
    destruct (get_bytes n q) as [[s r]|] eqn:Eb; [|done]. apply get_bytes_len in Eb. cbn. intros [= <-]. lia.
  - reflexivity.
  - reflexivity.
  - intros s Hs. induction Hs as [|b s Hb _ IH]; [done|]. cbn [utf8]. by rewrite bool_decide_eq_true_2.
  - reflexivity.
  - reflexivity.
Defined.

(** The file that write.cpp leaves. *)
Example log_bytes : write_main true [x00] = (0, [x08; x65; x12; x05; x68; x65; x6c; x6c; x6f], []).
Proof. vm_compute. reflexivity. Qed.

Definition good : helloworld := Helloworld [xe6; x88; x91] (-3) 7 [UVarint 9 300] 4.
Definition bad : helloworld := Helloworld [x61; xff] 1 0 [] 0.
End HelloDemo.
Import HelloDemo.

Lemma hello_roundtrip_witness :
  (exists m', hw_parse (hw_string good) bad = (true, m') /\ str_ m' = str_ good /\ id_ m' = -3 /\ opt_ m' = 7) /\
  (hw_parse (hw_string bad) good).1 = false.
Proof.
  split.
  - destruct (hello_roundtrip bad good) as [_ H]; [repeat constructor; vm_compute; congruence|reflexivity|].
    destruct H as (m' & Hp & H1 & H2 & H3 & _). exists m'. exact (conj Hp (conj H1 (conj H2 H3))).
  - destruct (hello_roundtrip good bad) as [_ H]; [repeat constructor; vm_compute; congruence|reflexivity|exact H].
Defined.
