(* ===== verification/PbObject.v ===== *)
(** * Message objects: copying, moving and swapping (lrlb.pb.h, lrlb.pb.cpp, msg.pb.h)

    PbLrlb.v and PbMsg.v say what a generated class does with the values of its messages.  Here
    messages are objects with an address and an arena (none for an object on the stack or the
    heap), and the members that look at addresses and arenas are modelled: [operator=] for
    copies and for moves, the move constructor, [CopyFrom], [MergeFrom], [Swap],
    [UnsafeArenaSwap], [New] and the destructor.  The generated text of these is the same for every
    class: they are written once, for the interface [GeneratedClass], which the four classes
    implement.  [GOOGLE_DCHECK] checks, since nothing defines NDEBUG. *)

From S2P Require Import Prelude.
From S2P Require Import PbRuntime.
From S2P Require Import PbLrlb.
From S2P Require Import PbMsg.

Abbreviation address := positive (only parsing).

(** What the members below use of the class they belong to.  [content] is what its accessors and its
    writer can see of a message, that is all but the cached sizes. *)
Class GeneratedClass (M V : Type) := {
  new_msg : M;
  Clear : M -> M;
  MergeFrom_values : M -> M -> M;
  InternalSwap : M -> M -> M * M;
  content : M -> V;
  clear_merge from this : content (MergeFrom_values from (Clear this)) = content from;
  swap_fst a b : content (InternalSwap a b).1 = content b;
  swap_snd a b : content (InternalSwap a b).2 = content a
}.

(** ** The members *)
Section Members.
Context {M V : Type} `{!GeneratedClass M V}.

Record object := Object { o_msg : M; GetArena : option positive }.
Abbreviation store := (gmap positive object).
Implicit Types (s : store) (this from other x : address).

Definition get x s : res object := deref (s !! x).
Definition put x (m : M) s : store := alter (fun o => Object m (GetArena o)) x s.

(** [GenericSwap] of the runtime, for messages on different arenas. *)
Variable GenericSwap : M -> M -> M * M.

(** [this->MergeFrom( *from)]. *)
Definition MergeFrom this from s : res store :=
  _ ← assert (negb (bool_decide (from = this)));
  f ← get from s; t ← get this s;
  Ret (put this (MergeFrom_values (o_msg f) (o_msg t)) s).

(** [this->CopyFrom( *from)], and [*this = *from]. *)
Definition CopyFrom this from s : res store :=
  if bool_decide (from = this) then Ret s
  else t ← get this s; MergeFrom this from (put this (Clear (o_msg t)) s).
Definition copy_assign : address -> address -> store -> res store := CopyFrom.

Definition swap_with (sw : M -> M -> M * M) this other s : res store :=
  t ← get this s; o ← get other s;
  Ret (put other (sw (o_msg t) (o_msg o)).2 (put this (sw (o_msg t) (o_msg o)).1 s)).

(** [*this = std::move( *from)]. *)
Definition move_assign this from s : res store :=
  t ← get this s; f ← get from s;
  if bool_decide (GetArena t = GetArena f) then
    if bool_decide (this <> from) then swap_with InternalSwap this from s else Ret s
  else CopyFrom this from s.

(** [New(arena)] at the address [x]; the default constructor has no arena. *)
Definition New x (arena : option positive) s : store := <[x := Object new_msg arena]> s.

(** The move constructor. *)
Definition move_construct x from s : res store := move_assign x from (New x None s).

(** [this->Swap(other)] and [swap( *this, *other)]. *)
Definition Swap this other s : res store :=
  if bool_decide (other = this) then Ret s
  else
    t ← get this s; o ← get other s;
    if bool_decide (GetArena t = GetArena o) then swap_with InternalSwap this other s
    else swap_with GenericSwap this other s.

Definition UnsafeArenaSwap this other s : res store :=
  if bool_decide (other = this) then Ret s
  else
    t ← get this s; o ← get other s;
    _ ← assert (bool_decide (GetArena t = GetArena o));
    swap_with InternalSwap this other s.

(** The destructor, with [SharedDtor]. *)
Definition destroy x s : res store :=
  o ← get x s;
  _ ← assert (bool_decide (GetArena o = None));
  Ret (delete x s).

(** ** What can be seen of a store *)
Definition contents s : gmap address V := (fun o => content (o_msg o)) <$> s.
Definition arenas s : gmap address (option positive) := GetArena <$> s.

Lemma put_contents x m s o : s !! x = Some o -> contents (put x m s) = <[x := content m]> (contents s).
Proof.
  intros Hx. unfold contents, put. apply map_eq. intros y. destruct (decide (y = x)) as [->|Hy].
  - by rewrite lookup_fmap, lookup_alter_eq, lookup_insert_eq, Hx.
  - by rewrite lookup_fmap, lookup_alter_ne, lookup_insert_ne, lookup_fmap by done.
Qed.
Lemma put_arenas x m s : arenas (put x m s) = arenas s.
Proof.
  unfold arenas, put. apply map_eq. intros y. rewrite !lookup_fmap. destruct (decide (y = x)) as [->|Hy].
  - rewrite lookup_alter_eq. by destruct (s !! x).
  - by rewrite lookup_alter_ne.
Qed.
Lemma put_lookup x y m s : y <> x -> put x m s !! y = s !! y.
Proof. intros Hy. by apply lookup_alter_ne. Qed.
Lemma put_same x m s o : s !! x = Some o -> put x m s !! x = Some (Object m (GetArena o)).
Proof. intros Hx. unfold put. by rewrite lookup_alter_eq, Hx. Qed.

Lemma swap_with_ok sw this other s t o :
  (forall a b, content (sw a b).1 = content b) -> (forall a b, content (sw a b).2 = content a) ->
  this <> other -> s !! this = Some t -> s !! other = Some o ->
  exists s', swap_with sw this other s = Ret s' /\ arenas s' = arenas s /\
    contents s' = <[other := content (o_msg t)]> (<[this := content (o_msg o)]> (contents s)).
Proof.
  intros H1 H2 Hne Ht Ho. unfold swap_with, get. rewrite Ht, Ho. eexists. split; [reflexivity|]. split.
  - by rewrite !put_arenas.
  - rewrite (put_contents _ _ _ o), (put_contents _ _ _ t), H1, H2; [done|done|]. by rewrite put_lookup.
Qed.

(** Copying gives the target the content of the source and changes nothing else, also when both are
    the same object. *)
Lemma CopyFrom_ok this from s t f :
  s !! this = Some t -> s !! from = Some f ->
  exists s', CopyFrom this from s = Ret s' /\ arenas s' = arenas s /\
    contents s' = <[this := content (o_msg f)]> (contents s).
Proof.
  intros Ht Hf. unfold CopyFrom. case_bool_decide as He.
  - exists s. split; [done|]. split; [done|]. symmetry. apply insert_id. subst from. unfold contents. by rewrite lookup_fmap, Hf.
  - unfold get, MergeFrom. rewrite Ht. cbn [mbind res_mbind deref]. rewrite bool_decide_eq_false_2 by done. unfold get.
    rewrite (put_lookup this from) by done. rewrite Hf, (put_same this _ s t) by done. cbn. eexists. split; [reflexivity|]. split.
    + by rewrite !put_arenas.
    + rewrite (put_contents _ _ _ (Object (Clear (o_msg t)) (GetArena t))) by (by apply put_same).
      by rewrite clear_merge, (put_contents _ _ _ t), insert_insert_eq.
Qed.

(** [MergeFrom] of a message into itself fails its check. *)
Lemma MergeFrom_self x s : MergeFrom x x s = Stop AssertFail.
Proof. unfold MergeFrom. by rewrite bool_decide_eq_true_2. Qed.

(** Moving gives the target the content of the source.  The source has the old content of the target
    where both are on one arena, and its own where they are not. *)
Lemma move_assign_ok this from s t f :
  s !! this = Some t -> s !! from = Some f ->
  exists s', move_assign this from s = Ret s' /\ arenas s' = arenas s /\
    contents s' = <[this := content (o_msg f)]>
      (if bool_decide (GetArena t = GetArena f) then <[from := content (o_msg t)]> (contents s) else contents s).
Proof.
  intros Ht Hf. unfold move_assign. unfold get at 1 2. rewrite Ht, Hf. cbn [mbind res_mbind deref].
  case_bool_decide as Ha; [|by apply (CopyFrom_ok this from s t f)].
  case_bool_decide as Hne.
  - destruct (swap_with_ok InternalSwap this from s t f swap_fst swap_snd Hne Ht Hf) as (s' & -> & Har & Hc).
    exists s'. split; [done|]. split; [done|]. by rewrite Hc, insert_insert_ne.
  - subst from. exists s. rewrite Hf in Ht. injection Ht as <-.
    split; [done|]. split; [done|]. rewrite insert_insert_eq. symmetry. apply insert_id. unfold contents. by rewrite lookup_fmap, Hf.
Qed.

(** A moved-to new object has the content of the source; the source is cleared where it has no arena. *)
Lemma move_construct_ok x from s f :
  s !! x = None -> s !! from = Some f ->
  exists s', move_construct x from s = Ret s' /\ arenas s' = <[x := None]> (arenas s) /\
    contents s' = <[x := content (o_msg f)]>
      (if bool_decide (GetArena f = None) then <[from := content new_msg]> (contents s) else contents s).
Proof.
  intros Hx Hf. assert (x <> from) as Hne by congruence. unfold move_construct, New.
  destruct (move_assign_ok x from (<[x := Object new_msg None]> s) (Object new_msg None) f) as (s' & -> & Har & Hc).
  - apply lookup_insert_eq.
  - by rewrite lookup_insert_ne.
  - exists s'. split; [done|]. rewrite Har, Hc. unfold arenas, contents. rewrite !fmap_insert. split; [done|]. cbn [o_msg GetArena].
    repeat case_bool_decide; try congruence; apply map_eq; intros y; destruct (decide (y = x)), (decide (y = from)); by simplify_map_eq.
Qed.

Hypothesis generic_fst : forall a b, content (GenericSwap a b).1 = content b.
Hypothesis generic_snd : forall a b, content (GenericSwap a b).2 = content a.

(** Swapping exchanges the contents, on one arena or two, and is nothing for an object and
    itself; no message changes its arena. *)
Theorem Swap_ok this other s t o :
  s !! this = Some t -> s !! other = Some o ->
  exists s', Swap this other s = Ret s' /\ arenas s' = arenas s /\
    contents s' = <[other := content (o_msg t)]> (<[this := content (o_msg o)]> (contents s)).
Proof.
  intros Ht Ho. unfold Swap. case_bool_decide as He.
  - subst other. rewrite Ht in Ho. injection Ho as <-. exists s. split; [done|]. split; [done|].
    rewrite insert_insert_eq. symmetry. apply insert_id. unfold contents. by rewrite lookup_fmap, Ht.
  - unfold get. rewrite Ht, Ho. cbn [mbind res_mbind deref]. case_bool_decide.
    + apply (swap_with_ok _ _ _ _ t o swap_fst swap_snd); [congruence|done|done].
    + apply (swap_with_ok _ _ _ _ t o generic_fst generic_snd); [congruence|done|done].
Qed.

(** [UnsafeArenaSwap] is [Swap] on one arena, and fails its check on two. *)
Theorem UnsafeArenaSwap_ok this other s t o :
  s !! this = Some t -> s !! other = Some o ->
  UnsafeArenaSwap this other s =
    if bool_decide (GetArena t = GetArena o) then Swap this other s else Stop AssertFail.
Proof.
  intros Ht Ho. unfold UnsafeArenaSwap, Swap. case_bool_decide as He.
  - subst other. rewrite Ht in Ho. injection Ho as <-. by rewrite bool_decide_eq_true_2.
  - unfold get. rewrite Ht, Ho. cbn [mbind res_mbind deref]. by case_bool_decide.
Qed.

(** The three moves of the generic [std::swap], through a new object [x] that is destroyed after them. *)
Definition std_swap x a b s : res store :=
  s1 ← move_construct x a s; s2 ← move_assign a b s1; s3 ← move_assign b x s2; destroy x s3.

Lemma lookup_object s x v r :
  contents s !! x = Some v -> arenas s !! x = Some r -> exists o, s !! x = Some o /\ content (o_msg o) = v /\ GetArena o = r.
Proof.
  unfold contents, arenas. rewrite !lookup_fmap. destruct (s !! x) as [o|]; [|done]. intros [= <-] [= <-]. by exists o.
Qed.
Lemma seen s x o : s !! x = Some o -> contents s !! x = Some (content (o_msg o)) /\ arenas s !! x = Some (GetArena o).
Proof. intros Hx. unfold contents, arenas. by rewrite !lookup_fmap, Hx. Qed.

(** The destructor of an object that has no arena. *)
Lemma destroy_ok x s o :
  s !! x = Some o -> GetArena o = None ->
  exists s', destroy x s = Ret s' /\ arenas s' = delete x (arenas s) /\ contents s' = delete x (contents s).
Proof.
  intros Hx Ho. unfold destroy, get. rewrite Hx. cbn. rewrite bool_decide_eq_true_2 by done. cbn. eexists. split; [reflexivity|].
  unfold arenas, contents. by rewrite !fmap_delete.
Qed.

(** Moving in terms of what can be seen. *)
Lemma move_assign_seen this from s vt rt vf rf :
  contents s !! this = Some vt -> arenas s !! this = Some rt -> contents s !! from = Some vf -> arenas s !! from = Some rf ->
  exists s', move_assign this from s = Ret s' /\ arenas s' = arenas s /\
    contents s' = <[this := vf]> (if bool_decide (rt = rf) then <[from := vt]> (contents s) else contents s).
Proof.
  intros Ht Hrt Hf Hrf. destruct (lookup_object _ _ _ _ Ht Hrt) as (t & Hst & <- & <-).
  destruct (lookup_object _ _ _ _ Hf Hrf) as (f & Hsf & <- & <-). by apply move_assign_ok.
Qed.

(** Whatever arenas the two messages are on, [std::swap] does what [Swap] does, though it copies where
    [Swap] exchanges members. *)
Theorem std_swap_ok x a b s oa ob :
  a <> b -> s !! x = None -> s !! a = Some oa -> s !! b = Some ob ->
  exists s', std_swap x a b s = Ret s' /\ arenas s' = arenas s /\
    contents s' = <[b := content (o_msg oa)]> (<[a := content (o_msg ob)]> (contents s)).
Proof.
  intros Hab Hx Ha Hb. assert (x <> a /\ x <> b) as [Hxa Hxb] by (split; congruence).
  destruct (seen s a oa Ha) as [Hca Hra], (seen s b ob Hb) as [Hcb Hrb].
  assert (contents s !! x = None /\ arenas s !! x = None) as [Hcx Hrx] by (unfold contents, arenas; by rewrite !lookup_fmap, Hx).
  unfold std_swap. destruct (move_construct_ok x a s oa Hx Ha) as (s1 & -> & Hr1 & Hc1). cbn [mbind res_mbind].
  destruct (move_assign_seen a b s1 (if bool_decide (GetArena oa = None) then content new_msg else content (o_msg oa))
    (GetArena oa) (content (o_msg ob)) (GetArena ob)) as (s2 & -> & Hr2 & Hc2);
    [rewrite ?Hc1, ?Hr1; case_bool_decide; by simplify_map_eq..|]. cbn [mbind res_mbind].
  destruct (move_assign_seen b x s2 (default (content (o_msg ob)) (contents s2 !! b)) (GetArena ob) (content (o_msg oa)) None)
    as (s3 & -> & Hr3 & Hc3);
    [rewrite ?Hr2, ?Hr1, ?Hc2, ?Hc1; repeat case_bool_decide; by simplify_map_eq..|]. cbn [mbind res_mbind].
  destruct (lookup_object s3 x (default (content (o_msg oa)) (contents s3 !! x)) None) as (o & Hxo & _ & Hno);
    [rewrite ?Hc3, ?Hr3, ?Hr2, ?Hc2, ?Hr1, ?Hc1; repeat case_bool_decide; by simplify_map_eq..|].
  destruct (destroy_ok x s3 o Hxo Hno) as (s4 & -> & Hr4 & Hc4). exists s4. split; [done|]. split.
  - rewrite Hr4, Hr3, Hr2, Hr1. by apply delete_insert_id.
  - rewrite Hc4, Hc3, Hc2, Hc1. apply map_eq. intros y.
    destruct (decide (y = x)), (decide (y = a)), (decide (y = b)); repeat case_bool_decide; by simplify_map_eq.
Qed.
End Members.
Arguments object M : clear implicits.
Arguments Object {M}.

(** ** The four classes *)
Section Instances.
Context `{!Runtime}.

Definition host_content (m : HostInfo_msg) : Z * Z * list ufield := (ip_ m, port_ m, h_unknown m).

#[export] Program Instance HostInfo_class : GeneratedClass HostInfo_msg (Z * Z * list ufield) := {|
  new_msg := HostInfo_new; Clear := HostInfo_Clear; MergeFrom_values := HostInfo_MergeFrom;
  InternalSwap := HostInfo_InternalSwap; content := host_content |}.
Next Obligation. intros f t. unfold host_content. cbn. by rewrite !merge_field_0. Qed.
Next Obligation. done. Qed.
Next Obligation. by intros [] ?. Qed.

#[export] Program Instance GetRouteResquest_class : GeneratedClass GetRouteResquest_msg (Z * Z * list ufield) := {|
  new_msg := GetRouteResquest_new; Clear := GetRouteResquest_Clear; MergeFrom_values := GetRouteResquest_MergeFrom;
  InternalSwap := GetRouteResquest_InternalSwap; content m := (q_modid_ m, q_cmdid_ m, q_unknown m) |}.
Next Obligation. intros f t. cbn. by rewrite !merge_field_0. Qed.
Next Obligation. done. Qed.
Next Obligation. done. Qed.

#[export] Program Instance GetRouteResponse_class :
    GeneratedClass GetRouteResponse_msg (list (Z * Z * list ufield) * Z * Z * list ufield) := {|
  new_msg := GetRouteResponse_new; Clear := GetRouteResponse_Clear; MergeFrom_values := GetRouteResponse_MergeFrom;
  InternalSwap := GetRouteResponse_InternalSwap;
  content m := (host_content <$> host_ m, modid_ m, cmdid_ m, r_unknown m) |}.
Next Obligation.
  intros f t. cbn. rewrite !merge_field_0, <-list_fmap_compose. do 3 f_equal. apply list_fmap_ext. intros _ h _.
  exact (clear_merge h HostInfo_new).
Qed.
Next Obligation. done. Qed.
Next Obligation. done. Qed.

#[export] Program Instance helloworld_class `{!Strings} : GeneratedClass helloworld (list byte * Z * Z * list ufield) := {|
  new_msg := helloworld_new; Clear := helloworld_Clear; MergeFrom_values := helloworld_MergeFrom;
  InternalSwap := helloworld_InternalSwap; content m := (str_ m, id_ m, opt_ m, hw_unknown m) |}.
Next Obligation. intros ? f t. destruct (copy_of f t) as (H1 & H2 & H3 & H4). unfold helloworld_CopyFrom in *. congruence. Qed.
Next Obligation. done. Qed.
Next Obligation. done. Qed.
End Instances.

(** ** Two responses on different arenas *)
Module ObjectDemo.
(** A [GenericSwap] that copies through the interface of the messages. *)
Definition generic_swap {M V} `{!GeneratedClass M V} (a b : M) : M * M :=
  (MergeFrom_values b (Clear a), MergeFrom_values a (Clear b)).
Definition response (hs : list HostInfo_msg) (modid cmdid : Z) : GetRouteResponse_msg := RouteRspMsg hs modid cmdid [] 0.
Definition full : GetRouteResponse_msg := response [HostInfoMsg 7 80 [] 4; HostInfoMsg 8 81 [] 4] 1 2.
Definition empty : GetRouteResponse_msg := response [] 1 3.
Definition objects : gmap positive (object GetRouteResponse_msg) :=
  {[1%positive := Object full None; 2%positive := Object empty (Some 9%positive)]}.
End ObjectDemo.
Import ObjectDemo.

Lemma Swap_witness :
  exists s', Swap generic_swap 1 2 objects = Ret s' /\ arenas s' = arenas objects /\
    contents s' !! 1%positive = Some (content empty) /\ contents s' !! 2%positive = Some (content full).
Proof.
  destruct (Swap_ok generic_swap (fun a b => clear_merge b a) (fun a b => clear_merge a b) 1 2 objects
    (Object full None) (Object empty (Some 9%positive)) eq_refl eq_refl) as (s' & Hs & Har & Hc).
  exists s'. rewrite Hc. by simplify_map_eq.
Defined.

Lemma std_swap_witness :
  exists s', std_swap 3 1 2 objects = Ret s' /\ arenas s' = arenas objects /\
    contents s' !! 1%positive = Some (content empty) /\ contents s' !! 2%positive = Some (content full).
Proof.
  destruct (std_swap_ok 3 1 2 objects (Object full None) (Object empty (Some 9%positive)) ltac:(done) eq_refl eq_refl eq_refl)
    as (s' & Hs & Har & Hc).
  exists s'. rewrite Hc. by simplify_map_eq.
Defined.
