(* ===== verification/LoadBalance.v ===== *)
(** * host_info and load_balance: the load balancer of one service
      (lrlb_loadbalance_agent/include/host_info.h, src/host_info.cpp,
      include/load_balance.h, src/load_balance.cpp, and struct Config of
      include/main_server.h)

    A [load_balance] manages the hosts of one (modid, cmdid): a map of host
    objects and two queues of pointers to them, the idle and the overloaded
    ones.  The objects live in the heap [lb_heap]; the members a constructor does
    not initialise are arguments of the model, as are the results of
    [time(NULL)]. *)

From Stdlib Require Import SpecFloat.
From S2P Require Import Prelude.
From S2P Require Import Proto.

(** [struct Config]. *)
Record Config := MkConfig {
  probe_num : Z;
  init_succ_cnt : Z;
  init_err_cnt : Z;
  err_rate : spec_float;
  succ_rate : spec_float;
  contin_err_limit : Z;
  contin_succ_limit : Z;
  local_ip : Z;
  window_err_rate : spec_float;
  idle_timeout : Z;
  overload_timeout : Z;
  update_timeout : Z
}.

(** ** Rates

    [n * 1.0 / d] in [double], compared with a [float] limit. *)
Definition f64 (z : Z) : spec_float := binary_normalize 53 1024 z 0 false.
Definition f64_of_f32 (f : spec_float) : spec_float :=
  match f with
  | S754_finite s m e => binary_normalize 53 1024 (if s then Z.neg m else Z.pos m) e s
  | f => f
  end.
Definition rate (n d : Z) : spec_float := SFdiv 53 1024 (f64 n) (f64 d).
Definition rate_gt (n d : Z) (limit : spec_float) : bool := SFltb (f64_of_f32 limit) (rate n d).
Definition rate_ge (n d : Z) (limit : spec_float) : bool := SFleb (f64_of_f32 limit) (rate n d).

(** ** host_info *)
Record host_info := HostRec {
  ip : Z;
  port : Z;
  vsucc : Z;
  verr : Z;
  rsucc : Z;
  rerr : Z;
  contin_succ : Z;
  contin_err : Z;
  overload : bool;
  idle_ts : Z;
  overload_ts : Z
}.

(** [host_info::host_info]; [ts] is what the two time stamps hold. *)
Definition host_info_new (i p init_vsucc : Z) (ts : Z * Z) : host_info :=
  HostRec (u32 i) p (u32 init_vsucc) 0 0 0 0 0 false ts.1 ts.2.

(** [host_info::set_idle]. *)
Definition set_idle (cfg : Config) (now : Z) (h : host_info) : host_info :=
  HostRec (ip h) (port h) (u32 (init_succ_cnt cfg)) 0 0 0 0 0 false now (overload_ts h).

(** [host_info::set_overload]. *)
Definition set_overload (cfg : Config) (now : Z) (h : host_info) : host_info :=
  HostRec (ip h) (port h) 0 (u32 (init_err_cnt cfg)) 0 0 0 0 true (idle_ts h) now.

(** [host_info::check_window]. *)
Definition check_window (cfg : Config) (h : host_info) : bool :=
  if bool_decide (u32 (rsucc h + rerr h) = 0) then false
  else if rate_ge (rerr h) (u32 (rsucc h + rerr h)) (window_err_rate cfg) then true
  else false.

(** ** load_balance *)
Inductive STATUS := PULLING | NEW.
#[global] Instance STATUS_eq_dec : EqDecision STATUS.
Proof. solve_decision. Defined.

Record load_balance := LB {
  lb_modid : Z;
  lb_cmdid : Z;
  _access_cnt : Z;
  _host_map : gmap Z loc;
  _idle_list : list loc;
  _overload_list : list loc;
  lb_heap : gmap loc host_info;
  last_update_time : Z;
  status : STATUS
}.

(** [load_balance::load_balance]: the counter, the status and the time stamp keep
    what the memory held. *)
Definition load_balance_new (modid cmdid : Z) (stale : Z * STATUS * Z) : load_balance :=
  LB modid cmdid stale.1.1 ∅ [] [] ∅ stale.2 stale.1.2.

Definition set_access (n : Z) (lb : load_balance) : load_balance :=
  LB (lb_modid lb) (lb_cmdid lb) n (_host_map lb) (_idle_list lb) (_overload_list lb) (lb_heap lb)
     (last_update_time lb) (status lb).
Definition set_lists (idle over : list loc) (lb : load_balance) : load_balance :=
  LB (lb_modid lb) (lb_cmdid lb) (_access_cnt lb) (_host_map lb) idle over (lb_heap lb)
     (last_update_time lb) (status lb).
Definition set_heap (hp : gmap loc host_info) (lb : load_balance) : load_balance :=
  LB (lb_modid lb) (lb_cmdid lb) (_access_cnt lb) (_host_map lb) (_idle_list lb) (_overload_list lb) hp
     (last_update_time lb) (status lb).
Definition set_map (m : gmap Z loc) (lb : load_balance) : load_balance :=
  LB (lb_modid lb) (lb_cmdid lb) (_access_cnt lb) m (_idle_list lb) (_overload_list lb) (lb_heap lb)
     (last_update_time lb) (status lb).
Definition set_status (s : STATUS) (lb : load_balance) : load_balance :=
  LB (lb_modid lb) (lb_cmdid lb) (_access_cnt lb) (_host_map lb) (_idle_list lb) (_overload_list lb)
     (lb_heap lb) (last_update_time lb) s.
Definition set_update_time (t : Z) (lb : load_balance) : load_balance :=
  LB (lb_modid lb) (lb_cmdid lb) (_access_cnt lb) (_host_map lb) (_idle_list lb) (_overload_list lb)
     (lb_heap lb) t (status lb).

(** [load_balance::empty]. *)
Definition empty (lb : load_balance) : bool := bool_decide (_host_map lb = ∅).

(** [get_host_from_list]: the host at the front, which goes to the back. *)
Definition get_host_from_list (hp : gmap loc host_info) (l : list loc) : res (HostInfo * list loc) :=
  match l with
  | [] => Stop Undefined
  | x :: l =>
      h ← deref (hp !! x);
      Ret (MkHostInfo (s32 (ip h)) (port h), l ++ [x])
  end.

Definition pick_idle (lb : load_balance) : res (Z * option HostInfo * load_balance) :=
  '(h, l) ← get_host_from_list (lb_heap lb) (_idle_list lb);
  Ret (RET_SUCC, Some h, set_lists l (_overload_list lb) lb).
Definition pick_overload (lb : load_balance) : res (Z * option HostInfo * load_balance) :=
  '(h, l) ← get_host_from_list (lb_heap lb) (_overload_list lb);
  Ret (RET_SUCC, Some h, set_lists (_idle_list lb) l lb).

(** [load_balance::choice_one_host]: the return code, the host put into the
    response and the balancer. *)
Definition choice_one_host (cfg : Config) (lb : load_balance)
    : res (Z * option HostInfo * load_balance) :=
  if bool_decide (_idle_list lb = []) then
    if bool_decide (_access_cnt lb >= probe_num cfg) then pick_overload (set_access 0 lb)
    else Ret (RET_OVERLOAD, None, set_access (_access_cnt lb + 1) lb)
  else if bool_decide (_overload_list lb = []) then pick_idle lb
  else if bool_decide (_access_cnt lb >= probe_num cfg) then pick_overload (set_access 0 lb)
  else pick_idle (set_access (_access_cnt lb + 1) lb).

(** [load_balance::pull]: the request put on the DNS queue. *)
Definition pull (lb : load_balance) : GetRouteRequest * load_balance :=
  (MkRouteReq (lb_modid lb) (lb_cmdid lb), set_status PULLING lb).

Section Update.
(** A shift of a [uint64_t] by a count outside [0, 63] is undefined; [wide] is what
    the machine makes of it. *)
Context (wide : Z -> Z -> Z).

Definition shl64 (x n : Z) : Z :=
  if bool_decide (0 <= n < 64) then u64 (Z.shiftl x n) else u64 (wide x n).

(** The key of [update]: [((uint64_t)h.ip() << 32 + h.port())], where the addition
    binds tighter than the shift. *)
Definition update_key (h : HostInfo) : Z := shl64 (u64 (h_ip h)) (32 + h_port h).

(** The first loop of [update]; [stale] gives the time stamps of a new object. *)
Definition update_add (cfg : Config) (stale : loc -> Z * Z) (h : HostInfo) (lb : load_balance)
    : load_balance :=
  let key := update_key h in
  match _host_map lb !! key with
  | Some _ => lb
  | None =>
      let hi := fresh_loc (lb_heap lb) in
      let lb := set_heap (<[hi := host_info_new (h_ip h) (h_port h) (init_succ_cnt cfg) (stale hi)]>
                          (lb_heap lb)) lb in
      let lb := set_map (<[key := hi]> (_host_map lb)) lb in
      set_lists (_idle_list lb ++ [hi]) (_overload_list lb) lb
  end.

(** [std::list::remove]. *)
Definition list_remove (x : loc) (l : list loc) : list loc := filter (fun y => y <> x) l.

(** The deletion loop of [update], for one key. *)
Definition update_del (key : Z) (lb : load_balance) : res load_balance :=
  hi ← deref (_host_map lb !! key);
  h ← deref (lb_heap lb !! hi);
  let lb := if overload h
            then set_lists (_idle_list lb) (list_remove hi (_overload_list lb)) lb
            else set_lists (list_remove hi (_idle_list lb)) (_overload_list lb) lb in
  Ret (set_map (delete key (_host_map lb)) (set_heap (delete hi (lb_heap lb)) lb)).

Fixpoint update_dels (keys : list Z) (lb : load_balance) : res load_balance :=
  match keys with
  | [] => Ret lb
  | key :: keys => lb ← update_del key lb; update_dels keys lb
  end.

(** [load_balance::update]. *)
Definition update (cfg : Config) (stale : loc -> Z * Z) (now : Z) (rsp : GetRouteResponse)
    (lb : load_balance) : res load_balance :=
  _ ← assert (bool_decide (rr_host rsp <> []));
  let remote_hosts : gset Z := list_to_set (update_key <$> rr_host rsp) in
  let lb := foldl (fun lb h => update_add cfg stale h lb) lb (rr_host rsp) in
  let need_delete := dom (_host_map lb) ∖ remote_hosts in
  lb ← update_dels (elements need_delete) lb;
  Ret (set_status NEW (set_update_time now lb)).
End Update.

(** ** Reports *)

(** The counters after a report. *)
Definition count_report (retcode : Z) (h : host_info) : host_info :=
  if bool_decide (retcode = RET_SUCC) then
    HostRec (ip h) (port h) (u32 (vsucc h + 1)) (verr h) (u32 (rsucc h + 1)) (rerr h)
            (u32 (contin_succ h + 1)) 0 (overload h) (idle_ts h) (overload_ts h)
  else
    HostRec (ip h) (port h) (vsucc h) (u32 (verr h + 1)) (rsucc h) (u32 (rerr h + 1))
            0 (u32 (contin_err h + 1)) (overload h) (idle_ts h) (overload_ts h).

(** Whether an idle host is to become overloaded, or an overloaded one idle. *)
Definition too_many_errors (cfg : Config) (h : host_info) : bool :=
  rate_gt (verr h) (u32 (vsucc h + verr h)) (err_rate cfg) ||
  bool_decide (contin_err h >= u32 (contin_err_limit cfg)).
Definition recovered (cfg : Config) (h : host_info) : bool :=
  rate_gt (vsucc h) (u32 (vsucc h + verr h)) (succ_rate cfg) ||
  bool_decide (contin_succ h >= u32 (contin_succ_limit cfg)).

(** The move of a host between the queues, with its reset. *)
Definition to_overload (cfg : Config) (now : Z) (hi : loc) (h : host_info) (lb : load_balance)
    : load_balance :=
  let lb := set_heap (<[hi := set_overload cfg now h]> (lb_heap lb)) lb in
  set_lists (list_remove hi (_idle_list lb)) (_overload_list lb ++ [hi]) lb.
Definition to_idle (cfg : Config) (now : Z) (hi : loc) (h : host_info) (lb : load_balance)
    : load_balance :=
  let lb := set_heap (<[hi := set_idle cfg now h]> (lb_heap lb)) lb in
  set_lists (_idle_list lb ++ [hi]) (list_remove hi (_overload_list lb)) lb.

(** [load_balance::report]; [now] is the time at entry, [later] the time
    [set_idle] or [set_overload] reads. *)
Definition report (cfg : Config) (now later : Z) (i p retcode : Z) (lb : load_balance)
    : res load_balance :=
  let key := make_key i p in
  match _host_map lb !! key with
  | None => Ret lb
  | Some hi =>
      h ← deref (lb_heap lb !! hi);
      let h := count_report retcode h in
      let lb := set_heap (<[hi := h]> (lb_heap lb)) lb in
      if negb (overload h) && bool_decide (retcode <> RET_SUCC) && too_many_errors cfg h then
        Ret (to_overload cfg later hi h lb)
      else if overload h && bool_decide (retcode = RET_SUCC) && recovered cfg h then
        Ret (to_idle cfg later hi h lb)
      else if negb (overload h) then
        if bool_decide (now - idle_ts h >= idle_timeout cfg) then
          if check_window cfg h then Ret (to_overload cfg later hi h lb)
          else Ret (set_heap (<[hi := set_idle cfg later h]> (lb_heap lb)) lb)
        else Ret lb
      else
        if bool_decide (now - overload_ts h >= overload_timeout cfg) then
          Ret (to_idle cfg later hi h lb)
        else Ret lb
  end.

(** ** Uploading *)
Definition call_result (flag : bool) (h : host_info) : HostCallResult :=
  MkCallResult (s32 (ip h)) (port h) (rsucc h) (rerr h) flag.

(** The results of one queue. *)
Fixpoint list_results (flag : bool) (hp : gmap loc host_info) (l : list loc) : res (list HostCallResult) :=
  match l with
  | [] => Ret []
  | x :: l =>
      h ← deref (hp !! x);
      rs ← list_results flag hp l;
      Ret (call_result flag h :: rs)
  end.

(** [load_balance::commit]: the request put on the report queue, if any. *)
Definition commit (cfg : Config) (now : Z) (lb : load_balance) : res (option ReportStatusReq) :=
  if empty lb then Ret None
  else
    idle ← list_results false (lb_heap lb) (_idle_list lb);
    over ← list_results true (lb_heap lb) (_overload_list lb);
    Ret (Some (MkStatusReq (lb_modid lb) (lb_cmdid lb) (s32 (local_ip cfg)) (idle ++ over) (u32 now))).

(** [load_balance::get_all_hosts]; the order is that of the hash table. *)
Definition get_all_hosts (lb : load_balance) : list loc := (map_to_list (_host_map lb)).*2.

(** ** The invariant

    The two queues partition the hosts of the map, each host once and in the queue
    its [overload] flag names; no other host object exists. *)
Record lb_inv (lb : load_balance) : Prop := {
  inv_nodup : NoDup (_idle_list lb ++ _overload_list lb);
  inv_map x : (exists key, _host_map lb !! key = Some x) <-> x ∈ _idle_list lb ++ _overload_list lb;
  inv_inj k1 k2 x : _host_map lb !! k1 = Some x -> _host_map lb !! k2 = Some x -> k1 = k2;
  inv_idle x : x ∈ _idle_list lb -> exists h, lb_heap lb !! x = Some h /\ overload h = false;
  inv_over x : x ∈ _overload_list lb -> exists h, lb_heap lb !! x = Some h /\ overload h = true;
  inv_heap x : is_Some (lb_heap lb !! x) -> x ∈ _idle_list lb ++ _overload_list lb
}.

Create HintDb lb.

Lemma elem_of_list_remove x y l : y ∈ list_remove x l <-> y <> x /\ y ∈ l.
Proof. unfold list_remove. by rewrite list_elem_of_filter. Qed.

Lemma list_remove_notin x l : x ∉ l -> list_remove x l = l.
Proof.
  unfold list_remove. induction l as [|y l IH]; [done|]. intros [Hx Hl]%not_elem_of_cons.
  rewrite filter_cons_True by done. by rewrite IH.
Qed.

Lemma NoDup_list_remove x l : NoDup l -> NoDup (list_remove x l).
Proof. apply NoDup_filter. Qed.

#[local] Hint Resolve NoDup_list_remove : lb.

(** The host behind a map entry. *)
Lemma inv_lookup lb key hi :
  lb_inv lb -> _host_map lb !! key = Some hi ->
  exists h, lb_heap lb !! hi = Some h /\
    (if overload h then hi ∈ _overload_list lb /\ (hi ∉ _idle_list lb)
     else hi ∈ _idle_list lb /\ (hi ∉ _overload_list lb)).
Proof.
  intros Hinv Hk. pose proof (proj1 (inv_map _ Hinv hi) (ex_intro _ key Hk)) as Hin.
  pose proof (inv_nodup _ Hinv) as (_ & Hdis & _)%NoDup_app.
  apply elem_of_app in Hin as [Hin|Hin].
  - destruct (inv_idle _ Hinv hi Hin) as (h & Hh & Ho). exists h. rewrite Ho. split; [done|]. split; [done|].
    by apply Hdis.
  - destruct (inv_over _ Hinv hi Hin) as (h & Hh & Ho). exists h. rewrite Ho. split; [done|]. split; [done|].
    intros Hi. by apply (Hdis hi).
Qed.

Lemma lb_inv_new modid cmdid stale : lb_inv (load_balance_new modid cmdid stale).
Proof.
  split; simpl.
  - constructor.
  - intros x. split; [intros [k Hk]; by rewrite lookup_empty in Hk|]. intros H. by apply not_elem_of_nil in H.
  - intros k1 k2 x H. by rewrite lookup_empty in H.
  - intros x H. by apply not_elem_of_nil in H.
  - intros x H. by apply not_elem_of_nil in H.
  - intros x [h H]. by rewrite lookup_empty in H.
Qed.

(** Members that the invariant does not mention. *)
Lemma lb_inv_access n lb : lb_inv lb -> lb_inv (set_access n lb).
Proof. by intros []; split. Qed.
Lemma lb_inv_status s lb : lb_inv lb -> lb_inv (set_status s lb).
Proof. by intros []; split. Qed.
Lemma lb_inv_update_time t lb : lb_inv lb -> lb_inv (set_update_time t lb).
Proof. by intros []; split. Qed.

(** Reordering the queues. *)
Lemma lb_inv_perm idle over lb :
  lb_inv lb -> idle ≡ₚ _idle_list lb -> over ≡ₚ _overload_list lb -> lb_inv (set_lists idle over lb).
Proof.
  intros [H1 H2 H3 H4 H5 H6] Hi Ho. split; simpl.
  - by rewrite Hi, Ho.
  - intros x. by rewrite Hi, Ho, H2.
  - done.
  - intros x. rewrite Hi. apply H4.
  - intros x. rewrite Ho. apply H5.
  - intros x Hx. rewrite Hi, Ho. by apply H6.
Qed.

(** Overwriting a host without changing its queue. *)
Lemma lb_inv_host hi h h' lb :
  lb_inv lb -> lb_heap lb !! hi = Some h -> overload h' = overload h ->
  lb_inv (set_heap (<[hi := h']> (lb_heap lb)) lb).
Proof.
  intros [H1 H2 H3 H4 H5 H6] Hh Ho. split; simpl; try done.
  - intros x Hx. rewrite lookup_insert. case_decide as E; [subst x|by apply H4].
    destruct (H4 hi Hx) as (h0 & Hh0 & ?). simplify_eq. eexists; split; [done|congruence].
  - intros x Hx. rewrite lookup_insert. case_decide as E; [subst x|by apply H5].
    destruct (H5 hi Hx) as (h0 & Hh0 & ?). simplify_eq. eexists; split; [done|congruence].
  - intros x. rewrite lookup_insert. case_decide; [subst x; intros _; apply H6; by eexists|apply H6].
Qed.

Lemma lb_inv_to_overload cfg now hi h lb :
  lb_inv lb -> lb_heap lb !! hi = Some h -> hi ∈ _idle_list lb -> lb_inv (to_overload cfg now hi h lb).
Proof.
  intros [H1 H2 H3 H4 H5 H6] Hh Hin. pose proof H1 as (N1 & N2 & N3)%NoDup_app.
  assert (forall x, x ∈ list_remove hi (_idle_list lb) ++ _overload_list lb ++ [hi] <->
                    x ∈ _idle_list lb ++ _overload_list lb) as Hel.
  { intros x. rewrite !elem_of_app, list_elem_of_singleton, elem_of_list_remove.
    destruct (decide (x = hi)) as [->|]; naive_solver. }
  split; unfold to_overload; simpl.
  - apply NoDup_app. split; [by apply NoDup_list_remove|]. split.
    + intros x [Hne Hx]%elem_of_list_remove. rewrite elem_of_app, list_elem_of_singleton. naive_solver.
    + apply NoDup_app. split; [done|]. split; [|apply NoDup_singleton].
      intros x Hx ->%list_elem_of_singleton. by apply (N2 hi).
  - intros x. by rewrite Hel.
  - done.
  - intros x [Hne Hx]%elem_of_list_remove. rewrite lookup_insert_ne by done. by apply H4.
  - intros x Hx. rewrite lookup_insert. case_decide as E; [by eexists|].
    apply elem_of_app in Hx as [Hx|Hx]; [by apply H5|]. apply list_elem_of_singleton in Hx. congruence.
  - intros x Hx. rewrite Hel. apply H6. rewrite lookup_insert in Hx. case_decide; [subst; by eexists|done].
Qed.

Lemma lb_inv_to_idle cfg now hi h lb :
  lb_inv lb -> lb_heap lb !! hi = Some h -> hi ∈ _overload_list lb -> lb_inv (to_idle cfg now hi h lb).
Proof.
  intros [H1 H2 H3 H4 H5 H6] Hh Hin. pose proof H1 as (N1 & N2 & N3)%NoDup_app.
  assert (forall x, x ∈ (_idle_list lb ++ [hi]) ++ list_remove hi (_overload_list lb) <->
                    x ∈ _idle_list lb ++ _overload_list lb) as Hel.
  { intros x. rewrite !elem_of_app, list_elem_of_singleton, elem_of_list_remove.
    destruct (decide (x = hi)) as [->|]; naive_solver. }
  split; unfold to_idle; simpl.
  - apply NoDup_app. split_and!.
    + apply NoDup_app. split; [done|]. split; [|apply NoDup_singleton].
      intros x Hx ->%list_elem_of_singleton. by apply (N2 hi).
    + intros x Hx [Hne Hx']%elem_of_list_remove. rewrite elem_of_app, list_elem_of_singleton in Hx. naive_solver.
    + by apply NoDup_list_remove.
  - intros x. by rewrite Hel.
  - done.
  - intros x Hx. rewrite lookup_insert. case_decide as E; [by eexists|].
    apply elem_of_app in Hx as [Hx|Hx]; [by apply H4|]. apply list_elem_of_singleton in Hx. congruence.
  - intros x [Hne Hx]%elem_of_list_remove. rewrite lookup_insert_ne by done. by apply H5.
  - intros x Hx. rewrite Hel. apply H6. rewrite lookup_insert in Hx. case_decide; [subst; by eexists|done].
Qed.

(** ** Choosing *)
Lemma get_host_from_list_ok lb l x :
  lb_inv lb -> (x :: l ⊆ _idle_list lb ++ _overload_list lb) ->
  exists h, lb_heap lb !! x = Some h /\
    get_host_from_list (lb_heap lb) (x :: l) = Ret (MkHostInfo (s32 (ip h)) (port h), l ++ [x]).
Proof.
  intros Hinv Hsub. assert (x ∈ _idle_list lb ++ _overload_list lb) as Hx by (apply Hsub; left).
  apply elem_of_app in Hx as [Hx|Hx];
    [destruct (inv_idle _ Hinv x Hx) as (h & Hh & _)|destruct (inv_over _ Hinv x Hx) as (h & Hh & _)];
    exists h; split; auto; unfold get_host_from_list; by rewrite Hh.
Qed.

Lemma pick_idle_ok lb x l :
  lb_inv lb -> _idle_list lb = x :: l ->
  exists h, lb_heap lb !! x = Some h /\
    pick_idle lb = Ret (RET_SUCC, Some (MkHostInfo (s32 (ip h)) (port h)),
                        set_lists (l ++ [x]) (_overload_list lb) lb) /\
    lb_inv (set_lists (l ++ [x]) (_overload_list lb) lb).
Proof.
  intros Hinv Hl. destruct (get_host_from_list_ok lb l x Hinv) as (h & Hh & Hg).
  { rewrite Hl. intros y Hy. apply elem_of_app. by left. }
  exists h. split; [done|]. split; [unfold pick_idle; rewrite Hl, Hg; done|].
  apply lb_inv_perm; [done| |done]. rewrite Hl. by rewrite Permutation_app_comm.
Qed.

Lemma pick_overload_ok lb x l :
  lb_inv lb -> _overload_list lb = x :: l ->
  exists h, lb_heap lb !! x = Some h /\
    pick_overload lb = Ret (RET_SUCC, Some (MkHostInfo (s32 (ip h)) (port h)),
                            set_lists (_idle_list lb) (l ++ [x]) lb) /\
    lb_inv (set_lists (_idle_list lb) (l ++ [x]) lb).
Proof.
  intros Hinv Hl. destruct (get_host_from_list_ok lb l x Hinv) as (h & Hh & Hg).
  { rewrite Hl. intros y Hy. apply elem_of_app. by right. }
  exists h. split; [done|]. split; [unfold pick_overload; rewrite Hl, Hg; done|].
  apply lb_inv_perm; [done|done|]. rewrite Hl. by rewrite Permutation_app_comm.
Qed.

Lemma not_empty_queues lb : lb_inv lb -> empty lb = false -> _idle_list lb <> [] \/ _overload_list lb <> [].
Proof.
  intros Hinv He. unfold empty in He. apply bool_decide_eq_false in He.
  apply map_choose in He as (k & x & Hk). pose proof (proj1 (inv_map _ Hinv x) (ex_intro _ k Hk)) as Hx.
  apply elem_of_app in Hx as [Hx|Hx]; [left|right]; intros E; rewrite E in Hx; by apply not_elem_of_nil in Hx.
Qed.

Lemma choice_inv cfg lb :
  lb_inv lb -> empty lb = false ->
  exists r h lb', choice_one_host cfg lb = Ret (r, h, lb') /\ lb_inv lb' /\
    _host_map lb' = _host_map lb /\ lb_heap lb' = lb_heap lb /\ status lb' = status lb /\
    last_update_time lb' = last_update_time lb /\
    (r = RET_SUCC /\ is_Some h \/ r = RET_OVERLOAD /\ h = None).
Proof.
  intros Hinv He. pose proof (not_empty_queues lb Hinv He) as Hq. unfold choice_one_host.
  assert (forall n, _overload_list lb <> [] -> exists r h lb',
    pick_overload (set_access n lb) = Ret (r, h, lb') /\ lb_inv lb' /\ _host_map lb' = _host_map lb /\
    lb_heap lb' = lb_heap lb /\ status lb' = status lb /\ last_update_time lb' = last_update_time lb /\
    (r = RET_SUCC /\ is_Some h \/ r = RET_OVERLOAD /\ h = None)) as Hover.
  { intros n Hne. destruct (_overload_list lb) as [|x l] eqn:E; [done|].
    destruct (pick_overload_ok (set_access n lb) x l) as (h & _ & -> & Hi); [by apply lb_inv_access|done|].
    eexists _, _, _. split; [done|]. split; [exact Hi|]. split_and!; try done. left. split; [done|by eexists]. }
  assert (forall n, _idle_list lb <> [] -> exists r h lb',
    pick_idle (set_access n lb) = Ret (r, h, lb') /\ lb_inv lb' /\ _host_map lb' = _host_map lb /\
    lb_heap lb' = lb_heap lb /\ status lb' = status lb /\ last_update_time lb' = last_update_time lb /\
    (r = RET_SUCC /\ is_Some h \/ r = RET_OVERLOAD /\ h = None)) as Hidle.
  { intros n Hne. destruct (_idle_list lb) as [|x l] eqn:E; [done|].
    destruct (pick_idle_ok (set_access n lb) x l) as (h & _ & -> & Hi); [by apply lb_inv_access|done|].
    eexists _, _, _. split; [done|]. split; [exact Hi|]. split_and!; try done. left. split; [done|by eexists]. }
  case_bool_decide as E1.
  - case_bool_decide; [apply Hover; naive_solver|]. eexists _, _, _. split; [done|].
    split; [by apply lb_inv_access|]. split_and!; try done. by right.
  - case_bool_decide as E2.
    + specialize (Hidle (_access_cnt lb) E1). by destruct lb.
    + case_bool_decide; auto.
Qed.

(** ** Updating *)
Section UpdateSpec.
Context (wide : Z -> Z -> Z) (cfg : Config) (stale : loc -> Z * Z).

(** The hosts in the two queues, as the code shows them to a caller. *)
Definition host_of (h : host_info) : HostInfo := MkHostInfo (s32 (ip h)) (port h).
Definition managed (lb : load_balance) : list HostInfo :=
  omap (fun x => host_of <$> lb_heap lb !! x) (_idle_list lb ++ _overload_list lb).

(** Every host is in the map under the key [update] makes of it. *)
Definition keyed (lb : load_balance) : Prop :=
  forall key x h, _host_map lb !! key = Some x -> lb_heap lb !! x = Some h -> update_key wide (host_of h) = key.

(** No two of the hosts share a key. *)
Definition keys_distinct (hs : list HostInfo) : Prop :=
  forall h1 h2, h1 ∈ hs -> h2 ∈ hs -> update_key wide h1 = update_key wide h2 -> h1 = h2.

(** The first of the hosts with the given key. *)
Definition first_with (key : Z) (hs : list HostInfo) : option HostInfo :=
  head (filter (fun h => update_key wide h = key) hs).

Lemma first_with_Some key hs h : first_with key hs = Some h -> h ∈ hs /\ update_key wide h = key.
Proof.
  unfold first_with. destruct (filter _ hs) as [|h' l] eqn:E; [done|]. intros [= ->].
  assert (h ∈ filter (fun h => update_key wide h = key) hs) as Hin by (rewrite E; by left).
  apply list_elem_of_filter in Hin. tauto.
Qed.
Lemma first_with_None key hs : key ∉ (list_to_set (update_key wide <$> hs) : gset Z) -> filter (fun h => update_key wide h = key) hs = [].
Proof.
  intros Hn. destruct (filter _ hs) as [|h l] eqn:E; [done|]. exfalso. apply Hn.
  assert (h ∈ filter (fun h => update_key wide h = key) hs) as Hin by (rewrite E; by left).
  apply list_elem_of_filter in Hin as [Hk Hin]. apply elem_of_list_to_set, list_elem_of_fmap. by exists h.
Qed.
Lemma first_with_app key hs1 hs2 :
  first_with key (hs1 ++ hs2) = match first_with key hs1 with Some h => Some h | None => first_with key hs2 end.
Proof. unfold first_with. rewrite filter_app. by destruct (filter _ hs1). Qed.

(** [lb'] has grown out of [lb] by hosts of [hs]. *)
Definition grown (hs : list HostInfo) (lb lb' : load_balance) : Prop :=
  (forall key x, _host_map lb !! key = Some x -> _host_map lb' !! key = Some x) /\
  (forall x h, lb_heap lb !! x = Some h -> lb_heap lb' !! x = Some h) /\
  (forall key x, _host_map lb' !! key = Some x -> _host_map lb !! key = None -> exists h, first_with key hs = Some h /\
     lb_heap lb' !! x = Some (host_info_new (h_ip h) (h_port h) (init_succ_cnt cfg) (stale x))) /\
  dom (_host_map lb') = dom (_host_map lb) ∪ list_to_set (update_key wide <$> hs).

Lemma update_add_ok h lb :
  lb_inv lb -> lb_inv (update_add wide cfg stale h lb) /\ grown [h] lb (update_add wide cfg stale h lb).
Proof.
  intros Hinv. unfold update_add. set (key := update_key wide h).
  destruct (_host_map lb !! key) as [x|] eqn:Ek.
  { split; [done|]. split_and!; auto; [intros; congruence|].
    assert (key ∈ dom (_host_map lb)) by (by apply elem_of_dom_2 in Ek). simpl. fold key. set_solver. }
  set (hi := fresh_loc (lb_heap lb)). assert (lb_heap lb !! hi = None) as Hf by apply fresh_loc_None.
  assert (hi ∉ _idle_list lb ++ _overload_list lb) as Hn.
  { intros [Hx|Hx]%elem_of_app;
      [destruct (inv_idle _ Hinv hi Hx) as (? & ? & _)|destruct (inv_over _ Hinv hi Hx) as (? & ? & _)]; congruence. }
  clearbody hi. destruct Hinv as [H1 H2 H3 H4 H5 H6]. pose proof Hn as [Hn1 Hn2]%not_elem_of_app. split.
  - split; simpl.
    + rewrite <-app_assoc. simpl. rewrite <-Permutation_middle. by apply NoDup_cons.
    + intros x. split.
      * intros [k Hk]. rewrite lookup_insert in Hk. case_decide; [simplify_eq; set_solver|].
        specialize (proj1 (H2 x) (ex_intro _ k Hk)). set_solver.
      * intros Hx. destruct (decide (x = hi)) as [->|Hne]; [exists key; apply lookup_insert_eq|].
        destruct (proj2 (H2 x)) as [k Hk]; [set_solver|]. exists k. rewrite lookup_insert_ne; [done|congruence].
    + intros k1 k2 x. rewrite !lookup_insert. specialize (proj1 (H2 hi)) as Hh.
      do 2 case_decide; simplify_eq; try done; [| |apply H3]; intros; exfalso; simplify_eq; apply Hn, Hh; eauto.
    + intros x [Hx|Hx]%elem_of_app; [|apply list_elem_of_singleton in Hx; subst x; rewrite lookup_insert_eq; by eexists].
      rewrite lookup_insert_ne by congruence. by apply H4.
    + intros x Hx. rewrite lookup_insert_ne by congruence. by apply H5.
    + intros x. rewrite lookup_insert. case_decide; [subst; set_solver|]. intros Hx. specialize (H6 x Hx). set_solver.
  - split_and!; simpl.
    + intros k x Hk. rewrite lookup_insert_ne; [done|congruence].
    + intros x h' Hx. rewrite lookup_insert_ne; [done|congruence].
    + intros k x. rewrite lookup_insert. case_decide; [|congruence]. intros [= <-] _. exists h.
      rewrite lookup_insert_eq. split; [|done]. unfold first_with. by rewrite filter_cons_True.
    + rewrite dom_insert_L. set_solver.
Qed.

Lemma grown_trans hs1 hs2 a b c : lb_inv a -> grown hs1 a b -> grown hs2 b c -> grown (hs1 ++ hs2) a c.
Proof.
  intros Ha (A1 & A2 & A3 & A4) (B1 & B2 & B3 & B4). split_and!; auto.
  - intros key x Hc Hk. destruct (_host_map b !! key) as [y|] eqn:Eb.
    + assert (x = y) as -> by (apply B1 in Eb; congruence).
      destruct (A3 key y Eb Hk) as (h & Hin & Hh). exists h. rewrite first_with_app, Hin. split; [done|auto].
    + destruct (B3 key x Hc Eb) as (h & Hin & Hh). exists h. rewrite first_with_app.
      assert (first_with key hs1 = None) as ->; [|done]. unfold first_with. rewrite first_with_None; [done|].
      intros Hn. apply not_elem_of_dom in Eb. apply Eb. rewrite A4. apply elem_of_union. by right.
  - rewrite B4, A4, fmap_app, list_to_set_app_L. set_solver.
Qed.

Lemma update_adds_ok hs lb :
  lb_inv lb ->
  lb_inv (foldl (fun lb h => update_add wide cfg stale h lb) lb hs) /\
  grown hs lb (foldl (fun lb h => update_add wide cfg stale h lb) lb hs).
Proof.
  revert lb. induction hs as [|h hs IH]; intros lb Hinv; simpl.
  - split; [done|]. split_and!; auto; [intros; congruence|set_solver].
  - destruct (update_add_ok h lb Hinv) as [Hi Hg]. destruct (IH _ Hi) as [Hi' Hg'].
    split; [done|]. by apply (grown_trans [h] hs _ (update_add wide cfg stale h lb)).
Qed.

(** Deleting one host. *)
Lemma update_del_ok key hi lb :
  lb_inv lb -> _host_map lb !! key = Some hi ->
  exists lb', update_del key lb = Ret lb' /\ lb_inv lb' /\
    _host_map lb' = delete key (_host_map lb) /\ lb_heap lb' = delete hi (lb_heap lb).
Proof.
  intros Hinv Hk. destruct (inv_lookup _ _ _ Hinv Hk) as (h & Hh & Hq). unfold update_del.
  rewrite Hk. cbn [mbind res_mbind deref]. rewrite Hh. cbn [mbind res_mbind deref].
  assert (exists idle over, (if overload h
      then set_lists (_idle_list lb) (list_remove hi (_overload_list lb)) lb
      else set_lists (list_remove hi (_idle_list lb)) (_overload_list lb) lb) = set_lists idle over lb /\
    idle = list_remove hi (_idle_list lb) /\ over = list_remove hi (_overload_list lb))
    as (idle & over & -> & -> & ->).
  { destruct (overload h), Hq as [_ Hq]; eexists _, _; (split; [done|]);
      split; done || (by rewrite list_remove_notin). }
  eexists. split; [done|]. split; [|done]. destruct Hinv as [H1 H2 H3 H4 H5 H6].
  pose proof H1 as (N1 & N2 & N3)%NoDup_app.
  assert (forall x, x ∈ list_remove hi (_idle_list lb) ++ list_remove hi (_overload_list lb) <->
                    x <> hi /\ x ∈ _idle_list lb ++ _overload_list lb) as Hel.
  { intros x. rewrite !elem_of_app, !elem_of_list_remove. naive_solver. }
  split; simpl.
  - apply NoDup_app. split_and!; [by apply NoDup_list_remove| |by apply NoDup_list_remove].
    intros x [_ Hx]%elem_of_list_remove [_ Hx']%elem_of_list_remove. by apply (N2 x).
  - intros x. rewrite Hel, <-H2. split.
    + intros [k Hd]. apply lookup_delete_Some in Hd as [Hne Hd]. split; [|eauto].
      intros ->. apply Hne. by eapply H3.
    + intros [Hne [k Hx]]. exists k. rewrite lookup_delete_ne; [done|congruence].
  - intros k1 k2 x [_ ?]%lookup_delete_Some [_ ?]%lookup_delete_Some. by eapply H3.
  - intros x [Hne Hx]%elem_of_list_remove. rewrite lookup_delete_ne by done. by apply H4.
  - intros x [Hne Hx]%elem_of_list_remove. rewrite lookup_delete_ne by done. by apply H5.
  - intros x [h' Hx]. apply lookup_delete_Some in Hx as [Hne Hx]. rewrite Hel. split; [done|].
    apply H6. by eexists.
Qed.

Lemma update_dels_ok keys lb :
  lb_inv lb -> NoDup keys -> Forall (fun k => is_Some (_host_map lb !! k)) keys ->
  exists lb', update_dels keys lb = Ret lb' /\ lb_inv lb' /\
    (forall k, _host_map lb' !! k = if decide (k ∈ keys) then None else _host_map lb !! k) /\
    (forall k x, _host_map lb' !! k = Some x -> lb_heap lb' !! x = lb_heap lb !! x).
Proof.
  revert lb. induction keys as [|key keys IH]; intros lb Hinv Hnd Hall; simpl.
  { by exists lb. }
  apply NoDup_cons in Hnd as [Hnin Hnd]. apply Forall_cons in Hall as [[hi Hk] Hall].
  destruct (update_del_ok key hi lb Hinv Hk) as (lb1 & -> & Hinv1 & Hm1 & Hh1). cbn [mbind res_mbind].
  destruct (IH lb1 Hinv1 Hnd) as (lb' & Hrun & Hinv' & Hm' & Hh').
  { apply list.Forall_forall. intros k Hin. rewrite list.Forall_forall in Hall. rewrite Hm1.
    rewrite lookup_delete_ne by (intros ->; done). by apply Hall. }
  exists lb'. split; [done|]. split; [done|]. split.
  - intros k. rewrite Hm', Hm1. destruct (decide (k = key)) as [->|Hne].
    + rewrite lookup_delete_eq, (decide_True (P := key ∈ key :: keys)) by left. by case_decide.
    + rewrite lookup_delete_ne by done.
      destruct (decide (k ∈ keys)); [rewrite decide_True by (by right); done|].
      rewrite decide_False; [done|]. by rewrite not_elem_of_cons.
  - intros k x Hx. rewrite (Hh' k x Hx), Hh1. rewrite Hm' in Hx. case_decide; [done|].
    rewrite Hm1 in Hx. apply lookup_delete_Some in Hx as [Hne Hx]. apply lookup_delete_ne.
    intros <-. apply Hne. by eapply (inv_inj _ Hinv).
Qed.

(** The whole effect of an update. *)
Lemma update_ok now rsp lb :
  lb_inv lb -> rr_host rsp <> [] ->
  exists lb', update wide cfg stale now rsp lb = Ret lb' /\ lb_inv lb' /\
    dom (_host_map lb') = list_to_set (update_key wide <$> rr_host rsp) /\
    (forall key x h, _host_map lb !! key = Some x -> is_Some (_host_map lb' !! key) ->
       lb_heap lb !! x = Some h -> _host_map lb' !! key = Some x /\ lb_heap lb' !! x = Some h) /\
    (forall key x, _host_map lb !! key = None -> _host_map lb' !! key = Some x ->
       exists h, first_with key (rr_host rsp) = Some h /\
         lb_heap lb' !! x = Some (host_info_new (h_ip h) (h_port h) (init_succ_cnt cfg) (stale x))) /\
    status lb' = NEW /\ last_update_time lb' = now.
Proof.
  intros Hinv Hne. unfold update. rewrite bool_decide_eq_true_2 by done. cbn [mbind res_mbind assert].
  destruct (update_adds_ok (rr_host rsp) lb Hinv) as [Hinv1 (G1 & G2 & G3 & G4)].
  set (lb1 := foldl _ _ _) in *. clearbody lb1. set (R := list_to_set _) in *.
  destruct (update_dels_ok (elements (dom (_host_map lb1) ∖ R)) lb1 Hinv1) as (lb2 & -> & Hinv2 & Hm & Hh).
  { apply NoDup_elements. }
  { apply list.Forall_forall. intros k Hk. apply elem_of_elements in Hk. apply elem_of_dom. set_solver. }
  cbn [mbind res_mbind]. eexists. split; [done|]. split; [by apply lb_inv_status, lb_inv_update_time|].
  assert (forall k, k ∈ R -> _host_map lb2 !! k = _host_map lb1 !! k) as HmR.
  { intros k Hk. rewrite Hm. apply decide_False. rewrite elem_of_elements, elem_of_difference. tauto. }
  assert (forall k, is_Some (_host_map lb2 !! k) <-> k ∈ R) as Hdom.
  { intros k. split.
    - rewrite Hm. case_decide as Hd; [by intros []|]. rewrite <-elem_of_dom, elem_of_elements in *.
      intros Hk. destruct (decide (k ∈ R)); [done|]. exfalso. apply Hd. by apply elem_of_difference.
    - intros Hk. rewrite HmR by done. apply elem_of_dom. rewrite G4. apply elem_of_union. by right. }
  simpl. split_and!; try done.
  - apply set_eq. intros k. by rewrite elem_of_dom, Hdom.
  - intros key x h Hk Hs Hx. apply Hdom in Hs. pose proof (HmR key Hs) as E. rewrite (G1 key x Hk) in E.
    split; [done|]. rewrite (Hh key x E). by apply G2.
  - intros key x Hk Hx. assert (key ∈ R) as HR by (apply Hdom; by eexists).
    pose proof (HmR key HR) as E. rewrite Hx in E. symmetry in E.
    destruct (G3 key x E Hk) as (h & Hin & Hnew). exists h. split; [done|]. by rewrite (Hh key x Hx).
Qed.

(** The hosts behind the map. *)
Lemma elem_of_managed lb h :
  lb_inv lb -> h ∈ managed lb <-> exists key x hr, _host_map lb !! key = Some x /\ lb_heap lb !! x = Some hr /\ host_of hr = h.
Proof.
  intros Hinv. unfold managed. rewrite list_elem_of_omap. split.
  - intros (x & Hx & Hh). destruct (lb_heap lb !! x) as [hr|] eqn:Ehr; [|done]. injection Hh as <-.
    apply (inv_map _ Hinv) in Hx as [key Hk]. by exists key, x, hr.
  - intros (key & x & hr & Hk & Hx & <-). exists x. rewrite Hx. split; [|done]. apply (inv_map _ Hinv). by exists key.
Qed.
Lemma host_of_new h init ts : is_s32 (h_ip h) -> host_of (host_info_new (h_ip h) (h_port h) init ts) = h.
Proof. intros Hi. unfold host_of, host_info_new. simpl. destruct h as [i p]. simpl in *. f_equal. int_solve. Qed.

(** The keys of an update are those of its hosts, and where keys are distinct its hosts are those of the response. *)
Lemma update_managed now rsp lb lb' :
  lb_inv lb -> keyed lb -> Forall (fun h => is_s32 (h_ip h)) (rr_host rsp) -> rr_host rsp <> [] ->
  update wide cfg stale now rsp lb = Ret lb' ->
  keyed lb' /\ (keys_distinct (managed lb ++ rr_host rsp) -> forall h, h ∈ managed lb' <-> h ∈ rr_host rsp).
Proof.
  intros Hinv Hkeyed Hs32 Hne Hup.
  destruct (update_ok now rsp lb Hinv Hne) as (lb1 & Hup1 & Hinv' & Hdom & Hkept & Hnew & _).
  rewrite Hup in Hup1. injection Hup1 as <-. rewrite list.Forall_forall in Hs32.
  assert (forall key x h, _host_map lb' !! key = Some x -> lb_heap lb' !! x = Some h ->
    update_key wide (host_of h) = key /\ (host_of h ∈ managed lb \/ host_of h ∈ rr_host rsp)) as Hall.
  { intros key x h Hk Hh. destruct (_host_map lb !! key) as [y|] eqn:Ey.
    - destruct (inv_lookup _ _ _ Hinv Ey) as (hy & Hhy & _).
      destruct (Hkept key y hy Ey) as [Hk' Hh']; [by eexists|done|]. rewrite Hk in Hk'. injection Hk' as <-.
      rewrite Hh in Hh'. injection Hh' as <-. split; [by eapply Hkeyed|]. left. apply elem_of_managed; [done|]. by exists key, x, h.
    - destruct (Hnew key x Ey Hk) as (h0 & Hf & Hh0). apply first_with_Some in Hf as [Hin Hkey].
      rewrite Hh in Hh0. injection Hh0 as ->. rewrite host_of_new by (by apply Hs32). by split; [|right]. }
  split; [intros key x h Hk Hh; by apply (Hall key x h)|]. intros Hd h. rewrite elem_of_managed by done. split.
  - intros (key & x & hr & Hk & Hx & <-). destruct (Hall key x hr Hk Hx) as [Hkey Hor].
    assert (key ∈ dom (_host_map lb')) as Hin by (by apply elem_of_dom_2 in Hk).
    rewrite Hdom, elem_of_list_to_set, list_elem_of_fmap in Hin. destruct Hin as (h1 & Hk1 & Hin1).
    assert (host_of hr = h1) as ->; [|done]. apply Hd; [apply elem_of_app; tauto|apply elem_of_app; by right|congruence].
  - intros Hin. assert (update_key wide h ∈ dom (_host_map lb')) as [x Hx]%elem_of_dom.
    { rewrite Hdom. apply elem_of_list_to_set, list_elem_of_fmap. by exists h. }
    destruct (inv_lookup _ _ _ Hinv' Hx) as (hr & Hhr & _). exists (update_key wide h), x, hr. split_and!; [done|done|].
    destruct (Hall _ x hr Hx Hhr) as [Hkey Hor]. apply Hd; [apply elem_of_app; tauto|apply elem_of_app; by right|done].
Qed.
(** (C4) Updating a route.  The map has afterwards exactly the keys of the response's hosts; a host
    that was known under its key before keeps its object with all its counters and its queue; a
    key that is new gets an idle object for the first host of the response that has it, with the
    initial success count; no host object is left behind.  The key is not injective
    ([keys_collide]): hosts that share one are taken for the same host.  Where no two of the hosts
    managed before and those of the response share a key, the managed hosts are afterwards
    exactly those of the response. *)
Theorem update_spec now rsp lb :
  lb_inv lb -> keyed lb -> Forall (fun h => is_s32 (h_ip h)) (rr_host rsp) -> rr_host rsp <> [] ->
  exists lb', update wide cfg stale now rsp lb = Ret lb' /\ lb_inv lb' /\ keyed lb' /\
    dom (_host_map lb') = list_to_set (update_key wide <$> rr_host rsp) /\
    (forall key x h, _host_map lb !! key = Some x -> is_Some (_host_map lb' !! key) ->
       lb_heap lb !! x = Some h -> _host_map lb' !! key = Some x /\ lb_heap lb' !! x = Some h) /\
    (forall key x, _host_map lb !! key = None -> _host_map lb' !! key = Some x ->
       exists h, first_with key (rr_host rsp) = Some h /\
         lb_heap lb' !! x = Some (host_info_new (h_ip h) (h_port h) (init_succ_cnt cfg) (stale x))) /\
    status lb' = NEW /\ last_update_time lb' = now /\
    (keys_distinct (managed lb ++ rr_host rsp) -> forall h, h ∈ managed lb' <-> h ∈ rr_host rsp).
Proof.
  intros Hinv Hk Hs Hne. destruct (update_ok now rsp lb Hinv Hne) as (lb' & Hup & Hinv' & Hdom & Hkept & Hnew & Hst & Ht).
  destruct (update_managed now rsp lb lb' Hinv Hk Hs Hne Hup) as [Hk' Hm]. exists lb'. by split_and!.
Qed.

Lemma keyed_new modid cmdid st : keyed (load_balance_new modid cmdid st).
Proof. intros key x h Hk. simpl in Hk. by rewrite lookup_empty in Hk. Qed.

(** Two hosts under one key: whatever the machine makes of an overlong shift, of a response
    with hosts (2, port 0) and (1, port 1) only the first is managed. *)
Theorem keys_collide now modid cmdid st :
  update_key wide (MkHostInfo 2 0) = update_key wide (MkHostInfo 1 1) /\
  exists lb', update wide cfg stale now (MkRouteRsp modid cmdid [MkHostInfo 2 0; MkHostInfo 1 1]) (load_balance_new modid cmdid st) = Ret lb' /\
    managed lb' = [MkHostInfo 2 0].
Proof.
  assert (update_key wide (MkHostInfo 2 0) = 8589934592 /\ update_key wide (MkHostInfo 1 1) = 8589934592) as [E1 E2] by done.
  split; [by rewrite E1, E2|]. unfold update, update_add. cbn [rr_host fmap list_fmap foldl]. rewrite E1, E2. simpl.
  unfold managed. eexists. split; reflexivity.
Qed.
End UpdateSpec.

(** ** Reporting *)
Lemma overload_count rc h : overload (count_report rc h) = overload h.
Proof. unfold count_report. by case_bool_decide. Qed.

(** The branch [report] takes for a known host. *)
Definition report_move (cfg : Config) (now rc : Z) (h : host_info) : option bool :=
  if negb (overload h) && bool_decide (rc <> RET_SUCC) && too_many_errors cfg h then Some true
  else if overload h && bool_decide (rc = RET_SUCC) && recovered cfg h then Some false
  else if negb (overload h) then
    if bool_decide (now - idle_ts h >= idle_timeout cfg) && check_window cfg h then Some true else None
  else if bool_decide (now - overload_ts h >= overload_timeout cfg) then Some false else None.

(** A known host is counted, then moved to the other queue or left in its own. *)
Lemma report_cases cfg now later i p rc lb hi h :
  lb_inv lb -> _host_map lb !! make_key i p = Some hi -> lb_heap lb !! hi = Some h ->
  let h1 := count_report rc h in
  let lb1 := set_heap (<[hi := h1]> (lb_heap lb)) lb in
  lb_inv lb1 /\
  report cfg now later i p rc lb = Ret
    match report_move cfg now rc h1 with
    | Some true => to_overload cfg later hi h1 lb1
    | Some false => to_idle cfg later hi h1 lb1
    | None =>
        if negb (overload h1) && bool_decide (now - idle_ts h1 >= idle_timeout cfg)
        then set_heap (<[hi := set_idle cfg later h1]> (lb_heap lb1)) lb1 else lb1
    end /\
  (forall b, report_move cfg now rc h1 = Some b -> overload h1 = negb b).
Proof.
  intros Hinv Hk Hh h1 lb1. split; [by apply (lb_inv_host hi h); [..|apply overload_count]|].
  unfold report. cbv zeta. rewrite Hk, Hh. cbn [mbind res_mbind deref]. fold h1. fold lb1.
  unfold report_move. destruct (overload h1) eqn:Eo; simpl.
  - split; [repeat (case_match; simpl; try done)|]. intros b. repeat case_match; naive_solver.
  - split; [|intros b; repeat case_match; naive_solver].
    destruct (bool_decide (rc <> RET_SUCC) && too_many_errors cfg h1); [done|].
    destruct (bool_decide (now - idle_ts h1 >= idle_timeout cfg)); simpl; [|done].
    by destruct (check_window cfg h1).
Qed.

Lemma lookup_heap1 hi (h : host_info) lb : lb_heap (set_heap (<[hi := h]> (lb_heap lb)) lb) !! hi = Some h.
Proof. apply lookup_insert_eq. Qed.

Lemma report_inv cfg now later i p rc lb :
  lb_inv lb -> exists lb', report cfg now later i p rc lb = Ret lb' /\ lb_inv lb' /\ _host_map lb' = _host_map lb /\
    status lb' = status lb /\ last_update_time lb' = last_update_time lb.
Proof.
  intros Hinv. destruct (_host_map lb !! make_key i p) as [hi|] eqn:Hk; cycle 1.
  { exists lb. unfold report. cbv zeta. by rewrite Hk. }
  destruct (inv_lookup _ _ _ Hinv Hk) as (h & Hh & Hq).
  destruct (report_cases cfg now later i p rc lb hi h Hinv Hk Hh) as (Hi1 & -> & Hb).
  set (h1 := count_report rc h) in *. rewrite <-(overload_count rc) in Hq. fold h1 in Hq.
  eexists. split; [done|]. destruct (report_move cfg now rc h1) as [[]|] eqn:Em.
  - specialize (Hb true eq_refl). rewrite Hb in Hq. split_and!; try done.
    apply lb_inv_to_overload; [done|apply lookup_heap1|apply Hq].
  - specialize (Hb false eq_refl). rewrite Hb in Hq. split_and!; try done.
    apply lb_inv_to_idle; [done|apply lookup_heap1|apply Hq].
  - destruct (overload h1) eqn:Eo; simpl; [done|]. case_bool_decide; [|done]. split_and!; try done.
    by apply (lb_inv_host hi h1 _ _ Hi1 (lookup_heap1 _ _ _)).
Qed.

(** ** All operations *)
Inductive lb_op :=
| OpChoice
| OpPull
| OpReset
| OpUpdate (stale : loc -> Z * Z) (now : Z) (rsp : GetRouteResponse)
| OpReport (now later i p rc : Z).

Definition lb_step (wide : Z -> Z -> Z) (cfg : Config) (op : lb_op) (lb : load_balance) : res load_balance :=
  match op with
  | OpChoice => '(_, _, lb) ← choice_one_host cfg lb; Ret lb
  | OpPull => Ret (pull lb).2
  | OpReset => Ret (set_status NEW lb)
  | OpUpdate stale now rsp => update wide cfg stale now rsp lb
  | OpReport now later i p rc => report cfg now later i p rc lb
  end.

(** The conditions the callers in route_lb.cpp establish. *)
Definition lb_guard (op : lb_op) (lb : load_balance) : Prop :=
  match op with
  | OpChoice => empty lb = false
  | OpUpdate _ _ rsp => rr_host rsp <> []
  | _ => True
  end.

Inductive lb_reach (wide : Z -> Z -> Z) (cfg : Config) : load_balance -> Prop :=
| reach_new modid cmdid stale : lb_reach wide cfg (load_balance_new modid cmdid stale)
| reach_step op lb lb' :
    lb_reach wide cfg lb -> lb_guard op lb -> lb_step wide cfg op lb = Ret lb' -> lb_reach wide cfg lb'.

Lemma lb_step_ok wide cfg op lb :
  lb_inv lb -> lb_guard op lb -> exists lb', lb_step wide cfg op lb = Ret lb' /\ lb_inv lb'.
Proof.
  intros Hinv Hg. destruct op as [| | |stale now rsp|now later i p rc]; simpl in *.
  - destruct (choice_inv cfg lb Hinv Hg) as (r & h & lb' & -> & ? & _). by exists lb'.
  - eexists. split; [done|]. by apply lb_inv_status.
  - eexists. split; [done|]. by apply lb_inv_status.
  - destruct (update_ok wide cfg stale now rsp lb Hinv Hg) as (lb' & ? & ? & _). by exists lb'.
  - destruct (report_inv cfg now later i p rc lb Hinv) as (lb' & ? & ? & _). by exists lb'.
Qed.

(** Every operation keeps [keyed], an update with addresses that are [int32]. *)
Lemma keyed_host wide hi h h' lb lb' :
  keyed wide lb -> lb_heap lb !! hi = Some h -> host_of h' = host_of h ->
  _host_map lb' = _host_map lb -> lb_heap lb' = <[hi := h']> (lb_heap lb) -> keyed wide lb'.
Proof.
  intros Hk Hh Hof Hm Hhp key x hx Hx Hhx. rewrite Hm in Hx. rewrite Hhp, lookup_insert in Hhx.
  case_decide as E; [|by eapply Hk]. injection Hhx as <-. subst x. rewrite Hof. by eapply Hk.
Qed.

Lemma host_of_count rc h : host_of (count_report rc h) = host_of h.
Proof. unfold count_report. by case_bool_decide. Qed.

Lemma keyed_report wide cfg now later i p rc lb lb' :
  keyed wide lb -> report cfg now later i p rc lb = Ret lb' -> keyed wide lb'.
Proof.
  intros Hk. unfold report. cbv zeta. destruct (_host_map lb !! make_key i p) as [hi|]; [|by intros [= <-]].
  intros (h & Hh%deref_Ret & Hr)%bind_Ret.
  assert (forall h', host_of h' = host_of h -> keyed wide (set_heap (<[hi := h']> (lb_heap lb)) lb)) as Hset
    by (intros h' Hof; by eapply (keyed_host wide hi h)).
  assert (host_of (set_overload cfg later (count_report rc h)) = host_of h /\ host_of (set_idle cfg later (count_report rc h)) = host_of h)
    as [Ho Hi] by (split; apply host_of_count).
  repeat (destruct (_ : bool) in Hr); injection Hr as <-;
    first [by apply Hset, host_of_count
          |eapply (keyed_host wide hi h); [exact Hk|exact Hh|exact Ho|done|apply insert_insert_eq]
          |eapply (keyed_host wide hi h); [exact Hk|exact Hh|exact Hi|done|apply insert_insert_eq]].
Qed.

Lemma keyed_step wide cfg op lb lb' :
  lb_inv lb -> keyed wide lb -> lb_guard op lb ->
  (forall stale now rsp, op = OpUpdate stale now rsp -> Forall (fun h => is_s32 (h_ip h)) (rr_host rsp)) ->
  lb_step wide cfg op lb = Ret lb' -> keyed wide lb'.
Proof.
  intros Hinv Hk Hg Hs. destruct op as [| | |stale now rsp|now later i p rc]; simpl in *.
  - intros ([[r h] lb1] & Hc & [= <-])%bind_Ret. revert Hc. unfold choice_one_host, pick_idle, pick_overload.
    repeat case_bool_decide; intros Hc; try (apply bind_Ret in Hc as ([h1 l1] & _ & Hc)); by injection Hc as _ _ <-.
  - by intros [= <-].
  - by intros [= <-].
  - intros Hu. by eapply update_managed; [..|exact Hu]; eauto.
  - apply keyed_report. done.
Qed.

(** (C3) The queues always partition the hosts: in every state a balancer reaches
    the idle and the overloaded queue together hold every managed host exactly
    once, in the queue its flag names, and the next operation, whichever it is,
    neither dereferences a dangling pointer nor takes from an empty queue. *)
Theorem lb_reach_safe wide cfg lb :
  lb_reach wide cfg lb ->
  lb_inv lb /\ forall op, lb_guard op lb -> exists lb', lb_step wide cfg op lb = Ret lb' /\ lb_inv lb'.
Proof.
  intros Hr. assert (lb_inv lb) as Hinv.
  { induction Hr as [|op lb lb' _ IH Hg Hs]; [apply lb_inv_new|].
    destruct (lb_step_ok wide cfg op lb IH Hg) as (lb2 & Hs2 & ?). congruence. }
  split; [done|]. intros op Hg. by apply lb_step_ok.
Qed.

(** ** Overload and recovery *)

(** Reports with one outcome for one host, at the given times. *)
Fixpoint report_all (cfg : Config) (ts : list (Z * Z)) (i p rc : Z) (lb : load_balance) : res load_balance :=
  match ts with
  | [] => Ret lb
  | (now, later) :: ts => lb ← report cfg now later i p rc lb; report_all cfg ts i p rc lb
  end.

Lemma u32_pos_limit z : 0 <= z -> is_s32 z -> u32 z = z.
Proof. int_solve. Qed.

(** (C5) A host that keeps failing is overloaded: an idle host the map holds under the key
    of the reports is in the overloaded queue after at most [contin_err_limit - contin_err]
    consecutive failures, whatever its rates, provided that all these reports come before the end of
    its window, [idle_timeout] seconds after [idle_ts]; a report at or after the end that does not
    overload the host starts a new window and counts from 0 again.  The count that suffices is the
    limit itself: the code compares with [>=]. *)
Theorem errors_overload cfg ts i p rc lb hi h :
  lb_inv lb -> rc <> RET_SUCC ->
  _host_map lb !! make_key i p = Some hi -> lb_heap lb !! hi = Some h -> overload h = false ->
  0 <= contin_err h < contin_err_limit cfg -> is_s32 (contin_err_limit cfg) ->
  Forall (fun t => t.1 - idle_ts h < idle_timeout cfg) ts ->
  contin_err_limit cfg - contin_err h <= zlen ts ->
  exists k lb', (k <= length ts)%nat /\ report_all cfg (take k ts) i p rc lb = Ret lb' /\
    lb_inv lb' /\ hi ∈ _overload_list lb'.
Proof.
  intros Hinv Hrc Hk Hh Ho Hc Hlim Hts. revert lb h Hinv Hk Hh Ho Hc Hts.
  induction ts as [|[now later] ts IH]; intros lb h Hinv Hk Hh Ho Hc Hts Hlen.
  { change (zlen (@nil (Z * Z))) with 0 in Hlen. lia. }
  apply Forall_cons in Hts as [Ht Hts]. simpl in Ht. rewrite zlen_cons in Hlen.
  destruct (report_cases cfg now later i p rc lb hi h Hinv Hk Hh) as (Hi1 & Hrep & Hb).
  destruct (report_inv cfg now later i p rc lb Hinv) as (lb2 & Hrep2 & Hinv2 & Hmap2 & _).
  assert (count_report rc h = HostRec (ip h) (port h) (vsucc h) (u32 (verr h + 1)) (rsucc h)
    (u32 (rerr h + 1)) 0 (contin_err h + 1) false (idle_ts h) (overload_ts h)) as Ec.
  { unfold count_report. rewrite bool_decide_eq_false_2, Ho by done. f_equal. int_solve. }
  set (h1 := count_report rc h) in *. clearbody h1. subst h1.
  destruct (report_move cfg now rc _) as [[]|] eqn:Em.
  - exists 1%nat, lb2. split; [simpl; lia|]. rewrite Hrep2 in Hrep. injection Hrep as Hlb2.
    split; [simpl; rewrite Hrep2; done|]. split; [done|]. subst lb2. simpl.
    apply elem_of_app. right. by apply list_elem_of_singleton.
  - specialize (Hb false eq_refl). done.
  - simpl in Hrep. rewrite bool_decide_eq_false_2 in Hrep by lia. rewrite Hrep2 in Hrep. injection Hrep as Hlb2.
    unfold report_move in Em. cbn [overload negb andb] in Em. rewrite bool_decide_eq_true_2 in Em by done.
    cbn [andb] in Em. destruct (too_many_errors cfg _) eqn:Et; [done|]. apply orb_false_elim in Et as [_ Et].
    apply bool_decide_eq_false in Et. simpl in Et. rewrite u32_pos_limit in Et by (done || lia).
    destruct (IH lb2 (HostRec (ip h) (port h) (vsucc h) (u32 (verr h + 1)) (rsucc h)
      (u32 (rerr h + 1)) 0 (contin_err h + 1) false (idle_ts h) (overload_ts h))) as (k & lb' & Hk' & Hrun & ?);
      simpl; try done; try lia; [by rewrite Hmap2|by rewrite Hlb2; apply lookup_heap1|].
    exists (S k), lb'. split; [simpl; lia|]. split; [|done]. simpl. by rewrite Hrep2.
Qed.

(** (C6) A host that works again recovers: an overloaded host the map holds under
    the key of the reports is back in the idle queue after at most
    [contin_succ_limit - contin_succ] consecutive successes.  The count that suffices is the limit
    itself: the code compares with [>=]. *)
Theorem successes_recover cfg ts i p lb hi h :
  lb_inv lb ->
  _host_map lb !! make_key i p = Some hi -> lb_heap lb !! hi = Some h -> overload h = true ->
  0 <= contin_succ h < contin_succ_limit cfg -> is_s32 (contin_succ_limit cfg) ->
  contin_succ_limit cfg - contin_succ h <= zlen ts ->
  exists k lb', (k <= length ts)%nat /\ report_all cfg (take k ts) i p RET_SUCC lb = Ret lb' /\
    lb_inv lb' /\ hi ∈ _idle_list lb'.
Proof.
  intros Hinv Hk Hh Ho Hc Hlim. revert lb h Hinv Hk Hh Ho Hc.
  induction ts as [|[now later] ts IH]; intros lb h Hinv Hk Hh Ho Hc Hlen.
  { change (zlen (@nil (Z * Z))) with 0 in Hlen. lia. }
  rewrite zlen_cons in Hlen.
  destruct (report_cases cfg now later i p RET_SUCC lb hi h Hinv Hk Hh) as (Hi1 & Hrep & Hb).
  destruct (report_inv cfg now later i p RET_SUCC lb Hinv) as (lb2 & Hrep2 & Hinv2 & Hmap2 & _).
  assert (count_report RET_SUCC h = HostRec (ip h) (port h) (u32 (vsucc h + 1)) (verr h) (u32 (rsucc h + 1))
    (rerr h) (contin_succ h + 1) 0 true (idle_ts h) (overload_ts h)) as Ec.
  { unfold count_report. rewrite bool_decide_eq_true_2, Ho by done. f_equal. int_solve. }
  set (h1 := count_report RET_SUCC h) in *. clearbody h1. subst h1.
  destruct (report_move cfg now RET_SUCC _) as [[]|] eqn:Em.
  - specialize (Hb true eq_refl). done.
  - exists 1%nat, lb2. split; [simpl; lia|]. rewrite Hrep2 in Hrep. injection Hrep as Hlb2.
    split; [simpl; rewrite Hrep2; done|]. split; [done|]. subst lb2. simpl.
    apply elem_of_app. right. by apply list_elem_of_singleton.
  - simpl in Hrep. rewrite Hrep2 in Hrep. injection Hrep as Hlb2.
    unfold report_move in Em. cbn [overload negb andb] in Em. rewrite (bool_decide_eq_true_2 (RET_SUCC = _)) in Em by done.
    cbn [andb] in Em. destruct (recovered cfg _) eqn:Et; [done|]. apply orb_false_elim in Et as [_ Et].
    apply bool_decide_eq_false in Et. simpl in Et. rewrite u32_pos_limit in Et by (done || lia).
    destruct (IH lb2 (HostRec (ip h) (port h) (u32 (vsucc h + 1)) (verr h) (u32 (rsucc h + 1))
      (rerr h) (contin_succ h + 1) 0 true (idle_ts h) (overload_ts h))) as (k & lb' & Hk' & Hrun & ?);
      simpl; try done; try lia; [by rewrite Hmap2|by rewrite Hlb2; apply lookup_heap1|].
    exists (S k), lb'. split; [simpl; lia|]. split; [|done]. simpl. by rewrite Hrep2.
Qed.

(** ** Fairness *)

(** Successive calls of [choice_one_host]. *)
Fixpoint choices (cfg : Config) (n : nat) (lb : load_balance)
    : res (list (Z * option HostInfo) * load_balance) :=
  match n with
  | O => Ret ([], lb)
  | S n =>
      '(r, h, lb) ← choice_one_host cfg lb;
      '(rs, lb) ← choices cfg n lb;
      Ret ((r, h) :: rs, lb)
  end.

(** The answer that names the host at [x]. *)
Definition answer (hp : gmap loc host_info) (x : loc) : Z * option HostInfo :=
  (RET_SUCC, (fun h => MkHostInfo (s32 (ip h)) (port h)) <$> hp !! x).

Lemma choices_rotate cfg a b lb :
  lb_inv lb -> _overload_list lb = [] -> _idle_list lb = a ++ b ->
  choices cfg (length a) lb = Ret (answer (lb_heap lb) <$> a, set_lists (b ++ a) [] lb).
Proof.
  revert b lb. induction a as [|x a IH]; intros b lb Hinv Ho Hi; simpl.
  { rewrite app_nil_r. destruct lb. simpl in *. by subst. }
  unfold choice_one_host. rewrite bool_decide_eq_false_2 by (by rewrite Hi). rewrite Ho, bool_decide_eq_true_2 by done.
  destruct (pick_idle_ok lb x (a ++ b) Hinv Hi) as (h & Hh & -> & Hinv'). cbn [mbind res_mbind].
  rewrite Ho in *. rewrite (IH (b ++ [x])); [|done|done|simpl; by rewrite app_assoc].
  cbn [mbind res_mbind]. unfold answer at 2. rewrite Hh. simpl. by rewrite <-app_assoc.
Qed.

(** (C7) Round robin: with no host overloaded, as many requests as there are hosts
    get every host exactly once, in the order of the queue, and leave the
    balancer as it was. *)
Theorem choice_round_robin cfg lb :
  lb_inv lb -> _overload_list lb = [] ->
  choices cfg (length (_idle_list lb)) lb = Ret (answer (lb_heap lb) <$> _idle_list lb, lb).
Proof.
  intros Hinv Ho. rewrite (choices_rotate cfg (_idle_list lb) []) by (done || by rewrite app_nil_r).
  simpl. destruct lb. simpl in *. by subst.
Qed.

(** One request below the probe limit. *)
Lemma choice_below cfg lb :
  lb_inv lb -> _overload_list lb <> [] -> _access_cnt lb < probe_num cfg ->
  exists r lb', choice_one_host cfg lb = Ret (r.1, r.2, lb') /\ lb_inv lb' /\
    lb_heap lb' = lb_heap lb /\ _overload_list lb' = _overload_list lb /\ _idle_list lb' ≡ₚ _idle_list lb /\
    _access_cnt lb' = _access_cnt lb + 1 /\
    (if bool_decide (_idle_list lb = []) then r = (RET_OVERLOAD, None)
     else exists x, x ∈ _idle_list lb /\ r = answer (lb_heap lb) x).
Proof.
  intros Hinv Ho Hc. unfold choice_one_host.
  rewrite (bool_decide_eq_false_2 (_ >= _)), (bool_decide_eq_false_2 (_overload_list lb = [])) by (done || lia).
  case_bool_decide as Ei.
  - eexists (RET_OVERLOAD, None), _. split; [done|]. split; [by apply lb_inv_access|]. done.
  - destruct (_idle_list lb) as [|x l] eqn:El; [done|].
    destruct (pick_idle_ok (set_access (_access_cnt lb + 1) lb) x l) as (h & Hh & -> & Hi);
      [by apply lb_inv_access|done|].
    eexists (answer (lb_heap lb) x), _. unfold answer. simpl in Hh. rewrite Hh. split; [done|]. split; [exact Hi|].
    simpl. split_and!; try done; [by rewrite Permutation_app_comm|]. exists x. rewrite Hh. split; [left|done].
Qed.

Lemma choices_below cfg n lb :
  lb_inv lb -> _overload_list lb <> [] -> _access_cnt lb + Z.of_nat n <= probe_num cfg ->
  exists rs lb', choices cfg n lb = Ret (rs, lb') /\ length rs = n /\ lb_inv lb' /\
    lb_heap lb' = lb_heap lb /\ _overload_list lb' = _overload_list lb /\ _idle_list lb' ≡ₚ _idle_list lb /\
    _access_cnt lb' = _access_cnt lb + Z.of_nat n /\
    Forall (fun r => if bool_decide (_idle_list lb = []) then r = (RET_OVERLOAD, None)
                     else exists x, x ∈ _idle_list lb /\ r = answer (lb_heap lb) x) rs.
Proof.
  revert lb. induction n as [|n IH]; intros lb Hinv Ho Hc.
  { exists [], lb. split_and!; try done. lia. }
  destruct (choice_below cfg lb Hinv Ho) as ([r h] & lb1 & Hrun & Hi1 & Hh1 & Ho1 & Hp1 & Ha1 & Hr1); [lia|].
  destruct (IH lb1) as (rs & lb' & Hrun' & Hl' & Hi' & Hh' & Ho' & Hp' & Ha' & Hr'); [done|by rewrite Ho1|lia|].
  exists ((r, h) :: rs), lb'. cbn [choices]. rewrite Hrun. cbn [mbind res_mbind fst snd]. rewrite Hrun'.
  cbn [mbind res_mbind]. split_and!; try done; [simpl; lia|congruence|congruence|by rewrite Hp'|lia|].
  constructor; [done|]. rewrite Hh1 in Hr'.
  assert (_idle_list lb1 = [] <-> _idle_list lb = []) as Hnil.
  { split; intros E; rewrite E in Hp1; [by apply Permutation_nil_l in Hp1|by apply Permutation_nil_r in Hp1]. }
  eapply Forall_impl; [exact Hr'|]. intros r0. rewrite (bool_decide_ext _ _ Hnil).
  destruct (bool_decide _); [done|]. intros (x & Hx & ->). exists x. by rewrite <-Hp1.
Qed.

Lemma choices_snoc cfg n lb rs lb1 r h lb' :
  choices cfg n lb = Ret (rs, lb1) -> choice_one_host cfg lb1 = Ret (r, h, lb') ->
  choices cfg (S n) lb = Ret (rs ++ [(r, h)], lb').
Proof.
  revert rs lb. induction n as [|n IH]; intros rs lb Hrun Hlast.
  - injection Hrun as <- <-. cbn [choices]. by rewrite Hlast.
  - cbn [choices] in Hrun. remember (S n) as k eqn:Ek. cbn [choices]. subst k.
    destruct (choice_one_host cfg lb) as [[[r0 h0] lb2]|]; [|done]. cbn [mbind res_mbind] in *.
    destruct (choices cfg n lb2) as [[rs2 lb3]|] eqn:E2; [|done]. cbn [mbind res_mbind] in Hrun.
    injection Hrun as <- <-. by rewrite (IH _ _ E2 Hlast).
Qed.

(** The counter is an [int]: it is raised only below [probe_num], so it never overflows, whatever value it
    has at the start. *)
Lemma access_cnt_fits cfg lb r h lb' :
  is_s32 (_access_cnt lb) -> is_s32 (probe_num cfg) -> choice_one_host cfg lb = Ret (r, h, lb') -> is_s32 (_access_cnt lb').
Proof.
  intros Ha Hp. unfold choice_one_host, pick_idle, pick_overload. unfold is_s32 in *.
  repeat case_bool_decide; intros Hc;
    try (apply bind_Ret in Hc as ([h1 l1] & _ & Hc)); injection Hc as _ _ <-; simpl; lia.
Qed.

(** (C8) Probing: while a host is overloaded, the first [probe_num - _access_cnt] requests, none
    if the counter has reached [probe_num], get idle hosts, or [RET_OVERLOAD] when there is none, and
    the next one gets an overloaded host, the first of their queue, which moves to its end, and resets
    the counter.  The constructor leaves the counter uninitialised, so the first probe may come at any
    time; from then on the counter is 0 and of every [probe_num + 1] requests exactly the last one
    probes. *)
Theorem choice_probes cfg lb o os (n := Z.to_nat (probe_num cfg - _access_cnt lb)) :
  lb_inv lb -> _overload_list lb = o :: os ->
  exists rs lb', choices cfg (S n) lb = Ret (rs ++ [answer (lb_heap lb) o], lb') /\
    length rs = n /\
    Forall (fun r => if bool_decide (_idle_list lb = []) then r = (RET_OVERLOAD, None)
                     else exists x, x ∈ _idle_list lb /\ r = answer (lb_heap lb) x) rs /\
    lb_inv lb' /\ _overload_list lb' = os ++ [o] /\ _idle_list lb' ≡ₚ _idle_list lb /\ _access_cnt lb' = 0.
Proof.
  intros Hinv Ho.
  assert (exists rs lb1, choices cfg n lb = Ret (rs, lb1) /\ length rs = n /\ lb_inv lb1 /\
    lb_heap lb1 = lb_heap lb /\ _overload_list lb1 = o :: os /\ _idle_list lb1 ≡ₚ _idle_list lb /\
    probe_num cfg <= _access_cnt lb1 /\
    Forall (fun r => if bool_decide (_idle_list lb = []) then r = (RET_OVERLOAD, None)
                     else exists x, x ∈ _idle_list lb /\ r = answer (lb_heap lb) x) rs)
    as (rs & lb1 & Hrun & Hl & Hi1 & Hh1 & Ho1 & Hp1 & Ha1 & Hr).
  { destruct (decide (probe_num cfg <= _access_cnt lb)) as [Hge|Hlt].
    - exists [], lb. replace n with 0%nat by lia. by split_and!.
    - destruct (choices_below cfg n lb) as (rs & lb1 & Hrun & Hl & Hi1 & Hh1 & Ho1 & Hp1 & Ha1 & Hr); [done|by rewrite Ho|lia|].
      exists rs, lb1. rewrite Ho in Ho1. split_and!; try done. lia. }
  assert (exists lb', choice_one_host cfg lb1 = Ret (RET_SUCC, (answer (lb_heap lb) o).2, lb') /\ lb_inv lb' /\
    _overload_list lb' = os ++ [o] /\ _idle_list lb' = _idle_list lb1 /\ _access_cnt lb' = 0)
    as (lb' & Hlast & Hi' & Ho' & Hid' & Ha').
  { destruct (pick_overload_ok (set_access 0 lb1) o os) as (h & Hh & Hpick & Hi'); [by apply lb_inv_access|done|].
    simpl in Hh. rewrite Hh1 in Hh. unfold answer. rewrite Hh. simpl.
    exists (set_lists (_idle_list (set_access 0 lb1)) (os ++ [o]) (set_access 0 lb1)). split; [|done].
    unfold choice_one_host. rewrite Ho1, (bool_decide_eq_true_2 (_ >= _)) by lia.
    rewrite (bool_decide_eq_false_2 (o :: os = [])) by done. rewrite Hpick. by destruct (bool_decide (_idle_list lb1 = [])). }
  exists rs, lb'. split_and!; try done; [|by rewrite Hid'].
  by rewrite (choices_snoc _ _ _ _ _ _ _ _ Hrun Hlast).
Qed.

(** ** Uploading *)
Lemma list_results_ok flag hp l :
  (forall x, x ∈ l -> exists h, hp !! x = Some h /\ overload h = flag) ->
  list_results flag hp l = Ret (omap (fun x => (fun h => call_result (overload h) h) <$> hp !! x) l).
Proof.
  induction l as [|x l IH]; intros Hl; [done|]. destruct (Hl x) as (h & Hh & Ho); [left|]. simpl.
  rewrite Hh. cbn [mbind res_mbind deref]. rewrite IH by (intros y Hy; apply Hl; by right).
  cbn [mbind res_mbind]. simpl. by rewrite Ho.
Qed.

(** (C9) Uploading: the request [commit] sends has exactly one result for every
    managed host, with its real counters and flagged as overloaded exactly when
    the host is; a balancer without hosts sends nothing. *)
Theorem commit_complete cfg now lb :
  lb_inv lb ->
  if empty lb then commit cfg now lb = Ret None
  else exists rs, commit cfg now lb =
      Ret (Some (MkStatusReq (lb_modid lb) (lb_cmdid lb) (s32 (local_ip cfg)) rs (u32 now))) /\
    rs ≡ₚ omap (fun x => (fun h => call_result (overload h) h) <$> lb_heap lb !! x) (get_all_hosts lb).
Proof.
  intros Hinv. unfold commit. destruct (empty lb); [done|].
  rewrite !list_results_ok by (apply (inv_idle _ Hinv) || apply (inv_over _ Hinv)). cbn [mbind res_mbind].
  eexists. split; [done|]. rewrite <-omap_app. apply omap_Permutation.
  apply NoDup_Permutation; [apply (inv_nodup _ Hinv)| |].
  - unfold get_all_hosts.
    apply (NoDup_fmap_2_strong snd); [|apply NoDup_map_to_list].
    intros [k1 x1] [k2 x2] H1 H2 E. simpl in E. subst x2. apply elem_of_map_to_list in H1, H2.
    f_equal. by eapply (inv_inj _ Hinv).
  - intros x. rewrite <-(inv_map _ Hinv). unfold get_all_hosts. rewrite list_elem_of_fmap. split.
    + intros [k Hk]. exists (k, x). split; [done|]. by apply elem_of_map_to_list.
    + intros ([k y] & -> & Hk). exists k. by apply elem_of_map_to_list.
Qed.

(** ** The two keys of a host *)

(** The shift of the usual 64-bit machines takes the count modulo 64. *)
Definition x86_shl (x n : Z) : Z := Z.shiftl x (n mod 64).

Lemma update_key_x86 h : 0 <= h_port h ->
  update_key x86_shl h = (u64 (h_ip h) * 2 ^ ((32 + h_port h) mod 64)) mod 2 ^ 64.
Proof.
  intros Hp. unfold update_key, shl64, x86_shl. change (2 ^ 64) with 18446744073709551616.
  case_bool_decide as Hs.
  - rewrite (Z.mod_small (32 + h_port h) 64) by lia. by rewrite Z.shiftl_mul_pow2 by lia.
  - rewrite Z.shiftl_mul_pow2; [done|]. apply Z.mod_pos_bound. lia.
Qed.

Lemma mod_eq_divide a b n m : 0 < m -> (m | n) -> a mod n = b mod n -> (m | a - b).
Proof.
  intros Hm Hd E. destruct (decide (n = 0)) as [->|Hn].
  { rewrite !Z.mod_0_r in E. exists 0. lia. }
  apply (Z.divide_trans _ n); [done|]. apply Z.mod_divide; [done|]. by rewrite Zminus_mod, E, Z.sub_diag, Zmod_0_l.
Qed.

Lemma keys_differ h :
  0 < h_port h < 65536 -> h_port h mod 2 ^ ((32 + h_port h) mod 64) <> 0 ->
  make_key (h_ip h) (h_port h) <> update_key x86_shl h.
Proof.
  intros Hp Hmod E. rewrite update_key_x86 in E by lia. rewrite make_key_eq in E.
  set (s := (32 + h_port h) mod 64) in *. assert (0 <= s < 64) as Hs by (apply Z.mod_pos_bound; lia).
  change 18446744073709551616 with (2 ^ 64) in E. change 4294967296 with (2 ^ 32) in E.
  assert (forall t, 0 <= t <= 32 -> t <= s -> (2 ^ t | h_port h)) as Hdiv.
  { intros t Ht Hts. apply (mod_eq_divide _ _ _ (2 ^ t)) in E; [|lia|].
    - replace (h_port h) with ((h_ip h * 2 ^ 32 + h_port h - u64 (h_ip h) * 2 ^ s) +
        (u64 (h_ip h) * 2 ^ s + - h_ip h * 2 ^ 32)) by lia.
      apply Z.divide_add_r; [done|]. apply Z.divide_add_r; apply Z.divide_mul_r;
        [replace s with (t + (s - t)) by lia|replace 32 with (t + (32 - t)) by lia];
        rewrite Z.pow_add_r by lia; apply Z.divide_factor_l.
    - replace 64 with (t + (64 - t)) by lia. rewrite Z.pow_add_r by lia. apply Z.divide_factor_l. }
  destruct (decide (s <= 32)) as [Hle|Hgt].
  - apply Hmod, Z.mod_divide; [lia|]. apply Hdiv; lia.
  - specialize (Hdiv 32 ltac:(lia) ltac:(lia)). apply Z.divide_pos_le in Hdiv; [|lia].
    change (2 ^ 32) with 4294967296 in Hdiv. lia.
Qed.

(** [update] and [report] compute different keys: on a machine that shifts
    modulo 64, a report about the only host of a route is dropped, for every
    address and every port that is not a multiple of [2^((32 + port) mod 64)]. *)
Theorem report_misses_host cfg stale t1 t2 t3 modid cmdid st h rc :
  0 < h_port h < 65536 -> h_port h mod 2 ^ ((32 + h_port h) mod 64) <> 0 ->
  exists lb', update x86_shl cfg stale t1 (MkRouteRsp modid cmdid [h]) (load_balance_new modid cmdid st) = Ret lb' /\
    report cfg t2 t3 (h_ip h) (h_port h) rc lb' = Ret lb'.
Proof.
  intros Hp Hmod.
  destruct (update_ok x86_shl cfg stale t1 (MkRouteRsp modid cmdid [h]) (load_balance_new modid cmdid st))
    as (lb' & Hup & _ & Hdom & _); [apply lb_inv_new|done|].
  exists lb'. split; [done|]. unfold report. cbv zeta.
  destruct (_host_map lb' !! make_key (h_ip h) (h_port h)) eqn:E; [|done].
  apply elem_of_dom_2 in E. rewrite Hdom in E. simpl in E. rewrite union_empty_r_L in E.
  apply elem_of_singleton in E. by apply keys_differ in E.
Qed.

(** ** A balancer to try the theorems on: host 1 idle, host 2 overloaded. *)
Module LbDemo.
Definition cfg : Config :=
  MkConfig 10 180 5 (S754_zero false) (S754_infinity false) 3 2 2130706433 (S754_zero false) 15 15 15.
Definition h1 : host_info := HostRec 167772161 80 180 0 0 0 0 0 false 100 0.
Definition h2 : host_info := HostRec 167772162 80 0 5 0 0 0 0 true 0 100.
Definition lb (idle over : list loc) : load_balance :=
  LB 1 2 0 {[make_key 167772161 80 := 1%positive; make_key 167772162 80 := 2%positive]} idle over
     {[1%positive := h1; 2%positive := h2]} 0 NEW.
Definition both : load_balance := lb [1%positive] [2%positive].
(** Only the first host, without the second. *)
Definition one : load_balance :=
  LB 1 2 0 {[make_key 167772161 80 := 1%positive]} [1%positive] [] {[1%positive := h1]} 0 NEW.

Lemma both_inv : lb_inv both.
Proof.
  split; unfold both, lb; simpl.
  - repeat constructor; set_solver.
  - intros x. split.
    + intros (key & Hk). rewrite lookup_insert, lookup_singleton in Hk. repeat case_decide; set_solver.
    + rewrite elem_of_cons, list_elem_of_singleton. intros [-> | ->].
      * exists (make_key 167772161 80). apply lookup_insert_eq.
      * exists (make_key 167772162 80). reflexivity.
  - intros k1 k2 x H1 H2. rewrite lookup_insert, lookup_singleton in H1, H2. repeat case_decide; congruence.
  - intros x ->%list_elem_of_singleton. by exists h1.
  - intros x ->%list_elem_of_singleton. by exists h2.
  - intros x [h Hh]. rewrite lookup_insert, lookup_singleton in Hh. repeat case_decide; set_solver.
Qed.

Lemma one_inv : lb_inv one.
Proof.
  split; unfold one; simpl.
  - repeat constructor; set_solver.
  - intros x. rewrite list_elem_of_singleton. split.
    + intros (key & Hk). rewrite lookup_singleton in Hk. case_decide; congruence.
    + intros ->. exists (make_key 167772161 80). apply lookup_singleton_eq.
  - intros k1 k2 x H1 H2. rewrite lookup_singleton in H1, H2. repeat case_decide; congruence.
  - intros x ->%list_elem_of_singleton. by exists h1.
  - intros x H. by apply not_elem_of_nil in H.
  - intros x [h Hh]. rewrite lookup_singleton in Hh. case_decide; set_solver.
Qed.
End LbDemo.

Lemma update_spec_witness :
  exists lb', update x86_shl LbDemo.cfg (fun _ => (0, 0)) 50 (MkRouteRsp 1 2 [MkHostInfo 7 0; MkHostInfo 8 0])
      (load_balance_new 1 2 (0, PULLING, 0)) = Ret lb' /\
    lb_inv lb' /\ status lb' = NEW /\ last_update_time lb' = 50 /\
    forall h, h ∈ managed lb' <-> h ∈ [MkHostInfo 7 0; MkHostInfo 8 0].
Proof.
  destruct (update_spec x86_shl LbDemo.cfg (fun _ => (0, 0)) 50 (MkRouteRsp 1 2 [MkHostInfo 7 0; MkHostInfo 8 0])
    (load_balance_new 1 2 (0, PULLING, 0))) as (lb' & Hu & Hi & _ & _ & _ & _ & Hs & Ht & Hm).
  - apply lb_inv_new.
  - apply keyed_new.
  - repeat constructor; vm_compute; congruence.
  - discriminate.
  - exists lb'. split; [exact Hu|]. split; [exact Hi|]. split; [exact Hs|]. split; [exact Ht|]. apply Hm.
    intros h1 h2. change (managed (load_balance_new 1 2 (0, PULLING, 0)) ++ _) with [MkHostInfo 7 0; MkHostInfo 8 0].
    rewrite !elem_of_cons, !elem_of_nil. intros [-> | [-> | []]] [-> | [-> | []]]; (reflexivity || (vm_compute; discriminate)).
Defined.

Lemma lb_reach_safe_witness :
  exists lb', lb_step x86_shl LbDemo.cfg (OpUpdate (fun _ => (0, 0)) 50 (MkRouteRsp 1 2 [MkHostInfo 7 80]))
                (load_balance_new 1 2 (0, NEW, 0)) = Ret lb' /\ lb_inv lb'.
Proof.
  apply (lb_reach_safe x86_shl LbDemo.cfg (load_balance_new 1 2 (0, NEW, 0))).
  - apply reach_new.
  - discriminate.
Defined.

Lemma errors_overload_witness :
  exists k lb', (k <= 3)%nat /\
    report_all LbDemo.cfg (take k [(101, 101); (102, 102); (103, 103)]) 167772161 80 RET_SYSTEM_ERROR LbDemo.both = Ret lb' /\
    lb_inv lb' /\ 1%positive ∈ _overload_list lb'.
Proof.
  apply (errors_overload LbDemo.cfg [(101, 101); (102, 102); (103, 103)] 167772161 80 RET_SYSTEM_ERROR
           LbDemo.both 1%positive LbDemo.h1); try reflexivity.
  - apply LbDemo.both_inv.
  - discriminate.
  - simpl. lia.
  - vm_compute. split; congruence.
  - repeat constructor.
Defined.

Lemma successes_recover_witness :
  exists k lb', (k <= 2)%nat /\
    report_all LbDemo.cfg (take k [(101, 101); (102, 102)]) 167772162 80 RET_SUCC LbDemo.both = Ret lb' /\
    lb_inv lb' /\ 2%positive ∈ _idle_list lb'.
Proof.
  apply (successes_recover LbDemo.cfg [(101, 101); (102, 102)] 167772162 80 LbDemo.both 2%positive LbDemo.h2);
    try reflexivity.
  - apply LbDemo.both_inv.
  - simpl. lia.
  - vm_compute. split; congruence.
Defined.

Lemma choice_round_robin_witness :
  choices LbDemo.cfg 1 LbDemo.one = Ret ([(RET_SUCC, Some (MkHostInfo 167772161 80))], LbDemo.one).
Proof.
  apply (choice_round_robin LbDemo.cfg LbDemo.one).
  - apply LbDemo.one_inv.
  - reflexivity.
Defined.

Lemma choice_probes_witness :
  exists rs lb', choices LbDemo.cfg 11 LbDemo.both = Ret (rs ++ [(RET_SUCC, Some (MkHostInfo 167772162 80))], lb') /\
    length rs = 10%nat.
Proof.
  destruct (choice_probes LbDemo.cfg LbDemo.both 2%positive []) as (rs & lb' & Hc & Hl & _); try reflexivity.
  - apply LbDemo.both_inv.
  - exists rs, lb'. split; [exact Hc|exact Hl].
Defined.

Lemma commit_complete_witness :
  exists rs, commit LbDemo.cfg 200 LbDemo.both = Ret (Some (MkStatusReq 1 2 2130706433 rs 200)) /\
    rs ≡ₚ [call_result false LbDemo.h1; call_result true LbDemo.h2].
Proof. apply (commit_complete LbDemo.cfg 200 LbDemo.both LbDemo.both_inv). Defined.

Lemma report_misses_host_witness :
  exists lb', update x86_shl LbDemo.cfg (fun _ => (0, 0)) 50 (MkRouteRsp 1 2 [MkHostInfo 167772161 8080])
                (load_balance_new 1 2 (0, NEW, 0)) = Ret lb' /\
    report LbDemo.cfg 51 51 167772161 8080 RET_SYSTEM_ERROR lb' = Ret lb'.
Proof.
  apply (report_misses_host LbDemo.cfg (fun _ => (0, 0)) 50 51 51 1 2 (0, NEW, 0) (MkHostInfo 167772161 8080) RET_SYSTEM_ERROR).
  - simpl. lia.
  - vm_compute. congruence.
Defined.
