(* ===== verification/RouteLb.v ===== *)
(** * route_lb: the load balancers of one UDP server
      (lrlb_loadbalance_agent/include/route_lb.h, src/route_lb.cpp)

    A [route_lb] maps (modid, cmdid) keys to load balancers.  Its mutex makes
    every method atomic, so an execution is a sequence of methods.  What the
    methods put on the agent's two queues is returned: route requests for the DNS
    client, status reports for the reporter client. *)

From S2P Require Import Prelude.
From S2P Require Import Proto.
From S2P Require Import LoadBalance.

(** [class route_lb]. *)
Record route_lb := RouteLB { _route_lb_map : gmap Z load_balance; _rlb_id : Z }.

(** [route_lb::route_lb]. *)
Definition route_lb_new (id : Z) : route_lb := RouteLB ∅ id.

Definition put_lb (key : Z) (lb : load_balance) (r : route_lb) : route_lb :=
  RouteLB (<[key := lb]> (_route_lb_map r)) (_rlb_id r).

Section RouteLb.
Context (wide : Z -> Z -> Z) (cfg : Config).

(** The route of [lb] is fetched again when it is not being fetched and older than
    the configured time. *)
Definition refresh (now : Z) (lb : load_balance) : list GetRouteRequest * load_balance :=
  if bool_decide (status lb = NEW /\ now - last_update_time lb > update_timeout cfg)
  then let '(req, lb) := pull lb in ([req], lb)
  else ([], lb).

(** [route_lb::get_host]: the return value, the response and the requests put on
    the DNS queue.  [stale] is what the memory of a new balancer holds. *)
Definition get_host (stale : Z * STATUS * Z) (now modid cmdid : Z) (rsp : GetHostResponse) (r : route_lb)
    : res (Z * GetHostResponse * list GetRouteRequest * route_lb) :=
  let key := make_key modid cmdid in
  let set_retcode c h := MkHostRsp (hr_seq rsp) (hr_modid rsp) (hr_cmdid rsp) c h in
  match _route_lb_map r !! key with
  | Some lb =>
      if empty lb then
        _ ← assert (bool_decide (status lb = PULLING));
        Ret (RET_SUCC, set_retcode RET_NOEXIST (hr_host rsp), [], r)
      else
        '(ret, h, lb) ← choice_one_host cfg lb;
        let rsp := set_retcode ret (match h with Some h => Some h | None => hr_host rsp end) in
        let '(reqs, lb) := refresh now lb in
        Ret (ret, rsp, reqs, put_lb key lb r)
  | None =>
      let '(req, lb) := pull (load_balance_new modid cmdid stale) in
      Ret (RET_NOEXIST, set_retcode RET_NOEXIST (hr_host rsp), [req], put_lb key lb r)
  end.

(** [route_lb::update_host]. *)
Definition update_host (stale : loc -> Z * Z) (now modid cmdid : Z) (rsp : GetRouteResponse) (r : route_lb)
    : res (Z * route_lb) :=
  let key := make_key modid cmdid in
  match _route_lb_map r !! key with
  | Some lb =>
      if bool_decide (rr_host rsp = []) then
        Ret (0, RouteLB (delete key (_route_lb_map r)) (_rlb_id r))
      else
        lb ← update wide cfg stale now rsp lb;
        Ret (0, put_lb key lb r)
  | None => Ret (0, r)
  end.

(** [route_lb::report_host]: the status report put on the report queue, if any. *)
Definition report_host (t1 t2 t3 : Z) (req : ReportRequest) (r : route_lb)
    : res (list ReportStatusReq * route_lb) :=
  let h := get_field (rp_host req) in
  let key := make_key (rp_modid req) (rp_cmdid req) in
  match _route_lb_map r !! key with
  | Some lb =>
      lb ← report cfg t1 t2 (h_ip h) (h_port h) (rp_retcode req) lb;
      out ← commit cfg t3 lb;
      Ret (option_list out, put_lb key lb r)
  | None => Ret ([], r)
  end.

(** [route_lb::reset_lb_status]. *)
Definition reset_one (lb : load_balance) : load_balance :=
  if bool_decide (status lb = PULLING) then set_status NEW lb else lb.
Definition reset_lb_status (r : route_lb) : route_lb :=
  RouteLB (reset_one <$> _route_lb_map r) (_rlb_id r).

(** The host entries of a list of host objects. *)
Fixpoint host_entries (hp : gmap loc host_info) (l : list loc) : res (list HostInfo) :=
  match l with
  | [] => Ret []
  | x :: l =>
      h ← deref (hp !! x);
      hs ← host_entries hp l;
      Ret (MkHostInfo (s32 (ip h)) (port h) :: hs)
  end.

(** [route_lb::get_route]. *)
Definition get_route (stale : Z * STATUS * Z) (now modid cmdid : Z) (rsp : GetRouteResponse) (r : route_lb)
    : res (Z * GetRouteResponse * list GetRouteRequest * route_lb) :=
  let key := make_key modid cmdid in
  match _route_lb_map r !! key with
  | Some lb =>
      hs ← host_entries (lb_heap lb) (get_all_hosts lb);
      let rsp := MkRouteRsp (rr_modid rsp) (rr_cmdid rsp) (rr_host rsp ++ hs) in
      let '(reqs, lb) := refresh now lb in
      Ret (RET_SUCC, rsp, reqs, put_lb key lb r)
  | None =>
      let '(req, lb) := pull (load_balance_new modid cmdid stale) in
      Ret (RET_NOEXIST, rsp, [req], put_lb key lb r)
  end.

(** ** Executions *)
Inductive rlb_op :=
| RGetHost (stale : Z * STATUS * Z) (now modid cmdid : Z) (rsp : GetHostResponse)
| RUpdate (stale : loc -> Z * Z) (now modid cmdid : Z) (rsp : GetRouteResponse)
| RReport (t1 t2 t3 : Z) (req : ReportRequest)
| RGetRoute (stale : Z * STATUS * Z) (now modid cmdid : Z) (rsp : GetRouteResponse)
| RReset.

(** One method; the requests it puts on the DNS queue. *)
Definition rlb_step (op : rlb_op) (r : route_lb) : res (list GetRouteRequest * route_lb) :=
  match op with
  | RGetHost stale now modid cmdid rsp =>
      '(_, _, reqs, r) ← get_host stale now modid cmdid rsp r; Ret (reqs, r)
  | RUpdate stale now modid cmdid rsp =>
      '(_, r) ← update_host stale now modid cmdid rsp r; Ret ([], r)
  | RReport t1 t2 t3 req => '(_, r) ← report_host t1 t2 t3 req r; Ret ([], r)
  | RGetRoute stale now modid cmdid rsp =>
      '(_, _, reqs, r) ← get_route stale now modid cmdid rsp r; Ret (reqs, r)
  | RReset => Ret ([], reset_lb_status r)
  end.

Fixpoint rlb_run (ops : list rlb_op) (r : route_lb) : res (list GetRouteRequest * route_lb) :=
  match ops with
  | [] => Ret ([], r)
  | op :: ops =>
      '(q1, r) ← rlb_step op r;
      '(q2, r) ← rlb_run ops r;
      Ret (q1 ++ q2, r)
  end.

(** ** The invariant

    Every balancer is well-formed, and one without hosts is being fetched. *)
Definition rlb_ok (r : route_lb) : Prop :=
  forall key lb, _route_lb_map r !! key = Some lb ->
    lb_inv lb /\ (empty lb = true -> status lb = PULLING).

Lemma rlb_ok_new id : rlb_ok (route_lb_new id).
Proof. intros key lb. simpl. by rewrite lookup_empty. Qed.

Lemma rlb_ok_put key lb r :
  rlb_ok r -> lb_inv lb -> (empty lb = true -> status lb = PULLING) -> rlb_ok (put_lb key lb r).
Proof.
  intros Hr Hi Hs k lb'. simpl. rewrite lookup_insert. case_decide; [naive_solver|apply Hr].
Qed.

Lemma empty_map lb lb' : _host_map lb' = _host_map lb -> empty lb' = empty lb.
Proof. unfold empty. by intros ->. Qed.

Lemma refresh_ok now lb :
  lb_inv lb -> (empty lb = true -> status lb = PULLING) ->
  lb_inv (refresh now lb).2 /\ (empty (refresh now lb).2 = true -> status (refresh now lb).2 = PULLING).
Proof. intros Hi Hs. unfold refresh. case_bool_decide; simpl; [|done]. split; [by apply lb_inv_status|done]. Qed.

Lemma host_entries_ok lb l :
  lb_inv lb -> (forall x, x ∈ l -> x ∈ _idle_list lb ++ _overload_list lb) ->
  exists hs, host_entries (lb_heap lb) l = Ret hs /\ length hs = length l.
Proof.
  intros Hi. induction l as [|x l IH]; intros Hl; [by exists []|].
  destruct IH as (hs & Hhs & Hlen); [intros y Hy; apply Hl; by right|].
  assert (exists h, lb_heap lb !! x = Some h) as (h & Hh).
  { specialize (Hl x ltac:(left)). apply elem_of_app in Hl as [Hx|Hx];
      [destruct (inv_idle _ Hi x Hx) as (h & ? & _)|destruct (inv_over _ Hi x Hx) as (h & ? & _)]; eauto. }
  simpl. rewrite Hh. cbn [mbind res_mbind deref]. rewrite Hhs. eexists. split; [done|]. simpl. by rewrite Hlen.
Qed.

Lemma get_all_hosts_in lb x :
  lb_inv lb -> x ∈ get_all_hosts lb -> x ∈ _idle_list lb ++ _overload_list lb.
Proof.
  intros Hi Hx. apply (inv_map _ Hi). unfold get_all_hosts in Hx.
  apply list_elem_of_fmap in Hx as ([k y] & -> & Hk). exists k. by apply elem_of_map_to_list.
Qed.

Lemma commit_total now lb : lb_inv lb -> exists out, commit cfg now lb = Ret out.
Proof.
  intros Hi. unfold commit. destruct (empty lb); [by eexists|].
  rewrite !list_results_ok by (apply (inv_idle _ Hi) || apply (inv_over _ Hi)). by eexists.
Qed.

Lemma rlb_step_ok op r :
  rlb_ok r -> op <> RReset -> exists reqs r', rlb_step op r = Ret (reqs, r') /\ rlb_ok r'.
Proof.
  intros Hr Hne. destruct op as [stale now modid cmdid rsp|stale now modid cmdid rsp|t1 t2 t3 req|
    stale now modid cmdid rsp|]; [| | | |done]; simpl.
  - unfold get_host. cbv zeta. destruct (_route_lb_map r !! _) as [lb|] eqn:E.
    + destruct (Hr _ _ E) as [Hi Hs]. destruct (empty lb) eqn:Ee.
      * rewrite bool_decide_eq_true_2 by auto. by eexists _, r.
      * destruct (choice_inv cfg lb Hi Ee) as (ret & h & lb' & -> & Hi' & Hm & _ & Hst & _). cbn [mbind res_mbind].
        destruct (refresh_ok now lb' Hi') as [Hi2 Hs2]; [rewrite (empty_map _ _ Hm); congruence|].
        destruct (refresh now lb') as [reqs lb2]. eexists _, _. split; [done|]. by apply rlb_ok_put.
    + eexists _, _. split; [done|]. apply rlb_ok_put; [done| |done]. apply lb_inv_status, lb_inv_new.
  - unfold update_host. cbv zeta. destruct (_route_lb_map r !! _) as [lb|] eqn:E; [|by eexists _, r].
    destruct (Hr _ _ E) as [Hi Hs]. case_bool_decide as Hh.
    + eexists _, _. split; [done|]. intros k lb'. simpl. intros [_ Hk]%lookup_delete_Some. by apply (Hr k).
    + destruct (update_ok wide cfg stale now rsp lb Hi Hh) as (lb' & -> & Hi' & Hd & _).
      eexists _, _. split; [done|]. apply rlb_ok_put; [done|done|].
      unfold empty. intros He%bool_decide_eq_true. rewrite He, dom_empty_L in Hd.
      destruct (rr_host rsp) as [|h hs]; [done|]. simpl in Hd. set_solver.
  - unfold report_host. cbv zeta. destruct (_route_lb_map r !! _) as [lb|] eqn:E; [|by eexists _, r].
    destruct (Hr _ _ E) as [Hi Hs].
    destruct (report_inv cfg t1 t2 (h_ip (get_field (rp_host req))) (h_port (get_field (rp_host req)))
      (rp_retcode req) lb Hi) as (lb' & -> & Hi' & Hm & Hst & _). cbn [mbind res_mbind].
    destruct (commit_total t3 lb' Hi') as [out ->]. cbn [mbind res_mbind].
    eexists _, _. split; [done|]. apply rlb_ok_put; [done|done|]. rewrite (empty_map _ _ Hm), Hst. done.
  - unfold get_route. cbv zeta. destruct (_route_lb_map r !! _) as [lb|] eqn:E.
    + destruct (Hr _ _ E) as [Hi Hs].
      destruct (host_entries_ok lb (get_all_hosts lb) Hi) as (hs & -> & _); [by intros x; apply get_all_hosts_in|].
      cbn [mbind res_mbind]. destruct (refresh_ok now lb Hi Hs) as [Hi2 Hs2]. destruct (refresh now lb) as [reqs lb2].
      eexists _, _. split; [done|]. by apply rlb_ok_put.
    + eexists _, _. split; [done|]. apply rlb_ok_put; [done| |done]. apply lb_inv_status, lb_inv_new.
Qed.

(** As long as the status is not reset, the balancers of a server never fail:
    any sequence of requests, updates and reports runs without a failed assertion
    or an invalid access, whatever the uninitialised members hold, and keeps
    every balancer well-formed. *)
Theorem rlb_run_safe ops id :
  Forall (fun op => op <> RReset) ops ->
  exists reqs r, rlb_run ops (route_lb_new id) = Ret (reqs, r) /\ rlb_ok r.
Proof.
  intros Hops. assert (forall r, rlb_ok r -> exists reqs r', rlb_run ops r = Ret (reqs, r') /\ rlb_ok r') as H;
    [|apply H, rlb_ok_new].
  induction Hops as [|op ops Hop _ IH]; intros r Hr; simpl; [by eexists _, r|].
  destruct (rlb_step_ok op r Hr Hop) as (q1 & r1 & -> & Hr1). cbn [mbind res_mbind].
  destruct (IH r1 Hr1) as (q2 & r2 & -> & Hr2). by eexists _, r2.
Qed.

Lemma get_host_new stale now modid cmdid rsp r :
  _route_lb_map r !! make_key modid cmdid = None ->
  get_host stale now modid cmdid rsp r =
  Ret (RET_NOEXIST, MkHostRsp (hr_seq rsp) (hr_modid rsp) (hr_cmdid rsp) RET_NOEXIST (hr_host rsp),
       [MkRouteReq modid cmdid],
       put_lb (make_key modid cmdid) (set_status PULLING (load_balance_new modid cmdid stale)) r).
Proof. intros Hk. unfold get_host. cbv zeta. by rewrite Hk. Qed.

(** A reset while a first fetch is under way aborts the agent: after the first
    request for a service and a reset of the statuses, which every new connection
    to the DNS server performs, the next request for that service fails the
    assertion of [get_host]. *)
Theorem reset_aborts st1 st2 t1 t2 modid cmdid rsp1 rsp2 id :
  rlb_run [RGetHost st1 t1 modid cmdid rsp1; RReset; RGetHost st2 t2 modid cmdid rsp2] (route_lb_new id)
  = Stop AssertFail.
Proof.
  cbn [rlb_run rlb_step]. rewrite get_host_new by apply lookup_empty. cbn [mbind res_mbind].
  unfold get_host. cbv zeta. cbn [_route_lb_map reset_lb_status put_lb].
  rewrite lookup_fmap, lookup_insert_eq. done.
Qed.

Lemma get_host_waiting stale now modid cmdid rsp r lb :
  _route_lb_map r !! make_key modid cmdid = Some lb -> empty lb = true -> status lb = PULLING ->
  get_host stale now modid cmdid rsp r =
  Ret (RET_SUCC, MkHostRsp (hr_seq rsp) (hr_modid rsp) (hr_cmdid rsp) RET_NOEXIST (hr_host rsp), [], r).
Proof. intros Hk He Hs. unfold get_host. cbv zeta. rewrite Hk, He, bool_decide_eq_true_2 by done. done. Qed.

(** A route is fetched once: however many requests for a new service arrive
    before the DNS server answers, exactly one route request is put on the DNS
    queue. *)
Theorem get_host_pulls_once modid cmdid reqs r :
  reqs <> [] -> _route_lb_map r !! make_key modid cmdid = None ->
  exists r', rlb_run ((fun q => RGetHost q.1.1 q.1.2 modid cmdid q.2) <$> reqs) r =
    Ret ([MkRouteReq modid cmdid], r').
Proof.
  intros Hne Hk. destruct reqs as [|[[st now] rsp] reqs]; [done|]. rewrite fmap_cons. cbn [rlb_run rlb_step fst snd].
  rewrite get_host_new by done. cbn [mbind res_mbind].
  set (r1 := put_lb _ _ r). exists r1.
  assert (_route_lb_map r1 !! make_key modid cmdid = Some (set_status PULLING (load_balance_new modid cmdid st))) as Hr1
    by apply lookup_insert_eq.
  assert (rlb_run ((fun q => RGetHost q.1.1 q.1.2 modid cmdid q.2) <$> reqs) r1 = Ret ([], r1)) as ->; [|done].
  clear Hne. induction reqs as [|[[st' now'] rsp'] reqs IH]; [done|]. rewrite fmap_cons.
  cbn [rlb_run rlb_step fst snd]. rewrite (get_host_waiting _ _ _ _ _ _ _ Hr1) by done.
  cbn [mbind res_mbind]. by rewrite IH.
Qed.
End RouteLb.

Lemma rlb_run_safe_witness :
  exists reqs r, rlb_run x86_shl LbDemo.cfg
    [RGetHost (0, NEW, 0) 100 1 2 (MkHostRsp 0 1 2 0 None)] (route_lb_new 1) = Ret (reqs, r) /\ rlb_ok r.
Proof.
  apply (rlb_run_safe x86_shl LbDemo.cfg [RGetHost (0, NEW, 0) 100 1 2 (MkHostRsp 0 1 2 0 None)] 1).
  constructor; [discriminate|constructor].
Defined.

(** Three requests for an unknown service, one fetch of its route. *)
Lemma get_host_pulls_once_witness :
  exists r', rlb_run x86_shl LbDemo.cfg
    ((fun q => RGetHost q.1.1 q.1.2 1 2 q.2) <$>
     [((0, NEW, 0), 100, MkHostRsp 0 1 2 0 None); ((0, NEW, 0), 101, MkHostRsp 0 1 2 0 None);
      ((0, NEW, 0), 102, MkHostRsp 0 1 2 0 None)]) (route_lb_new 1) = Ret ([MkRouteReq 1 2], r').
Proof.
  apply get_host_pulls_once.
  - discriminate.
  - reflexivity.
Defined.
