(* ===== verification/Agent.v ===== *)
(** * The load-balance agent (lrlb_loadbalance_agent/src/main_server.cpp,
      src/agent_udp_server.cpp, src/dns_client.cpp, src/reporter_client.cpp)

    Three UDP servers answer the API from one [route_lb] each; a DNS client and a
    reporter client, on their own threads, forward what the balancers put on two
    thread queues and feed the routes that come back into the balancers.  [agent]
    is the state the threads share; the UDP servers are those of Udp.v, the two
    clients those of TcpClient.v, with the callbacks defined here. *)

From Stdlib Require Import SpecFloat.
From S2P Require Import Prelude.
From S2P Require Import IoBuf.
From S2P Require Import Message.
From S2P Require Import TcpClient.
From S2P Require Import Udp.
From S2P Require Import EventLoop.
From S2P Require Import ThreadPool.
From S2P Require Import ConfigFile.
From S2P Require Import Proto.
From S2P Require Import LoadBalance.
From S2P Require Import RouteLb.

(** [init_lb_agent]: the configuration read from the file; [host_ip] is the address
    [gethostbyname] finds for the host name, in host byte order. *)
Definition init_lb_agent (mp : config_map) (host_ip : option Z) : Config :=
  let number key dflt := GetNumber mp (text "loadbalance") (text key) dflt in
  let float key dflt := GetFloat mp (text "loadbalance") (text key) (text dflt) in
  let ip0 := default 0 host_ip in
  {| probe_num := s32 (number "probe_num"%string 10);
     init_succ_cnt := s32 (number "init_succ_cnt"%string 180);
     init_err_cnt := s32 (number "init_err_cnt"%string 5);
     err_rate := float "err_rate"%string "0.1"%string;
     succ_rate := float "succ_rate"%string "0.92"%string;
     contin_err_limit := s32 (number "contin_err_limit"%string 10);
     contin_succ_limit := s32 (number "contin_succ_limit"%string 10);
     local_ip := if bool_decide (ip0 = 0) then 2130706433 else ip0;
     window_err_rate := float "window_err_rate"%string "0.7"%string;
     idle_timeout := s32 (number "idle_timeout"%string 15);
     overload_timeout := s32 (number "overload_timeout"%string 15);
     update_timeout := number "update_timeout"%string 15 |}.

(** The address and port of a server in the configuration; [port] is a [short]. *)
Definition server_addr (mp : config_map) (section : str) (dflt_port : Z) : str * Z :=
  (GetString mp section (text "ip") (text "127.0.0.1"), s16 (GetNumber mp section (text "port") dflt_port)).

(** The callbacks of the UDP servers. *)
Inductive agent_cb := get_host_cb | report_cb | get_route_cb.

(** What one callback finds in its environment: times, uninitialised memory and the
    result of [sendto]. *)
Record inputs := Inputs {
  t_now : Z;
  t_set : Z;
  t_commit : Z;
  new_lb : Z * STATUS * Z;
  new_host : loc -> Z * Z;
  r_sendto : Z + errno
}.

Section Agent.
Context {E : Type} `{!EventFd E} `{!Protobuf}.
Context (wide : Z -> Z -> Z) (cfg : Config).

(** The globals [r_lb], [dns_queue] and [report_queue]; the queues are null pointers
    until [main] has created them. *)
Record agent := Agent {
  r_lb : list route_lb;
  dns_queue : option (thread_queue E GetRouteRequest);
  report_queue : option (thread_queue E ReportStatusReq)
}.

(** [create_route_lb]; the agent after [init_lb_agent], and with the queues of [main]. *)
Definition create_route_lb : list route_lb := [route_lb_new 1; route_lb_new 2; route_lb_new 3].
Definition agent_init : agent := Agent create_route_lb None None.
Definition agent_new : agent := Agent create_route_lb (Some thread_queue_new) (Some thread_queue_new).

(** [queue->send] of several tasks. *)
Definition send_all {T} (ts : list T) (q : option (thread_queue E T)) : res (option (thread_queue E T)) :=
  match ts with
  | [] => Ret q
  | _ :: _ => q ← deref q; Ret (Some (foldl (fun q t => send t q) q ts))
  end.

(** The agent after a method of [r_lb[i]] that sent [reqs] and [reps]. *)
Definition put_rlb (i : nat) (r : route_lb) (reqs : list GetRouteRequest) (reps : list ReportStatusReq)
    (a : agent) : res agent :=
  dq ← send_all reqs (dns_queue a);
  rq ← send_all reps (report_queue a);
  Ret (Agent (<[i := r]> (r_lb a)) dq rq).

(** [r_lb[index]] for an [int] index. *)
Definition rlb_at (index : Z) (a : agent) : res route_lb :=
  if bool_decide (0 <= index < 3) then deref (r_lb a !! Z.to_nat index) else Stop OutOfBounds.

(** [get_host_cb]: the body of the answer.  The sequence number is taken from the
    answer itself. *)
Definition run_get_host (inp : inputs) (data : list byte) (i : nat) (a : agent) : res (list byte * agent) :=
  let req : GetHostRequest := parse data in
  r ← rlb_at (Z.of_nat i) a;
  let rsp := MkHostRsp 0 (hq_modid req) (hq_cmdid req) 0 None in
  '(_, rsp, reqs, r) ← get_host cfg (new_lb inp) (t_now inp) (hq_modid req) (hq_cmdid req) rsp r;
  a ← put_rlb i r reqs [] a;
  Ret (serialize rsp, a).

(** [report_cb]. *)
Definition run_report (inp : inputs) (data : list byte) (i : nat) (a : agent) : res agent :=
  let req : ReportRequest := parse data in
  r ← rlb_at (Z.of_nat i) a;
  '(reps, r) ← report_host cfg (t_now inp) (t_set inp) (t_commit inp) req r;
  put_rlb i r [] reps a.

(** [get_route_cb]. *)
Definition run_get_route (inp : inputs) (data : list byte) (i : nat) (a : agent) : res (list byte * agent) :=
  let req : GetRouteRequest := parse data in
  r ← rlb_at (Z.of_nat i) a;
  let rsp := MkRouteRsp (rq_modid req) (rq_cmdid req) [] in
  '(_, rsp, reqs, r) ← get_route cfg (new_lb inp) (t_now inp) (rq_modid req) (rq_cmdid req) rsp r;
  a ← put_rlb i r reqs [] a;
  Ret (serialize rsp, a).

(** The callback of a message: the message to answer with, if any. *)
Definition serve (cb : agent_cb) (inp : inputs) (data : list byte) (i : nat) (a : agent)
    : res (option (Z * list byte) * agent) :=
  match cb with
  | get_host_cb => '(body, a) ← run_get_host inp data i a; Ret (Some (ID_GetHostResponse, body), a)
  | report_cb => a ← run_report inp data i a; Ret (None, a)
  | get_route_cb => '(body, a) ← run_get_route inp data i a; Ret (Some (ID_API_GetRouteResponse, body), a)
  end.

(** ** The UDP servers *)
Section Servers.
Context {K : Type} `{!Epoll K} {TF AD : Type}.

(** The state of one UDP server thread, with what its coming callbacks find in
    their environment. *)
Abbreviation uworld := (Udp.uworld K agent_cb nat TF AD (agent * list inputs)).

(** The callbacks as the router of the server calls them; the user data is the
    index of the server's [route_lb]. *)
Definition run_agent_msg (cb : agent_cb) (data : list byte) (len id : Z) (ud : option nat) (w : uworld)
    : res uworld :=
  i ← deref ud;
  match Udp.uw_user w with
  | (a, inp :: rest) =>
      '(answer, a) ← serve cb inp data i a;
      let w := Udp.UWorld (Udp.uw_udp w) (Udp.uw_loop w) (Udp.uw_sent w) (a, rest) in
      match answer with
      | Some (id, body) => '(_, w) ← Udp.send_message (r_sendto inp) body id w; Ret w
      | None => Ret w
      end
  | (_, []) => Stop NoReturn
  end.

(** [agent_server_main] of server [index], up to [event_process]. *)
Definition agent_server_main (sig : bool) (sock : Z) (zero : AD) (raw : list byte * list byte) (index : nat)
    (u : agent * list inputs) : res uworld :=
  w ← Udp.udp_server_new sig sock zero raw event_loop_new u;
  let w := Udp.add_msg_router ID_GetHostRequest get_host_cb (Some index) w in
  let w := Udp.add_msg_router ID_ReportRequest report_cb (Some index) w in
  Ret (Udp.add_msg_router ID_API_GetRouteRequest get_route_cb (Some index) w).

(** [start_UDP_servers]: three servers, the [i]-th on port 8888 + i. *)
Definition server_ports : list Z := [8888; 8889; 8890].
End Servers.

(** ** The clients *)

(** [(modid + cmdid) % 3] on [int]s. *)
Definition agent_index (modid cmdid : Z) : res Z :=
  if bool_decide (is_s32 (modid + cmdid)) then Ret (Z.rem (modid + cmdid) 3) else Stop Undefined.

(** [deal_recv_route]. *)
Definition deal_recv_route (inp : inputs) (data : list byte) (a : agent) : res agent :=
  let rsp : GetRouteResponse := parse data in
  index ← agent_index (rr_modid rsp) (rr_cmdid rsp);
  r ← rlb_at index a;
  '(_, r) ← update_host wide cfg (new_host inp) (t_now inp) (rr_modid rsp) (rr_cmdid rsp) rsp r;
  put_rlb (Z.to_nat index) r [] [] a.

(** [conn_init], and one round of its loop. *)
Definition conn_init (a : agent) : agent :=
  Agent (reset_lb_status <$> r_lb a) (dns_queue a) (report_queue a).
Definition reset_at (a : agent) (j : nat) : agent :=
  Agent (alter reset_lb_status j (r_lb a)) (dns_queue a) (report_queue a).

Section Clients.
Context {K : Type} `{!Epoll K} {HK MK A X TF : Type}.
(** The state of a client thread, with what its coming callbacks find in their
    environment. *)
Abbreviation cworld := (TcpClient.cworld K HK MK A X TF (agent * list inputs)).

(** The loop that sends the received messages; the result of [send_message] is
    ignored. *)
Fixpoint send_each {M ok} `{!Codec M ok} (id : Z) (ms : list M) (w : cworld) : res cworld :=
  match ms with
  | [] => Ret w
  | m :: ms =>
      '(_, w) ← TcpClient.send_message (serialize m) id w;
      send_each id ms w
  end.

Definition set_agent (a : agent) (w : cworld) : cworld :=
  TcpClient.CWorld (TcpClient.cw_cli w) (TcpClient.cw_loop w) (a, (TcpClient.cw_user w).2).

(** [new_dns_request]. *)
Definition new_dns_request (w : cworld) : res cworld :=
  let a := (TcpClient.cw_user w).1 in
  q ← deref (dns_queue a);
  let '(msgs, q) := recv [] q in
  send_each ID_GetRouteRequest msgs (set_agent (Agent (r_lb a) (Some q) (report_queue a)) w).

(** [new_report_request]. *)
Definition new_report_request (w : cworld) : res cworld :=
  let a := (TcpClient.cw_user w).1 in
  q ← deref (report_queue a);
  let '(msgs, q) := recv [] q in
  send_each ID_ReportStatusRequest msgs (set_agent (Agent (r_lb a) (dns_queue a) (Some q)) w).
End Clients.
End Agent.

Arguments agent : clear implicits.

(** ** Serving requests *)
Section Spec.
Context {E : Type} `{!EventFd E} `{!Protobuf}.
Context (wide : Z -> Z -> Z) (cfg : Config).
Implicit Types a : agent E.

(** Every answer to a [GetHostRequest] repeats its modid and cmdid but carries
    the sequence number 0, whatever the number of the request. *)
Theorem get_host_seq_zero inp data i a body a' :
  run_get_host cfg inp data i a = Ret (body, a') ->
  exists rsp : GetHostResponse, body = serialize rsp /\ hr_seq rsp = 0 /\
    hr_modid rsp = hq_modid (parse data) /\ hr_cmdid rsp = hq_cmdid (parse data).
Proof.
  unfold run_get_host. destruct (rlb_at _ a) as [r|]; [|done]. cbn [mbind res_mbind].
  destruct (get_host _ _ _ _ _ _ r) as [[[[ret rsp] reqs] r']|] eqn:Eg; [|done].
  cbn [mbind res_mbind]. destruct (put_rlb i r' reqs [] a) as [a1|]; [|done]. cbn [mbind res_mbind].
  intros [= <- _]. exists rsp. split; [done|].
  unfold get_host in Eg. cbv zeta in Eg. destruct (_route_lb_map r !! _) as [lb|].
  - destruct (empty lb).
    + destruct (bool_decide (status lb = PULLING)); simpl in Eg; naive_solver.
    + destruct (choice_one_host cfg lb) as [[[c h] lb']|]; [|done]. simpl in Eg.
      destruct (refresh cfg _ lb'). naive_solver.
  - simpl in Eg. naive_solver.
Qed.

Lemma s32_ip i : is_s32 i -> s32 (u32 i) = i.
Proof. int_solve. Qed.

(** A balancer without hosts that gets its first route answers with a host of it. *)
Lemma first_choice stale now rsp lb :
  lb_inv lb -> _host_map lb = ∅ -> rr_host rsp <> [] -> Forall HostInfo_ok (rr_host rsp) ->
  exists lb' h lb2, update wide cfg stale now rsp lb = Ret lb' /\ lb_inv lb' /\ empty lb' = false /\
    choice_one_host cfg lb' = Ret (RET_SUCC, Some h, lb2) /\ h ∈ rr_host rsp /\
    status lb' = NEW /\ last_update_time lb' = now /\ status lb2 = NEW /\ last_update_time lb2 = now.
Proof.
  intros Hi Hm Hne Hok.
  destruct (update_ok wide cfg stale now rsp lb Hi Hne) as (lb' & Hup & Hi' & Hdom & _ & Hnew & Hst & Ht).
  assert (forall x, x ∈ _idle_list lb' ++ _overload_list lb' -> exists h, h ∈ rr_host rsp /\
    lb_heap lb' !! x = Some (host_info_new (h_ip h) (h_port h) (init_succ_cnt cfg) (stale x))) as Hall.
  { intros x [key Hk]%(inv_map _ Hi'). destruct (Hnew key x) as (h & [Hin _]%first_with_Some & Hh); [|done|by exists h].
    by rewrite Hm, lookup_empty. }
  assert (_overload_list lb' = []) as Ho.
  { destruct (_overload_list lb') as [|x l] eqn:El; [done|]. exfalso.
    destruct (inv_over _ Hi' x) as (h & Hh & Hov); [rewrite El; left|].
    destruct (Hall x) as (h' & _ & Hh'); [rewrite elem_of_app; right; left|]. rewrite Hh in Hh'. by simplify_eq. }
  assert (empty lb' = false) as He.
  { unfold empty. apply bool_decide_eq_false. intros E0. rewrite E0, dom_empty_L in Hdom.
    destruct (rr_host rsp); [done|]. simpl in Hdom. set_solver. }
  destruct (not_empty_queues lb' Hi' He) as [Hid|]; [|done].
  destruct (_idle_list lb') as [|x l] eqn:El; [done|].
  destruct (pick_idle_ok lb' x l Hi' El) as (h & Hh & Hpick & _).
  destruct (Hall x) as (h' & Hin & Hh'); [left|]. rewrite Hh in Hh'. simplify_eq.
  rewrite list.Forall_forall in Hok. destruct (Hok h' Hin) as [Hip _]. simpl in Hpick.
  rewrite s32_ip in Hpick by done. replace (MkHostInfo (h_ip h') (h_port h')) with h' in Hpick by (by destruct h').
  exists lb', h', (set_lists (l ++ [x]) (_overload_list lb') lb'). split_and!; try done.
  unfold choice_one_host. by rewrite El, bool_decide_eq_false_2, Ho, bool_decide_eq_true_2, Hpick, Ho by done.
Qed.

Lemma rlb_at_ok a i r : (i < 3)%nat -> r_lb a !! i = Some r -> rlb_at (Z.of_nat i) a = Ret r.
Proof. intros Hi Hr. unfold rlb_at. rewrite bool_decide_eq_true_2 by lia. by rewrite Nat2Z.id, Hr. Qed.

Lemma agent_index_ok modid cmdid :
  0 <= modid + cmdid -> is_s32 (modid + cmdid) ->
  agent_index modid cmdid = Ret ((modid + cmdid) mod 3).
Proof.
  intros H0 Hs. unfold agent_index. rewrite bool_decide_eq_true_2 by done. by rewrite Z.rem_mod_nonneg by lia.
Qed.

(** A service just asked for, without hosts. *)
Definition pulling (modid cmdid : Z) (inp : inputs) : load_balance :=
  set_status PULLING (load_balance_new modid cmdid (new_lb inp)).

Lemma put_rlb_ok i r reqs reps a dq rq :
  dns_queue a = Some dq -> report_queue a = Some rq ->
  put_rlb i r reqs reps a =
  Ret (Agent (<[i := r]> (r_lb a)) (Some (foldl (fun q t => send t q) dq reqs))
             (Some (foldl (fun q t => send t q) rq reps))).
Proof. intros Hd Hr. unfold put_rlb, send_all. rewrite Hd, Hr. by destruct reqs, reps. Qed.

(** The first request for a service. *)
Lemma get_host_first inp modid cmdid seq i a r dq rq :
  is_s32 modid -> is_s32 cmdid -> is_u32 seq -> (i < 3)%nat ->
  r_lb a !! i = Some r -> _route_lb_map r !! make_key modid cmdid = None ->
  dns_queue a = Some dq -> report_queue a = Some rq ->
  run_get_host cfg inp (serialize (MkHostReq seq modid cmdid)) i a =
  Ret (serialize (MkHostRsp 0 modid cmdid RET_NOEXIST None),
       Agent (<[i := put_lb (make_key modid cmdid) (pulling modid cmdid inp) r]> (r_lb a))
             (Some (send (MkRouteReq modid cmdid) dq)) (Some rq)).
Proof.
  intros Hm Hc Hs Hi Hr Hn Hd Hq. unfold run_get_host. rewrite parse_serialize by done. rewrite (rlb_at_ok _ _ _ Hi Hr).
  cbn [mbind res_mbind hq_modid hq_cmdid]. rewrite get_host_new by done. cbn [mbind res_mbind].
  by rewrite (put_rlb_ok _ _ _ _ _ dq rq).
Qed.

(** The first route of a service, and the requests after it. *)
Lemma route_arrives inp modid cmdid hosts a r lb (i := Z.to_nat ((modid + cmdid) mod 3)) :
  is_s32 modid -> is_s32 cmdid -> 0 <= modid + cmdid -> is_s32 (modid + cmdid) ->
  hosts <> [] -> Forall HostInfo_ok hosts -> zlen hosts <= MAX_REPEATED ->
  r_lb a !! i = Some r -> _route_lb_map r !! make_key modid cmdid = Some lb -> lb_inv lb -> _host_map lb = ∅ ->
  exists lb',
    deal_recv_route wide cfg inp (serialize (MkRouteRsp modid cmdid hosts)) a =
      Ret (Agent (<[i := put_lb (make_key modid cmdid) lb' r]> (r_lb a)) (dns_queue a) (report_queue a)) /\
    forall inp' seq a' dq rq, is_u32 seq -> r_lb a' !! i = Some (put_lb (make_key modid cmdid) lb' r) ->
      dns_queue a' = Some dq -> report_queue a' = Some rq ->
      exists h a'', h ∈ hosts /\
        run_get_host cfg inp' (serialize (MkHostReq seq modid cmdid)) i a' =
        Ret (serialize (MkHostRsp 0 modid cmdid RET_SUCC (Some h)), a'').
Proof.
  intros Hm Hc H0 Hs Hne Hok Hmax Hr Hl Hinv Hmap.
  assert (0 <= (modid + cmdid) mod 3 < 3) as Hi by (apply Z.mod_pos_bound; lia).
  assert (i < 3)%nat as Hi3 by (unfold i; lia).
  destruct (first_choice (new_host inp) (t_now inp) (MkRouteRsp modid cmdid hosts) lb) as
    (lb1 & h & lb2 & Hup & Hinv1 & He & Hch & Hin & _); [done..|].
  exists lb1. split.
  - unfold deal_recv_route. rewrite parse_serialize by done. cbn [rr_modid rr_cmdid].
    rewrite agent_index_ok by done. cbn [mbind res_mbind].
    replace ((modid + cmdid) mod 3) with (Z.of_nat i) by (unfold i; lia).
    erewrite rlb_at_ok; [|done|done]. cbn [mbind res_mbind].
    unfold update_host. cbv zeta. rewrite Hl. rewrite bool_decide_eq_false_2 by done. rewrite Hup.
    cbn [mbind res_mbind]. rewrite Nat2Z.id. unfold put_rlb, send_all. done.
  - intros inp' seq a' dq rq Hseq Hr' Hd Hq. destruct (refresh cfg (t_now inp') lb2) as [reqs lb3] eqn:Eref.
    exists h. unfold run_get_host. rewrite parse_serialize by done. cbn [hq_modid hq_cmdid].
    erewrite rlb_at_ok; [|done|done]. cbn [mbind res_mbind]. unfold get_host. cbv zeta.
    cbn [_route_lb_map put_lb]. rewrite lookup_insert_eq, He, Hch. cbn [mbind res_mbind]. rewrite Eref. cbn [mbind res_mbind].
    rewrite (put_rlb_ok _ _ _ _ _ dq rq) by done. by eexists.
Qed.

(** The state of [create_route_lb]. *)
Lemma agent_new_rlb i : (i < 3)%nat ->
  exists r, r_lb (agent_new (E := E)) !! i = Some r /\ _route_lb_map r = ∅.
Proof. intros Hi. destruct i as [|[|[|]]]; [by eexists..|lia]. Qed.

(** A cold start end to end: on a fresh agent the first request for a service,
    sent to the server its ids select, is answered with [RET_NOEXIST] and puts
    one route request on the DNS queue; once the DNS server's answer is in, the
    same request gets [RET_SUCC] and a host of that answer. *)
Theorem cold_start inp1 inp2 inp3 modid cmdid seq1 seq2 hosts :
  is_s32 modid -> is_s32 cmdid -> 0 <= modid + cmdid -> is_s32 (modid + cmdid) ->
  is_u32 seq1 -> is_u32 seq2 -> hosts <> [] -> Forall HostInfo_ok hosts ->
  zlen hosts <= MAX_REPEATED ->
  let i := Z.to_nat ((modid + cmdid) mod 3) in
  exists a1 a2 a3 h q,
    run_get_host cfg inp1 (serialize (MkHostReq seq1 modid cmdid)) i agent_new =
      Ret (serialize (MkHostRsp 0 modid cmdid RET_NOEXIST None), a1) /\
    dns_queue a1 = Some q /\ _queue q = [MkRouteReq modid cmdid] /\
    deal_recv_route wide cfg inp2 (serialize (MkRouteRsp modid cmdid hosts)) a1 = Ret a2 /\
    run_get_host cfg inp3 (serialize (MkHostReq seq2 modid cmdid)) i a2 =
      Ret (serialize (MkHostRsp 0 modid cmdid RET_SUCC (Some h)), a3) /\ h ∈ hosts.
Proof.
  intros Hm Hc H0 Hs H1 H2 Hne Hok Hmax i.
  assert (0 <= (modid + cmdid) mod 3 < 3) as Hi by (apply Z.mod_pos_bound; lia).
  assert (i < 3)%nat as Hi3 by (unfold i; lia).
  destruct (agent_new_rlb i Hi3) as (r0 & Hr0 & Hm0).
  assert (length (r_lb (agent_new (E := E))) = 3%nat) as Hlen by done.
  set (r1 := put_lb (make_key modid cmdid) (pulling modid cmdid inp1) r0).
  set (a1 := Agent (<[i := r1]> (r_lb (agent_new (E := E)))) (Some (send (MkRouteReq modid cmdid) thread_queue_new))
                   (Some thread_queue_new)).
  assert (r_lb a1 !! i = Some r1) as Hr1 by (apply list_lookup_insert_eq; lia).
  destruct (route_arrives inp2 modid cmdid hosts a1 r1 (pulling modid cmdid inp1)) as (lb' & Hd & Hnext);
    [done..|apply lookup_insert_eq|apply lb_inv_status, lb_inv_new|done|]. fold i in Hd, Hnext.
  set (a2 := Agent (<[i := put_lb (make_key modid cmdid) lb' r1]> (r_lb a1)) (dns_queue a1) (report_queue a1)) in *.
  destruct (Hnext inp3 seq2 a2 (send (MkRouteReq modid cmdid) thread_queue_new) thread_queue_new H2) as (h & a3 & Hin & Hg);
    [|done..|].
  { apply list_lookup_insert_eq. unfold a1. cbn [r_lb]. rewrite length_insert. lia. }
  eexists a1, a2, a3, h, _. split_and!; try done.
  by rewrite (get_host_first inp1 modid cmdid seq1 i agent_new r0 thread_queue_new thread_queue_new)
    by (done || by rewrite Hm0).
Qed.

(** An answer of the DNS server for a service with a negative id sum that is not
    a multiple of 3 indexes [r_lb] below its start. *)
Theorem deal_recv_route_negative inp modid cmdid hosts a :
  is_s32 modid -> is_s32 cmdid -> is_s32 (modid + cmdid) -> Forall HostInfo_ok hosts ->
  zlen hosts <= MAX_REPEATED -> modid + cmdid < 0 -> (modid + cmdid) mod 3 <> 0 ->
  deal_recv_route wide cfg inp (serialize (MkRouteRsp modid cmdid hosts)) a = Stop OutOfBounds.
Proof.
  intros Hm Hc Hs Hok Hmax Hneg Hmod. unfold deal_recv_route. rewrite parse_serialize by done. cbn [rr_modid rr_cmdid].
  unfold agent_index. rewrite bool_decide_eq_true_2 by done. cbn [mbind res_mbind]. unfold rlb_at.
  rewrite bool_decide_eq_false_2; [done|]. pose proof (Z.quot_rem' (modid + cmdid) 3).
  pose proof (Z.rem_bound_pos_neg (modid + cmdid) 3 ltac:(lia) ltac:(lia)). intros [Hz _].
  assert (Z.rem (modid + cmdid) 3 = 0) as E0 by lia. apply Hmod. rewrite Z.mod_divide by lia.
  exists (Z.quot (modid + cmdid) 3). lia.
Qed.

(** ** Forwarding to the servers *)
(** A callback works on one balancer, and sends what this calls for. *)
Definition serve_one (cb : agent_cb) (inp : inputs) (data : list byte) (r : route_lb)
    : res (option (Z * list byte) * list GetRouteRequest * list ReportStatusReq * route_lb) :=
  match cb with
  | get_host_cb =>
      let req : GetHostRequest := parse data in
      '(_, rsp, reqs, r) ← get_host cfg (new_lb inp) (t_now inp) (hq_modid req) (hq_cmdid req)
        (MkHostRsp 0 (hq_modid req) (hq_cmdid req) 0 None) r;
      Ret (Some (ID_GetHostResponse, serialize rsp), reqs, [], r)
  | report_cb =>
      '(reps, r) ← report_host cfg (t_now inp) (t_set inp) (t_commit inp) (parse data) r; Ret (None, [], reps, r)
  | get_route_cb =>
      let req : GetRouteRequest := parse data in
      '(_, rsp, reqs, r) ← get_route cfg (new_lb inp) (t_now inp) (rq_modid req) (rq_cmdid req)
        (MkRouteRsp (rq_modid req) (rq_cmdid req) []) r;
      Ret (Some (ID_API_GetRouteResponse, serialize rsp), reqs, [], r)
  end.

Lemma serve_split cb inp data i a :
  serve cfg cb inp data i a =
  (r ← rlb_at (Z.of_nat i) a; '(o, reqs, reps, r) ← serve_one cb inp data r; a ← put_rlb i r reqs reps a; Ret (o, a)).
Proof.
  destruct cb; cbn [serve serve_one]; unfold run_get_host, run_report, run_get_route; destruct (rlb_at (Z.of_nat i) a) as [r|]; try done;
    cbn [mbind res_mbind].
  - destruct (get_host _ _ _ _ _ _ _) as [[[[ret rsp] reqs] r']|]; [|done]. cbn [mbind res_mbind]. by destruct (put_rlb _ _ _ _ _).
  - destruct (report_host _ _ _ _ _ _) as [[reps r']|]; [|done]. cbn [mbind res_mbind]. by destruct (put_rlb _ _ _ _ _).
  - destruct (get_route _ _ _ _ _ _ _) as [[[[ret rsp] reqs] r']|]; [|done]. cbn [mbind res_mbind]. by destruct (put_rlb _ _ _ _ _).
Qed.

Lemma insert_alter_ne {T} (f : T -> T) (x : T) (i j : nat) (l : list T) : i <> j -> <[i := x]> (alter f j l) = alter f j (<[i := x]> l).
Proof.
  revert i j. induction l as [|y l IH]; intros [|i] [|j] Hij; cbn; try done. f_equal. apply IH. congruence.
Qed.

(** A callback and the reset of another balancer can be exchanged. *)
Lemma serve_reset cb inp data i j a :
  i <> j -> serve cfg cb inp data i (reset_at a j) = ('(o, a) ← serve cfg cb inp data i a; Ret (o, reset_at a j)).
Proof.
  intros Hij. rewrite !serve_split. unfold rlb_at. cbn [reset_at r_lb]. rewrite !Nat2Z.id, list_lookup_alter_ne by done.
  case_bool_decide; [|done]. destruct (r_lb a !! i) as [r|]; [|done]. cbn [mbind res_mbind deref].
  destruct (serve_one cb inp data r) as [[[[o reqs] reps] r']|]; [|done]. cbn [mbind res_mbind]. unfold put_rlb.
  cbn [reset_at r_lb dns_queue report_queue]. destruct (send_all reqs (dns_queue a)) as [dq|]; [|done]. cbn [mbind res_mbind].
  destruct (send_all reps (report_queue a)) as [rq|]; [|done]. cbn [mbind res_mbind]. unfold reset_at. cbn. do 3 f_equal.
  by apply insert_alter_ne.
Qed.

Lemma serve_resets cb inp data i js a :
  i ∉ js -> serve cfg cb inp data i (foldl reset_at a js) = ('(o, a) ← serve cfg cb inp data i a; Ret (o, foldl reset_at a js)).
Proof.
  revert a. induction js as [|j js IH]; intros a Hi; cbn [foldl].
  - by destruct (serve cfg cb inp data i a) as [[o a']|].
  - apply not_elem_of_cons in Hi as [Hj Hi]. rewrite IH, serve_reset by done.
    by destruct (serve cfg cb inp data i a) as [[o a']|].
Qed.

(** The loop of [conn_init] is not one critical section: it resets the balancers one after the other, and a
    server can serve a request in between.  Such a request is served as if it had come
    after the whole of [conn_init] when its balancer has been reset, and as if before it otherwise. *)
Theorem conn_init_serial cb inp data i n a :
  length (r_lb a) = 3%nat -> (n <= 3)%nat ->
  ('(o, a1) ← serve cfg cb inp data i (foldl reset_at a (seq 0 n)); Ret (o, foldl reset_at a1 (seq n (3 - n)))) =
  (if bool_decide (i < n)%nat then serve cfg cb inp data i (conn_init a)
   else '(o, a1) ← serve cfg cb inp data i a; Ret (o, conn_init a1)).
Proof.
  intros H3 Hn.
  assert (forall a, length (r_lb a) = 3%nat -> conn_init a = foldl reset_at (foldl reset_at a (seq 0 n)) (seq n (3 - n))) as Hall.
  { clear -Hn. intros a H3. rewrite <-foldl_app, <-seq_app. replace (n + (3 - n))%nat with 3%nat by lia.
    destruct a as [l dq rq]. cbn in H3. by destruct l as [|r0 [|r1 [|r2 [|]]]]. }
  case_bool_decide as Hi.
  - rewrite (Hall a H3), (serve_resets cb inp data i (seq n (3 - n))); [done|]. rewrite elem_of_seq. lia.
  - rewrite serve_resets by (rewrite elem_of_seq; lia). destruct (serve cfg cb inp data i a) as [[o a1]|] eqn:Es; [|done].
    cbn [mbind res_mbind]. rewrite Hall; [done|]. rewrite serve_split in Es.
    apply bind_Ret in Es as (r & _ & Es). apply bind_Ret in Es as ([[[o' reqs] reps] r'] & _ & Es).
    apply bind_Ret in Es as (a2 & Hp & Es). injection Es as -> ->. unfold put_rlb in Hp.
    apply bind_Ret in Hp as (dq & _ & Hp). apply bind_Ret in Hp as (rq & _ & Hp). injection Hp as <-. cbn. by rewrite length_insert.
Qed.

Section Forward.
Context {K : Type} `{!Epoll K} {HK MK A X TF : Type}.
Implicit Types w : TcpClient.cworld K HK MK A X TF (agent E * list inputs).

(** The frames of the messages. *)
Definition frames {M ok} `{!Codec M ok} (id : Z) (ms : list M) : list byte :=
  stream ((fun m => (id, serialize m)) <$> ms).

Lemma stream_cons m ms : stream (m :: ms) = frame_bytes m.1 m.2 ++ stream ms.
Proof. done. Qed.

Lemma send_each_ok {M ok} `{!Codec M ok} id (ms : list M) w ib ob :
  TcpClient.connected (TcpClient.cw_cli w) = true -> TcpClient.cli_repr (TcpClient.cw_cli w) ib ob ->
  zlen ob + zlen (frames id ms) <= b_capacity (TcpClient._obuf (TcpClient.cw_cli w)) ->
  exists w', send_each id ms w = Ret w' /\
    TcpClient.cli_repr (TcpClient.cw_cli w') ib (ob ++ frames id ms) /\
    TcpClient.cw_user w' = TcpClient.cw_user w /\ TcpClient.connected (TcpClient.cw_cli w') = true /\
    TcpClient._cli_router (TcpClient.cw_cli w') = TcpClient._cli_router (TcpClient.cw_cli w) /\
    TcpClient._ibuf (TcpClient.cw_cli w') = TcpClient._ibuf (TcpClient.cw_cli w).
Proof.
  revert w ob. induction ms as [|m ms IH]; intros w ob Hcon Hrep Hfit; simpl.
  { exists w. unfold frames, stream. simpl. by rewrite app_nil_r. }
  unfold frames in *. rewrite fmap_cons, stream_cons in Hfit |- *. cbn [fst snd] in Hfit |- *.
  set (rest := stream _) in *. rewrite zlen_app, zlen_frame_bytes in Hfit.
  pose proof (zlen_nonneg rest). unfold MESSAGE_HEAD_LEN in Hfit.
  pose proof (TcpClient.client_send_ok (serialize m) id w ib ob Hrep) as Hs. cbv zeta in Hs.
  rewrite Hcon, bool_decide_eq_true_2 in Hs by (unfold MESSAGE_HEAD_LEN; lia). cbn [andb] in Hs.
  destruct Hs as (c' & Hrep' & Hcon' & _ & Hro & Hcap & Hin & ->). cbn [mbind res_mbind].
  match goal with |- context [send_each id ms ?w1] => destruct (IH w1 (ob ++ frame_bytes id (serialize m)))
    as (w' & -> & Hr & Hu & Hc & Hro' & Hin') end; [done|done| |].
  - cbn [TcpClient.cw_cli]. rewrite Hcap, zlen_app, zlen_frame_bytes. unfold MESSAGE_HEAD_LEN. lia.
  - exists w'. rewrite <-app_assoc in Hr. cbn [TcpClient.cw_cli] in Hro', Hin'. split_and!; [done..|congruence|congruence].
Qed.

Lemma send_each_lost {M ok} `{!Codec M ok} id (ms : list M) w :
  TcpClient.connected (TcpClient.cw_cli w) = false -> send_each id ms w = Ret w.
Proof.
  intros Hcon. induction ms as [|m ms IH]; simpl; [done|].
  unfold TcpClient.send_message. rewrite Hcon. cbn [negb mbind res_mbind]. exact IH.
Qed.

(** Forwarding route requests: when the DNS client is woken it takes everything
    off the queue; if it is connected and there is room it queues one frame per
    request, in order; if it is not connected the requests are lost. *)
Theorem new_dns_request_forwards w ib ob q :
  let c := TcpClient.cw_cli w in
  let reqs := _queue q in
  dns_queue (TcpClient.cw_user w).1 = Some q -> TcpClient.cli_repr c ib ob ->
  zlen ob + zlen (frames ID_GetRouteRequest reqs) <= b_capacity (TcpClient._obuf c) ->
  exists w' q', new_dns_request w = Ret w' /\
    dns_queue (TcpClient.cw_user w').1 = Some q' /\ _queue q' = [] /\
    (if TcpClient.connected c
     then TcpClient.cli_repr (TcpClient.cw_cli w') ib (ob ++ frames ID_GetRouteRequest reqs)
     else TcpClient.cw_cli w' = c).
Proof.
  intros c reqs Hq Hrep Hfit. unfold new_dns_request. rewrite Hq. cbn [mbind res_mbind deref recv]. fold reqs.
  set (w0 := set_agent _ w). destruct (TcpClient.connected c) eqn:Hcon.
  - destruct (send_each_ok ID_GetRouteRequest reqs w0 ib ob) as (w' & -> & Hr & Hu & _); [done..|].
    exists w'. rewrite Hu. by eexists.
  - rewrite send_each_lost by done. exists w0. by eexists.
Qed.
End Forward.
End Spec.

(** ** Concrete runs *)
Definition demo_inputs : inputs := Inputs 100 100 100 (0, NEW, 0) (fun _ => (0, 0)) (inl 0).

Lemma cold_start_witness :
  exists (a1 a2 a3 : agent Z) h q,
    run_get_host LbDemo.cfg demo_inputs (serialize (MkHostReq 0 1 2)) 0%nat agent_new =
      Ret (serialize (MkHostRsp 0 1 2 RET_NOEXIST None), a1) /\
    dns_queue a1 = Some q /\ _queue q = [MkRouteReq 1 2] /\
    deal_recv_route x86_shl LbDemo.cfg demo_inputs (serialize (MkRouteRsp 1 2 [MkHostInfo 7 80; MkHostInfo 8 80])) a1 = Ret a2 /\
    run_get_host LbDemo.cfg demo_inputs (serialize (MkHostReq 1 1 2)) 0%nat a2 =
      Ret (serialize (MkHostRsp 0 1 2 RET_SUCC (Some h)), a3) /\ h ∈ [MkHostInfo 7 80; MkHostInfo 8 80].
Proof.
  apply (cold_start x86_shl LbDemo.cfg demo_inputs demo_inputs demo_inputs 1 2 0 1 [MkHostInfo 7 80; MkHostInfo 8 80]);
    unfold is_s32, is_u32; try lia.
  - discriminate.
  - repeat constructor; vm_compute; congruence.
  - vm_compute. congruence.
Defined.

(** One waiting request on a connected client. *)
Definition demo_client (b : bool) : TcpClient.cworld (gmap Z Z) unit unit unit unit unit (agent Z * list inputs) :=
  TcpClient.CWorld
    (TcpClient.TcpClient b (io_buf_new 64 (replicate 64 x00)) (io_buf_new 64 (replicate 64 x00)) None None msg_router_new 4)
    event_loop_new (Agent create_route_lb (Some (send (MkRouteReq 1 2) thread_queue_new)) (Some thread_queue_new), []).

Lemma new_dns_request_forwards_witness :
  exists w' q', new_dns_request (demo_client true) = Ret w' /\
    dns_queue (TcpClient.cw_user w').1 = Some q' /\ _queue q' = [] /\
    TcpClient.cli_repr (TcpClient.cw_cli w') [] (frames ID_GetRouteRequest [MkRouteReq 1 2]).
Proof.
  apply (new_dns_request_forwards (demo_client true) [] [] (send (MkRouteReq 1 2) thread_queue_new)).
  - reflexivity.
  - unfold TcpClient.cli_repr, buf_wf. vm_compute. intuition congruence.
  - vm_compute. congruence.
Defined.

Lemma conn_init_serial_witness :
  ('(o, a1) ← serve LbDemo.cfg get_host_cb demo_inputs (serialize (MkHostReq 0 1 2)) 0 (reset_at (agent_new (E := Z)) 0%nat);
   Ret (o, reset_at (reset_at a1 1%nat) 2%nat)) =
  serve LbDemo.cfg get_host_cb demo_inputs (serialize (MkHostReq 0 1 2)) 0 (conn_init (agent_new (E := Z))).
Proof.
  apply (conn_init_serial LbDemo.cfg get_host_cb demo_inputs (serialize (MkHostReq 0 1 2)) 0 1 (agent_new (E := Z))); [reflexivity|lia].
Defined.
