(* ===== verification/AgentMain.v ===== *)
(** * The agent as a process (lrlb_loadbalance_agent/src/main_server.cpp,
      src/agent_udp_server.cpp, src/dns_client.cpp, src/reporter_client.cpp)

    [main] starts three UDP server threads, then creates the queue of the reporter
    client and starts it, then creates the queue of the DNS client and starts it.
    [system] is what these threads share and own; an [event] is one step of one of
    them: the next action of [main], the set-up of a UDP server, a datagram it reads and
    answers, the set-up of a client thread, or one fired event of its loop.  A callback calls one method of
    one balancer, or one of a queue, under its mutex, and is one step; [conn_init] calls
    [reset_lb_status] of the three balancers and is taken as one step too (a request served
    in between is served as if before or after it, [conn_init_serial] of Agent.v).  A run is a
    sequence of events in any order the threads allow. *)

From S2P Require Import Prelude.
From S2P Require Import IoBuf.
From S2P Require Import Message.
From S2P Require Import EventLoop.
From S2P Require Import ThreadPool.
From S2P Require Import TcpClient.
From S2P Require Import Udp.
From S2P Require Import ConfigFile.
From S2P Require Import Proto.
From S2P Require Import LoadBalance.
From S2P Require Import RouteLb.
From S2P Require Import Agent.

(** The hook, the message callback and the queue callbacks of the two clients. *)
Inductive agent_hook := conn_init_hook.
Inductive agent_msg := deal_recv_route_cb.
Inductive queue_fn := new_dns_request_fn | new_report_request_fn.

(** What the system calls of a fired callback return: [ioctl], [read], [write] and the
    pending error of the socket. *)
Record io_results := IoResults {
  io_avail : option Z;
  io_read : list (list byte + errno);
  io_write : list (Z + errno);
  io_error : Z
}.

(** What the construction of a client finds: its buffers' memory, the uninitialised
    [connected], the results of [socket] and [connect], the descriptor of the queue and
    the name of the thread's loop. *)
Record setup := Setup {
  su_in : list byte;
  su_out : list byte;
  su_stale : bool;
  su_sock : Z;
  su_conn : unit + errno;
  su_evfd : Z;
  su_loop : nat
}.

Section Threads.
Context {E : Type} `{!EventFd E} {K : Type} `{!Epoll K} `{!Protobuf} {TF AD : Type}.
Context (wide : Z -> Z -> Z) (cfg : Config).

Abbreviation cworld := (TcpClient.cworld K agent_hook agent_msg unit queue_fn TF (agent E * list inputs)).
Abbreviation loop := (event_loop K (loop_fn queue_fn) unit TF).

(** The callbacks on the state of a client thread. *)
Definition run_agent_hook (h : agent_hook) (w : cworld) : res cworld :=
  Ret (set_agent (conn_init (cw_user w).1) w).

Definition run_route_msg (cb : agent_msg) (data : list byte) (len id : Z) (ud : option unit) (w : cworld)
    : res cworld :=
  match cw_user w with
  | (a, inp :: rest) =>
      a ← deal_recv_route wide cfg inp data a;
      Ret (CWorld (cw_cli w) (cw_loop w) (a, rest))
  | (_, []) => Stop NoReturn
  end.

Definition run_queue_fn (x : queue_fn) (w : cworld) : res cworld :=
  match x with
  | new_dns_request_fn => new_dns_request w
  | new_report_request_fn => new_report_request w
  end.

(** The functions on the loop of a client. *)
Definition run_loop_fn (io : io_results) (f : loop_fn queue_fn) (fd : Z) (args : option unit) (w : cworld)
    : res cworld :=
  _ ← deref args;
  match f with
  | ClientFn TcpClient.read_callback =>
      '(_, w) ← TcpClient.do_read run_agent_hook run_route_msg (io_avail io) (io_read io) w; Ret w
  | ClientFn TcpClient.write_callback => '(_, w) ← TcpClient.do_write run_agent_hook (io_write io) w; Ret w
  | ClientFn connection_delay => TcpClient.run_connection_delay run_agent_hook fd (io_error io) w
  | AppFn x => run_queue_fn x w
  end.

(** [thread_queue::set_callback]. *)
Definition set_callback {T} (q : thread_queue E T) (evfd : Z) (x : queue_fn) (w : cworld) : cworld :=
  match get_loop q with
  | Some _ => TcpClient.upd_loop (add_io_event evfd (Some (AppFn x)) EPOLLIN (Some tt)) w
  | None => w
  end.

(** [dns_client_thread], up to [event_process]; what the thread connects to is
    [server_addr] of section [dnssever] with port 7778 by default. *)
Definition dns_client_thread (su : setup) (a : agent E) : res cworld :=
  w ← tcp_client_new run_agent_hook (su_in su) (su_out su) (su_stale su) (su_sock su) (su_conn su)
        event_loop_new (a, []);
  q ← deref (dns_queue a);
  let q := set_loop (su_loop su) q in
  let w := set_agent (Agent (r_lb a) (Some q) (report_queue a)) w in
  let w := set_callback q (su_evfd su) new_dns_request_fn w in
  let w := TcpClient.add_msg_router ID_GetRouteResponse deal_recv_route_cb None w in
  Ret (set_conn_start (Some conn_init_hook) w).

(** [report_client_thread], up to [event_process]. *)
Definition report_client_thread (su : setup) (a : agent E) : res cworld :=
  w ← tcp_client_new run_agent_hook (su_in su) (su_out su) (su_stale su) (su_sock su) (su_conn su)
        event_loop_new (a, []);
  q ← deref (report_queue a);
  let q := set_loop (su_loop su) q in
  let w := set_agent (Agent (r_lb a) (dns_queue a) (Some q)) w in
  Ret (set_callback q (su_evfd su) new_report_request_fn w).

(** ** The process *)
Inductive thread := UdpThread (i : nat) | ReportThread | DnsThread.

#[global] Instance thread_eq_dec : EqDecision thread.
Proof. solve_decision. Defined.

(** What [main] does after [init_lb_agent]: starting a thread ([start_UDP_servers],
    [start_report_client], [start_dns_client]) and creating a queue. *)
Inductive main_action := Start (t : thread) | NewReportQueue | NewDnsQueue.

#[global] Instance main_action_eq_dec : EqDecision main_action.
Proof. solve_decision. Defined.

Definition start_UDP_servers : list main_action := (fun i => Start (UdpThread i)) <$> [0; 1; 2]%nat.
Definition start_report_client : list main_action := [Start ReportThread].
Definition start_dns_client : list main_action := [Start DnsThread].

Definition main_actions : list main_action :=
  start_UDP_servers ++ [NewReportQueue] ++ start_report_client ++ [NewDnsQueue] ++ start_dns_client.

(** A client thread that runs its loop. *)
Record client := Client {
  cl_cli : TcpClient.tcp_client agent_hook agent_msg unit;
  cl_loop : loop;
  cl_evfd : Z
}.

(** A UDP server thread that runs its loop: its [udp_server], its loop and what it has sent. *)
Record server := Server {
  se_udp : Udp.udp agent_cb nat AD;
  se_loop : event_loop K unit unit TF;
  se_sent : list (option AD * list byte)
}.

Record system := System {
  sy_agent : agent E;
  sy_main : list main_action;
  sy_threads : list thread;
  sy_dns : option client;
  sy_rep : option client;
  sy_udp : gmap nat server
}.

Definition system_init : system := System agent_init main_actions [] None None ∅.

Definition set_agt (a : agent E) (s : system) : system :=
  System a (sy_main s) (sy_threads s) (sy_dns s) (sy_rep s) (sy_udp s).

(** [pthread_create] with result [ret], the check of it, and [pthread_detach], which needs
    the thread that only a successful creation has given. *)
Definition start_thread (ret : Z) (t : thread) (ts : list thread) : res (list thread) :=
  if bool_decide (ret = -1) then Stop (Exit 1)
  else if bool_decide (ret = 0) then Ret (t :: ts) else Stop Undefined.

(** The next action of [main]. *)
Definition main_step (ret : Z) (s : system) : res system :=
  match sy_main s with
  | [] => Ret s
  | act :: rest =>
      let a := sy_agent s in
      match act with
      | Start t =>
          ts ← start_thread ret t (sy_threads s);
          Ret (System a rest ts (sy_dns s) (sy_rep s) (sy_udp s))
      | NewReportQueue =>
          Ret (System (Agent (r_lb a) (dns_queue a) (Some thread_queue_new)) rest (sy_threads s) (sy_dns s) (sy_rep s) (sy_udp s))
      | NewDnsQueue =>
          Ret (System (Agent (r_lb a) (Some thread_queue_new) (report_queue a)) rest (sy_threads s) (sy_dns s) (sy_rep s) (sy_udp s))
      end
  end.

Inductive event :=
| EvMain (ret : Z)
| EvServer (i : nat) (sig : bool) (sock : Z) (zero : AD) (raw : list byte * list byte)
| EvServe (i : nat) (from : AD) (pkt : list byte) (inp : inputs)
| EvSetup (t : thread) (su : setup)
| EvFire (t : thread) (fd events : Z) (io : io_results) (inps : list inputs).

(** The client of a thread. *)
Definition client_of (t : thread) (s : system) : option client :=
  match t with DnsThread => sy_dns s | ReportThread => sy_rep s | UdpThread _ => None end.

(** The state after a step of the client thread [t] with result [w]. *)
Definition put_client (t : thread) (evfd : Z) (w : cworld) (s : system) : system :=
  let c := Some (Client (cw_cli w) (cw_loop w) evfd) in
  match t with
  | DnsThread => System (cw_user w).1 (sy_main s) (sy_threads s) c (sy_rep s) (sy_udp s)
  | ReportThread => System (cw_user w).1 (sy_main s) (sy_threads s) (sy_dns s) c (sy_udp s)
  | UdpThread _ => set_agt (cw_user w).1 s
  end.

(** The state after a step of the UDP server [i] with result [w]. *)
Definition put_server (i : nat) (w : Udp.uworld K agent_cb nat TF AD (agent E * list inputs)) (s : system) : system :=
  System (uw_user w).1 (sy_main s) (sy_threads s) (sy_dns s) (sy_rep s)
    (<[i := Server (uw_udp w) (uw_loop w) (uw_sent w)]> (sy_udp s)).

Definition client_thread (t : thread) (su : setup) (a : agent E) : res cworld :=
  match t with
  | DnsThread => dns_client_thread su a
  | ReportThread => report_client_thread su a
  | UdpThread _ => Stop NoReturn
  end.

Definition fire_client (io : io_results) (fd events : Z) (w : cworld) : res cworld :=
  fire cw_loop (fun l => TcpClient.upd_loop (fun _ => l)) (run_loop_fn io) (fd, events) w.

(** A step.  A readable UDP socket is handled datagram by datagram: [do_read] on several of them is
    these steps in a row. *)
Definition step (e : event) (s : system) : res system :=
  match e with
  | EvMain ret => main_step ret s
  | EvServer i sig sock zero raw =>
      w ← agent_server_main sig sock zero raw i (sy_agent s, []);
      Ret (put_server i w s)
  | EvServe i from pkt inp =>
      sv ← deref (sy_udp s !! i);
      w ← server_do_read (run_agent_msg cfg) [inl (from, pkt); inr EAGAIN]
            (UWorld (se_udp sv) (se_loop sv) (se_sent sv) (sy_agent s, [inp]));
      Ret (put_server i w s)
  | EvSetup t su =>
      w ← client_thread t su (sy_agent s);
      Ret (put_client t (su_evfd su) w s)
  | EvFire t fd events io inps =>
      c ← deref (client_of t s);
      w ← fire_client io fd events (CWorld (cl_cli c) (cl_loop c) (sy_agent s, inps));
      Ret (put_client t (cl_evfd c) w s)
  end.
End Threads.

Arguments system : clear implicits.
Arguments client : clear implicits.
Arguments server : clear implicits.
Arguments event : clear implicits.

(** ** What every run keeps *)
Section Runs.
Context {E : Type} `{!EventFd E} {K : Type} `{!Epoll K} `{!Protobuf} {TF AD : Type}.
Context (wide : Z -> Z -> Z) (cfg : Config).
Abbreviation cworld := (TcpClient.cworld K agent_hook agent_msg unit queue_fn TF (agent E * list inputs)).
Abbreviation aworld := (Udp.uworld K agent_cb nat TF AD (agent E * list inputs)).
Implicit Types (a : agent E) (s : system E K TF AD) (w : cworld) (c : client K TF).

(** The blocks of the buffers have their size, and two open descriptors differ. *)
Definition setup_ok (su : setup) : Prop :=
  zlen (su_in su) = CLIENT_BUF /\ zlen (su_out su) = CLIENT_BUF /\ su_sock su <> su_evfd su.

(** When an event can happen: a thread runs once it is started, a server or a client is set up
    once and works after that, the kernel reports what is registered, and reports an eventfd readable and
    nothing else. *)
Definition enabled (e : event AD) s : Prop :=
  match e with
  | EvMain _ => True
  | EvServer i _ _ _ raw => UdpThread i ∈ sy_threads s /\ sy_udp s !! i = None /\ zlen raw.1 = UDP_BUF /\ zlen raw.2 = UDP_BUF
  | EvServe i _ _ _ => is_Some (sy_udp s !! i)
  | EvSetup t su => t ∈ sy_threads s /\ client_of t s = None /\ setup_ok su
  | EvFire t fd events _ _ => exists c, client_of t s = Some c /\ can_fire (cl_loop c) fd events /\
      (fd = cl_evfd c -> has events EPOLLIN = true)
  end.

(** The states of the runs in which [fine] holds of the agent whenever the DNS client
    finds its delayed connection established. *)
Definition resets_when (fine : agent E -> Prop) (e : event AD) s : Prop :=
  match e with
  | EvFire DnsThread _ _ io _ => io_error io = 0 -> fine (sy_agent s)
  | _ => True
  end.

Inductive agent_reach (fine : agent E -> Prop) : system E K TF AD -> Prop :=
| reach_init : agent_reach fine system_init
| reach_step e s s' : agent_reach fine s -> enabled e s -> resets_when fine e s -> step wide cfg e s = Ret s' ->
    agent_reach fine s'.

(** ** One method of a balancer *)

(** A callback of a UDP server is one method of its balancer. *)
Lemma serve_step cb inp data i a ans a' :
  serve cfg cb inp data i a = Ret (ans, a') ->
  exists r op reqs r' reps, r_lb a !! i = Some r /\ op <> RReset /\ rlb_step wide cfg op r = Ret (reqs, r') /\
    put_rlb i r' reqs reps a = Ret a'.
Proof.
  assert (forall r, rlb_at (Z.of_nat i) a = Ret r -> r_lb a !! i = Some r) as Hat.
  { intros r. unfold rlb_at. case_bool_decide; [|done]. rewrite Nat2Z.id. apply deref_Ret. }
  destruct cb; unfold serve, run_get_host, run_report, run_get_route; cbv zeta; intros Hx.
  - apply bind_Ret in Hx as ([body a1] & Hy & [= _ <-]). apply bind_Ret in Hy as (r & Hr & Hx).
    apply bind_Ret in Hx as ([[[ret rsp] reqs] r'] & Hg & Hx). apply bind_Ret in Hx as (a2 & Hp & [= _ <-]).
    set (q := parse data : GetHostRequest) in *.
    exists r, (RGetHost (new_lb inp) (t_now inp) (hq_modid q) (hq_cmdid q) (MkHostRsp 0 (hq_modid q) (hq_cmdid q) 0 None)), reqs, r', [].
    split_and!; [by apply Hat|done|simpl; by rewrite Hg|done].
  - apply bind_Ret in Hx as (a1 & Hy & [= _ <-]). apply bind_Ret in Hy as (r & Hr & Hx).
    apply bind_Ret in Hx as ([reps r'] & Hg & Hp).
    exists r, (RReport (t_now inp) (t_set inp) (t_commit inp) (parse data)), [], r', reps.
    split_and!; [by apply Hat|done|simpl; by rewrite Hg|done].
  - apply bind_Ret in Hx as ([body a1] & Hy & [= _ <-]). apply bind_Ret in Hy as (r & Hr & Hx).
    apply bind_Ret in Hx as ([[[ret rsp] reqs] r'] & Hg & Hx). apply bind_Ret in Hx as (a2 & Hp & [= _ <-]).
    set (q := parse data : GetRouteRequest) in *.
    exists r, (RGetRoute (new_lb inp) (t_now inp) (rq_modid q) (rq_cmdid q) (MkRouteRsp (rq_modid q) (rq_cmdid q) [])), reqs, r', [].
    split_and!; [by apply Hat|done|simpl; by rewrite Hg|done].
Qed.

Lemma route_step inp data a a' :
  deal_recv_route wide cfg inp data a = Ret a' ->
  exists i r op r', r_lb a !! i = Some r /\ op <> RReset /\ rlb_step wide cfg op r = Ret ([], r') /\
    put_rlb i r' [] [] a = Ret a'.
Proof.
  unfold deal_recv_route. cbv zeta. set (q := parse data : GetRouteResponse).
  intros (index & _ & Hx)%bind_Ret. apply bind_Ret in Hx as (r & Hr & Hx). apply bind_Ret in Hx as ([x r'] & Hu & Hp).
  exists (Z.to_nat index), r, (RUpdate (new_host inp) (t_now inp) (rr_modid q) (rr_cmdid q) q), r'.
  split_and!; [|done| |done].
  - unfold rlb_at in Hr. case_bool_decide; [|done]. by apply deref_Ret in Hr.
  - simpl. by rewrite Hu.
Qed.

(** Only a method that sends a route request adds a balancer. *)
Lemma step_unmapped op r r' :
  _route_lb_map r = ∅ -> rlb_step wide cfg op r = Ret ([], r') -> _route_lb_map r' = ∅.
Proof.
  intros Hm. destruct op; simpl.
  - unfold get_host. cbv zeta. by rewrite Hm, lookup_empty.
  - unfold update_host. cbv zeta. rewrite Hm, lookup_empty. by intros [= <-].
  - unfold report_host. cbv zeta. rewrite Hm, lookup_empty. by intros [= <-].
  - unfold get_route. cbv zeta. by rewrite Hm, lookup_empty.
  - intros [= <-]. simpl. by rewrite Hm, fmap_empty.
Qed.

(** ** The agent *)
Definition queue_ok {T} (q : option (thread_queue E T)) : Prop := forall q', q = Some q' -> wakes q'.

(** Every balancer satisfies [R]; there are three; the queues wake their threads; and
    before there is a DNS queue there are no balancers. *)
Record agent_ok (R : route_lb -> Prop) a : Prop := {
  ao_rlb : Forall R (r_lb a);
  ao_three : length (r_lb a) = 3%nat;
  ao_dns : queue_ok (dns_queue a);
  ao_report : queue_ok (report_queue a);
  ao_early : dns_queue a = None -> Forall (fun r => _route_lb_map r = ∅) (r_lb a)
}.

(** The queues that exist stay. *)
Definition queues_le a a' : Prop :=
  (is_Some (dns_queue a) <-> is_Some (dns_queue a')) /\ (is_Some (report_queue a) <-> is_Some (report_queue a')).

Lemma send_all_ok {T} (ts : list T) (q q' : option (thread_queue E T)) :
  queue_ok q -> send_all ts q = Ret q' -> queue_ok q' /\ (is_Some q <-> is_Some q') /\ (q = None -> ts = []).
Proof.
  intros Hq. unfold send_all. destruct ts as [|t ts]; [by intros [= <-]|].
  intros (q0 & Hd & Hs)%bind_Ret. injection Hs as <-. apply deref_Ret in Hd as ->.
  split; [|split; [split; intros _; by eexists|discriminate]].
  intros q' [= <-]. specialize (Hq q0 eq_refl). apply (wakes_send t) in Hq. revert Hq. generalize (send t q0).
  induction ts as [|x l IH]; intros q1 Hq; [done|]. simpl. by apply IH, wakes_send.
Qed.

Lemma put_rlb_inv R i r op reqs r' reps a a' :
  agent_ok R a -> r_lb a !! i = Some r -> rlb_step wide cfg op r = Ret (reqs, r') -> R r' ->
  put_rlb i r' reqs reps a = Ret a' -> agent_ok R a' /\ queues_le a a'.
Proof.
  intros [HR H3 Hd Hr He] Hi Hs Hr' Hp. unfold put_rlb in Hp. apply bind_Ret in Hp as (dq & Hdq & Hp).
  apply bind_Ret in Hp as (rq & Hrq & Hp). injection Hp as <-.
  apply send_all_ok in Hdq as (Hdq & Hds & Hdn); [|done]. apply send_all_ok in Hrq as (Hrq & Hrs & _); [|done].
  split; [|done]. split; cbn [r_lb dns_queue report_queue]; [|by rewrite length_insert|done|done|].
  - by apply Forall_insert.
  - intros ->. assert (dns_queue a = None) as Hn.
    { destruct (dns_queue a); [|done]. destruct Hds as [[? ?] _]; [by eexists|done]. }
    apply Forall_insert; [by apply He|]. rewrite (Hdn Hn) in Hs. eapply step_unmapped; [|exact Hs].
    exact (proj1 (list.Forall_lookup _ _) (He Hn) i r Hi).
Qed.

(** ** The client threads

    [R] is a property of balancers that their methods keep, and that a reset keeps
    where [fine] holds. *)
Section Inv.
Context (R : route_lb -> Prop) (fine : agent E -> Prop).
Context (R_new : forall id, R (route_lb_new id)).
Context (R_step : forall op r reqs r', R r -> op <> RReset -> rlb_step wide cfg op r = Ret (reqs, r') -> R r').
Context (R_reset : forall a r, fine a -> r ∈ r_lb a -> R r -> R (reset_lb_status r)).

Lemma queues_le_trans a1 a2 a3 : queues_le a1 a2 -> queues_le a2 a3 -> queues_le a1 a3.
Proof. intros [H1 H2] [H3 H4]. split; by etrans. Qed.

Lemma serve_inv cb inp data i a ans a' :
  agent_ok R a -> serve cfg cb inp data i a = Ret (ans, a') -> agent_ok R a' /\ queues_le a a'.
Proof.
  intros Ha (r & op & reqs & r' & reps & Hi & Hop & Hs & Hp)%serve_step.
  eapply put_rlb_inv; [done..| |done]. eapply R_step; [|done..].
  exact (proj1 (list.Forall_lookup _ _) (ao_rlb _ _ Ha) i r Hi).
Qed.

Lemma route_inv inp data a a' :
  agent_ok R a -> deal_recv_route wide cfg inp data a = Ret a' -> agent_ok R a' /\ queues_le a a'.
Proof.
  intros Ha (i & r & op & r' & Hi & Hop & Hs & Hp)%route_step.
  eapply put_rlb_inv; [done..| |done]. eapply R_step; [|done..].
  exact (proj1 (list.Forall_lookup _ _) (ao_rlb _ _ Ha) i r Hi).
Qed.

Lemma conn_init_inv a : fine a -> agent_ok R a -> agent_ok R (conn_init a).
Proof.
  intros Hf [HR H3 Hd Hr He]. split; cbn [conn_init r_lb dns_queue report_queue]; [|by rewrite length_fmap|done..|].
  - apply Forall_fmap, list.Forall_forall. intros r Hin. apply (R_reset a); [done..|].
    exact (proj1 (list.Forall_forall _ _) HR r Hin).
  - intros Hn. apply Forall_fmap. eapply Forall_impl; [by apply He|]. intros r Hm. simpl. by rewrite Hm, fmap_empty.
Qed.

(** The function a thread has on its eventfd, and its start hook. *)
Definition queue_fn_of (t : thread) : queue_fn :=
  match t with DnsThread => new_dns_request_fn | _ => new_report_request_fn end.
Definition hook_of (t : thread) : option agent_hook :=
  match t with DnsThread => Some conn_init_hook | _ => None end.

(** A client thread that has started from agent [a]: its output buffer is well-formed,
    its loop knows the socket and the eventfd only, and has the callback of the queue
    on the latter. *)
Record thread_ok (t : thread) (evfd : Z) a w : Prop := {
  to_agent : agent_ok R (cw_user w).1;
  to_queues : queues_le a (cw_user w).1;
  to_out : buf_wf (_obuf (cw_cli w)) /\ b_head (_obuf (cw_cli w)) = 0;
  to_close : _conn_close_cb (cw_cli w) = None;
  to_start : _conn_start_cb (cw_cli w) = hook_of t;
  to_sock : _cli_sockfd (cw_cli w) <> evfd;
  to_evs fd e : _io_evs (cw_loop w) !! fd = Some e -> fd = evfd \/ fd = _cli_sockfd (cw_cli w);
  to_wake : exists e, _io_evs (cw_loop w) !! evfd = Some e /\
    EventLoop.read_callback e = Some (AppFn (queue_fn_of t)) /\ rcb_args e = Some tt
}.

Lemma add_evs fd cb m args (l : event_loop K (loop_fn queue_fn) unit TF) :
  exists e, _io_evs (add_io_event fd cb m args l) = <[fd := e]> (_io_evs l).
Proof.
  unfold add_io_event. case_bool_decide; destruct (epoll_ctl _ _ _ _); by eexists.
Qed.

(** A change of the client and the loop that leaves alone what [thread_ok] reads. *)
Lemma thread_ok_loop t evfd a w l :
  thread_ok t evfd a w ->
  (forall fd e, _io_evs l !! fd = Some e -> fd = _cli_sockfd (cw_cli w) \/ _io_evs (cw_loop w) !! fd = Some e) ->
  _io_evs l !! evfd = _io_evs (cw_loop w) !! evfd ->
  thread_ok t evfd a (TcpClient.upd_loop (fun _ => l) w).
Proof.
  intros [] Hsub Heq. split; try done; simpl.
  - intros fd e [->|He]%Hsub; [by right|eauto].
  - by rewrite Heq.
Qed.

Lemma thread_ok_del t evfd a w :
  thread_ok t evfd a w -> thread_ok t evfd a (TcpClient.upd_loop (del_io_event (_cli_sockfd (cw_cli w))) w).
Proof.
  intros Hw. apply (thread_ok_loop t evfd a w (del_io_event (_cli_sockfd (cw_cli w)) (cw_loop w)) Hw); simpl.
  - intros fd e [_ ?]%lookup_delete_Some. by right.
  - apply lookup_delete_ne, (to_sock _ _ _ _ Hw).
Qed.

Lemma thread_cli_inv t evfd a : cli_inv (run_route_msg wide cfg) (thread_ok t evfd a).
Proof.
  split.
  - intros w b []. by split.
  - intros w b []. by split.
  - intros w b [] Hb Hh. by split.
  - intros w Hw. apply (to_out _ _ _ _ Hw).
  - intros w cb m Hw _. destruct (add_evs (_cli_sockfd (cw_cli w)) (Some (ClientFn cb)) m (Some tt) (cw_loop w)) as [e He].
    apply (thread_ok_loop t evfd a w (add_io_event (_cli_sockfd (cw_cli w)) _ m (Some tt) (cw_loop w)) Hw); rewrite He.
    + intros fd e' [[-> _]|[_ ?]]%lookup_insert_Some; auto.
    + apply lookup_insert_ne, (to_sock _ _ _ _ Hw).
  - intros w. apply thread_ok_del.
  - intros w m Hw. unfold TcpClient.upd_loop, del_io_event_mask.
    case_bool_decide; [|by destruct w]. case_bool_decide; [by apply thread_ok_del|].
    apply (thread_ok_loop t evfd a w (EventLoop _ _ _ _) Hw); simpl; [auto|done].
  - intros w Hw. apply (to_close _ _ _ _ Hw).
  - intros [] data len id ud w w' Hw. unfold run_route_msg. destruct (cw_user w) as [a1 [|inp rest]] eqn:Eu; [done|].
    intros (a2 & Hd & Hr)%bind_Ret. injection Hr as <-.
    pose proof (to_agent _ _ _ _ Hw) as Ha. pose proof (to_queues _ _ _ _ Hw) as Hq. rewrite Eu in Ha, Hq.
    apply route_inv in Hd as [Ha2 Hq2]; [|done]. destruct Hw. split; try done. by eapply queues_le_trans.
Qed.

Lemma send_each_inv {M ok} `{!Codec M ok} id (ms : list M) t evfd a w :
  thread_ok t evfd a w ->
  exists w', send_each id ms w = Ret w' /\ thread_ok t evfd a w' /\ cw_user w' = cw_user w.
Proof.
  revert w. induction ms as [|m ms IH]; intros w Hw; simpl; [by exists w|].
  destruct (send_message_inv _ _ (thread_cli_inv t evfd a) (serialize m) id w Hw) as (r & w1 & -> & Hw1 & Hu).
  cbn [mbind res_mbind]. destruct (IH w1 Hw1) as (w' & -> & Hw' & Hu'). exists w'. by rewrite Hu', Hu.
Qed.

Lemma dns_fn_inv t evfd a w q :
  thread_ok t evfd a w -> dns_queue (cw_user w).1 = Some q ->
  exists w' q', new_dns_request w = Ret w' /\ thread_ok t evfd a w' /\
    dns_queue (cw_user w').1 = Some q' /\ _queue q' = [].
Proof.
  intros Hw Hq. unfold new_dns_request. rewrite Hq. cbn [mbind res_mbind deref recv].
  set (w1 := set_agent _ w). destruct (send_each_inv ID_GetRouteRequest (_queue q) t evfd a w1) as (w' & -> & Hw' & Hu).
  - destruct Hw as [[] [Hl1 Hl2]]. split; try done.
    + split; try done. cbn. intros q' [= <-]. apply wakes_recv.
    + split; cbn; [|done]. rewrite Hl1, Hq. split; intros _; by eexists.
  - exists w'. rewrite Hu. by eexists.
Qed.

Lemma report_fn_inv t evfd a w q :
  thread_ok t evfd a w -> report_queue (cw_user w).1 = Some q ->
  exists w' q', new_report_request w = Ret w' /\ thread_ok t evfd a w' /\
    report_queue (cw_user w').1 = Some q' /\ _queue q' = [].
Proof.
  intros Hw Hq. unfold new_report_request. rewrite Hq. cbn [mbind res_mbind deref recv].
  set (w1 := set_agent _ w). destruct (send_each_inv ID_ReportStatusRequest (_queue q) t evfd a w1) as (w' & -> & Hw' & Hu).
  - destruct Hw as [[] [Hl1 Hl2]]. split; try done.
    + split; try done. cbn. intros q' [= <-]. apply wakes_recv.
    + split; cbn; [done|]. rewrite Hl2, Hq. split; intros _; by eexists.
  - exists w'. rewrite Hu. by eexists.
Qed.

Lemma run_queue_fn_inv x t evfd a w w' :
  thread_ok t evfd a w -> run_queue_fn x w = Ret w' -> thread_ok t evfd a w'.
Proof.
  intros Hw. destruct x; simpl.
  - destruct (dns_queue (cw_user w).1) as [q|] eqn:Hq; [|unfold new_dns_request; by rewrite Hq].
    destruct (dns_fn_inv t evfd a w q Hw Hq) as (w1 & _ & -> & Hw1 & _). by intros [= <-].
  - destruct (report_queue (cw_user w).1) as [q|] eqn:Hq; [|unfold new_report_request; by rewrite Hq].
    destruct (report_fn_inv t evfd a w q Hw Hq) as (w1 & _ & -> & Hw1 & _). by intros [= <-].
Qed.

Lemma delay_inv t evfd a w w' result :
  thread_ok t evfd a w -> (hook_of t = Some conn_init_hook -> result = 0 -> fine (cw_user w).1) ->
  TcpClient.run_connection_delay run_agent_hook (_cli_sockfd (cw_cli w)) result w = Ret w' -> thread_ok t evfd a w'.
Proof.
  intros Hw Hf. unfold run_connection_delay. cbv zeta. pose proof (thread_ok_del _ _ _ _ Hw) as Hw1.
  case_bool_decide as Hz; [|by intros [= <-]]. set (w1 := TcpClient.upd_loop _ w) in *.
  apply (on_connected_inv run_agent_hook _ _ (thread_cli_inv t evfd a) w1); [done|].
  intros [] w2 w3 Hs Hw2 Hu [= <-]. rewrite (to_start _ _ _ _ Hw1) in Hs. split; [|done].
  assert (agent_ok R (conn_init (cw_user w2).1)) as Ha.
  { apply conn_init_inv; [rewrite Hu; by apply Hf|]. apply (to_agent _ _ _ _ Hw2). }
  destruct Hw2. by split.
Qed.

Lemma run_loop_fn_inv io f fd args t evfd a w w' :
  thread_ok t evfd a w -> (f = ClientFn connection_delay -> fd = _cli_sockfd (cw_cli w)) ->
  (hook_of t = Some conn_init_hook -> io_error io = 0 -> fine (cw_user w).1) ->
  run_loop_fn wide cfg io f fd args w = Ret w' -> thread_ok t evfd a w'.
Proof.
  intros Hw Hfd Hf. unfold run_loop_fn. intros (_ & _ & Hrun)%bind_Ret.
  destruct f as [[]|x].
  - apply bind_Ret in Hrun as ([r w1] & Hrun & [= <-]). eapply do_read_inv; [apply thread_cli_inv|done|exact Hrun].
  - apply bind_Ret in Hrun as ([r w1] & Hrun & [= <-]). eapply do_write_inv; [apply thread_cli_inv|done|exact Hrun].
  - rewrite (Hfd eq_refl) in Hrun. by eapply delay_inv.
  - by eapply run_queue_fn_inv.
Qed.

Lemma fire_inv io fd events t evfd a w w' :
  thread_ok t evfd a w -> (fd = evfd -> has events EPOLLIN = true) ->
  (hook_of t = Some conn_init_hook -> io_error io = 0 -> fine (cw_user w).1) ->
  fire_client wide cfg io fd events w = Ret w' -> thread_ok t evfd a w'.
Proof.
  intros Hw Hev Hf. unfold fire_client, fire. destruct (_io_evs (cw_loop w) !! fd) as [e|] eqn:He; [|done].
  destruct (to_wake _ _ _ _ Hw) as (e' & He' & Hcb & _).
  assert (fd = _cli_sockfd (cw_cli w) \/ fd = evfd /\ EventLoop.read_callback e = Some (AppFn (queue_fn_of t))) as Hfd.
  { destruct (to_evs _ _ _ _ Hw fd e He) as [->|]; [|by left]. right. rewrite He in He'. by injection He' as ->. }
  destruct (has events EPOLLIN) eqn:Hin.
  - destruct (EventLoop.read_callback e) as [f|]; [|done]. apply run_loop_fn_inv; [done| |done].
    intros ->. by destruct Hfd as [|[_ ?]].
  - assert (fd = _cli_sockfd (cw_cli w)) as -> by (destruct Hfd as [|[-> _]]; [done|specialize (Hev eq_refl); congruence]).
    destruct (has events EPOLLOUT).
    + destruct (EventLoop.write_callback e) as [f|]; [|done]. by apply run_loop_fn_inv.
    + case_match; intros [= <-]; [|done]. by apply thread_ok_del.
Qed.

(** A new client, and the registration of its queue. *)
Lemma client_new_inv su a w :
  tcp_client_new run_agent_hook (su_in su) (su_out su) (su_stale su) (su_sock su) (su_conn su)
    event_loop_new (a, []) = Ret w ->
  cw_user w = (a, []) /\ _obuf (cw_cli w) = io_buf_new CLIENT_BUF (su_out su) /\
  _conn_close_cb (cw_cli w) = None /\ _conn_start_cb (cw_cli w) = None /\
  _cli_sockfd (cw_cli w) = su_sock su /\
  (forall fd e, _io_evs (cw_loop w) !! fd = Some e -> fd = su_sock su).
Proof.
  assert (forall cb m fd e, _io_evs (add_io_event (su_sock su) (Some (ClientFn cb)) m (Some tt)
    (event_loop_new : event_loop K (loop_fn queue_fn) unit TF)) !! fd = Some e -> fd = su_sock su) as Hadd.
  { intros cb m fd e. destruct (add_evs (su_sock su) (Some (ClientFn cb)) m (Some tt) event_loop_new) as [e' ->].
    intros [[-> _]|[_ Hl]]%lookup_insert_Some; [done|]. simpl in Hl. by rewrite lookup_empty in Hl. }
  unfold tcp_client_new, do_connect. case_bool_decide; [done|].
  destruct (su_conn su) as [u|[]]; cbn; try done; intros [= <-]; split_and!; try done; simpl; eauto.
Qed.

Lemma queue_registered t su a w :
  agent_ok R a -> setup_ok su -> cw_user w = (a, []) -> _obuf (cw_cli w) = io_buf_new CLIENT_BUF (su_out su) ->
  _conn_close_cb (cw_cli w) = None -> _conn_start_cb (cw_cli w) = hook_of t -> _cli_sockfd (cw_cli w) = su_sock su ->
  (forall fd e, _io_evs (cw_loop w) !! fd = Some e -> fd = su_sock su) ->
  thread_ok t (su_evfd su) a
    (TcpClient.upd_loop (add_io_event (su_evfd su) (Some (AppFn (queue_fn_of t))) EPOLLIN (Some tt)) w).
Proof.
  intros Ha (_ & Ho & Hne) Hu Hob Hcl Hst Hs Hev.
  assert (exists e, _io_evs (add_io_event (su_evfd su) (Some (AppFn (queue_fn_of t))) EPOLLIN (Some tt) (cw_loop w)) =
    <[su_evfd su := e]> (_io_evs (cw_loop w)) /\ EventLoop.read_callback e = Some (AppFn (queue_fn_of t)) /\
    rcb_args e = Some tt) as (e & He & Hcb & Hargs).
  { unfold add_io_event. case_bool_decide; destruct (epoll_ctl _ _ _ _); by eexists. }
  split; cbn [TcpClient.upd_loop cw_cli cw_loop cw_user]; rewrite ?Hu, ?Hob, ?Hs; try done.
  - rewrite He. intros fd e' [[-> _]|[_ Hl]]%lookup_insert_Some; [by left|]. right. by eapply Hev.
  - rewrite He. exists e. by rewrite lookup_insert_eq.
Qed.

(** Changing the loop a queue is bound to. *)
Lemma bind_queue_ok a dq rq :
  agent_ok R a -> dns_queue a = Some dq ->
  agent_ok R (Agent (r_lb a) (Some (set_loop rq dq)) (report_queue a)) /\
  queues_le a (Agent (r_lb a) (Some (set_loop rq dq)) (report_queue a)).
Proof.
  intros [HR H3 Hd Hr He] Hq. split; [split; try done|].
  - intros q [= <-]. exact (Hd dq Hq).
  - split; cbn; [|done]. rewrite Hq. split; intros _; by eexists.
Qed.

Lemma bind_report_ok a dq rq :
  agent_ok R a -> report_queue a = Some dq ->
  agent_ok R (Agent (r_lb a) (dns_queue a) (Some (set_loop rq dq))) /\
  queues_le a (Agent (r_lb a) (dns_queue a) (Some (set_loop rq dq))).
Proof.
  intros [HR H3 Hd Hr He] Hq. split; [split; try done|].
  - intros q [= <-]. exact (Hr dq Hq).
  - split; cbn; [done|]. rewrite Hq. split; intros _; by eexists.
Qed.

Lemma thread_ok_from t evfd a a' w : queues_le a a' -> thread_ok t evfd a' w -> thread_ok t evfd a w.
Proof. intros Hl []. split; try done. by eapply queues_le_trans. Qed.

(** The set-up of a thread. *)
Lemma setup_inv t su a w :
  agent_ok R a -> setup_ok su -> client_thread t su a = Ret w -> thread_ok t (su_evfd su) a w.
Proof.
  intros Ha Hsu. destruct t as [i| |]; [done|..]; cbn [client_thread]; intros (w0 & Hnew & Hrun)%bind_Ret;
    apply client_new_inv in Hnew as (Hu & Ho & Hcl & Hst & Hs & Hev);
    apply bind_Ret in Hrun as (q & Hq & Hrun); apply deref_Ret in Hq; injection Hrun as <-.
  - destruct (bind_report_ok a q (su_loop su) Ha Hq) as [Ha1 Hl].
    eapply thread_ok_from; [exact Hl|]. apply (queue_registered ReportThread); try done. cbn. by rewrite Hu.
  - destruct (bind_queue_ok a q (su_loop su) Ha Hq) as [Ha1 Hl].
    eapply thread_ok_from; [exact Hl|].
    apply (queue_registered DnsThread su _ (set_conn_start (Some conn_init_hook)
      (TcpClient.add_msg_router ID_GetRouteResponse deal_recv_route_cb None
        (set_agent (Agent (r_lb a) (Some (set_loop (su_loop su) q)) (report_queue a)) w0)))); try done. cbn. by rewrite Hu.
Qed.

(** ** The UDP servers *)

(** The callback of a message of the agent's protocol, and the request in a datagram. *)
Definition agent_route (id : Z) : option agent_cb :=
  if bool_decide (id = ID_GetHostRequest) then Some get_host_cb
  else if bool_decide (id = ID_ReportRequest) then Some report_cb
  else if bool_decide (id = ID_API_GetRouteRequest) then Some get_route_cb else None.
Definition request (pkt : list byte) : option (agent_cb * list byte) :=
  '(id, body) ← Udp.parse pkt; cb ← agent_route id; Some (cb, body).

(** A server that [agent_server_main] has set up: three balancers, so three servers. *)
Record server_ok (i : nat) (sv : server K TF AD) : Prop := {
  so_index : (i < 3)%nat;
  so_bufs : zlen (_read_buf (se_udp sv)) = UDP_BUF /\ zlen (_write_buf (se_udp sv)) = UDP_BUF;
  so_router id : route (_udp_router (se_udp sv)) id = (fun cb => (cb, Some i)) <$> agent_route id
}.

Lemma server_main_ok i sig sock (zero : AD) raw a (w : aworld) :
  (i < 3)%nat -> zlen raw.1 = UDP_BUF -> zlen raw.2 = UDP_BUF ->
  agent_server_main (K := K) (TF := TF) sig sock zero raw i (a, []) = Ret w ->
  (uw_user w).1 = a /\ server_ok i (Server (uw_udp w) (uw_loop w) (uw_sent w)).
Proof.
  intros Hi H1 H2. unfold agent_server_main, udp_server_new. destruct sig; [|done]. cbn [negb].
  case_bool_decide; [done|]. cbn [mbind res_mbind]. intros [= <-]. split; [done|]. split; [done|done|].
  intros id. cbn [se_udp uw_udp Udp.add_msg_router upd_udp _udp_router]. unfold agent_route.
  rewrite !route_register by (rewrite ?route_register; done).
  do 3 (case_bool_decide; [subst; repeat (rewrite bool_decide_eq_false_2 by done); done|]). done.
Qed.

(** One datagram: a request is served, and the answer sent; anything else changes nothing but
    the read buffer and the noted sender. *)
Lemma datagram_served i from pkt inp sv a :
  server_ok i sv ->
  exists u0, server_ok i (Server u0 (se_loop sv) (se_sent sv)) /\
    server_do_read (run_agent_msg cfg) [inl (from, pkt); inr EAGAIN] (UWorld (se_udp sv) (se_loop sv) (se_sent sv) (a, [inp])) =
    match request pkt with
    | None => Ret (UWorld u0 (se_loop sv) (se_sent sv) (a, [inp]))
    | Some (cb, body) =>
        '(answer, a) ← serve cfg cb inp body i a;
        match answer with
        | Some (id, ans) => '(_, w) ← Udp.send_message (r_sendto inp) ans id (UWorld u0 (se_loop sv) (se_sent sv) (a, [])); Ret w
        | None => Ret (UWorld u0 (se_loop sv) (se_sent sv) (a, []))
        end
    end.
Proof.
  intros [Hi [Hb1 Hb2] Hro]. set (w := UWorld _ _ _ _). assert (udp_wf w) as Hwf by (by split).
  unfold request. destruct (Udp.parse pkt) as [[id body]|] eqn:Hp; cbn [mbind option_bind].
  - destruct (server_read_cons (run_agent_msg cfg) from pkt [inr EAGAIN] w id body Hwf Hp) as (buf & Hbuf & ->). cbv zeta.
    exists (set_client_addr from (set_read_buf buf (se_udp sv))). split; [by split|]. unfold call. cbn [w uw_udp]. rewrite Hro.
    destruct (agent_route id) as [cb|]; cbn [fmap option_fmap option_map mbind option_bind]; [|done].
    assert (forall X : res aworld, (w ← X; server_do_read (run_agent_msg cfg) [inr EAGAIN] w) = X) as -> by (by intros []). reflexivity.
  - destruct (server_read_bad (run_agent_msg cfg) from pkt [inr EAGAIN] w Hwf Hp) as (buf & Hbuf & ->).
    exists (set_client_addr from (set_read_buf buf (se_udp sv))). split; [by split|]. done.
Qed.

(** ** The process *)

(** What [main] has done: the threads it has started and the queues that exist. *)
Definition progress (acts : list main_action) s : Prop :=
  acts ++ sy_main s = main_actions /\
  (forall t, t ∈ sy_threads s -> Start t ∈ acts) /\
  (is_Some (dns_queue (sy_agent s)) <-> NewDnsQueue ∈ acts) /\
  (is_Some (report_queue (sy_agent s)) <-> NewReportQueue ∈ acts).

Definition has_queue (t : thread) a : Prop :=
  match t with DnsThread => is_Some (dns_queue a) | _ => is_Some (report_queue a) end.

Record sys_inv s : Prop := {
  si_agent : agent_ok R (sy_agent s);
  si_main : exists acts, progress acts s;
  si_client t c : client_of t s = Some c -> has_queue t (sy_agent s) /\
    thread_ok t (cl_evfd c) (sy_agent s) (CWorld (cl_cli c) (cl_loop c) (sy_agent s, []));
  si_udp i sv : sy_udp s !! i = Some sv -> server_ok i sv
}.

Lemma sys_inv_init : sys_inv system_init.
Proof.
  split.
  - split; try done; intros; repeat constructor; apply R_new.
  - exists []. refine (conj _ (conj _ (conj _ _))); [done|..]; cbn.
    + intros t Ht. by apply not_elem_of_nil in Ht.
    + split; [by intros []|]. intros Hn. by apply not_elem_of_nil in Hn.
    + split; [by intros []|]. intros Hn. by apply not_elem_of_nil in Hn.
  - intros [] c; done.
  - intros i sv Hi. cbn in Hi. by rewrite lookup_empty in Hi.
Qed.

Lemma thread_ok_agent t evfd a1 a2 w u :
  thread_ok t evfd a1 w -> agent_ok R a2 -> thread_ok t evfd a2 (CWorld (cw_cli w) (cw_loop w) (a2, u)).
Proof. intros [] Ha. by split. Qed.

Lemma has_queue_le t a a' : queues_le a a' -> has_queue t a -> has_queue t a'.
Proof. intros [H1 H2]. destruct t; simpl; by rewrite ?H1, ?H2. Qed.

(** A step that changes the agent, and nothing else of [s]. *)
Lemma sys_inv_agent a s :
  sys_inv s -> agent_ok R a -> queues_le (sy_agent s) a -> sys_inv (set_agt a s).
Proof.
  intros [_ (acts & Hm & Ht & Hd & Hr) Hc Hsv] Ha Hl. split; [done| | |done].
  - exists acts. destruct Hl as [H1 H2]. refine (conj _ (conj _ (conj _ _))); try done; cbn; by rewrite <-?H1, <-?H2.
  - intros t c Htc. assert (client_of t s = Some c) as Htc' by (by destruct t).
    destruct (Hc t c Htc') as [Hq Hok]. split; [by eapply has_queue_le|].
    by apply (thread_ok_agent _ _ _ a) with (u := []) in Hok.
Qed.

Lemma sys_inv_main ret s s' : sys_inv s -> main_step ret s = Ret s' -> sys_inv s'.
Proof.
  intros [Ha (acts & Hm & Ht & Hd & Hr) Hc Hsv]. unfold main_step.
  destruct (sy_main s) as [|act rest] eqn:Em; [intros [= <-]; split; eauto; exists acts; refine (conj _ (conj _ (conj _ _))); by rewrite ?Em|].
  assert (forall x, x ∈ acts ++ [act] <-> x ∈ acts \/ x = act) as Hin
    by (intros x; by rewrite elem_of_app, list_elem_of_singleton).
  assert ((acts ++ [act]) ++ rest = main_actions) as Hm' by (by rewrite <-app_assoc).
  destruct act as [t| |]; cbv zeta.
  - unfold start_thread. case_bool_decide; [done|]. case_bool_decide; [|done]. cbn [mbind res_mbind]. intros [= <-].
    split; [done| |done|done]. exists (acts ++ [Start t]). refine (conj _ (conj _ (conj _ _))); [done|..]; cbn.
    + intros t' Ht'. apply Hin. apply elem_of_cons in Ht' as [->|Ht']; [by right|left; auto].
    + rewrite Hin, Hd. split; [by left|by intros [|]].
    + rewrite Hin, Hr. split; [by left|by intros [|]].
  - intros [= <-]. assert (agent_ok R (Agent (r_lb (sy_agent s)) (dns_queue (sy_agent s)) (Some thread_queue_new))) as Ha'.
    { destruct Ha. split; try done. intros q [= <-]. apply wakes_new. }
    split; [done| | |done].
    + exists (acts ++ [NewReportQueue]). refine (conj _ (conj _ (conj _ _))); [done|..]; cbn.
      * intros t' Ht'. apply Hin. left. auto.
      * rewrite Hin, Hd. split; [by left|by intros [|]].
      * rewrite Hin. split; [by right|by eexists].
    + intros t c Htc. assert (client_of t s = Some c) as Htc' by (by destruct t).
      destruct (Hc t c Htc') as [Hq Hok]. split; [|by apply (thread_ok_agent _ _ _ _ _ [] Hok Ha')].
      destruct t; cbn in Hq |- *; by eauto.
  - intros [= <-]. assert (agent_ok R (Agent (r_lb (sy_agent s)) (Some thread_queue_new) (report_queue (sy_agent s)))) as Ha'.
    { destruct Ha. split; try done. intros q [= <-]. apply wakes_new. }
    split; [done| | |done].
    + exists (acts ++ [NewDnsQueue]). refine (conj _ (conj _ (conj _ _))); [done|..]; cbn.
      * intros t' Ht'. apply Hin. left. auto.
      * rewrite Hin. split; [by right|by eexists].
      * rewrite Hin, Hr. split; [by left|by intros [|]].
    + intros t c Htc. assert (client_of t s = Some c) as Htc' by (by destruct t).
      destruct (Hc t c Htc') as [Hq Hok]. split; [|by apply (thread_ok_agent _ _ _ _ _ [] Hok Ha')].
      destruct t; cbn in Hq |- *; by eauto.
Qed.

(** A step of a client thread. *)
Lemma sys_inv_client t evfd w s :
  sys_inv s -> client_of t s <> None \/ has_queue t (sy_agent s) ->
  thread_ok t evfd (sy_agent s) w -> sys_inv (put_client t evfd w s).
Proof.
  intros Hs Hq Hw. assert (has_queue t (cw_user w).1) as Hq'.
  { eapply has_queue_le; [apply (to_queues _ _ _ _ Hw)|]. destruct Hq as [Hn|]; [|done].
    destruct (client_of t s) as [c|] eqn:Hc; [|done]. exact (proj1 (si_client _ Hs t c Hc)). }
  pose proof (sys_inv_agent (cw_user w).1 s Hs (to_agent _ _ _ _ Hw) (to_queues _ _ _ _ Hw)) as [H1 H2 H3 H4].
  assert (forall c, Some (Client (cw_cli w) (cw_loop w) evfd) = Some c -> has_queue t (cw_user w).1 /\
    thread_ok t (cl_evfd c) (cw_user w).1 (CWorld (cl_cli c) (cl_loop c) ((cw_user w).1, []))) as Hnew.
  { intros c [= <-]. split; [done|]. by apply (thread_ok_agent _ _ _ _ _ [] Hw H1). }
  destruct t as [i| |]; cbn [put_client]; [done|..]; (split; [done|done| |done]);
    intros [i| |] c Hc; first [done|exact (Hnew c Hc)|exact (H3 DnsThread c Hc)|exact (H3 ReportThread c Hc)].
Qed.

Lemma started_udp i s : sys_inv s -> UdpThread i ∈ sy_threads s -> (i < 3)%nat.
Proof.
  intros [_ (acts & Hm & Ht & _) _ _] Hi. apply Ht in Hi.
  assert (Start (UdpThread i) ∈ main_actions) as Hin by (rewrite <-Hm; apply elem_of_app; by left).
  clear -Hin. unfold main_actions, start_UDP_servers in Hin. cbn in Hin.
  repeat (apply elem_of_cons in Hin as [Heq|Hin]; [by simplify_eq; lia|]). by apply not_elem_of_nil in Hin.
Qed.

(** A step of a UDP server. *)
Lemma sys_inv_server i (w : aworld) s :
  sys_inv s -> agent_ok R (uw_user w).1 -> queues_le (sy_agent s) (uw_user w).1 ->
  server_ok i (Server (uw_udp w) (uw_loop w) (uw_sent w)) -> sys_inv (put_server i w s).
Proof.
  intros Hs Ha Hl Hok. destruct (sys_inv_agent (uw_user w).1 s Hs Ha Hl) as [H1 H2 H3 H4]. split; [done|done|done|].
  intros j sv. cbn [put_server sy_udp]. rewrite lookup_insert. case_decide as Ej; [subst j; by intros [= <-]|apply H4].
Qed.

Lemma serve_datagram_inv i from pkt inp sv a (w : aworld) :
  agent_ok R a -> server_ok i sv ->
  server_do_read (run_agent_msg cfg) [inl (from, pkt); inr EAGAIN] (UWorld (se_udp sv) (se_loop sv) (se_sent sv) (a, [inp])) = Ret w ->
  agent_ok R (uw_user w).1 /\ queues_le a (uw_user w).1 /\ server_ok i (Server (uw_udp w) (uw_loop w) (uw_sent w)).
Proof.
  intros Ha Hok. destruct (datagram_served i from pkt inp sv a Hok) as (u0 & Hok0 & ->).
  destruct (request pkt) as [[cb body]|]; [|by intros [= <-]].
  intros ([ans a'] & Hserve & Hr)%bind_Ret. apply serve_inv in Hserve as [Ha' Hl]; [|done].
  destruct ans as [[id ans]|]; [|by injection Hr as <-].
  set (w0 := UWorld u0 _ _ _) in Hr. assert (udp_wf w0) as Hwf by (apply Hok0).
  destruct (udp_send_cases (r_sendto inp) ans id w0 Hwf) as [[_ Hs]|(_ & n & w' & Hs & Hwf' & Hu & Hro)]; rewrite Hs in Hr; [done|].
  cbn [mbind res_mbind] in Hr. injection Hr as <-. rewrite Hu. split; [done|]. split; [done|].
  split; [apply Hok0|exact Hwf'|]. intros id'. cbn [se_udp]. rewrite Hro. apply Hok0.
Qed.

Lemma sys_inv_step e s s' :
  sys_inv s -> enabled e s -> resets_when fine e s -> step wide cfg e s = Ret s' -> sys_inv s'.
Proof.
  intros Hs Hen Hf. destruct e as [ret|i sig sock zero raw|i from pkt inp|t su|t fd events io inps]; cbn [step].
  - by apply sys_inv_main.
  - intros (w & Hw & [= <-])%bind_Ret. destruct Hen as (Ht & _ & Hb1 & Hb2).
    apply server_main_ok in Hw as [Hu Hok]; [|by eapply started_udp|done|done].
    apply sys_inv_server; [done|by rewrite Hu; apply (si_agent _ Hs)|by rewrite Hu|done].
  - intros (sv & Hsv%deref_Ret & Hr)%bind_Ret. apply bind_Ret in Hr as (w & Hw & [= <-]).
    destruct (serve_datagram_inv i from pkt inp sv (sy_agent s) w (si_agent _ Hs) (si_udp _ Hs i sv Hsv) Hw) as (Ha & Hl & Hok).
    by apply sys_inv_server.
  - intros (w & Hw & [= <-])%bind_Ret. destruct Hen as (_ & _ & Hsu).
    apply sys_inv_client; [done| |by apply setup_inv; [apply (si_agent _ Hs)|..]]. right.
    destruct t as [i| |]; cbn [client_thread] in Hw; [done|..];
      apply bind_Ret in Hw as (w0 & _ & Hw); apply bind_Ret in Hw as (q & Hq & _); apply deref_Ret in Hq; cbn; by eexists.
  - intros (c & Hc & Hrun)%bind_Ret. apply deref_Ret in Hc. apply bind_Ret in Hrun as (w & Hw & [= <-]).
    destruct Hen as (c' & Hc' & _ & Hev). rewrite Hc in Hc'. injection Hc' as <-.
    apply sys_inv_client; [done|left; by rewrite Hc|]. destruct (si_client _ Hs t c Hc) as [_ Hok].
    apply (thread_ok_agent _ _ _ (sy_agent s) _ inps) in Hok; [|apply (si_agent _ Hs)].
    eapply fire_inv; [exact Hok|done| |exact Hw]. intros Hh Hz. destruct t; try done. by apply Hf.
Qed.

Lemma agent_reach_inv s : agent_reach fine s -> sys_inv s.
Proof. induction 1; [apply sys_inv_init|by eapply sys_inv_step]. Qed.
End Inv.

(** ** Starting up *)
Lemma any_reach_inv s : agent_reach (fun _ => True) s -> sys_inv (fun _ => True) s.
Proof. by apply agent_reach_inv. Qed.

Lemma rlb_present R i a : agent_ok R a -> (i < 3)%nat -> exists r, r_lb a !! i = Some r /\ R r.
Proof.
  intros Ha Hi. destruct (lookup_lt_is_Some_2 (r_lb a) i) as [r Hr]; [by rewrite (ao_three _ _ Ha)|].
  exists r. split; [done|]. exact (proj1 (list.Forall_lookup _ _) (ao_rlb _ _ Ha) i r Hr).
Qed.

(** (C20) A request that comes too early kills the agent: the UDP servers are started before
    [main] creates the DNS queue, and until it has, in every reachable state, any datagram that is a
    request for a host or a route, on a server that is up, dereferences the null queue. *)
Theorem early_request_crashes i from pkt inp cb body s :
  agent_reach (fun _ => True) s -> is_Some (sy_udp s !! i) -> NewDnsQueue ∈ sy_main s ->
  request pkt = Some (cb, body) -> cb <> report_cb ->
  step wide cfg (EvServe i from pkt inp) s = Stop NullDeref.
Proof.
  intros Hs%any_reach_inv [sv Hsv] Hmain Hreq Hcb. pose proof (si_udp _ _ Hs i sv Hsv) as Hok. pose proof (so_index _ _ Hok) as Hi3.
  pose proof (si_agent _ _ Hs) as Ha. destruct (rlb_present _ i _ Ha Hi3) as (r & Hr & _).
  assert (dns_queue (sy_agent s) = None) as Hn.
  { destruct (si_main _ _ Hs) as (acts & Hm & _ & Hd & _). destruct (dns_queue (sy_agent s)) eqn:Eq; [|done]. exfalso.
    assert (NewDnsQueue ∈ acts) as Hin by (apply Hd; by eexists).
    assert (NoDup main_actions) as Hnd by (by apply (bool_decide_eq_true_1 (NoDup main_actions))).
    rewrite <-Hm in Hnd. apply NoDup_app in Hnd as (_ & Hnd & _). by eapply Hnd. }
  assert (_route_lb_map r = ∅) as Hm by exact (proj1 (list.Forall_lookup _ _) (ao_early _ _ Ha Hn) i r Hr).
  cbn [step]. rewrite Hsv. cbn [mbind res_mbind deref].
  destruct (datagram_served i from pkt inp sv (sy_agent s) Hok) as (u0 & _ & ->). rewrite Hreq.
  destruct cb; [| done|]; cbn [serve]; unfold run_get_host, run_get_route; cbv zeta;
    rewrite (rlb_at_ok _ _ _ Hi3 Hr); cbn [mbind res_mbind].
  - rewrite get_host_new by (by rewrite Hm). cbn [mbind res_mbind]. unfold put_rlb, send_all. by rewrite Hn.
  - unfold get_route. cbv zeta. rewrite Hm, lookup_empty. cbn [pull mbind res_mbind]. unfold put_rlb, send_all. by rewrite Hn.
Qed.

(** ** Serving *)
Definition has_hosts a : Prop := forall r key lb, r ∈ r_lb a -> _route_lb_map r !! key = Some lb -> empty lb = false.

Lemma reset_keeps a r : has_hosts a -> r ∈ r_lb a -> rlb_ok r -> rlb_ok (reset_lb_status r).
Proof.
  intros Hh Hin Hr key lb. simpl. rewrite lookup_fmap.
  destruct (_route_lb_map r !! key) as [lb0|] eqn:El; [|done]. simpl. intros [= <-].
  destruct (Hr key lb0 El) as [Hi _]. pose proof (Hh r key lb0 Hin El) as He. unfold reset_one.
  case_bool_decide; [|by rewrite He]. split; [by apply lb_inv_status|]. change (empty (set_status NEW lb0)) with (empty lb0). by rewrite He.
Qed.

Lemma good_reach_inv s : agent_reach has_hosts s -> sys_inv rlb_ok s.
Proof.
  apply agent_reach_inv; [apply rlb_ok_new| |apply reset_keeps].
  intros op r reqs r' Hr Hop Hs. destruct (rlb_step_ok wide cfg op r Hr Hop) as (q & r1 & Hs1 & Hr1).
  rewrite Hs in Hs1. by injection Hs1 as <- <-.
Qed.

Lemma serve_total cb inp data i a r dq rq :
  (i < 3)%nat -> r_lb a !! i = Some r -> rlb_ok r -> dns_queue a = Some dq -> report_queue a = Some rq ->
  exists ans a', serve cfg cb inp data i a = Ret (ans, a').
Proof.
  intros Hi Hr Hok Hd Hq. destruct cb; unfold serve, run_get_host, run_report, run_get_route; cbv zeta;
    rewrite (rlb_at_ok _ _ _ Hi Hr); cbn [mbind res_mbind].
  - set (q := parse data : GetHostRequest).
    destruct (rlb_step_ok wide cfg (RGetHost (new_lb inp) (t_now inp) (hq_modid q) (hq_cmdid q)
      (MkHostRsp 0 (hq_modid q) (hq_cmdid q) 0 None)) r Hok) as (reqs & r' & Hs & _); [done|].
    cbn [rlb_step] in Hs. apply bind_Ret in Hs as ([[[ret rsp] reqs'] r1] & -> & _). cbn [mbind res_mbind].
    rewrite (put_rlb_ok _ _ _ _ _ dq rq) by done. by eexists _, _.
  - destruct (rlb_step_ok wide cfg (RReport (t_now inp) (t_set inp) (t_commit inp) (parse data)) r Hok)
      as (reqs & r' & Hs & _); [done|].
    cbn [rlb_step] in Hs. apply bind_Ret in Hs as ([reps r1] & -> & _). cbn [mbind res_mbind].
    rewrite (put_rlb_ok _ _ _ _ _ dq rq) by done. by eexists _, _.
  - set (q := parse data : GetRouteRequest).
    destruct (rlb_step_ok wide cfg (RGetRoute (new_lb inp) (t_now inp) (rq_modid q) (rq_cmdid q)
      (MkRouteRsp (rq_modid q) (rq_cmdid q) [])) r Hok) as (reqs & r' & Hs & _); [done|].
    cbn [rlb_step] in Hs. apply bind_Ret in Hs as ([[[ret rsp] reqs'] r1] & -> & _). cbn [mbind res_mbind].
    rewrite (put_rlb_ok _ _ _ _ _ dq rq) by done. by eexists _, _.
Qed.

(** (C2) The agent keeps serving: once [main] has finished its start-up, in every run in which
    the DNS client comes up only while every known service has hosts (otherwise [reset_aborts]), every
    datagram on every server that is up, a request of any kind or garbage, is handled to its end, the
    answer sent included, whatever the threads have done before; with one exception, which is a
    defect of the UDP server: an answer whose body has 65520 to 65527 bytes passes the
    length check of [send_message] and overruns its buffer. *)
Theorem agent_serves i from pkt inp s :
  agent_reach has_hosts s -> sy_main s = [] -> is_Some (sy_udp s !! i) ->
  (exists s', step wide cfg (EvServe i from pkt inp) s = Ret s' /\ agent_reach has_hosts s') \/
  (step wide cfg (EvServe i from pkt inp) s = Stop OutOfBounds /\
   exists cb body id ans a', request pkt = Some (cb, body) /\ serve cfg cb inp body i (sy_agent s) = Ret (Some (id, ans), a') /\
     65520 <= zlen ans <= 65527).
Proof.
  intros Hreach Hmain [sv Hsv]. pose proof (good_reach_inv s Hreach) as Hs. pose proof (si_udp _ _ Hs i sv Hsv) as Hok.
  pose proof (so_index _ _ Hok) as Hi3. destruct (rlb_present _ i _ (si_agent _ _ Hs) Hi3) as (r & Hr & Hrok).
  destruct (si_main _ _ Hs) as (acts & Hm & _ & Hd & Hq). rewrite Hmain, app_nil_r in Hm. subst acts.
  destruct Hd as [_ [dq Hd]]; [by apply (bool_decide_eq_true_1 (NewDnsQueue ∈ main_actions))|].
  destruct Hq as [_ [rq Hq]]; [by apply (bool_decide_eq_true_1 (NewReportQueue ∈ main_actions))|].
  assert (forall w : aworld, server_do_read (run_agent_msg cfg) [inl (from, pkt); inr EAGAIN]
      (UWorld (se_udp sv) (se_loop sv) (se_sent sv) (sy_agent s, [inp])) = Ret w ->
    exists s', step wide cfg (EvServe i from pkt inp) s = Ret s' /\ agent_reach has_hosts s') as Hret.
  { intros w Hw. exists (put_server i w s). assert (step wide cfg (EvServe i from pkt inp) s = Ret (put_server i w s)) as Hstep.
    { cbn [step]. rewrite Hsv. cbn [mbind res_mbind deref]. by rewrite Hw. }
    split; [done|]. apply (reach_step _ (EvServe i from pkt inp) s); [done|by eexists|done|done]. }
  destruct (datagram_served i from pkt inp sv (sy_agent s) Hok) as (u0 & Hok0 & Hrun).
  destruct (request pkt) as [[cb body]|]; [|left; by eapply Hret].
  destruct (serve_total cb inp body i (sy_agent s) r dq rq) as (ans & a' & Hserve); [done..|].
  rewrite Hserve in Hrun. cbn [mbind res_mbind] in Hrun. destruct ans as [[id ans]|]; [|left; by eapply Hret].
  set (w0 := UWorld u0 _ _ _) in Hrun. assert (udp_wf w0) as Hwf by (apply Hok0).
  destruct (udp_send_cases (r_sendto inp) ans id w0 Hwf) as [[Hlen Hsend]|(_ & n & w' & Hsend & _)];
    rewrite Hsend in Hrun; cbn [mbind res_mbind] in Hrun; [right|left; by eapply Hret].
  split; [cbn [step]; rewrite Hsv; cbn [mbind res_mbind deref]; by rewrite Hrun|].
  exists cb, body, id, ans, a'. split_and!; try done; unfold UDP_BUF, MESSAGE_LENGTH_LIMIT, MESSAGE_HEAD_LEN in Hlen; lia.
Qed.

(** ** Forwarding *)

(** (C19) No route request is left behind: in every reachable state in which the DNS client
    runs, its queue exists, its eventfd is readable while a request waits, also one sent
    before the client was there, and when the loop reports the eventfd readable
    the client takes everything off the queue and returns; the same holds of the reporter
    client and the status reports. *)
Theorem agent_wakes s c events io inps :
  agent_reach (fun _ => True) s -> has events EPOLLIN = true ->
  (sy_dns s = Some c -> exists q, dns_queue (sy_agent s) = Some q /\
     (_queue q <> [] -> 0 < evfd_value (_evfd q)) /\
     exists s' q', step wide cfg (EvFire DnsThread (cl_evfd c) events io inps) s = Ret s' /\
       dns_queue (sy_agent s') = Some q' /\ _queue q' = []) /\
  (sy_rep s = Some c -> exists q, report_queue (sy_agent s) = Some q /\
     (_queue q <> [] -> 0 < evfd_value (_evfd q)) /\
     exists s' q', step wide cfg (EvFire ReportThread (cl_evfd c) events io inps) s = Ret s' /\
       report_queue (sy_agent s') = Some q' /\ _queue q' = []).
Proof.
  intros Hs%any_reach_inv Hin. pose proof (si_agent _ _ Hs) as Ha. split; intros Hc.
  - destruct (si_client _ _ Hs DnsThread c Hc) as [[q Hq] Hok]. exists q. split; [done|].
    split; [by apply (ao_dns _ _ Ha q Hq)|].
    apply (thread_ok_agent _ _ _ _ (sy_agent s) _ inps) in Hok; [|done].
    destruct (to_wake _ _ _ _ _ Hok) as (e & He & Hcb & Hargs). cbn [cw_loop cw_cli] in He, Hok.
    destruct (dns_fn_inv (fun _ => True) ltac:(done) _ _ _ _ q Hok Hq) as (w' & q' & Hrun & _ & Hq' & Hem).
    exists (put_client DnsThread (cl_evfd c) w' s), q'. split_and!; [|done|done].
    cbn [step client_of]. rewrite Hc. cbn [mbind res_mbind deref]. unfold fire_client, fire. cbn [cw_loop].
    rewrite He, Hin, Hcb, Hargs. unfold run_loop_fn. cbn [mbind res_mbind deref queue_fn_of run_queue_fn]. by rewrite Hrun.
  - destruct (si_client _ _ Hs ReportThread c Hc) as [[q Hq] Hok]. exists q. split; [done|].
    split; [by apply (ao_report _ _ Ha q Hq)|].
    apply (thread_ok_agent _ _ _ _ (sy_agent s) _ inps) in Hok; [|done].
    destruct (to_wake _ _ _ _ _ Hok) as (e & He & Hcb & Hargs). cbn [cw_loop cw_cli] in He, Hok.
    destruct (report_fn_inv (fun _ => True) ltac:(done) _ _ _ _ q Hok Hq) as (w' & q' & Hrun & _ & Hq' & Hem).
    exists (put_client ReportThread (cl_evfd c) w' s), q'. split_and!; [|done|done].
    cbn [step client_of]. rewrite Hc. cbn [mbind res_mbind deref]. unfold fire_client, fire. cbn [cw_loop].
    rewrite He, Hin, Hcb, Hargs. unfold run_loop_fn. cbn [mbind res_mbind deref queue_fn_of run_queue_fn]. by rewrite Hrun.
Qed.
End Runs.

(** ** Concrete runs *)
Module RunDemo.
Definition sys := system Z (gmap Z Z) unit Z.
Definition block : list byte := replicate (Z.to_nat CLIENT_BUF) x00.
Lemma block_len : zlen block = CLIENT_BUF.
Proof. unfold zlen, block. rewrite length_replicate. apply Z2Nat.id. discriminate. Qed.

(** The state after an event. *)
Definition after (e : event Z) (s : sys) : sys :=
  match step x86_shl LbDemo.cfg e s with Ret s' => s' | Stop _ => s end.

Definition udp_block : list byte := replicate (Z.to_nat UDP_BUF) x00.
Lemma udp_block_len : zlen udp_block = UDP_BUF.
Proof. unfold zlen, udp_block. rewrite length_replicate. apply Z2Nat.id. discriminate. Qed.
Definition server0 : event Z := EvServer 0 true 5 0 (udp_block, udp_block).
Definition udp_up : sys := after server0 (after (EvMain 0) system_init).
Definition started : sys :=
  after (EvMain 0) (after (EvMain 0) (after (EvMain 0) (after (EvMain 0) (after (EvMain 0) (after (EvMain 0) udp_up))))).

(** A request, and the DNS client that starts after it. *)
Definition first_packet : list byte := frame_bytes ID_GetHostRequest (serialize (MkHostReq 0 1 2)).
Definition first_request : event Z := EvServe 0 10 first_packet demo_inputs.
Definition dns_setup : setup := Setup block block false 4 (inr EINPROGRESS) 3 0.
Definition waiting : sys := after (EvSetup DnsThread dns_setup) (after first_request started).

Lemma after_reach fine e (s : sys) :
  agent_reach x86_shl LbDemo.cfg fine s -> enabled e s -> resets_when fine e s ->
  is_ret (step x86_shl LbDemo.cfg e s) = true -> agent_reach x86_shl LbDemo.cfg fine (after e s).
Proof.
  intros Hs He Hr Hret. apply (reach_step x86_shl LbDemo.cfg fine e s); [done..|]. unfold after.
  by destruct (step x86_shl LbDemo.cfg e s).
Qed.
Lemma main_reach fine (s : sys) :
  agent_reach x86_shl LbDemo.cfg fine s -> is_ret (step x86_shl LbDemo.cfg (EvMain 0) s) = true ->
  agent_reach x86_shl LbDemo.cfg fine (after (EvMain 0) s).
Proof. intros Hs. by apply after_reach. Qed.

Lemma udp_up_reach fine : agent_reach x86_shl LbDemo.cfg fine udp_up.
Proof.
  apply (after_reach fine server0); [..|vm_compute; reflexivity].
  - apply main_reach; [apply reach_init|vm_compute; reflexivity].
  - split; [by apply (bool_decide_eq_true_1 (UdpThread 0 ∈ sy_threads (after (EvMain 0) system_init)))|].
    split; [reflexivity|]. split; apply udp_block_len.
  - exact I.
Qed.
Lemma started_reach fine : agent_reach x86_shl LbDemo.cfg fine started.
Proof. unfold started. do 6 (apply main_reach; [|vm_compute; reflexivity]). apply udp_up_reach. Qed.
Lemma server0_up : is_Some (sy_udp started !! 0%nat) /\ is_Some (sy_udp udp_up !! 0%nat).
Proof. split; eexists; reflexivity. Qed.

Lemma waiting_reach : agent_reach x86_shl LbDemo.cfg (fun _ => True) waiting.
Proof.
  apply (after_reach _ (EvSetup DnsThread dns_setup)); [..|vm_compute; reflexivity].
  - apply (after_reach _ first_request); [apply started_reach|apply server0_up|exact I|vm_compute; reflexivity].
  - assert (bool_decide (DnsThread ∈ sy_threads (after first_request started)) && bool_decide (sy_dns (after first_request started) = None) = true)
      as [H1 H2]%andb_prop by (vm_compute; reflexivity).
    split; [exact (bool_decide_eq_true_1 _ H1)|]. split; [exact (bool_decide_eq_true_1 _ H2)|].
    split; [apply block_len|]. split; [apply block_len|discriminate].
  - exact I.
Qed.

Definition waiting_client : client (gmap Z Z) unit :=
  default (Client (TcpClient.TcpClient false (io_buf_new 0 []) (io_buf_new 0 []) None None msg_router_new 0) event_loop_new 0)
    (sy_dns waiting).
Lemma waiting_dns : sy_dns waiting = Some waiting_client.
Proof.
  assert (bool_decide (is_Some (sy_dns waiting)) = true) as Hs by (vm_compute; reflexivity).
  apply bool_decide_eq_true_1 in Hs as [c Hc]. unfold waiting_client. by rewrite Hc.
Qed.
Lemma waiting_evfd : cl_evfd waiting_client = 3.
Proof. vm_compute. reflexivity. Qed.
Lemma waiting_dns_queue :
  dns_queue (sy_agent waiting) = Some (send (MkRouteReq 1 2) (set_loop 0 thread_queue_new)).
Proof. vm_compute. reflexivity. Qed.
End RunDemo.
Import RunDemo.

Lemma early_request_crashes_witness :
  step x86_shl LbDemo.cfg (EvServe 0 10 first_packet demo_inputs) udp_up = Stop NullDeref.
Proof.
  apply (early_request_crashes x86_shl LbDemo.cfg 0 10 first_packet demo_inputs get_host_cb (serialize (MkHostReq 0 1 2)) udp_up).
  - apply udp_up_reach.
  - apply server0_up.
  - apply (bool_decide_eq_true_1 (NewDnsQueue ∈ sy_main udp_up)). reflexivity.
  - vm_compute. reflexivity.
  - discriminate.
Defined.

Lemma agent_serves_witness :
  exists s', step x86_shl LbDemo.cfg first_request started = Ret s' /\ agent_reach x86_shl LbDemo.cfg has_hosts s'.
Proof.
  destruct (agent_serves x86_shl LbDemo.cfg 0 10 first_packet demo_inputs started) as [Hok|[Hstop _]].
  - apply started_reach.
  - reflexivity.
  - apply server0_up.
  - exact Hok.
  - exfalso. assert (is_ret (step x86_shl LbDemo.cfg first_request started) = true) as Hr by (vm_compute; reflexivity).
    unfold first_request in Hr. rewrite Hstop in Hr. discriminate Hr.
Defined.

(** The request was queued before the client ran; the client is woken for it. *)
Lemma agent_wakes_witness :
  exists c q, sy_dns waiting = Some c /\ dns_queue (sy_agent waiting) = Some q /\ _queue q = [MkRouteReq 1 2] /\
    0 < evfd_value (_evfd q) /\
    exists s' q', step x86_shl LbDemo.cfg (EvFire DnsThread 3 EPOLLIN (IoResults None [] [] 0) []) waiting = Ret s' /\
      dns_queue (sy_agent s') = Some q' /\ _queue q' = [].
Proof.
  destruct (agent_wakes x86_shl LbDemo.cfg waiting waiting_client EPOLLIN (IoResults None [] [] 0) [] waiting_reach eq_refl)
    as [Hd _].
  destruct (Hd waiting_dns) as (q & Hq & Hw & Hrun). rewrite waiting_dns_queue in Hq. injection Hq as Hq. subst q.
  exists waiting_client, (send (MkRouteReq 1 2) (set_loop 0 thread_queue_new)). rewrite waiting_evfd in Hrun.
  split; [exact waiting_dns|]. split; [exact waiting_dns_queue|]. split; [reflexivity|]. split; [reflexivity|exact Hrun].
Defined.
