(* ===== verification/LrlbApi.v ===== *)
(** * lrlb_client: the C++ API (api/cpp/lrlb_api/lrlb_api.h, lrlb_api.cpp)

    A client talks to the three UDP servers of the local agent over connected
    blocking sockets.  An address is its 32-bit [s_addr] value, of which the
    strings of the interface are the dotted form.  What [sendto] and [recvfrom]
    return is an argument of the model; a call that still waits for a datagram
    when they are used up has not returned. *)

From S2P Require Import Prelude.
From S2P Require Import Message.
From S2P Require Import Udp.
From S2P Require Import EventLoop.
From S2P Require Import ThreadPool.
From S2P Require Import Proto.
From S2P Require Import LoadBalance.
From S2P Require Import RouteLb.
From S2P Require Import Agent.

Definition WRITE_BUF : Z := 4096.

Section Api.
Context `{!Protobuf}.

(** [class lrlb_client]. *)
Record lrlb_client := Client { _sockfd : list Z; _seqid : Z }.

(** [lrlb_client::lrlb_client]; the results of [socket] and [connect], one pair per
    server. *)
Fixpoint open_sockets (rs : list (Z * Z)) : res (list Z) :=
  match rs with
  | [] => Ret []
  | (sock, conn) :: rs =>
      if bool_decide (sock = -1) then Stop (Exit 1)
      else if bool_decide (conn = -1) then Stop (Exit 1)
      else fds ← open_sockets rs; Ret (sock :: fds)
  end.
Definition lrlb_client_new (r1 r2 r3 : Z * Z) : res lrlb_client :=
  fds ← open_sockets [r1; r2; r3]; Ret (Client fds 0).

(** [_sockfd[(modid + cmdid) % 3]]. *)
Definition sock_of (modid cmdid : Z) (c : lrlb_client) : res Z :=
  index ← agent_index modid cmdid;
  if bool_decide (0 <= index < 3) then deref (_sockfd c !! Z.to_nat index) else Stop OutOfBounds.

(** Header and body in [write_buf]; [SerializeToArray] gets the length and not the
    room. *)
Definition build_packet (id : Z) (body : list byte) : res (list byte) :=
  if bool_decide (zlen body + MESSAGE_HEAD_LEN <= WRITE_BUF) then Ret (frame_bytes id body)
  else Stop OutOfBounds.

(** The receiving loop of [get_host]; [stale] is what [read_buf] holds before.
    [None] is the return of [RET_SYSTEM_ERROR]. *)
Fixpoint recv_host (seq : Z) (ks : list (list byte + errno)) (stale : list byte)
    : res (option GetHostResponse) :=
  match ks with
  | [] => Stop NoReturn
  | inr _ :: _ => Ret None
  | inl pkt :: ks =>
      let buf := pkt ++ drop (length pkt) stale in
      let head := bytes_head (take 8 buf) in
      if bool_decide (msgid head <> ID_GetHostResponse) then Ret None
      else if bool_decide (zlen pkt < MESSAGE_HEAD_LEN) then Stop Undefined
      else
        let body := drop 8 pkt in
        let rsp : GetHostResponse := parse body in
        if negb (parse_ok (M := GetHostResponse) body) then Ret None
        else if bool_decide (hr_seq rsp < seq) then recv_host seq ks buf
        else Ret (Some rsp)
  end.

(** [lrlb_client::get_host]: the return code, the address and port set, the
    datagram sent with its socket, and the client. *)
Definition get_host (sent : Z) (ks : list (list byte + errno)) (stale : list byte)
    (modid cmdid : Z) (c : lrlb_client)
    : res (Z * option (Z * Z) * option (Z * list byte) * lrlb_client) :=
  let seq := _seqid c in
  let c := Client (_sockfd c) (u32 (seq + 1)) in
  pkt ← build_packet ID_GetHostRequest (serialize (MkHostRsp seq modid cmdid 0 None));
  fd ← sock_of modid cmdid c;
  if bool_decide (sent = -1) then Ret (RET_SYSTEM_ERROR, None, None, c)
  else
    r ← recv_host seq ks stale;
    match r with
    | None => Ret (RET_SYSTEM_ERROR, None, Some (fd, pkt), c)
    | Some rsp =>
        if bool_decide (hr_seq rsp <> seq \/ hr_modid rsp <> modid \/ hr_cmdid rsp <> cmdid)
        then Ret (RET_SYSTEM_ERROR, None, Some (fd, pkt), c)
        else
          let h := get_field (hr_host rsp) in
          Ret (hr_retcode rsp,
               (if bool_decide (hr_retcode rsp = 0) then Some (u32 (h_ip h), h_port h) else None),
               Some (fd, pkt), c)
    end.

(** [lrlb_client::report]: the datagram sent with its socket. *)
Definition report (sent modid cmdid ip port retcode : Z) (c : lrlb_client)
    : res (option (Z * list byte)) :=
  pkt ← build_packet ID_GetHostRequest
          (serialize (MkReportReq modid cmdid (Some (MkHostInfo (s32 ip) port)) retcode));
  fd ← sock_of modid cmdid c;
  Ret (if bool_decide (sent = -1) then None else Some (fd, pkt)).

(** [lrlb_client::get_route]: the return code, the hosts added to [route] and the
    results of [recvfrom] that are left. *)
Definition get_route (sent : Z) (ks : list (list byte + errno)) (stale : list byte)
    (modid cmdid : Z) (c : lrlb_client) : res (Z * list (Z * Z) * list (list byte + errno)) :=
  pkt ← build_packet ID_API_GetRouteRequest (serialize (MkRouteReq modid cmdid));
  fd ← sock_of modid cmdid c;
  if bool_decide (sent = -1) then Ret (RET_SYSTEM_ERROR, [], ks)
  else
    match ks with
    | [] => Stop NoReturn
    | inr _ :: ks => Ret (RET_SYSTEM_ERROR, [], ks)
    | inl pkt :: ks =>
        let head := bytes_head (take 8 (pkt ++ drop (length pkt) stale)) in
        if bool_decide (msgid head <> ID_API_GetRouteResponse) then Ret (RET_SYSTEM_ERROR, [], ks)
        else if bool_decide (zlen pkt < MESSAGE_HEAD_LEN) then Stop Undefined
        else
          let body := drop 8 pkt in
          let rsp : GetRouteResponse := parse body in
          if negb (parse_ok (M := GetRouteResponse) body) then Ret (RET_SYSTEM_ERROR, [], ks)
          else if bool_decide (rr_modid rsp <> modid \/ rr_cmdid rsp <> cmdid)
          then Ret (RET_SYSTEM_ERROR, [], ks)
          else Ret (RET_SUCC, (fun h => (u32 (h_ip h), h_port h)) <$> rr_host rsp, ks)
    end.

(** The loop of [reg_init]; [fuel] is 3 minus [retry_cnt]. *)
Fixpoint reg_loop (fuel : nat) (ks : list (list byte + errno)) (stale : list byte)
    (modid cmdid : Z) (c : lrlb_client) : res (list (Z * Z)) :=
  match fuel with
  | O => Ret []
  | S fuel =>
      '(_, route, ks) ← get_route 0 ks stale modid cmdid c;
      if bool_decide (route = []) then reg_loop fuel ks stale modid cmdid c else Ret route
  end.

(** [lrlb_client::reg_init], when every [sendto] succeeds. *)
Definition reg_init (ks : list (list byte + errno)) (stale : list byte) (modid cmdid : Z) (c : lrlb_client)
    : res Z :=
  route ← reg_loop 3 ks stale modid cmdid c;
  Ret (if bool_decide (route = []) then RET_NOEXIST else RET_SUCC).

(** ** Talking to the agent *)

(** The datagram of an agent's answer. *)
Definition answer_packet (rsp : GetHostResponse) : list byte := frame_bytes ID_GetHostResponse (serialize rsp).

Lemma recv_answer seq rsp ks stale :
  HostRsp_ok rsp -> zlen (serialize rsp) < 2147483648 ->
  recv_host seq (inl (answer_packet rsp) :: ks) stale =
  if bool_decide (hr_seq rsp < seq)
  then recv_host seq ks (answer_packet rsp ++ drop (length (answer_packet rsp)) stale)
  else Ret (Some rsp).
Proof.
  intros Hok Hlen. cbn [recv_host]. pose proof (zlen_nonneg (serialize rsp)) as Hnn.
  rewrite bytes_head_prefix.
  2: { pose proof (zlen_frame_bytes ID_GetHostResponse (serialize rsp)) as Hz. unfold answer_packet.
       unfold zlen, MESSAGE_HEAD_LEN in Hz. lia. }
  assert (bytes_head (answer_packet rsp) = MsgHead ID_GetHostResponse (zlen (serialize rsp))) as ->.
  { apply bytes_head_bytes; cbn [msgid msglen]; [done|int_solve]. }
  cbn [msgid]. rewrite bool_decide_eq_false_2 by (by intros []).
  assert (drop 8 (answer_packet rsp) = serialize rsp) as -> by apply drop_head_bytes.
  rewrite parse_serialize, parse_ok_serialize by done. cbn [negb].
  rewrite (bool_decide_eq_false_2 (zlen (answer_packet rsp) < _)); [done|].
  unfold answer_packet. rewrite zlen_frame_bytes. lia.
Qed.

Lemma sock_of_ok modid cmdid c fd :
  0 <= modid + cmdid -> is_s32 (modid + cmdid) ->
  _sockfd c !! Z.to_nat ((modid + cmdid) mod 3) = Some fd -> sock_of modid cmdid c = Ret fd.
Proof.
  intros H0 Hs Hfd. unfold sock_of. rewrite agent_index_ok by done. cbn [mbind res_mbind].
  rewrite bool_decide_eq_true_2 by (apply Z.mod_pos_bound; lia). by rewrite Hfd.
Qed.

(** The first call works: a client that has not called [get_host] before sends
    the request for its ids to the server the ids select, the agent reads exactly
    this request from the datagram, and with the agent's answer the call returns
    its code and, on success, the address and port in it. *)
Theorem api_first_get_host ks stale modid cmdid c fd rsp :
  is_s32 modid -> is_s32 cmdid -> 0 <= modid + cmdid -> is_s32 (modid + cmdid) ->
  _sockfd c !! Z.to_nat ((modid + cmdid) mod 3) = Some fd -> _seqid c = 0 ->
  zlen (serialize (MkHostRsp 0 modid cmdid 0 None)) + MESSAGE_HEAD_LEN <= WRITE_BUF ->
  HostRsp_ok rsp -> hr_seq rsp = 0 -> hr_modid rsp = modid -> hr_cmdid rsp = cmdid ->
  zlen (serialize rsp) < 2147483648 ->
  exists pkt, get_host 0 (inl (answer_packet rsp) :: ks) stale modid cmdid c =
      Ret (hr_retcode rsp,
           (if bool_decide (hr_retcode rsp = 0)
            then Some (u32 (h_ip (get_field (hr_host rsp))), h_port (get_field (hr_host rsp))) else None),
           Some (fd, pkt), Client (_sockfd c) 1) /\
    exists body, Udp.parse pkt = Some (ID_GetHostRequest, body) /\ Proto.parse body = MkHostReq 0 modid cmdid.
Proof.
  intros Hm Hc H0 Hs Hfd Hseq Hfit Hok Hrs Hrm Hrc Hlen.
  exists (frame_bytes ID_GetHostRequest (serialize (MkHostRsp 0 modid cmdid 0 None))). split.
  - unfold get_host, build_packet. rewrite Hseq, (bool_decide_eq_true_2 (_ <= WRITE_BUF)) by done. cbn [mbind res_mbind].
    rewrite (sock_of_ok _ _ _ fd) by done. cbn [mbind res_mbind].
    rewrite (bool_decide_eq_false_2 (0 = -1)) by done. rewrite recv_answer, Hrs by done.
    rewrite (bool_decide_eq_false_2 (0 < 0)) by lia. cbn [mbind res_mbind].
    rewrite Hrs, Hrm, Hrc. rewrite (bool_decide_eq_false_2 (_ \/ _)) by lia. done.
  - eexists. split.
    + apply parse_frame; [done|]. unfold UDP_BUF, MESSAGE_LENGTH_LIMIT, MESSAGE_HEAD_LEN, WRITE_BUF in *. lia.
    + by apply host_req_compat.
Qed.

(** Later calls hang: the agent numbers every answer 0, so from its second call
    on [get_host] drops each answer as outdated and keeps waiting, however many
    answers arrive. *)
Theorem api_later_get_host_hangs answers stale modid cmdid c fd :
  0 <= modid + cmdid -> is_s32 (modid + cmdid) ->
  _sockfd c !! Z.to_nat ((modid + cmdid) mod 3) = Some fd -> 0 < _seqid c ->
  zlen (serialize (MkHostRsp (_seqid c) modid cmdid 0 None)) + MESSAGE_HEAD_LEN <= WRITE_BUF ->
  Forall (fun rsp => HostRsp_ok rsp /\ hr_seq rsp = 0 /\ zlen (serialize rsp) < 2147483648) answers ->
  get_host 0 ((fun rsp => inl (answer_packet rsp)) <$> answers) stale modid cmdid c = Stop NoReturn.
Proof.
  intros H0 Hs Hfd Hseq Hfit Hall. unfold get_host, build_packet.
  rewrite (bool_decide_eq_true_2 (_ <= WRITE_BUF)) by done. cbn [mbind res_mbind].
  rewrite (sock_of_ok _ _ _ fd) by done. cbn [mbind res_mbind]. rewrite (bool_decide_eq_false_2 (0 = -1)) by done.
  assert (recv_host (_seqid c) ((fun rsp => inl (answer_packet rsp)) <$> answers) stale = Stop NoReturn) as ->; [|done].
  revert stale. induction Hall as [|rsp answers (Hok & Hr & Hl) _ IH]; intros stale; [done|].
  rewrite fmap_cons, recv_answer, Hr by done. rewrite bool_decide_eq_true_2 by done. apply IH.
Qed.

(** A report never reaches the balancer: [report] sends its message with the id
    of a host request, so every server of the agent routes it to [get_host_cb]. *)
Theorem api_report_misrouted {E K TF AD} `{!EventFd E} `{!Epoll K}
    modid cmdid ip port retcode c out sig sock (zero : AD) raw index (u : agent E * list inputs)
    (w : Udp.uworld K agent_cb nat TF AD (agent E * list inputs)) :
  report 0 modid cmdid ip port retcode c = Ret (Some out) ->
  agent_server_main sig sock zero raw index u = Ret w ->
  exists id body, Udp.parse out.2 = Some (id, body) /\
    route (Udp._udp_router (Udp.uw_udp w)) id = Some (get_host_cb, Some index).
Proof.
  intros Hrep Hmain. unfold report, build_packet in Hrep. set (b := serialize _) in Hrep.
  destruct (decide (zlen b + MESSAGE_HEAD_LEN <= WRITE_BUF)) as [Hfit|Hfit];
    [rewrite (bool_decide_eq_true_2 _ Hfit) in Hrep|by rewrite (bool_decide_eq_false_2 _ Hfit) in Hrep].
  cbn [mbind res_mbind] in Hrep. destruct (sock_of modid cmdid c) as [fd|]; [|done]. cbn [mbind res_mbind] in Hrep.
  rewrite (bool_decide_eq_false_2 (0 = -1)) in Hrep by done. injection Hrep as <-.
  eexists _, _. split.
  { apply parse_frame; [done|]. unfold UDP_BUF, MESSAGE_LENGTH_LIMIT, MESSAGE_HEAD_LEN, WRITE_BUF in *. lia. }
  unfold agent_server_main, Udp.udp_server_new in Hmain. destruct sig; [|done]. simpl in Hmain.
  case_bool_decide; [done|]. simpl in Hmain. injection Hmain as <-. done.
Qed.

Lemma get_route_answer hs ks stale modid cmdid c fd :
  is_s32 modid -> is_s32 cmdid -> 0 <= modid + cmdid -> is_s32 (modid + cmdid) ->
  _sockfd c !! Z.to_nat ((modid + cmdid) mod 3) = Some fd ->
  zlen (serialize (MkRouteReq modid cmdid)) + MESSAGE_HEAD_LEN <= WRITE_BUF ->
  Forall HostInfo_ok hs -> zlen hs <= MAX_REPEATED ->
  zlen (serialize (MkRouteRsp modid cmdid hs)) < 2147483648 ->
  get_route 0 (inl (frame_bytes ID_API_GetRouteResponse (serialize (MkRouteRsp modid cmdid hs))) :: ks)
    stale modid cmdid c = Ret (RET_SUCC, (fun h => (u32 (h_ip h), h_port h)) <$> hs, ks).
Proof.
  intros Hm Hc H0 Hs Hfd Hfit Hok Hmax Hlen. unfold get_route, build_packet.
  rewrite (bool_decide_eq_true_2 (_ <= WRITE_BUF)) by done. cbn [mbind res_mbind].
  rewrite (sock_of_ok _ _ _ fd) by done. cbn [mbind res_mbind]. rewrite (bool_decide_eq_false_2 (0 = -1)) by done.
  set (body := serialize (MkRouteRsp modid cmdid hs)) in *. pose proof (zlen_nonneg body) as Hnn.
  pose proof (zlen_frame_bytes ID_API_GetRouteResponse body) as Hz.
  rewrite bytes_head_prefix by (unfold zlen, MESSAGE_HEAD_LEN in Hz; lia).
  assert (bytes_head (frame_bytes ID_API_GetRouteResponse body) = MsgHead ID_API_GetRouteResponse (zlen body)) as ->.
  { apply bytes_head_bytes; cbn [msgid msglen]; [done|int_solve]. }
  cbn [msgid]. rewrite bool_decide_eq_false_2 by (by intros []).
  rewrite (bool_decide_eq_false_2 (zlen (frame_bytes _ _) < _)) by lia.
  assert (drop 8 (frame_bytes ID_API_GetRouteResponse body) = body) as -> by apply drop_head_bytes.
  subst body. rewrite parse_serialize, parse_ok_serialize by done. cbn [negb rr_modid rr_cmdid rr_host].
  by rewrite bool_decide_eq_false_2 by naive_solver.
Qed.

(** Registration is bounded: [reg_init] asks at most three times and succeeds
    exactly when one of the first three answers names a host. *)
Theorem reg_init_three a1 a2 a3 ks stale modid cmdid c fd :
  is_s32 modid -> is_s32 cmdid -> 0 <= modid + cmdid -> is_s32 (modid + cmdid) ->
  _sockfd c !! Z.to_nat ((modid + cmdid) mod 3) = Some fd ->
  zlen (serialize (MkRouteReq modid cmdid)) + MESSAGE_HEAD_LEN <= WRITE_BUF ->
  Forall (fun hs => Forall HostInfo_ok hs /\ zlen hs <= MAX_REPEATED /\ zlen (serialize (MkRouteRsp modid cmdid hs)) < 2147483648) [a1; a2; a3] ->
  let pkt hs := frame_bytes ID_API_GetRouteResponse (serialize (MkRouteRsp modid cmdid hs)) in
  reg_init (inl (pkt a1) :: inl (pkt a2) :: inl (pkt a3) :: ks) stale modid cmdid c =
  Ret (if bool_decide (a1 = [] /\ a2 = [] /\ a3 = []) then RET_NOEXIST else RET_SUCC).
Proof.
  intros Hm Hc H0 Hs Hfd Hfit Hall pkt. decompose_Forall_hyps. unfold reg_init, pkt. cbn [reg_loop].
  do 3 (rewrite (get_route_answer _ _ _ _ _ _ fd) by tauto; cbn [mbind res_mbind];
        match goal with |- context [bool_decide (?f <$> ?hs = [])] => destruct hs; simpl fmap end;
        [rewrite (bool_decide_eq_true_2 ([] = [])) by done
        |rewrite (bool_decide_eq_false_2 (_ :: _ = [])) by done; cbn [mbind res_mbind];
         rewrite (bool_decide_eq_false_2 (_ :: _ = [])) by done;
         rewrite bool_decide_eq_false_2 by naive_solver; done]).
  cbn [mbind res_mbind]. rewrite !bool_decide_eq_true_2 by done. done.
Qed.
(** ** Across the datagrams

    A UDP server of the agent that gets a request answers it to the sender. *)
Section Way.
Context {E : Type} `{!EventFd E} {K : Type} `{!Epoll K} {TF AD : Type}.
Context (cfg : Config).
Abbreviation aworld := (Udp.uworld K agent_cb nat TF AD (agent E * list inputs)).

Lemma server_answers (w : aworld) from id data cb i inp rest a rid body a' n :
  udp_wf w -> is_s32 id -> is_s32 rid -> zlen data <= UDP_BUF - MESSAGE_HEAD_LEN -> zlen body <= UDP_BUF - MESSAGE_HEAD_LEN ->
  route (Udp._udp_router (Udp.uw_udp w)) id = Some (cb, Some i) ->
  Udp.uw_user w = (a, inp :: rest) -> r_sendto inp = inl n -> serve cfg cb inp data i a = Ret (Some (rid, body), a') ->
  exists w', Udp.server_do_read (run_agent_msg cfg) [inl (from, frame_bytes id data); inr EAGAIN] w = Ret w' /\
    Udp.uw_sent w' = Udp.uw_sent w ++ [(Some from, frame_bytes rid body)] /\ Udp.uw_user w' = (a', rest) /\ udp_wf w'.
Proof.
  intros Hwf Hid Hrid Hdata Hbody Hro Hu Hn Hserve.
  destruct (server_read_cons (run_agent_msg cfg) from (frame_bytes id data) [inr EAGAIN] w id data Hwf) as (buf & Hbuf & ->);
    [by apply parse_frame|]. unfold call. rewrite Hro. cbn [run_agent_msg mbind res_mbind deref Udp.uw_user Udp.upd_udp]. rewrite Hu, Hserve.
  cbn [mbind res_mbind]. rewrite Hn. set (w1 := Udp.UWorld _ _ _ _).
  assert (udp_wf w1) as Hwf1 by (split; [exact Hbuf|apply Hwf]).
  pose proof (udp_send_roundtrip (fun _ _ _ _ _ _ u => u) body rid n w1 (Udp._udp_router (Udp.uw_udp w)) (a', rest) None Hwf1 Hrid) as Hs.
  rewrite bool_decide_eq_true_2 in Hs by exact Hbody. destruct Hs as (w' & Hsend & Hwf' & Hsent & _).
  assert (Udp.uw_user w' = Udp.uw_user w1) as Hu'.
  { unfold Udp.send_message in Hsend. case_bool_decide; [|res_inv]; by simplify_eq. }
  rewrite Hsend. cbn [mbind res_mbind]. exists w'. split; [done|]. split; [exact Hsent|]. split; [by rewrite Hu'|done].
Qed.

(** (C39) A call and its answer: the first [get_host] of a client puts one datagram on the socket of the
    server its ids select; the server that gets it answers the sender with what its balancer
    has for the service, and this answer makes the call return the code of the balancer
    and, on success, the address and port of the chosen host. *)
Theorem api_get_host_way modid cmdid c fd (w : aworld) from i inp rest a retcode host a' n stale
    (rsp := MkHostRsp 0 modid cmdid retcode host) :
  is_s32 modid -> is_s32 cmdid -> 0 <= modid + cmdid -> is_s32 (modid + cmdid) ->
  _sockfd c !! Z.to_nat ((modid + cmdid) mod 3) = Some fd -> _seqid c = 0 ->
  zlen (serialize (MkHostRsp 0 modid cmdid 0 None)) + MESSAGE_HEAD_LEN <= WRITE_BUF ->
  udp_wf w -> route (Udp._udp_router (Udp.uw_udp w)) ID_GetHostRequest = Some (get_host_cb, Some i) ->
  Udp.uw_user w = (a, inp :: rest) -> r_sendto inp = inl n ->
  run_get_host cfg inp (serialize (MkHostReq 0 modid cmdid)) i a = Ret (serialize rsp, a') ->
  HostRsp_ok rsp -> zlen (serialize rsp) <= UDP_BUF - MESSAGE_HEAD_LEN ->
  exists pkt out w', Udp.server_do_read (run_agent_msg cfg) [inl (from, pkt); inr EAGAIN] w = Ret w' /\
    Udp.uw_sent w' = Udp.uw_sent w ++ [(Some from, out)] /\ Udp.uw_user w' = (a', rest) /\
    get_host 0 [inl out] stale modid cmdid c =
      Ret (retcode, (if bool_decide (retcode = 0) then Some (u32 (h_ip (get_field host)), h_port (get_field host)) else None),
           Some (fd, pkt), Client (_sockfd c) 1).
Proof.
  intros Hm Hc H0 Hs Hfd Hseq Hfit Hwf Hro Hu Hn Hrun Hok Hbody.
  set (data := serialize (MkHostRsp 0 modid cmdid 0 None)) in *.
  assert (serve cfg get_host_cb inp data i a = Ret (Some (ID_GetHostResponse, serialize rsp), a')) as Hserve.
  { cbn [serve]. assert (run_get_host cfg inp data i a = Ret (serialize rsp, a')) as ->; [|done].
    rewrite <-Hrun. unfold run_get_host, data. rewrite host_req_compat, parse_serialize by done. done. }
  destruct (server_answers w from ID_GetHostRequest data get_host_cb i inp rest a ID_GetHostResponse (serialize rsp) a' n)
    as (w' & Hread & Hsent & Hu' & _); try done.
  { unfold UDP_BUF, MESSAGE_LENGTH_LIMIT, MESSAGE_HEAD_LEN, WRITE_BUF in *. lia. }
  eexists _, _, w'. split; [exact Hread|]. split; [exact Hsent|]. split; [exact Hu'|].
  unfold get_host, build_packet. rewrite Hseq. fold data. rewrite (bool_decide_eq_true_2 (_ <= WRITE_BUF)) by done.
  cbn [mbind res_mbind]. rewrite (sock_of_ok _ _ _ fd) by done. cbn [mbind res_mbind].
  rewrite (bool_decide_eq_false_2 (0 = -1)) by done. fold (answer_packet rsp). rewrite recv_answer by
    (try done; unfold UDP_BUF, MESSAGE_LENGTH_LIMIT, MESSAGE_HEAD_LEN in *; lia).
  cbn [hr_seq rsp]. rewrite (bool_decide_eq_false_2 (0 < 0)) by lia. cbn [mbind res_mbind hr_seq hr_modid hr_cmdid hr_retcode hr_host].
  rewrite (bool_decide_eq_false_2 (_ \/ _)) by (unfold rsp; cbn; lia). done.
Qed.

(** The same for [get_route]: the call gets every host the server's balancer manages. *)
Theorem api_get_route_way modid cmdid c fd (w : aworld) from i inp rest a hosts a' n stale
    (rsp := MkRouteRsp modid cmdid hosts) :
  is_s32 modid -> is_s32 cmdid -> 0 <= modid + cmdid -> is_s32 (modid + cmdid) ->
  _sockfd c !! Z.to_nat ((modid + cmdid) mod 3) = Some fd ->
  zlen (serialize (MkRouteReq modid cmdid)) + MESSAGE_HEAD_LEN <= WRITE_BUF ->
  udp_wf w -> route (Udp._udp_router (Udp.uw_udp w)) ID_API_GetRouteRequest = Some (get_route_cb, Some i) ->
  Udp.uw_user w = (a, inp :: rest) -> r_sendto inp = inl n ->
  run_get_route cfg inp (serialize (MkRouteReq modid cmdid)) i a = Ret (serialize rsp, a') ->
  Forall HostInfo_ok hosts -> zlen hosts <= MAX_REPEATED -> zlen (serialize rsp) <= UDP_BUF - MESSAGE_HEAD_LEN ->
  exists pkt out w', build_packet ID_API_GetRouteRequest (serialize (MkRouteReq modid cmdid)) = Ret pkt /\
    Udp.server_do_read (run_agent_msg cfg) [inl (from, pkt); inr EAGAIN] w = Ret w' /\
    Udp.uw_sent w' = Udp.uw_sent w ++ [(Some from, out)] /\ Udp.uw_user w' = (a', rest) /\
    get_route 0 [inl out] stale modid cmdid c = Ret (RET_SUCC, (fun h => (u32 (h_ip h), h_port h)) <$> hosts, []).
Proof.
  intros Hm Hc H0 Hs Hfd Hfit Hwf Hro Hu Hn Hrun Hok Hmax Hbody.
  assert (serve cfg get_route_cb inp (serialize (MkRouteReq modid cmdid)) i a = Ret (Some (ID_API_GetRouteResponse, serialize rsp), a'))
    as Hserve by (cbn [serve]; by rewrite Hrun).
  destruct (server_answers w from ID_API_GetRouteRequest (serialize (MkRouteReq modid cmdid)) get_route_cb i inp rest a
    ID_API_GetRouteResponse (serialize rsp) a' n) as (w' & Hread & Hsent & Hu' & _); try done.
  { unfold UDP_BUF, MESSAGE_LENGTH_LIMIT, MESSAGE_HEAD_LEN, WRITE_BUF in *. lia. }
  eexists _, _, w'. split; [unfold build_packet; by rewrite bool_decide_eq_true_2 by done|].
  split; [exact Hread|]. split; [exact Hsent|]. split; [exact Hu'|].
  unfold rsp. rewrite (get_route_answer _ _ _ _ _ _ fd); try done. unfold UDP_BUF, MESSAGE_LENGTH_LIMIT, MESSAGE_HEAD_LEN in *. fold rsp. lia.
Qed.
End Way.
End Api.

(** ** Concrete calls *)
Definition demo_api (seq : Z) : lrlb_client := Client [3; 4; 5] seq.
Definition demo_rsp : GetHostResponse := MkHostRsp 0 1 2 RET_SUCC (Some (MkHostInfo 167772161 80)).
Lemma demo_rsp_ok : HostRsp_ok demo_rsp.
Proof.
  unfold HostRsp_ok, HostInfo_ok, is_s32, is_u32. simpl. split_and!; try lia; try (unfold RET_SUCC; lia).
  intros h [= <-]. simpl. lia.
Qed.

Lemma api_first_get_host_witness :
  exists pkt, get_host 0 [inl (answer_packet demo_rsp)] [] 1 2 (demo_api 0) =
    Ret (RET_SUCC, Some (167772161, 80), Some (3, pkt), demo_api 1).
Proof.
  destruct (api_first_get_host [] [] 1 2 (demo_api 0) 3 demo_rsp) as (pkt & Hg & _);
    try reflexivity; unfold is_s32; try lia.
  - vm_compute. congruence.
  - apply demo_rsp_ok.
  - exists pkt. exact Hg.
Defined.

Lemma api_later_get_host_hangs_witness :
  get_host 0 [inl (answer_packet demo_rsp); inl (answer_packet demo_rsp)] [] 1 2 (demo_api 1) = Stop NoReturn.
Proof.
  apply (api_later_get_host_hangs [demo_rsp; demo_rsp] [] 1 2 (demo_api 1) 3); try reflexivity; unfold is_s32; try lia.
  - vm_compute. congruence.
  - repeat (constructor; [split; [apply demo_rsp_ok|split; reflexivity]|]). constructor.
Defined.

Lemma api_report_misrouted_witness :
  exists pkt w id body,
    report 0 1 2 167772161 80 RET_SYSTEM_ERROR (demo_api 1) = Ret (Some (3, pkt)) /\
    agent_server_main (E := Z) (K := gmap Z Z) (TF := unit) true 3 0 ([], []) 0%nat (agent_new, []) = Ret w /\
    Udp.parse pkt = Some (id, body) /\ route (Udp._udp_router (Udp.uw_udp w)) id = Some (get_host_cb, Some 0%nat).
Proof.
  assert (exists pkt, report 0 1 2 167772161 80 RET_SYSTEM_ERROR (demo_api 1) = Ret (Some (3, pkt))) as [pkt Hp].
  { eexists. vm_compute. reflexivity. }
  assert (exists w, agent_server_main (E := Z) (K := gmap Z Z) (TF := unit) true 3 0 ([], []) 0%nat (agent_new, []) = Ret w)
    as [w Hw].
  { eexists. vm_compute. reflexivity. }
  destruct (api_report_misrouted 1 2 167772161 80 RET_SYSTEM_ERROR (demo_api 1) (3, pkt) true 3 0 ([], []) 0%nat
    (agent_new, []) w Hp Hw) as (id & body & Hb & Hr).
  exists pkt, w, id, body. split; [exact Hp|]. split; [exact Hw|]. split; [exact Hb|exact Hr].
Defined.

(** Server 0 of an agent whose balancer for service (1, 2) has hosts. *)
Module WayDemo.
Definition api_rlb : route_lb :=
  match update_host x86_shl LbDemo.cfg (new_host demo_inputs) 0 1 2 (MkRouteRsp 1 2 [MkHostInfo 167772161 80])
          (put_lb (make_key 1 2) (pulling 1 2 demo_inputs) (route_lb_new 1)) with
  | Ret (_, r) => r | Stop _ => route_lb_new 1 end.
Definition api_agent : agent Z := Agent [api_rlb; route_lb_new 2; route_lb_new 3] (Some thread_queue_new) (Some thread_queue_new).
Definition block : list byte := replicate (Z.to_nat UDP_BUF) x00.
Definition api_server : Udp.uworld (gmap Z Z) agent_cb nat unit Z (agent Z * list inputs) :=
  match agent_server_main true 3 0 (block, block) 0%nat (api_agent, [demo_inputs]) with
  | Ret w => w | Stop _ => Udp.UWorld (Udp.Udp 3 block block None msg_router_new) event_loop_new [] (api_agent, []) end.
Lemma api_server_wf : udp_wf api_server.
Proof. assert (zlen block = UDP_BUF) by (unfold block, zlen; rewrite length_replicate; reflexivity). by split. Qed.
End WayDemo.
Import WayDemo.

Lemma api_get_host_way_witness :
  exists pkt out w', Udp.server_do_read (run_agent_msg LbDemo.cfg) [inl (10, pkt); inr EAGAIN] api_server = Ret w' /\
    Udp.uw_sent w' = [(Some 10, out)] /\
    get_host 0 [inl out] [] 1 2 (demo_api 0) = Ret (RET_SUCC, Some (167772161, 80), Some (3, pkt), demo_api 1).
Proof.
  assert (exists a', run_get_host LbDemo.cfg demo_inputs (serialize (MkHostReq 0 1 2)) 0 api_agent =
    Ret (serialize (MkHostRsp 0 1 2 RET_SUCC (Some (MkHostInfo 167772161 80))), a')) as [a' Ha] by (eexists; vm_compute; reflexivity).
  destruct (api_get_host_way LbDemo.cfg 1 2 (demo_api 0) 3 api_server 10 0%nat demo_inputs [] api_agent RET_SUCC
    (Some (MkHostInfo 167772161 80)) a' 0 []) as (pkt & out & w' & H1 & H2 & _ & H3).
  - split; vm_compute; congruence.
  - split; vm_compute; congruence.
  - vm_compute. congruence.
  - split; vm_compute; congruence.
  - reflexivity.
  - reflexivity.
  - vm_compute. congruence.
  - apply api_server_wf.
  - reflexivity.
  - reflexivity.
  - reflexivity.
  - exact Ha.
  - exact demo_rsp_ok.
  - vm_compute. congruence.
  - exists pkt, out, w'. split; [exact H1|]. split; [exact H2|exact H3].
Defined.

Lemma api_get_route_way_witness :
  exists pkt out w', Udp.server_do_read (run_agent_msg LbDemo.cfg) [inl (10, pkt); inr EAGAIN] api_server = Ret w' /\
    Udp.uw_sent w' = [(Some 10, out)] /\ get_route 0 [inl out] [] 1 2 (demo_api 0) = Ret (RET_SUCC, [(167772161, 80)], []).
Proof.
  assert (exists a', run_get_route LbDemo.cfg demo_inputs (serialize (MkRouteReq 1 2)) 0 api_agent =
    Ret (serialize (MkRouteRsp 1 2 [MkHostInfo 167772161 80]), a')) as [a' Ha] by (eexists; vm_compute; reflexivity).
  destruct (api_get_route_way LbDemo.cfg 1 2 (demo_api 0) 3 api_server 10 0%nat demo_inputs [] api_agent
    [MkHostInfo 167772161 80] a' 0 []) as (pkt & out & w' & _ & H1 & H2 & _ & H3).
  - split; vm_compute; congruence.
  - split; vm_compute; congruence.
  - vm_compute. congruence.
  - split; vm_compute; congruence.
  - reflexivity.
  - vm_compute. congruence.
  - apply api_server_wf.
  - reflexivity.
  - reflexivity.
  - reflexivity.
  - exact Ha.
  - constructor; [split; split; vm_compute; congruence|constructor].
  - vm_compute. congruence.
  - vm_compute. congruence.
  - exists pkt, out, w'. split; [exact H1|]. split; [exact H2|exact H3].
Defined.
