(* ===== verification/Programs.v ===== *)
(** * The load test and the example of the API

    The client and server that measure the reactor (lrlb_reactor/example/qps_test) and the example of the API
    (api/cpp/example).  They are clients of the components verified in the other files, and their theorems
    say what these components do for them. *)

From S2P Require Import Prelude.
From S2P Require Import IoBuf.
From S2P Require Import BufPool.
From S2P Require Import ReactorBuf.
From S2P Require Import Message.
From S2P Require Import EventLoop.
From S2P Require Import ThreadPool.
From S2P Require Import TcpConn.
From S2P Require Import TcpServer.
From S2P Require Import TcpClient.
From S2P Require Import Echo.
From S2P Require Import ConfigFile.
From S2P Require Import Proto.
From S2P Require Import LrlbApi.

(** ** qps_test *)

(** [EchoMessage] of echoMessage.proto.  Its generated class is not part of the sources; what the programs
    rely on is that a message with ASCII content survives serialisation. *)
Record EchoMessage := MkEcho { em_content : list byte; em_id : Z }.
Definition Echo_ok (m : EchoMessage) : Prop :=
  is_s32 (em_id m) /\ Forall (fun b => byte_to_Z b < 128) (em_content m).

Inductive qps_hook := connection_start.
Inductive qps_msg := qps_busi.

(** [struct Qps], and what a thread of the client has: its [Qps], the results of its coming calls of
    [time], and what it has printed. *)
Record Qps := MkQps { last_time : Z; succ_cnt : Z; qps_id : Z }.
Record qps_user := QpsUser { qu_qps : Qps; qu_times : list Z; qu_out : list line }.

(** [Qps::Qps]. *)
Definition Qps_new (now id : Z) : Qps := MkQps now 0 id.

Definition hello_content : list byte := bytes_of "Hello Lrlb!!!".

Section Qps.
Context `{!Codec EchoMessage Echo_ok}.

(** [callback_busi] of the server; the result of [ParseFromArray] is not looked at. *)
Section Server.
Context {K : Type} `{!Epoll K} {U : Type} (raw : Z -> list byte).
Abbreviation qworld := (world K unit unit unit unit U).

Definition run_qps_msg (cb : unit) (data : list byte) (len id : Z) (ud : option io_arg) (this : loc) (w : qworld) : res qworld :=
  let request : EchoMessage := parse data in
  let response := MkEcho (em_content request) (em_id request) in
  '(_, w) ← TcpConn.send_message raw (serialize response) id this w;
  Ret w.

(** [main] of the server. *)
Definition qps_addr (mp : config_map) : str * Z * Z :=
  (GetString mp (text "reactor") (text "ip") (text "192.168.237.128"),
   s16 (GetNumber mp (text "reactor") (text "port") 8888), s32 (GetNumber mp (text "reactor") (text "threadNum") 3)).
Definition qps_main {E} `{!EventFd E} (mp : config_map) (sock bnd lst : Z) (stale : pool_ptr E unit) (w : qworld)
    : res (tcp_server E unit * qworld) :=
  '(server, w) ← tcp_server_new sock bnd lst stale 0%nat (qps_addr mp).2 w;
  Ret (server, TcpServer.add_msg_router 1 tt None w).

Definition qps_reply (cb : unit) (data : list byte) : option (list byte) := Some (serialize (parse data : EchoMessage)).
Lemma qps_responder : responder (K := K) (HK := unit) (TF := unit) (P := unit) raw run_qps_msg (fun _ _ _ _ u => u) qps_reply.
Proof. intros cb data len id ud this w. unfold run_qps_msg, qps_reply. cbv zeta. by destruct (parse data), w. Qed.
End Server.

(** The client. *)
Section Client.
Context {K : Type} `{!Epoll K} {X TF : Type}.
Abbreviation qcworld := (TcpClient.cworld K qps_hook qps_msg unit X TF qps_user).
Implicit Types w : qcworld.

Definition set_qu (u : qps_user) w : qcworld := CWorld (cw_cli w) (cw_loop w) u.

(** The bookkeeping of [busi] for an echo with the given content at [current_time]. *)
Definition count_echo (content : list byte) (current_time : Z) (q : Qps) : res (Qps * list line) :=
  q ← (if bool_decide (content = hello_content) then
         if bool_decide (succ_cnt q = 2147483647) then Stop Undefined
         else Ret (MkQps (last_time q) (succ_cnt q + 1) (qps_id q))
       else Ret q);
  Ret (if bool_decide (current_time - last_time q >= 1)
       then (MkQps current_time 0 (qps_id q), [LInt "---> qps = %d" (succ_cnt q); LInt ",and i was thread %d <----" (qps_id q)])
       else (q, [])).

(** [busi]. *)
Definition run_busi (cb : qps_msg) (data : list byte) (len id : Z) (ud : option unit) w : res qcworld :=
  _ ← deref ud;
  let u := cw_user w in
  if negb (parse_ok (M := EchoMessage) data) then
    Ret (set_qu (QpsUser (qu_qps u) (qu_times u) (qu_out u ++ [LText "server call back data error"])) w)
  else
    let response : EchoMessage := parse data in
    match qu_times u with
    | [] => Stop NoReturn
    | current_time :: times =>
        '(q, ls) ← count_echo (em_content response) current_time (qu_qps u);
        let w := set_qu (QpsUser q times (qu_out u ++ ls)) w in
        if bool_decide (em_id response = 2147483647) then Stop Undefined
        else
          '(_, w) ← TcpClient.send_message (serialize (MkEcho (em_content response) (em_id response + 1))) id w;
          Ret w
    end.

(** [connection_start]. *)
Definition run_qps_hook (h : qps_hook) w : res qcworld :=
  '(_, w) ← TcpClient.send_message (serialize (MkEcho hello_content 1)) 1 w;
  Ret w.

(** [thread_main], up to [event_process], as the thread that gets [id]. *)
Definition thread_main (raw1 raw2 : list byte) (stale : bool) (sock : Z) (conn : unit + errno) (now id : Z) (times : list Z)
    : res qcworld :=
  w ← tcp_client_new run_qps_hook raw1 raw2 stale sock conn event_loop_new (QpsUser (Qps_new now id) times []);
  let w := TcpClient.add_msg_router 1 qps_busi (Some tt) w in
  Ret (TcpClient.set_conn_start (Some connection_start) w).

(** The client as the messages see it: its bookkeeping and its output. *)
Definition qps_sim (a : qps_user * list byte) w : Prop :=
  cw_user w = a.1 /\ connected (cw_cli w) = true /\ b_capacity (_obuf (cw_cli w)) = CLIENT_BUF /\
  buf_wf (_obuf (cw_cli w)) /\ b_head (_obuf (cw_cli w)) = 0 /\ contents (_obuf (cw_cli w)) = a.2.

(** A message that parses, comes in time, and whose answer fits. *)
Definition qps_step (cb : qps_msg) (data : list byte) (len id : Z) (ud : option unit) (a : qps_user * list byte)
    : res (qps_user * list byte) :=
  _ ← deref ud;
  _ ← assert (parse_ok (M := EchoMessage) data);
  let response : EchoMessage := parse data in
  match qu_times a.1 with
  | [] => Stop NoReturn
  | t :: times =>
      '(q, ls) ← count_echo (em_content response) t (qu_qps a.1);
      let body := serialize (MkEcho (em_content response) (em_id response + 1)) in
      _ ← assert (bool_decide (em_id response <> 2147483647));
      _ ← assert (bool_decide (zlen a.2 + MESSAGE_HEAD_LEN + zlen body <= CLIENT_BUF));
      Ret (QpsUser q times (qu_out a.1 ++ ls), a.2 ++ frame_bytes id body)
  end.

Lemma qps_contract : cli_cb_contract run_busi qps_sim qps_step.
Proof.
  split.
  - intros a w b (H1 & H2 & H3 & H4 & H5 & H6). by split_and!.
  - intros cb data len id ud w [u ob] a' (Hu & Hcon & Hcap & Hwf & Hh & Hob) Hstep. cbn [fst snd] in *.
    unfold qps_step in Hstep. cbn [fst snd] in Hstep. apply bind_Ret in Hstep as ([] & Hud & Hstep).
    apply bind_Ret in Hstep as ([] & Hp & Hstep). apply assert_Ret in Hp. unfold run_busi. rewrite Hud. cbn [mbind res_mbind].
    rewrite Hp, Hu. cbn [negb]. destruct (qu_times u) as [|t times]; [done|].
    apply bind_Ret in Hstep as ([q ls] & -> & Hstep). cbn [mbind res_mbind].
    apply bind_Ret in Hstep as ([] & Hid & Hstep). apply assert_Ret, bool_decide_eq_true_1 in Hid.
    apply bind_Ret in Hstep as ([] & Hfit & Hstep). apply assert_Ret, bool_decide_eq_true_1 in Hfit. injection Hstep as <-.
    rewrite bool_decide_eq_false_2 by done. set (body := serialize _) in *. set (w1 := set_qu _ w).
    destruct (client_send_out body id w1 ob Hwf Hh Hob Hcon) as (b & Hwb & Hhb & Hxb & Hcb & ->); [change (cw_cli w1) with (cw_cli w); rewrite Hcap; exact Hfit|].
    cbn [mbind res_mbind]. eexists. split; [done|]. split; [done|]. split; [done|]. split_and!; try done. cbn. by rewrite Hcb.
Qed.
End Client.
End Qps.

Section Turn.
Context `{!Codec EchoMessage Echo_ok}.
Context {K : Type} `{!Epoll K} {K' : Type} `{!Epoll K'} {X TF U : Type}.
Context (raw : Z -> list byte) (raw_len : forall n, 0 <= n -> zlen (raw n) = n) `{!Others unit}.
Implicit Types w : world K unit unit unit unit U.
Abbreviation qcworld := (TcpClient.cworld K' qps_hook qps_msg unit X TF qps_user).

(** The frame of request number [n]. *)
Definition request (n : Z) : list byte := frame_bytes 1 (serialize (MkEcho hello_content n)).

Lemma request_ok n : is_s32 n -> Echo_ok (MkEcho hello_content n).
Proof. intros Hn. split; [done|]. repeat constructor. Qed.

(** One turn of the measurement: when request number [n] reaches the server it answers with the same message,
    and when the client gets the answer it counts a success, prints and restarts its count
    if a second has passed, and has request number [n + 1] to send. *)
Theorem qps_turn run_hook n this w fl c (wc : qcworld) t times :
  0 < n < 2147483647 -> zlen (serialize (MkEcho hello_content n)) <= MESSAGE_LENGTH_LIMIT -> serialize (MkEcho hello_content n) <> [] ->
  zlen (serialize (MkEcho hello_content (n + 1))) <= MESSAGE_LENGTH_LIMIT ->
  conn_repr this w fl c [] [] -> is_Some (w_loops w !! _loop c) -> route (router (w_srv w)) 1 = Some (tt, None) ->
  connected (cw_cli wc) = true -> cli_repr (cw_cli wc) [] [] -> b_capacity (_ibuf (cw_cli wc)) = CLIENT_BUF ->
  b_capacity (_obuf (cw_cli wc)) = CLIENT_BUF -> route (_cli_router (cw_cli wc)) 1 = Some (qps_busi, Some tt) ->
  qu_times (cw_user wc) = t :: times -> succ_cnt (qu_qps (cw_user wc)) < 2147483647 ->
  let q := qu_qps (cw_user wc) in
  let run := TcpConn.do_read raw run_hook (run_qps_msg raw) (Some (zlen (request n))) [inl (request n)] this w in
  run = Stop (Exit 0) /\ mem_short 12288 (w_mem w) \/
  exists w' fl' c' wc', run = Ret w' /\ conn_repr this w' fl' c' [] (request n) /\
    TcpClient.do_read run_qps_hook run_busi (Some (zlen (request n))) [inl (request n)] wc = Ret (0, wc') /\
    contents (_obuf (cw_cli wc')) = request (n + 1) /\ contents (_ibuf (cw_cli wc')) = [] /\
    (if bool_decide (t - last_time q >= 1)
     then qu_qps (cw_user wc') = MkQps t 0 (qps_id q) /\
       qu_out (cw_user wc') = qu_out (cw_user wc) ++ [LInt "---> qps = %d" (succ_cnt q + 1); LInt ",and i was thread %d <----" (qps_id q)]
     else qu_qps (cw_user wc') = MkQps (last_time q) (succ_cnt q + 1) (qps_id q) /\ qu_out (cw_user wc') = qu_out (cw_user wc)).
Proof.
  intros Hn Hl1 Hne Hl2 Hc Hlo Hro Hcon Hrep Hci Hco Hrc Ht Hs q. cbv zeta.
  assert (is_s32 n) as Hn32 by (unfold is_s32; lia). pose proof (request_ok n Hn32) as Hok.
  assert (parse (serialize (MkEcho hello_content n)) = MkEcho hello_content n) as Hpar by (by apply parse_serialize).
  assert (parse_ok (serialize (MkEcho hello_content n)) = true) as Hpok by (by apply parse_ok_serialize).
  set (body := serialize (MkEcho hello_content n)) in *. set (body2 := serialize (MkEcho hello_content (n + 1))) in *.
  change (request n) with (frame_bytes 1 body). change (request (n + 1)) with (frame_bytes 1 body2).
  pose proof (zlen_nonneg body) as Hz1. pose proof (zlen_nonneg body2) as Hz2. pose proof (zlen_frame_bytes 1 body) as Hzf.
  unfold MESSAGE_LENGTH_LIMIT, MESSAGE_HEAD_LEN in *.
  assert (concat (answer_bytes qps_reply (router (w_srv w)) <$> [(1, body)]) = frame_bytes 1 body) as Hans.
  { cbn [fmap list_fmap concat]. rewrite app_nil_r. unfold answer_bytes, qps_reply. cbn [fst snd]. rewrite Hro.
    f_equal. by rewrite Hpar. }
  destruct (responder_read raw raw_len run_hook (run_qps_msg raw) (fun _ _ _ _ u => u) qps_reply (frame_bytes 1 body) 0 [] this w fl c [] []
    [(1, body)] [] (qps_responder raw) Hc Hlo) as [[Hrun Hshort]|(w' & fl' & c' & Hrun & Hc' & _)].
  - lia.
  - unfold m4M. change (zlen (@nil byte)) with 0. lia.
  - pose proof (deframe_all [(1, body)]) as Hd. unfold stream in Hd. cbn in Hd. rewrite app_nil_r in Hd.
    apply Hd; (constructor; [|constructor]); [by split|exact Hne].
  - rewrite Hans. unfold m4M. change (zlen (@nil byte)) with 0. lia.
  - left. split; [exact Hrun|exact Hshort].
  - right. rewrite Hans in Hc'. exists w', fl', c'.
    destruct Hrep as (Hi1 & Hi2 & Hi3 & Ho1 & Ho2 & Ho3).
    assert (exists q' ls, count_echo hello_content t q = Ret (q', ls) /\
      (if bool_decide (t - last_time q >= 1)
       then q' = MkQps t 0 (qps_id q) /\ ls = [LInt "---> qps = %d" (succ_cnt q + 1); LInt ",and i was thread %d <----" (qps_id q)]
       else q' = MkQps (last_time q) (succ_cnt q + 1) (qps_id q) /\ ls = [])) as (q' & ls & Hcnt & Hq).
    { unfold count_echo. rewrite bool_decide_eq_true_2 by done. rewrite bool_decide_eq_false_2 by (unfold q; lia).
      cbn [mbind res_mbind last_time]. case_bool_decide; by eexists _, _. }
    destruct (client_read_ok run_qps_hook run_busi qps_sim qps_step (frame_bytes 1 body) 0 [] wc [] [] [(1, body)] []
      (cw_user wc, []) (QpsUser q' times (qu_out (cw_user wc) ++ ls), [] ++ frame_bytes 1 body2) qps_contract)
      as (wc' & Hread & _ & _ & Hin & Hsim).
    + by split_and!.
    + cbn [cli_deliver]. rewrite Hrc. unfold qps_step. cbn [deref mbind res_mbind fst snd]. rewrite Hpok. cbn [assert mbind res_mbind].
      rewrite Ht, Hpar. cbn [em_content em_id]. fold q. rewrite Hcnt. cbn [mbind res_mbind].
      rewrite (bool_decide_eq_true_2 (n <> 2147483647)) by lia. cbn [assert mbind res_mbind]. fold body2.
      rewrite (bool_decide_eq_true_2 (_ <= _)); [done|]. unfold CLIENT_BUF, MESSAGE_HEAD_LEN. change (zlen (@nil byte)) with 0. lia.
    + exact Hcon.
    + by split_and!.
    + lia.
    + rewrite Hci. unfold CLIENT_BUF. change (zlen (@nil byte)) with 0. lia.
    + constructor; [split; [done|exact Hl1]|constructor].
    + by left.
    + cbn. by rewrite !app_nil_r.
    + destruct Hsim as (Hu & _ & _ & _ & _ & Hout). cbn [fst snd app] in Hu, Hout. exists wc'. split; [exact Hrun|]. split; [exact Hc'|].
      split; [exact Hread|]. split; [exact Hout|]. split; [exact Hin|]. rewrite Hu. cbn [qu_qps qu_out].
      case_bool_decide; destruct Hq as [-> ->]; [done|by rewrite app_nil_r].
Qed.
End Turn.

(** ** The threads of the load test

    [main] starts one thread per unit of its argument; each takes its number from the global [id] with [id++],
    a load and a store that other threads can come between. *)

(** [main] up to the creation of the threads: what it prints, or how many threads it starts.  A negative
    number makes [new] throw. *)
Definition qps_client_main (argv : list str) : res (list line + Z) :=
  match argv with
  | [_] => Ret (inl [LText "Usage: ./client [threadNum]"])
  | _ :: a1 :: _ => let thread_num := atoi a1 in if bool_decide (thread_num < 0) then Stop Uncaught else Ret (inr thread_num)
  | [] => Stop NullDeref
  end.

Inductive id_op := IdLoad (thread : nat) | IdStore (thread : nat).
(** The global [id], and the number each thread has got. *)
Record ids := Ids { id_global : Z; id_got : gmap nat Z }.
Definition id_step (s : ids) (o : id_op) : ids :=
  match o with
  | IdLoad k => Ids (id_global s) (<[k := id_global s]> (id_got s))
  | IdStore k => Ids (default 0 (id_got s !! k) + 1) (id_got s)
  end.
Definition in_turn (ks : list nat) : list id_op := concat ((fun k => [IdLoad k; IdStore k]) <$> ks).

(** Threads that increment [id] one after the other, in whatever order, get the numbers 1, 2, and so on
    in this order; two threads whose increments overlap get the same number. *)
Theorem thread_numbers ks k1 k2 :
  NoDup ks -> k1 <> k2 ->
  (forall i k, ks !! i = Some k -> id_got (foldl id_step (Ids 1 ∅) (in_turn ks)) !! k = Some (1 + Z.of_nat i)) /\
  (let s := foldl id_step (Ids 1 ∅) [IdLoad k1; IdLoad k2; IdStore k1; IdStore k2] in
   id_got s !! k1 = Some 1 /\ id_got s !! k2 = Some 1 /\ id_global s = 2).
Proof.
  intros Hnd Hne. split.
  - assert (forall s, (forall i k, ks !! i = Some k -> id_got (foldl id_step s (in_turn ks)) !! k = Some (id_global s + Z.of_nat i)) /\
      forall k, k ∉ ks -> id_got (foldl id_step s (in_turn ks)) !! k = id_got s !! k) as H; [|apply H].
    induction Hnd as [|k ks Hk Hnd IH]; intros s; [done|].
    unfold in_turn. rewrite fmap_cons. cbn [concat app foldl]. fold (in_turn ks).
    set (s1 := id_step (id_step s (IdLoad k)) (IdStore k)).
    assert (s1 = Ids (id_global s + 1) (<[k := id_global s]> (id_got s))) as E1
      by (unfold s1; cbn; by rewrite lookup_insert_eq).
    destruct (IH s1) as [H1 H2]. rewrite E1 in *. cbn [id_global id_got] in *. split.
    + intros [|i] k' Hi; cbn in Hi.
      * injection Hi as <-. rewrite H2, lookup_insert_eq by done. f_equal. lia.
      * rewrite (H1 i k' Hi). f_equal. lia.
    + intros k' Hk'. apply not_elem_of_cons in Hk' as [Hn1 Hn2]. rewrite H2 by done. by rewrite lookup_insert_ne by congruence.
  - cbn. split_and!; [by rewrite lookup_insert_ne, lookup_insert_eq by congruence|by rewrite lookup_insert_eq..].
Qed.

(** ** The example of the API *)
Section Example.
Context `{!Protobuf}.

(** What the program prints of a route. *)
Definition route_text (route : list (Z * Z)) : list line :=
  LText "get route succ!" :: concat ((fun h => [LInt "ip = %u" h.1; LInt ", port = %d" h.2]) <$> route).

(** [main], where each of the three calls that wait gets its own datagrams; the result, what is printed, and
    the report that is sent.  It calls the method [getroute], which is [get_route] in the header.  The address is passed on as text. *)
Definition example_main (argv : list str) (r1 r2 r3 : Z * Z) (kreg kroute khost : list (list byte + errno)) (stale : list byte)
    : res (Z * list line * option (Z * list byte)) :=
  match argv with
  | [_; a1; a2] =>
      let modid := atoi a1 in
      let cmdid := atoi a2 in
      api ← lrlb_client_new r1 r2 r3;
      ret ← reg_init kreg stale modid cmdid api;
      let out := if bool_decide (ret <> 0)
                 then [LInt "modid %d" modid; LInt ", cmdid %d" cmdid; LInt " still not exist host, after register, ret = %d" ret]
                 else [] in
      '(ret, route, _) ← get_route 0 kroute stale modid cmdid api;
      let out := out ++ if bool_decide (ret = 0) then route_text route else [] in
      let cnt := 0 in
      '(ret, host, _, api) ← get_host 0 khost stale modid cmdid api;
      if bool_decide (ret = 0) then
        '(ip, port) ← deref host;
        let out := out ++ [LInt "host is %u" ip; LInt ":%d" port] in
        sent ← report 0 modid cmdid ip port (if bool_decide (cnt mod 3 = 0) then 1 else 0) api;
        Ret (0, out, sent)
      else Ret (0, out, None)
  | _ => Ret (1, [LText "usage: ./example [modid] [cmdid]"], None)
  end.

(** The example against an agent that knows the service: it prints the route and the host it gets, and ends by reporting
    a failure of this host (the counter it tests is always 0); the report goes to the agent under the id of a host
    request, so the agent reads it as one. *)
Theorem example_runs prog a1 a2 f1 f2 f3 hs h stale fd (modid := atoi a1) (cmdid := atoi a2) :
  0 <= modid + cmdid -> is_s32 (modid + cmdid) ->
  f1 <> -1 -> f2 <> -1 -> f3 <> -1 -> [f1; f2; f3] !! Z.to_nat ((modid + cmdid) mod 3) = Some fd ->
  zlen (serialize (MkRouteReq modid cmdid)) + MESSAGE_HEAD_LEN <= WRITE_BUF ->
  zlen (serialize (MkHostRsp 0 modid cmdid 0 None)) + MESSAGE_HEAD_LEN <= WRITE_BUF ->
  Forall HostInfo_ok hs -> hs <> [] -> zlen hs <= MAX_REPEATED -> zlen (serialize (MkRouteRsp modid cmdid hs)) < 2147483648 ->
  HostInfo_ok h -> zlen (serialize (MkHostRsp 0 modid cmdid 0 (Some h))) < 2147483648 ->
  let bad := MkReportReq modid cmdid (Some h) 1 in
  zlen (serialize bad) + MESSAGE_HEAD_LEN <= WRITE_BUF ->
  let route_pkt := frame_bytes ID_API_GetRouteResponse (serialize (MkRouteRsp modid cmdid hs)) in
  example_main [prog; a1; a2] (f1, 0) (f2, 0) (f3, 0) [inl route_pkt] [inl route_pkt]
    [inl (answer_packet (MkHostRsp 0 modid cmdid 0 (Some h)))] stale =
  Ret (0, route_text ((fun h => (u32 (h_ip h), h_port h)) <$> hs) ++ [LInt "host is %u" (u32 (h_ip h)); LInt ":%d" (h_port h)],
       Some (fd, frame_bytes ID_GetHostRequest (serialize bad))).
Proof.
  intros H0 Hs Hf1 Hf2 Hf3 Hfd Hw1 Hw2 Hhs Hne Hmax Hl1 Hh Hl2 bad Hw3 route_pkt.
  assert (is_s32 modid) as Hm by apply s32_range. assert (is_s32 cmdid) as Hc by apply s32_range.
  unfold example_main. fold modid cmdid. unfold lrlb_client_new. cbn [open_sockets].
  rewrite !(bool_decide_eq_false_2 (_ = -1)) by done. cbn [mbind res_mbind].
  set (api := Client [f1; f2; f3] 0).
  assert (((fun h => (u32 (h_ip h), h_port h)) <$> hs) <> []) as Hmap by (by destruct hs).
  assert (reg_init [inl route_pkt] stale modid cmdid api = Ret RET_SUCC) as ->.
  { unfold reg_init, route_pkt. cbn [reg_loop]. rewrite (get_route_answer hs [] stale modid cmdid api fd) by done.
    cbn [mbind res_mbind]. rewrite bool_decide_eq_false_2 by exact Hmap. cbn [mbind res_mbind].
    by rewrite bool_decide_eq_false_2 by exact Hmap. }
  unfold route_pkt. rewrite (get_route_answer hs [] stale modid cmdid api fd) by done. cbn [mbind res_mbind].
  destruct (api_first_get_host [] stale modid cmdid api fd (MkHostRsp 0 modid cmdid 0 (Some h))) as (pkt & -> & _); try done.
  { split_and!; try done. by intros ? [= <-]. }
  cbn [hr_retcode hr_host get_field mbind res_mbind default id]. rewrite !(bool_decide_eq_true_2 (0 = 0)) by done.
  cbn [mbind res_mbind deref]. change (if bool_decide _ then 1 else 0) with 1. unfold report, build_packet.
  rewrite s32_u32, s32_small by apply Hh.
  replace (MkHostInfo (h_ip h) (h_port h)) with h by (by destruct h). fold bad.
  rewrite (bool_decide_eq_true_2 (_ <= WRITE_BUF)) by done. cbn [mbind res_mbind].
  rewrite (sock_of_ok _ _ _ fd) by done. cbn [mbind res_mbind]. rewrite (bool_decide_eq_false_2 (0 = -1)) by done. done.
Qed.
End Example.

#[local] Existing Instance nobody.

(** ** A measurement and a run of the example *)
Module QpsDemo.
(** An encoding: the id, then the content. *)
#[refine] Instance echo_codec : Codec EchoMessage Echo_ok :=
  {| serialize m := int_bytes (em_id m) ++ em_content m;
     parse bs := MkEcho (drop 4 bs) (bytes_int (take 4 bs));
     parse_ok bs := bool_decide (4 <= length bs)%nat |}.
Proof.
  - intros [s i] [Hi _]. cbn [em_id em_content] in *. rewrite drop_app_length', take_app_length' by (symmetry; apply length_int_bytes).
    by rewrite bytes_int_bytes.
  - intros [s i] _. apply bool_decide_eq_true_2. cbn [em_id]. rewrite length_app, length_int_bytes. lia.
Defined.

Definition server : world (gmap Z Z) unit unit unit unit unit :=
  World empty_pool {[0%nat := event_loop_new]} {[1%positive := TcpConn 5 0%nat None None None]}
    (Statics ∅ 0 0 (register_msg_router 1 tt None msg_router_new).2 None None) tt.
Lemma server_repr : conn_repr 1%positive server empty_free (TcpConn 5 0%nat None None None) [] [].
Proof.
  split; [reflexivity|]. split; [apply empty_heap_ok|]. split; [reflexivity|]. split; [reflexivity|]. split; [by left|by apply apart_nobody].
Qed.
Definition measuring : TcpClient.cworld (gmap Z Z) qps_hook qps_msg unit unit unit qps_user :=
  CWorld (TcpClient.TcpClient true (io_buf_new CLIENT_BUF EchoDemo.block) (io_buf_new CLIENT_BUF EchoDemo.block) (Some connection_start) None
            (register_msg_router 1 qps_busi (Some tt) msg_router_new).2 4) event_loop_new (QpsUser (MkQps 100 41 1) [101] []).
Lemma measuring_repr : cli_repr (cw_cli measuring) [] [].
Proof.
  assert (buf_wf (io_buf_new CLIENT_BUF EchoDemo.block)) as Hb by (apply io_buf_new_wf; [discriminate|apply EchoDemo.echo_block_len]).
  split; [exact Hb|]. split; [reflexivity|]. split; [reflexivity|]. split; [exact Hb|]. split; reflexivity.
Qed.
End QpsDemo.
Import QpsDemo.

Lemma qps_turn_witness :
  exists w' wc', TcpConn.do_read zero_raw (fun _ _ w => Ret w) (run_qps_msg zero_raw) (Some (zlen (request 7))) [inl (request 7)] 1%positive server = Ret w' /\
    TcpClient.do_read run_qps_hook run_busi (Some (zlen (request 7))) [inl (request 7)] measuring = Ret (0, wc') /\
    contents (_obuf (cw_cli wc')) = request 8 /\
    qu_out (cw_user wc') = [LInt "---> qps = %d" 42; LInt ",and i was thread %d <----" 1].
Proof.
  destruct (qps_turn zero_raw zero_raw_len (fun _ _ w => Ret w) 7 1%positive server empty_free (TcpConn 5 0%nat None None None) measuring 101 [])
    as [[_ Hs]|(w' & fl' & c' & wc' & H1 & _ & H2 & H3 & _ & H4)].
  - lia.
  - vm_compute. congruence.
  - discriminate.
  - vm_compute. congruence.
  - apply server_repr.
  - eexists. reflexivity.
  - reflexivity.
  - reflexivity.
  - apply measuring_repr.
  - reflexivity.
  - reflexivity.
  - reflexivity.
  - reflexivity.
  - vm_compute. reflexivity.
  - exfalso. vm_compute in Hs. congruence.
  - exists w', wc'. split; [exact H1|]. split; [exact H2|]. split; [exact H3|]. apply H4.
Defined.

Lemma thread_numbers_witness : id_got (foldl id_step (Ids 1 ∅) (in_turn [2; 0; 1]%nat)) !! 0%nat = Some 2.
Proof.
  destruct (thread_numbers [2; 0; 1]%nat 0%nat 1%nat) as [H _]; [|discriminate|exact (H 1%nat 0%nat eq_refl)].
  apply NoDup_ListNoDup. repeat constructor; cbn; lia.
Defined.

Lemma example_runs_witness :
  exists sent, example_main [text "./example"; text "1"; text "2"] (3, 0) (4, 0) (5, 0)
    [inl (frame_bytes ID_API_GetRouteResponse (serialize (MkRouteRsp 1 2 [MkHostInfo 167772161 80])))]
    [inl (frame_bytes ID_API_GetRouteResponse (serialize (MkRouteRsp 1 2 [MkHostInfo 167772161 80])))]
    [inl (answer_packet demo_rsp)] [] =
  Ret (0, [LText "get route succ!"; LInt "ip = %u" 167772161; LInt ", port = %d" 80; LInt "host is %u" 167772161; LInt ":%d" 80], Some (3, sent)).
Proof.
  eexists. apply (example_runs (text "./example") (text "1") (text "2") 3 4 5 [MkHostInfo 167772161 80] (MkHostInfo 167772161 80) [] 3).
  - vm_compute. congruence.
  - split; vm_compute; congruence.
  - discriminate.
  - discriminate.
  - discriminate.
  - reflexivity.
  - vm_compute. congruence.
  - vm_compute. congruence.
  - constructor; [split; split; vm_compute; congruence|constructor].
  - discriminate.
  - vm_compute. congruence.
  - vm_compute. congruence.
  - split; split; vm_compute; congruence.
  - vm_compute. congruence.
  - vm_compute. congruence.
Defined.
