(* ===== verification/DnsRoute.v ===== *)
(** * Route: the route table of the DNS server (lrlb_dns/include/dns_route.h,
      src/dns_route.cpp)

    The table is read from MySQL into one of two maps, and the pointers to the
    maps are swapped under a write lock, so readers see one table or the other.
    MySQL is not part of the sources: what a statement returns is an argument of
    the model, and the statements a method issues are part of its result.  The
    columns of a row are the [int]s [atoi] makes of them. *)

From S2P Require Import Prelude.
From S2P Require Import ConfigFile.
From S2P Require Import Proto.

(** [route_map] and [host_set]. *)
Abbreviation host_set := (gset Z).
Abbreviation route_map := (gmap Z host_set).

(** A row of the table RouteData. *)
Record route_row := Row { row_modid : Z; row_cmdid : Z; row_ip : Z; row_port : Z }.

(** What a query gives: an error, no result set, or rows. *)
Inductive query A :=
| QError
| QNoResult
| QRows (rows : list A).
Arguments QError {A}.
Arguments QNoResult {A}.
Arguments QRows {A} _.

(** The statements of the module. *)
Inductive sql :=
| SelectRouteData
| SelectVersion
| SelectChanges (version : Z)
| DeleteChanges (version : Z)
| DeleteAllChanges.

(** [class Route]: [_version], and the maps behind the two pointers. *)
Record Route := MkRoute {
  _version : Z;
  _data_pointer : route_map;
  _temp_pointer : route_map
}.

(** The key and the value of a row; [ip] is [unsigned]. *)
Definition row_key (r : route_row) : Z := make_key (row_modid r) (row_cmdid r).
Definition row_value (r : route_row) : Z := make_key (u32 (row_ip r)) (row_port r).

(** The insertion of a row: the set of its key gets its value. *)
Definition add_row (m : route_map) (r : route_row) : route_map :=
  <[row_key r := {[row_value r]} ∪ default ∅ (m !! row_key r)]> m.

(** [Route::connect_db]: the parameters of the connection. *)
Definition connect_db (mp : config_map) (connected : bool) : res (str * Z * str * str * str) :=
  let get key dflt := GetString mp (text "mysql") (text key) (text dflt) in
  let params := (get "host"%string "127.0.0.1"%string, s16 (GetNumber mp (text "mysql") (text "port") 3306),
                 get "user"%string "root"%string, get "passwd"%string "110"%string, get "name"%string "lrlb_dns"%string) in
  if connected then Ret params else Stop (Exit 1).

(** [Route::build_maps]. *)
Definition build_maps (q : query route_row) (r : Route) : res (list sql * Route) :=
  match q with
  | QError => Stop (Exit 1)
  | QNoResult => Stop NullDeref
  | QRows rows => Ret ([SelectRouteData], MkRoute (_version r) (foldl add_row (_data_pointer r) rows) (_temp_pointer r))
  end.

(** [Route::Route]; [stale] is what the uninitialised [_version] holds. *)
Definition Route_new (mp : config_map) (connected : bool) (stale : Z) (q : query route_row)
    : res (list sql * Route) :=
  _ ← connect_db mp connected;
  build_maps q (MkRoute stale ∅ ∅).

(** [Route::get_hosts]. *)
Definition get_hosts (modid cmdid : Z) (r : Route) : host_set :=
  default ∅ (_data_pointer r !! make_key modid cmdid).

(** [Route::load_version]; the rows are the values [atol] makes of the column. *)
Definition load_version (q : query Z) (r : Route) : Z * list sql * Route :=
  match q with
  | QError | QNoResult | QRows [] => (-1, [SelectVersion], r)
  | QRows (new_version :: _) =>
      if bool_decide (new_version = _version r) then (0, [SelectVersion], r)
      else (1, [SelectVersion], MkRoute new_version (_data_pointer r) (_temp_pointer r))
  end.

(** [Route::load_route_data]. *)
Definition load_route_data (q : query route_row) (r : Route) : Z * list sql * Route :=
  match q with
  | QError | QNoResult => (-1, [SelectRouteData], MkRoute (_version r) (_data_pointer r) ∅)
  | QRows rows => (0, [SelectRouteData], MkRoute (_version r) (_data_pointer r) (foldl add_row ∅ rows))
  end.

(** [Route::swap]. *)
Definition swap (r : Route) : Route := MkRoute (_version r) (_temp_pointer r) (_data_pointer r).

(** [Route::load_changes]: the keys appended to [change_list]. *)
Definition load_changes (q : query (Z * Z)) (r : Route) : list Z * list sql :=
  (match q with
   | QError | QNoResult => []
   | QRows rows => (fun row => make_key row.1 row.2) <$> rows
   end, [SelectChanges (_version r)]).

(** [Route::remove_changes]. *)
Definition remove_changes (remove_all : bool) (r : Route) : list sql :=
  [if remove_all then DeleteAllChanges else DeleteChanges (_version r)].

(** What the database answers in one round of [check_route_changes], and the times
    read in it. *)
Record round_in := RoundIn {
  ri_current : Z;
  ri_loaded : Z;
  ri_version : query Z;
  ri_routes : query route_row;
  ri_changes : query (Z * Z)
}.

(** [if (load_route_data() == 0) { swap(); last_load_time = time(NULL); }]. *)
Definition reload (inp : round_in) (last : Z) (r : Route) : list sql * Z * Route :=
  let '(ret, s, r) := load_route_data (ri_routes inp) r in
  if bool_decide (ret = 0) then (s, ri_loaded inp, swap r) else (s, last, r).

(** What a round does outside the process's own table, in order: it sends a statement, or calls
    [SubscribeList::publish]. *)
Inductive action :=
| Query (q : sql)
| Publish (change_list : list Z).

(** One round of the loop of [check_route_changes]: what it does, [last_load_time] and the table. *)
Definition check_round (wait_time : Z) (inp : round_in) (last : Z) (r : Route) : list action * Z * Route :=
  let '(ret, s1, r) := load_version (ri_version inp) r in
  if bool_decide (ret = 1) then
    let '(s2, last, r) := reload inp last r in
    let '(changes, s3) := load_changes (ri_changes inp) r in
    ((Query <$> s1) ++ (Query <$> s2) ++ (Query <$> s3) ++ [Publish changes] ++ (Query <$> remove_changes false r), last, r)
  else if bool_decide (ri_current inp - last >= wait_time) then
    let '(s2, last, r) := reload inp last r in ((Query <$> s1) ++ (Query <$> s2), last, r)
  else (Query <$> s1, last, r).

(** The thread before its loop, and the configured period. *)
Definition check_start (r : Route) : list sql := remove_changes true r.
Definition wait_time (mp : config_map) : Z := s32 (GetNumber mp (text "Route") (text "time") 10).

(** ** Host values *)

(** [host.set_ip((uint32_t)(v >> 32)); host.set_port((int)v)]. *)
Definition value_host (v : Z) : HostInfo := MkHostInfo (s32 (u32 (Z.shiftr v 32))) (s32 v).

(** The value of a row gives its address and port back, for a port that is not
    negative; the field of the message shows the address as an [int32]. *)
Lemma value_host_row r :
  is_s32 (row_port r) -> 0 <= row_port r -> value_host (row_value r) = MkHostInfo (s32 (row_ip r)) (row_port r).
Proof.
  intros Hp H0. unfold value_host, row_value. rewrite make_key_eq.
  rewrite Z.shiftr_div_pow2 by lia. change (2 ^ 32) with 4294967296. f_equal; int_solve.
Qed.

(** ** The table *)
Definition row_ok (r : route_row) : Prop :=
  is_s32 (row_modid r) /\ is_s32 (row_cmdid r) /\ is_s32 (row_ip r) /\ is_s32 (row_port r).

Lemma elem_of_add_row m r key v :
  v ∈ default ∅ (add_row m r !! key) <->
  v ∈ default ∅ (m !! key) \/ (row_key r = key /\ row_value r = v).
Proof.
  unfold add_row. rewrite lookup_insert. case_decide as E; simpl; [|naive_solver].
  subst key. rewrite elem_of_union, elem_of_singleton. naive_solver.
Qed.

Lemma elem_of_table rows m key v :
  v ∈ default ∅ (foldl add_row m rows !! key) <->
  v ∈ default ∅ (m !! key) \/ exists r, r ∈ rows /\ row_key r = key /\ row_value r = v.
Proof.
  revert m. induction rows as [|r rows IH]; intros m; simpl.
  - split; [by left|]. intros [|(r & Hr & _)]; [done|]. by apply not_elem_of_nil in Hr.
  - rewrite IH, elem_of_add_row. setoid_rewrite elem_of_cons. naive_solver.
Qed.

(** The hosts of a service in a table loaded from [rows]. *)
Lemma elem_of_hosts rows modid cmdid v version temp :
  Forall row_ok rows -> is_s32 modid -> is_s32 cmdid ->
  v ∈ get_hosts modid cmdid (MkRoute version (foldl add_row ∅ rows) temp) <->
  exists r, r ∈ rows /\ row_modid r = modid /\ row_cmdid r = cmdid /\ row_value r = v.
Proof.
  intros Hok Hm Hc. unfold get_hosts. simpl. rewrite elem_of_table, lookup_empty. simpl.
  rewrite list.Forall_forall in Hok. split.
  - intros [H|(r & Hin & Hk & Hv)]; [by apply not_elem_of_empty in H|].
    destruct (Hok r Hin) as (H1 & H2 & _). destruct (make_key_inj _ _ _ _ H1 H2 Hm Hc Hk) as [E1 E2].
    by exists r.
  - intros (r & Hin & <- & <- & <-). right. by exists r.
Qed.

(** The table answers for the database: after a start or a reload the hosts of
    a service are exactly those of its rows in RouteData, and the address and
    port sent for them are the columns of the row. *)
Theorem get_hosts_rows mp stale rows modid cmdid v :
  Forall row_ok rows -> is_s32 modid -> is_s32 cmdid ->
  exists s r, Route_new mp true stale (QRows rows) = Ret (s, r) /\
    (v ∈ get_hosts modid cmdid r <->
     exists row, row ∈ rows /\ row_modid row = modid /\ row_cmdid row = cmdid /\ row_value row = v) /\
    (forall row, row ∈ rows -> 0 <= row_port row ->
       value_host (row_value row) = MkHostInfo (s32 (row_ip row)) (row_port row)).
Proof.
  intros Hok Hm Hc. eexists _, _. split; [done|]. split; [by apply elem_of_hosts|].
  intros row Hin H0. rewrite list.Forall_forall in Hok. apply value_host_row; [apply Hok|]; done.
Qed.

(** ** A round against the database *)

(** A row of the table RouteChange: its version, and the service. *)
Definition change : Type := Z * (Z * Z).
Definition change_key (ch : change) : Z := make_key ch.2.1 ch.2.2.

(** The actions of a round run against the table RouteChange, in order, while others add rows: what is
    published, and the table afterwards.  The answer to [SelectChanges] is that of the table at
    this moment, or an error. *)
Inductive replay (inp : round_in) : list change -> list action -> list Z -> list change -> Prop :=
| rp_done cs : replay inp cs [] [] cs
| rp_added cs ch acts pub cs' : replay inp (cs ++ [ch]) acts pub cs' -> replay inp cs acts pub cs'
| rp_version cs acts pub cs' : replay inp cs acts pub cs' -> replay inp cs (Query SelectVersion :: acts) pub cs'
| rp_routes cs acts pub cs' : replay inp cs acts pub cs' -> replay inp cs (Query SelectRouteData :: acts) pub cs'
| rp_select cs v acts pub cs' :
    ri_changes inp = QError \/ ri_changes inp = QRows (snd <$> filter (fun ch => ch.1 <= v) cs) ->
    replay inp cs acts pub cs' -> replay inp cs (Query (SelectChanges v) :: acts) pub cs'
| rp_publish cs ks acts pub cs' : replay inp cs acts pub cs' -> replay inp cs (Publish ks :: acts) (ks ++ pub) cs'
| rp_delete cs v acts pub cs' :
    replay inp (filter (fun ch => v < ch.1) cs) acts pub cs' -> replay inp cs (Query (DeleteChanges v) :: acts) pub cs'
| rp_delete_all cs acts pub cs' : replay inp [] acts pub cs' -> replay inp cs (Query DeleteAllChanges :: acts) pub cs'.

(** The actions of a round that sees the new version [v]. *)
Definition changed_actions (inp : round_in) (v : Z) : list action :=
  [Query SelectVersion; Query SelectRouteData; Query (SelectChanges v);
   Publish (load_changes (ri_changes inp) (MkRoute v ∅ ∅)).1; Query (DeleteChanges v)].

Lemma replay_done inp cs pub cs' : replay inp cs [] pub cs' -> pub = [] /\ cs ⊆ cs'.
Proof.
  intros H. remember [] as acts eqn:E. induction H as [|cs ch acts pub cs' _ IH| | | | | |]; try done.
  destruct (IH E) as [-> Hs]. split; [done|]. set_solver.
Qed.
Lemma replay_delete inp cs v pub cs' :
  replay inp cs [Query (DeleteChanges v)] pub cs' -> pub = [] /\ forall ch, ch ∈ cs -> v < ch.1 -> ch ∈ cs'.
Proof.
  intros H. remember [Query (DeleteChanges v)] as acts eqn:E.
  induction H as [|cs ch acts pub cs' _ IH| | | | |cs v' acts pub cs' H IH|]; try done.
  - destruct (IH E) as [-> Hs]. set_solver.
  - simplify_eq. apply replay_done in H as [-> Hs]. split; [done|]. intros ch Hch Hv. apply Hs. by apply list_elem_of_filter.
Qed.
Lemma replay_publish inp cs ks v pub cs' :
  replay inp cs [Publish ks; Query (DeleteChanges v)] pub cs' -> pub = ks /\ forall ch, ch ∈ cs -> v < ch.1 -> ch ∈ cs'.
Proof.
  intros H. remember [Publish ks; Query (DeleteChanges v)] as acts eqn:E.
  induction H as [|cs ch acts pub cs' _ IH| | | |cs ks' acts pub cs' H IH| |]; try done.
  - destruct (IH E) as [-> Hs]. set_solver.
  - simplify_eq. apply replay_delete in H as [-> Hs]. split; [|done]. apply app_nil_r.
Qed.

(** Nothing recorded before the round is lost when the changes can be read. *)
Lemma replay_changed inp cs v pub cs' :
  replay inp cs (changed_actions inp v) pub cs' -> ri_changes inp <> QError ->
  forall ch, ch ∈ cs -> if bool_decide (ch.1 <= v) then change_key ch ∈ pub else ch ∈ cs'.
Proof.
  intros H Hok.
  assert (forall cs acts, replay inp cs acts pub cs' ->
    acts = changed_actions inp v \/ acts = drop 1 (changed_actions inp v) \/ acts = drop 2 (changed_actions inp v) ->
    forall ch, ch ∈ cs -> if bool_decide (ch.1 <= v) then change_key ch ∈ pub else ch ∈ cs') as Hall; [|by eapply Hall; eauto].
  clear cs H. intros cs acts H. induction H as [|cs ch acts pub cs' _ IH|cs acts pub cs' _ IH|cs acts pub cs' _ IH|cs v' acts pub cs' Hq H _| | |];
    intros E x Hx; try (destruct E as [E|[E|E]]; discriminate E).
  - apply IH; [done|]. set_solver.
  - apply IH; [|done]. destruct E as [E|[E|E]]; [|discriminate E..]. injection E as ->. by right; left.
  - apply IH; [|done]. destruct E as [E|[E|E]]; [discriminate E| |discriminate E]. injection E as ->. by right; right.
  - destruct E as [E|[E|E]]; [discriminate E..|]. injection E as -> ->. destruct Hq as [Hq|Hq]; [done|].
    apply replay_publish in H as [-> Hkeep]. rewrite Hq. simpl. case_bool_decide as Hv; [|apply Hkeep; [done|lia]].
    apply list_elem_of_fmap. exists x.2. split; [done|]. apply list_elem_of_fmap. exists x. split; [done|].
    by apply list_elem_of_filter.
Qed.

(** (C34) One round of the background check, on every branch.  When the version read is another one, the
    round reads the table, then the changes up to the new version, publishes exactly these, and then
    deletes the changes up to the new version, in this order.  Otherwise, at the end of the period, it
    only reads the table, and before that it does nothing more.  Where the table could be read, readers
    get exactly the new one and the time is noted; else they keep the one they had.  Against the database, with
    others adding changes at any moment: every change recorded before the round is published if
    its version is not above the one read, and else still recorded, provided that the changes can be read. *)
Theorem check_round_spec wait inp last r :
  let '(acts, last', r') := check_round wait inp last r in
  let reloaded := match ri_routes inp with
                  | QRows rows => last' = ri_loaded inp /\ _data_pointer r' = foldl add_row ∅ rows /\ _temp_pointer r' = _data_pointer r
                  | _ => last' = last /\ _data_pointer r' = _data_pointer r /\ _temp_pointer r' = ∅
                  end in
  (exists v vs, ri_version inp = QRows (v :: vs) /\ v <> _version r /\ _version r' = v /\ acts = changed_actions inp v /\ reloaded /\
    forall cs pub cs', replay inp cs acts pub cs' -> ri_changes inp <> QError ->
      forall ch, ch ∈ cs -> if bool_decide (ch.1 <= v) then change_key ch ∈ pub else ch ∈ cs') \/
  match ri_version inp with
  | QRows (v :: _) => v = _version r
  | _ => True
  end /\
  _version r' = _version r /\
  if bool_decide (ri_current inp - last >= wait)
  then acts = [Query SelectVersion; Query SelectRouteData] /\ reloaded
  else acts = [Query SelectVersion] /\ last' = last /\ r' = r.
Proof.
  unfold check_round, load_version, reload, load_route_data.
  destruct inp as [cur loaded ver routes changes]. simpl.
  destruct ver as [| |[|v vs]]; simpl;
    try (case_bool_decide; [destruct routes|]; simpl; right; by split_and!).
  case_bool_decide as E; simpl.
  - case_bool_decide; [destruct routes|]; simpl; right; by split_and!.
  - destruct routes as [| |rows]; simpl; left; exists v, vs; (split_and!; try done);
      intros cs pub cs' H Hok; exact (replay_changed _ cs v pub cs' H Hok).
Qed.

(** When the changes cannot be read, those up to the new version are deleted all the same and
    were never published. *)
Theorem changes_lost wait ver cur loaded routes last r cs :
  ver <> _version r ->
  let inp := RoundIn cur loaded (QRows [ver]) routes QError in
  replay inp cs (check_round wait inp last r).1.1 [] (filter (fun ch => ver < ch.1) cs).
Proof.
  intros Hv inp. assert ((check_round wait inp last r).1.1 = changed_actions inp ver) as ->.
  { unfold check_round, load_version, reload, load_route_data. simpl. rewrite bool_decide_eq_false_2 by done. simpl.
    by destruct routes. }
  apply rp_version, rp_routes, rp_select; [by left|]. apply (rp_publish inp cs [] _ []), rp_delete, rp_done.
Qed.
