(* ===== verification/Subscribe.v ===== *)
(** * SubscribeList: who is told about route changes (lrlb_dns/include/subscribe.h,
      src/subscribe.cpp)

    [_book_list] maps a service to the connections subscribed to it, [_push_list]
    a connection to the changed services it still has to be told.  The two
    mutexes make every method atomic. *)

From S2P Require Import Prelude.
From S2P Require Import ThreadPool.

(** [subscribe_map] and [publish_map]. *)
Abbreviation subscribe_map := (gmap Z (gset Z)).
Abbreviation publish_map := (gmap Z (gset Z)).

(** [class SubscribeList]. *)
Record SubscribeList := Subs { _book_list : subscribe_map; _push_list : publish_map }.

(** [SubscribeList::SubscribeList]. *)
Definition SubscribeList_new : SubscribeList := Subs ∅ ∅.

(** The set of a key, as [operator[]] finds it. *)
Definition entry (m : gmap Z (gset Z)) (k : Z) : gset Z := default ∅ (m !! k).

(** [map[k].insert(x)]. *)
Definition insert_in (k x : Z) (m : gmap Z (gset Z)) : gmap Z (gset Z) := <[k := {[x]} ∪ entry m k]> m.

(** [SubscribeList::subscribe]. *)
Definition subscribe (mod_ fd : Z) (s : SubscribeList) : SubscribeList :=
  Subs (insert_in mod_ fd (_book_list s)) (_push_list s).

(** [SubscribeList::unsubscribe]. *)
Definition unsubscribe (mod_ fd : Z) (s : SubscribeList) : SubscribeList :=
  match _book_list s !! mod_ with
  | None => s
  | Some fds =>
      let fds := fds ∖ {[fd]} in
      Subs (if bool_decide (fds = ∅) then delete mod_ (_book_list s) else <[mod_ := fds]> (_book_list s))
           (_push_list s)
  end.

(** The loop of [publish] for one changed service: its subscribers get it on their
    push list. *)
Definition publish_one (book : subscribe_map) (push : publish_map) (mod_ : Z) : publish_map :=
  match book !! mod_ with
  | None => push
  | Some fds => foldl (fun push fd => insert_in fd mod_ push) push (elements fds)
  end.

(** [SubscribeList::publish] up to the notification of the threads. *)
Definition publish_lists (change_mods : list Z) (s : SubscribeList) : SubscribeList :=
  Subs (_book_list s) (foldl (publish_one (_book_list s)) (_push_list s) change_mods).

(** [SubscribeList::publish]: every worker thread gets the push task. *)
Definition publish {TF A E} `{!EventFd E} (push_change_task : TF) (this : A) (change_mods : list Z)
    (s : SubscribeList) (p : thread_pool TF A E) : SubscribeList * thread_pool TF A E :=
  (publish_lists change_mods s, send_task push_change_task (Some this) p).

(** [SubscribeList::make_publish_map]: what is due for the given descriptors, which
    leaves the push list. *)
Definition make_publish_map (online_fds : gset Z) (s : SubscribeList) : publish_map * SubscribeList :=
  (filter (fun kv => kv.1 ∈ online_fds) (_push_list s),
   Subs (_book_list s) (filter (fun kv => kv.1 ∉ online_fds) (_push_list s))).

(** ** What the lists say *)
Lemma elem_of_insert_in k x m k' x' :
  x' ∈ entry (insert_in k x m) k' <-> x' ∈ entry m k' \/ (k = k' /\ x = x').
Proof.
  unfold entry, insert_in. rewrite lookup_insert. case_decide as E; simpl; [|naive_solver].
  subst k'. rewrite elem_of_union, elem_of_singleton. unfold entry. naive_solver.
Qed.

(** A service without subscribers has no entry. *)
Definition no_empty (m : gmap Z (gset Z)) : Prop := forall k S, m !! k = Some S -> S <> ∅.

Lemma no_empty_insert_in k x m : no_empty m -> no_empty (insert_in k x m).
Proof.
  intros H k' S. unfold insert_in. rewrite lookup_insert. case_decide; [|apply H]. intros [= <-]. set_solver.
Qed.

Lemma elem_of_unsubscribe mod_ fd s mod' fd' :
  fd' ∈ entry (_book_list (unsubscribe mod_ fd s)) mod' <->
  fd' ∈ entry (_book_list s) mod' /\ ~ (mod' = mod_ /\ fd' = fd).
Proof.
  unfold unsubscribe, entry. destruct (_book_list s !! mod_) as [fds|] eqn:E; simpl.
  - destruct (decide (mod' = mod_)) as [->|Hne].
    + rewrite E. simpl. case_bool_decide as He; [rewrite lookup_delete_eq|rewrite lookup_insert_eq]; simpl.
      * split; [intros H; by apply not_elem_of_empty in H|]. intros [H1 H2].
        assert (fd' ∈ fds ∖ {[fd]}) as Hin by set_solver. rewrite He in Hin. by apply not_elem_of_empty in Hin.
      * rewrite elem_of_difference, elem_of_singleton. naive_solver.
    + case_bool_decide; [rewrite lookup_delete_ne by done|rewrite lookup_insert_ne by done]; naive_solver.
  - split; [|naive_solver]. intros H. split; [done|]. intros [-> ->]. rewrite E in H. by apply not_elem_of_empty in H.
Qed.

Lemma no_empty_unsubscribe mod_ fd s : no_empty (_book_list s) -> no_empty (_book_list (unsubscribe mod_ fd s)).
Proof.
  intros H. unfold unsubscribe. destruct (_book_list s !! mod_) as [fds|]; [|done]. simpl.
  case_bool_decide as He; intros k S.
  - intros [_ ?]%lookup_delete_Some. by eapply H.
  - rewrite lookup_insert. case_decide; [by intros [= <-]|apply H].
Qed.

Lemma elem_of_publish_one book push mod_ fd m :
  m ∈ entry (publish_one book push mod_) fd <->
  m ∈ entry push fd \/ (m = mod_ /\ fd ∈ entry book mod_).
Proof.
  unfold publish_one. unfold entry at 3. destruct (book !! mod_) as [fds|]; simpl.
  - assert (forall l push, m ∈ entry (foldl (fun push fd => insert_in fd mod_ push) push l) fd <->
      m ∈ entry push fd \/ (m = mod_ /\ fd ∈ l)) as Hl.
    { induction l as [|x l IH]; intros p; simpl.
      - split; [by left|]. intros [|[_ Hn]]; [done|]. by apply not_elem_of_nil in Hn.
      - rewrite IH, elem_of_insert_in, elem_of_cons. naive_solver. }
    by rewrite Hl, elem_of_elements.
  - split; [by left|]. intros [|[_ Hn]]; [done|]. by apply not_elem_of_empty in Hn.
Qed.

Lemma elem_of_publish_lists changes s fd m :
  m ∈ entry (_push_list (publish_lists changes s)) fd <->
  m ∈ entry (_push_list s) fd \/ (m ∈ changes /\ fd ∈ entry (_book_list s) m).
Proof.
  unfold publish_lists. simpl. generalize (_push_list s) as push. induction changes as [|c cs IH]; intros push; simpl.
  - split; [by left|]. intros [|[Hn _]]; [done|]. by apply not_elem_of_nil in Hn.
  - rewrite IH, elem_of_publish_one, elem_of_cons. naive_solver.
Qed.

Lemma entry_filter (P : Z -> Prop) `{HP : !forall kv : Z * gset Z, Decision (P kv.1)} (m : gmap Z (gset Z)) fd x :
  x ∈ entry (filter (fun kv => P kv.1) m) fd <-> P fd /\ x ∈ entry m fd.
Proof.
  unfold entry. destruct (HP (fd, ∅)) as [Hp|Hp]; simpl in Hp.
  - assert (filter (fun kv => P kv.1) m !! fd = m !! fd) as ->; [|naive_solver].
    destruct (m !! fd) as [S|] eqn:E; [by apply map_lookup_filter_Some|].
    apply map_lookup_filter_None. by left.
  - assert (filter (fun kv : Z * gset Z => P kv.1) m !! fd = None) as ->.
    { apply map_lookup_filter_None. right. intros S _. exact Hp. }
    split; [intros Hx; by apply not_elem_of_empty in Hx|naive_solver].
Qed.

(** A change reaches every online subscriber once: after [publish] the push task
    of a thread takes for its descriptors exactly what was pending for them and
    the changed services they are subscribed to; what it takes is no longer
    pending, and what is due on other threads stays pending. *)
Theorem publish_push online changes s fd m :
  let s1 := publish_lists changes s in
  let '(due, s2) := make_publish_map online s1 in
  (m ∈ entry due fd <->
   fd ∈ online /\ (m ∈ entry (_push_list s) fd \/ (m ∈ changes /\ fd ∈ entry (_book_list s) m))) /\
  (m ∈ entry (_push_list s2) fd <-> m ∈ entry (_push_list s1) fd /\ (fd ∉ online)) /\
  _book_list s2 = _book_list s.
Proof.
  cbv zeta. unfold make_publish_map. split_and!; [| |done].
  - etrans; [apply (entry_filter (fun k => k ∈ online))|]. by rewrite elem_of_publish_lists.
  - etrans; [apply (entry_filter (fun k => k ∉ online))|]. naive_solver.
Qed.

(** A change that is pending for a descriptor survives its [unsubscribe]: nobody is booked any more, and
    the next push task whose loop watches the descriptor, now of another connection, takes it. *)
Theorem stale_push online changes s fd m :
  m ∈ changes -> fd ∈ entry (_book_list s) m -> fd ∈ online ->
  let s1 := unsubscribe m fd (publish_lists changes s) in
  (fd ∉ entry (_book_list s1) m) /\ m ∈ entry (make_publish_map online s1).1 fd.
Proof.
  intros Hm Hfd Hon. cbv zeta. split; [rewrite elem_of_unsubscribe; naive_solver|].
  apply (entry_filter (fun k => k ∈ online)). split; [done|].
  assert (forall s, _push_list (unsubscribe m fd s) = _push_list s) as -> by (intros s'; unfold unsubscribe; by destruct (_book_list s' !! m)).
  apply elem_of_publish_lists. by right.
Qed.
