(* ===== verification/DnsServer.v ===== *)
(** * The DNS server (lrlb_dns/src/dns_server.cpp, and push_change_task of
      src/subscribe.cpp)

    A TCP server (TcpConn.v, TcpServer.v) whose hooks keep the subscriptions of a
    connection in its [param], whose message callback answers route requests from
    the table and subscribes the connection, and whose worker threads push
    changed routes to the subscribers they serve.  The application state of the
    server is the route table and the subscription lists. *)

From S2P Require Import Prelude.
From S2P Require Import IoBuf.
From S2P Require Import BufPool.
From S2P Require Import ReactorBuf.
From S2P Require Import Message.
From S2P Require Import EventLoop.
From S2P Require Import ThreadPool.
From S2P Require Import ConfigFile.
From S2P Require Import TcpConn.
From S2P Require Import Isolation.
From S2P Require Import TcpServer.
From S2P Require Import Proto.
From S2P Require Import DnsRoute.
From S2P Require Import Subscribe.

(** The hooks, the message callback and the task of the server. *)
Inductive dns_hook := create_subscribe | clear_subscribe.
Inductive dns_msg := get_route.
Inductive dns_task := push_change_task.

(** The singletons [Route::instance()] and [SubscribeList::instance()]. *)
Record dns_state := Dns { dns_route : Route; dns_subs : SubscribeList }.

Section Dns.
Context {K : Type} `{!Epoll K} `{!Protobuf}.
Context (raw : Z -> list byte).

(** [param] points to the connection's [client_sub_mod_list]. *)
Abbreviation dworld := (world K dns_hook dns_msg dns_task (gset Z) dns_state).

Definition set_subs (s : SubscribeList) (w : dworld) : dworld :=
  set_user (Dns (dns_route (w_user w)) s) w.

(** [create_subscribe] and [clear_subscribe]. *)
Definition run_hook (h : dns_hook) (this : loc) (w : dworld) : res dworld :=
  c ← obj this w;
  match h with
  | create_subscribe => Ret (set_obj this (set_param (Some ∅) c) w)
  | clear_subscribe =>
      sub_list ← deref (param c);
      let subs := foldl (fun s m => unsubscribe m (_connfd c) s) (dns_subs (w_user w)) (elements sub_list) in
      Ret (set_obj this (set_param None c) (set_subs subs w))
  end.

(** The answer to a request for a service. *)
Definition route_response (modid cmdid : Z) (r : Route) : GetRouteResponse :=
  MkRouteRsp modid cmdid (value_host <$> elements (get_hosts modid cmdid r)).

(** [get_route], the subscription. *)
Definition subscribe_conn (m : Z) (this : loc) (w : dworld) : res dworld :=
  c ← obj this w;
  sub_list ← deref (param c);
  Ret (if bool_decide (m ∈ sub_list) then w
       else set_obj this (set_param (Some ({[m]} ∪ sub_list)) c)
              (set_subs (subscribe m (_connfd c) (dns_subs (w_user w))) w)).

(** [get_route]. *)
Definition run_msg (cb : dns_msg) (data : list byte) (len id : Z) (ud : option io_arg) (this : loc)
    (w : dworld) : res dworld :=
  let req : GetRouteRequest := parse data in
  w ← subscribe_conn (make_key (rq_modid req) (rq_cmdid req)) this w;
  let rsp := route_response (rq_modid req) (rq_cmdid req) (dns_route (w_user w)) in
  '(_, w) ← send_message raw (serialize rsp) ID_GetRouteResponse this w;
  Ret w.

(** The pushes of one connection, and of all due ones. *)
Fixpoint push_mods (fd : Z) (mods : list Z) (w : dworld) : res dworld :=
  match mods with
  | [] => Ret w
  | st :: mods =>
      let rsp := route_response (key_hi st) (key_lo st) (dns_route (w_user w)) in
      conn ← read_conn fd (w_srv w);
      w ← match conn with
          | None => Ret w
          | Some c => '(_, w) ← send_message raw (serialize rsp) ID_GetRouteResponse c w; Ret w
          end;
      push_mods fd mods w
  end.
Fixpoint push_all (due : list (Z * gset Z)) (w : dworld) : res dworld :=
  match due with
  | [] => Ret w
  | (fd, mods) :: due => w ← push_mods fd (elements mods) w; push_all due w
  end.

(** [push_change_task] on loop number [loop]. *)
Definition run_task (loop : nat) (w : dworld) : res dworld :=
  l ← deref (w_loops w !! loop);
  let online_fds := get_listen_fds l in
  let '(need_publish, subs) := make_publish_map online_fds (dns_subs (w_user w)) in
  push_all (map_to_list need_publish) (set_subs subs w).

(** [main], up to the background thread and [event_process]. *)
Definition dns_main {E} `{!EventFd E} (sock bnd lst : Z) (stale : pool_ptr E dns_task) (w : dworld)
    : res (tcp_server E dns_task * dworld) :=
  '(sv, w) ← tcp_server_new3 sock bnd lst stale 0%nat w;
  let w := set_conn_start (Some create_subscribe) w in
  let w := set_conn_close (Some clear_subscribe) w in
  Ret (sv, add_msg_router ID_GetRouteRequest get_route None w).

(** The address and port of the server. *)
Definition dns_addr (mp : config_map) : str * Z :=
  (GetString mp (text "reactor") (text "ip") (text "0.0.0.0"),
   s16 (GetNumber mp (text "reactor") (text "port") 7778)).

(** ** Subscriptions *)
Definition book (w : dworld) (m : Z) : gset Z := entry (_book_list (dns_subs (w_user w))) m.

(** The registered hooks. *)
Definition hooks (w : dworld) : option dns_hook * option dns_hook :=
  (conn_start_cb (w_srv w), conn_close_cb (w_srv w)).

(** The hooks are in place; a connection with subscriptions is in the book of a service exactly when the
    service is in its own list; the book names no other descriptor. *)
Record subs_ok (w : dworld) : Prop := {
  so_own x c S m : w_objs w !! x = Some c -> param c = Some S -> (m ∈ S <-> _connfd c ∈ book w m);
  so_book m fd : fd ∈ book w m -> exists x c S, w_objs w !! x = Some c /\ param c = Some S /\ _connfd c = fd;
  so_fd x y c d S T : w_objs w !! x = Some c -> w_objs w !! y = Some d ->
    param c = Some S -> param d = Some T -> _connfd c = _connfd d -> x = y;
  so_empty : no_empty (_book_list (dns_subs (w_user w)));
  so_hooks : hooks w = (Some create_subscribe, Some clear_subscribe)
}.

(** Objects, subscriptions and hooks that agree up to buffers. *)
Definition same_subs (w w' : dworld) : Prop :=
  hooks w' = hooks w /\
  _book_list (dns_subs (w_user w')) = _book_list (dns_subs (w_user w)) /\
  forall x, (fun c => (_connfd c, param c)) <$> w_objs w' !! x = (fun c => (_connfd c, param c)) <$> w_objs w !! x.

Lemma subs_ok_same w w' : same_subs w w' -> subs_ok w -> subs_ok w'.
Proof.
  intros (Hh & Hu & Ho) [H1 H2 H3 H4 H5].
  assert (forall x c', w_objs w' !! x = Some c' -> exists c, w_objs w !! x = Some c /\ _connfd c = _connfd c' /\ param c = param c') as Hb.
  { intros x c' Hx. specialize (Ho x). rewrite Hx in Ho. destruct (w_objs w !! x) as [c|]; naive_solver. }
  assert (forall x c, w_objs w !! x = Some c -> exists c', w_objs w' !! x = Some c' /\ _connfd c' = _connfd c /\ param c' = param c) as Hf.
  { intros x c Hx. specialize (Ho x). rewrite Hx in Ho. destruct (w_objs w' !! x) as [c'|]; naive_solver. }
  split; unfold book in *; rewrite ?Hu in *.
  - intros x c' S m Hx Hp. destruct (Hb x c' Hx) as (c & Hc & <- & Hp'). apply (H1 x c S m Hc). congruence.
  - intros m fd Hin. destruct (H2 m fd Hin) as (x & c & S & Hx & Hp & Hfd).
    destruct (Hf x c Hx) as (c' & ? & ? & ?). exists x, c', S. split_and!; congruence.
  - intros x y c' d' S T Hx Hy Hp Hq Hfd. destruct (Hb x c' Hx) as (c & ? & ? & ?).
    destruct (Hb y d' Hy) as (d & ? & ? & ?). apply (H3 x y c d S T); congruence.
  - done.
  - by rewrite Hh.
Qed.

(** A world in which the object [this] has the given [param] and only the book has
    changed. *)
Lemma subs_ok_update w w' this c S' :
  subs_ok w -> w_objs w' = <[this := set_param S' c]> (w_objs w) -> hooks w' = hooks w ->
  w_objs w !! this = Some c ->
  (forall y d T, w_objs w !! y = Some d -> param d = Some T -> _connfd d = _connfd c -> y = this) ->
  no_empty (_book_list (dns_subs (w_user w'))) ->
  (forall m fd, fd ∈ book w' m <->
     (fd <> _connfd c /\ fd ∈ book w m) \/ (fd = _connfd c /\ exists T, S' = Some T /\ m ∈ T)) ->
  subs_ok w'.
Proof.
  intros [H1 H2 H3 H4 H5] Ho Hh Hc Hfd Hne Hbook. split; rewrite ?Ho, ?Hh; try done.
  - intros x d S m. rewrite lookup_insert. case_decide as E.
    + intros [= <-] Hp. simpl in Hp. subst S'. simpl. rewrite Hbook. naive_solver.
    + intros Hx Hp. rewrite Hbook, (H1 x d S m Hx Hp).
      assert (_connfd d <> _connfd c) by (intros Eq; apply E; symmetry; by eapply Hfd). naive_solver.
  - intros m fd. rewrite Hbook. intros [[Hn Hin]|(-> & T & -> & _)].
    + destruct (H2 m fd Hin) as (x & d & S & Hx & Hp & Hd). exists x, d, S.
      rewrite lookup_insert_ne; [done|]. intros <-. rewrite Hc in Hx. naive_solver.
    + exists this, (set_param (Some T) c), T. by rewrite lookup_insert_eq.
  - intros x y d e S T. rewrite !lookup_insert. do 2 case_decide; simplify_eq; try done.
    + intros [= <-] Hy _ Hq Hd. simpl in Hd. symmetry. by eapply Hfd.
    + intros Hx [= <-] Hp _ Hd. simpl in Hd. by eapply Hfd.
    + apply H3.
Qed.

Lemma same_subs_bufs w w' : bufs_only w w' -> same_subs w w'.
Proof.
  intros (Hs & Hu & _ & Ho). split; [unfold hooks; by rewrite Hs|]. split; [by rewrite Hu|].
  intros x. specialize (Ho x). destruct (w_objs w' !! x), (w_objs w !! x); simpl in *; congruence.
Qed.

(** Queueing a message changes buffers and registrations only. *)
Lemma send_message_same data id this w r w' :
  send_message raw data id this w = Ret (r, w') -> same_subs w w' /\ w_user w' = w_user w.
Proof. intros Hb%send_message_bufs. split; [by apply same_subs_bufs|apply Hb]. Qed.

(** So does pushing. *)
Lemma push_mods_bufs fd mods w w' : push_mods fd mods w = Ret w' -> bufs_only w w'.
Proof.
  revert w. induction mods as [|st mods IH]; intros w; simpl; [by intros [= <-]|].
  destruct (read_conn fd (w_srv w)) as [[c|]|]; [| |done]; cbn [mbind res_mbind]; [|apply IH].
  destruct (send_message raw _ _ c w) as [[r w1]|] eqn:Es; [|done]. cbn [mbind res_mbind]. intros Hr.
  apply send_message_bufs in Es. eapply bufs_only_trans; [exact Es|by apply IH].
Qed.

Lemma push_all_bufs due w w' : push_all due w = Ret w' -> bufs_only w w'.
Proof.
  revert w. induction due as [|[fd mods] due IH]; intros w; simpl; [by intros [= <-]|].
  destruct (push_mods fd (elements mods) w) as [w1|] eqn:Ep; [|done]. cbn [mbind res_mbind]. intros Hr.
  apply push_mods_bufs in Ep. eapply bufs_only_trans; [exact Ep|by apply IH].
Qed.

(** ** Executions

    The steps of the worker threads and of the background thread, in any order: a
    connection is opened, its socket becomes readable or writable, it is closed, the table is
    checked, changes are published, a thread runs its push task. *)
Inductive dns_event :=
| EvOpen (x : loc) (fd : Z) (loop : nat)
| EvRead (x : loc) (fionread : option Z) (ks : list (list byte + errno))
| EvWrite (x : loc) (kss : list (list (Z + errno)))
| EvClose (x : loc)
| EvCheck (wait : Z) (inp : round_in) (last : Z)
| EvPublish (changes : list Z)
| EvPush (loop : nat).

Definition dns_step (ev : dns_event) (w : dworld) : res dworld :=
  match ev with
  | EvOpen x fd loop => tcp_conn_new run_hook x fd loop w
  | EvRead x fionread ks => do_read raw run_hook run_msg fionread ks x w
  | EvWrite x kss => do_write run_hook kss x w
  | EvClose x => clean_conn run_hook x w
  | EvCheck wait inp last => Ret (set_user (Dns (check_round wait inp last (dns_route (w_user w))).2 (dns_subs (w_user w))) w)
  | EvPublish changes => Ret (set_subs (publish_lists changes (dns_subs (w_user w))) w)
  | EvPush loop => run_task loop w
  end.

(** A connection is opened at a fresh address on a descriptor no open connection
    has; [FIONREAD] gives no negative number. *)
Definition dns_guard (ev : dns_event) (w : dworld) : Prop :=
  match ev with
  | EvOpen x fd _ => w_objs w !! x = None /\
      forall y d, w_objs w !! y = Some d -> _connfd d <> fd
  | EvRead _ fionread _ => forall n, fionread = Some n -> 0 <= n
  | _ => True
  end.

Inductive dns_reach : dworld -> Prop :=
| dns_init {E} `{!EventFd E} sock bnd lst (stale : pool_ptr E dns_task) w sv w' :
    w_objs w = ∅ -> dns_subs (w_user w) = SubscribeList_new -> (exists fl, pool_ok (w_mem w) fl) ->
    dns_main sock bnd lst stale w = Ret (sv, w') -> dns_reach w'
| dns_next ev w w' : dns_reach w -> dns_guard ev w -> dns_step ev w = Ret w' -> dns_reach w'.

Lemma unsubscribe_all_book fd ms s m x :
  x ∈ entry (_book_list (foldl (fun s m => unsubscribe m fd s) s ms)) m <->
  x ∈ entry (_book_list s) m /\ ~ (x = fd /\ m ∈ ms).
Proof.
  revert s. induction ms as [|m0 ms IH]; intros s; simpl.
  - split; [|naive_solver]. intros H'. split; [done|]. intros [_ Hn]. by apply not_elem_of_nil in Hn.
  - rewrite IH, elem_of_unsubscribe, elem_of_cons. naive_solver.
Qed.

Lemma unsubscribe_all_empty fd ms s :
  no_empty (_book_list s) -> no_empty (_book_list (foldl (fun s m => unsubscribe m fd s) s ms)).
Proof. revert s. induction ms as [|m ms IH]; intros s Hs; simpl; [done|]. by apply IH, no_empty_unsubscribe. Qed.

(** [create_subscribe] on a new connection. *)
Lemma create_ok x fd loop w w' :
  subs_ok w -> dns_guard (EvOpen x fd loop) w ->
  run_hook create_subscribe x (set_obj x (TcpConn fd loop reactor_buf_new reactor_buf_new None) w) = Ret w' ->
  subs_ok w'.
Proof.
  intros Hok [Hx Hfd]. unfold run_hook, obj. cbn [w_objs set_obj]. rewrite lookup_insert_eq.
  cbn [mbind res_mbind deref]. intros [= <-].
  set (c := TcpConn _ _ _ _ _). set (w0 := set_obj x c w).
  assert (subs_ok w0) as Hok0.
  { destruct Hok as [H1 H2 H3 H4 H5]. split; simpl; try done.
    - intros y d S m. rewrite lookup_insert. case_decide; [by intros [= <-]|apply H1].
    - intros m fd' Hin. destruct (H2 m fd' Hin) as (y & d & S & Hy & ? & ?). exists y, d, S.
      rewrite lookup_insert_ne; [done|congruence].
    - intros y z d e S T. rewrite !lookup_insert. do 2 case_decide; simplify_eq; naive_solver. }
  apply (subs_ok_update w0 _ x c (Some ∅)); try done.
  - apply lookup_insert_eq.
  - intros y d T. simpl. rewrite lookup_insert. case_decide; [done|]. intros Hy Hp Hd. exfalso. by eapply (Hfd y d).
  - apply (so_empty _ Hok).
  - intros m fd'. unfold book. simpl. split.
    + intros Hin. left. split; [|done]. intros ->.
      destruct (so_book _ Hok m fd Hin) as (y & d & S & Hy & Hp & Hd). by eapply (Hfd y d).
    + intros [[_ ?]|(_ & T & [= <-] & Hn)]; [done|]. by apply not_elem_of_empty in Hn.
Qed.

Lemma write_conn_hooks fd p d s s' :
  write_conn fd p d s = Ret s' ->
  conn_start_cb s' = conn_start_cb (HK := dns_hook) (MK := dns_msg) s /\ conn_close_cb s' = conn_close_cb s.
Proof. unfold write_conn. case_bool_decide; [|done]. by intros [= <-]. Qed.

Lemma open_ok x fd loop w w' :
  subs_ok w -> dns_guard (EvOpen x fd loop) w -> dns_step (EvOpen x fd loop) w = Ret w' -> subs_ok w'.
Proof.
  intros Hok Hg. unfold dns_step, tcp_conn_new. pose proof (so_hooks _ Hok) as Hh. unfold hooks in Hh.
  injection Hh as Hstart _. cbn [w_srv set_obj]. rewrite Hstart. cbn [run_hook_opt].
  intros Hr. res_inv. match goal with H : run_hook _ _ _ = Ret ?w1 |- _ => rename w1 into w1; apply create_ok in H; [|done|done] end.
  unfold on_loop in *. res_inv. subst.
  match goal with H : increase_conn _ _ _ = Ret _ |- _ => apply write_conn_hooks in H as [E1 E2] end.
  eapply subs_ok_same; [|eassumption]. split_and!; [|done|done]. unfold hooks. simpl. by rewrite E1, E2.
Qed.

Lemma subscribe_ok m x w w' : subs_ok w -> subscribe_conn m x w = Ret w' -> subs_ok w'.
Proof.
  intros Hok. unfold subscribe_conn, obj. destruct (w_objs w !! x) as [c|] eqn:Ec; [|done]. cbn [mbind res_mbind deref].
  destruct (param c) as [S|] eqn:Ep; [|done]. cbn [mbind res_mbind deref]. intros [= <-].
  case_bool_decide as Hin; [done|].
  apply (subs_ok_update w _ x c (Some ({[m]} ∪ S))); try done.
  - intros y d T Hy Hp Hd. by eapply (so_fd _ Hok y x d c).
  - simpl. apply no_empty_insert_in, (so_empty _ Hok).
  - intros m' fd. unfold book. simpl. rewrite elem_of_insert_in.
    pose proof (so_own _ Hok x c S m' Ec Ep) as Hown. unfold book in Hown.
    destruct (decide (fd = _connfd c)) as [->|]; [|naive_solver]. rewrite <-Hown. split.
    + intros [Hm|[<- _]]; right; (split; [done|]); eexists; (split; [done|]);
        apply elem_of_union; [by right|left; by apply elem_of_singleton].
    + intros [[? _]|(_ & T & [= <-] & Hm)]; [done|]. rewrite elem_of_union, elem_of_singleton in Hm. naive_solver.
Qed.

(** [clear_subscribe]: the connection is left without subscriptions. *)
Lemma clear_ok x w w' :
  subs_ok w -> run_hook clear_subscribe x w = Ret w' ->
  subs_ok w' /\ exists c, w_objs w' !! x = Some c /\ param c = None.
Proof.
  intros Hok. unfold run_hook, obj. destruct (w_objs w !! x) as [c|] eqn:Ec; [|done].
  cbn [mbind res_mbind deref]. destruct (param c) as [S|] eqn:Ep; [|done]. cbn [mbind res_mbind deref].
  intros [= <-]. split; [|exists (set_param None c); split; [apply lookup_insert_eq|done]].
  apply (subs_ok_update w _ x c None); try done.
  - intros y d T Hy Hp Hd. by eapply (so_fd _ Hok y x d c).
  - apply unsubscribe_all_empty, (so_empty _ Hok).
  - intros m fd. unfold book. simpl. rewrite unsubscribe_all_book, elem_of_elements.
    pose proof (so_own _ Hok x c S m Ec Ep) as Hown. unfold book in Hown.
    destruct (decide (fd = _connfd c)) as [->|]; [|naive_solver]. rewrite Hown. naive_solver.
Qed.

(** A connection without subscriptions may change its descriptor. *)
Lemma subs_ok_closed x c c' w w' :
  subs_ok w -> w_objs w !! x = Some c -> param c = None -> param c' = None ->
  w_objs w' = <[x := c']> (w_objs w) -> w_user w' = w_user w -> hooks w' = hooks w -> subs_ok w'.
Proof.
  intros [H1 H2 H3 H4 H5] Hc Hp Hp' Ho Hu Hh. split; unfold book in *; rewrite ?Ho, ?Hu, ?Hh; try done.
  - intros y d T m. rewrite lookup_insert. case_decide; [intros [= <-]; congruence|]. apply H1.
  - intros m fd Hin. destruct (H2 m fd Hin) as (y & d & T & Hy & ? & ?). exists y, d, T.
    rewrite lookup_insert_ne; [done|congruence].
  - intros y z d e T R. rewrite !lookup_insert. case_decide; [intros [= <-]; congruence|].
    case_decide; [intros _ [= <-]; congruence|]. apply H3.
Qed.

Lemma close_ok x w w' : subs_ok w -> dns_step (EvClose x) w = Ret w' -> subs_ok w'.
Proof.
  intros Hok. unfold dns_step, clean_conn. pose proof (so_hooks _ Hok) as Hh. unfold hooks in Hh.
  injection Hh as _ Hclose. rewrite Hclose. cbn [run_hook_opt].
  intros Hr. res_inv. match goal with H : run_hook _ _ _ = Ret ?w1 |- _ => apply clear_ok in H as (Hok1 & c1 & Hc1 & Hp1); [|done] end.
  unfold on_loop, obj in *. res_inv. subst. simplify_eq.
  match goal with H : decrease_conn _ _ = Ret _ |- _ => apply write_conn_hooks in H as [E1 E2] end.
  eapply (subs_ok_closed x c1 _ x0); cycle 4; [reflexivity|reflexivity| |exact Hok1|exact Hc1|exact Hp1|exact Hp1].
  unfold hooks. simpl. by rewrite E1, E2.
Qed.

Lemma route_ok cb data len id ud x w w' : run_msg cb data len id ud x w = Ret w' -> subs_ok w -> subs_ok w'.
Proof.
  intros Hr Hok. unfold run_msg in Hr. destruct (subscribe_conn _ x w) as [w1|] eqn:Es; [|done]. cbn [mbind res_mbind] in Hr.
  destruct (send_message raw _ _ x w1) as [[r w2]|] eqn:Em; [|done]. cbn [mbind res_mbind] in Hr. injection Hr as <-.
  apply subscribe_ok in Es; [|done]. apply send_message_same in Em as [Hs _]. by eapply subs_ok_same.
Qed.

Lemma subs_ok_bufs w w' : bufs_only w w' -> subs_ok w -> subs_ok w'.
Proof. intros Hb. by apply subs_ok_same, same_subs_bufs. Qed.

Lemma dns_step_ok ev w w' : subs_ok w -> dns_guard ev w -> dns_step ev w = Ret w' -> subs_ok w'.
Proof.
  intros Hok Hg. destruct ev as [x fd loop|x fionread ks|x kss|x|wait inp last|changes|loop].
  - by apply open_ok.
  - simpl. intros Hr. revert Hr Hok. apply do_read_keeps; [apply subs_ok_bufs|intros *; apply route_ok|].
    intros w1 w2 Hc Hok1. by eapply (close_ok x).
  - simpl. intros Hr. revert Hr Hok. apply do_write_keeps; [apply subs_ok_bufs|].
    intros w1 w2 Hc Hok1. by eapply (close_ok x).
  - by apply close_ok.
  - intros [= <-]. eapply subs_ok_same; [|done]. done.
  - intros [= <-]. eapply subs_ok_same; [|done]. done.
  - simpl. unfold run_task. destruct (w_loops w !! loop) as [l|]; [|done]. cbn [mbind res_mbind deref].
    unfold make_publish_map. intros Hp%push_all_bufs. eapply subs_ok_bufs; [exact Hp|].
    apply (subs_ok_same w); [done|exact Hok].
Qed.

(** [main] registers the hooks and opens no connection. *)
Lemma dns_main_same {E} `{!EventFd E} sock bnd lst (stale : pool_ptr E dns_task) w sv w' :
  dns_main sock bnd lst stale w = Ret (sv, w') ->
  hooks w' = (Some create_subscribe, Some clear_subscribe) /\ w_objs w' = w_objs w /\ w_user w' = w_user w.
Proof.
  unfold dns_main, tcp_server_new3, tcp_server_new. repeat (case_bool_decide; [done|]). intros Hr.
  res_inv. unfold on_loop in *. res_inv. by simplify_eq.
Qed.

Lemma dns_reach_ok w : dns_reach w -> subs_ok w.
Proof.
  induction 1 as [E ? sock bnd lst stale w sv w' Ho Hs _ Hm|ev w w' _ IH Hg Hstep]; [|by eapply dns_step_ok].
  apply dns_main_same in Hm as (Hh & Ho' & Hu'). split; unfold book; rewrite ?Ho', ?Hu', ?Ho, ?Hs; try done.
Qed.

(** The subscription lists stay consistent: in every state the server reaches a
    connection is booked for a service exactly when it has asked for it, no
    closed connection is booked, and no empty entry is kept. *)
Theorem dns_reach_subs w : dns_reach w -> subs_ok w.
Proof. apply dns_reach_ok. Qed.

(** ** Answers *)
Context (raw_len : forall n, 0 <= n -> zlen (raw n) = n) `{!Others (gset Z)}.

(** Subscribing leaves the buffers of the connection alone. *)
Lemma subscribe_repr m this w fl c ib ob S :
  subs_ok w -> conn_repr this w fl c ib ob -> param c = Some S ->
  exists w1 c1, subscribe_conn m this w = Ret w1 /\ conn_repr this w1 fl c1 ib ob /\
    _connfd c1 = _connfd c /\ _loop c1 = _loop c /\ _connfd c ∈ book w1 m /\
    w_loops w1 = w_loops w /\ dns_route (w_user w1) = dns_route (w_user w) /\ w_mem w1 = w_mem w.
Proof.
  intros Hok Hc Hp. pose proof Hc as (Ho & Hok' & Hi & Hob & Hne & Hap). unfold subscribe_conn, obj. rewrite Ho.
  cbn [mbind res_mbind deref]. rewrite Hp. cbn [mbind res_mbind deref]. case_bool_decide as Hin.
  - exists w, c. split_and!; try done. by apply (so_own _ Hok this c S m Ho Hp).
  - eexists _, _. split; [done|]. split.
    { split; [apply lookup_insert_eq|]. split_and!; try done. by eapply apart_put. }
    split_and!; try done. unfold book. simpl. apply elem_of_insert_in. by right.
Qed.

Lemma route_hosts rows modid cmdid r h :
  _data_pointer r = foldl add_row ∅ rows -> Forall row_ok rows -> Forall (fun row => 0 <= row_port row) rows ->
  is_s32 modid -> is_s32 cmdid ->
  h ∈ rr_host (route_response modid cmdid r) <->
  exists row, row ∈ rows /\ row_modid row = modid /\ row_cmdid row = cmdid /\
    h = MkHostInfo (s32 (row_ip row)) (row_port row).
Proof.
  intros Hd Hok Hp Hm Hc. destruct r as [v d t]. simpl in Hd. subst d. unfold route_response. simpl.
  rewrite list_elem_of_fmap. rewrite list.Forall_forall in Hp. pose proof Hok as Hok'.
  rewrite list.Forall_forall in Hok'. split.
  - intros (x & -> & Hx). apply elem_of_elements, elem_of_hosts in Hx as (row & Hin & H1 & H2 & <-); try done.
    exists row. split_and!; try done. apply value_host_row; [apply Hok'|apply Hp]; done.
  - intros (row & Hin & H1 & H2 & ->). exists (row_value row). split.
    + symmetry. apply value_host_row; [apply Hok'|apply Hp]; done.
    + apply elem_of_elements, elem_of_hosts; try done. by exists row.
Qed.

(** A route request is answered from the table and subscribes the connection:
    unless the process is out of buffer memory, one frame is queued for the
    connection whose hosts are exactly the rows of the service, and the
    connection is booked for its changes. *)
Theorem get_route_answers rows modid cmdid len id ud this w fl c ib ob S :
  subs_ok w -> conn_repr this w fl c ib ob -> is_Some (w_loops w !! _loop c) -> param c = Some S ->
  _data_pointer (dns_route (w_user w)) = foldl add_row ∅ rows ->
  Forall row_ok rows -> Forall (fun row => 0 <= row_port row) rows -> is_s32 modid -> is_s32 cmdid ->
  match run_msg get_route (serialize (MkRouteReq modid cmdid)) len id ud this w with
  | Ret w' => exists hosts fl' c',
      (forall h, h ∈ hosts <-> exists row, row ∈ rows /\ row_modid row = modid /\ row_cmdid row = cmdid /\
         h = MkHostInfo (s32 (row_ip row)) (row_port row)) /\
      (zlen ob + MESSAGE_HEAD_LEN + zlen (serialize (MkRouteRsp modid cmdid hosts)) <= m4M ->
       conn_repr this w' fl' c' ib
         (ob ++ frame_bytes ID_GetRouteResponse (serialize (MkRouteRsp modid cmdid hosts)))) /\
      _connfd c ∈ book w' (make_key modid cmdid)
  | Stop e => e = Exit 0 /\ mem_short 8192 (w_mem w)
  end.
Proof.
  intros Hok Hc Hl Hp Hd Hrows Hports Hm Hcm. unfold run_msg. rewrite parse_serialize by done. cbn [rq_modid rq_cmdid].
  destruct (subscribe_repr (make_key modid cmdid) this w fl c ib ob S Hok Hc Hp)
    as (w1 & c1 & -> & Hc1 & Hfd & Hloop & Hb & Hls & Hr & Hmem). rewrite <-Hmem. cbn [mbind res_mbind].
  set (rsp := route_response modid cmdid (dns_route (w_user w1))).
  pose proof (send_message_ok raw raw_len (serialize rsp) ID_GetRouteResponse this w1 fl c1 ib ob Hc1) as Hs.
  rewrite Hls, Hloop in Hs. specialize (Hs Hl).
  destruct (send_message raw _ _ this w1) as [[r w2]|e] eqn:Es; [|done]. cbn [mbind res_mbind].
  apply send_message_same in Es as [_ Hu].
  exists (rr_host rsp). assert (rsp = MkRouteRsp modid cmdid (rr_host rsp)) as <- by done.
  assert (_connfd c ∈ book w2 (make_key modid cmdid)) as Hb2 by (unfold book; by rewrite Hu).
  assert (forall h, h ∈ rr_host rsp <-> exists row, row ∈ rows /\ row_modid row = modid /\ row_cmdid row = cmdid /\
    h = MkHostInfo (s32 (row_ip row)) (row_port row)) as Hh by (intros h; apply route_hosts; try done; by rewrite Hr).
  pose proof (zlen_nonneg (serialize rsp)) as Hnn.
  destruct r as [|r|r].
  - destruct Hs as (fl' & c' & Hc2 & _). by exists fl', c'.
  - destruct Hs as (_ & fl' & c' & [[Hbig _]|[Hbig _]]); exists fl', c'; (split; [done|]); split; [lia|done|lia|done].
  - destruct Hs as (_ & fl' & c' & [[Hbig _]|[Hbig _]]); exists fl', c'; (split; [done|]); split; [lia|done|lia|done].
Qed.

(** What is pushed for a changed service: one response with the hosts of the
    service to the connection, if it is still open.  A service with a negative
    cmdid is decoded with a modid one too low, so the response names another
    service and carries the hosts of that one. *)
Theorem push_decodes modid cmdid fd w :
  is_s32 modid -> is_s32 cmdid ->
  let m := if bool_decide (0 <= cmdid) then modid else s32 (modid - 1) in
  push_mods fd [make_key modid cmdid] w =
  (conn ← read_conn fd (w_srv w);
   match conn with
   | None => Ret w
   | Some c =>
       '(_, w) ← send_message raw (serialize (route_response m cmdid (dns_route (w_user w))))
                   ID_GetRouteResponse c w; Ret w
   end).
Proof.
  intros Hm Hc m. cbn [push_mods]. rewrite key_hi_make_key, key_lo_make_key by done.
  assert ((if decide (0 <= cmdid) then modid else s32 (modid - 1)) = m) as ->.
  { unfold m. by case_decide; case_bool_decide. }
  destruct (read_conn fd (w_srv w)) as [[c|]|]; cbn [mbind res_mbind]; [|done..].
  by destruct (send_message raw _ _ c w) as [[r w1]|].
Qed.
End Dns.

#[local] Existing Instance nobody.

(** ** A server to try the theorems on: one row, one connection. *)
Module DnsDemo.
Definition rows : list route_row := [Row 1 2 167772161 80].
Definition state : dns_state := Dns (MkRoute 0 (foldl add_row ∅ rows) ∅) SubscribeList_new.
Definition world0 : world (gmap Z Z) dns_hook dns_msg dns_task (gset Z) dns_state :=
  World empty_pool {[0%nat := event_loop_new]} ∅ (Statics ∅ 0 0 msg_router_new None None) state.
Definition conn0 : tcp_conn (gset Z) := TcpConn 5 0%nat None None (Some ∅).
Definition world1 : world (gmap Z Z) dns_hook dns_msg dns_task (gset Z) dns_state :=
  World empty_pool {[0%nat := event_loop_new]} {[1%positive := conn0]}
    (Statics {[5 := Some 1%positive]} 10 1 msg_router_new (Some create_subscribe) (Some clear_subscribe)) state.

Lemma world1_ok : subs_ok world1.
Proof.
  split; unfold book; simpl; try done.
  - intros x c S m Hx Hp. rewrite lookup_singleton in Hx. case_decide; [|done]. injection Hx as <-.
    injection Hp as <-. split; intros Hn; by apply not_elem_of_empty in Hn.
  - intros x y c d S T Hx Hy _ _ _. rewrite lookup_singleton in Hx, Hy. repeat case_decide; congruence.
Qed.
Lemma conn0_repr : conn_repr 1%positive world1 empty_free conn0 [] [].
Proof. split_and!; try done; [apply empty_pool_ok|by left]. Qed.
End DnsDemo.

Lemma dns_reach_subs_witness :
  exists sv w', dns_main (E := Z) 3 0 0 PoolNull DnsDemo.world0 = Ret (sv, w') /\ subs_ok w'.
Proof.
  assert (exists sv w', dns_main (E := Z) 3 0 0 PoolNull DnsDemo.world0 = Ret (sv, w')) as (sv & w' & Hm).
  { eexists _, _. reflexivity. }
  exists sv, w'. split; [exact Hm|]. apply (dns_reach_subs zero_raw).
  exact (dns_init zero_raw 3 0 0 PoolNull DnsDemo.world0 sv w' eq_refl eq_refl (ex_intro _ _ empty_pool_ok) Hm).
Defined.

Lemma get_route_answers_witness :
  exists w' hosts fl' c',
    run_msg zero_raw get_route (serialize (MkRouteReq 1 2)) 8 ID_GetRouteRequest None 1%positive DnsDemo.world1 = Ret w' /\
    (forall h, h ∈ hosts <-> exists row, row ∈ DnsDemo.rows /\ row_modid row = 1 /\ row_cmdid row = 2 /\
         h = MkHostInfo (s32 (row_ip row)) (row_port row)) /\
    (zlen (@nil byte) + MESSAGE_HEAD_LEN + zlen (serialize (MkRouteRsp 1 2 hosts)) <= m4M ->
     conn_repr 1%positive w' fl' c' [] (frame_bytes ID_GetRouteResponse (serialize (MkRouteRsp 1 2 hosts)))) /\
    5 ∈ book w' (make_key 1 2).
Proof.
  pose proof (get_route_answers zero_raw zero_raw_len DnsDemo.rows 1 2 8 ID_GetRouteRequest None 1%positive
    DnsDemo.world1 empty_free DnsDemo.conn0 [] [] ∅ DnsDemo.world1_ok DnsDemo.conn0_repr) as H.
  destruct (run_msg zero_raw get_route _ 8 ID_GetRouteRequest None 1%positive DnsDemo.world1) as [w'|e].
  - destruct H as (hosts & fl' & c' & H1 & H2 & H3); try reflexivity; unfold is_s32; try lia.
    + eexists. reflexivity.
    + repeat constructor; vm_compute; congruence.
    + repeat constructor; vm_compute; congruence.
    + exists w', hosts, fl', c'. split; [reflexivity|]. split; [exact H1|]. split; [exact H2|exact H3].
  - exfalso. destruct H as [_ Hs]; try reflexivity; unfold is_s32; try lia.
    + eexists. reflexivity.
    + repeat constructor; vm_compute; congruence.
    + repeat constructor; vm_compute; congruence.
    + vm_compute in Hs. congruence.
Defined.

Lemma push_decodes_witness :
  push_mods zero_raw 5 [make_key 4 (-1)] DnsDemo.world1 =
  ('(_, w) ← send_message zero_raw (serialize (route_response 3 (-1) (dns_route (w_user DnsDemo.world1))))
      ID_GetRouteResponse 1%positive DnsDemo.world1; Ret w).
Proof.
  rewrite (push_decodes zero_raw 4 (-1) 5 DnsDemo.world1).
  - reflexivity.
  - unfold is_s32. lia.
  - unfold is_s32. lia.
Defined.
