(* ===== verification/DnsSocket.v ===== *)
(** * The DNS server at its sockets

    The hooks and the callback of the DNS server (DnsServer.v) keep what the server
    library asks of an application, so that its theorems apply: bytes that arrive on
    a connection become answers from the table, queued in the order of the requests,
    and subscriptions; closing a connection gives its memory back and cancels its
    subscriptions. *)

From S2P Require Import Prelude.
From S2P Require Import IoBuf.
From S2P Require Import BufPool.
From S2P Require Import ReactorBuf.
From S2P Require Import Message.
From S2P Require Import EventLoop.
From S2P Require Import ThreadPool.
From S2P Require Import TcpConn.
From S2P Require Import TcpServer.
From S2P Require Import Proto.
From S2P Require Import DnsRoute.
From S2P Require Import Subscribe.
From S2P Require Import DnsServer.

Lemma subscribe_again m fd s : fd ∈ entry (_book_list s) m -> subscribe m fd s = s.
Proof.
  intros Hin. destruct s as [b p]. unfold subscribe, insert_in. cbn [_book_list _push_list] in *. f_equal.
  apply insert_id. unfold entry in *. destruct (b !! m) as [fds|]; cbn [default] in *.
  - f_equal. symmetry. apply subseteq_union_1_L. by apply singleton_subseteq_l.
  - by apply not_elem_of_empty in Hin.
Qed.

Section Socket.
Context {K : Type} `{!Epoll K} `{!Protobuf}.
Context (raw : Z -> list byte) (raw_len : forall n, 0 <= n -> zlen (raw n) = n) `{!Others (gset Z)}.
Implicit Types w : world K dns_hook dns_msg dns_task (gset Z) dns_state.

Definition req_key (q : GetRouteRequest) : Z := make_key (rq_modid q) (rq_cmdid q).

(** The frame that answers a request. *)
Definition answer (r : Route) (q : GetRouteRequest) : list byte :=
  frame_bytes ID_GetRouteResponse (serialize (route_response (rq_modid q) (rq_cmdid q) r)).

(** The server as one connection sees it: the application state, and the bytes
    queued for the connection since a given moment. *)
Record dns_app := DnsApp { da_state : dns_state; da_out : list byte }.

Definition dns_astep (fd : Z) (cb : dns_msg) (data : list byte) (len id : Z) (ud : option io_arg) (a : dns_app)
    : dns_app :=
  let st := da_state a in
  let q : GetRouteRequest := parse data in
  DnsApp (Dns (dns_route st) (subscribe (req_key q) fd (dns_subs st))) (da_out a ++ answer (dns_route st) q).

(** [this] is an open connection with descriptor [fd], its own list agrees with the
    book, and as long as everything fits the output is [ob0] followed by the
    answers. *)
Definition dns_sim (this : loc) (fd : Z) (ob0 : list byte) (a : dns_app) w (ob : list byte) : Prop :=
  w_user w = da_state a /\
  (exists c S, w_objs w !! this = Some c /\ _connfd c = fd /\ param c = Some S /\ is_Some (w_loops w !! _loop c) /\
     forall m, m ∈ S <-> fd ∈ entry (_book_list (dns_subs (da_state a))) m) /\
  (zlen ob0 + zlen (da_out a) <= m4M -> ob = ob0 ++ da_out a).

(** The subscription of a request, on a connection with its own list. *)
Lemma subscribe_conn_run m this w c S :
  w_objs w !! this = Some c -> param c = Some S ->
  (forall m, m ∈ S <-> _connfd c ∈ entry (_book_list (dns_subs (w_user w))) m) ->
  exists w1 S1, subscribe_conn m this w = Ret w1 /\ w_objs w1 = <[this := set_param (Some S1) c]> (w_objs w) /\
    w_mem w1 = w_mem w /\ w_loops w1 = w_loops w /\ w_srv w1 = w_srv w /\
    w_user w1 = Dns (dns_route (w_user w)) (subscribe m (_connfd c) (dns_subs (w_user w))) /\
    (forall m', m' ∈ S1 <-> _connfd c ∈ entry (_book_list (dns_subs (w_user w1))) m').
Proof.
  intros Ho Hp Hown. unfold subscribe_conn, obj. rewrite Ho. cbn [mbind res_mbind deref]. rewrite Hp.
  cbn [mbind res_mbind deref]. case_bool_decide as Hin.
  - exists w, S. split; [done|]. split; [rewrite insert_id; [done|]; rewrite Ho; by destruct c; simpl in *; subst|].
    split_and!; try done. rewrite subscribe_again by (by apply Hown). by destruct (w_user w).
  - eexists _, _. split; [done|]. split; [done|]. split_and!; try done. intros m'. simpl.
    rewrite elem_of_insert_in, <-Hown, elem_of_union, elem_of_singleton. naive_solver.
Qed.

(** The callback of the server is one the library may call. *)
Lemma dns_contract this fd ob0 :
  cb_contract (run_msg raw) (dns_sim this fd ob0) (dns_astep fd) 8192 this.
Proof.
  split; [done|done| |].
  - intros a w ob c rb Ho (Hu & (c' & S & Ho' & Hfd & Hp & Hl & Hown) & Hob). split; [done|]. split; [|done].
    exists (set_ibuf rb c), S. rewrite Ho' in Ho. simplify_eq. split; [apply lookup_insert_eq|]. by split_and!.
  - intros cb data len id ud w fl c ib ob a Hc (Hu & (c' & S & Ho' & Hfd & Hp & Hl & Hown) & Hob).
    pose proof Hc as (Ho & Hok & Hi & Hob' & Hne & Hap). rewrite Ho' in Ho. simplify_eq.
    unfold run_msg. set (q := parse data : GetRouteRequest). fold (req_key q). rewrite <-Hu in Hown.
    destruct (subscribe_conn_run (req_key q) this w c S Ho' Hp Hown)
      as (w1 & S1 & -> & Ho1 & Hm1 & Hl1 & Hs1 & Hu1 & Hown1). cbn [mbind res_mbind].
    set (c1 := set_param (Some S1) c) in *.
    assert (conn_repr this w1 fl c1 ib ob) as Hc1.
    { split; [rewrite Ho1; apply lookup_insert_eq|]. rewrite Hm1. split_and!; try done. by eapply apart_put. }
    rewrite Hu1. cbn [dns_route]. fold (answer (dns_route (w_user w)) q).
    pose proof (send_message_ok raw raw_len (serialize (route_response (rq_modid q) (rq_cmdid q) (dns_route (w_user w))))
      ID_GetRouteResponse this w1 fl c1 ib ob Hc1) as Hsend.
    rewrite Hl1 in Hsend. specialize (Hsend Hl).
    destruct (send_message raw _ ID_GetRouteResponse this w1) as [[r w2]|e] eqn:Es; cycle 1.
    { rewrite Hm1 in Hsend. done. }
    cbn [mbind res_mbind]. apply (send_message_frame raw _ _ _ _ _ _ c1) in Es as (Hu2 & Hs2 & Ht2 & Hl2 & rb & Ho2);
      [|rewrite Ho1; apply lookup_insert_eq|rewrite Hm1; apply Hok].
    rewrite Hm1 in Ht2. rewrite Hl1 in Hl2.
    assert (forall ob2, (zlen ob0 + zlen (da_out (dns_astep (_connfd c) cb data len id ud a)) <= m4M ->
              ob2 = ob0 ++ da_out (dns_astep (_connfd c) cb data len id ud a)) ->
            dns_sim this (_connfd c) ob0 (dns_astep (_connfd c) cb data len id ud a) w2 ob2) as Hsim.
    { intros ob2 Hob2. split; [unfold dns_astep; cbv zeta; cbn [da_state]; by rewrite Hu2, Hu1, <-Hu|]. split; [|done].
      exists (set_obuf rb c1), S1. split; [rewrite Ho2; apply lookup_insert_eq|]. split_and!; try done; [by apply Hl2|].
      intros m. unfold dns_astep. cbv zeta. cbn [da_state]. by rewrite Hown1, Hu1, <-Hu. }
    assert (zlen (da_out (dns_astep (_connfd c) cb data len id ud a)) =
            zlen (da_out a) + MESSAGE_HEAD_LEN +
            zlen (serialize (route_response (rq_modid q) (rq_cmdid q) (dns_route (w_user w))))) as Hlen.
    { unfold dns_astep. cbv zeta. cbn [da_out]. rewrite zlen_app. unfold answer. rewrite zlen_frame_bytes, <-Hu. fold q. lia. }
    pose proof (zlen_nonneg (serialize (route_response (rq_modid q) (rq_cmdid q) (dns_route (w_user w))))) as Hnn.
    assert (0 <= MESSAGE_HEAD_LEN) as Hhl by done.
    assert (zlen ob0 + zlen (da_out a) <= m4M -> zlen ob = zlen ob0 + zlen (da_out a)) as Hlo.
    { intros Hfit. rewrite (Hob Hfit), zlen_app. done. }
    rewrite Hs2, Hs1. destruct r as [|r|r].
    + destruct Hsend as (fl2 & c2 & Hc2 & _). exists fl2, c2; eexists. split; [exact Hc2|]. split_and!; [|done|done].
      apply Hsim. intros Hfit. rewrite Hob by lia. unfold dns_astep. cbv zeta. cbn [da_out].
      rewrite <-Hu. by rewrite app_assoc.
    + destruct Hsend as (_ & fl2 & c2 & [[Hbig Hc2]|[Hbig Hc2]]); exists fl2, c2; eexists;
        (split; [exact Hc2|]); (split_and!; [|done|done]); apply Hsim; intros Hfit; lia.
    + destruct Hsend as (_ & fl2 & c2 & [[Hbig Hc2]|[Hbig Hc2]]); exists fl2, c2; eexists;
        (split; [exact Hc2|]); (split_and!; [|done|done]); apply Hsim; intros Hfit; lia.
Qed.

Lemma dns_deliver fd r reqs a :
  route r ID_GetRouteRequest = Some (get_route, None) -> Forall RouteReq_ok reqs ->
  deliver (dns_astep fd) r ((fun q => (ID_GetRouteRequest, serialize q)) <$> reqs) a =
  DnsApp (Dns (dns_route (da_state a)) (foldl (fun s q => subscribe (req_key q) fd s) (dns_subs (da_state a)) reqs))
         (da_out a ++ concat (answer (dns_route (da_state a)) <$> reqs)).
Proof.
  intros Hr Hok. revert a. induction Hok as [|q reqs Hq _ IH]; intros a.
  { cbn. rewrite app_nil_r. by destruct a as [[] ?]. }
  unfold deliver in *. rewrite !fmap_cons. cbn [foldl fst snd concat]. rewrite Hr, IH.
  unfold dns_astep. cbv zeta. rewrite parse_serialize by done. cbn [da_state da_out dns_route dns_subs].
  by rewrite <-app_assoc.
Qed.

Lemma subscribe_all_book fd reqs s m x :
  x ∈ entry (_book_list (foldl (fun s q => subscribe (req_key q) fd s) s reqs)) m <->
  x ∈ entry (_book_list s) m \/ (x = fd /\ m ∈ req_key <$> reqs).
Proof.
  revert s. induction reqs as [|q reqs IH]; intros s; cbn [foldl].
  - split; [by left|]. intros [?|[_ Hn]]; [done|]. by apply not_elem_of_nil in Hn.
  - rewrite IH. cbn [subscribe _book_list]. rewrite elem_of_insert_in, fmap_cons, elem_of_cons. naive_solver.
Qed.

Lemma dns_read_serves chunk eintrs ks this w fl c ib ob reqs rest S :
  subs_ok w -> conn_repr this w fl c ib ob -> is_Some (w_loops w !! _loop c) -> param c = Some S ->
  route (router (w_srv w)) ID_GetRouteRequest = Some (get_route, None) ->
  Forall RouteReq_ok reqs -> 0 < zlen chunk -> zlen ib + zlen chunk <= m4M ->
  deframe (ib ++ chunk) = ((fun q => (ID_GetRouteRequest, serialize q)) <$> reqs, rest, false) ->
  let answers := concat (answer (dns_route (w_user w)) <$> reqs) in
  zlen ob + zlen answers <= m4M ->
  let run := do_read raw run_hook (run_msg raw) (Some (zlen chunk))
               (replicate eintrs (inr EINTR) ++ inl chunk :: ks) this w in
  run = Stop (Exit 0) /\ mem_short (4096 + 8192 * zlen reqs) (w_mem w) \/
  exists w' fl' c', run = Ret w' /\ conn_repr this w' fl' c' rest (ob ++ answers) /\
    dns_route (w_user w') = dns_route (w_user w) /\
    forall m x, x ∈ book w' m <-> x ∈ book w m \/ (x = _connfd c /\ m ∈ req_key <$> reqs).
Proof.
  intros Hok Hc Hl Hp Hr Hreqs Hpos Hfit Hd answers Hroom. cbv zeta.
  assert (dns_sim this (_connfd c) ob (DnsApp (w_user w) []) w ob) as Hsim.
  { split; [done|]. split; [|by rewrite app_nil_r]. pose proof Hc as (Ho & _). exists c, S. split_and!; try done.
    intros m. by apply (so_own _ Hok this c S m Ho Hp). }
  destruct (do_read_ok raw raw_len run_hook (run_msg raw) (dns_sim this (_connfd c) ob) (dns_astep (_connfd c)) 8192
    chunk eintrs ks this _ w fl c ib ob _ rest false (dns_contract this (_connfd c) ob) Hc Hsim Hpos Hfit Hd)
    as [[-> Hs]|(w' & fl' & c' & ob' & Hc' & (Hu & _ & Hob) & _ & _ & ->)].
  - left. split; [done|]. unfold zlen in *. by rewrite length_fmap in Hs.
  - right. exists w', fl', c'. rewrite dns_deliver in Hu, Hob by done. cbn [da_state da_out app] in Hu, Hob.
    rewrite (Hob Hroom) in Hc'. split_and!; [done|done|by rewrite Hu|].
    intros m x. unfold book. rewrite Hu. apply subscribe_all_book.
Qed.

(** (C14) The server serves a connection: when the bytes received complete the frames of
    some route requests, handling them returns with the incomplete rest pending, one
    answer per request queued behind the output, in the order of the requests, with
    the hosts the table has for its service, the table unchanged, and the connection
    booked for exactly these services in addition.  The process stops only when the
    memory the buffers may take brings the pool to its limit. *)
Theorem dns_serves chunk eintrs ks this w fl c ib ob reqs rest S :
  subs_ok w -> conn_repr this w fl c ib ob -> is_Some (w_loops w !! _loop c) -> param c = Some S ->
  route (router (w_srv w)) ID_GetRouteRequest = Some (get_route, None) ->
  Forall RouteReq_ok reqs -> 0 < zlen chunk -> zlen ib + zlen chunk <= m4M ->
  deframe (ib ++ chunk) = ((fun q => (ID_GetRouteRequest, serialize q)) <$> reqs, rest, false) ->
  let answers := concat (answer (dns_route (w_user w)) <$> reqs) in
  zlen ob + zlen answers <= m4M ->
  let run := do_read raw run_hook (run_msg raw) (Some (zlen chunk))
               (replicate eintrs (inr EINTR) ++ inl chunk :: ks) this w in
  run = Stop (Exit 0) /\ mem_short (4096 + 8192 * zlen reqs) (w_mem w) \/
  exists w' fl' c', run = Ret w' /\ conn_repr this w' fl' c' rest (ob ++ answers) /\
    dns_route (w_user w') = dns_route (w_user w) /\
    forall m x, x ∈ book w' m <-> x ∈ book w m \/ (x = _connfd c /\ m ∈ req_key <$> reqs).
Proof. apply dns_read_serves. Qed.

(** ** Opening and closing *)
Lemma create_contract : start_contract (K := K) (MK := dns_msg) (TF := dns_task) run_hook create_subscribe.
Proof.
  intros this w c Hc. unfold run_hook, obj. rewrite Hc. cbn [mbind res_mbind deref].
  eexists _, _. split; [done|]. split_and!; try done. intros i. simpl. destruct (w_loops w !! i); constructor. apply loop_kept_refl.
Qed.

Lemma clear_contract this :
  hook_contract run_hook this clear_subscribe (fun w => exists c S, w_objs w !! this = Some c /\ param c = Some S).
Proof.
  intros w fl c ib ob Hc (c' & S & Ho' & Hp). pose proof Hc as (Ho & Hok & Hi & Hob & Hne & Hap). rewrite Ho' in Ho. simplify_eq.
  unfold run_hook, obj. rewrite Ho'. cbn [mbind res_mbind deref]. rewrite Hp. cbn [mbind res_mbind deref].
  eexists _, fl, _. split; [done|]. split.
  { split; [apply lookup_insert_eq|]. split_and!; try done. by eapply apart_put. }
  by split_and!.
Qed.

(** No service has the descriptor among its subscribers. *)
Definition unbooked (fd : Z) w : Prop := forall m, fd ∉ book w m.

Lemma closed_book this w w' c S m :
  conn_close_cb (w_srv w) = Some clear_subscribe -> w_objs w !! this = Some c -> param c = Some S ->
  clean_conn run_hook this w = Ret w' ->
  forall x, x ∈ book w' m <-> x ∈ book w m /\ ~ (x = _connfd c /\ m ∈ elements S).
Proof.
  intros Hclose Ho Hp Hrun x. unfold clean_conn in Hrun. rewrite Hclose in Hrun. cbn [run_hook_opt] in Hrun.
  unfold run_hook, obj in Hrun. rewrite Ho in Hrun. cbn [mbind res_mbind deref] in Hrun. rewrite Hp in Hrun.
  cbn [mbind res_mbind deref] in Hrun. unfold book. rewrite <-(unsubscribe_all_book raw). unfold on_loop in Hrun. res_inv. by subst.
Qed.

(** Closing a connection of the server: in a reachable state [clean_conn] returns,
    gives the buffers back to the pool, frees the slot and the count, removes the
    descriptor from its loop, and no book names the descriptor any more. *)
Theorem dns_closes this w fl c ib ob l S :
  dns_reach raw w -> conn_repr this w fl c ib ob -> param c = Some S ->
  w_loops w !! _loop c = Some l -> 0 <= _connfd c < conns_len (w_srv w) ->
  exists w' fl' c', clean_conn run_hook this w = Ret w' /\ dns_reach raw w' /\
    conn_repr this w' fl' (closed c') [] [] /\
    conns (w_srv w') = <[_connfd c := None]> (conns (w_srv w)) /\
    _curr_conns (w_srv w') = _curr_conns (w_srv w) - 1 /\
    w_loops w' !! _loop c = Some (del_io_event (_connfd c) l) /\
    unbooked (_connfd c) w'.
Proof.
  intros Hreach Hc Hp Hl Hfd. pose proof (dns_reach_ok raw w Hreach) as Hok. pose proof Hc as (Ho & _).
  pose proof (so_hooks _ Hok) as Hh. unfold hooks in Hh. injection Hh as _ Hclose.
  destruct (clean_conn_run run_hook this w fl c ib ob l (fun w => exists c S, w_objs w !! this = Some c /\ param c = Some S))
    as (w' & fl' & c' & Hrun & Ho' & _ & Hconns & Hcur & Hloop); [|by exists c, S|done|done|done|].
  { intros h Eh. rewrite Hclose in Eh. injection Eh as <-. apply clear_contract. }
  exists w', fl', c'. split_and!; try done.
  - by eapply (dns_next raw (EvClose this)).
  - intros m. rewrite (closed_book this w w' c S m Hclose Ho Hp Hrun (_connfd c)). intros [Hin Hn]. apply Hn. split; [done|].
    by apply elem_of_elements, (so_own _ Hok this c S m Ho Hp).
Qed.
End Socket.

#[local] Existing Instance nobody.

(** ** Two requests in one chunk, and a connection that is opened and closed *)
Module SockDemo.
Definition world2 := add_msg_router ID_GetRouteRequest get_route None DnsDemo.world1.
Lemma world2_ok : subs_ok world2.
Proof. eapply (subs_ok_same DnsDemo.world1); [done|apply DnsDemo.world1_ok]. Qed.
Lemma world2_repr : conn_repr 1%positive world2 empty_free DnsDemo.conn0 [] [].
Proof. apply DnsDemo.conn0_repr. Qed.
Definition reqs : list GetRouteRequest := [MkRouteReq 1 2; MkRouteReq 3 4].
Definition chunk : list byte := stream ((fun q => (ID_GetRouteRequest, serialize q)) <$> reqs).

(** The server after its start, and with one connection accepted. *)
Definition started := dns_main (E := Z) 3 0 0 PoolNull DnsDemo.world0.
Definition world3 := match started with Ret (_, w) => w | Stop _ => DnsDemo.world0 end.
Definition world4 := match tcp_conn_new run_hook 1%positive 5 0%nat world3 with Ret w => w | Stop _ => world3 end.
Definition loop4 := default event_loop_new (w_loops world4 !! 0%nat).

Lemma world4_reach : dns_reach zero_raw world4.
Proof.
  apply (dns_next zero_raw (EvOpen 1%positive 5 0%nat) world3 world4); [|split|reflexivity].
  - assert (exists sv, started = Ret (sv, world3)) as [sv H0] by (eexists; reflexivity).
    exact (dns_init zero_raw 3 0 0 PoolNull DnsDemo.world0 sv world3 eq_refl eq_refl (ex_intro _ _ empty_pool_ok) H0).
  - reflexivity.
  - intros y d Hy. discriminate Hy.
Qed.
End SockDemo.
Import SockDemo.

Lemma dns_serves_witness :
  exists w' fl' c', do_read zero_raw run_hook (run_msg zero_raw) (Some (zlen chunk)) [inl chunk] 1%positive world2 = Ret w' /\
    conn_repr 1%positive w' fl' c' []
      (concat (answer (dns_route (w_user world2)) <$> reqs)).
Proof.
  destruct (dns_serves zero_raw zero_raw_len chunk 0 [] 1%positive world2 empty_free DnsDemo.conn0 [] [] reqs [] ∅
    world2_ok world2_repr) as [[_ Hs]|(w' & fl' & c' & Hr & Hc & _)].
  - eexists. reflexivity.
  - reflexivity.
  - reflexivity.
  - repeat constructor; vm_compute; congruence.
  - reflexivity.
  - vm_compute. congruence.
  - vm_compute. reflexivity.
  - vm_compute. congruence.
  - exfalso. vm_compute in Hs. congruence.
  - exists w', fl', c'. split; [exact Hr|exact Hc].
Defined.

Lemma dns_closes_witness :
  exists w', clean_conn run_hook 1%positive world4 = Ret w' /\ unbooked 5 w'.
Proof.
  destruct (dns_closes zero_raw 1%positive world4 empty_free DnsDemo.conn0 [] [] loop4 ∅ world4_reach)
    as (w' & fl' & c' & Hr & _ & _ & _ & _ & _ & Hb).
  - split; [reflexivity|]. split; [apply empty_pool_ok|]. split; [reflexivity|]. split; [reflexivity|]. split; [left; reflexivity|apply apart_nobody; reflexivity].
  - reflexivity.
  - reflexivity.
  - vm_compute. split; congruence.
  - exists w'. split; [exact Hr|exact Hb].
Defined.
