(* ===== verification/DnsPush.v ===== *)
(** * The DNS server as a whole: its connections, its table of them, its pushes

    In every state the DNS server reaches (DnsServer.v), whatever clients send and the kernel
    reports, no two connections share a buffer, the connection table points to the open
    connections, and a descriptor on the push list has a slot in the table.  So a push
    task never goes astray, and a changed service reaches every subscriber of the thread, as
    one frame with the hosts of the new table behind what the connection had to send. *)

From S2P Require Import Prelude.
From S2P Require Import IoBuf.
From S2P Require Import BufPool.
From S2P Require Import ReactorBuf.
From S2P Require Import Message.
From S2P Require Import EventLoop.
From S2P Require Import ThreadPool.
From S2P Require Import TcpConn.
From S2P Require Import Isolation.
From S2P Require Import TcpServer.
From S2P Require Import Proto.
From S2P Require Import DnsRoute.
From S2P Require Import Subscribe.
From S2P Require Import DnsServer.
From S2P Require Import DnsSocket.

Section Table.
Context {K : Type} `{!Epoll K} `{!Protobuf}.
Context (raw : Z -> list byte) (raw_len : forall n, 0 <= n -> zlen (raw n) = n).
Implicit Types w : world K dns_hook dns_msg dns_task (gset Z) dns_state.

(** The open connections are those of the table, on loops of the server; a connection
    with subscriptions is open; what is on the push list has a slot. *)
Record table_ok w : Prop := {
  to_slot x c : w_objs w !! x = Some c -> 0 <= _connfd c -> conns (w_srv w) !! _connfd c = Some (Some x);
  to_conn fd x : conns (w_srv w) !! fd = Some (Some x) -> exists c, w_objs w !! x = Some c /\ _connfd c = fd;
  to_range fd : is_Some (conns (w_srv w) !! fd) -> 0 <= fd < conns_len (w_srv w);
  to_loop x c : w_objs w !! x = Some c -> is_Some (w_loops w !! _loop c);
  to_param x c S : w_objs w !! x = Some c -> param c = Some S -> 0 <= _connfd c;
  to_push fd m : m ∈ entry (_push_list (dns_subs (w_user w))) fd -> is_Some (conns (w_srv w) !! fd)
}.

(** The connection at [this] gets another [param]. *)
Lemma table_ok_param w w' this c S' :
  table_ok w -> w_objs w !! this = Some c -> 0 <= _connfd c \/ S' = None ->
  w_objs w' = <[this := set_param S' c]> (w_objs w) -> w_srv w' = w_srv w -> w_loops w' = w_loops w ->
  (forall fd m, m ∈ entry (_push_list (dns_subs (w_user w'))) fd -> m ∈ entry (_push_list (dns_subs (w_user w))) fd) ->
  table_ok w'.
Proof.
  intros [H1 H2 H3 H4 H5 H6] Hc H0 Ho Hs Hl Hp. split; rewrite ?Hs, ?Hl.
  - intros x d. rewrite Ho, lookup_insert. case_decide; [|apply H1].
    intros [= <-] Hfd. subst x. simpl in *. by apply (H1 this c).
  - intros fd x Hx. destruct (H2 fd x Hx) as (d & Hd & Hfd). rewrite Ho, lookup_insert. case_decide; [|by exists d].
    subst x. simplify_eq. by eexists.
  - apply H3.
  - intros x d. rewrite Ho, lookup_insert. case_decide; [|apply H4].
    intros [= <-]. by apply (H4 this c).
  - intros x d S. rewrite Ho, lookup_insert. case_decide; [|apply H5]. intros [= <-] HS. simpl in HS.
    destruct H0 as [|H0]; [done|congruence].
  - intros fd m Hm. by eapply H6, Hp.
Qed.

Lemma table_ok_bufs w w' : bufs_only w w' -> table_ok w -> table_ok w'.
Proof.
  intros (Hs & Hu & Hl & Ho) [H1 H2 H3 H4 H5 H6].
  assert (forall x c', w_objs w' !! x = Some c' ->
    exists c, w_objs w !! x = Some c /\ _connfd c = _connfd c' /\ _loop c = _loop c' /\ param c = param c') as Hb.
  { intros x c' Hx. specialize (Ho x). rewrite Hx in Ho. destruct (w_objs w !! x) as [c|]; simplify_eq/=. by exists c. }
  split; rewrite ?Hs, ?Hu; try done.
  - intros x c' Hx. destruct (Hb x c' Hx) as (c & Hc & <- & _). by apply H1.
  - intros fd x Hx. destruct (H2 fd x Hx) as (c & Hc & Hfd). specialize (Ho x). rewrite Hc in Ho.
    destruct (w_objs w' !! x) as [c'|]; simplify_eq/=. by exists c'.
  - intros x c' Hx. destruct (Hb x c' Hx) as (c & Hc & _ & <- & _). apply Hl. by eapply H4.
  - intros x c' S Hx. destruct (Hb x c' Hx) as (c & Hc & <- & _ & <-). by eapply H5.
Qed.

(** The application changes, but not its push list. *)
Lemma table_ok_user w u :
  table_ok w -> (forall fd m, m ∈ entry (_push_list (dns_subs u)) fd -> is_Some (conns (w_srv w) !! fd)) ->
  table_ok (set_user u w).
Proof. intros [H1 H2 H3 H4 H5 H6] Hp. by split. Qed.

Lemma route_table cb data len id ud x w w' : run_msg raw cb data len id ud x w = Ret w' -> table_ok w -> table_ok w'.
Proof.
  intros Hr Hok. unfold run_msg in Hr. apply bind_Ret in Hr as (w1 & Hs & Hr). apply bind_Ret in Hr as ([r w2] & Hm & Hr).
  injection Hr as <-. apply send_message_bufs in Hm. eapply table_ok_bufs; [exact Hm|].
  unfold subscribe_conn, obj in Hs. apply bind_Ret in Hs as (c & Hc & Hs). apply deref_Ret in Hc.
  apply bind_Ret in Hs as (S & HS & Hs). apply deref_Ret in HS. injection Hs as <-. case_bool_decide; [done|].
  eapply (table_ok_param w _ x c); [done|done| |done..]. left. by eapply to_param.
Qed.

Lemma unsubscribe_all_push fd ms s : _push_list (foldl (fun s m => unsubscribe m fd s) s ms) = _push_list s.
Proof. revert s. induction ms as [|m ms IH]; intros s; [done|]. simpl. rewrite IH. unfold unsubscribe. by case_match. Qed.

(** Removing a connection from the table, after its subscriptions. *)
Lemma close_table x w w' : clean_conn run_hook x w = Ret w' -> table_ok w /\ subs_ok w -> table_ok w' /\ subs_ok w'.
Proof.
  intros Hr [Hok Hsub]. split; [|by eapply (close_ok raw x w)]. unfold clean_conn in Hr.
  pose proof (so_hooks _ Hsub) as Hh. unfold hooks in Hh. injection Hh as _ Hclose. rewrite Hclose in Hr. cbn [run_hook_opt] in Hr.
  unfold run_hook, obj in Hr. destruct (w_objs w !! x) as [c|] eqn:Ec; [|done]. cbn [mbind res_mbind deref] in Hr.
  destruct (param c) as [S|] eqn:Ep; [|done]. cbn [mbind res_mbind deref w_objs set_obj] in Hr.
  rewrite lookup_insert_eq in Hr. cbn [mbind res_mbind deref] in Hr. unfold on_loop in Hr.
  apply bind_Ret in Hr as (s & Hs & Hr). apply write_conn_Ret in Hs as Hs'. destruct Hs' as (Hrange & Hconns & _ & Hmax).
  apply bind_Ret in Hr as (w2 & Hl & Hr). apply bind_Ret in Hl as (l & _ & Hl). injection Hl as <-.
  apply bind_Ret in Hr as ([ib m1] & _ & Hr). apply bind_Ret in Hr as ([ob m2] & _ & Hr). injection Hr as <-.
  cbn [_connfd set_param w_srv set_obj set_subs set_user] in Hrange, Hconns, Hmax.
  destruct Hok as [H1 H2 H3 H4 H5 H6].
  split; cbn [w_objs w_srv w_loops w_user set_obj set_mem put_loop set_srv set_subs set_user dns_subs].
  - intros y d. rewrite insert_insert_eq, lookup_insert. case_decide as E; [intros [= <-]; simpl; lia|]. intros Hy H0.
    rewrite Hconns, lookup_insert_ne; [by apply H1|]. intros Eq. apply E.
    pose proof (H1 y d Hy H0) as Hy1. rewrite <-Eq, (H1 x c Ec) in Hy1 by lia. congruence.
  - intros fd y. rewrite Hconns, lookup_insert. case_decide as E; [done|]. intros Hy. destruct (H2 fd y Hy) as (d & Hd & Hfd).
    exists d. rewrite insert_insert_eq, lookup_insert_ne; [done|]. intros <-. simplify_eq.
  - intros fd. rewrite Hconns, lookup_insert. unfold conns_len in *. rewrite Hmax. case_decide; [by subst fd|apply H3].
  - intros y d. rewrite insert_insert_eq, lookup_insert. case_decide; [intros [= <-]; simpl|intros Hy];
      rewrite lookup_insert; (case_decide; [by eexists|]); [by eapply (H4 x)|by eapply H4].
  - intros y d T. rewrite insert_insert_eq, lookup_insert. case_decide; [by intros [= <-]|apply H5].
  - intros fd m. rewrite unsubscribe_all_push, Hconns, lookup_insert. case_decide; [by eexists|apply H6].
Qed.

(** The table after a new connection. *)
Lemma open_table x fd loop w w' :
  table_ok w -> subs_ok w -> dns_guard (EvOpen x fd loop) w -> tcp_conn_new run_hook x fd loop w = Ret w' -> table_ok w'.
Proof.
  intros Hok Hsub [Hx Hfd] Hr. unfold tcp_conn_new in Hr. cbn [w_srv set_obj] in Hr.
  pose proof (so_hooks _ Hsub) as Hh. unfold hooks in Hh. injection Hh as Hstart _. rewrite Hstart in Hr. cbn [run_hook_opt] in Hr.
  unfold run_hook, obj in Hr. cbn [w_objs set_obj] in Hr. rewrite lookup_insert_eq in Hr. cbn [mbind res_mbind deref w_objs set_obj] in Hr.
  rewrite lookup_insert_eq in Hr. cbn [mbind res_mbind deref] in Hr. unfold on_loop in Hr.
  apply bind_Ret in Hr as (w1 & Hl & Hr). apply bind_Ret in Hl as (l & _ & Hl). injection Hl as <-.
  apply bind_Ret in Hr as (s & Hs & Hr). injection Hr as <-. apply write_conn_Ret in Hs as (Hrange & Hconns & _ & Hmax).
  cbn [_connfd set_param w_srv set_obj put_loop] in Hrange, Hconns, Hmax.
  destruct Hok as [H1 H2 H3 H4 H5 H6].
  split; cbn [w_objs w_srv w_loops w_user set_obj set_mem put_loop set_srv].
  - intros y d. rewrite insert_insert_eq, lookup_insert. case_decide as E; [intros [= <-] _; subst y; simpl|intros Hy H0];
      rewrite Hconns, lookup_insert; (case_decide as E2; [|try done]); [done| |by apply H1]. exfalso. by eapply (Hfd y d).
  - intros fd' y. rewrite Hconns, lookup_insert. case_decide as E; [intros [= <-]|intros Hy].
    + rewrite insert_insert_eq, lookup_insert_eq. by eexists.
    + destruct (H2 fd' y Hy) as (d & Hd & Hfd'). exists d. rewrite insert_insert_eq, lookup_insert_ne; [done|congruence].
  - intros fd'. rewrite Hconns, lookup_insert. unfold conns_len in *. rewrite Hmax. case_decide; [by subst fd'|apply H3].
  - intros y d. rewrite insert_insert_eq, lookup_insert. case_decide; [intros [= <-]; simpl; rewrite lookup_insert_eq; by eexists|].
    intros Hy. rewrite lookup_insert. case_decide; [by eexists|by eapply H4].
  - intros y d T. rewrite insert_insert_eq, lookup_insert. case_decide; [intros [= <-] _; simpl; lia|apply H5].
  - intros fd' m Hm. rewrite Hconns, lookup_insert. case_decide; [by eexists|by eapply H6].
Qed.

(** ** Every reachable state *)

(** The hooks and the callback work on their own connection. *)
#[export] Instance dns_safe : AppSafe (K := K) run_hook (run_msg raw).
Proof.
  split.
  - intros OT h this w w' Hok Hr. unfold run_hook, obj in Hr. apply bind_Ret in Hr as (c & Hc & Hr). apply deref_Ret in Hc.
    destruct h; [injection Hr as <-; by eapply (conn_ok_put this w _ c)|].
    apply bind_Ret in Hr as (S & _ & Hr). injection Hr as <-. by eapply (conn_ok_put this w _ c).
  - intros OT cb data len id ud this w w' Hok Hr. unfold run_msg in Hr. apply bind_Ret in Hr as (w1 & Hs & Hr).
    apply bind_Ret in Hr as ([r w2] & Hm & Hr). injection Hr as <-. eapply send_message_safe; [exact raw_len| |exact Hm].
    unfold subscribe_conn, obj in Hs. apply bind_Ret in Hs as (c & Hc & Hs). apply deref_Ret in Hc.
    apply bind_Ret in Hs as (S & _ & Hs). injection Hs as <-. case_bool_decide; [done|]. by eapply (conn_ok_put this w _ c).
Qed.

(** The pushes, on the memory of all connections. *)
Lemma push_mods_conns fd mods w fl io w' :
  conns_repr w fl io -> table_ok w -> push_mods raw fd mods w = Ret w' -> exists fl' io', conns_repr w' fl' io'.
Proof.
  revert w fl io. induction mods as [|st mods IH]; intros w fl io Hw Ht Hr; simpl in Hr; [simplify_eq; by eexists _, _|].
  apply bind_Ret in Hr as (conn & Hc & Hr). apply bind_Ret in Hr as (w1 & Hs & Hr).
  destruct conn as [x|]; [|simplify_eq; by eapply IH].
  apply bind_Ret in Hs as ([r w2] & Hm & Hs). injection Hs as <-.
  assert (is_Some (w_objs w !! x)) as Hx.
  { unfold send_message, obj in Hm. apply bind_Ret in Hm as (c & Hc' & _). apply deref_Ret in Hc'. by eexists. }
  pose proof (conns_ok_at x w fl io Hw Hx) as Hok.
  destruct (conns_step x w fl io w2 Hw) as (fl' & ib & ob & Hw2).
  { by eapply (send_message_safe raw raw_len (Others0 := others_of x w)). }
  apply send_message_bufs in Hm. eapply (IH w2); [exact Hw2| |exact Hr]. by eapply table_ok_bufs.
Qed.

Lemma push_all_conns due w fl io w' :
  conns_repr w fl io -> table_ok w -> push_all raw due w = Ret w' -> exists fl' io', conns_repr w' fl' io'.
Proof.
  revert w fl io. induction due as [|[fd mods] due IH]; intros w fl io Hw Ht Hr; simpl in Hr; [simplify_eq; by eexists _, _|].
  apply bind_Ret in Hr as (w1 & Hp & Hr). destruct (push_mods_conns _ _ _ _ _ _ Hw Ht Hp) as (fl1 & io1 & Hw1).
  apply push_mods_bufs in Hp. eapply IH; [exact Hw1| |exact Hr]. by eapply table_ok_bufs.
Qed.

(** What the server keeps. *)
Record dns_ok w : Prop := {
  do_subs : subs_ok w;
  do_table : table_ok w;
  do_conns : exists fl io, conns_repr w fl io
}.

Lemma step_conns ev w fl io w' :
  table_ok w -> dns_guard ev w -> dns_step raw ev w = Ret w' -> conns_repr w fl io -> exists fl' io', conns_repr w' fl' io'.
Proof.
  intros Ht Hg Hr Hw.
  assert (forall x, conn_ok (Others0 := others_of x w) x w' -> exists fl' io', conns_repr w' fl' io') as Hstep.
  { intros x Hok. destruct (conns_step x w fl io w' Hw Hok) as (fl' & ib & ob & Hw'). by eexists _, _. }
  destruct ev as [x fd loop|x fionread ks|x kss|x|wait inp last|changes|loop]; cbn [dns_step dns_guard] in *.
  - destruct Hg as [Hx _]. destruct (tcp_conn_new_conns run_hook (run_msg raw) x fd loop w fl io w' Hw Hx Hr) as (fl' & ib & ob & Hw').
    by eexists _, _.
  - assert (is_Some (w_objs w !! x)) as Hx.
    { unfold do_read, obj in Hr. apply bind_Ret in Hr as (c & Hc & _). apply deref_Ret in Hc. by eexists. }
    apply (Hstep x). pose proof (conns_ok_at x w fl io Hw Hx) as Hok.
    eapply (do_read_safe raw raw_len run_hook (run_msg raw) (Others0 := others_of x w)); [exact Hg|exact Hok|exact Hr].
  - destruct (w_objs w !! x) as [c|] eqn:Hx.
    + apply (Hstep x). pose proof (conns_ok_at x w fl io Hw (mk_is_Some _ _ Hx)) as Hok.
      eapply (do_write_safe run_hook (run_msg raw) (Others0 := others_of x w)); [exact Hok|exact Hr].
    + exfalso. unfold do_write in Hr. apply bind_Ret in Hr as ([b w1] & Hl & _).
      destruct kss; cbn [write_loop] in Hl; unfold obj in Hl; by rewrite Hx in Hl.
  - destruct (w_objs w !! x) as [c|] eqn:Hx.
    + apply (Hstep x). pose proof (conns_ok_at x w fl io Hw (mk_is_Some _ _ Hx)) as Hok.
      eapply (clean_conn_safe run_hook (run_msg raw) (Others0 := others_of x w)); [exact Hok|exact Hr].
    + exfalso. unfold clean_conn in Hr. destruct (conn_close_cb (w_srv w)) as [h|]; simpl in Hr.
      * unfold run_hook, obj in Hr. by rewrite Hx in Hr.
      * unfold obj in Hr. by rewrite Hx in Hr.
  - injection Hr as <-. exists fl, io. by eapply conns_repr_same.
  - injection Hr as <-. exists fl, io. by eapply conns_repr_same.
  - unfold run_task in Hr. apply bind_Ret in Hr as (l & _ & Hr). unfold make_publish_map in Hr.
    refine (push_all_conns _ _ fl io w' _ _ Hr); [by eapply (conns_repr_same w)|].
    apply table_ok_user; [done|]. cbn [dns_subs _push_list]. intros fd m Hm. eapply to_push; [exact Ht|].
    apply (entry_filter (fun k => k ∉ get_listen_fds l)) in Hm as [_ Hm]. exact Hm.
Qed.
Lemma step_table ev w w' :
  subs_ok w -> table_ok w -> dns_guard ev w -> dns_step raw ev w = Ret w' -> table_ok w'.
Proof.
  intros Hs Ht Hg Hr.
  destruct ev as [x fd loop|x fionread ks|x kss|x|wait inp last|changes|loop]; cbn [dns_step dns_guard] in *.
  - by eapply open_table.
  - eapply (do_read_keeps raw run_hook (run_msg raw) (fun w => table_ok w /\ subs_ok w) x); [| | |exact Hr|by split].
    + intros w1 w2 Hb [H1 H2]. split; [by eapply table_ok_bufs|by eapply subs_ok_bufs].
    + intros cb data len id ud w1 w2 Hm [H1 H2]. split; [by eapply route_table|by eapply route_ok].
    + intros w1 w2. apply close_table.
  - eapply (do_write_keeps run_hook (fun w => table_ok w /\ subs_ok w) x); [| |exact Hr|by split].
    + intros w1 w2 Hb [H1 H2]. split; [by eapply table_ok_bufs|by eapply subs_ok_bufs].
    + intros w1 w2. apply close_table.
  - by eapply close_table.
  - injection Hr as <-. apply table_ok_user; [done|]. apply (to_push _ Ht).
  - injection Hr as <-. apply table_ok_user; [done|]. intros fd m. cbn [dns_subs].
    rewrite elem_of_publish_lists. intros [Hm|[_ Hb]]; [by eapply to_push|].
    destruct (so_book _ Hs m fd Hb) as (x & c & S & Hx & Hp & <-). rewrite (to_slot _ Ht x c Hx); [by eexists|].
    by eapply to_param.
  - unfold run_task in Hr. apply bind_Ret in Hr as (l & _ & Hr). unfold make_publish_map in Hr.
    apply push_all_bufs in Hr. eapply table_ok_bufs; [exact Hr|]. apply table_ok_user; [done|].
    cbn [dns_subs _push_list]. intros fd m Hm. eapply to_push; [exact Ht|].
    apply (entry_filter (fun k => k ∉ get_listen_fds l)) in Hm as [_ Hm]. exact Hm.
Qed.

Lemma dns_reach_all w : dns_reach raw w -> dns_ok w.
Proof.
  induction 1 as [E ? sock bnd lst stale w sv w' Ho Hs [fl Hfl] Hm|ev w w' Hreach [IH1 IH2 (fl & io & IH3)] Hg Hstep].
  - assert (dns_reach raw w') as Hr by (eapply (dns_init raw (E := E)); [exact Ho|exact Hs|by exists fl|exact Hm]).
    split; [by eapply dns_reach_ok| |].
    + pose proof (dns_main_same _ _ _ _ _ _ _ Hm) as (_ & Ho' & Hu').
      assert (conns (w_srv w') = ∅) as Hc.
      { unfold dns_main, tcp_server_new3, tcp_server_new in Hm. revert Hm. repeat (case_bool_decide; [done|]). intros Hm.
        res_inv. unfold on_loop in *. res_inv. by simplify_eq. }
      split; rewrite ?Ho', ?Ho, ?Hu', ?Hs, ?Hc; try done. intros fd [p Hp]. by rewrite lookup_empty in Hp.
    + exists fl, ∅. apply conns_repr_empty; [|by apply dns_main_same in Hm as (_ & -> & _)].
      unfold dns_main, tcp_server_new3, tcp_server_new in Hm. revert Hm. repeat (case_bool_decide; [done|]). intros Hm.
      res_inv. unfold on_loop in *. res_inv. by simplify_eq.
  - split; [by eapply dns_step_ok|by eapply step_table|by eapply step_conns].
Qed.
(** ** Pushing *)

(** The frame pushed for a changed service, and those of a list of services. *)
Definition push_frame (r : Route) (st : Z) : list byte :=
  frame_bytes ID_GetRouteResponse (serialize (route_response (key_hi st) (key_lo st) r)).
Definition push_frames (r : Route) (mods : list Z) : list byte := concat (push_frame r <$> mods).

Lemma push_mods_run fd mods w fl io x c ib ob :
  conns_repr w fl io -> table_ok w -> conns (w_srv w) !! fd = Some (Some x) -> w_objs w !! x = Some c ->
  io !! x = Some (ib, ob) -> zlen ob + zlen (push_frames (dns_route (w_user w)) mods) <= m4M ->
  push_mods raw fd mods w = Stop (Exit 0) /\ mem_short (8192 * zlen mods) (w_mem w) \/
  exists w' fl', push_mods raw fd mods w = Ret w' /\ bufs_only w w' /\
    conns_repr w' fl' (<[x := (ib, ob ++ push_frames (dns_route (w_user w)) mods)]> io) /\
    total_mem (w_mem w') <= total_mem (w_mem w) + 8192 * zlen mods.
Proof.
  revert w fl io c ob. induction mods as [|st mods IH]; intros w fl io c ob Hw Ht Hs Hc Hio Hroom; cbn [push_mods].
  { right. exists w, fl. rewrite app_nil_r, insert_id by done. split_and!; try done. unfold zlen. simpl. lia. }
  unfold push_frames in Hroom |- *. rewrite fmap_cons in Hroom |- *. cbn [concat] in Hroom |- *.
  fold (push_frames (dns_route (w_user w)) mods) in Hroom |- *. rewrite zlen_app in Hroom.
  set (data := serialize (route_response (key_hi st) (key_lo st) (dns_route (w_user w)))).
  assert (push_frame (dns_route (w_user w)) st = frame_bytes ID_GetRouteResponse data) as Hfr by done. rewrite Hfr in Hroom |- *.
  rewrite zlen_frame_bytes in Hroom. pose proof (zlen_nonneg (push_frames (dns_route (w_user w)) mods)) as Hn1.
  pose proof (zlen_nonneg mods) as Hn2. pose proof (cr_pool _ _ _ Hw) as (_ & _ & Htot).
  unfold read_conn. rewrite bool_decide_eq_true_2 by (apply (to_range _ Ht); by rewrite Hs). rewrite Hs. cbn [mbind res_mbind].
  pose proof (conns_send raw raw_len data ID_GetRouteResponse x w fl io c ib ob Hw Hc Hio (to_loop _ Ht x c Hc)) as Hsend.
  rewrite zlen_cons. destruct (send_message raw data ID_GetRouteResponse x w) as [[r w1]|e] eqn:Em; cycle 1.
  { cbn [mbind res_mbind]. left. destruct Hsend as [-> Hshort]. split; [done|]. unfold mem_short in *. lia. }
  cbn [mbind res_mbind]. destruct Hsend as (fl1 & ob1 & Hw1 & Hob1). rewrite Hob1 in Hw1 by lia.
  pose proof (send_message_bufs raw _ _ _ _ _ _ Em) as Hb.
  destruct (send_message_frame raw _ _ _ _ _ _ c Hc Htot Em) as (Hu & Hsrv & Hmem & _ & rb & Ho1).
  assert (table_ok w1) as Ht1 by (by eapply table_ok_bufs).
  destruct (IH w1 fl1 _ (set_obuf rb c) (ob ++ frame_bytes ID_GetRouteResponse data) Hw1 Ht1) as
    [[Hrun Hshort]|(w' & fl' & Hrun & Hb' & Hw' & Htot')].
  - by rewrite Hsrv.
  - rewrite Ho1. apply lookup_insert_eq.
  - apply lookup_insert_eq.
  - rewrite Hu, zlen_app, zlen_frame_bytes. lia.
  - left. split; [exact Hrun|]. unfold mem_short in *. lia.
  - right. exists w', fl'. rewrite Hu, insert_insert_eq, <-app_assoc in Hw'. split; [exact Hrun|].
    split; [by eapply bufs_only_trans|]. split; [exact Hw'|lia].
Qed.

(** One descriptor of the due ones: an open connection gets its frames, one that was closed in
    the meantime nothing. *)
Lemma push_one_run fd (mods : gset Z) w fl io :
  conns_repr w fl io -> table_ok w -> (mods <> ∅ -> is_Some (conns (w_srv w) !! fd)) ->
  (forall x ib ob, conns (w_srv w) !! fd = Some (Some x) -> io !! x = Some (ib, ob) ->
     zlen ob + zlen (push_frames (dns_route (w_user w)) (elements mods)) <= m4M) ->
  exists io1, (push_mods raw fd (elements mods) w = Stop (Exit 0) /\ mem_short (8192 * zlen (elements mods)) (w_mem w) \/
    exists w1 fl1, push_mods raw fd (elements mods) w = Ret w1 /\ bufs_only w w1 /\ conns_repr w1 fl1 io1 /\
      total_mem (w_mem w1) <= total_mem (w_mem w) + 8192 * zlen (elements mods)) /\
    (forall x, conns (w_srv w) !! fd <> Some (Some x) -> io1 !! x = io !! x) /\
    (forall x ib ob, conns (w_srv w) !! fd = Some (Some x) -> io !! x = Some (ib, ob) ->
       io1 !! x = Some (ib, ob ++ push_frames (dns_route (w_user w)) (elements mods))).
Proof.
  intros Hw Ht Hslot Hroom. destruct (decide (mods = ∅)) as [->|Hmods].
  { exists io. split; [|split; [done|]].
    - right. exists w, fl. rewrite elements_empty. split_and!; try done. change (zlen (@nil Z)) with 0. lia.
    - intros x ib ob _ Hio. by rewrite elements_empty, app_nil_r. }
  destruct (Hslot Hmods) as [[x|] Hx].
  - destruct (to_conn _ Ht fd x Hx) as (c & Hc & Hfd). destruct (proj2 (cr_dom _ _ _ Hw x)) as [[ib ob] Hio]; [by eexists|].
    exists (<[x := (ib, ob ++ push_frames (dns_route (w_user w)) (elements mods))]> io). split_and!.
    + destruct (push_mods_run fd (elements mods) w fl io x c ib ob Hw Ht Hx Hc Hio) as [Hs|(w1 & fl1 & H1 & H2 & H3 & H4)];
        [by eapply Hroom|by left|right]. by exists w1, fl1.
    + intros y Hy. rewrite lookup_insert_ne; [done|]. intros ->. by apply Hy.
    + intros y ib' ob' Hy Hio'. simplify_eq. apply lookup_insert_eq.
  - exists io. split; [|split; [done|intros y ib ob Hy; congruence]]. right. exists w, fl.
    assert (forall ms, push_mods raw fd ms w = Ret w) as ->.
    { induction ms as [|m ms IHm]; [done|]. cbn [push_mods]. unfold read_conn.
      rewrite bool_decide_eq_true_2 by (apply (to_range _ Ht); by eexists). by rewrite Hx. }
    split_and!; try done. pose proof (zlen_nonneg (elements mods)). lia.
Qed.

(** The number of frames that are due. *)
Definition due_frames (due : list (Z * gset Z)) : Z := zlen (concat ((fun d => elements d.2) <$> due)).

Lemma push_all_run due w fl io :
  conns_repr w fl io -> table_ok w -> NoDup due.*1 -> (forall fd mods, (fd, mods) ∈ due -> mods <> ∅ -> is_Some (conns (w_srv w) !! fd)) ->
  (forall fd mods x ib ob, (fd, mods) ∈ due -> conns (w_srv w) !! fd = Some (Some x) -> io !! x = Some (ib, ob) ->
     zlen ob + zlen (push_frames (dns_route (w_user w)) (elements mods)) <= m4M) ->
  push_all raw due w = Stop (Exit 0) /\ mem_short (8192 * due_frames due) (w_mem w) \/
  exists w' fl' io', push_all raw due w = Ret w' /\ bufs_only w w' /\ conns_repr w' fl' io' /\
    (forall fd mods x ib ob, (fd, mods) ∈ due -> conns (w_srv w) !! fd = Some (Some x) -> io !! x = Some (ib, ob) ->
       io' !! x = Some (ib, ob ++ push_frames (dns_route (w_user w)) (elements mods))) /\
    (forall x, (forall fd mods, (fd, mods) ∈ due -> conns (w_srv w) !! fd <> Some (Some x)) -> io' !! x = io !! x).
Proof.
  revert w fl io. induction due as [|[fd mods] due IH]; intros w fl io Hw Ht Hnd Hslot Hroom; cbn [push_all].
  { right. exists w, fl, io. split_and!; try done. intros fd mods x ib ob Hin. by apply not_elem_of_nil in Hin. }
  apply NoDup_cons in Hnd as [Hnin Hnd]. cbn [fst] in Hnin.
  assert (due_frames ((fd, mods) :: due) = zlen (elements mods) + due_frames due) as Hdf.
  { unfold due_frames. rewrite fmap_cons. cbn [concat snd]. by rewrite zlen_app. }
  assert (0 <= due_frames due) as Hn by apply zlen_nonneg.
  assert (forall fd' mods', (fd', mods') ∈ due -> fd' <> fd) as Hne.
  { intros fd' mods' Hin ->. apply Hnin. apply list_elem_of_fmap. by exists (fd, mods'). }
  destruct (push_one_run fd mods w fl io Hw Ht) as (io1 & Hfirst & Hkeep & Hout);
    [eapply Hslot; by left|intros x ib ob; apply Hroom; by left|].
  destruct Hfirst as [[-> Hshort]|(w1 & fl1 & -> & Hb & Hw1 & Htot)]; cbn [mbind res_mbind].
  { left. split; [done|]. unfold mem_short in *. lia. }
  pose proof Hb as (Hsrv & Hu & _ & _).
  assert (forall fd' mods' x, (fd', mods') ∈ due -> conns (w_srv w) !! fd' = Some (Some x) -> conns (w_srv w) !! fd <> Some (Some x)) as Hdist.
  { intros fd' mods' x Hin Hx Hx'. destruct (to_conn _ Ht fd' x Hx) as (c & Hc & Hfd').
    destruct (to_conn _ Ht fd x Hx') as (c' & Hc' & Hfd). simplify_eq. by eapply Hne. }
  destruct (IH w1 fl1 io1 Hw1) as [[Hrun Hshort]|(w' & fl' & io' & Hrun & Hb' & Hw' & Hall & Hrest)].
  - by eapply table_ok_bufs.
  - done.
  - intros fd' mods' Hin. rewrite Hsrv. eapply Hslot. by right.
  - intros fd' mods' x ib ob Hin Hx Hio. rewrite Hsrv in Hx. rewrite Hkeep in Hio by (by eapply Hdist).
    rewrite Hu. eapply Hroom; [by right|exact Hx|exact Hio].
  - left. split; [exact Hrun|]. unfold mem_short in *. lia.
  - right. exists w', fl', io'. split; [exact Hrun|]. split; [by eapply bufs_only_trans|]. split; [exact Hw'|].
    rewrite Hsrv, Hu in Hall. rewrite Hsrv in Hrest. split.
    + intros fd' mods' x ib ob [[= -> ->]|Hin]%elem_of_cons Hx Hio.
      * rewrite Hrest; [by apply Hout|]. intros fd2 mods2 Hin Hx2. by eapply (Hdist fd2 mods2 x).
      * apply (Hall fd'); [done|done|]. rewrite Hkeep; [done|]. by eapply Hdist.
    + intros x Hx. rewrite Hrest; [apply Hkeep; eapply Hx; by left|]. intros fd2 mods2 Hin. eapply Hx. by right.
Qed.
(** (C15) The server keeps its state in order: in every state it reaches, whatever its clients send
    and the kernel reports, a connection is booked for a service exactly when it has asked
    for it, no closed connection is booked, no two connections share a buffer, every
    buffer is held from the pool, the connection table holds exactly the open connections, and
    every descriptor that is due a push has a slot in it. *)
Theorem dns_reach_safe w : dns_reach raw w -> dns_ok w.
Proof. apply dns_reach_all. Qed.

(** What a connection on the loop [l] is owed when [changes] have been published: the services
    that were pending for it and the changed ones it is booked for. *)
Definition owed (changes : list Z) (l : event_loop K io_cb io_arg dns_task) w (c : tcp_conn (gset Z)) (m : Z) : Prop :=
  _connfd c ∈ get_listen_fds l /\
  (m ∈ entry (_push_list (dns_subs (w_user w))) (_connfd c) \/ (m ∈ changes /\ _connfd c ∈ book w m)).

(** What is due to the descriptors of a loop then, and the memory in KB the frames may take. *)
Definition due_map (changes : list Z) (l : event_loop K io_cb io_arg dns_task) w : gmap Z (gset Z) :=
  filter (fun kv => kv.1 ∈ get_listen_fds l) (_push_list (publish_lists changes (dns_subs (w_user w)))).
Definition due_kb (changes : list Z) (l : event_loop K io_cb io_arg dns_task) w : Z :=
  8192 * due_frames (map_to_list (due_map changes l w)).

(** The map of what is due, for one descriptor. *)
Lemma due_owed changes l w c m : m ∈ entry (due_map changes l w) (_connfd c) <-> owed changes l w c m.
Proof.
  unfold due_map, owed, book. rewrite (entry_filter (fun k => k ∈ get_listen_fds l)), elem_of_publish_lists. done.
Qed.

Lemma push_run changes loop l w fl io (w1 := set_subs (publish_lists changes (dns_subs (w_user w))) w) :
  dns_reach raw w -> conns_repr w fl io -> w_loops w !! loop = Some l ->
  (forall x c ib ob mods, w_objs w !! x = Some c -> io !! x = Some (ib, ob) -> NoDup mods ->
     (forall m, m ∈ mods <-> owed changes l w c m) -> zlen ob + zlen (push_frames (dns_route (w_user w)) mods) <= m4M) ->
  run_task raw loop w1 = Stop (Exit 0) /\ mem_short (due_kb changes l w) (w_mem w) \/
  exists w' fl' io', run_task raw loop w1 = Ret w' /\ dns_reach raw w' /\ conns_repr w' fl' io' /\
    (forall x c ib ob, w_objs w !! x = Some c -> 0 <= _connfd c -> io !! x = Some (ib, ob) ->
       exists mods, NoDup mods /\ (forall m, m ∈ mods <-> owed changes l w c m) /\
         io' !! x = Some (ib, ob ++ push_frames (dns_route (w_user w)) mods)) /\
    (forall fd, fd ∈ get_listen_fds l -> entry (_push_list (dns_subs (w_user w'))) fd = ∅).
Proof.
  intros Hreach Hw Hl Hroom. assert (dns_reach raw w1) as Hr1 by (by eapply (dns_next raw (EvPublish changes))).
  pose proof (dns_reach_all _ Hr1) as [_ Ht1 _].
  destruct (make_publish_map (get_listen_fds l) (dns_subs (w_user w1))) as [due' subs] eqn:Emap.
  unfold make_publish_map in Emap. injection Emap as <- <-. set (due := due_map changes l w).
  set (w2 := set_subs (Subs (_book_list (dns_subs (w_user w1)))
    (filter (fun kv => kv.1 ∉ get_listen_fds l) (_push_list (dns_subs (w_user w1))))) w1).
  assert (run_task raw loop w1 = push_all raw (map_to_list due) w2) as Hrun.
  { unfold run_task. change (w_loops w1) with (w_loops w). rewrite Hl. reflexivity. }
  assert (table_ok w2) as Ht2.
  { apply table_ok_user; [exact Ht1|]. cbn [dns_subs _push_list]. intros fd m Hm. eapply (to_push _ Ht1).
    apply (entry_filter (fun k => k ∉ get_listen_fds l)) in Hm as [_ Hm]. exact Hm. }
  assert (conns_repr w2 fl io) as Hw2 by (by eapply (conns_repr_same w)).
  assert (forall fd mods, (fd, mods) ∈ map_to_list due <-> due !! fd = Some mods) as Hdue by (intros; apply elem_of_map_to_list).
  assert (forall x c, w_objs w !! x = Some c -> forall mods, due !! _connfd c = Some mods ->
    forall m, m ∈ elements mods <-> owed changes l w c m) as Howed.
  { intros x c Hx mods Hd m. rewrite elem_of_elements, <-due_owed. fold due. unfold entry. by rewrite Hd. }
  rewrite Hrun. destruct (push_all_run (map_to_list due) w2 fl io Hw2 Ht2) as [Hs|(w' & fl' & io' & Hr & Hb & Hw' & Hout & Hrest)].
  - apply NoDup_fst_map_to_list.
  - intros fd mods Hd%Hdue. apply map_lookup_filter_Some in Hd as [Hd _].
    intros [m Hm]%set_choose_L. apply (to_push _ Ht1 fd m). unfold entry.
    change (_push_list (dns_subs (w_user w1))) with (_push_list (publish_lists changes (dns_subs (w_user w)))). by rewrite Hd.
  - intros fd mods x ib ob Hd%Hdue Hx Hio. destruct (to_conn _ Ht2 fd x Hx) as (c & Hc & <-).
    apply (Hroom x c ib ob); [done|done|apply NoDup_elements|by eapply Howed].
  - left. done.
  - right. exists w', fl', io'. split; [exact Hr|]. split; [|split; [exact Hw'|split]].
    + eapply (dns_next raw (EvPush loop) w1); [done|done|]. cbn [dns_step]. by rewrite Hrun.
    + intros x c ib ob Hx H0 Hio. pose proof (to_slot _ Ht1 x c Hx H0) as Hslot.
      destruct (due !! _connfd c) as [mods|] eqn:Hd.
      * exists (elements mods). split; [apply NoDup_elements|]. split; [by eapply Howed|].
        apply (Hout (_connfd c) mods x ib ob); [by apply Hdue|done|done].
      * exists []. split; [constructor|]. split.
        { intros m. rewrite <-due_owed. fold due. unfold entry. rewrite Hd. cbn [default].
          split; intros Hn; [by apply not_elem_of_nil in Hn|by apply not_elem_of_empty in Hn]. }
        rewrite Hrest; [unfold push_frames; simpl; by rewrite app_nil_r|].
        intros fd mods Hin%Hdue Hfd. destruct (to_conn _ Ht2 fd x Hfd) as (c' & Hc' & <-).
        change (w_objs w2) with (w_objs w) in Hc'. simplify_eq.
    + intros fd Hfd. destruct Hb as (_ & -> & _). apply set_eq. intros m.
      split; intros Hm; [|by apply not_elem_of_empty in Hm].
      apply (entry_filter (fun k => k ∉ get_listen_fds l)) in Hm as [Hn _]. by destruct Hn.
Qed.

(** (C33) A change reaches its subscribers: when the background thread has published changes and a
    worker runs its push task, every open connection of the worker's loop gets, behind what it
    still had to send, one frame for each service that was already pending for its descriptor,
    or that is among the changes and that its descriptor is booked for, with the hosts the table has for
    the service now; connections of other loops get nothing, and nothing stays pending for this loop.
    Pending services belong to the descriptor, not to the connection: they may be those of a former
    connection with the same descriptor ([stale_push] of Subscribe.v), so a connection may get a service it
    never asked for.  It is assumed that the output of each connection and its frames fit the
    largest buffer of 4 MB; the task stops the process when the frames may take the buffers to the
    limit of the pool. *)
Theorem push_reaches changes loop l w fl io (w1 := set_subs (publish_lists changes (dns_subs (w_user w))) w) :
  dns_reach raw w -> conns_repr w fl io -> w_loops w !! loop = Some l ->
  (forall x c ib ob mods, w_objs w !! x = Some c -> io !! x = Some (ib, ob) -> NoDup mods ->
     (forall m, m ∈ mods <-> owed changes l w c m) -> zlen ob + zlen (push_frames (dns_route (w_user w)) mods) <= m4M) ->
  run_task raw loop w1 = Stop (Exit 0) /\ mem_short (due_kb changes l w) (w_mem w) \/
  exists w' fl' io', run_task raw loop w1 = Ret w' /\ dns_reach raw w' /\ conns_repr w' fl' io' /\
    (forall x c ib ob, w_objs w !! x = Some c -> 0 <= _connfd c -> io !! x = Some (ib, ob) ->
       exists mods, NoDup mods /\ (forall m, m ∈ mods <-> owed changes l w c m) /\
         io' !! x = Some (ib, ob ++ push_frames (dns_route (w_user w)) mods)) /\
    (forall fd, fd ∈ get_listen_fds l -> entry (_push_list (dns_subs (w_user w'))) fd = ∅).
Proof. apply push_run. Qed.
End Table.

(** ** A connection that has asked for service (1, 2), which then changes *)
Module PushDemo.
Definition ask : list byte := frame_bytes ID_GetRouteRequest (serialize (MkRouteReq 1 2)).
Definition read5 := do_read zero_raw run_hook (run_msg zero_raw) (Some (zlen ask)) [inl ask] 1%positive SockDemo.world4.
Definition world5 := match read5 with Ret w => w | Stop _ => SockDemo.world4 end.
Definition conn5 := default DnsDemo.conn0 (w_objs world5 !! 1%positive).
Definition loop5 := default event_loop_new (w_loops world5 !! 0%nat).

Lemma world5_reach : dns_reach zero_raw world5.
Proof.
  apply (dns_next zero_raw (EvRead 1%positive (Some (zlen ask)) [inl ask]) SockDemo.world4 world5);
    [apply SockDemo.world4_reach| |].
  - intros n [= <-]. vm_compute. congruence.
  - cbn [dns_step]. fold read5. assert (is_ret read5 = true) as E by (vm_compute; reflexivity).
    unfold world5. destruct read5; [reflexivity|discriminate E].
Qed.

(** The answer has been written: one connection, nothing to send. *)
Definition write6 := do_write run_hook [[inl 24]] 1%positive world5.
Definition world6 := match write6 with Ret w => w | Stop _ => world5 end.
Definition conn6 := default DnsDemo.conn0 (w_objs world6 !! 1%positive).
Definition loop6 := default event_loop_new (w_loops world6 !! 0%nat).

Lemma world6_reach : dns_reach zero_raw world6.
Proof.
  apply (dns_next zero_raw (EvWrite 1%positive [[inl 24]]) world5 world6); [apply world5_reach|exact I|].
  cbn [dns_step]. fold write6. assert (is_ret write6 = true) as E by (vm_compute; reflexivity).
  unfold world6. destruct write6; [reflexivity|discriminate E].
Qed.

Lemma world6_objs x c : w_objs world6 !! x = Some c -> x = 1%positive /\ c = conn6.
Proof.
  assert (w_objs world6 = {[1%positive := conn6]}) as -> by (vm_compute; reflexivity).
  rewrite lookup_singleton. generalize conn6. intros d. case_decide as E; [|discriminate].
  intros [= <-]. split; [symmetry; exact E|reflexivity].
Qed.

#[local] Opaque world6 conn6 loop6.

Lemma pending6 : entry (_push_list (dns_subs (w_user world6))) (_connfd conn6) = ∅.
Proof. vm_compute. reflexivity. Qed.
Lemma online6 : _connfd conn6 ∈ get_listen_fds loop6.
Proof. vm_compute. reflexivity. Qed.
Lemma booked6 : _connfd conn6 ∈ book world6 (make_key 1 2).
Proof. vm_compute. reflexivity. Qed.

Lemma mods6 mods : NoDup mods -> (forall m, m ∈ mods <-> owed [make_key 1 2] loop6 world6 conn6 m) -> mods = [make_key 1 2].
Proof.
  intros Hnd Hm. apply NoDup_singleton_elems; [exact Hnd|]. intros m. rewrite Hm. unfold owed. rewrite pending6. split.
  - intros [_ [Hn|[Hn _]]]; [destruct (not_elem_of_empty _ Hn)|by apply list_elem_of_singleton in Hn].
  - intros ->. split; [apply online6|right; split; [by left|apply booked6]].
Qed.

Lemma output6 fl io ib ob : conns_repr world6 fl io -> io !! 1%positive = Some (ib, ob) -> ob = [].
Proof.
  intros Hw Hio. assert (w_objs world6 !! 1%positive = Some conn6) as Hx by (vm_compute; reflexivity).
  destruct (cr_conn _ _ _ Hw _ _ _ _ Hx Hio) as (_ & Hob & _). apply rb_length_ok in Hob.
  assert (rb_length (obuf conn6) (w_mem world6) = Ret 0) as E by (vm_compute; reflexivity).
  rewrite E in Hob. injection Hob as Hz. by apply zlen_nil.
Qed.

Lemma room6 fl io x c ib ob mods :
  conns_repr world6 fl io -> w_objs world6 !! x = Some c -> io !! x = Some (ib, ob) -> NoDup mods ->
  (forall m, m ∈ mods <-> owed [make_key 1 2] loop6 world6 c m) ->
  zlen ob + zlen (push_frames (dns_route (w_user world6)) mods) <= m4M.
Proof.
  intros Hw Hx Hio Hnd Hm. destruct (world6_objs x c Hx) as [-> ->]. rewrite (output6 fl io ib ob Hw Hio), (mods6 mods Hnd Hm).
  vm_compute. congruence.
Qed.
End PushDemo.
Import PushDemo.
#[local] Opaque world6 conn6 loop6.

Lemma dns_reach_safe_witness : table_ok world6 /\ exists fl io, conns_repr world6 fl io.
Proof. destruct (dns_reach_safe zero_raw zero_raw_len world6 world6_reach) as [_ H1 H2]. split; [exact H1|exact H2]. Defined.

Lemma push_reaches_witness :
  exists w' fl' io' ib, run_task zero_raw 0%nat (set_subs (publish_lists [make_key 1 2] (dns_subs (w_user world6))) world6) = Ret w' /\
    conns_repr w' fl' io' /\ io' !! 1%positive = Some (ib, push_frame (dns_route (w_user world6)) (make_key 1 2)).
Proof.
  destruct (dns_reach_all zero_raw zero_raw_len world6 world6_reach) as [_ _ (fl & io & Hw)].
  destruct (push_reaches zero_raw zero_raw_len [make_key 1 2] 0%nat loop6 world6 fl io) as
    [[_ Hs]|(w' & fl' & io' & Hr & _ & Hw' & Hout & _)].
  - apply world6_reach.
  - exact Hw.
  - vm_compute. reflexivity.
  - intros x c ib ob mods. by apply (room6 fl io).
  - exfalso. vm_compute in Hs. congruence.
  - destruct (proj2 (cr_dom _ _ _ Hw 1%positive)) as [[ib ob] Hio]; [exists conn6; vm_compute; reflexivity|].
    destruct (Hout 1%positive conn6 ib ob) as (mods & Hnd & Hm & Hx); [vm_compute; reflexivity|vm_compute; congruence|exact Hio|].
    exists w', fl', io', ib. split; [exact Hr|]. split; [exact Hw'|]. rewrite Hx, (output6 fl io ib ob Hw Hio), (mods6 mods Hnd Hm).
    unfold push_frames. cbn [fmap list_fmap concat app]. rewrite app_nil_r. reflexivity.
Defined.
