(* ===== verification/DnsSpec.v ===== *)
(** * What the DNS server promises: publish and subscribe for routes

    A specification of the DNS server (DnsServer.v) that knows nothing of buffers, pools,
    event loops, tables of connections or books of subscribers: the server is its open
    clients, each with the services it has asked for and the bytes received and to be sent, the
    route table, and the changes that are still to be told.  [spec_step] says what each event
    does to it, [kernel_ok] which events the kernel and the other threads may report.
    DnsRefine.v proves that the server implements it. *)

From S2P Require Import Prelude.
From S2P Require Import IoBuf.
From S2P Require Import Message.
From S2P Require Import ConnStep.
From S2P Require Import ServerClients.
From S2P Require Import Proto.
From S2P Require Import DnsRoute.
From S2P Require Import DnsServer.
From S2P Require Import DnsSocket.

(** An open client. *)
Record client := Client {
  cl_fd : Z;
  cl_loop : nat;
  cl_subs : gset Z;
  cl_in : list byte;
  cl_out : list byte
}.

(** The server: its clients, by the address of their connection; the route table; what is to be
    told to which descriptor; the addresses in use, which are never given back. *)
Record pubsub := PubSub {
  ps_clients : gmap loc client;
  ps_route : Route;
  ps_pending : gset (Z * Z);
  ps_objs : gset loc
}.

Definition set_clients (cs : gmap loc client) (a : pubsub) : pubsub :=
  PubSub cs (ps_route a) (ps_pending a) (ps_objs a).
Definition set_in (ib : list byte) (cl : client) : client :=
  Client (cl_fd cl) (cl_loop cl) (cl_subs cl) ib (cl_out cl).
Definition set_out (ob : list byte) (cl : client) : client :=
  Client (cl_fd cl) (cl_loop cl) (cl_subs cl) (cl_in cl) ob.
Definition add_sub (m : Z) (cl : client) : client :=
  Client (cl_fd cl) (cl_loop cl) ({[m]} ∪ cl_subs cl) (cl_in cl) (cl_out cl).

#[export] Instance client_view : ClientView client (gset Z) := {|
  v_fd := cl_fd; v_loop := cl_loop; v_param cl := Some (cl_subs cl); v_in := cl_in; v_out := cl_out |}.

Section Spec.
Context `{!Protobuf}.

(** The hosts of a service, queued for a client. *)
Definition tell (r : Route) (modid cmdid : Z) (ob : list byte) : list byte :=
  queued ID_GetRouteResponse (serialize (route_response modid cmdid r)) ob.

(** A message: a route request subscribes the client and is answered, any other is ignored. *)
Definition answer_msg (r : Route) (cl : client) (msg : Z * list byte) : client :=
  if bool_decide (msg.1 = ID_GetRouteRequest) then
    let q : GetRouteRequest := parse msg.2 in
    set_out (tell r (rq_modid q) (rq_cmdid q) (cl_out cl)) (add_sub (req_key q) cl)
  else cl.

(** Received bytes; [None] when they make the server close the connection. *)
Definition serve (r : Route) (chunk : list byte) (cl : client) : option client :=
  let '(msgs, rest, bad) := deframe (cl_in cl ++ chunk) in
  if (bad : bool) then None else Some (set_in rest (foldl (answer_msg r) cl msgs)).

(** What is pending for a descriptor, and the pushes for it. *)
Definition pending_of (fd : Z) (a : pubsub) : gset Z :=
  set_map snd (filter (fun p => p.1 = fd) (ps_pending a)).
Definition told (a : pubsub) (cl : client) : client :=
  set_out (foldl (fun ob m => tell (ps_route a) (key_hi m) (key_lo m) ob) (cl_out cl) (elements (pending_of (cl_fd cl) a))) cl.

(** The clients of a loop, and what is due to them. *)
Definition on_loop_fds (loop : nat) (a : pubsub) : gset Z :=
  list_to_set ((fun kv => cl_fd kv.2) <$> map_to_list (filter (fun kv => cl_loop kv.2 = loop) (ps_clients a))).
Definition due_pairs (loop : nat) (a : pubsub) : gset (Z * Z) :=
  filter (fun p => p.1 ∈ on_loop_fds loop a) (ps_pending a).

(** Who is told what about changed services. *)
Definition changed_pairs (changes : list Z) (a : pubsub) : gset (Z * Z) :=
  list_to_set (kv ← map_to_list (ps_clients a);
    (fun m => (cl_fd kv.2, m)) <$> filter (fun m => m ∈ changes) (elements (cl_subs kv.2))).

Definition spec_step (ev : dns_event) (a : pubsub) : pubsub :=
  match ev with
  | EvOpen x fd loop =>
      PubSub (<[x := Client fd loop ∅ [] []]> (ps_clients a)) (ps_route a) (ps_pending a) ({[x]} ∪ ps_objs a)
  | EvRead x fionread ks =>
      set_clients (match read_chunk fionread ks with
                   | None => delete x (ps_clients a)
                   | Some chunk => partial_alter (fun cl => cl ≫= serve (ps_route a) chunk) x (ps_clients a)
                   end) a
  | EvWrite x kss =>
      set_clients (partial_alter (fun cl => cl ← cl; ob ← drained kss (cl_out cl); Some (set_out ob cl)) x (ps_clients a)) a
  | EvClose x => set_clients (delete x (ps_clients a)) a
  | EvCheck wait inp last =>
      PubSub (ps_clients a) (check_round wait inp last (ps_route a)).2 (ps_pending a) (ps_objs a)
  | EvPublish changes =>
      PubSub (ps_clients a) (ps_route a) (ps_pending a ∪ changed_pairs changes a) (ps_objs a)
  | EvPush loop =>
      PubSub ((fun cl => if bool_decide (cl_loop cl = loop) then told a cl else cl) <$> ps_clients a)
             (ps_route a) (ps_pending a ∖ due_pairs loop a) (ps_objs a)
  end.

(** The memory in KB that an event may ask for; [None] when it asks for none. *)
Definition step_kb (ev : dns_event) (a : pubsub) : option Z :=
  match ev with
  | EvRead x fionread ks =>
      Some (4096 + 8192 * match ps_clients a !! x with
                          | None => 0
                          | Some cl => zlen (deframe (cl_in cl ++ default [] (read_chunk fionread ks))).1.1
                          end)
  | EvPush loop => Some (8192 * Z.of_nat (size (due_pairs loop a)))
  | _ => None
  end.
End Spec.

(** What may happen: a connection is opened at an unused address with a descriptor nobody has,
    below the number of slots and on a loop of the server; sockets become readable and writable,
    and connections are closed, while they are open; [read] and [write] behave as documented,
    and no more is announced than a buffer can take; the threads push on their own loops. *)
Definition kernel_ok (e : env) (ev : dns_event) (a : pubsub) : bool :=
  match ev with
  | EvOpen x fd loop =>
      bool_decide (x ∉ ps_objs a) && bool_decide (0 <= fd < en_slots e) && bool_decide (fd ∉ en_own e) &&
      bool_decide (map_Forall (fun _ cl => cl_fd cl <> fd) (ps_clients a)) && bool_decide (loop ∈ en_loops e)
  | EvRead x fionread ks =>
      match ps_clients a !! x with None => false | Some _ => reads_ok PENDING fionread ks end
  | EvWrite x kss =>
      match ps_clients a !! x with None => false | Some cl => writes_ok kss (zlen (cl_out cl)) end
  | EvClose x => bool_decide (is_Some (ps_clients a !! x))
  | EvCheck _ _ _ | EvPublish _ => true
  | EvPush loop => bool_decide (loop ∈ en_loops e)
  end.

(** A server that has started with the given table. *)
Definition spec_init (r : Route) : pubsub := PubSub ∅ r ∅ ∅.

(** What happens to the specification in the course of events, and that all of them may happen. *)
Definition spec_run `{!Protobuf} (evs : list dns_event) (a : pubsub) : pubsub := foldl (fun a ev => spec_step ev a) a evs.
Fixpoint kernel_trace `{!Protobuf} (e : env) (evs : list dns_event) (a : pubsub) : bool :=
  match evs with
  | [] => true
  | ev :: evs => kernel_ok e ev a && kernel_trace e evs (spec_step ev a)
  end.
