(* ===== verification/DnsRefine.v ===== *)
(** * The DNS server implements its specification

    A simulation: [refines] relates a state of the server (DnsServer.v), with its buffers,
    event loops, connection table and books, to a state of the specification (DnsSpec.v).
    Every event that may happen takes related states to related states; the server stops only
    where the buffer pool is at its limit.  So no client, whatever bytes it sends, can make the
    server fail an assertion, follow a null pointer or leave an array. *)

From S2P Require Import Prelude.
From S2P Require Import IoBuf.
From S2P Require Import BufPool.
From S2P Require Import ReactorBuf.
From S2P Require Import Message.
From S2P Require Import EventLoop.
From S2P Require Import ThreadPool.
From S2P Require Import TcpConn.
From S2P Require Import Isolation.
From S2P Require Import ConnStep.
From S2P Require Import ServerClients.
From S2P Require Import TcpServer.
From S2P Require Import Proto.
From S2P Require Import DnsRoute.
From S2P Require Import Subscribe.
From S2P Require Import DnsServer.
From S2P Require Import DnsSocket.
From S2P Require Import DnsPush.
From S2P Require Import DnsSpec.

Section Refine.
Context {K : Type} `{!Epoll K} `{!EpollLive K} `{!Protobuf}.
Context (raw : Z -> list byte) (raw_len : forall n, 0 <= n -> zlen (raw n) = n).
Implicit Types (w : world K dns_hook dns_msg dns_task (gset Z) dns_state) (a : pubsub) (cl : client).
Implicit Types (io : gmap loc (list byte * list byte)) (l : event_loop K io_cb io_arg dns_task).

Abbreviation pushes w := (_push_list (dns_subs (w_user w))).

(** The clients of the specification are those of the server; table and pending changes agree;
    route requests, and nothing else, are routed to [get_route]. *)
Record shape (e : env) w a : Prop := {
  rf_served : served e w (ps_clients a) (ps_objs a);
  rf_route : dns_route (w_user w) = ps_route a;
  rf_pending fd m : m ∈ entry (pushes w) fd <-> (fd, m) ∈ ps_pending a;
  rf_foreign fd m : (fd, m) ∈ ps_pending a -> fd ∉ en_own e;
  rf_router id : route (router (w_srv w)) id = if bool_decide (id = ID_GetRouteRequest) then Some (get_route, None) else None
}.

Definition refines (e : env) w a : Prop := shape e w a /\ subs_ok w /\ table_ok w.

(** What the server keeps while a client changes. *)
Record kept w w' : Prop := {
  kp_route : dns_route (w_user w') = dns_route (w_user w);
  kp_push : pushes w' = pushes w;
  kp_router : router (w_srv w') = router (w_srv w)
}.

Lemma kept_refl w : kept w w.
Proof. by split. Qed.
Lemma kept_trans w1 w2 w3 : kept w1 w2 -> kept w2 w3 -> kept w1 w3.
Proof. intros [H1 H2 H3] [G1 G2 G3]. split; congruence. Qed.
Lemma kept_same w w' : w_user w' = w_user w -> w_srv w' = w_srv w -> kept w w'.
Proof. intros Hu Hs. split; by rewrite ?Hu, ?Hs. Qed.

Lemma shape_kept e w w' a cs objs :
  shape e w a -> kept w w' -> served e w' cs objs -> shape e w' (PubSub cs (ps_route a) (ps_pending a) objs).
Proof.
  intros [H1 H2 H3 H4 H5] [G1 G2 G3] Hs. split; cbn [ps_clients ps_route ps_pending ps_objs]; rewrite ?G1, ?G2, ?G3; done.
Qed.

(** The close hook of the server. *)
Lemma dns_close_hook x w c cl :
  conn_close_cb (w_srv w) = Some clear_subscribe -> w_objs w !! x = Some c -> conn_of c cl ->
  exists w2, close_hook run_hook x w w2 /\ kept w w2.
Proof.
  intros Hcb Hc (_ & _ & _ & Hp). unfold close_hook. rewrite Hcb. cbn [run_hook_opt]. unfold run_hook, obj. rewrite Hc.
  cbn [mbind res_mbind deref]. rewrite Hp. cbn [mbind res_mbind deref v_param client_view].
  eexists. split; [split; [done|]; split; [by exists c, None|done]|]. split; [done| |done].
  cbn [w_user set_obj set_subs set_user dns_subs]. by rewrite unsubscribe_all_push.
Qed.

Lemma closed_kept e cs objs x w w1 w' : kept w w1 -> closed_to e cs objs x w1 w' -> kept w w'.
Proof. intros Hk (_ & Hu & Hro & _). eapply kept_trans; [exact Hk|]. split; by rewrite ?Hu, ?Hro. Qed.

(** ** A client's messages *)
Section Client.
Context `{!Others (gset Z)}.

Lemma subscribe_conn_exact m x w c S :
  w_objs w !! x = Some c -> param c = Some S ->
  exists w1, subscribe_conn m x w = Ret w1 /\ w_objs w1 = <[x := set_param (Some ({[m]} ∪ S)) c]> (w_objs w) /\
    w_mem w1 = w_mem w /\ w_loops w1 = w_loops w /\ w_srv w1 = w_srv w /\ kept w w1.
Proof.
  intros Hc Hp. unfold subscribe_conn, obj. rewrite Hc. cbn [mbind res_mbind deref]. rewrite Hp. cbn [mbind res_mbind deref].
  case_bool_decide as Hin.
  - exists w. split; [done|]. split; [|split_and!; try done; apply kept_refl].
    rewrite (subseteq_union_1_L {[m]} S) by (by apply singleton_subseteq_l). rewrite insert_id; [done|].
    rewrite Hc. destruct c as [f lp ob ib p]. simpl in *. by subst p.
  - eexists. split; [done|]. by split_and!.
Qed.

(** The world [w], in which the connection at [x] belongs to [cl] with output [ob], as reached
    from [w0] by handling messages of [x] alone. *)
Definition client_sim (x : loc) w0 (l0 : event_loop K io_cb io_arg dns_task) cl w (ob : list byte) : Prop :=
  ob = cl_out cl /\ w_srv w = w_srv w0 /\ kept w0 w /\ (exists c, w_objs w !! x = Some c /\ conn_of c cl) /\
  exists l', w_loops w = <[cl_loop cl := l']> (w_loops w0) /\ same_but (cl_fd cl) l0 l' /\
    watched x (cl_fd cl) (cl_out cl <> []) l'.

Definition client_step (r : Route) (cb : dns_msg) (data : list byte) (len id : Z) (ud : option io_arg) cl : client :=
  answer_msg r cl (ID_GetRouteRequest, data).

Lemma client_contract x w0 l0 :
  cb_contract (run_msg raw) (client_sim x w0 l0) (client_step (dns_route (w_user w0))) 8192 x.
Proof.
  split; [done| | |].
  - intros cl w ob m (H1 & H2 & H3 & H4 & H5). split_and!; try done. by eapply kept_trans, kept_same.
  - intros cl w ob c rb Hc (H1 & H2 & H3 & (c' & Hc' & Hof) & H5). split_and!; try done; [by eapply kept_trans, kept_same|].
    exists (set_ibuf rb c). split; [apply lookup_insert_eq|]. by simplify_eq.
  - intros cb data len id ud w fl c ib ob cl Hc (-> & Hsrv & Hkept & (c' & Hc' & Hof) & l' & Hls & Hsame & Hwt).
    pose proof Hc as (Ho & Hok & Hi & Hob & Hne & Hap). rewrite Hc' in Ho. simplify_eq.
    pose proof Hof as (H0 & Hfd & Hlo & Hp). unfold run_msg. set (q := parse data : GetRouteRequest). fold (req_key q).
    destruct (subscribe_conn_exact (req_key q) x w c _ Hc' Hp) as (w1 & -> & Ho1 & Hm1 & Hl1 & Hs1 & Hk1). cbn [mbind res_mbind].
    set (c1 := set_param (Some ({[req_key q]} ∪ cl_subs cl)) c) in *.
    assert (conn_repr x w1 fl c1 ib (cl_out cl)) as Hc1.
    { split; [rewrite Ho1; apply lookup_insert_eq|]. rewrite Hm1. split_and!; try done. by eapply apart_put. }
    rewrite (kp_route _ _ Hk1), (kp_route _ _ Hkept).
    pose proof (send_exact raw raw_len (serialize (route_response (rq_modid q) (rq_cmdid q) (dns_route (w_user w0))))
      ID_GetRouteResponse x w1 fl c1 ib (cl_out cl) l' Hc1) as Hsend.
    change (_loop c1) with (_loop c) in Hsend. change (_connfd c1) with (_connfd c) in Hsend.
    rewrite Hl1, Hls, Hlo, Hfd, lookup_insert_eq in Hsend. specialize (Hsend eq_refl Hwt).
    destruct (send_message raw _ ID_GetRouteResponse x w1) as [[r w2]|e]; cbn [mbind res_mbind]; [|by rewrite Hm1 in Hsend].
    destruct Hsend as (fl2 & rb & l2 & Hc2 & Ho2 & Hl2 & Hsame2 & Hwt2 & Hu2 & Hs2 & Htot2).
    exists fl2, (set_obuf rb c1), (cl_out (client_step (dns_route (w_user w0)) cb data len id ud cl)).
    unfold client_step, answer_msg. cbn [fst snd]. rewrite bool_decide_eq_true_2 by done. fold q. unfold tell.
    cbn [cl_out set_out add_sub]. split; [exact Hc2|]. rewrite <-Hm1. split_and!; [|by rewrite Hs2, Hs1|done].
    split; [done|]. split; [by rewrite Hs2, Hs1|]. split.
    { eapply kept_trans; [exact Hkept|]. eapply kept_trans; [exact Hk1|]. by apply kept_same. }
    split; [exists (set_obuf rb c1); split; [apply Hc2|]; by split_and!|].
    exists l2. cbn [cl_loop cl_fd set_out add_sub cl_out]. rewrite insert_insert_eq in Hl2. split; [exact Hl2|].
    split; [by eapply same_but_trans|exact Hwt2].
Qed.

(** Routing sends the route requests to [get_route], and nothing else anywhere. *)
Lemma client_deliver r ro msgs cl :
  (forall id, route ro id = if bool_decide (id = ID_GetRouteRequest) then Some (get_route, None) else None) ->
  deliver (client_step r) ro msgs cl = foldl (answer_msg r) cl msgs.
Proof.
  intros Hro. unfold deliver. revert cl. induction msgs as [|[id data] msgs IH]; intros cl; [done|].
  cbn [foldl fst snd]. rewrite <-IH. f_equal. rewrite Hro. unfold client_step, answer_msg. cbn [fst snd].
  by case_bool_decide.
Qed.

End Client.

(** ** The steps *)

(** An event: the server does what the specification says, or it stops because the memory it
    may ask for takes the pool to its limit. *)
Definition simulated (e : env) (ev : dns_event) w a : Prop :=
  (dns_step raw ev w = Stop (Exit 0) /\ exists kb, step_kb ev a = Some kb /\ mem_short kb (w_mem w)) \/
  exists w', dns_step raw ev w = Ret w' /\ shape e w' (spec_step ev a).

Lemma answer_msgs_same r cl msgs (cl' := foldl (answer_msg r) cl msgs) :
  cl_fd cl' = cl_fd cl /\ cl_loop cl' = cl_loop cl.
Proof.
  subst cl'. revert cl. induction msgs as [|msg msgs IH]; intros cl; [done|]. cbn [foldl].
  destruct (IH (answer_msg r cl msg)) as [-> ->]. unfold answer_msg. by case_bool_decide.
Qed.

Lemma close_cb w : subs_ok w -> conn_close_cb (w_srv w) = Some clear_subscribe.
Proof. intros Hok. pose proof (so_hooks _ Hok) as Hh. unfold hooks in Hh. by injection Hh. Qed.

Lemma close_simulated e x w a :
  refines e w a -> kernel_ok e (EvClose x) a = true -> simulated e (EvClose x) w a.
Proof.
  intros (Hs & Hsub & Ht) Hk. simpl in Hk. apply bool_decide_eq_true_1 in Hk as [cl Hx]. pose proof (rf_served _ _ _ Hs) as Hsv.
  destruct (served_client e w _ _ x cl Hsv Hx) as (c & l & fl & io & Hc & Hof & Hl & Hwt & Hw & Hio & Hf).
  pose proof Hof as (_ & Hfd & Hlo & _).
  destruct (dns_close_hook x w c cl (close_cb w Hsub) Hc Hof) as (w2 & Hh & Hk2).
  destruct (served_close run_hook e w w w2 _ _ x cl fl io fl c _ _ l l Hsv Hx Hl Hw Hio Hf Hfd Hlo eq_refl) as (w' & Hrun & Hto); try done.
  - by rewrite insert_id.
  - right. exists w'. split; [exact Hrun|]. apply shape_kept with w; [done|by eapply closed_kept|apply Hto].
Qed.

Lemma write_simulated e x kss w a :
  refines e w a -> kernel_ok e (EvWrite x kss) a = true -> simulated e (EvWrite x kss) w a.
Proof.
  intros (Hs & Hsub & Ht) Hk. simpl in Hk. destruct (ps_clients a !! x) as [cl|] eqn:Hx; [|done].
  pose proof (rf_served _ _ _ Hs) as Hsv. destruct (sv_conn _ _ _ _ Hsv x cl Hx) as (c & Hc & Hof).
  assert (forall m, exists w2, close_hook run_hook x (set_mem m w) w2 /\ kept w w2) as Hhook.
  { intros m. destruct (dns_close_hook x (set_mem m w) c cl (close_cb w Hsub) Hc Hof) as (w2 & Hh & Hk2). exists w2. split; [done|].
    eapply kept_trans; [|exact Hk2]. by apply kept_same. }
  pose proof (served_write run_hook e w _ _ x cl (fun ob => set_out ob cl) kss (kept w) Hsv Hx Hk) as Hrun.
  right. cbn [spec_step dns_step]. change (v_out cl) with (cl_out cl) in Hrun. destruct (drained kss (cl_out cl)) as [ob'|] eqn:Ed.
  - destruct Hrun as (w' & Hrun & Hsv' & Hu & Hsr); [done|exact Hhook|]. exists w'. split; [exact Hrun|].
    rewrite (partial_alter_ext _ (fun _ => Some (set_out ob' cl)) (ps_clients a) x)
      by (intros o Hox; rewrite Hx in Hox; subst o; simpl; by rewrite Ed).
    apply shape_kept with w; [done|by apply kept_same|exact Hsv'].
  - destruct Hrun as (w2 & w' & Hk2 & Hrun & Hto); [done|exact Hhook|]. exists w'. split; [exact Hrun|].
    rewrite (partial_alter_ext _ (fun _ => None) (ps_clients a) x)
      by (intros o Hox; rewrite Hx in Hox; subst o; simpl; by rewrite Ed).
    apply shape_kept with w; [done|by eapply closed_kept|apply Hto].
Qed.

(** Bytes arrive. *)
Lemma serve_simulated e x fionread ks chunk cl w a :
  refines e w a -> ps_clients a !! x = Some cl -> reads_ok PENDING fionread ks = true -> read_chunk fionread ks = Some chunk ->
  simulated e (EvRead x fionread ks) w a.
Proof.
  intros (Hs & Hsub & Ht) Hx Hk Hchunk. pose proof (rf_served _ _ _ Hs) as Hsv.
  destruct (served_client e w _ _ x cl Hsv Hx) as (c & l & fl & io & Hc & Hof & Hl & Hwt & Hw & Hio & Hf).
  destruct (read_chunk_some PENDING fionread ks chunk Hk Hchunk) as (n & rest & Hfion & Hks & Hpos & Hfit).
  pose proof (sv_in _ _ _ _ Hsv x cl Hx) as Hin.
  destruct (deframe (cl_in cl ++ chunk)) as [[msgs rst] bad] eqn:Ed.
  assert (client_sim x w l cl w (cl_out cl)) as Hsim.
  { split; [done|]. split; [done|]. split; [apply kept_refl|]. split; [by exists c|]. exists l. rewrite insert_id by done.
    split; [done|]. split; [apply same_but_refl|done]. }
  destruct (do_read_ok (Others0 := others_of x w) raw raw_len run_hook (run_msg raw) (client_sim x w l) (client_step (dns_route (w_user w)))
    8192 chunk n rest x cl w fl c (cl_in cl) (cl_out cl) msgs rst bad (client_contract x w l) Hf Hsim Hpos
    ltac:(cbn [v_in client_view] in Hin; lia) Ed)
    as [[Hstop Hshort]|(w1 & fl1 & c1 & ob1 & Hc1 & Hsim1 & _ & _ & Hrun)].
  { left. split; [by rewrite Hfion, Hks; exact Hstop|]. eexists. split; [done|]. rewrite Hx, Hchunk. change (default [] (Some chunk)) with chunk. by rewrite Ed. }
  rewrite client_deliver in Hsim1 by (apply (rf_router _ _ _ Hs)).
  set (cl1 := foldl (answer_msg (dns_route (w_user w))) cl msgs) in *.
  pose proof (answer_msgs_same (dns_route (w_user w)) cl msgs) as Hsame1. cbv zeta in Hsame1. fold cl1 in Hsame1. destruct Hsame1 as [Hfd1 Hlo1].
  destruct Hsim1 as (-> & Hsrv1 & Hk1 & (c2 & Hc2 & Hof1) & l1 & Hls1 & Hsm1 & Hwt1). rewrite Hfd1 in Hsm1, Hwt1. rewrite Hlo1 in Hls1.
  assert (c2 = c1) as -> by (pose proof (proj1 Hc1); congruence). pose proof Hof1 as (_ & Hfdc & Hloc & _).
  right. cbn [spec_step dns_step]. rewrite Hchunk, Hfion, Hks, Hrun. destruct bad.
  - destruct (dns_close_hook x w1 c1 cl1) as (w2 & Hh & Hk2); [rewrite Hsrv1; by apply close_cb|done|done|].
    destruct (served_close run_hook e w w1 w2 _ _ x cl fl io fl1 c1 rst (cl_out cl1) l l1 Hsv Hx Hl Hw Hio Hc1) as (w' & -> & Hto);
      [simpl in *; congruence|simpl in *; congruence|done..|].
    pose proof Hto as (Hsv' & _ & _ & _ & _ & c' & Hc' & Hib).
    exists w'. cbn [mbind res_mbind]. unfold finish_read, obj. rewrite Hc'. cbn [mbind res_mbind deref]. rewrite Hib.
    cbn [ib_adjust mbind res_mbind]. split; [by destruct w'|].
    rewrite (partial_alter_ext _ (fun _ => None) (ps_clients a) x)
      by (intros o Hox; rewrite Hx in Hox; subst o; simpl; unfold serve; by rewrite Ed).
    apply shape_kept with w; [done| |exact Hsv']. eapply closed_kept; [|exact Hto]. by eapply kept_trans.
  - exists w1. split; [done|].
    rewrite (partial_alter_ext _ (fun _ => Some (set_in rst cl1)) (ps_clients a) x)
      by (intros o Hox; rewrite Hx in Hox; subst o; simpl; unfold serve; rewrite Ed; unfold cl1; by rewrite (rf_route _ _ _ Hs)).
    apply shape_kept with w; [done|done|].
    eapply (served_alter e w w1 _ _ x cl (Some (set_in rst cl1)) fl io fl1 c1 rst (cl_out cl1) l l1); try done; [by rewrite Hsrv1|].
    do 4 (split; [done|]). split; [done|]. split; [by eapply deframe_rest|]. split; [done|by rewrite Hsrv1].
Qed.

Lemma read_simulated e x fionread ks w a :
  refines e w a -> kernel_ok e (EvRead x fionread ks) a = true -> simulated e (EvRead x fionread ks) w a.
Proof.
  intros Hr Hk. simpl in Hk. destruct (ps_clients a !! x) as [cl|] eqn:Hx; [|done].
  destruct (read_chunk fionread ks) as [chunk|] eqn:Ech; [by eapply serve_simulated|]. pose proof Hr as (Hs & Hsub & Ht).
  pose proof (rf_served _ _ _ Hs) as Hsv. destruct (sv_conn _ _ _ _ Hsv x cl Hx) as (c & Hc & Hof).
  assert (forall rb m d, w_objs w !! x = Some d -> exists w2, close_hook run_hook x (set_obj x (set_ibuf rb d) (set_mem m w)) w2 /\ kept w w2) as Hhook.
  { intros rb m d Hd. simplify_eq. destruct (dns_close_hook x (set_obj x (set_ibuf rb c) (set_mem m w)) (set_ibuf rb c) cl) as (w2 & Hh & Hk2);
      [exact (close_cb w Hsub)|apply lookup_insert_eq|done|]. exists w2. split; [done|]. eapply kept_trans; [|exact Hk2]. by apply kept_same. }
  destruct (served_end raw raw_len run_hook e w _ _ x cl (run_msg raw) fionread ks (kept w) Hsv Hx Hk Ech Hhook)
    as [[Hstop Hshort]|(w2 & w' & Hk2 & Hrun & Hto)].
  - left. split; [exact Hstop|]. eexists. split; [done|]. rewrite Hx. pose proof (zlen_nonneg (deframe (cl_in cl ++ default [] (read_chunk fionread ks))).1.1).
    unfold mem_short in *. lia.
  - right. exists w'. cbn [spec_step dns_step]. split; [exact Hrun|]. rewrite Ech.
    apply shape_kept with w; [done|by eapply closed_kept|apply Hto].
Qed.

(** A connection is opened. *)
Lemma open_simulated e x fd loop w a :
  refines e w a -> kernel_ok e (EvOpen x fd loop) a = true -> simulated e (EvOpen x fd loop) w a.
Proof.
  intros (Hs & Hsub & Ht) Hk. simpl in Hk. do 4 (apply andb_prop in Hk as [Hk ?]).
  repeat match goal with H : bool_decide _ = true |- _ => apply bool_decide_eq_true_1 in H end.
  rename select (loop ∈ _) into Hloop. rename select (map_Forall _ _) into Hfresh. rename select (fd ∉ _) into Hown.
  rename select (0 <= fd < _) into Hrange. pose proof (rf_served _ _ _ Hs) as Hsv.
  rewrite (sv_objs _ _ _ _ Hsv) in Hk. apply eq_None_not_Some in Hk.
  apply (sv_loops _ _ _ _ Hsv) in Hloop as [l Hl]. rewrite <-(sv_slots _ _ _ _ Hsv) in Hrange.
  right. eexists. split.
  { cbn [dns_step]. unfold tcp_conn_new. cbn [w_srv set_obj]. pose proof (so_hooks _ Hsub) as Hh. unfold hooks in Hh.
    injection Hh as -> _. cbn [run_hook_opt]. unfold run_hook, obj. cbn [w_objs set_obj]. rewrite lookup_insert_eq.
    cbn [mbind res_mbind deref w_objs set_obj]. rewrite lookup_insert_eq. cbn [mbind res_mbind deref _loop _connfd set_param].
    unfold on_loop. cbn [w_loops set_obj]. rewrite Hl. cbn [mbind res_mbind deref]. unfold increase_conn, write_conn.
    cbn [w_srv put_loop set_obj]. rewrite bool_decide_eq_true_2 by done. cbn [mbind res_mbind]. reflexivity. }
  apply shape_kept with w; [done|by split|].
  eapply (served_open e w _ _ _ x (Client fd loop ∅ [] []) (TcpConn fd loop None None (Some ∅)) l Hsv Hk Hl); try done.
  - split; [simpl; lia|]. by split_and!.
  - cbn [w_objs set_srv put_loop set_obj]. by rewrite insert_insert_eq.
Qed.

(** The table is checked. *)
Lemma shape_user e w a u r p :
  shape e w a -> dns_route u = r -> (forall fd m, m ∈ entry (_push_list (dns_subs u)) fd <-> (fd, m) ∈ p) ->
  (forall fd m, (fd, m) ∈ p -> fd ∉ en_own e) ->
  shape e (set_user u w) (PubSub (ps_clients a) r p (ps_objs a)).
Proof.
  intros Hs Hr Hp Hf. split; try done; [|apply Hs]. by eapply served_same; [apply Hs|..].
Qed.

Lemma check_simulated e wait inp last w a : refines e w a -> simulated e (EvCheck wait inp last) w a.
Proof.
  intros (Hs & _). right. eexists. split; [done|]. cbn [spec_step]. rewrite <-(rf_route _ _ _ Hs).
  apply shape_user; [done|done|apply (rf_pending _ _ _ Hs)|apply (rf_foreign _ _ _ Hs)].
Qed.

(** Changes are published. *)
Lemma elem_of_changed changes a fd m :
  (fd, m) ∈ changed_pairs changes a <->
  m ∈ changes /\ exists x cl, ps_clients a !! x = Some cl /\ cl_fd cl = fd /\ m ∈ cl_subs cl.
Proof.
  unfold changed_pairs. rewrite elem_of_list_to_set, list_elem_of_bind. split.
  - intros ([x cl] & Hm & Hx). apply list_elem_of_fmap in Hm as (m' & [= -> ->] & Hm).
    apply list_elem_of_filter in Hm as [Hch Hm]. apply elem_of_elements in Hm. apply elem_of_map_to_list in Hx.
    split; [done|]. by exists x, cl.
  - intros (Hch & x & cl & Hx & <- & Hm). exists (x, cl). split; [|by apply elem_of_map_to_list].
    apply list_elem_of_fmap. exists m. split; [done|]. apply list_elem_of_filter. split; [done|]. by apply elem_of_elements.
Qed.

Lemma publish_simulated e changes w a : refines e w a -> simulated e (EvPublish changes) w a.
Proof.
  intros (Hs & Hsub & Ht). right. eexists. split; [done|]. cbn [spec_step]. unfold set_subs. pose proof (rf_served _ _ _ Hs) as Hsv.
  assert (forall fd m, fd ∈ book w m <-> exists x cl, ps_clients a !! x = Some cl /\ cl_fd cl = fd /\ m ∈ cl_subs cl) as Hbook.
  { intros fd m. split.
    - intros Hin. destruct (so_book _ Hsub m fd Hin) as (x & c & S & Hc & Hp & Hfd).
      destruct (sv_open _ _ _ _ Hsv x c Hc) as [cl Hcl]; [by eapply to_param|].
      destruct (sv_conn _ _ _ _ Hsv x cl Hcl) as (c' & Hc' & _ & Hfd' & _ & Hp'). simpl in Hfd', Hp'. simplify_eq.
      exists x, cl. split; [done|]. split; [congruence|]. by eapply (so_own _ Hsub x c).
    - intros (x & cl & Hx & <- & Hm). destruct (sv_conn _ _ _ _ Hsv x cl Hx) as (c & Hc & _ & Hfd & _ & Hp). simpl in Hfd, Hp. rewrite <-Hfd.
      by apply (so_own _ Hsub x c _ m Hc Hp). }
  apply shape_user; [done|apply Hs| |].
  - intros fd m. cbn [dns_subs]. rewrite elem_of_publish_lists, elem_of_union, (rf_pending _ _ _ Hs), elem_of_changed.
    by rewrite <-Hbook.
  - intros fd m [Hp|Hch]%elem_of_union; [by eapply rf_foreign|]. apply elem_of_changed in Hch as (_ & x & cl & Hx & <- & _).
    by eapply (sv_own _ _ _ _ Hsv).
Qed.

(** ** Pushing *)

(** The frames of some services behind the output of a client. *)
Definition tells (r : Route) (mods : list Z) (ob : list byte) : list byte :=
  foldl (fun ob m => tell r (key_hi m) (key_lo m) ob) ob mods.
Definition tell_fd (r : Route) (d : Z * gset Z) cl : client :=
  if bool_decide (cl_fd cl = d.1) then set_out (tells r (elements d.2) (cl_out cl)) cl else cl.

Lemma set_out_id cl : set_out (cl_out cl) cl = cl.
Proof. by destruct cl. Qed.

(** The pushes to one client. *)
Lemma push_mods_exact e fd mods w a x cl :
  shape e w a -> table_ok w -> ps_clients a !! x = Some cl -> cl_fd cl = fd -> 0 <= total_mem (w_mem w) ->
  push_mods raw fd mods w = Stop (Exit 0) /\ mem_short (8192 * zlen mods) (w_mem w) \/
  exists w', push_mods raw fd mods w = Ret w' /\ table_ok w' /\
    shape e w' (set_clients (<[x := set_out (tells (ps_route a) mods (cl_out cl)) cl]> (ps_clients a)) a) /\
    total_mem (w_mem w') <= total_mem (w_mem w) + 8192 * zlen mods.
Proof.
  revert w a cl. induction mods as [|m mods IH]; intros w a cl Hs Ht Hx Hfd H0; cbn [push_mods].
  { right. exists w. split; [done|]. split; [done|]. split; [|change (zlen (@nil Z)) with 0; lia].
    cbn [tells foldl]. rewrite set_out_id, insert_id by done. by destruct a. }
  pose proof (rf_served _ _ _ Hs) as Hsv. destruct (sv_slot _ _ _ _ Hsv x cl Hx) as [Hslot Hlt].
  destruct (served_client e w _ _ x cl Hsv Hx) as (c & l & fl & io & Hc & Hof & Hl & Hwt & Hw & Hio & Hf).
  pose proof Hof as (Hge & Hfdc & Hlo & _). simpl in Hslot, Hlt, Hfdc, Hlo. rewrite Hfd in Hslot, Hlt. rewrite Hfdc, Hfd in Hge.
  unfold read_conn. rewrite bool_decide_eq_true_2 by done. rewrite Hslot. cbn [mbind res_mbind]. rewrite (rf_route _ _ _ Hs).
  pose proof (zlen_nonneg mods) as Hn. rewrite zlen_cons.
  pose proof (send_exact (Others0 := others_of x w) raw raw_len (serialize (route_response (key_hi m) (key_lo m) (ps_route a)))
    ID_GetRouteResponse x w fl c _ _ l Hf) as Hsend. rewrite Hlo, Hfdc in Hsend. specialize (Hsend Hl Hwt).
  fold (tell (ps_route a) (key_hi m) (key_lo m) (cl_out cl)) in Hsend.
  destruct (send_message raw _ ID_GetRouteResponse x w) as [[r w1]|err] eqn:Em; cbn [mbind res_mbind]; cycle 1.
  { left. destruct Hsend as [-> Hshort]. split; [done|]. unfold mem_short in *. lia. }
  destruct Hsend as (fl1 & rb & l1 & Hc1 & Ho1 & Hls1 & Hsame1 & Hwt1 & Hu1 & Hs1 & Htot1).
  set (cl1 := set_out (tell (ps_route a) (key_hi m) (key_lo m) (cl_out cl)) cl).
  assert (shape e w1 (set_clients (<[x := cl1]> (ps_clients a)) a)) as Hs1'.
  { apply shape_kept with w; [done|by apply kept_same|].
    eapply (served_alter e w w1 _ _ x cl (Some cl1) fl io fl1 (set_obuf rb c) (cl_in cl) (cl_out cl1) l l1); try done; [by rewrite Hs1|].
    do 5 (split; [done|]). split; [by eapply (sv_in _ _ _ _ Hsv)|]. split; [done|by rewrite Hs1]. }
  assert (table_ok w1) as Ht1 by (eapply table_ok_bufs; [by eapply send_message_bufs|done]).
  assert (0 <= total_mem (w_mem w1)) as H01 by (pose proof Hc1 as (_ & (_ & _ & ?) & _); done).
  destruct (IH w1 (set_clients (<[x := cl1]> (ps_clients a)) a) cl1 Hs1' Ht1) as [[Hrun Hshort]|(w' & Hrun & Ht' & Hs' & Htot')];
    [apply lookup_insert_eq|done|done| |].
  - left. split; [exact Hrun|]. unfold mem_short in *. lia.
  - right. exists w'. split; [exact Hrun|]. split; [done|]. split; [|lia].
    cbn [ps_clients set_clients ps_route] in Hs'. rewrite insert_insert_eq in Hs'. exact Hs'.
Qed.

Lemma tell_fd_clients r fd mods e w a x cl :
  shape e w a -> table_ok w -> ps_clients a !! x = Some cl -> cl_fd cl = fd ->
  <[x := set_out (tells r (elements mods) (cl_out cl)) cl]> (ps_clients a) = tell_fd r (fd, mods) <$> ps_clients a.
Proof.
  intros Hs Ht Hx Hfd. apply map_eq. intros y. rewrite lookup_insert, lookup_fmap. unfold tell_fd. cbn [fst snd]. case_decide as E.
  - subst y. rewrite Hx. simpl. by rewrite bool_decide_eq_true_2.
  - destruct (ps_clients a !! y) as [cl1|] eqn:Hy; [|done]. simpl. rewrite bool_decide_eq_false_2; [done|].
    intros E1. apply E. eapply (served_fd _ _ _ _ _ _ _ _ (rf_served _ _ _ Hs) Hx Hy). simpl. congruence.
Qed.

Lemma push_all_exact e due w a :
  shape e w a -> table_ok w -> 0 <= total_mem (w_mem w) ->
  (forall fd mods, (fd, mods) ∈ due -> mods <> ∅ -> exists x cl, ps_clients a !! x = Some cl /\ cl_fd cl = fd) ->
  push_all raw due w = Stop (Exit 0) /\ mem_short (8192 * due_frames due) (w_mem w) \/
  exists w', push_all raw due w = Ret w' /\
    shape e w' (set_clients ((fun cl => foldl (fun cl d => tell_fd (ps_route a) d cl) cl due) <$> ps_clients a) a).
Proof.
  revert w a. induction due as [|[fd mods] due IH]; intros w a Hs Ht H0 Hdue; cbn [push_all].
  { right. exists w. split; [done|]. cbn [foldl]. rewrite map_fmap_id. by destruct a. }
  assert (due_frames ((fd, mods) :: due) = zlen (elements mods) + due_frames due) as ->.
  { unfold due_frames. rewrite fmap_cons. cbn [concat snd]. by rewrite zlen_app. }
  assert (0 <= due_frames due) as Hn by apply zlen_nonneg.
  assert (push_mods raw fd (elements mods) w = Stop (Exit 0) /\ mem_short (8192 * zlen (elements mods)) (w_mem w) \/
    exists w1, push_mods raw fd (elements mods) w = Ret w1 /\ table_ok w1 /\
      shape e w1 (set_clients (tell_fd (ps_route a) (fd, mods) <$> ps_clients a) a) /\
      total_mem (w_mem w1) <= total_mem (w_mem w) + 8192 * zlen (elements mods)) as [[-> Hshort]|(w1 & -> & Ht1 & Hs1 & Htot1)].
  { destruct (decide (mods = ∅)) as [->|Hne].
    - right. exists w. rewrite elements_empty. split; [done|]. split; [done|]. split; [|change (zlen (@nil Z)) with 0; lia].
      assert (tell_fd (ps_route a) (fd, ∅) <$> ps_clients a = ps_clients a) as ->; [|by destruct a].
      rewrite <-(map_fmap_id (ps_clients a)) at 2. apply map_fmap_ext. intros y cl _. unfold tell_fd. cbn [fst snd].
      rewrite elements_empty. case_bool_decide; [apply set_out_id|done].
    - destruct (Hdue fd mods) as (x & cl & Hx & Hfd); [by left|done|].
      destruct (push_mods_exact e fd (elements mods) w a x cl Hs Ht Hx Hfd H0) as [Hst|(w1 & H1 & H2 & H3 & H4)]; [by left|right].
      exists w1. rewrite (tell_fd_clients _ fd mods e w a x cl) in H3 by done. done. }
  { left. cbn [mbind res_mbind]. split; [done|]. unfold mem_short in *. lia. }
  cbn [mbind res_mbind]. destruct (sv_bytes _ _ _ _ (rf_served _ _ _ Hs1)) as (fl1 & io1 & Hw1 & _). pose proof (cr_pool _ _ _ Hw1) as (_ & _ & H01).
  destruct (IH w1 _ Hs1 Ht1 H01) as [[-> Hshort]|(w' & -> & Hs')].
  - intros fd' mods' Hin Hne. destruct (Hdue fd' mods') as (x & cl & Hx & Hfd); [by right|done|].
    exists x, (tell_fd (ps_route a) (fd, mods) cl). cbn [ps_clients set_clients]. rewrite lookup_fmap, Hx. split; [done|].
    unfold tell_fd. by case_bool_decide.
  - left. split; [done|]. unfold mem_short in *. lia.
  - right. exists w'. split; [done|]. cbn [ps_clients set_clients ps_route] in Hs'. rewrite <-map_fmap_compose in Hs'. exact Hs'.
Qed.

(** The clients of a loop are the descriptors it watches, as far as anything is pending for them. *)
Lemma elem_of_loop_fds loop a fd :
  fd ∈ on_loop_fds loop a <-> exists x cl, ps_clients a !! x = Some cl /\ cl_loop cl = loop /\ cl_fd cl = fd.
Proof.
  unfold on_loop_fds. rewrite elem_of_list_to_set, list_elem_of_fmap. split.
  - intros ([x cl] & -> & Hx%elem_of_map_to_list). apply map_lookup_filter_Some in Hx as [Hx Hl]. by exists x, cl.
  - intros (x & cl & Hx & Hl & <-). exists (x, cl). split; [done|]. apply elem_of_map_to_list, map_lookup_filter_Some. done.
Qed.

Lemma pending_online e w a loop l fd m :
  shape e w a -> w_loops w !! loop = Some l -> (fd, m) ∈ ps_pending a -> fd ∈ get_listen_fds l <-> fd ∈ on_loop_fds loop a.
Proof.
  intros Hs Hl Hp. split.
  - intros Hin. destruct (decide (fd ∈ on_loop_fds loop a)) as [|Hn]; [done|]. exfalso.
    destruct (sv_quiet _ _ _ _ (rf_served _ _ _ Hs) loop l fd Hl) as (_ & _ & Hno); [by eapply rf_foreign| |done].
    intros x cl Hx Hlo Hfd. apply Hn, elem_of_loop_fds. by exists x, cl.
  - intros (x & cl & Hx & <- & <-)%elem_of_loop_fds. destruct (sv_watch _ _ _ _ (rf_served _ _ _ Hs) x cl Hx) as (l1 & Hl1 & Hwt).
    simpl in Hl1, Hwt. simplify_eq. by apply Hwt.
Qed.

Lemma elem_of_pending_of fd a m : m ∈ pending_of fd a <-> (fd, m) ∈ ps_pending a.
Proof.
  unfold pending_of. rewrite elem_of_map. split.
  - intros ([fd' m'] & -> & Hin). apply elem_of_filter in Hin as [Hfd Hin]. simpl in Hfd. by subst fd'.
  - intros Hin. exists (fd, m). split; [done|]. by apply elem_of_filter.
Qed.

Lemma due_frames_le (due : list (Z * gset Z)) (S : gset (Z * Z)) :
  NoDup due.*1 -> (forall fd mods m, (fd, mods) ∈ due -> m ∈ mods -> (fd, m) ∈ S) -> due_frames due <= Z.of_nat (size S).
Proof.
  intros Hnd Hin. set (L := due ≫= (fun d => (fun m => (d.1, m)) <$> elements d.2)).
  assert (due_frames due = zlen L) as ->.
  { unfold due_frames, L. clear. induction due as [|d due IH]; [done|]. rewrite bind_cons, fmap_cons. cbn [concat].
    rewrite !zlen_app, IH. unfold zlen. by rewrite length_fmap. }
  assert (forall fd m ds, (fd, m) ∈ ds ≫= (fun d : Z * gset Z => (fun m => (d.1, m)) <$> elements d.2) <->
    exists mods, (fd, mods) ∈ ds /\ m ∈ mods) as HL.
  { intros fd m ds. rewrite list_elem_of_bind. split.
    - intros ([fd' mods] & Hm & Hd). apply list_elem_of_fmap in Hm as (m' & [= -> ->] & Hm). exists mods. split; [done|].
      by apply elem_of_elements.
    - intros (mods & Hd & Hm). exists (fd, mods). split; [|done]. apply list_elem_of_fmap. exists m. split; [done|].
      by apply elem_of_elements. }
  assert (NoDup L) as HndL.
  { unfold L. clear -Hnd HL. induction due as [|[fd mods] due IH]; [constructor|]. apply NoDup_cons in Hnd as [Hfd Hnd].
    rewrite bind_cons. apply NoDup_app. split; [apply NoDup_fmap_2; [by intros ? ? [= ->]|apply NoDup_elements]|].
    split; [|by apply IH]. intros [fd' m] Hm Hm'. apply list_elem_of_fmap in Hm as (? & [= -> _] & _).
    apply HL in Hm' as (mods2 & Hd & _). apply Hfd, list_elem_of_fmap. by exists (fd, mods2). }
  unfold zlen. rewrite <-(size_list_to_set (C := gset (Z * Z)) L HndL). apply inj_le, subseteq_size.
  intros [fd m] Hp. rewrite elem_of_list_to_set in Hp. apply HL in Hp as (mods & Hd & Hm). by eapply Hin.
Qed.

Lemma tell_fds r (due : list (Z * gset Z)) cl :
  NoDup due.*1 ->
  ((cl_fd cl ∉ due.*1) -> foldl (fun cl d => tell_fd r d cl) cl due = cl) /\
  (forall mods, (cl_fd cl, mods) ∈ due ->
     foldl (fun cl d => tell_fd r d cl) cl due = set_out (tells r (elements mods) (cl_out cl)) cl).
Proof.
  revert cl. induction due as [|[fd mods] due IH]; intros cl Hnd.
  { split; [done|]. intros mods Hin. by apply not_elem_of_nil in Hin. }
  apply NoDup_cons in Hnd as [Hfd Hnd]. cbn [fst] in Hfd. cbn [foldl]. unfold tell_fd at 2 4. cbn [fst snd].
  destruct (decide (cl_fd cl = fd)) as [Heq|Hne].
  - rewrite bool_decide_eq_true_2 by done. destruct (IH (set_out (tells r (elements mods) (cl_out cl)) cl) Hnd) as [IH1 _].
    cbn [cl_fd set_out] in IH1. split; [intros Hn; exfalso; apply Hn; rewrite Heq; by left|].
    intros mods' [[= _ ->]|Hin]%elem_of_cons; [apply IH1; by rewrite Heq|].
    exfalso. apply Hfd, list_elem_of_fmap. exists (cl_fd cl, mods'). by rewrite <-Heq.
  - rewrite bool_decide_eq_false_2 by done. destruct (IH cl Hnd) as [IH1 IH2]. split.
    + intros Hn. apply IH1. intros Hin. apply Hn. by right.
    + intros mods' [[= ? _]|Hin]%elem_of_cons; [done|by apply IH2].
Qed.

Lemma push_simulated e loop w a :
  refines e w a -> kernel_ok e (EvPush loop) a = true -> simulated e (EvPush loop) w a.
Proof.
  intros (Hs & Hsub & Ht) Hk. simpl in Hk. apply bool_decide_eq_true_1, (sv_loops _ _ _ _ (rf_served _ _ _ Hs)) in Hk as [l Hl].
  set (on := get_listen_fds l). set (due := filter (fun kv => kv.1 ∈ on) (pushes w)).
  set (w2 := set_subs (Subs (_book_list (dns_subs (w_user w))) (filter (fun kv => kv.1 ∉ on) (pushes w))) w).
  assert (dns_step raw (EvPush loop) w = push_all raw (map_to_list due) w2) as Hrun.
  { cbn [dns_step]. unfold run_task. rewrite Hl. reflexivity. }
  pose proof (fun fd m => pending_online e w a loop l fd m Hs Hl) as Hon. fold on in Hon.
  assert (forall fd mods m, (fd, mods) ∈ map_to_list due -> m ∈ mods -> (fd, m) ∈ due_pairs loop a) as Hpairs.
  { intros fd mods m Hin%elem_of_map_to_list Hm. apply map_lookup_filter_Some in Hin as [Hfd Hion]. simpl in Hion.
    assert ((fd, m) ∈ ps_pending a) as Hp by (apply (rf_pending _ _ _ Hs); unfold entry; by rewrite Hfd).
    unfold due_pairs. apply elem_of_filter. split; [|done]. by apply (Hon fd m). }
  assert (shape e w2 (PubSub (ps_clients a) (ps_route a) (ps_pending a ∖ due_pairs loop a) (ps_objs a))) as Hs2.
  { apply shape_user; [done|apply Hs| |].
    - intros fd m. cbn [dns_subs _push_list]. rewrite (entry_filter (fun k => k ∉ on)), (rf_pending _ _ _ Hs), elem_of_difference.
      unfold due_pairs. rewrite elem_of_filter. cbn [fst]. pose proof (Hon fd m) as Hon'. tauto.
    - intros fd m [Hp _]%elem_of_difference. by eapply rf_foreign. }
  assert (table_ok w2) as Ht2.
  { apply table_ok_user; [done|]. intros fd m Hm. eapply (to_push _ Ht).
    apply (entry_filter (fun k => k ∉ on)) in Hm as [_ Hm]. exact Hm. }
  destruct (sv_bytes _ _ _ _ (rf_served _ _ _ Hs)) as (fl & io & Hw & _). pose proof (cr_pool _ _ _ Hw) as (_ & _ & H0).
  unfold simulated. rewrite Hrun. destruct (push_all_exact e (map_to_list due) w2 _ Hs2 Ht2 H0) as [[-> Hshort]|(w' & -> & Hs')].
  - intros fd mods Hin [m Hm]%set_choose_L. pose proof (Hpairs fd mods m Hin Hm) as Hp. unfold due_pairs in Hp.
    apply elem_of_filter in Hp as [Hp _]. apply elem_of_loop_fds in Hp as (x & cl & Hx & _ & Hfd). by exists x, cl.
  - left. split; [done|]. eexists. split; [done|]. unfold mem_short in *. change (w_mem w2) with (w_mem w) in Hshort.
    pose proof (due_frames_le (map_to_list due) (due_pairs loop a) (NoDup_fst_map_to_list due) Hpairs). lia.
  - right. exists w'. split; [done|]. cbn [spec_step]. unfold set_clients in Hs'. cbn [ps_clients ps_route ps_pending ps_objs] in Hs'.
    erewrite map_fmap_ext; [exact Hs'|]. intros x cl Hx. cbv beta.
    destruct (tell_fds (ps_route a) (map_to_list due) cl (NoDup_fst_map_to_list due)) as [Hout Hin].
    assert (pending_of (cl_fd cl) a = entry (pushes w) (cl_fd cl)) as Hpend.
    { apply set_eq. intros m. by rewrite elem_of_pending_of, (rf_pending _ _ _ Hs). }
    assert (forall mods, (cl_fd cl, mods) ∈ map_to_list due -> pushes w !! cl_fd cl = Some mods) as Hlook.
    { intros mods Hd%elem_of_map_to_list. by apply map_lookup_filter_Some in Hd as [? _]. }
    destruct (decide (cl_fd cl ∈ (map_to_list due).*1)) as [Hd|Hd].
    + apply list_elem_of_fmap in Hd as ([fd mods] & Hfd & Hd). simpl in Hfd. subst fd. rewrite (Hin mods Hd).
      case_bool_decide as Hlo.
      * unfold told. rewrite Hpend. unfold entry. by rewrite (Hlook mods Hd).
      * destruct (decide (mods = ∅)) as [->|[m Hm]%set_choose_L]; [rewrite elements_empty; symmetry; apply set_out_id|].
        exfalso. apply Hlo. pose proof (Hpairs _ _ _ Hd Hm) as Hp. unfold due_pairs in Hp. apply elem_of_filter in Hp as [Hp _].
        apply elem_of_loop_fds in Hp as (y & cl1 & Hy & Hlo1 & Hfd1).
        assert (y = x) as -> by (by apply (served_fd e w _ _ y x cl1 cl (rf_served _ _ _ Hs) Hy Hx)). congruence.
    + rewrite (Hout Hd). case_bool_decide as Hlo; [|done]. unfold told. rewrite Hpend.
      assert (entry (pushes w) (cl_fd cl) = ∅) as ->; [|rewrite elements_empty; apply set_out_id].
      apply set_eq. intros m. split; [|intros Hm; by apply not_elem_of_empty in Hm]. intros Hm. exfalso. apply Hd.
      unfold entry in Hm. destruct (pushes w !! cl_fd cl) as [mods|] eqn:E; [|by apply not_elem_of_empty in Hm].
      apply list_elem_of_fmap. exists (cl_fd cl, mods). split; [done|]. apply elem_of_map_to_list, map_lookup_filter_Some.
      split; [done|]. simpl. destruct (sv_watch _ _ _ _ (rf_served _ _ _ Hs) x cl Hx) as (l1 & Hl1 & Hwt). simpl in Hl1, Hwt. rewrite Hlo in Hl1.
      simplify_eq. by apply Hwt.
Qed.

(** Every event. *)
Lemma event_simulated e ev w a : refines e w a -> kernel_ok e ev a = true -> simulated e ev w a.
Proof.
  intros Hr Hk. destruct ev as [x fd loop|x fionread ks|x kss|x|wait inp last|changes|loop].
  - by apply open_simulated.
  - by apply read_simulated.
  - by apply write_simulated.
  - by apply close_simulated.
  - by apply check_simulated.
  - by apply publish_simulated.
  - by apply push_simulated.
Qed.

Lemma kernel_guard e ev w a : shape e w a -> kernel_ok e ev a = true -> dns_guard ev w.
Proof.
  intros Hs Hk. destruct ev as [x fd loop|x fionread ks| | | | |]; cbn [dns_guard]; try done; simpl in Hk.
  - do 4 (apply andb_prop in Hk as [Hk ?]).
    repeat match goal with H : bool_decide _ = true |- _ => apply bool_decide_eq_true_1 in H end.
    rename select (map_Forall _ _) into Hfresh. rename select (0 <= fd < _) into Hrange.
    pose proof (rf_served _ _ _ Hs) as Hsv. rewrite (sv_objs _ _ _ _ Hsv) in Hk. split; [by apply eq_None_not_Some|]. intros y d Hy Hfd.
    destruct (sv_open _ _ _ _ Hsv y d Hy) as [cl Hcl]; [lia|]. apply (Hfresh y cl Hcl).
    destruct (sv_conn _ _ _ _ Hsv y cl Hcl) as (d' & Hd' & _ & Hfd' & _). simpl in Hfd'. simplify_eq. congruence.
  - intros n ->. destruct (ps_clients a !! x); [|done]. simpl in Hk. apply andb_prop in Hk as [Hk _].
    apply andb_prop in Hk as [Hk _]. by apply bool_decide_eq_true_1 in Hk.
Qed.

Lemma event_refines e ev w a w' :
  refines e w a -> kernel_ok e ev a = true -> dns_step raw ev w = Ret w' -> refines e w' (spec_step ev a).
Proof.
  intros Hr Hk Hstep. pose proof Hr as (Hs & Hsub & Ht). pose proof (kernel_guard e ev w a Hs Hk) as Hg.
  split; [|split; [by eapply dns_step_ok|by eapply step_table]].
  destruct (event_simulated e ev w a Hr Hk) as [[Hst _]|(w1 & Hst & Hs')]; rewrite Hstep in Hst; [done|by simplify_eq].
Qed.

(** ** From the start *)

(** The server runs through some events. *)
Fixpoint dns_run (evs : list dns_event) w : res (world K dns_hook dns_msg dns_task (gset Z) dns_state) :=
  match evs with
  | [] => Ret w
  | ev :: evs => w ← dns_step raw ev w; dns_run evs w
  end.

Lemma run_simulated e evs w a :
  refines e w a -> kernel_trace e evs a = true ->
  (exists w', dns_run evs w = Ret w' /\ refines e w' (spec_run evs a)) \/
  exists pre ev post w1 kb, evs = pre ++ ev :: post /\ dns_run pre w = Ret w1 /\ refines e w1 (spec_run pre a) /\
    dns_step raw ev w1 = Stop (Exit 0) /\ step_kb ev (spec_run pre a) = Some kb /\ mem_short kb (w_mem w1).
Proof.
  revert w a. induction evs as [|ev evs IH]; intros w a Hr Hk; [left; by exists w|].
  cbn [kernel_trace] in Hk. apply andb_prop in Hk as [Hk Hks].
  destruct (event_simulated e ev w a Hr Hk) as [(Hst & kb & Hkb & Hm)|(w1 & Hst & _)].
  - right. exists [], ev, evs, w, kb. split_and!; done.
  - pose proof (event_refines e ev w a w1 Hr Hk Hst) as Hr1. cbn [dns_run]. rewrite Hst. cbn [mbind res_mbind].
    destruct (IH w1 _ Hr1 Hks) as [(w' & Hrun & Hr')|(pre & ev' & post & w2 & kb & -> & Hrun & Hr2 & Hrest)].
    + left. by exists w'.
    + right. exists (ev :: pre), ev', post, w2, kb. split; [done|]. cbn [dns_run]. rewrite Hst. cbn [mbind res_mbind].
      split; [exact Hrun|]. by split.
Qed.

Lemma start_refines {E} `{!EventFd E} e sock bnd lst (stale : pool_ptr E dns_task) w sv w' :
  fresh e sock w -> dns_subs (w_user w) = SubscribeList_new -> dns_main sock bnd lst stale w = Ret (sv, w') ->
  refines e w' (spec_init (dns_route (w_user w))).
Proof.
  intros Hf Hsubs Hm. assert (dns_reach raw w') as Hreach.
  { eapply (dns_init raw); [exact (fr_objs _ _ _ Hf)|exact Hsubs|exact (fr_pool _ _ _ Hf)|exact Hm]. }
  destruct (dns_reach_all raw raw_len w' Hreach) as [Hsub Ht _]. split; [|by split].
  unfold dns_main in Hm. apply bind_Ret in Hm as ([sv1 w1] & Hnew & Hm). injection Hm as _ <-.
  destruct (server_fresh e sock bnd lst stale w sv1 w1 Hf Hnew) as (Hsv & Hro & _ & _ & Hu).
  split; cbn [spec_init ps_clients ps_route ps_pending ps_objs w_user add_msg_router set_conn_close set_conn_start set_srv]; rewrite ?Hu.
  - destruct Hsv as [G1 G2 G3 G4 G5 G6 G7 G8 G9 G10 G11]. split; try done.
    destruct G1 as (fl & io & Hw & Hio). exists fl, io. split; [by eapply conns_repr_same|done].
  - done.
  - intros fd m. rewrite Hsubs. split; intros Hn; by apply not_elem_of_empty in Hn.
  - intros fd m Hn. by apply not_elem_of_empty in Hn.
  - intros id. rewrite <-(route_single ID_GetRouteRequest id get_route None), <-Hro. reflexivity.
Qed.

Lemma dns_run_stop pre ev post w w1 err :
  dns_run pre w = Ret w1 -> dns_step raw ev w1 = Stop err -> dns_run (pre ++ ev :: post) w = Stop err.
Proof.
  revert w. induction pre as [|ev0 pre IH]; intros w; cbn [dns_run app].
  - intros [= ->] ->. done.
  - destruct (dns_step raw ev0 w) as [w2|]; [|done]. cbn [mbind res_mbind]. apply IH.
Qed.

(** (C16) The DNS server implements its specification, from its start through every course of
    events the kernel and the threads may bring, whatever bytes clients send: each event takes
    the server to a state that represents what the specification says, so every client has the
    answers and the pushes it is owed queued in order, is booked for what it asked for and
    nothing else, is registered for reading while it is open and for writing while it has
    output, and is disturbed by no other.  The server never fails an assertion, follows a null
    pointer, leaves an array or hangs in a loop; the only way it stops is [exit] where the
    memory that the event may ask for takes the buffer pool to its limit. *)
Theorem dns_refines {E} `{!EventFd E} e sock bnd lst (stale : pool_ptr E dns_task) w sv w0 evs (a0 := spec_init (dns_route (w_user w))) :
  fresh e sock w -> dns_subs (w_user w) = SubscribeList_new -> dns_main sock bnd lst stale w = Ret (sv, w0) -> kernel_trace e evs a0 = true ->
  (exists w', dns_run evs w0 = Ret w' /\ refines e w' (spec_run evs a0)) \/
  exists pre ev post w1 kb, evs = pre ++ ev :: post /\ dns_run pre w0 = Ret w1 /\ refines e w1 (spec_run pre a0) /\
    dns_step raw ev w1 = Stop (Exit 0) /\ step_kb ev (spec_run pre a0) = Some kb /\ mem_short kb (w_mem w1).
Proof. intros Hf Hsubs Hm. apply run_simulated. by eapply start_refines. Qed.
End Refine.

(** ** A client asks for service (1, 2), which then changes, and goes *)
Module RefineDemo.
Definition env1 : env := Env {[0%nat]} {[3]} (MAX_CONNS + 3).
Definition trace : list dns_event :=
  [EvOpen 1%positive 5 0%nat;
   EvRead 1%positive (Some (zlen PushDemo.ask)) [inr EINTR; inl PushDemo.ask];
   EvPublish [make_key 1 2];
   EvPush 0%nat;
   EvWrite 1%positive [[inl 24]; [inr EAGAIN]];
   EvOpen 2%positive 6 0%nat;
   EvRead 1%positive (Some 0) [inl []]].
Definition init1 : pubsub := spec_init (dns_route (w_user DnsDemo.world0)).

Lemma fresh1 : fresh env1 3 DnsDemo.world0.
Proof.
  split; try reflexivity.
  - exists empty_free. apply empty_pool_ok.
  - intros i. cbn [w_loops DnsDemo.world0 en_loops env1]. rewrite elem_of_singleton, lookup_singleton. case_decide; naive_solver.
  - intros i l fd Hl _. cbn [w_loops DnsDemo.world0] in Hl. rewrite lookup_singleton in Hl. case_decide; [|discriminate]. injection Hl as <-.
    split; [reflexivity|]. split; [reflexivity|]. apply not_elem_of_empty.
Qed.
Lemma trace_ok : kernel_trace env1 trace init1 = true.
Proof. vm_compute. reflexivity. Qed.
Lemma trace_runs : is_ret (dns_run zero_raw trace SockDemo.world3) = true.
Proof. vm_compute. reflexivity. Qed.
End RefineDemo.
Import RefineDemo.

Lemma dns_refines_witness :
  exists w', dns_run zero_raw trace SockDemo.world3 = Ret w' /\ refines env1 w' (spec_run trace init1) /\
    ps_clients (spec_run trace init1) = {[2%positive := Client 6 0%nat ∅ [] []]}.
Proof.
  assert (exists sv, dns_main (E := Z) 3 0 0 PoolNull DnsDemo.world0 = Ret (sv, SockDemo.world3)) as [sv Hm] by (eexists; reflexivity).
  destruct (dns_refines zero_raw zero_raw_len env1 3 0 0 PoolNull DnsDemo.world0 sv SockDemo.world3 trace fresh1 eq_refl Hm trace_ok)
    as [(w' & Hrun & Hr)|(pre & ev & post & w1 & kb & Ht & Hrun & _ & Hst & _)].
  - exists w'. split; [exact Hrun|]. split; [exact Hr|]. vm_compute. reflexivity.
  - exfalso. pose proof trace_runs as Hok. rewrite Ht, (dns_run_stop zero_raw pre ev post _ w1 _ Hrun Hst) in Hok. discriminate Hok.
Defined.
