(* ===== verification/Reporter.v ===== *)
(** * The reporter (lrlb_reporter/src/reporter_service.cpp, src/store_report.cpp,
      src/store_thread.cpp)

    A TCP server whose message callback deals the received reports out to the
    queues of database threads; a thread that is woken stores what its queue
    holds, one statement per host result.  MySQL is not part of the sources: what
    a thread sends to it is a log, whose replies the code only prints. *)

From Stdlib Require Import Ascii.
From S2P Require Import Prelude.
From S2P Require Import IoBuf.
From S2P Require Import BufPool.
From S2P Require Import Message.
From S2P Require Import EventLoop.
From S2P Require Import ThreadPool.
From S2P Require Import ConfigFile.
From S2P Require Import TcpConn.
From S2P Require Import TcpServer.
From S2P Require Import Proto.

(** ** The statement

    [%u] and [%d] of [snprintf]: decimal digits, most significant first. *)
Definition digit_char (d : Z) : ascii := ascii_of_N (Z.to_N (48 + d)).

Fixpoint print_digits (fuel : nat) (n : Z) (acc : str) : str :=
  match fuel with
  | O => acc
  | S fuel =>
      let acc := digit_char (n mod 10) :: acc in
      if bool_decide (n < 10) then acc else print_digits fuel (n / 10) acc
  end.

(** A 32-bit value has at most ten digits; the arguments are converted to the type
    of the conversion. *)
Definition fmt_u (z : Z) (k : str) : str := print_digits 10 (u32 z) k.
Definition fmt_d (z : Z) (k : str) : str :=
  let z := s32 z in
  if bool_decide (z < 0) then "-"%char :: print_digits 10 (- z) k else print_digits 10 z k.
Definition lit (s : String.string) (k : str) : str := text s ++ k.

(** The text [store] formats for one result. *)
Definition insert_text (req : ReportStatusReq) (r : HostCallResult) : str :=
  let overload := if cr_overload r then 1 else 0 in
  lit "INSERT INTO ServerCallStatus" (lit "(modid, cmdid, ip, port, caller, succ_cnt, err_cnt, ts, overload) "
  (lit "VALUES (" (fmt_d (rs_modid req) (lit ", " (fmt_d (rs_cmdid req) (lit ", " (fmt_u (cr_ip r)
  (lit ", " (fmt_u (cr_port r) (lit ", " (fmt_u (rs_caller req) (lit ", " (fmt_u (cr_succ r)
  (lit ", " (fmt_u (cr_err r) (lit ", " (fmt_u (rs_ts req) (lit ", " (fmt_d overload
  (lit ") ON DUPLICATE KEY " (lit "UPDATE succ_cnt = " (fmt_u (cr_succ r) (lit ", err_cnt = " (fmt_u (cr_err r)
  (lit ", ts = " (fmt_u (rs_ts req) (lit ", overload = " (fmt_d overload [])))))))))))))))))))))))))))).

(** [snprintf(sql, 1024, ...)]: at most 1023 characters are kept. *)
Definition snprintf (n : nat) (s : str) : str := take (n - 1) s.

(** ** StoreReport *)

(** What goes to the database. *)
Inductive db_call := mysql_ping | mysql_real_query (sql : str).

(** [StoreReport::StoreReport]: the parameters of the connection; [connected] says
    whether [mysql_real_connect] succeeds. *)
Definition StoreReport_new (mp : config_map) (connected : bool) : res (str * Z * str * str * str) :=
  let get key dflt := GetString mp (text "mysql") (text key) (text dflt) in
  let params := (get "host"%string "127.0.0.1"%string, s16 (GetNumber mp (text "mysql") (text "port") 3306),
                 get "user"%string "root"%string, get "passwd"%string "123"%string, get "name"%string "lrlb_dns"%string) in
  if connected then Ret params else Stop (Exit 1).

(** [StoreReport::store]. *)
Definition store (req : ReportStatusReq) : list db_call :=
  concat ((fun r => [mysql_ping; mysql_real_query (snprintf 1024 (insert_text req r))]) <$> rs_results req).

(** ** The threads *)
Section Reporter.
Context {E : Type} `{!EventFd E} `{!Protobuf}.

(** The globals [reportQueues] and [thread_cnt], the static [idx], and the log of
    each thread's connection. *)
Record reporter := MkReporter {
  reportQueues : list (thread_queue E ReportStatusReq);
  thread_cnt : Z;
  idx : Z;
  logs : list (list db_call)
}.

(** [create_reportdb_threads]; [new[]] of a negative length throws. *)
Definition create_reportdb_threads (mp : config_map) : res reporter :=
  let cnt := s32 (GetNumber mp (text "reproter") (text "db_thread_cnt") 3) in
  if bool_decide (cnt < 0) then Stop Uncaught
  else Ret (MkReporter (replicate (Z.to_nat cnt) thread_queue_new) cnt 0 (replicate (Z.to_nat cnt) [])).

(** [store_main] of thread [k], up to [event_process] on its loop, number [loop]. *)
Definition store_main (k loop : nat) (mp : config_map) (connected : bool) (st : reporter) : res reporter :=
  _ ← StoreReport_new mp connected;
  Ret (MkReporter (alter (set_loop loop) k (reportQueues st)) (thread_cnt st) (idx st) (logs st)).

(** [reportQueues[i]->send(req)]. *)
Definition send_queue (i : Z) (req : ReportStatusReq) (st : reporter) : res reporter :=
  if bool_decide (0 <= i < zlen (reportQueues st))
  then Ret (MkReporter (alter (send req) (Z.to_nat i) (reportQueues st)) (thread_cnt st) (idx st) (logs st))
  else Stop OutOfBounds.

(** The statements of [get_report_status], in order. *)
Definition send_idx (req : ReportStatusReq) (st : reporter) : res reporter := send_queue (idx st) req st.
Definition incr_idx (st : reporter) : res reporter :=
  Ret (MkReporter (reportQueues st) (thread_cnt st) (idx st + 1) (logs st)).
Definition wrap_idx (st : reporter) : res reporter :=
  if bool_decide (thread_cnt st = 0) then Stop Undefined
  else Ret (MkReporter (reportQueues st) (thread_cnt st) (Z.rem (idx st) (thread_cnt st)) (logs st)).

(** [get_report_status]. *)
Definition get_report_status (data : list byte) (st : reporter) : res reporter :=
  let req : ReportStatusReq := parse data in
  st ← send_idx req st;
  st ← incr_idx st;
  wrap_idx st.

(** ** The callback on several worker threads

    A worker that has received a report carries out the accesses of [get_report_status] to the shared
    variables one after the other: it reads [idx], sends to this queue, reads [idx], writes it
    incremented, reads it, writes the remainder.  Other workers may come in between. *)
Inductive access := ALoad | ASend (req : ReportStatusReq) | AInc | AMod.
Definition accesses (req : ReportStatusReq) : list access := [ALoad; ASend req; ALoad; AInc; ALoad; AMod].

Definition INT_MAX : Z := 2147483647.

(** The shared variables; the value each worker has read last; the accesses each worker has before it. *)
Record workers := Workers {
  wk_rep : reporter;
  wk_reg : gmap nat Z;
  wk_pend : gmap nat (list access)
}.
Definition reg (t : nat) (u : workers) : Z := default 0 (wk_reg u !! t).
Definition pend (t : nat) (u : workers) : list access := default [] (wk_pend u !! t).

Definition set_idx (i : Z) (st : reporter) : reporter := MkReporter (reportQueues st) (thread_cnt st) i (logs st).

(** The next access of worker [t]; the increment of the largest [int] is undefined. *)
Definition access_step (a : access) (r : Z) (st : reporter) : res (Z * reporter) :=
  match a with
  | ALoad => Ret (idx st, st)
  | ASend req => st ← send_queue r req st; Ret (r, st)
  | AInc => if bool_decide (r = INT_MAX) then Stop Undefined else Ret (r, set_idx (r + 1) st)
  | AMod => if bool_decide (thread_cnt st = 0) then Stop Undefined else Ret (r, set_idx (Z.rem r (thread_cnt st)) st)
  end.
Definition act (t : nat) (u : workers) : res workers :=
  match pend t u with
  | [] => Ret u
  | a :: p =>
      '(r, st) ← access_step a (reg t u) (wk_rep u);
      Ret (Workers st (<[t := r]> (wk_reg u)) (<[t := p]> (wk_pend u)))
  end.
Fixpoint acts (n : nat) (t : nat) (u : workers) : res workers :=
  match n with O => Ret u | S n => u ← act t u; acts n t u end.

(** Worker [t] gets a report. *)
Definition take_report (t : nat) (u : workers) (req : ReportStatusReq) : workers :=
  Workers (wk_rep u) (wk_reg u) (<[t := pend t u ++ accesses req]> (wk_pend u)).

(** [thread_report] on the queue of thread [k]. *)
Definition thread_report (k : nat) (st : reporter) : res reporter :=
  q ← deref (reportQueues st !! k);
  let '(report_msgs, q) := recv [] q in
  Ret (MkReporter (<[k := q]> (reportQueues st)) (thread_cnt st) (idx st)
                  (alter (fun log => log ++ concat (store <$> report_msgs)) k (logs st))).

(** The message callback of the server and its table; first when reports are handled one at a time, then
    on the worker of the connection's loop. *)
Inductive rep_msg := on_report_status.
Definition run_rep_msg {K : Type} `{!Epoll K} {HK TF P : Type} (cb : rep_msg) (data : list byte) (len id : Z) (ud : option io_arg)
    (this : loc) (w : world K HK rep_msg TF P reporter) : res (world K HK rep_msg TF P reporter) :=
  st ← get_report_status data (w_user w); Ret (set_user st w).
Definition run_par_msg {K : Type} `{!Epoll K} {HK TF P : Type} (cb : rep_msg) (data : list byte) (len id : Z) (ud : option io_arg)
    (this : loc) (w : world K HK rep_msg TF P workers) : res (world K HK rep_msg TF P workers) :=
  c ← obj this w;
  Ret (set_user (take_report (_loop c) (w_user w) (parse data)) w).

(** [main] of the reporter, up to [event_process]; [start] makes the state of the application from the
    shared variables. *)
Definition reporter_addr (mp : config_map) : str * Z :=
  (GetString mp (text "reactor") (text "ip") (text "0.0.0.0"),
   s16 (GetNumber mp (text "reactor") (text "port") 7779)).
Definition reporter_main {K : Type} `{!Epoll K} {HK TF P U : Type} (start : reporter -> U) (mp : config_map) (sock bnd lst : Z)
    (stale : pool_ptr E TF) (w : world K HK rep_msg TF P U) : res (tcp_server E TF * world K HK rep_msg TF P U) :=
  '(sv, w) ← tcp_server_new3 sock bnd lst stale 0%nat w;
  let w := add_msg_router ID_ReportStatusRequest on_report_status None w in
  st ← create_reportdb_threads mp;
  Ret (sv, set_user (start st) w).

(** ** What arrives at the database *)

(** A report reaches the server, or thread [k] is woken. *)
Inductive rep_event := Received (data : list byte) | Woken (k : nat).
Definition rep_step (e : rep_event) (st : reporter) : res reporter :=
  match e with Received data => get_report_status data st | Woken k => thread_report k st end.
Fixpoint rep_run (es : list rep_event) (st : reporter) : res reporter :=
  match es with [] => Ret st | e :: es => st ← rep_step e st; rep_run es st end.

(** The reports of a run, and those dealt to thread [k] from number [i] on. *)
Fixpoint reports (es : list rep_event) : list ReportStatusReq :=
  match es with
  | [] => []
  | Received data :: es => parse data :: reports es
  | Woken _ :: es => reports es
  end.
Fixpoint dealt (cnt k i : Z) (rs : list ReportStatusReq) : list ReportStatusReq :=
  match rs with
  | [] => []
  | r :: rs => (if bool_decide (i mod cnt = k) then [r] else []) ++ dealt cnt k (i + 1) rs
  end.
End Reporter.

Arguments rep_event : clear implicits.
Arguments workers : clear implicits.

(** ** The statement's text *)

(** The integers written in a text, in order: the reference reading of a
    statement. *)
Fixpoint scan (neg : bool) (cur : option Z) (s : str) : list Z :=
  let flush := match cur with Some v => [if neg then - v else v] | None => [] end in
  match s with
  | [] => flush
  | c :: s =>
      match digit c with
      | Some d => scan neg (Some (default 0 cur * 10 + d)) s
      | None => flush ++ scan (bool_decide (c = "-"%char)) None s
      end
  end.

Lemma digit_digit_char d : 0 <= d < 10 -> digit (digit_char d) = Some d.
Proof.
  intros H.
  assert (d = 0 \/ d = 1 \/ d = 2 \/ d = 3 \/ d = 4 \/ d = 5 \/ d = 6 \/ d = 7 \/ d = 8 \/ d = 9)
    as Hd by lia.
  repeat destruct Hd as [->|Hd]; try (subst d); reflexivity.
Qed.

Lemma scan_digits fuel neg n k :
  (0 < fuel)%nat -> 0 <= n < 10 ^ Z.of_nat fuel ->
  scan neg None (print_digits fuel n k) = scan neg (Some n) k.
Proof.
  revert n k. induction fuel as [|fuel IH]; intros n k Hf Hn; [lia|].
  rewrite Nat2Z.inj_succ, Z.pow_succ_r in Hn by lia.
  cbn [print_digits]. case_bool_decide as Hs.
  - rewrite Z.mod_small by lia. cbn [scan]. by rewrite digit_digit_char by lia.
  - destruct fuel as [|fuel]; [simpl in Hn; lia|].
    assert (0 <= n / 10 < 10 ^ Z.of_nat (S fuel))
      by (split; [apply Z.div_pos|apply Z.div_lt_upper_bound]; lia).
    rewrite IH by lia.
    cbn [scan]. rewrite digit_digit_char by (apply Z.mod_pos_bound; lia). cbn [default from_option].
    do 2 f_equal. pose proof (Z.div_mod n 10). simpl. lia.
Qed.

Lemma scan_fmt_u z k : scan false None (fmt_u z k) = scan false (Some (u32 z)) k.
Proof. apply scan_digits; [lia|]. pose proof (u32_range z). unfold is_u32 in *. lia. Qed.

Lemma scan_fmt_d z k :
  scan false None (fmt_d z k) = scan (bool_decide (s32 z < 0)) (Some (Z.abs (s32 z))) k.
Proof.
  pose proof (s32_range z) as Hr. unfold is_s32 in Hr. unfold fmt_d. case_bool_decide.
  - cbn [scan]. change (digit "-") with (@None Z). rewrite bool_decide_eq_true_2 by done. cbn [app].
    rewrite scan_digits by lia. do 2 f_equal. lia.
  - rewrite scan_digits by lia. do 2 f_equal. lia.
Qed.

(** A text without digits and minus signs ends the number before it. *)
Definition plain (s : str) : bool :=
  forallb (fun c => bool_decide (digit c = None /\ c <> "-"%char)) s.
Definition value (neg : bool) (cur : option Z) : list Z :=
  match cur with Some v => [if neg then - v else v] | None => [] end.

Lemma scan_plain s k : plain s = true -> scan false None (s ++ k) = scan false None k.
Proof.
  induction s as [|c s IH]; [done|]. unfold plain. cbn [forallb]. intros [[Hd Hm]%bool_decide_eq_true Hs]%andb_prop.
  cbn [app scan]. rewrite Hd, bool_decide_eq_false_2 by done. by apply IH.
Qed.
Lemma scan_lit neg cur s k :
  bool_decide (text s <> []) && plain (text s) = true ->
  scan neg cur (lit s k) = value neg cur ++ scan false None k.
Proof.
  intros [Hn Hp]%andb_prop. unfold lit. destruct (text s) as [|c s']; [done|].
  unfold plain in Hp. cbn [forallb] in Hp. apply andb_prop in Hp as [[Hd Hm]%bool_decide_eq_true Hs].
  cbn [app scan]. rewrite Hd, bool_decide_eq_false_2 by done. f_equal. by apply scan_plain.
Qed.

Lemma length_digits fuel n k : (length (print_digits fuel n k) <= fuel + length k)%nat.
Proof.
  revert n k. induction fuel as [|fuel IH]; intros n k; [done|]. cbn [print_digits].
  case_bool_decide; [simpl; lia|]. etrans; [apply IH|]. simpl. lia.
Qed.
Lemma length_fmt_u z k n : (length k <= n -> length (fmt_u z k) <= 11 + n)%nat.
Proof. unfold fmt_u. pose proof (length_digits 10 (u32 z) k). lia. Qed.
Lemma length_fmt_d z k n : (length k <= n -> length (fmt_d z k) <= 11 + n)%nat.
Proof.
  unfold fmt_d. pose proof (length_digits 10 (- s32 z) k). pose proof (length_digits 10 (s32 z) k).
  case_bool_decide; cbn [length]; lia.
Qed.
Lemma length_lit s k n : (length k <= n -> length (lit s k) <= length (text s) + n)%nat.
Proof. unfold lit. rewrite length_app. lia. Qed.

(** A statement always fits its buffer of 1024 bytes. *)
Lemma insert_text_short req r : (length (insert_text req r) <= 1023)%nat.
Proof.
  unfold insert_text. etrans.
  { repeat first [apply length_lit | apply length_fmt_d | apply length_fmt_u]. reflexivity. }
  apply Nat.leb_le. reflexivity.
Qed.

(** (C32) The statement of a host result reaches the database whole: the buffer of
    1024 bytes never truncates it, and the numbers read back from its text are
    the row (service, host, caller, counts, time, overload flag) followed by the
    columns of the update, with the 32-bit fields as unsigned where they are
    printed with [%u]. *)
Theorem statement_complete req r :
  StatusReq_ok req -> CallResult_ok r ->
  let sql := snprintf 1024 (insert_text req r) in
  let ov := if cr_overload r then 1 else 0 in
  sql = insert_text req r /\
  scan false None sql =
    [rs_modid req; rs_cmdid req; u32 (cr_ip r); u32 (cr_port r); u32 (rs_caller req);
     cr_succ r; cr_err r; rs_ts req; ov; cr_succ r; cr_err r; rs_ts req; ov].
Proof.
  intros (H1 & H2 & H3 & H4 & _) (H5 & H6 & H7 & H8). cbv zeta.
  assert (snprintf 1024 (insert_text req r) = insert_text req r) as ->.
  { apply take_ge, insert_text_short. }
  split; [done|]. unfold insert_text.
  repeat first [rewrite scan_lit by (vm_compute; reflexivity) | rewrite scan_fmt_d | rewrite scan_fmt_u].
  assert (forall z, (if bool_decide (z < 0) then - Z.abs z else Z.abs z) = z) as Habs.
  { intros z. case_bool_decide; lia. }
  cbn [value app scan]. rewrite !Habs, !(u32_small (cr_succ r)), !(u32_small (cr_err r)), !(u32_small (rs_ts req)),
    !s32_small by (done || by destruct (cr_overload r)). done.
Qed.

(** ** From the report to the database *)
Section Delivery.
Context {E : Type} `{!EventFd E} `{!Protobuf}.
Implicit Types st : reporter (E := E).

Record rep_inv st : Prop := {
  ri_cnt : 0 < thread_cnt st;
  ri_queues : zlen (reportQueues st) = thread_cnt st;
  ri_logs : zlen (logs st) = thread_cnt st;
  ri_idx : 0 <= idx st < thread_cnt st;
  ri_wakes : Forall wakes (reportQueues st)
}.

(** The same but for [idx]. *)
Record rep_wf st : Prop := {
  rw_cnt : 0 < thread_cnt st;
  rw_queues : zlen (reportQueues st) = thread_cnt st;
  rw_logs : zlen (logs st) = thread_cnt st;
  rw_wakes : Forall wakes (reportQueues st)
}.
Lemma rep_inv_wf st : rep_inv st <-> rep_wf st /\ 0 <= idx st < thread_cnt st.
Proof. split; [intros []; by split|]. by intros [[] ?]. Qed.

(** What thread [k] has sent to the database and will send for its queue. *)
Definition todo (k : nat) st : list db_call :=
  default [] (logs st !! k) ++ concat (store <$> default [] (_queue <$> reportQueues st !! k)).

Lemma rep_inv_new mp st : create_reportdb_threads mp = Ret st -> 0 < thread_cnt st -> rep_inv st.
Proof.
  unfold create_reportdb_threads. case_bool_decide; [done|]. intros [= <-]. simpl. intros Hc.
  split; simpl; try lia.
  1,2: unfold zlen; rewrite length_replicate; lia.
  apply Forall_replicate, wakes_new.
Qed.

Lemma todo_new mp st k : create_reportdb_threads mp = Ret st -> todo k st = [].
Proof.
  unfold create_reportdb_threads. case_bool_decide; [done|]. intros [= <-]. unfold todo. simpl.
  set (n := Z.to_nat _). destruct (decide (k < n)%nat).
  - by rewrite !lookup_replicate_2.
  - by rewrite !lookup_ge_None_2 by (rewrite length_replicate; lia).
Qed.

Lemma send_queue_ok i req st :
  rep_wf st -> 0 <= i < thread_cnt st -> exists st', send_queue i req st = Ret st' /\ rep_wf st' /\
    thread_cnt st' = thread_cnt st /\ idx st' = idx st /\
    forall k, todo k st' = todo k st ++ (if bool_decide (i = Z.of_nat k) then store req else []).
Proof.
  intros [Hc Hq Hl Hw] Hi. unfold send_queue. rewrite bool_decide_eq_true_2 by lia.
  eexists; split; [done|]. split_and!; [| done | done |].
  - split; simpl; try done; [unfold zlen in *; by rewrite length_alter |].
    apply Forall_alter; [done|]. intros q _. apply wakes_send.
  - intros k. unfold todo. simpl. case_bool_decide as Hk.
    + rewrite Hk, Nat2Z.id, list_lookup_alter_eq.
      destruct (lookup_lt_is_Some_2 (reportQueues st) k) as [q ->]; [unfold zlen in *; lia|]. simpl.
      by rewrite fmap_app, concat_app, app_assoc; simpl; rewrite app_nil_r.
    + rewrite list_lookup_alter_ne by lia. by rewrite app_nil_r.
Qed.

Lemma received_ok data st :
  rep_inv st -> exists st', get_report_status data st = Ret st' /\ rep_inv st' /\
    thread_cnt st' = thread_cnt st /\ idx st' = (idx st + 1) mod thread_cnt st /\
    forall k, todo k st' = todo k st ++
      (if bool_decide (idx st mod thread_cnt st = Z.of_nat k) then store (parse data) else []).
Proof.
  intros [Hwf Hi]%rep_inv_wf. pose proof (rw_cnt _ Hwf) as Hc. unfold get_report_status, send_idx.
  destruct (send_queue_ok (idx st) (parse data) st Hwf Hi) as (st1 & -> & [H1 H2 H3 H4] & Hc1 & Hi1 & Ht).
  cbn [mbind res_mbind incr_idx]. unfold wrap_idx. cbn [thread_cnt idx reportQueues logs].
  rewrite bool_decide_eq_false_2 by lia. eexists; split; [done|].
  rewrite Z.rem_mod_nonneg by lia. rewrite Hc1, Hi1. split_and!; [| done | done |].
  - apply rep_inv_wf. split; [split; simpl; [lia|lia|lia|done]|]. apply Z.mod_pos_bound. simpl. lia.
  - intros k. rewrite (Z.mod_small (idx st)) by lia. apply Ht.
Qed.

Lemma woken_wf k st :
  rep_wf st -> Z.of_nat k < thread_cnt st -> exists st', thread_report k st = Ret st' /\ rep_wf st' /\
    thread_cnt st' = thread_cnt st /\ idx st' = idx st /\ (forall j, todo j st' = todo j st).
Proof.
  intros [Hc Hq Hl Hw] Hk. unfold thread_report.
  destruct (lookup_lt_is_Some_2 (reportQueues st) k) as [q Eq]; [unfold zlen in *; lia|].
  destruct (lookup_lt_is_Some_2 (logs st) k) as [log El]; [unfold zlen in *; lia|].
  rewrite Eq. cbn [deref mbind res_mbind recv]. eexists; split; [done|]. split_and!; [| done | done |].
  - split; simpl; try done; [unfold zlen in *; by rewrite length_insert | unfold zlen in *; by rewrite length_alter |].
    apply Forall_insert; [done|]. apply (wakes_recv q).
  - intros j. unfold todo. simpl. destruct (decide (j = k)) as [->|Hj].
    + rewrite list_lookup_alter_eq, list_lookup_insert_eq by by eapply lookup_lt_Some.
      rewrite El, Eq. simpl. by rewrite app_nil_r.
    + by rewrite list_lookup_alter_ne, list_lookup_insert_ne.
Qed.
Lemma woken_ok k st :
  rep_inv st -> Z.of_nat k < thread_cnt st -> exists st', thread_report k st = Ret st' /\ rep_inv st' /\
    thread_cnt st' = thread_cnt st /\ idx st' = idx st /\ (forall j, todo j st' = todo j st).
Proof.
  intros [Hwf Hi]%rep_inv_wf Hk. destruct (woken_wf k st Hwf Hk) as (st' & Hr & Hwf' & Hc & Hx & Ht).
  exists st'. split_and!; try done. apply rep_inv_wf. rewrite Hc, Hx. done.
Qed.

Lemma dealt_mod cnt k i rs : 0 < cnt -> dealt cnt k (i mod cnt) rs = dealt cnt k i rs.
Proof.
  intros Hc. revert i. induction rs as [|r rs IH]; intros i; [done|]. cbn [dealt].
  rewrite Z.mod_mod by lia. f_equal. rewrite <-IH, <-(IH (i + 1)). by rewrite Z.add_mod_idemp_l by lia.
Qed.

Definition threads_in (cnt : Z) (es : list rep_event) : Prop :=
  Forall (fun e => match e with Woken k => Z.of_nat k < cnt | Received _ => True end) es.

Lemma rep_run_ok es st :
  rep_inv st -> threads_in (thread_cnt st) es ->
  exists st', rep_run es st = Ret st' /\ rep_inv st' /\ thread_cnt st' = thread_cnt st /\
    forall k, todo k st' = todo k st ++ concat (store <$> dealt (thread_cnt st) (Z.of_nat k) (idx st) (reports es)).
Proof.
  revert st. induction es as [|e es IH]; intros st Hinv Hes.
  { exists st. simpl. setoid_rewrite app_nil_r. auto. }
  apply Forall_cons in Hes as [He Hes]. cbn [rep_run].
  assert (exists st', rep_step e st = Ret st' /\ rep_inv st' /\ thread_cnt st' = thread_cnt st /\
    forall k, todo k st' ++ concat (store <$> dealt (thread_cnt st) (Z.of_nat k) (idx st') (reports es)) =
              todo k st ++ concat (store <$> dealt (thread_cnt st) (Z.of_nat k) (idx st) (reports (e :: es))))
    as (st' & -> & Hinv' & Hc & Ht).
  { destruct e as [data|j].
    - destruct (received_ok data st Hinv) as (st' & Hr & Hi' & Hc & Hx & Ht).
      exists st'. split_and!; [done..|]. intros k. rewrite Ht, Hx, dealt_mod by apply Hinv.
      cbn [reports dealt]. case_bool_decide; rewrite <-app_assoc, ?fmap_app, ?concat_app; simpl; by rewrite ?app_nil_r.
    - destruct (woken_ok j st Hinv He) as (st' & Hr & Hi' & Hc & Hx & Ht).
      exists st'. split_and!; [done..|]. intros k. by rewrite Ht, Hx. }
  cbn [mbind res_mbind]. destruct (IH st' Hinv') as (st2 & Hr & Hi2 & Hc2 & Ht2); [by rewrite Hc|].
  exists st2. split_and!; [done..|congruence|]. intros k. by rewrite Ht2, Hc, Ht.
Qed.

(** Every report is stored exactly once.  From the start of the database
    threads, in every sequence of received reports and wake-ups that handles one
    report at a time, what thread [k] has sent to the database followed by what
    it still has to send for its queue is the statements of the reports number
    [k], [k + cnt], [k + 2 cnt], ... in order, and a thread whose queue is not
    empty has a readable eventfd, so it will be woken. *)
Theorem reports_stored mp st es :
  create_reportdb_threads mp = Ret st -> 0 < thread_cnt st -> threads_in (thread_cnt st) es ->
  exists st', rep_run es st = Ret st' /\
    forall k q log, reportQueues st' !! k = Some q -> logs st' !! k = Some log ->
      log ++ concat (store <$> _queue q) =
        concat (store <$> dealt (thread_cnt st) (Z.of_nat k) 0 (reports es)) /\
      (_queue q <> [] -> 0 < evfd_value (_evfd q)).
Proof.
  intros Hnew Hc Hes. destruct (rep_run_ok es st) as (st' & Hr & Hinv & Hc' & Ht);
    [by eapply rep_inv_new | done |].
  exists st'. split; [done|]. intros k q log Hq Hl. split.
  - specialize (Ht k). rewrite (todo_new _ _ k Hnew) in Ht. unfold todo in Ht. rewrite Hq, Hl in Ht.
    simpl in Ht. rewrite Ht. do 2 f_equal.
    unfold create_reportdb_threads in Hnew. case_bool_decide; naive_solver.
  - pose proof (ri_wakes _ Hinv) as Hw. rewrite Forall_lookup in Hw. apply (Hw _ _ Hq).
Qed.

Lemma act_again t st regs pds r a p :
  act t (Workers st (<[t := r]> regs) (<[t := a :: p]> pds) : workers E) =
  ('(r, st) ← access_step a r st; Ret (Workers st (<[t := r]> regs) (<[t := p]> pds))).
Proof.
  unfold act, pend, reg. cbn [wk_pend wk_reg wk_rep]. rewrite !lookup_insert_eq. cbn [default from_option id].
  destruct (access_step a r st) as [[r' st']|]; cbn [mbind res_mbind]; [by rewrite !insert_insert_eq|done].
Qed.

(** A worker that is not disturbed does what [get_report_status] does. *)
Lemma acts_alone data t (u : workers E) p :
  rep_inv (wk_rep u) -> thread_cnt (wk_rep u) <= INT_MAX -> pend t u = accesses (parse data) ++ p ->
  exists u' st, acts 6 t u = Ret u' /\ get_report_status data (wk_rep u) = Ret st /\ wk_rep u' = st /\ pend t u' = p.
Proof.
  intros [Hwf Hi]%rep_inv_wf Hmax Hp. pose proof (rw_cnt _ Hwf) as Hc.
  unfold get_report_status, send_idx. destruct (send_queue_ok (idx (wk_rep u)) (parse data) (wk_rep u) Hwf Hi) as (st1 & Hs & _ & Hc1 & Hi1 & _).
  rewrite Hs. cbn [mbind res_mbind incr_idx]. unfold wrap_idx. cbn [thread_cnt idx reportQueues logs].
  rewrite bool_decide_eq_false_2 by lia.
  assert (act t u = Ret (Workers (wk_rep u) (<[t := idx (wk_rep u)]> (wk_reg u)) (<[t := drop 1 (accesses (parse data)) ++ p]> (wk_pend u)))) as H1
    by (unfold act; by rewrite Hp).
  cbn [acts]. rewrite H1. cbn [mbind res_mbind drop accesses app].
  rewrite act_again. cbn [access_step]. rewrite Hs. cbn [mbind res_mbind].
  rewrite act_again. cbn [access_step mbind res_mbind]. rewrite act_again. cbn [access_step mbind res_mbind].
  rewrite bool_decide_eq_false_2 by lia. cbn [mbind res_mbind].
  rewrite act_again. cbn [access_step mbind res_mbind set_idx idx]. rewrite act_again. cbn [access_step mbind res_mbind set_idx thread_cnt].
  rewrite bool_decide_eq_false_2 by lia. cbn [mbind res_mbind]. eexists _, _. split; [done|]. split; [done|]. split; [done|].
  unfold pend. cbn [wk_pend]. by rewrite lookup_insert_eq.
Qed.

(** The callback runs on several worker threads and shares [idx] without a
    lock: when one worker has incremented it to the number of queues and not yet
    wrapped it, the report of a second worker is sent through the pointer behind
    the array of queues. *)
Theorem report_race req1 req2 st :
  rep_inv st -> idx st = thread_cnt st - 1 ->
  (st ← send_idx req1 st; st ← incr_idx st; send_idx req2 st) = Stop OutOfBounds.
Proof.
  intros [Hc Hq Hl Hi Hw] Hx. unfold send_idx, send_queue.
  rewrite (bool_decide_eq_true_2 (0 <= idx st < zlen (reportQueues st))) by lia.
  cbn [mbind res_mbind incr_idx]. rewrite bool_decide_eq_false_2; [done|].
  simpl. unfold zlen in *. rewrite length_alter. lia.
Qed.
End Delivery.

(** ** From the socket to the queues *)
Section Socket.
Context {E : Type} `{!EventFd E} `{!Protobuf} {K : Type} `{!Epoll K} {HK TF P : Type}.
Abbreviation rworld := (world K HK rep_msg TF P (reporter (E := E))).
Context (raw : Z -> list byte) (raw_len : forall n, 0 <= n -> zlen (raw n) = n) `{!Others P}.
Context (run_hook : HK -> loc -> rworld -> res rworld).
Implicit Types w : rworld.

Definition rep_ustep (cb : rep_msg) (data : list byte) (len id : Z) (ud : option io_arg) (u : reporter (E := E))
    : reporter (E := E) :=
  match get_report_status data u with Ret u' => u' | Stop _ => u end.

(** The callback of the reporter is one the server may call. *)
Definition rep_sim (u : reporter (E := E)) w (_ : list byte) : Prop := w_user w = u /\ rep_inv u.

Lemma rep_contract this : cb_contract run_rep_msg rep_sim rep_ustep 0 this.
Proof.
  split; [done..|]. intros cb data len id ud w fl c ib ob u Hc [Hu Hinv]. unfold run_rep_msg, rep_ustep. rewrite Hu.
  destruct (received_ok data u Hinv) as (u' & -> & Hinv' & _). cbn [mbind res_mbind].
  exists fl, c, ob. destruct Hc as (H1 & H2 & H3 & H4 & H5 & H6). split_and!; try done. simpl. lia.
Qed.

Lemma rep_deliver r reqs u :
  route r ID_ReportStatusRequest = Some (on_report_status, None) -> rep_inv u -> Forall StatusReq_ok reqs ->
  let u' := deliver rep_ustep r ((fun q => (ID_ReportStatusRequest, serialize q)) <$> reqs) u in
  forall k, todo k u' = todo k u ++ concat (store <$> dealt (thread_cnt u) (Z.of_nat k) (idx u) reqs).
Proof.
  intros Hr Hinv Hok. revert u Hinv. induction Hok as [|q reqs Hq _ IH]; intros u Hinv u' k.
  { unfold u'. simpl. by rewrite app_nil_r. }
  unfold u'. unfold deliver. rewrite fmap_cons. cbn [foldl fst snd]. rewrite Hr.
  destruct (received_ok (serialize q) u Hinv) as (u1 & Hu1 & Hinv1 & Hc & Hi & Ht).
  unfold rep_ustep at 2. rewrite Hu1. specialize (IH u1 Hinv1 k). cbv zeta in IH. unfold deliver in IH.
  rewrite IH, Ht, Hc, Hi, parse_serialize by done. cbn [dealt].
  rewrite dealt_mod by apply Hinv. case_bool_decide; rewrite <-app_assoc, ?fmap_app, ?concat_app; simpl; by rewrite ?app_nil_r.
Qed.

Lemma rep_read_receives chunk eintrs ks this w fl c ib ob reqs rest :
  conn_repr this w fl c ib ob -> rep_inv (w_user w) ->
  route (router (w_srv w)) ID_ReportStatusRequest = Some (on_report_status, None) ->
  Forall StatusReq_ok reqs -> 0 < zlen chunk -> zlen ib + zlen chunk <= m4M ->
  deframe (ib ++ chunk) = ((fun q => (ID_ReportStatusRequest, serialize q)) <$> reqs, rest, false) ->
  let run := do_read raw run_hook run_rep_msg (Some (zlen chunk))
               (replicate eintrs (inr EINTR) ++ inl chunk :: ks) this w in
  run = Stop (Exit 0) /\ mem_short 4096 (w_mem w) \/
  exists w' fl' c' ob', run = Ret w' /\ conn_repr this w' fl' c' rest ob' /\ rep_inv (w_user w') /\
    forall k, todo k (w_user w') =
      todo k (w_user w) ++ concat (store <$> dealt (thread_cnt (w_user w)) (Z.of_nat k) (idx (w_user w)) reqs).
Proof.
  intros Hc Hinv Hr Hok Hpos Hfit Hd. cbv zeta.
  destruct (do_read_ok raw raw_len run_hook run_rep_msg rep_sim rep_ustep 0 chunk eintrs ks this (w_user w) w fl c ib ob
              _ rest false (rep_contract this) Hc (conj eq_refl Hinv) Hpos Hfit Hd)
    as [[-> Hs]|(w' & fl' & c' & ob' & Hc' & [Hu Hinv'] & _ & _ & ->)].
  - left. by rewrite Z.mul_0_l, Z.add_0_r in Hs.
  - right. exists w', fl', c', ob'. rewrite Hu. split_and!; [done..|]. by apply rep_deliver.
Qed.

(** Reports that arrive on a connection reach the database threads: when the
    bytes received complete the frames of some reports, handling them returns
    with the incomplete rest pending and the statements of exactly these reports
    added, in order and in turn, to what the threads have sent or will send; the
    process stops only when 4096 KB more take the buffer pool to its limit. *)
Theorem reporter_receives chunk eintrs ks this w fl c ib ob reqs rest :
  conn_repr this w fl c ib ob -> rep_inv (w_user w) ->
  route (router (w_srv w)) ID_ReportStatusRequest = Some (on_report_status, None) ->
  Forall StatusReq_ok reqs -> 0 < zlen chunk -> zlen ib + zlen chunk <= m4M ->
  deframe (ib ++ chunk) = ((fun q => (ID_ReportStatusRequest, serialize q)) <$> reqs, rest, false) ->
  let run := do_read raw run_hook run_rep_msg (Some (zlen chunk))
               (replicate eintrs (inr EINTR) ++ inl chunk :: ks) this w in
  run = Stop (Exit 0) /\ mem_short 4096 (w_mem w) \/
  exists w' fl' c' ob', run = Ret w' /\ conn_repr this w' fl' c' rest ob' /\ rep_inv (w_user w') /\
    forall k, todo k (w_user w') =
      todo k (w_user w) ++ concat (store <$> dealt (thread_cnt (w_user w)) (Z.of_nat k) (idx (w_user w)) reqs).
Proof. apply rep_read_receives. Qed.
End Socket.

#[local] Existing Instance nobody.

(** ** A reporter with three threads to try the theorems on. *)
Module RepDemo.
Definition req : ReportStatusReq := MkStatusReq 1 2 2130706433 [MkCallResult 167772161 80 100 3 true] 1700000000.
Definition rep (i : Z) : reporter (E := Z) :=
  MkReporter [thread_queue_new; thread_queue_new; thread_queue_new] 3 i [[]; []; []].

Lemma result_ok : CallResult_ok (MkCallResult 167772161 80 100 3 true).
Proof. unfold CallResult_ok, is_s32, is_u32. simpl. lia. Qed.
Lemma req_ok : StatusReq_ok req.
Proof.
  unfold StatusReq_ok, is_s32, is_u32. simpl. split_and!; try lia; [|vm_compute; congruence].
  constructor; [apply result_ok|constructor].
Qed.
Lemma rep_ok i : 0 <= i < 3 -> rep_inv (rep i).
Proof. intros Hi. split; try done. repeat constructor; simpl; done. Qed.

Definition rep_conn : tcp_conn unit := TcpConn 5 0%nat None None None.
Definition rep_world : world (gmap Z Z) unit rep_msg unit unit (reporter (E := Z)) :=
  World empty_pool {[0%nat := event_loop_new]} {[1%positive := rep_conn]}
        (Statics {[5 := Some 1%positive]} 10 1
                 (register_msg_router ID_ReportStatusRequest on_report_status None msg_router_new).2 None None) (rep 0).
Lemma rep_conn_repr : conn_repr 1%positive rep_world empty_free rep_conn [] [].
Proof. split_and!; try done; [apply empty_pool_ok|by left]. Qed.
End RepDemo.

Lemma statement_complete_witness :
  scan false None (snprintf 1024 (insert_text RepDemo.req (MkCallResult 167772161 80 100 3 true))) =
  [1; 2; 167772161; 80; 2130706433; 100; 3; 1700000000; 1; 100; 3; 1700000000; 1].
Proof.
  apply (statement_complete RepDemo.req (MkCallResult 167772161 80 100 3 true)).
  - apply RepDemo.req_ok.
  - apply RepDemo.result_ok.
Defined.

(** Four reports: the first thread is woken in between and has the fourth waiting. *)
Lemma reports_stored_witness :
  exists st', rep_run [Received (serialize RepDemo.req); Received (serialize RepDemo.req); Woken 0%nat;
                       Received (serialize RepDemo.req); Received (serialize RepDemo.req)] (RepDemo.rep 0) = Ret st' /\
    forall q log, reportQueues st' !! 0%nat = Some q -> logs st' !! 0%nat = Some log ->
      log ++ concat (store <$> _queue q) = store RepDemo.req ++ store RepDemo.req.
Proof.
  destruct (reports_stored (E := Z) ∅ (RepDemo.rep 0)
    [Received (serialize RepDemo.req); Received (serialize RepDemo.req); Woken 0%nat;
     Received (serialize RepDemo.req); Received (serialize RepDemo.req)]) as (st' & Hr & Hk).
  - reflexivity.
  - reflexivity.
  - repeat constructor.
  - exists st'. split; [exact Hr|]. intros q log Hq Hl. destruct (Hk 0%nat q log Hq Hl) as [-> _].
    vm_compute. reflexivity.
Defined.

Lemma report_race_witness :
  (st ← send_idx RepDemo.req (RepDemo.rep 2); st ← incr_idx st; send_idx RepDemo.req st) = Stop OutOfBounds.
Proof.
  apply (report_race RepDemo.req RepDemo.req (RepDemo.rep 2)).
  - apply RepDemo.rep_ok. lia.
  - reflexivity.
Defined.

Lemma reporter_receives_witness :
  let chunk := frame_bytes ID_ReportStatusRequest (serialize RepDemo.req) in
  exists w', do_read zero_raw (fun _ _ w => Ret w) run_rep_msg (Some (zlen chunk)) [inl chunk] 1%positive RepDemo.rep_world = Ret w' /\
    todo 0 (w_user w') = store RepDemo.req.
Proof.
  intros chunk.
  destruct (reporter_receives zero_raw zero_raw_len (fun _ _ w => Ret w) chunk 0 [] 1%positive RepDemo.rep_world empty_free
    RepDemo.rep_conn [] [] [RepDemo.req] [] RepDemo.rep_conn_repr) as [[_ Hs]|(w' & fl' & c' & ob' & Hr & _ & _ & Ht)].
  - apply RepDemo.rep_ok. lia.
  - reflexivity.
  - constructor; [apply RepDemo.req_ok|constructor].
  - reflexivity.
  - vm_compute. congruence.
  - vm_compute. reflexivity.
  - exfalso. vm_compute in Hs. congruence.
  - exists w'. split; [exact Hr|]. rewrite Ht. vm_compute. reflexivity.
Defined.
