(* ===== verification/ReporterRefine.v ===== *)
(** * The reporter as a whole: what it promises and that it keeps it

    The specification of the reporter (Reporter.v) is the reports each worker thread has received,
    in the order of arrival.  The server, with its connections, buffers, loops and queues,
    implements it, whatever bytes clients send and however the workers' accesses to the shared
    variables [idx] and [reportQueues], which no lock protects, interleave: what is received is sent to exactly one
    database thread.  As long as no two workers have reports in hand at the same time, report
    number [i] goes to thread [i mod cnt] and nothing can go wrong; once two had, the next accesses
    may stop the process with a queue behind the array ([report_race] of Reporter.v).

    A read appends the accesses of its reports to those its worker has before it: the rest of the
    read touches neither variable, and a worker begins nothing else before these accesses are done. *)

From S2P Require Import Prelude.
From S2P Require Import IoBuf.
From S2P Require Import BufPool.
From S2P Require Import ReactorBuf.
From S2P Require Import Message.
From S2P Require Import EventLoop.
From S2P Require Import ThreadPool.
From S2P Require Import ConfigFile.
From S2P Require Import TcpConn.
From S2P Require Import Isolation.
From S2P Require Import ConnStep.
From S2P Require Import ServerClients.
From S2P Require Import TcpServer.
From S2P Require Import Proto.
From S2P Require Import Reporter.

(** ** The specification *)

(** A client: the server never writes to it. *)
Record rclient := RClient { rc_fd : Z; rc_loop : nat; rc_in : list byte }.

#[export] Instance rclient_view {P} : ClientView rclient P := {|
  v_fd := rc_fd; v_loop := rc_loop; v_param _ := None; v_in := rc_in; v_out _ := [] |}.

(** The clients; the reports each worker has received; the number of accesses each worker has before it;
    whether two workers had reports in hand at the same time; the addresses in use. *)
Record reporting := Reporting {
  rp_clients : gmap loc rclient;
  rp_received : gmap nat (list ReportStatusReq);
  rp_left : gmap nat nat;
  rp_overlap : bool;
  rp_objs : gset loc
}.

(** A connection is opened, its socket becomes readable, a worker does its next access, a database
    thread is woken. *)
Inductive srv_event :=
| ROpen (x : loc) (fd : Z) (loop : nat)
| RRead (x : loc) (fionread : option Z) (ks : list (list byte + errno))
| RAct (t : nat)
| RWoken (k : nat).

Section RepSpec.
Context `{!Protobuf}.

(** The reports among some messages. *)
Definition reports_of (msgs : list (Z * list byte)) : list ReportStatusReq :=
  (fun msg => parse msg.2) <$> filter (fun msg => msg.1 = ID_ReportStatusRequest) msgs.

Definition received_by (t : nat) (m : gmap nat (list ReportStatusReq)) : list ReportStatusReq := default [] (m !! t).
Definition left_of (t : nat) (m : gmap nat nat) : nat := default 0%nat (m !! t).

(** No worker but [t] has reports in hand. *)
Definition alone (t : nat) (m : gmap nat nat) : bool := bool_decide (map_Forall (fun t' n => t' = t \/ n = 0%nat) m).

(** Worker [t] has got the reports [rs]. *)
Definition hand (t : nat) (rs : list ReportStatusReq) (cs : gmap loc rclient) (a : reporting) : reporting :=
  Reporting cs (<[t := received_by t (rp_received a) ++ rs]> (rp_received a))
    (<[t := (left_of t (rp_left a) + 6 * length rs)%nat]> (rp_left a))
    (rp_overlap a || (bool_decide (rs <> []) && negb (alone t (rp_left a)))) (rp_objs a).

Definition with_clients (cs : gmap loc rclient) (a : reporting) : reporting :=
  Reporting cs (rp_received a) (rp_left a) (rp_overlap a) (rp_objs a).

Definition rspec_step (ev : srv_event) (a : reporting) : reporting :=
  match ev with
  | ROpen x fd loop =>
      Reporting (<[x := RClient fd loop []]> (rp_clients a)) (rp_received a) (rp_left a) (rp_overlap a) ({[x]} ∪ rp_objs a)
  | RRead x fionread ks =>
      match rp_clients a !! x, read_chunk fionread ks with
      | Some cl, Some chunk =>
          let '(msgs, rest, bad) := deframe (rc_in cl ++ chunk) in
          hand (rc_loop cl) (reports_of msgs)
            (if (bad : bool) then delete x (rp_clients a)
             else <[x := RClient (rc_fd cl) (rc_loop cl) rest]> (rp_clients a)) a
      | _, _ => with_clients (delete x (rp_clients a)) a
      end
  | RAct t => Reporting (rp_clients a) (rp_received a) (<[t := Nat.pred (left_of t (rp_left a))]> (rp_left a)) (rp_overlap a) (rp_objs a)
  | RWoken _ => a
  end.

(** What may happen, in a reporter with [cnt] database threads; a worker that has accesses before it
    begins nothing else. *)
Definition rkernel_ok (e : env) (cnt : Z) (ev : srv_event) (a : reporting) : bool :=
  match ev with
  | ROpen x fd loop =>
      bool_decide (x ∉ rp_objs a) && bool_decide (0 <= fd < en_slots e) && bool_decide (fd ∉ en_own e) &&
      bool_decide (map_Forall (fun _ cl => rc_fd cl <> fd) (rp_clients a)) && bool_decide (loop ∈ en_loops e) &&
      bool_decide (left_of loop (rp_left a) = 0%nat)
  | RRead x fionread ks =>
      match rp_clients a !! x with
      | None => false
      | Some cl => reads_ok PENDING fionread ks && bool_decide (left_of (rc_loop cl) (rp_left a) = 0%nat)
      end
  | RAct _ => true
  | RWoken k => bool_decide (Z.of_nat k < cnt)
  end.

Definition rspec_run (evs : list srv_event) (a : reporting) : reporting := foldl (fun a ev => rspec_step ev a) a evs.
Fixpoint rkernel_trace (e : env) (cnt : Z) (evs : list srv_event) (a : reporting) : bool :=
  match evs with
  | [] => true
  | ev :: evs => rkernel_ok e cnt ev a && rkernel_trace e cnt evs (rspec_step ev a)
  end.
End RepSpec.

(** ** The workers' accesses *)
Section Accesses.
Context {E : Type} `{!EventFd E} `{!Protobuf}.
Implicit Types (u : workers E) (sent : list (nat * nat * ReportStatusReq)).

(** What has been sent, by which worker, to which database thread, in the order of the sends. *)
Definition sent_by (t : nat) sent : list ReportStatusReq := snd <$> filter (fun s => s.1.1 = t) sent.
Definition sent_to (k : nat) sent : list ReportStatusReq := snd <$> filter (fun s => s.1.2 = k) sent.
Definition unsent (p : list access) : list ReportStatusReq :=
  omap (fun a => match a with ASend req => Some req | _ => None end) p.

(** The accesses of a worker from number [ph] of its report on. *)
Fixpoint follows (ph : nat) (p : list access) : Prop :=
  match ph, p with
  | 0, [] => True
  | 0, ALoad :: p => follows 1 p
  | 1, ASend _ :: p => follows 2 p
  | 2, ALoad :: p => follows 3 p
  | 3, AInc :: p => follows 4 p
  | 4, ALoad :: p => follows 5 p
  | 5, AMod :: p => follows 0 p
  | _, _ => False
  end%nat.

Record sound (cnt : Z) u sent : Prop := {
  so_wf : rep_wf (wk_rep u);
  so_cnt : thread_cnt (wk_rep u) = cnt;
  so_max : cnt <= INT_MAX;
  so_idx : 0 <= idx (wk_rep u) <= INT_MAX;
  so_reg t : 0 <= reg t u <= INT_MAX;
  so_pend t : exists ph, follows ph (pend t u);
  so_todo k : todo k (wk_rep u) = concat (store <$> sent_to k sent)
}.

(** The shared [idx] and the value read last, in the phases of the only worker with reports in hand, when [j]
    reports have been sent. *)
Definition at_phase (cnt j i r : Z) (ph : nat) : Prop :=
  match ph with
  | 0%nat => i = j mod cnt
  | 1%nat => i = j mod cnt /\ r = i
  | 2%nat => i = (j - 1) mod cnt
  | 3%nat => i = (j - 1) mod cnt /\ r = i
  | 4%nat => i = (j - 1) mod cnt + 1
  | 5%nat => i = (j - 1) mod cnt + 1 /\ r = i
  | _ => False
  end.

(** At most worker [t] has reports in hand, and report number [i] went to thread [i mod cnt]. *)
Record in_turn (cnt : Z) u sent (t : nat) : Prop := {
  it_alone t' : t' <> t -> pend t' u = [];
  it_phase : exists ph, follows ph (pend t u) /\ at_phase cnt (zlen sent) (idx (wk_rep u)) (reg t u) ph;
  it_turn i s : sent !! i = Some s -> Z.of_nat s.1.2 = Z.of_nat i mod cnt
}.

(** The workers have got the reports [received], have [left] accesses before them, and what they have
    sent is with the database threads.  In turn unless two of them overlapped. *)
Definition tracks (cnt : Z) u (received : gmap nat (list ReportStatusReq)) (left : gmap nat nat) (overlap : bool) : Prop :=
  exists sent, sound cnt u sent /\
    (forall t, received_by t received = sent_by t sent ++ unsent (pend t u)) /\
    (forall t, left_of t left = length (pend t u)) /\
    (overlap = false -> exists t, in_turn cnt u sent t).

Lemma pend_put t t' st regs pds p u :
  wk_pend u = pds -> pend t' (Workers st regs (<[t := p]> pds) : workers E) = if decide (t' = t) then p else pend t' u.
Proof.
  intros <-. unfold pend. cbn [wk_pend]. rewrite lookup_insert. case_decide as E1; case_decide as E2; try congruence; done.
Qed.
Lemma reg_put t t' st regs pds r u :
  wk_reg u = regs -> reg t' (Workers st (<[t := r]> regs) pds : workers E) = if decide (t' = t) then r else reg t' u.
Proof.
  intros <-. unfold reg. cbn [wk_reg]. rewrite lookup_insert. case_decide as E1; case_decide as E2; try congruence; done.
Qed.

Lemma follows_app ph p rs : follows ph p -> follows ph (p ++ concat (accesses <$> rs)).
Proof.
  revert ph. induction p as [|a p IH]; intros ph.
  - destruct ph as [|[|[|[|[|[|ph]]]]]]; try done. intros _. cbn [app].
    induction rs as [|req rs IHrs]; [done|]. rewrite fmap_cons. cbn [concat accesses app follows]. exact IHrs.
  - destruct ph as [|[|[|[|[|[|ph]]]]]], a; simpl; try done; apply IH.
Qed.
Lemma follows_nil ph : follows ph [] -> ph = 0%nat.
Proof. destruct ph as [|[|[|[|[|[|ph]]]]]]; done. Qed.

Lemma sent_by_snoc t t' k req sent : sent_by t (sent ++ [(t', k, req)]) = sent_by t sent ++ (if decide (t' = t) then [req] else []).
Proof. unfold sent_by. rewrite filter_app, fmap_app, filter_cons. simpl. case_decide; done. Qed.
Lemma sent_to_snoc k k' t req sent : sent_to k (sent ++ [(t, k', req)]) = sent_to k sent ++ (if decide (k' = k) then [req] else []).
Proof. unfold sent_to. rewrite filter_app, fmap_app, filter_cons. simpl. case_decide; done. Qed.

(** The phases before and after an access. *)
Definition moves (a : access) (ph ph' : nat) : Prop :=
  match a with
  | ALoad => ph' = S ph /\ (ph = 0 \/ ph = 2 \/ ph = 4)%nat
  | ASend _ => ph = 1%nat /\ ph' = 2%nat
  | AInc => ph = 3%nat /\ ph' = 4%nat
  | AMod => ph = 5%nat /\ ph' = 0%nat
  end.
Lemma follows_next ph a p : follows ph (a :: p) -> exists ph', follows ph' p /\ moves a ph ph'.
Proof. destruct ph as [|[|[|[|[|[|ph]]]]]], a; simpl; try done; intros Hf; eexists; (split; [exact Hf|]); simpl; auto. Qed.

(** A worker after an access that reads or keeps [r], leaves [st] and sends [new]. *)
Definition put (t : nat) (r : Z) (st : reporter (E := E)) (p : list access) u : workers E :=
  Workers st (<[t := r]> (wk_reg u)) (<[t := p]> (wk_pend u)).

Record accessed (cnt : Z) u sent (t : nat) (p : list access) (r : Z) (st : reporter (E := E)) new : Prop := {
  ac_wf : rep_wf st;
  ac_cnt : thread_cnt st = cnt;
  ac_idx : 0 <= idx st <= INT_MAX;
  ac_reg : 0 <= r <= INT_MAX;
  ac_todo k : todo k st = concat (store <$> sent_to k (sent ++ new));
  ac_sent t' : sent_by t' (sent ++ new) ++ unsent (if decide (t' = t) then p else pend t' u) = sent_by t' sent ++ unsent (pend t' u);
  ac_turn : in_turn cnt u sent t -> in_turn cnt (put t r st p u) (sent ++ new) t
}.

(** The phase of the worker whose turn it is. *)
Lemma turn_phase cnt u sent t a p :
  in_turn cnt u sent t -> pend t u = a :: p ->
  exists ph ph', at_phase cnt (zlen sent) (idx (wk_rep u)) (reg t u) ph /\ moves a ph ph' /\ follows ph' p.
Proof.
  intros [_ (ph & Hfo & Hat) _] Hp. rewrite Hp in Hfo. destruct (follows_next ph a p Hfo) as (ph' & Hfo' & Hm). by exists ph, ph'.
Qed.

Lemma turn_kept cnt u sent t a p r st new :
  pend t u = a :: p ->
  (forall ph ph', at_phase cnt (zlen sent) (idx (wk_rep u)) (reg t u) ph -> moves a ph ph' -> at_phase cnt (zlen (sent ++ new)) (idx st) r ph') ->
  (forall s ph ph', at_phase cnt (zlen sent) (idx (wk_rep u)) (reg t u) ph -> moves a ph ph' ->
     s ∈ new -> new = [s] /\ Z.of_nat s.1.2 = zlen sent mod cnt) ->
  in_turn cnt u sent t -> in_turn cnt (put t r st p u) (sent ++ new) t.
Proof.
  intros Hp Hph Hnew Hin. destruct (turn_phase _ _ _ _ _ _ Hin Hp) as (ph & ph' & Hat & Hm & Hfo). destruct Hin as [Hal _ Htu]. split.
  - intros t' Hne. unfold put. rewrite (pend_put _ _ _ _ _ _ u eq_refl), decide_False by done. by apply Hal.
  - exists ph'. unfold put. rewrite (pend_put _ _ _ _ _ _ u eq_refl), (reg_put _ _ _ _ _ _ u eq_refl), !decide_True by done.
    split; [done|]. by eapply Hph.
  - intros i s Hi. apply lookup_app_Some in Hi as [Hi|[Hge Hi]]; [by apply Htu|].
    destruct (Hnew s ph ph' Hat Hm) as [-> ->]; [by eapply list_elem_of_lookup_2|].
    apply list_lookup_singleton_Some in Hi as [Hi _]. f_equal. unfold zlen. lia.
Qed.

(** An access that sends nothing. *)
Lemma accessed_quiet cnt u sent t a p r st :
  sound cnt u sent -> pend t u = a :: p -> unsent (a :: p) = unsent p ->
  reportQueues st = reportQueues (wk_rep u) -> thread_cnt st = thread_cnt (wk_rep u) -> logs st = logs (wk_rep u) ->
  0 <= idx st <= INT_MAX -> 0 <= r <= INT_MAX ->
  (forall ph ph', at_phase cnt (zlen sent) (idx (wk_rep u)) (reg t u) ph -> moves a ph ph' -> at_phase cnt (zlen sent) (idx st) r ph') ->
  accessed cnt u sent t p r st [].
Proof.
  intros [Hwf Hcnt Hmax Hidx Hreg Hpend Htodo] Hp Hun Hq Hc Hl Hi Hr Hph. split; try done.
  - destruct Hwf as [H1 H2 H3 H4]. split; rewrite ?Hq, ?Hc, ?Hl; done.
  - by rewrite Hc.
  - intros k. rewrite app_nil_r, <-Htodo. unfold todo. by rewrite Hq, Hl.
  - intros t'. rewrite app_nil_r. case_decide as Et; [|done]. subst t'. by rewrite Hp, Hun.
  - apply (turn_kept _ _ _ _ a); [done|by rewrite app_nil_r|]. intros s ph ph' _ _ Hs. by apply not_elem_of_nil in Hs.
Qed.

(** The send. *)
Lemma accessed_send cnt u sent t req p st :
  sound cnt u sent -> pend t u = ASend req :: p -> 0 <= reg t u < cnt -> send_queue (reg t u) req (wk_rep u) = Ret st ->
  accessed cnt u sent t p (reg t u) st [(t, Z.to_nat (reg t u), req)].
Proof.
  intros [Hwf Hcnt Hmax Hidx Hreg Hpend Htodo] Hp Hr Hs. rewrite <-Hcnt in Hr.
  destruct (send_queue_ok (reg t u) req (wk_rep u) Hwf Hr) as (st' & Hs' & Hwf' & Hc' & Hi' & Ht').
  rewrite Hs in Hs'. injection Hs' as <-. split; [done|congruence|by rewrite Hi'|apply Hreg|..].
  - intros k. rewrite Ht', Htodo, sent_to_snoc, fmap_app, concat_app. f_equal.
    case_bool_decide; case_decide; try lia; [simpl; by rewrite app_nil_r|done].
  - intros t'. rewrite sent_by_snoc. destruct (decide (t' = t)) as [->|Hne].
    + rewrite decide_True, Hp, <-app_assoc by done. done.
    + rewrite decide_False, app_nil_r by done. done.
  - apply (turn_kept _ _ _ _ (ASend req)); [done|..].
    + intros ph ph' Hat [-> ->]. cbn [at_phase] in *. rewrite Hi', zlen_app.
      change (zlen [(t, Z.to_nat (reg t u), req)]) with 1. destruct Hat as [-> _]. f_equal. lia.
    + intros s ph ph' Hat [-> _] ->%list_elem_of_singleton. cbn [at_phase] in Hat. split; [done|]. simpl. lia.
Qed.

(** One access, for a worker in any phase.  It may fail, but not in turn. *)
Lemma access_ok cnt u sent t a p :
  sound cnt u sent -> pend t u = a :: p ->
  match access_step a (reg t u) (wk_rep u) with
  | Ret (r, st) => exists new, accessed cnt u sent t p r st new
  | Stop err => (err = OutOfBounds \/ err = Undefined) /\ ~ in_turn cnt u sent t
  end.
Proof.
  intros Hso Hp. pose proof Hso as [Hwf Hcnt Hmax Hidx Hreg _ _]. pose proof (rw_cnt _ Hwf) as Hpos. specialize (Hreg t).
  destruct a as [|req| |]; cbn [access_step].
  - exists []. apply (accessed_quiet _ _ _ _ ALoad); try done. intros ph ph' Hat [-> Hph]. destruct Hph as [->|[->| ->]]; by split.
  - destruct (decide (0 <= reg t u < cnt)) as [Hr|Hr].
    + destruct (send_queue_ok (reg t u) req (wk_rep u) Hwf) as (st & Hs & _); [lia|]. rewrite Hs. cbn [mbind res_mbind].
      eexists. by apply accessed_send.
    + unfold send_queue. rewrite bool_decide_eq_false_2 by (rewrite (rw_queues _ Hwf); lia). cbn [mbind res_mbind]. split; [by left|].
      intros Hin. destruct (turn_phase _ _ _ _ _ _ Hin Hp) as (ph & ph' & Hat & [-> _] & _).
      destruct Hat as [H1 H2]. apply Hr. rewrite H2, H1. apply Z.mod_pos_bound. lia.
  - case_bool_decide as Hov.
    + split; [by right|]. intros Hin. destruct (turn_phase _ _ _ _ _ _ Hin Hp) as (ph & ph' & Hat & [-> _] & _).
      cbn [at_phase] in Hat. pose proof (Z.mod_pos_bound (zlen sent - 1) cnt). lia.
    + exists []. apply (accessed_quiet _ _ _ _ AInc); try done; [cbn; lia|]. intros ph ph' Hat [-> ->]. cbn [at_phase set_idx idx] in *. lia.
  - rewrite bool_decide_eq_false_2 by lia. rewrite Z.rem_mod_nonneg by lia. pose proof (Z.mod_pos_bound (reg t u) cnt).
    exists []. apply (accessed_quiet _ _ _ _ AMod); try done; [cbn; rewrite Hcnt; lia|].
    intros ph ph' Hat [-> ->]. cbn [at_phase set_idx idx] in *. rewrite Hcnt.
    destruct Hat as [H1 H2]. rewrite H2, H1, Z.add_mod_idemp_l by lia. f_equal. lia.
Qed.

(** An idle worker has nothing to do; else one access is done. *)
Lemma tracks_act cnt u received left ov t :
  tracks cnt u received left ov ->
  match act t u with
  | Ret u' => tracks cnt u' received (<[t := Nat.pred (left_of t left)]> left) ov
  | Stop err => (err = OutOfBounds \/ err = Undefined) /\ ov = true
  end.
Proof.
  intros (sent & Hso & Hrec & Hleft & Hturn). unfold act.
  assert (forall t', left_of t' (<[t := Nat.pred (left_of t left)]> left) =
    if decide (t' = t) then Nat.pred (length (pend t u)) else length (pend t' u)) as Hl'.
  { intros t'. rewrite <-!Hleft. unfold left_of. rewrite lookup_insert. by repeat case_decide. }
  destruct (pend t u) as [|a p] eqn:Hp.
  { exists sent. split_and!; try done. intros t'. rewrite Hl'. case_decide; [subst t'; by rewrite Hp|done]. }
  pose proof (access_ok cnt u sent t a p Hso Hp) as Ha. destruct (access_step a (reg t u) (wk_rep u)) as [[r st]|err]; cbn [mbind res_mbind].
  - destruct Ha as (new & [H1 H2 H3 H4 H5 H6 H7]). exists (sent ++ new). change (Workers st _ _) with (put t r st p u). split_and!.
    + pose proof Hso as [G1 G2 G3 G4 G5 G6 G7]. split; try done; intros t'; unfold put.
      * rewrite (reg_put _ _ _ _ _ _ u eq_refl). case_decide; [done|apply G5].
      * rewrite (pend_put _ _ _ _ _ _ u eq_refl). case_decide; [|apply G6]. destruct (G6 t) as (ph & Hfo). rewrite Hp in Hfo.
        destruct (follows_next ph a p Hfo) as (ph' & Hfo' & _). by exists ph'.
    + intros t'. unfold put. rewrite (pend_put _ _ _ _ _ _ u eq_refl), H6. apply Hrec.
    + intros t'. unfold put. rewrite (pend_put _ _ _ _ _ _ u eq_refl), Hl'. by case_decide.
    + intros Hov. destruct (Hturn Hov) as [t0 Hin]. destruct (decide (t = t0)) as [->|Hne]; [exists t0; by apply H7|].
      by rewrite (it_alone _ _ _ _ Hin t Hne) in Hp.
  - destruct Ha as [He Hno]. split; [done|]. destruct ov; [done|]. destruct (Hturn eq_refl) as [t0 Hin].
    destruct (decide (t = t0)) as [->|Hne]; [done|]. by rewrite (it_alone _ _ _ _ Hin t Hne) in Hp.
Qed.

(** ** Reports come in *)
Lemma taken_pend t rs u t' :
  pend t' (foldl (take_report t) u rs) = if decide (t' = t) then pend t u ++ concat (accesses <$> rs) else pend t' u.
Proof.
  revert u. induction rs as [|req rs IH]; intros u; cbn [foldl].
  - case_decide; [subst; by rewrite app_nil_r|done].
  - rewrite IH. unfold take_report. rewrite !(pend_put _ _ _ _ _ _ u eq_refl). rewrite fmap_cons. cbn [concat].
    repeat case_decide; try congruence. by rewrite <-app_assoc.
Qed.
Lemma taken_same t rs u : wk_rep (foldl (take_report t) u rs) = wk_rep u /\ wk_reg (foldl (take_report t) u rs) = wk_reg u.
Proof. revert u. induction rs as [|req rs IH]; intros u; [done|]. cbn [foldl]. destruct (IH (take_report t u req)) as [-> ->]. done. Qed.

Lemma unsent_accesses rs : unsent (concat (accesses <$> rs)) = rs.
Proof. induction rs as [|req rs IH]; [done|]. rewrite fmap_cons. simpl. by rewrite IH. Qed.
Lemma length_accesses rs : length (concat (accesses <$> rs)) = (6 * length rs)%nat.
Proof. induction rs as [|req rs IH]; [done|]. rewrite fmap_cons. simpl. rewrite IH. simpl. lia. Qed.

Lemma alone_idle t m t' : alone t m = true -> t' <> t -> left_of t' m = 0%nat.
Proof.
  intros Hm%bool_decide_eq_true_1 Hne. unfold left_of. destruct (m !! t') as [n|] eqn:Hn; [|done].
  destruct (Hm t' n Hn) as [Heq|Hz]; done.
Qed.

(** An idle worker gets reports. *)
Lemma tracks_hand cnt u received left ov t rs :
  tracks cnt u received left ov -> left_of t left = 0%nat ->
  tracks cnt (foldl (take_report t) u rs) (<[t := received_by t received ++ rs]> received)
    (<[t := (left_of t left + 6 * length rs)%nat]> left) (ov || (bool_decide (rs <> []) && negb (alone t left))).
Proof.
  intros (sent & Hso & Hrec & Hleft & Hturn) Hidle. destruct (taken_same t rs u) as [Hrep Hreg].
  assert (pend t u = []) as Hp by (apply nil_length_inv; by rewrite <-Hleft).
  exists sent. split_and!.
  - destruct Hso as [G1 G2 G3 G4 G5 G6 G7]. split; rewrite ?Hrep; try done.
    + intros t'. unfold reg. rewrite Hreg. apply G5.
    + intros t'. rewrite taken_pend. case_decide; [|apply G6]. destruct (G6 t) as (ph & Hfo). exists ph. by apply follows_app.
  - intros t'. rewrite taken_pend. unfold received_by. rewrite lookup_insert. pose proof (Hrec t') as Hr. unfold received_by in Hr.
    repeat case_decide; try congruence. subst t'. simpl. rewrite Hr, Hp, app_nil_l, unsent_accesses. simpl. by rewrite app_nil_r.
  - intros t'. rewrite taken_pend. unfold left_of. rewrite lookup_insert. pose proof (Hleft t') as Hr. unfold left_of in Hr, Hidle.
    repeat case_decide; try congruence. subst t'. simpl. rewrite Hidle, Hp, app_nil_l, length_accesses. done.
  - intros [-> Hno]%orb_false_elim. destruct (Hturn eq_refl) as [t0 [Hal (ph & Hfo & Hat) Htu]].
    destruct rs as [|req rs]; [exists t0; split; try done; by exists ph|].
    rewrite bool_decide_eq_true_2 in Hno by done. apply negb_false_iff in Hno.
    assert (forall t', pend t' u = []) as Hall.
    { intros t'. destruct (decide (t' = t)) as [->|Hne]; [done|]. apply nil_length_inv. rewrite <-Hleft. by apply (alone_idle t). }
    rewrite Hall in Hfo. apply follows_nil in Hfo as ->. cbn [at_phase] in Hat. exists t. split.
    + intros t' Hne. rewrite taken_pend, decide_False by done. apply Hall.
    + exists 0%nat. rewrite taken_pend, decide_True, Hrep by done. split; [apply follows_app; by rewrite Hp|done].
    + done.
Qed.

(** A database thread is woken. *)
Lemma tracks_woken cnt u received left ov k st :
  tracks cnt u received left ov -> Z.of_nat k < cnt -> thread_report k (wk_rep u) = Ret st ->
  tracks cnt (Workers st (wk_reg u) (wk_pend u)) received left ov.
Proof.
  intros (sent & Hso & Hrec & Hleft & Hturn) Hk Hr. exists sent. pose proof Hso as [G1 G2 G3 G4 G5 G6 G7].
  destruct (woken_wf k (wk_rep u) G1) as (st' & Hr' & H1 & H2 & H3 & H4); [lia|]. rewrite Hr in Hr'. injection Hr' as <-.
  split_and!; try done.
  - split; cbn [wk_rep]; [done|congruence|done|by rewrite H3|done|done|]. intros j. by rewrite H4.
  - intros Hov. destruct (Hturn Hov) as [t [I1 I2 I3]]. exists t. split; cbn [wk_rep]; rewrite ?H3; done.
Qed.

Lemma tracks_new mp st cnt :
  create_reportdb_threads mp = Ret st -> thread_cnt st = cnt -> 0 < cnt -> tracks cnt (Workers st ∅ ∅) ∅ ∅ false.
Proof.
  intros Hst Hc Hpos. rewrite <-Hc in Hpos. pose proof (rep_inv_new mp st Hst Hpos) as [Hwf Hi]%rep_inv_wf. exists [].
  assert (cnt <= INT_MAX) as Hmax.
  { unfold create_reportdb_threads in Hst. case_bool_decide; [done|]. injection Hst as <-. subst cnt. cbn [thread_cnt].
    match goal with |- s32 ?z <= _ => pose proof (s32_range z) as Hz end. unfold is_s32 in Hz. unfold INT_MAX. lia. }
  assert (idx st = 0) as H0 by (unfold create_reportdb_threads in Hst; case_bool_decide; [done|]; by injection Hst as <-).
  split_and!; try done.
  - split; try done; cbn [wk_rep]; [lia| |].
    + intros t. by exists 0%nat.
    + intros k. by rewrite (todo_new mp st k Hst).
  - intros _. exists 0%nat. split; [done| |done]. exists 0%nat. split; [done|]. cbn. by rewrite H0.
Qed.
End Accesses.

(** ** The simulation *)
Section RepRefine.
Context {E : Type} `{!EventFd E} `{!Protobuf} {K : Type} `{!Epoll K} `{!EpollLive K} {HK TF P : Type}.
Abbreviation rworld := (world K HK rep_msg TF P (workers E)).
Context (raw : Z -> list byte) (raw_len : forall n, 0 <= n -> zlen (raw n) = n).
Context (run_hook : HK -> loc -> rworld -> res rworld).
Implicit Types (w : rworld) (a : reporting) (u : workers E) (l : event_loop K io_cb io_arg TF).

(** The events, as the server handles them. *)
Definition srv_step (ev : srv_event) w : res rworld :=
  match ev with
  | ROpen x fd loop => tcp_conn_new run_hook x fd loop w
  | RRead x fionread ks => do_read raw run_hook run_par_msg fionread ks x w
  | RAct t => u ← act t (w_user w); Ret (set_user u w)
  | RWoken k =>
      let u := w_user w in
      st ← thread_report k (wk_rep u); Ret (set_user (Workers st (wk_reg u) (wk_pend u)) w)
  end.
Fixpoint srv_run (evs : list srv_event) w : res rworld :=
  match evs with [] => Ret w | ev :: evs => w ← srv_step ev w; srv_run evs w end.

Record rrefines (e : env) (cnt : Z) w a : Prop := {
  rr_served : served e w (rp_clients a) (rp_objs a);
  rr_tracks : tracks cnt (w_user w) (rp_received a) (rp_left a) (rp_overlap a);
  rr_router id : route (router (w_srv w)) id = if bool_decide (id = ID_ReportStatusRequest) then Some (on_report_status, None) else None;
  rr_start : conn_start_cb (w_srv w) = None;
  rr_close : conn_close_cb (w_srv w) = None
}.

Section Messages.
Context `{!Others P}.

(** The world [w] in which the messages of the client at [x] are handled, from [w0] on: the worker of its
    loop has got the reports [rs]. *)
Definition rclient_sim (x : loc) (c0 : tcp_conn P) w0 (rs : list ReportStatusReq) w (ob : list byte) : Prop :=
  ob = [] /\ w_srv w = w_srv w0 /\ w_loops w = w_loops w0 /\
  (exists c, w_objs w !! x = Some c /\ _connfd c = _connfd c0 /\ _loop c = _loop c0 /\ param c = param c0) /\
  w_user w = foldl (take_report (_loop c0)) (w_user w0) rs.

Definition rclient_step (cb : rep_msg) (data : list byte) (len id : Z) (ud : option io_arg) (rs : list ReportStatusReq)
    : list ReportStatusReq := rs ++ [parse data].

Lemma rclient_contract x c0 w0 : cb_contract run_par_msg (rclient_sim x c0 w0) rclient_step 0 x.
Proof.
  split; [done|done| |].
  - intros rs w ob c rb Hc (H1 & H2 & H3 & (c' & Hc' & H4) & H5). split_and!; try done.
    exists (set_ibuf rb c). split; [apply lookup_insert_eq|]. by simplify_eq.
  - intros cb data len id ud w fl c ib ob rs Hc (-> & H2 & H3 & (c' & Hc' & H4 & Hlo & H6) & Hu). unfold run_par_msg, obj.
    rewrite Hc'. cbn [mbind res_mbind deref].
    exists fl, c, []. destruct Hc as (G1 & G2 & G3 & G4 & G5 & G6). split; [by split_and!|]. split; [|split; [done|simpl; lia]].
    split_and!; try done; [by exists c'|]. unfold rclient_step. rewrite foldl_app. cbn [w_user set_user foldl]. by rewrite Hlo, Hu.
Qed.

Lemma rclient_deliver ro msgs rs :
  (forall id, route ro id = if bool_decide (id = ID_ReportStatusRequest) then Some (on_report_status, None) else None) ->
  deliver rclient_step ro msgs rs = rs ++ reports_of msgs.
Proof.
  intros Hro. unfold deliver, reports_of. revert rs. induction msgs as [|[id data] msgs IH]; intros rs; [by rewrite app_nil_r|].
  cbn [foldl fst snd]. rewrite IH, Hro. unfold rclient_step. rewrite filter_cons. cbn [fst].
  case_bool_decide; case_decide; try done. rewrite fmap_cons. cbn [snd]. by rewrite <-app_assoc.
Qed.
End Messages.

(** No hook is registered. *)
Lemma no_close_hook x w c : conn_close_cb (w_srv w) = None -> w_objs w !! x = Some c -> close_hook run_hook x w w.
Proof.
  intros Hcb Hc. unfold close_hook. rewrite Hcb. cbn [run_hook_opt]. split; [done|]. split; [|done].
  exists c, (param c). split; [done|]. rewrite insert_id; [done|]. rewrite Hc. by destruct c.
Qed.

Lemma closed_rrefines e cnt w a cs x w2 w' a' :
  rrefines e cnt w a -> w_srv w2 = w_srv w -> tracks cnt (w_user w2) (rp_received a') (rp_left a') (rp_overlap a') ->
  closed_to e cs (rp_objs a) x w2 w' -> rp_clients a' = delete x cs -> rp_objs a' = rp_objs a ->
  rrefines e cnt w' a'.
Proof.
  intros [H1 H2 H3 H4 H5] Hs Ht (Hsv & Hu & Hro & Hcb1 & Hcb2 & _) Hcl Hobj.
  split; rewrite ?Hcl, ?Hobj, ?Hu, ?Hro, ?Hcb1, ?Hcb2, ?Hs; done.
Qed.

(** An event: the server does what the specification says; or it stops because the 4 MB an
    input buffer may ask for take the pool to its limit; or a worker's access fails, after two workers
    had reports in hand at the same time. *)
Definition rstops (ev : srv_event) w a (err : fault) : Prop :=
  (err = Exit 0 /\ (exists x fionread ks, ev = RRead x fionread ks) /\ mem_short 4096 (w_mem w)) \/
  ((err = OutOfBounds \/ err = Undefined) /\ (exists t, ev = RAct t) /\ rp_overlap a = true).
Definition rsimulated (e : env) (cnt : Z) (ev : srv_event) w a : Prop :=
  (exists err, srv_step ev w = Stop err /\ rstops ev w a err) \/
  exists w', srv_step ev w = Ret w' /\ rrefines e cnt w' (rspec_step ev a).

Lemma ropen_simulated e cnt x fd loop w a :
  rrefines e cnt w a -> rkernel_ok e cnt (ROpen x fd loop) a = true -> rsimulated e cnt (ROpen x fd loop) w a.
Proof.
  intros Hs Hk. simpl in Hk. apply andb_prop in Hk as [Hk _]. do 4 (apply andb_prop in Hk as [Hk ?]).
  repeat match goal with H : bool_decide _ = true |- _ => apply bool_decide_eq_true_1 in H end.
  rename select (loop ∈ _) into Hloop. rename select (map_Forall _ _) into Hfresh. rename select (fd ∉ _) into Hown.
  rename select (0 <= fd < _) into Hrange. pose proof (rr_served _ _ _ _ Hs) as Hsv.
  rewrite (sv_objs _ _ _ _ Hsv) in Hk. apply eq_None_not_Some in Hk.
  apply (sv_loops _ _ _ _ Hsv) in Hloop as [l Hl]. rewrite <-(sv_slots _ _ _ _ Hsv) in Hrange.
  right. eexists. split.
  { cbn [srv_step]. unfold tcp_conn_new. cbn [w_srv set_obj]. rewrite (rr_start _ _ _ _ Hs). cbn [run_hook_opt mbind res_mbind].
    unfold obj. cbn [w_objs set_obj]. rewrite lookup_insert_eq. cbn [mbind res_mbind deref _loop _connfd].
    unfold on_loop. cbn [w_loops set_obj]. rewrite Hl. cbn [mbind res_mbind deref]. unfold increase_conn, write_conn.
    cbn [w_srv put_loop set_obj]. rewrite bool_decide_eq_true_2 by done. cbn [mbind res_mbind]. reflexivity. }
  split; try apply Hs. cbn [rspec_step rp_clients rp_objs].
  eapply (served_open e w _ _ _ x (RClient fd loop []) (TcpConn fd loop None None None) l Hsv Hk Hl); try done.
  split; [simpl; lia|]. by split_and!.
Qed.

(** The end of the stream, and errors. *)
Lemma rend_simulated e cnt x fionread ks w a cl :
  rrefines e cnt w a -> rp_clients a !! x = Some cl -> reads_ok PENDING fionread ks = true -> read_chunk fionread ks = None ->
  rsimulated e cnt (RRead x fionread ks) w a.
Proof.
  intros Hs Hx Hk Hchunk. pose proof (rr_served _ _ _ _ Hs) as Hsv. unfold rsimulated. cbn [srv_step rspec_step]. rewrite Hx, Hchunk.
  destruct (served_end raw raw_len run_hook e w _ _ x cl run_par_msg fionread ks
    (fun w2 => w_srv w2 = w_srv w /\ w_user w2 = w_user w) Hsv Hx Hk Hchunk) as [[Hstop Hshort]|(w2 & w' & [Hs2 Hu2] & Hrun & Hto)].
  - intros rb m d Hd. exists (set_obj x (set_ibuf rb d) (set_mem m w)). split; [|by split].
    eapply no_close_hook; [exact (rr_close _ _ _ _ Hs)|apply lookup_insert_eq].
  - left. exists (Exit 0). split; [exact Hstop|]. left. split; [done|]. split; [by eexists _, _, _|done].
  - right. exists w'. split; [exact Hrun|]. eapply closed_rrefines; [exact Hs|exact Hs2| |exact Hto|done|done].
    rewrite Hu2. apply Hs.
Qed.

Lemma rread_simulated e cnt x fionread ks w a :
  rrefines e cnt w a -> rkernel_ok e cnt (RRead x fionread ks) a = true -> rsimulated e cnt (RRead x fionread ks) w a.
Proof.
  intros Hs Hk. simpl in Hk. destruct (rp_clients a !! x) as [cl|] eqn:Hx; [|done]. apply andb_prop in Hk as [Hk Hidle%bool_decide_eq_true_1].
  destruct (read_chunk fionread ks) as [chunk|] eqn:Hchunk; [|by eapply rend_simulated]. pose proof (rr_served _ _ _ _ Hs) as Hsv.
  destruct (served_client e w _ _ x cl Hsv Hx) as (c & l & fl & io & Hc & Hof & Hl & Hwt & Hw & Hio & Hf).
  pose proof Hof as (_ & Hfd & Hlo & Hpar). unfold rsimulated. cbn [srv_step rspec_step]. rewrite Hx, Hchunk.
  destruct (read_chunk_some PENDING fionread ks chunk Hk Hchunk) as (n & rest & -> & -> & Hpos & Hfit).
  pose proof (sv_in _ _ _ _ Hsv x cl Hx) as Hin.
  destruct (deframe (rc_in cl ++ chunk)) as [[msgs rst] bad] eqn:Ed.
  destruct (do_read_ok (Others0 := others_of x w) raw raw_len run_hook run_par_msg (rclient_sim x c w) rclient_step
    0 chunk n rest x [] w fl c (rc_in cl) [] msgs rst bad (rclient_contract x c w) Hf) as
    [[Hstop Hshort]|(w1 & fl1 & c1 & ob1 & Hc1 & Hsim1 & _ & _ & Hrun)].
  { split_and!; try done. by exists c. }
  { exact Hpos. } { cbn [v_in rclient_view] in Hin. lia. } { exact Ed. }
  { left. exists (Exit 0). split; [exact Hstop|]. left. split; [done|]. split; [by eexists _, _, _|]. by rewrite Z.mul_0_l, Z.add_0_r in Hshort. }
  rewrite rclient_deliver in Hsim1 by (apply (rr_router _ _ _ _ Hs)).
  destruct Hsim1 as (-> & Hsrv1 & Hls1 & (c2 & Hc2 & Hfd2 & Hlo2 & Hpar2) & Hu1).
  assert (c2 = c1) as -> by (pose proof (proj1 Hc1); congruence). rewrite Hfd in Hfd2. rewrite Hlo in Hlo2. rewrite Hpar in Hpar2.
  pose proof (tracks_hand _ _ _ _ _ (rc_loop cl) (reports_of msgs) (rr_tracks _ _ _ _ Hs) Hidle) as Htr.
  rewrite Hlo in Hu1. cbn [app v_loop rclient_view] in Hu1. rewrite <-Hu1 in Htr.
  right. rewrite Hrun. destruct bad.
  - destruct (served_close run_hook e w w1 w1 _ _ x cl fl io fl1 c1 rst [] l l Hsv Hx Hl Hw Hio Hc1 Hfd2 Hlo2 Hsrv1) as (w' & -> & Hto).
    { by rewrite Hls1, insert_id. } { apply same_but_refl. }
    { eapply no_close_hook; [rewrite Hsrv1; apply (rr_close _ _ _ _ Hs)|exact Hc2]. }
    pose proof Hto as (_ & _ & _ & _ & _ & c' & Hc' & Hib).
    exists w'. cbn [mbind res_mbind]. unfold finish_read, obj. rewrite Hc'. cbn [mbind res_mbind deref]. rewrite Hib.
    cbn [ib_adjust mbind res_mbind]. split; [by destruct w'|]. by eapply closed_rrefines.
  - exists w1. split; [done|]. split; cbn [rp_clients rp_objs hand]; rewrite ?Hsrv1; try apply Hs; [|exact Htr].
    eapply (served_alter e w w1 _ _ x cl (Some (RClient (rc_fd cl) (rc_loop cl) rst)) fl io fl1 c1 rst [] l l); try done.
    + by rewrite Hsrv1.
    + by rewrite Hls1, insert_id.
    + do 4 (split; [done|]). split; [|split; [by eapply deframe_rest|split; [done|by rewrite Hsrv1]]].
      split; [simpl in *; destruct (sv_conn _ _ _ _ Hsv x cl Hx) as (c0 & _ & H0 & Hfd0 & _); simpl in *; lia|]. by split_and!.
Qed.

Lemma ract_simulated e cnt t w a : rrefines e cnt w a -> rsimulated e cnt (RAct t) w a.
Proof.
  intros [H1 H2 H3 H4 H5]. pose proof (tracks_act _ _ _ _ _ t H2) as Ha. unfold rsimulated. cbn [srv_step rspec_step].
  destruct (act t (w_user w)) as [u'|err]; cbn [mbind res_mbind].
  - right. eexists. split; [done|]. split; try done. by eapply served_same.
  - left. exists err. split; [done|]. right. destruct Ha as [He Ho]. split; [done|]. split; [by eexists|done].
Qed.

Lemma rwoken_simulated e cnt k w a :
  rrefines e cnt w a -> rkernel_ok e cnt (RWoken k) a = true -> rsimulated e cnt (RWoken k) w a.
Proof.
  intros [H1 H2 H3 H4 H5] Hk. simpl in Hk. apply bool_decide_eq_true_1 in Hk. pose proof H2 as (sent & Hso & _).
  destruct (woken_wf k (wk_rep (w_user w)) (so_wf _ _ _ Hso)) as (st & Hr & _); [by rewrite (so_cnt _ _ _ Hso)|].
  right. eexists. cbn [srv_step rspec_step]. cbv zeta. rewrite Hr. split; [done|]. split; try done.
  - by eapply served_same.
  - by eapply tracks_woken.
Qed.

Lemma srv_simulated e cnt ev w a : rrefines e cnt w a -> rkernel_ok e cnt ev a = true -> rsimulated e cnt ev w a.
Proof.
  intros Hr Hk. destruct ev as [x fd loop|x fionread ks|t|k];
    [by apply ropen_simulated|by apply rread_simulated|by apply ract_simulated|by apply rwoken_simulated].
Qed.

Lemma srv_run_simulated e cnt evs w a :
  rrefines e cnt w a -> rkernel_trace e cnt evs a = true ->
  (exists w', srv_run evs w = Ret w' /\ rrefines e cnt w' (rspec_run evs a)) \/
  exists pre ev post w1 err, evs = pre ++ ev :: post /\ srv_run pre w = Ret w1 /\ rrefines e cnt w1 (rspec_run pre a) /\
    srv_step ev w1 = Stop err /\ rstops ev w1 (rspec_run pre a) err.
Proof.
  revert w a. induction evs as [|ev evs IH]; intros w a Hr Hk; [left; by exists w|].
  cbn [rkernel_trace] in Hk. apply andb_prop in Hk as [Hk Hks].
  destruct (srv_simulated e cnt ev w a Hr Hk) as [(err & Hst & Hm)|(w1 & Hst & Hr1)].
  - right. exists [], ev, evs, w, err. split_and!; done.
  - cbn [srv_run]. rewrite Hst. cbn [mbind res_mbind].
    destruct (IH w1 _ Hr1 Hks) as [(w' & Hrun & Hr')|(pre & ev' & post & w2 & err & -> & Hrun & Hr2 & Hrest)].
    + left. by exists w'.
    + right. exists (ev :: pre), ev', post, w2, err. split; [done|]. cbn [srv_run]. rewrite Hst. cbn [mbind res_mbind].
      split; [exact Hrun|]. by split.
Qed.

Lemma srv_run_stop pre ev post w w1 err :
  srv_run pre w = Ret w1 -> srv_step ev w1 = Stop err -> srv_run (pre ++ ev :: post) w = Stop err.
Proof.
  revert w. induction pre as [|ev0 pre IH]; intros w; cbn [srv_run app].
  - intros [= ->] ->. done.
  - destruct (srv_step ev0 w) as [w2|]; [|done]. cbn [mbind res_mbind]. apply IH.
Qed.

(** The workers at the start: none has a report. *)
Definition idle (st : reporter (E := E)) : workers E := Workers st ∅ ∅.

Lemma start_rrefines mp e sock bnd lst (stale : pool_ptr E TF) w sv w' (cnt := thread_cnt (wk_rep (w_user w'))) :
  fresh e sock w -> conn_start_cb (w_srv w) = None -> conn_close_cb (w_srv w) = None ->
  reporter_main idle mp sock bnd lst stale w = Ret (sv, w') -> 0 < cnt ->
  rrefines e cnt w' (Reporting ∅ ∅ ∅ false ∅).
Proof.
  intros Hf Hs Hc Hm Hpos. unfold cnt in *. unfold reporter_main in Hm. apply bind_Ret in Hm as ([sv1 w1] & Hnew & Hm).
  destruct (server_fresh e sock bnd lst stale w sv1 w1 Hf Hnew) as (Hsv & Hro & Hs1 & Hc1 & Hu).
  apply bind_Ret in Hm as (st & Hst & Hm). injection Hm as _ <-. cbn [w_user set_user idle wk_rep] in Hpos |- *.
  split; cbn [rp_clients rp_received rp_left rp_overlap rp_objs w_user set_user w_srv add_msg_router set_srv conn_start_cb conn_close_cb router]; try congruence.
  - destruct Hsv as [G1 G2 G3 G4 G5 G6 G7 G8 G9 G10 G11]. split; try done.
    destruct G1 as (fl & io & Hw & Hio). exists fl, io. split; [by eapply conns_repr_same|done].
  - by eapply tracks_new.
  - intros id. rewrite Hro. apply route_single.
Qed.

(** (C18) The reporter with its worker threads, whose accesses to the unlocked [idx] and the queues interleave in
    any order.  From its start with at least one database thread, through every course of connections,
    received bytes, accesses and wake-ups the kernel may bring, whatever clients send, the reporter keeps
    [rrefines]: what a worker has received is, in the order of arrival, what it has sent followed by what it still has to
    send; what thread [k] has given to the database, followed by what it will give for its queue, is
    the statements of exactly the reports sent to it; a thread with something to store has a readable
    eventfd; a client whose header is impossible is closed after its reports so far, and no client
    disturbs another.  As long as no two workers had reports in hand at the same time, report number [i]
    goes to thread [i mod cnt].  The process stops only where the 4 MB an input buffer may ask for take the
    pool to its limit, or, after two workers had reports in hand at the same time, at an access of a
    worker: a queue behind the array, or the increment of the largest [int]. *)
Theorem reporter_refines mp e sock bnd lst (stale : pool_ptr E TF) w sv w0 evs
    (cnt := thread_cnt (wk_rep (w_user w0))) (a0 := Reporting ∅ ∅ ∅ false ∅) :
  fresh e sock w -> conn_start_cb (w_srv w) = None -> conn_close_cb (w_srv w) = None ->
  reporter_main idle mp sock bnd lst stale w = Ret (sv, w0) -> 0 < cnt -> rkernel_trace e cnt evs a0 = true ->
  (exists w', srv_run evs w0 = Ret w' /\ rrefines e cnt w' (rspec_run evs a0)) \/
  exists pre ev post w1 err, evs = pre ++ ev :: post /\ srv_run pre w0 = Ret w1 /\ rrefines e cnt w1 (rspec_run pre a0) /\
    srv_step ev w1 = Stop err /\ rstops ev w1 (rspec_run pre a0) err.
Proof. intros Hf Hs Hc Hm Hpos. apply srv_run_simulated. by eapply start_rrefines. Qed.
End RepRefine.

(** ** Two clients on two workers report; the second sends garbage after its report *)
Module RepRefineDemo.
Definition hook0 (_ : unit) (_ : loc) (w : world (gmap Z Z) unit rep_msg unit unit (workers Z)) := Ret w.
Definition rworld0 : world (gmap Z Z) unit rep_msg unit unit (workers Z) :=
  World empty_pool {[0%nat := event_loop_new; 1%nat := event_loop_new; 2%nat := event_loop_new]} ∅
    (Statics ∅ 0 0 msg_router_new None None) (idle (MkReporter [] 0 0 [])).
Definition env2 : env := Env {[0%nat; 1%nat; 2%nat]} {[3]} (MAX_CONNS + 3).
Definition started2 := reporter_main (E := Z) idle ∅ 3 0 0 PoolNull rworld0.
Definition rworld1 := match started2 with Ret (_, w) => w | Stop _ => rworld0 end.
Definition report1 : list byte := frame_bytes ID_ReportStatusRequest (serialize RepDemo.req).
Definition garbage : list byte := replicate 9 xff.

(** The first worker is done before the second client reports. *)
Definition rtrace : list srv_event :=
  [ROpen 1%positive 5 1%nat;
   ROpen 2%positive 6 2%nat;
   RRead 1%positive (Some (zlen report1)) [inl report1]] ++ replicate 6 (RAct 1%nat) ++
  [RRead 2%positive (Some (zlen (report1 ++ garbage))) [inr EINTR; inl (report1 ++ garbage)];
   RAct 2%nat; RAct 2%nat;
   RWoken 0%nat].

Lemma rfresh : fresh env2 3 rworld0.
Proof.
  split; try reflexivity.
  - exists empty_free. apply empty_pool_ok.
  - intros i. cbn [w_loops rworld0 en_loops env2].
    rewrite !elem_of_union, !elem_of_singleton, !lookup_insert, lookup_singleton. repeat case_decide; naive_solver.
  - intros i l fd Hl _. cbn [w_loops rworld0] in Hl. rewrite !lookup_insert, lookup_singleton in Hl.
    repeat case_decide; try discriminate; injection Hl as <-; (split; [reflexivity|]; split; [reflexivity|]; apply not_elem_of_empty).
Qed.
Lemma rtrace_ok : rkernel_trace env2 3 rtrace (Reporting ∅ ∅ ∅ false ∅) = true.
Proof. vm_compute. reflexivity. Qed.
Lemma rtrace_runs : is_ret (srv_run zero_raw hook0 rtrace rworld1) = true.
Proof. vm_compute. reflexivity. Qed.
End RepRefineDemo.
Import RepRefineDemo.

Lemma reporter_refines_witness :
  exists w', srv_run zero_raw hook0 rtrace rworld1 = Ret w' /\ rrefines env2 3 w' (rspec_run rtrace (Reporting ∅ ∅ ∅ false ∅)) /\
    rp_overlap (rspec_run rtrace (Reporting ∅ ∅ ∅ false ∅)) = false /\
    received_by 2%nat (rp_received (rspec_run rtrace (Reporting ∅ ∅ ∅ false ∅))) = [RepDemo.req].
Proof.
  assert (exists sv, started2 = Ret (sv, rworld1)) as [sv Hm] by (eexists; reflexivity).
  destruct (reporter_refines zero_raw zero_raw_len hook0 ∅ env2 3 0 0 PoolNull rworld0 sv rworld1 rtrace rfresh eq_refl eq_refl Hm eq_refl rtrace_ok)
    as [(w' & Hrun & Hr)|(pre & ev & post & w1 & err & Ht & Hrun & _ & Hst & _)].
  - exists w'. split; [exact Hrun|]. split; [exact Hr|]. split; vm_compute; reflexivity.
  - exfalso. pose proof rtrace_runs as Hok. rewrite Ht, (srv_run_stop zero_raw hook0 pre ev post _ w1 _ Hrun Hst) in Hok. discriminate Hok.
Defined.

(** Three reports are handled, the third up to its increment; a fourth, on another worker, then
    goes behind the array. *)
Definition overlap_trace : list srv_event :=
  [ROpen 1%positive 5 1%nat; ROpen 2%positive 6 2%nat;
   RRead 1%positive (Some (zlen (report1 ++ report1 ++ report1))) [inl (report1 ++ report1 ++ report1)]] ++ replicate 16 (RAct 1%nat) ++
  [RRead 2%positive (Some (zlen report1)) [inl report1]; RAct 2%nat; RAct 2%nat].

Theorem overlap_stops :
  rkernel_trace env2 3 overlap_trace (Reporting ∅ ∅ ∅ false ∅) = true /\
  srv_run zero_raw hook0 overlap_trace rworld1 = Stop OutOfBounds.
Proof. split; vm_compute; reflexivity. Qed.
