(* ===== verification/System.v ===== *)
(** * The system: agent, DNS server and reporter over their connections

    The theorems of this file put the components together.  A route request that a
    balancer of the agent has queued crosses the connection of the DNS client to the DNS
    server, the answer of the server crosses it back, and the balancer hands out a host
    of the server's table; status reports cross the connection of the reporter client and
    reach the database threads of the reporter.  What one end queues for output is what
    the other end reads. *)

From S2P Require Import Prelude.
From S2P Require Import IoBuf.
From S2P Require Import BufPool.
From S2P Require Import ReactorBuf.
From S2P Require Import Message.
From S2P Require Import EventLoop.
From S2P Require Import ThreadPool.
From S2P Require Import TcpConn.
From S2P Require Import Isolation.
From S2P Require Import TcpClient.
From S2P Require Import Proto.
From S2P Require Import LoadBalance.
From S2P Require Import RouteLb.
From S2P Require Import Agent.
From S2P Require Import AgentMain.
From S2P Require Import DnsRoute.
From S2P Require Import Subscribe.
From S2P Require Import DnsServer.
From S2P Require Import DnsSocket.
From S2P Require Import DnsPush.
From S2P Require Import Reporter.

Section System.
Context {E : Type} `{!EventFd E} {K : Type} `{!Epoll K} `{!Protobuf} {TF : Type}.
Context (wide : Z -> Z -> Z) (cfg : Config).
Context (raw : Z -> list byte) (raw_len : forall n, 0 <= n -> zlen (raw n) = n) `{!Others (gset Z)} `{!Others unit}.

(** The thread of a client of the agent, the DNS server and the reporter. *)
Abbreviation cworld := (TcpClient.cworld K agent_hook agent_msg unit queue_fn TF (agent E * list inputs)).
Abbreviation dworld := (TcpConn.world K dns_hook dns_msg dns_task (gset Z) dns_state).

(** ** The DNS client as an application of the client library *)
Definition route_astep (cb : agent_msg) (data : list byte) (len id : Z) (ud : option unit) (u : agent E * list inputs)
    : res (agent E * list inputs) :=
  match u with
  | (a, inp :: rest) => a ← deal_recv_route wide cfg inp data a; Ret (a, rest)
  | (_, []) => Stop NoReturn
  end.

Lemma route_contract :
  cli_cb_contract (run_route_msg wide cfg) (fun u (w : cworld) => cw_user w = u) route_astep.
Proof.
  split; [done|]. intros [] data len id ud w u u' Hu Hstep. unfold run_route_msg. rewrite Hu.
  destruct u as [a [|inp rest]]; [done|]. cbn [route_astep] in Hstep.
  apply bind_Ret in Hstep as (a' & -> & Hr). injection Hr as <-. by eexists.
Qed.

(** A connection of the agent with nothing under way, whose balancer waits for the
    first route of a service. *)
Record asks (modid cmdid : Z) (w : cworld) (inp : inputs) (r : route_lb) (lb : load_balance)
    (q : thread_queue E GetRouteRequest) : Prop := {
  as_conn : connected (cw_cli w) = true;
  as_repr : cli_repr (cw_cli w) [] [];
  as_room : b_capacity (TcpClient._ibuf (cw_cli w)) = CLIENT_BUF /\ b_capacity (TcpClient._obuf (cw_cli w)) = CLIENT_BUF;
  as_route : route (_cli_router (cw_cli w)) ID_GetRouteResponse = Some (deal_recv_route_cb, None);
  as_inputs : exists rest, (cw_user w).2 = inp :: rest;
  as_three : length (r_lb (cw_user w).1) = 3%nat;
  as_queue : dns_queue (cw_user w).1 = Some q /\ _queue q = [MkRouteReq modid cmdid];
  as_report : is_Some (report_queue (cw_user w).1);
  as_lb : r_lb (cw_user w).1 !! Z.to_nat ((modid + cmdid) mod 3) = Some r;
  as_key : _route_lb_map r !! make_key modid cmdid = Some lb;
  as_wf : lb_inv lb /\ _host_map lb = ∅
}.

(** An open connection of the DNS server with nothing under way. *)
Record answers (this : loc) (w : dworld) (fl : Spec.free_lists) (c : tcp_conn (gset Z)) (S : gset Z) : Prop := {
  an_subs : subs_ok w;
  an_repr : conn_repr this w fl c [] [];
  an_loop : is_Some (w_loops w !! _loop c);
  an_param : param c = Some S;
  an_route : route (router (w_srv w)) ID_GetRouteRequest = Some (get_route, None)
}.

Lemma frame_one {M ok} `{!Codec M ok} id (m : M) : frames id [m] = frame_bytes id (serialize m).
Proof. unfold frames, stream. cbn. by rewrite app_nil_r. Qed.

(** The DNS client is woken, and its output is the frame of the request. *)
Lemma request_sent modid cmdid w inp r lb q :
  asks modid cmdid w inp r lb q -> zlen (serialize (MkRouteReq modid cmdid)) <= MESSAGE_LENGTH_LIMIT ->
  exists w' q', new_dns_request w = Ret w' /\
    cli_repr (cw_cli w') [] (frame_bytes ID_GetRouteRequest (serialize (MkRouteReq modid cmdid))) /\
    connected (cw_cli w') = true /\ b_capacity (TcpClient._ibuf (cw_cli w')) = CLIENT_BUF /\
    _cli_router (cw_cli w') = _cli_router (cw_cli w) /\
    cw_user w' = (Agent (r_lb (cw_user w).1) (Some q') (report_queue (cw_user w).1), (cw_user w).2).
Proof.
  intros [Hcon Hrep [Hci Hco] _ _ _ [Hq Hqq] _ _ _ _] Hlen. unfold new_dns_request. rewrite Hq.
  cbn [mbind res_mbind deref recv]. rewrite Hqq. set (w1 := set_agent _ w).
  pose proof (frame_one ID_GetRouteRequest (MkRouteReq modid cmdid)) as Hone.
  destruct (send_each_ok ID_GetRouteRequest [MkRouteReq modid cmdid] w1 [] []) as (w' & -> & Hr & Hu & Hc & Hro & Hin);
    [done|done| |].
  - change (b_capacity (TcpClient._obuf (cw_cli w1))) with (b_capacity (TcpClient._obuf (cw_cli w))).
    rewrite Hco, Hone, zlen_frame_bytes. unfold CLIENT_BUF, MESSAGE_LENGTH_LIMIT, MESSAGE_HEAD_LEN in *.
    change (zlen (@nil byte)) with 0. lia.
  - rewrite Hone in Hr. eexists w', _. split_and!; try done; [by rewrite Hin|exact Hu].
Qed.

(** ** The way of a route

    The sizes of the two messages on the wire; a request that is not empty. *)
Definition fits (modid cmdid : Z) (rsp : GetRouteResponse) : Prop :=
  serialize (MkRouteReq modid cmdid) <> [] /\
  zlen (serialize (MkRouteReq modid cmdid)) <= MESSAGE_LENGTH_LIMIT /\
  zlen (serialize rsp) <= MESSAGE_LENGTH_LIMIT.

(** The server answers one request. *)
Lemma request_answered modid cmdid this (wd : dworld) fl c S :
  is_s32 modid -> is_s32 cmdid ->
  let rsp := route_response modid cmdid (dns_route (w_user wd)) in
  fits modid cmdid rsp -> answers this wd fl c S ->
  let bytes := frame_bytes ID_GetRouteRequest (serialize (MkRouteReq modid cmdid)) in
  let run := TcpConn.do_read raw run_hook (run_msg raw) (Some (zlen bytes)) [inl bytes] this wd in
  run = Stop (Exit 0) /\ mem_short 12288 (w_mem wd) \/
  exists wd' fl' c', run = Ret wd' /\ conn_repr this wd' fl' c' [] (frame_bytes ID_GetRouteResponse (serialize rsp)) /\
    dns_route (w_user wd') = dns_route (w_user wd) /\ _connfd c ∈ book wd' (make_key modid cmdid).
Proof.
  intros Hm Hc rsp (Hn1 & Hl1 & Hl2) [Hsub Hrepr Hloop Hpar Hroute] bytes run.
  assert (0 <= zlen (serialize (MkRouteReq modid cmdid))) as Hz1 by apply zlen_nonneg.
  assert (0 <= zlen (serialize rsp)) as Hz2 by apply zlen_nonneg.
  assert (concat (answer (dns_route (w_user wd)) <$> [MkRouteReq modid cmdid]) =
    frame_bytes ID_GetRouteResponse (serialize rsp)) as Hans by (cbn; by rewrite app_nil_r).
  destruct (dns_read_serves raw raw_len bytes 0 [] this wd fl c [] [] [MkRouteReq modid cmdid] [] S Hsub Hrepr Hloop Hpar Hroute)
    as [[Hrun Hshort]|(wd' & fl' & c' & Hrun & Hrepr' & Hsame & Hbook)].
  - constructor; [by split|constructor].
  - unfold bytes. rewrite zlen_frame_bytes. unfold MESSAGE_HEAD_LEN. lia.
  - unfold bytes. rewrite zlen_frame_bytes. unfold m4M, MESSAGE_LENGTH_LIMIT, MESSAGE_HEAD_LEN in *.
    change (zlen (@nil byte)) with 0. lia.
  - pose proof (deframe_all [(ID_GetRouteRequest, serialize (MkRouteReq modid cmdid))]) as Hd.
    unfold stream in Hd. cbn in Hd. rewrite app_nil_r in Hd. apply Hd; (constructor; [|constructor]); [by split|done].
  - rewrite Hans, zlen_frame_bytes. unfold m4M, MESSAGE_LENGTH_LIMIT, MESSAGE_HEAD_LEN in *.
    change (zlen (@nil byte)) with 0. lia.
  - left. split; [exact Hrun|exact Hshort].
  - right. rewrite Hans in Hrepr'. exists wd', fl', c'. split; [exact Hrun|]. split; [exact Hrepr'|]. split; [exact Hsame|].
    apply Hbook. right. split; [done|]. cbn. by left.
Qed.

(** The client reads the frame of a response. *)
Lemma route_frame_read (w : cworld) ob a inp rest a2 (rsp : GetRouteResponse) :
  zlen (serialize rsp) <= MESSAGE_LENGTH_LIMIT ->
  connected (cw_cli w) = true -> cli_repr (cw_cli w) [] ob -> b_capacity (TcpClient._ibuf (cw_cli w)) = CLIENT_BUF ->
  route (_cli_router (cw_cli w)) ID_GetRouteResponse = Some (deal_recv_route_cb, None) ->
  cw_user w = (a, inp :: rest) -> deal_recv_route wide cfg inp (serialize rsp) a = Ret a2 ->
  let out := frame_bytes ID_GetRouteResponse (serialize rsp) in
  exists w', TcpClient.do_read run_agent_hook (run_route_msg wide cfg) (Some (zlen out)) [inl out] w = Ret (0, w') /\
    cw_user w' = (a2, rest).
Proof.
  intros Hlen Hcon Hrep Hcap Hro Hu Hd out. assert (0 <= zlen (serialize rsp)) as Hz by apply zlen_nonneg.
  destruct (client_read_ok run_agent_hook (run_route_msg wide cfg) (fun u (w : cworld) => cw_user w = u) route_astep
    out 0 [] w [] ob [(ID_GetRouteResponse, serialize rsp)] [] (a, inp :: rest) (a2, rest) route_contract Hu)
    as (w' & Hrun & _ & _ & _ & Hu'); try done.
  - cbn [cli_deliver]. rewrite Hro. cbn [route_astep]. rewrite Hd. done.
  - unfold out. rewrite Hcap, zlen_frame_bytes. unfold CLIENT_BUF, MESSAGE_LENGTH_LIMIT, MESSAGE_HEAD_LEN in *.
    change (zlen (@nil byte)) with 0. lia.
  - constructor; [split; [done|exact Hlen]|constructor].
  - by left.
  - unfold stream, out. cbn [fmap list_fmap concat fst snd]. by rewrite !app_nil_r.
  - by exists w'.
Qed.

(** The answer of the server reaches the waiting balancer. *)
Lemma route_received modid cmdid (w : cworld) ob a inp rest r lb rsp dq rq (i := Z.to_nat ((modid + cmdid) mod 3)) :
  is_s32 modid -> is_s32 cmdid -> 0 <= modid + cmdid -> is_s32 (modid + cmdid) ->
  rsp = MkRouteRsp modid cmdid (rr_host rsp) -> RouteRsp_ok rsp -> rr_host rsp <> [] ->
  zlen (serialize rsp) <= MESSAGE_LENGTH_LIMIT ->
  connected (cw_cli w) = true -> cli_repr (cw_cli w) [] ob -> b_capacity (TcpClient._ibuf (cw_cli w)) = CLIENT_BUF ->
  route (_cli_router (cw_cli w)) ID_GetRouteResponse = Some (deal_recv_route_cb, None) ->
  cw_user w = (a, inp :: rest) -> length (r_lb a) = 3%nat -> dns_queue a = Some dq -> report_queue a = Some rq ->
  r_lb a !! i = Some r -> _route_lb_map r !! make_key modid cmdid = Some lb -> lb_inv lb -> _host_map lb = ∅ ->
  let out := frame_bytes ID_GetRouteResponse (serialize rsp) in
  exists w', TcpClient.do_read run_agent_hook (run_route_msg wide cfg) (Some (zlen out)) [inl out] w = Ret (0, w') /\
    forall inp' seq, is_u32 seq -> exists h a', h ∈ rr_host rsp /\
      run_get_host cfg inp' (serialize (MkHostReq seq modid cmdid)) i (cw_user w').1 =
      Ret (serialize (MkHostRsp 0 modid cmdid RET_SUCC (Some h)), a').
Proof.
  intros Hm Hc H0 Hs Hrsp Hok Hne Hlen Hcon Hrep Hcap Hro Hu H3 Hdq Hrq Hr Hk Hinv Hmap out.
  assert (0 <= (modid + cmdid) mod 3 < 3) as Hi by (apply Z.mod_pos_bound; lia).
  pose proof Hok as (_ & _ & Hhosts & Hmax).
  destruct (route_arrives wide cfg inp modid cmdid (rr_host rsp) a r lb) as (lb' & Hd & Hnext); [done..|].
  rewrite <-Hrsp in Hd. set (a2 := Agent _ _ _) in Hd.
  destruct (route_frame_read w ob a inp rest a2 rsp) as (w' & Hrun & Hu'); [done..|].
  exists w'. split; [exact Hrun|]. intros inp' seq Hseq. rewrite Hu'. cbn [fst].
  destruct (Hnext inp' seq a2 dq rq Hseq) as (h & a'' & Hin & Hg); [|done..|by exists h, a''].
  apply list_lookup_insert_eq. rewrite H3. unfold i. lia.
Qed.

(** (C1) The way of a route: a service has been asked for, its balancer waits, and the request
    is on the queue of the DNS client.  When the client is woken it puts one
    frame on the wire; when the DNS server reads these bytes it answers with the hosts of its
    table and books the connection for the service; when the client reads the answer
    the balancer has its hosts, and from then on the next request for the service is answered
    with [RET_SUCC] and a host of the table.  The only way out is that the server stops because
    its buffers would exceed the limit of the pool. *)
Theorem route_round_trip modid cmdid (wa : cworld) inp r lb q this (wd : dworld) fl c S (i := Z.to_nat ((modid + cmdid) mod 3)) :
  is_s32 modid -> is_s32 cmdid -> 0 <= modid + cmdid -> is_s32 (modid + cmdid) ->
  let rsp := route_response modid cmdid (dns_route (w_user wd)) in
  RouteRsp_ok rsp -> rr_host rsp <> [] -> fits modid cmdid rsp ->
  asks modid cmdid wa inp r lb q -> answers this wd fl c S ->
  exists wa1 bytes, new_dns_request wa = Ret wa1 /\ cli_repr (cw_cli wa1) [] bytes /\
    let run := TcpConn.do_read raw run_hook (run_msg raw) (Some (zlen bytes)) [inl bytes] this wd in
    (run = Stop (Exit 0) /\ mem_short 12288 (w_mem wd) \/
     exists wd' fl' c' out wa2, run = Ret wd' /\ conn_repr this wd' fl' c' [] out /\
       _connfd c ∈ book wd' (make_key modid cmdid) /\
       TcpClient.do_read run_agent_hook (run_route_msg wide cfg) (Some (zlen out)) [inl out] wa1 = Ret (0, wa2) /\
       forall inp' seq, is_u32 seq -> exists h a', h ∈ rr_host rsp /\
         run_get_host cfg inp' (serialize (MkHostReq seq modid cmdid)) i (cw_user wa2).1 =
         Ret (serialize (MkHostRsp 0 modid cmdid RET_SUCC (Some h)), a')).
Proof.
  intros Hm Hc H0 Hs rsp Hok Hne Hfits Hask Han. pose proof Hfits as (Hn1 & Hl1 & Hl2).
  destruct (request_sent modid cmdid wa inp r lb q Hask Hl1) as (wa1 & q' & Hrun1 & Hr1 & Hc1 & Hcap1 & Hro1 & Hu1).
  destruct Hask as [_ _ _ Har [rest Hin] H3 _ [rq Hrq] Hlb Hk [Hinv Hmap]].
  set (bytes := frame_bytes ID_GetRouteRequest (serialize (MkRouteReq modid cmdid))) in *.
  exists wa1, bytes. split; [exact Hrun1|]. split; [exact Hr1|]. cbv zeta.
  destruct (request_answered modid cmdid this wd fl c S) as [[Hrun Hshort]|(wd' & fl' & c' & Hrun & Hrepr' & _ & Hbook)]; [done..| |].
  - left. split; [exact Hrun|exact Hshort].
  - right.
    destruct (route_received modid cmdid wa1 bytes (Agent (r_lb (cw_user wa).1) (Some q') (report_queue (cw_user wa).1))
      inp rest r lb rsp q' rq) as (wa2 & Hread & Hserve); try done.
    + by rewrite Hro1.
    + by rewrite Hu1, Hin.
    + exists wd', fl', c'; do 2 eexists. split; [exact Hrun|]. split; [exact Hrepr'|]. by split; [|split].
Qed.

(** A request whose encoding is empty, which is that for modid 0 and cmdid 0, is not
    answered: the server keeps the frame pending until more bytes come, and neither
    queues an answer nor books the connection. *)
Theorem empty_request_waits modid cmdid this (wd : dworld) fl c S :
  serialize (MkRouteReq modid cmdid) = [] -> answers this wd fl c S ->
  let bytes := frame_bytes ID_GetRouteRequest (serialize (MkRouteReq modid cmdid)) in
  let run := TcpConn.do_read raw run_hook (run_msg raw) (Some (zlen bytes)) [inl bytes] this wd in
  run = Stop (Exit 0) /\ mem_short 4096 (w_mem wd) \/
  exists wd' fl' c', run = Ret wd' /\ conn_repr this wd' fl' c' bytes [] /\
    forall m x, x ∈ book wd' m <-> x ∈ book wd m.
Proof.
  intros Hnil [Hsub Hrepr Hloop Hpar Hroute] bytes run. unfold run, bytes. rewrite Hnil.
  destruct (dns_read_serves raw raw_len (frame_bytes ID_GetRouteRequest []) 0 [] this wd fl c [] [] []
    (frame_bytes ID_GetRouteRequest []) S Hsub Hrepr Hloop Hpar Hroute)
    as [[Hrun Hshort]|(wd' & fl' & c' & Hrun & Hrepr' & _ & Hbook)]; try done.
  - by left.
  - right. exists wd', fl', c'. split; [exact Hrun|]. split; [exact Hrepr'|]. intros m x. rewrite Hbook. cbn.
    split; [|by left]. intros [|[_ Hn]]; [done|]. by apply not_elem_of_nil in Hn.
Qed.

(** ** The way of a change *)

(** A response for a service the agent balances already. *)
Lemma route_refreshes modid cmdid inp a r lb rsp (i := Z.to_nat ((modid + cmdid) mod 3)) :
  is_s32 modid -> is_s32 cmdid -> 0 <= modid + cmdid -> is_s32 (modid + cmdid) ->
  rsp = MkRouteRsp modid cmdid (rr_host rsp) -> RouteRsp_ok rsp -> rr_host rsp <> [] ->
  r_lb a !! i = Some r -> _route_lb_map r !! make_key modid cmdid = Some lb -> lb_inv lb -> keyed wide lb ->
  exists lb', deal_recv_route wide cfg inp (serialize rsp) a =
      Ret (Agent (<[i := put_lb (make_key modid cmdid) lb' r]> (r_lb a)) (dns_queue a) (report_queue a)) /\
    lb_inv lb' /\ dom (_host_map lb') = list_to_set (update_key wide <$> rr_host rsp) /\
    (forall key x h, _host_map lb !! key = Some x -> is_Some (_host_map lb' !! key) ->
       lb_heap lb !! x = Some h -> _host_map lb' !! key = Some x /\ lb_heap lb' !! x = Some h) /\
    (keys_distinct wide (managed lb ++ rr_host rsp) -> forall h, h ∈ managed lb' <-> h ∈ rr_host rsp).
Proof.
  intros Hm Hc H0 Hs Hrsp Hok Hne Hr Hl Hinv Hkd.
  assert (0 <= (modid + cmdid) mod 3 < 3) as Hi by (apply Z.mod_pos_bound; lia).
  destruct (update_ok wide cfg (new_host inp) (t_now inp) rsp lb Hinv Hne) as (lb' & Hup & Hinv' & Hdom & Hkeep & _).
  destruct (update_managed wide cfg (new_host inp) (t_now inp) rsp lb lb' Hinv Hkd) as [_ Hman]; [|done..|].
  { destruct Hok as (_ & _ & Hhs & _). eapply Forall_impl; [exact Hhs|]. by intros h [? _]. }
  exists lb'. split; [|by split_and!]. unfold deal_recv_route. rewrite parse_serialize by done. rewrite Hrsp at 1 2.
  cbn [rr_modid rr_cmdid]. rewrite agent_index_ok by done. cbn [mbind res_mbind].
  replace ((modid + cmdid) mod 3) with (Z.of_nat i) by (unfold i; lia). assert (i < 3)%nat by (unfold i; lia).
  erewrite rlb_at_ok; [|done|done]. cbn [mbind res_mbind]. unfold update_host. cbv zeta.
  replace (rr_modid rsp) with modid by (by rewrite Hrsp). replace (rr_cmdid rsp) with cmdid by (by rewrite Hrsp).
  rewrite Hl. rewrite bool_decide_eq_false_2 by done. rewrite Hup.
  cbn [mbind res_mbind]. rewrite Nat2Z.id. unfold put_rlb, send_all. done.
Qed.

(** A reachable server with a connection that is booked for a service and has nothing to send or pending; the
    outputs of all connections of its loop have room for what a change of the service makes due. *)
Record booked (key : Z) (loop : nat) (l : event_loop K io_cb io_arg dns_task) (wd : dworld) (fl : Spec.free_lists)
    (io : gmap loc (list byte * list byte)) (x : loc) (c : tcp_conn (gset Z)) (ib : list byte) : Prop := {
  bk_reach : dns_reach raw wd;
  bk_repr : conns_repr wd fl io;
  bk_loop : w_loops wd !! loop = Some l;
  bk_room : forall x c ib ob mods, w_objs wd !! x = Some c -> io !! x = Some (ib, ob) -> NoDup mods ->
    (forall m, m ∈ mods <-> owed [key] l wd c m) -> zlen ob + zlen (push_frames (dns_route (w_user wd)) mods) <= m4M;
  bk_obj : w_objs wd !! x = Some c;
  bk_io : io !! x = Some (ib, []);
  bk_online : _connfd c ∈ get_listen_fds l;
  bk_book : _connfd c ∈ book wd key;
  bk_pending : entry (_push_list (dns_subs (w_user wd))) (_connfd c) = ∅
}.

(** A change of a key reaches a connection that is booked for it: the push task of its loop queues the new answer. *)
Lemma change_pushed modid cmdid (key := make_key modid cmdid) loop l (wd : dworld) fl io x c ib :
  is_s32 modid -> is_s32 cmdid -> 0 <= cmdid ->
  let rsp := route_response modid cmdid (dns_route (w_user wd)) in
  rr_host rsp <> [] -> booked key loop l wd fl io x c ib ->
  let run := run_task raw loop (set_subs (publish_lists [key] (dns_subs (w_user wd))) wd) in
  run = Stop (Exit 0) /\ mem_short (due_kb [key] l wd) (w_mem wd) \/
  exists wd' fl' io', run = Ret wd' /\ conns_repr wd' fl' io' /\
    io' !! x = Some (ib, frame_bytes ID_GetRouteResponse (serialize rsp)).
Proof.
  intros Hm Hc Hc0 rsp Hne [Hreach Hw Hl Hroom Hx Hio Hon Hbook Hnone] run.
  destruct (dns_reach_all raw raw_len wd Hreach) as [Hsub Ht _].
  assert (0 <= _connfd c) as Hfd.
  { destruct (so_book _ Hsub key _ Hbook) as (y & d & S & Hy & Hp & <-). by eapply (to_param _ Ht y d S). }
  destruct (push_run raw raw_len [key] loop l wd fl io Hreach Hw Hl Hroom) as
    [[Hstop Hshort]|(wd' & fl' & io' & Hrun & _ & Hw' & Hout & _)]; [left; split; [exact Hstop|exact Hshort]|right].
  destruct (Hout x c ib [] Hx Hfd Hio) as (mods & Hnd & Hmods & Hio').
  assert (mods = [key]) as ->.
  { apply NoDup_singleton_elems; [exact Hnd|]. intros m. rewrite Hmods. unfold owed. rewrite Hnone. split.
    - intros [_ [Hn|[Hm1 _]]]; [by apply not_elem_of_empty in Hn|by apply list_elem_of_singleton in Hm1].
    - intros ->. split; [exact Hon|]. right. split; [by left|exact Hbook]. }
  assert (push_frames (dns_route (w_user wd)) [key] = frame_bytes ID_GetRouteResponse (serialize rsp)) as Hfr.
  { unfold push_frames, push_frame, key. cbn [fmap list_fmap concat]. rewrite app_nil_r, key_hi_make_key, key_lo_make_key by done.
    by rewrite decide_True by done. }
  cbn [app] in Hio'. rewrite Hfr in Hio'.
  exists wd', fl', io'. split; [exact Hrun|]. split; [exact Hw'|exact Hio'].
Qed.


(** ** The way of a report *)
Abbreviation rworld := (TcpConn.world K unit rep_msg unit unit (reporter (E := E))).

(** A report that fills a frame and fits it. *)
Definition framable (m : ReportStatusReq) : Prop :=
  serialize m <> [] /\ zlen (serialize m) <= MESSAGE_LENGTH_LIMIT.

(** (C17) The way of a status report: when the reporter client of the agent is woken with reports
    on its queue it empties the queue and puts one frame per report on the wire; when
    the reporter reads these bytes the statements of exactly these reports are added, in order
    and in turn, to what its database threads send; it stops only when 4096 KB more would take
    its buffers to the limit of the pool. *)
Theorem report_way (wa : cworld) ib q reqs this run_hook (wr : rworld) fl c :
  connected (cw_cli wa) = true -> cli_repr (cw_cli wa) ib [] ->
  report_queue (cw_user wa).1 = Some q -> _queue q = reqs -> reqs <> [] ->
  Forall StatusReq_ok reqs -> Forall framable reqs ->
  zlen (frames ID_ReportStatusRequest reqs) <= b_capacity (TcpClient._obuf (cw_cli wa)) ->
  zlen (frames ID_ReportStatusRequest reqs) <= m4M ->
  conn_repr this wr fl c [] [] -> rep_inv (w_user wr) ->
  route (router (w_srv wr)) ID_ReportStatusRequest = Some (on_report_status, None) ->
  exists wa1 q1 bytes, new_report_request wa = Ret wa1 /\ cli_repr (cw_cli wa1) ib bytes /\
    report_queue (cw_user wa1).1 = Some q1 /\ _queue q1 = [] /\
    let run := TcpConn.do_read raw run_hook run_rep_msg (Some (zlen bytes)) [inl bytes] this wr in
    (run = Stop (Exit 0) /\ mem_short 4096 (w_mem wr) \/
     exists wr' fl' c' ob', run = Ret wr' /\ conn_repr this wr' fl' c' [] ob' /\ rep_inv (w_user wr') /\
       forall k, todo k (w_user wr') =
         todo k (w_user wr) ++ concat (store <$> dealt (thread_cnt (w_user wr)) (Z.of_nat k) (idx (w_user wr)) reqs)).
Proof.
  intros Hcon Hrep Hq Hqq Hne Hok Hsz Hfit Hmax Hc Hinv Hro.
  unfold new_report_request. rewrite Hq. cbn [mbind res_mbind deref recv]. rewrite Hqq. set (w1 := set_agent _ wa).
  destruct (send_each_ok ID_ReportStatusRequest reqs w1 ib []) as (w' & -> & Hr & Hu & _); [done|done|exact Hfit|].
  cbn [app] in Hr. set (bytes := frames ID_ReportStatusRequest reqs) in *.
  eexists w', _, bytes. split; [done|]. split; [exact Hr|]. rewrite Hu. split; [done|]. split; [done|].
  apply (rep_read_receives raw raw_len run_hook bytes 0 [] this wr fl c [] [] reqs []); try done.
  - destruct reqs as [|m ms]; [done|]. unfold bytes, frames. rewrite fmap_cons. unfold stream. cbn [fmap list_fmap concat fst snd].
    rewrite zlen_app, zlen_frame_bytes. unfold MESSAGE_HEAD_LEN.
    match goal with |- _ < _ + zlen ?x + zlen ?y => pose proof (zlen_nonneg x); pose proof (zlen_nonneg y) end. lia.
  - cbn [app]. apply deframe_all; apply Forall_fmap; (eapply Forall_impl; [exact Hsz|]); intros m [H1 H2]; [|done].
    by split.
Qed.
End System.

#[local] Existing Instance nobody.

(** ** Service (1, 2), asked for by the agent and known to the server *)
Module SysDemo.
Definition rlb0 : route_lb := put_lb (make_key 1 2) (pulling 1 2 demo_inputs) (route_lb_new 1).
Definition agent0 : agent Z :=
  Agent [rlb0; route_lb_new 2; route_lb_new 3] (Some (send (MkRouteReq 1 2) thread_queue_new)) (Some thread_queue_new).
Definition cli0 : TcpClient.tcp_client agent_hook agent_msg unit :=
  TcpClient.TcpClient true (io_buf_new CLIENT_BUF RunDemo.block) (io_buf_new CLIENT_BUF RunDemo.block) (Some conn_init_hook) None
    (register_msg_router ID_GetRouteResponse deal_recv_route_cb None msg_router_new).2 4.
Definition dns_cli : TcpClient.cworld (gmap Z Z) agent_hook agent_msg unit queue_fn unit (agent Z * list inputs) :=
  CWorld cli0 event_loop_new (agent0, [demo_inputs]).

Lemma buf_ok : buf_wf (io_buf_new CLIENT_BUF RunDemo.block).
Proof. apply io_buf_new_wf; [discriminate|apply RunDemo.block_len]. Qed.
Lemma cli0_repr : cli_repr cli0 [] [].
Proof. split; [apply buf_ok|]. split; [reflexivity|]. split; [reflexivity|]. split; [apply buf_ok|]. split; reflexivity. Qed.
Lemma dns_asks : asks 1 2 dns_cli demo_inputs rlb0 (pulling 1 2 demo_inputs) (send (MkRouteReq 1 2) thread_queue_new).
Proof.
  split; [reflexivity|apply cli0_repr|split; reflexivity|reflexivity|exists []; reflexivity|reflexivity|split; reflexivity|
    eexists; reflexivity|reflexivity|reflexivity|]. split; [|reflexivity]. apply lb_inv_status, lb_inv_new.
Qed.
Lemma dns_answers : answers 1%positive SockDemo.world2 empty_free DnsDemo.conn0 ∅.
Proof. split; [apply SockDemo.world2_ok|apply SockDemo.world2_repr|by eexists|done|done]. Qed.
Lemma demo_response :
  route_response 1 2 (dns_route (w_user SockDemo.world2)) = MkRouteRsp 1 2 [MkHostInfo 167772161 80].
Proof. vm_compute. reflexivity. Qed.

(** The agent when it balances the service over another host. *)
Definition lb1 : load_balance :=
  match update x86_shl LbDemo.cfg (new_host demo_inputs) 0 (MkRouteRsp 1 2 [MkHostInfo 7 80]) (pulling 1 2 demo_inputs) with
  | Ret lb => lb | Stop _ => pulling 1 2 demo_inputs end.
Definition rlb1 : route_lb := put_lb (make_key 1 2) lb1 (route_lb_new 1).
Definition agent1 : agent Z := Agent [rlb1; route_lb_new 2; route_lb_new 3] (Some thread_queue_new) (Some thread_queue_new).
Definition dns_cli1 : TcpClient.cworld (gmap Z Z) agent_hook agent_msg unit queue_fn unit (agent Z * list inputs) :=
  CWorld cli0 event_loop_new (agent1, [demo_inputs]).
Lemma lb1_inv : lb_inv lb1.
Proof.
  unfold lb1. destruct (update_ok x86_shl LbDemo.cfg (new_host demo_inputs) 0 (MkRouteRsp 1 2 [MkHostInfo 7 80]) (pulling 1 2 demo_inputs))
    as (lb & -> & H1 & _); [apply lb_inv_status, lb_inv_new|discriminate|exact H1].
Qed.
Lemma lb1_keyed : keyed x86_shl lb1.
Proof.
  unfold lb1. destruct (update x86_shl LbDemo.cfg (new_host demo_inputs) 0 (MkRouteRsp 1 2 [MkHostInfo 7 80]) (pulling 1 2 demo_inputs))
    as [lb|] eqn:Hu; [|exact (keyed_new x86_shl 1 2 (0, PULLING, 0))].
  eapply (update_managed x86_shl LbDemo.cfg (new_host demo_inputs) 0 (MkRouteRsp 1 2 [MkHostInfo 7 80])); [| | | |exact Hu].
  - apply lb_inv_status, lb_inv_new.
  - exact (keyed_new x86_shl 1 2 (0, PULLING, 0)).
  - repeat constructor; vm_compute; congruence.
  - discriminate.
Qed.
Lemma lb1_managed : managed lb1 = [MkHostInfo 7 80].
Proof. vm_compute. reflexivity. Qed.
Lemma demo_change : route_response 1 2 (dns_route (w_user PushDemo.world6)) = MkRouteRsp 1 2 [MkHostInfo 167772161 80].
Proof. vm_compute. reflexivity. Qed.

(** The reporter client of the agent with one report on its queue. *)
Definition rep_cli : TcpClient.cworld (gmap Z Z) agent_hook agent_msg unit queue_fn unit (agent Z * list inputs) :=
  CWorld cli0 event_loop_new (Agent create_route_lb None (Some (send RepDemo.req thread_queue_new)), []).
End SysDemo.
Import SysDemo.

Lemma route_round_trip_witness :
  exists wa1 bytes wd' out wa2, new_dns_request dns_cli = Ret wa1 /\
    TcpConn.do_read zero_raw run_hook (run_msg zero_raw) (Some (zlen bytes)) [inl bytes] 1%positive SockDemo.world2 = Ret wd' /\
    TcpClient.do_read run_agent_hook (run_route_msg x86_shl LbDemo.cfg) (Some (zlen out)) [inl out] wa1 = Ret (0, wa2) /\
    exists h a', h ∈ [MkHostInfo 167772161 80] /\
      run_get_host LbDemo.cfg demo_inputs (serialize (MkHostReq 7 1 2)) 0 (cw_user wa2).1 =
      Ret (serialize (MkHostRsp 0 1 2 RET_SUCC (Some h)), a').
Proof.
  destruct (route_round_trip x86_shl LbDemo.cfg zero_raw zero_raw_len 1 2 dns_cli demo_inputs rlb0 (pulling 1 2 demo_inputs)
    (send (MkRouteReq 1 2) thread_queue_new) 1%positive SockDemo.world2 empty_free DnsDemo.conn0 ∅)
    as (wa1 & bytes & H1 & _ & [[_ Hs]|(wd' & fl' & c' & out & wa2 & H2 & _ & _ & H3 & H4)]).
  - split; vm_compute; (reflexivity || discriminate).
  - split; vm_compute; (reflexivity || discriminate).
  - vm_compute. congruence.
  - split; vm_compute; (reflexivity || discriminate).
  - rewrite demo_response. split; [split; vm_compute; (reflexivity || discriminate)|].
    split; [split; vm_compute; (reflexivity || discriminate)|]. split; [|vm_compute; discriminate].
    constructor; [split; split; vm_compute; (reflexivity || discriminate)|constructor].
  - rewrite demo_response. discriminate.
  - rewrite demo_response. split; [discriminate|]. split; vm_compute; discriminate.
  - apply dns_asks.
  - apply dns_answers.
  - exfalso. vm_compute in Hs. congruence.
  - exists wa1, bytes, wd', out, wa2. split; [exact H1|]. split; [exact H2|]. split; [exact H3|].
    rewrite demo_response in H4. apply (H4 demo_inputs 7). split; vm_compute; (reflexivity || discriminate).
Defined.

#[local] Opaque PushDemo.world6 PushDemo.conn6 PushDemo.loop6.

Lemma report_way_witness :
  exists wa1 bytes wr', new_report_request rep_cli = Ret wa1 /\
    TcpConn.do_read zero_raw (fun _ _ w => Ret w) run_rep_msg (Some (zlen bytes)) [inl bytes] 1%positive RepDemo.rep_world = Ret wr' /\
    todo 0 (w_user wr') = store RepDemo.req.
Proof.
  destruct (report_way zero_raw zero_raw_len rep_cli [] (send RepDemo.req thread_queue_new) [RepDemo.req] 1%positive
    (fun _ _ w => Ret w) RepDemo.rep_world empty_free RepDemo.rep_conn)
    as (wa1 & q1 & bytes & H1 & _ & _ & _ & [[_ Hs]|(wr' & fl' & c' & ob' & H2 & _ & _ & Ht)]).
  - reflexivity.
  - apply cli0_repr.
  - reflexivity.
  - reflexivity.
  - discriminate.
  - constructor; [apply RepDemo.req_ok|constructor].
  - constructor; [|constructor]. split; vm_compute; congruence.
  - vm_compute. congruence.
  - vm_compute. congruence.
  - apply RepDemo.rep_conn_repr.
  - apply RepDemo.rep_ok. lia.
  - reflexivity.
  - exfalso. vm_compute in Hs. congruence.
  - exists wa1, bytes, wr'. split; [exact H1|]. split; [exact H2|]. rewrite Ht. vm_compute. reflexivity.
Defined.
