(* ===== verification/TestClients.v ===== *)
(** * The test clients of the DNS server and of the reporter

    lrlb_dns/test and lrlb_dns/test-sub ask for the route of a service when they are connected and print every
    route they get, the first asking again each time, the second only waiting for pushes; lrlb_reporter/test sends one
    report.  The application state is what the program has printed.  The theorems put them together with the servers: the
    first polls, the second sees the changes, and the report is stored. *)

From S2P Require Import Prelude.
From S2P Require Import IoBuf.
From S2P Require Import BufPool.
From S2P Require Import ReactorBuf.
From S2P Require Import Message.
From S2P Require Import EventLoop.
From S2P Require Import ThreadPool.
From S2P Require Import TcpConn.
From S2P Require Import Isolation.
From S2P Require Import TcpClient.
From S2P Require Import ConfigFile.
From S2P Require Import Proto.
From S2P Require Import RouteLb.
From S2P Require Import Agent.
From S2P Require Import AgentMain.
From S2P Require Import DnsRoute.
From S2P Require Import Subscribe.
From S2P Require Import DnsServer.
From S2P Require Import DnsSocket.
From S2P Require Import DnsPush.
From S2P Require Import Reporter.
From S2P Require Import System.

(** ** The command line *)

(** [struct Option]. *)
Record Option := MkOption { opt_ip : option str; opt_port : Z }.
Definition Option_new : Option := MkOption None 0.

(** The loop of [parse_option], which looks at every argument; behind the last one is the null pointer. *)
Fixpoint parse_args (argv : list str) (o : Option) : res Option :=
  match argv with
  | [] => Ret o
  | a :: rest =>
      if bool_decide (a = text "-h") then parse_args rest (MkOption (head rest) (opt_port o))
      else if bool_decide (a = text "-p") then
        match rest with
        | [] => Stop Undefined
        | p :: _ => parse_args rest (MkOption (opt_ip o) (s16 (atoi p)))
        end
      else parse_args rest o
  end.

(** [parse_option]. *)
Definition parse_option (argv : list str) : res (str * Z) :=
  o ← parse_args argv Option_new;
  match opt_ip o with
  | Some ip => if bool_decide (opt_port o = 0) then Stop (Exit 1) else Ret (ip, opt_port o)
  | None => Stop (Exit 1)
  end.

(** The options in either order; without one of them, or with port 0, the program ends with its
    usage; a [-p] behind which nothing comes makes [atoi] read the null pointer. *)
Definition no_option (s : str) : Prop := s <> text "-h" /\ s <> text "-p".
Lemma parse_args_skip a rest o : no_option a -> parse_args (a :: rest) o = parse_args rest o.
Proof. intros [H1 H2]. cbn [parse_args]. by rewrite !bool_decide_eq_false_2 by done. Qed.

Theorem test_options prog ip port :
  no_option prog -> no_option ip -> no_option port ->
  let usage_or := if bool_decide (s16 (atoi port) = 0) then Stop (Exit 1) else Ret (ip, s16 (atoi port)) in
  parse_option [prog; text "-h"; ip; text "-p"; port] = usage_or /\
  parse_option [prog; text "-p"; port; text "-h"; ip] = usage_or /\
  parse_option [prog; text "-h"; ip] = Stop (Exit 1) /\ parse_option [prog; text "-p"; port; text "-h"] = Stop (Exit 1) /\
  parse_option [prog; text "-h"; ip; text "-p"] = Stop Undefined.
Proof.
  intros H1 H2 H3. unfold parse_option. rewrite !(parse_args_skip prog) by done. cbn [parse_args head].
  rewrite (bool_decide_eq_true_2 (text "-h" = text "-h")), (bool_decide_eq_false_2 (text "-p" = text "-h")),
    (bool_decide_eq_true_2 (text "-p" = text "-p")) by done.
  destruct H2 as [A1 A2], H3 as [B1 B2].
  rewrite !(bool_decide_eq_false_2 (ip = _)), !(bool_decide_eq_false_2 (port = _)) by done. done.
Qed.

(** ** The clients of the DNS server *)
Inductive test_hook := on_connection.
Inductive test_msg := deal_get_route.

Section DnsTest.
Context `{!Protobuf} {K : Type} `{!Epoll K} {X TF : Type}.
Abbreviation tworld := (TcpClient.cworld K test_hook test_msg unit X TF (list line)).
Implicit Types w : tworld.

(** [on_connection]; the cmdid is 2 in test and 1 in test-sub. *)
Definition run_on_connection (cmdid : Z) (h : test_hook) w : res tworld :=
  '(_, w) ← TcpClient.send_message (serialize (MkRouteReq 1 cmdid)) ID_GetRouteRequest w;
  Ret w.

(** What [deal_get_route] prints. *)
Definition route_lines (rsp : GetRouteResponse) : list line :=
  [LInt "modid = %d" (rr_modid rsp); LInt "cmdid = %d" (rr_cmdid rsp); LInt "host_size = %d" (s32 (zlen (rr_host rsp)))] ++
  concat ((fun h => [LInt "-->ip = %u" (u32 (h_ip h)); LInt "-->port = %d" (h_port h)]) <$> rr_host rsp).

(** [deal_get_route] of test-sub and of test, which asks again. *)
Definition deal_get_route_sub (cb : test_msg) (data : list byte) (len id : Z) (ud : option unit) w : res tworld :=
  let rsp : GetRouteResponse := parse data in
  Ret (CWorld (cw_cli w) (cw_loop w) (cw_user w ++ route_lines rsp)).
Definition deal_get_route_again (cb : test_msg) (data : list byte) (len id : Z) (ud : option unit) w : res tworld :=
  let rsp : GetRouteResponse := parse data in
  w ← deal_get_route_sub cb data len id ud w;
  '(_, w) ← TcpClient.send_message (serialize (MkRouteReq (rr_modid rsp) (rr_cmdid rsp))) ID_GetRouteRequest w;
  Ret w.

(** [main], up to [event_process], with the cmdid of [on_connection]. *)
Definition test_main (cmdid : Z) (argv : list str) (raw1 raw2 : list byte) (stale : bool) (sock : Z) (conn : unit + errno)
    : res (str * Z * tworld) :=
  addr ← parse_option argv;
  w ← tcp_client_new (run_on_connection cmdid) raw1 raw2 stale sock conn event_loop_new [];
  let w := TcpClient.set_conn_start (Some on_connection) w in
  Ret (addr, TcpClient.add_msg_router ID_GetRouteResponse deal_get_route None w).

(** A client as its messages see it: its output, and what it has queued. *)
Definition test_sim (a : list line * list byte) w : Prop :=
  cw_user w = a.1 /\ connected (cw_cli w) = true /\ b_capacity (TcpClient._obuf (cw_cli w)) = CLIENT_BUF /\
  buf_wf (TcpClient._obuf (cw_cli w)) /\ b_head (TcpClient._obuf (cw_cli w)) = 0 /\ contents (TcpClient._obuf (cw_cli w)) = a.2.
Definition sub_step (cb : test_msg) (data : list byte) (len id : Z) (ud : option unit) (a : list line * list byte)
    : res (list line * list byte) := Ret (a.1 ++ route_lines (parse data), a.2).
Definition again_step (cb : test_msg) (data : list byte) (len id : Z) (ud : option unit) (a : list line * list byte)
    : res (list line * list byte) :=
  let rsp : GetRouteResponse := parse data in
  let body := serialize (MkRouteReq (rr_modid rsp) (rr_cmdid rsp)) in
  _ ← assert (bool_decide (zlen a.2 + MESSAGE_HEAD_LEN + zlen body <= CLIENT_BUF));
  Ret (a.1 ++ route_lines rsp, a.2 ++ frame_bytes ID_GetRouteRequest body).

Lemma sub_contract : cli_cb_contract deal_get_route_sub test_sim sub_step.
Proof.
  split; [intros a w b (H1 & H2 & H3 & H4 & H5 & H6); by split_and!|].
  intros cb data len id ud w [u ob] a' (Hu & Hsim) [= <-]. cbn [fst snd] in Hu. eexists. do 3 (split; [done|]).
  split; [cbn [cw_user fst]; by rewrite Hu|exact Hsim].
Qed.

Lemma again_contract : cli_cb_contract deal_get_route_again test_sim again_step.
Proof.
  split; [intros a w b (H1 & H2 & H3 & H4 & H5 & H6); by split_and!|].
  intros cb data len id ud w [u ob] a' (Hu & Hcon & Hcap & Hwf & Hh & Hob) Hstep. cbn [fst snd] in *.
  unfold again_step in Hstep. cbn [fst snd] in Hstep. apply bind_Ret in Hstep as ([] & Hfit & Hstep).
  apply assert_Ret, bool_decide_eq_true_1 in Hfit. injection Hstep as <-. unfold deal_get_route_again, deal_get_route_sub.
  cbn [mbind res_mbind]. set (body := serialize _) in *. set (w1 := CWorld _ _ _).
  destruct (client_send_out body ID_GetRouteRequest w1 ob Hwf Hh Hob Hcon) as (b & Hwb & Hhb & Hxb & Hcb & ->);
    [change (cw_cli w1) with (cw_cli w); rewrite Hcap; exact Hfit|].
  cbn [mbind res_mbind]. eexists. do 3 (split; [done|]). split; [unfold w1; cbn [cw_user fst]; by rewrite Hu|]. split_and!; try done.
  cbn. by rewrite Hcb.
Qed.

(** A client with the callback of either program, with nothing to read or to write. *)
Record idle w : Prop := {
  id_conn : connected (cw_cli w) = true;
  id_repr : cli_repr (cw_cli w) [] [];
  id_in : b_capacity (TcpClient._ibuf (cw_cli w)) = CLIENT_BUF;
  id_out : b_capacity (TcpClient._obuf (cw_cli w)) = CLIENT_BUF;
  id_route : route (_cli_router (cw_cli w)) ID_GetRouteResponse = Some (deal_get_route, None)
}.

(** The frame of a route arrives. *)
Lemma frame_read run_hook run_msg step w (rsp : GetRouteResponse) a' :
  cli_cb_contract run_msg test_sim step -> idle w -> zlen (serialize rsp) <= MESSAGE_LENGTH_LIMIT ->
  step deal_get_route (serialize rsp) (zlen (serialize rsp)) ID_GetRouteResponse None (cw_user w, []) = Ret a' ->
  let out := frame_bytes ID_GetRouteResponse (serialize rsp) in
  exists w', TcpClient.do_read run_hook run_msg (Some (zlen out)) [inl out] w = Ret (0, w') /\
    contents (TcpClient._ibuf (cw_cli w')) = [] /\ test_sim a' w'.
Proof.
  intros Hcb [Hcon Hrep Hci Hco Hro] Hlen Hstep out. pose proof Hrep as (_ & _ & _ & Ho1 & Ho2 & Ho3).
  pose proof (zlen_nonneg (serialize rsp)) as Hz. pose proof (zlen_frame_bytes ID_GetRouteResponse (serialize rsp)) as Hzf.
  unfold MESSAGE_LENGTH_LIMIT, MESSAGE_HEAD_LEN in *.
  destruct (client_read_ok run_hook run_msg test_sim step out 0 [] w [] [] [(ID_GetRouteResponse, serialize rsp)] []
    (cw_user w, []) a' Hcb) as (w' & Hread & _ & _ & Hin & Hsim).
  - by split_and!.
  - cbn [cli_deliver]. rewrite Hro. rewrite u32_small by (unfold is_u32; lia). rewrite Hstep. done.
  - exact Hcon.
  - exact Hrep.
  - unfold out. lia.
  - rewrite Hci. unfold out, CLIENT_BUF. change (zlen (@nil byte)) with 0. lia.
  - constructor; [split; [done|exact Hlen]|constructor].
  - by left.
  - unfold stream, out. cbn [fmap list_fmap concat fst snd]. by rewrite !app_nil_r.
  - exists w'. split; [exact Hread|]. split; [exact Hin|exact Hsim].
Qed.
End DnsTest.

(** ** The client of the reporter *)
Inductive report_hook := connection_build.

Section ReportTest.
Context `{!Protobuf} {K : Type} `{!Epoll K} {X TF : Type}.
(** The state is what the coming calls of [rand] return. *)
Abbreviation sworld := (TcpClient.cworld K report_hook unit unit X TF (list Z)).
Implicit Types w : sworld.

(** The request [report_status] fills in. *)
Definition test_result (i : Z) : HostCallResult := MkCallResult (i + 1) ((i + 1) * (i + 1)) 100 3 true.
Definition test_report (rnd : Z) : ReportStatusReq := MkStatusReq (rnd mod 3 + 1) 1 123 (test_result <$> [0; 1; 2]) 0.

(** [report_status] and the hook [connection_build]. *)
Definition report_status w : res sworld :=
  match cw_user w with
  | [] => Stop NoReturn
  | rnd :: rs =>
      let w := CWorld (cw_cli w) (cw_loop w) rs in
      '(_, w) ← TcpClient.send_message (serialize (test_report rnd)) ID_ReportStatusRequest w;
      Ret w
  end.
Definition run_connection_build (h : report_hook) w : res sworld := report_status w.

(** [main], up to [event_process]. *)
Definition report_main (raw1 raw2 : list byte) (stale : bool) (sock : Z) (conn : unit + errno) (rs : list Z) : res sworld :=
  w ← tcp_client_new run_connection_build raw1 raw2 stale sock conn event_loop_new rs;
  Ret (TcpClient.set_conn_start (Some connection_build) w).

Lemma test_report_ok rnd : 0 <= rnd -> StatusReq_ok (test_report rnd).
Proof.
  intros Hr. pose proof (Z.mod_pos_bound rnd 3 ltac:(lia)). split; [unfold is_s32, test_report; cbn [rs_modid]; lia|].
  repeat split; try done. repeat constructor; done.
Qed.
End ReportTest.

(** ** Together with the servers *)
Section Together.
Context {E : Type} `{!EventFd E} {K : Type} `{!Epoll K} `{!Protobuf} {X TF : Type}.
Context (raw : Z -> list byte) (raw_len : forall n, 0 <= n -> zlen (raw n) = n) `{!Others (gset Z)} `{!Others unit}.
Abbreviation tworld := (TcpClient.cworld K test_hook test_msg unit X TF (list line)).
Abbreviation sworld := (TcpClient.cworld K report_hook unit unit X TF (list Z)).
Abbreviation dworld := (TcpConn.world K dns_hook dns_msg dns_task (gset Z) dns_state).
Abbreviation rworld := (TcpConn.world K unit rep_msg unit unit (reporter (E := E))).

(** The client of lrlb_dns/test polls: connected, it queues the request for service (1, 2);
    whenever the DNS server reads this request it queues the answer of its table and books the connection; and
    when the client reads this answer it prints the ids and every host in it, and has the same request queued again. *)
Theorem test_polls this (wd : dworld) fl c S (wc : tworld) :
  let rsp := route_response 1 2 (dns_route (w_user wd)) in
  RouteRsp_ok rsp -> fits 1 2 rsp -> idle wc -> answers this wd fl c S ->
  exists wc1 req, run_on_connection 2 on_connection wc = Ret wc1 /\ cli_repr (cw_cli wc1) [] req /\
    let run := TcpConn.do_read raw run_hook (run_msg raw) (Some (zlen req)) [inl req] this wd in
    (run = Stop (Exit 0) /\ mem_short 12288 (w_mem wd) \/
     exists wd' fl' c' out wc', run = Ret wd' /\ conn_repr this wd' fl' c' [] out /\ _connfd c ∈ book wd' (make_key 1 2) /\
       TcpClient.do_read (run_on_connection 2) deal_get_route_again (Some (zlen out)) [inl out] wc = Ret (0, wc') /\
       cw_user wc' = cw_user wc ++ route_lines rsp /\
       contents (TcpClient._ibuf (cw_cli wc')) = [] /\ contents (TcpClient._obuf (cw_cli wc')) = req).
Proof.
  intros rsp Hok Hfits Hidle Han. pose proof Hfits as (_ & Hl1 & Hl2). unfold MESSAGE_LENGTH_LIMIT, MESSAGE_HEAD_LEN in Hl1.
  assert (0 + MESSAGE_HEAD_LEN + zlen (serialize (MkRouteReq 1 2)) <= CLIENT_BUF) as Hroom
    by (unfold MESSAGE_HEAD_LEN, CLIENT_BUF; lia).
  pose proof (client_send_ok (serialize (MkRouteReq 1 2)) ID_GetRouteRequest wc [] [] (id_repr _ Hidle)) as Hs. cbv zeta in Hs.
  rewrite (id_conn _ Hidle), (id_out _ Hidle), bool_decide_eq_true_2 in Hs by exact Hroom. cbn [andb app] in Hs.
  destruct Hs as (c1 & Hrep1 & _ & _ & _ & _ & _ & Hsend).
  eexists _, (frame_bytes ID_GetRouteRequest (serialize (MkRouteReq 1 2))).
  split; [unfold run_on_connection; rewrite Hsend; reflexivity|]. split; [exact Hrep1|]. cbv zeta.
  destruct (request_answered raw raw_len 1 2 this wd fl c S) as [[Hrun Hshort]|(wd' & fl' & c' & Hrun & Hc' & _ & Hb)]; [done..| |].
  - left. split; [exact Hrun|exact Hshort].
  - right. destruct (frame_read (run_on_connection 2) deal_get_route_again again_step wc rsp
      (cw_user wc ++ route_lines rsp, [] ++ frame_bytes ID_GetRouteRequest (serialize (MkRouteReq 1 2)))
      again_contract Hidle Hl2) as (wc' & Hread & Hin & Hu & _ & _ & _ & _ & Hout).
    { unfold again_step. rewrite parse_serialize by exact Hok. cbn [fst snd rr_modid rr_cmdid rsp route_response].
      rewrite bool_decide_eq_true_2 by exact Hroom. done. }
    exists wd', fl', c'; eexists _, wc'. split; [exact Hrun|]. split; [exact Hc'|]. split; [exact Hb|]. split; [exact Hread|].
    split; [exact Hu|]. split; [exact Hin|exact Hout].
Qed.

(** The client of lrlb_dns/test-sub sees changes: when the server publishes a change of service (1, 1),
    for which the client's connection is booked, the push task of the connection's loop queues the new route, and when
    the client reads it it prints the new hosts and sends nothing. *)
Theorem sub_sees_change (key := make_key 1 1) loop l (wd : dworld) fl io x c ib (wc : tworld) :
  let rsp := route_response 1 1 (dns_route (w_user wd)) in
  RouteRsp_ok rsp -> rr_host rsp <> [] -> zlen (serialize rsp) <= MESSAGE_LENGTH_LIMIT ->
  booked raw key loop l wd fl io x c ib -> idle wc ->
  let run := run_task raw loop (set_subs (publish_lists [key] (dns_subs (w_user wd))) wd) in
  run = Stop (Exit 0) /\ mem_short (due_kb [key] l wd) (w_mem wd) \/
  exists wd' fl' io' out wc', run = Ret wd' /\ conns_repr wd' fl' io' /\ io' !! x = Some (ib, out) /\
    TcpClient.do_read (run_on_connection 1) deal_get_route_sub (Some (zlen out)) [inl out] wc = Ret (0, wc') /\
    cw_user wc' = cw_user wc ++ route_lines rsp /\ contents (TcpClient._obuf (cw_cli wc')) = [].
Proof.
  intros rsp Hok Hne Hlen Hbooked Hidle run.
  destruct (change_pushed raw raw_len 1 1 loop l wd fl io x c ib) as
    [[Hstop Hshort]|(wd' & fl' & io' & Hrun & Hw' & Hio')]; [done..|left; split; [exact Hstop|exact Hshort]|right].
  destruct (frame_read (run_on_connection 1) deal_get_route_sub sub_step wc rsp (cw_user wc ++ route_lines rsp, [])
    sub_contract Hidle Hlen) as (wc' & Hread & _ & Hu & _ & _ & _ & _ & Hout).
  { unfold sub_step. by rewrite parse_serialize by exact Hok. }
  exists wd', fl', io'; eexists _, wc'. split; [exact Hrun|]. split; [exact Hw'|]. split; [exact Hio'|]. split; [exact Hread|].
  split; [exact Hu|exact Hout].
Qed.

(** The report of lrlb_reporter/test is stored: connected, the client queues one report on a random
    module of the three, with three hosts; when the reporter reads it the statements for these hosts are
    added to what the database thread whose turn it is sends. *)
Theorem test_report_stored rnd rs this rep_hook (wr : rworld) fl c (wc : sworld) :
  0 <= rnd -> cw_user wc = rnd :: rs -> framable (test_report rnd) ->
  connected (cw_cli wc) = true -> cli_repr (cw_cli wc) [] [] -> b_capacity (TcpClient._obuf (cw_cli wc)) = CLIENT_BUF ->
  conn_repr this wr fl c [] [] -> rep_inv (w_user wr) ->
  route (router (w_srv wr)) ID_ReportStatusRequest = Some (on_report_status, None) ->
  exists wc1 bytes, run_connection_build connection_build wc = Ret wc1 /\ cli_repr (cw_cli wc1) [] bytes /\
    let run := TcpConn.do_read raw rep_hook run_rep_msg (Some (zlen bytes)) [inl bytes] this wr in
    (run = Stop (Exit 0) /\ mem_short 4096 (w_mem wr) \/
     exists wr' fl' c' ob', run = Ret wr' /\ conn_repr this wr' fl' c' [] ob' /\ rep_inv (w_user wr') /\
       forall k, todo k (w_user wr') = todo k (w_user wr) ++
         concat (store <$> dealt (thread_cnt (w_user wr)) (Z.of_nat k) (idx (w_user wr)) [test_report rnd])).
Proof.
  intros Hr Hu [Hne Hlen] Hcon Hrep Hco Hc Hinv Hro. set (body := serialize (test_report rnd)) in *.
  pose proof (zlen_nonneg body) as Hz. pose proof (zlen_frame_bytes ID_ReportStatusRequest body) as Hzf.
  set (w1 := CWorld (cw_cli wc) (cw_loop wc) rs). unfold MESSAGE_LENGTH_LIMIT, MESSAGE_HEAD_LEN in *.
  pose proof (client_send_ok body ID_ReportStatusRequest w1 [] [] Hrep) as Hs. cbv zeta in Hs.
  change (cw_cli w1) with (cw_cli wc) in Hs. rewrite Hcon, Hco, bool_decide_eq_true_2 in Hs
    by (change (zlen (@nil byte)) with 0; unfold MESSAGE_HEAD_LEN, CLIENT_BUF; lia). cbn [andb app] in Hs.
  destruct Hs as (c1 & Hrep1 & _ & _ & _ & _ & _ & Hsend).
  eexists _, (frame_bytes ID_ReportStatusRequest body).
  split; [unfold run_connection_build, report_status; rewrite Hu; fold w1 body; rewrite Hsend; reflexivity|]. split; [exact Hrep1|].
  apply (rep_read_receives raw raw_len rep_hook (frame_bytes ID_ReportStatusRequest body) 0 [] this wr fl c [] [] [test_report rnd] []);
    [done|done|done| | | |].
  - constructor; [by apply test_report_ok|constructor].
  - lia.
  - unfold m4M. change (zlen (@nil byte)) with 0. lia.
  - pose proof (deframe_all [(ID_ReportStatusRequest, body)]) as Hd. unfold stream in Hd. cbn in Hd. rewrite app_nil_r in Hd.
    apply Hd; (constructor; [|constructor]); [by split|exact Hne].
Qed.
End Together.

#[local] Existing Instance nobody.

(** ** Service (1, 2) of the server's table, and a report on module 2 *)
Module TestDemo.
Definition cli1 : TcpClient.tcp_client test_hook test_msg unit :=
  TcpClient.TcpClient true (io_buf_new CLIENT_BUF RunDemo.block) (io_buf_new CLIENT_BUF RunDemo.block) (Some on_connection) None
    (register_msg_router ID_GetRouteResponse deal_get_route None msg_router_new).2 4.
Definition test_cli : TcpClient.cworld (gmap Z Z) test_hook test_msg unit unit unit (list line) := CWorld cli1 event_loop_new [].
Lemma test_idle : idle test_cli.
Proof.
  split; [reflexivity| |reflexivity|reflexivity|reflexivity]. split; [apply SysDemo.buf_ok|]. split; [reflexivity|].
  split; [reflexivity|]. split; [apply SysDemo.buf_ok|]. split; reflexivity.
Qed.

Definition cli2 : TcpClient.tcp_client report_hook unit unit :=
  TcpClient.TcpClient true (io_buf_new CLIENT_BUF RunDemo.block) (io_buf_new CLIENT_BUF RunDemo.block) (Some connection_build) None
    msg_router_new 4.
Definition rep_cli : TcpClient.cworld (gmap Z Z) report_hook unit unit unit unit (list Z) := CWorld cli2 event_loop_new [4].
Lemma cli2_repr : cli_repr cli2 [] [].
Proof. split; [apply SysDemo.buf_ok|]. split; [reflexivity|]. split; [reflexivity|]. split; [apply SysDemo.buf_ok|]. split; reflexivity. Qed.
End TestDemo.
Import TestDemo.

Lemma test_polls_witness :
  exists wc1 req wd' out wc', run_on_connection 2 on_connection test_cli = Ret wc1 /\
    TcpConn.do_read zero_raw run_hook (run_msg zero_raw) (Some (zlen req)) [inl req] 1%positive SockDemo.world2 = Ret wd' /\
    TcpClient.do_read (run_on_connection 2) deal_get_route_again (Some (zlen out)) [inl out] test_cli = Ret (0, wc') /\
    cw_user wc' = [LInt "modid = %d" 1; LInt "cmdid = %d" 2; LInt "host_size = %d" 1; LInt "-->ip = %u" 167772161; LInt "-->port = %d" 80].
Proof.
  destruct (test_polls zero_raw zero_raw_len 1%positive SockDemo.world2 empty_free DnsDemo.conn0 ∅ test_cli)
    as (wc1 & req & H1 & _ & [[_ Hs]|(wd' & fl' & c' & out & wc' & H2 & _ & _ & H3 & H4 & _)]).
  - rewrite SysDemo.demo_response. split; [split; vm_compute; (reflexivity || discriminate)|].
    split; [split; vm_compute; (reflexivity || discriminate)|]. split; [|vm_compute; discriminate].
    constructor; [split; split; vm_compute; (reflexivity || discriminate)|constructor].
  - rewrite SysDemo.demo_response. split; [discriminate|]. split; vm_compute; discriminate.
  - apply test_idle.
  - apply SysDemo.dns_answers.
  - exfalso. vm_compute in Hs. congruence.
  - exists wc1, req, wd', out, wc'. split; [exact H1|]. split; [exact H2|]. split; [exact H3|].
    rewrite SysDemo.demo_response in H4. exact H4.
Defined.

Lemma test_report_stored_witness :
  exists wc1 bytes wr', run_connection_build connection_build rep_cli = Ret wc1 /\
    TcpConn.do_read zero_raw (fun _ _ w => Ret w) run_rep_msg (Some (zlen bytes)) [inl bytes] 1%positive RepDemo.rep_world = Ret wr' /\
    todo 0 (w_user wr') = store (test_report 4).
Proof.
  destruct (test_report_stored zero_raw zero_raw_len 4 [] 1%positive (fun _ _ w => Ret w) RepDemo.rep_world empty_free
    RepDemo.rep_conn rep_cli) as (wc1 & bytes & H1 & _ & [[_ Hs]|(wr' & fl' & c' & ob' & H2 & _ & _ & Ht)]).
  - lia.
  - reflexivity.
  - split; vm_compute; congruence.
  - reflexivity.
  - apply cli2_repr.
  - reflexivity.
  - apply RepDemo.rep_conn_repr.
  - apply RepDemo.rep_ok. lia.
  - reflexivity.
  - exfalso. vm_compute in Hs. congruence.
  - exists wc1, bytes, wr'. split; [exact H1|]. split; [exact H2|]. rewrite Ht. vm_compute. reflexivity.
Defined.
